(* ===== verification/_CoqProject ===== *)
-Q . S2P
Prelude.v
GoLib.v
Ext.v
Util.v
Types.v
Client.v
Wire.v
Schema.v
SchemaOk.v
Tenant.v
Keys.v
Session.v
PgTypes.v
PgTx.v
PgEntities.v
PgMembers.v
PgQueries.v
PgTags.v
PgCensus.v
PgOps.v
PgTests.v
Leaks.v
PgSpec.v
PgCensusSpec.v
Ddl.v
Migrations.v
Relational.v
Statements.v
Database.v
TestDb.v
TokenAPI.v
Registry.v
Metrics.v
Roster.v
Templates.v
Html.v
Static.v
Logo.v
Smtp.v
Mail.v
Manager.v
RpcApi.v
Interleave.v
Concurrent.v
UnitTests.v
TokenTests.v
RegistryTests.v
ManagerTests.v
Flow.v
EthClient.v
Signers.v
Configuration.v
Server.v
Ballots.v
Health.v
Startup.v
