(* ===== verification/Prelude.v ===== *)
(** * The Vocdoni manager backend

    The program keeps organisations ("entities"), their members and their
    censuses in a PostgreSQL database and serves three JSON-RPC APIs on them:
    the manager API (requests signed with the key of an entity), the registry
    API (a member registers its own key with a token) and the token API (an
    external service that shares a secret with an entity manages its tokens).
    It also sends e-mails to members, pays new entities from a faucet, and
    brings the schema of its database up to date when it starts.

    ** Files, and the code they model

    - GoLib: the functions of Go's standard library the code uses (strings,
      hexadecimal and decimal text, int32 and int64 wrap-around).
    - Ext: the class [Ext] of the pure third-party functions (uuid, go-dvote,
      go-ethereum, checkmail) and the class [Env] of the outside world of the
      database (clock, random values, failures of the driver). Nothing is
      assumed of them except where a theorem names [ExtLaws] or [no_faults].
    - Util: util/util.go. Types: types/*.go.
    - Schema, SchemaOk, Tenant: database/pgsql/migrations.go. The tables as the
      migrations leave them, the statements the program issues with the errors
      PostgreSQL gives, their integrity [db_ok], and the part [tenant e] of the
      tables that belongs to one entity: its rows and the voter rolls of its
      censuses. Keys: where the keys of members come from and how long they
      stay, as more invariants of the statements; what a statement may do to an
      entity is its [Permit].
    - Ddl, Migrations: the same file as data definition. Ddl has catalogs and
      what the statements of a migration do to them; Migrations has the seven
      migrations in both directions, [Migrator], the wrappers of sql-migrate
      in pgsql.go, and the class [SqlMigrate] of that library with its laws.
    - Relational, Statements: the rows of Schema as rows of a catalog, and the
      columns every statement of pgsql.go names; they tie Schema and the
      methods to the catalog the migrations build.
    - Session: the connection (sqlx). A [World] is the committed tables, the
      number of driver calls so far, the transactions begun and not ended and
      the sequence of tags; each driver call may fail as [Env] says.
    - PgTypes: database/pgsql/types.go. PgTx, PgEntities, PgMembers, PgQueries,
      PgTags, PgCensus: database/pgsql/pgsql.go, one definition per method,
      every driver call and error branch included.
    - PgOps: the methods as one type [Op], the worlds sequences of them reach.
      Leaks: the transactions they leave open. PgSpec: what methods on lists of
      members, tags and pages do. PgCensusSpec: what ExpandCensusMembers does.
    - PgTests: test/testpgsql/pgsql_test.go, replayed on these methods.
    - Database: database/database.go, as the class [Database] the handlers are
      written against, its laws [DatabaseInv], its implementation [pgsql], and
      the class [Host] of the other services a handler calls. TestDb: its
      second implementation, the mock of database/testdb/testdb.go.
    - TokenAPI, Registry, Manager: the handlers and method tables of
      tokenapi/, registry/ and manager/. Mail: the goroutines, channels and
      WaitGroup of the two e-mail handlers, as a step relation.
    - Roster: the specification of the registry and token APIs, a machine on
      the tokens of an entity (absent, free, bound to a key). Metrics: the
      counters of registry/metrics.go, which requests increment which.
    - Templates, Html: the parts of Go's text/template and html/template the
      mails use: lexer, parser, execution; and the contexts of HTML, their
      transitions and the escapers chosen for them. Static, Logo:
      smtpclient/static.go, its texts, its pages and its picture. Smtp:
      smtpclient/smtp.go, which composes and sends the mails.
    - RpcApi: rpcapi/rpcapi.go and the assembly of the three APIs. Health:
      rpcapi/healthInfo.go, in binary64 arithmetic.
    - Interleave: requests as threads. A handler runs on a [Replay], the states
      its calls found so far, and stops at the next call; a schedule is a list
      of thread numbers, each step one call on the shared state. [replays]
      relates a handler to its thread, [does] its calls to a ghost state.
      Concurrent: the three APIs as threads.
    - UnitTests: manager/manager_test.go and registry/registry_test.go, replayed
      on the APIs of RpcApi with the mock of TestDb. TokenTests, RegistryTests,
      ManagerTests: the integration tests of test/testtoken, test/testregistry
      and test/testmanager, replayed on the APIs with pgsql.go's methods.
    - Client, Wire: cmd/managertest/managertest.go and cmd/testclient/
      testclient.go, the commands that play an organisation and its members;
      Wire has the envelopes they send and what they check of an answer. Flow:
      the first one against the APIs and the database.
    - EthClient: ethclient/ethclient.go, the faucet, over the class [Node].
      Signers: its requests and the goroutines that wait for transactions, in
      every interleaving, as a step relation.
    - Server: what manager/api.go gives the handlers of Manager (the database,
      the mail client, the faucet) as one state, and the handlers on it.
      Ballots: the voting e-mails on that server.
    - Configuration: config/*.go, the flags, their bindings, and the order of
      the sources of a setting. Startup: cmd/dvotemanager/dvotemanager.go, from
      the command line to the API that is served, and the connection of
      pgsql.go.

    A method is a computation [M S A]: from a state to a result ([Ok], [Err]
    with the Go error, or [Panic]) and a state. Handlers are polymorphic in the
    state, so what is proved of them from [DatabaseInv] and [HostInv] holds for
    every database; [pgsql] discharges these laws with the world of Session.

    ** What the theorems show

    - Concurrency: for every interleaving of any messages to the three APIs,
      and any failures of the driver, the data of an entity no message concerns
      stays as it was, its voter rolls and their private keys included (C1), a
      member only gets a key that signed a registration or was imported (C3),
      and keeps it until a message deletes the member or claims its token with
      another key (C4).
    - Registration: the registry and the token API refine the machine of Roster
      (C2), and a free token can be used (C31). When any messages are served one
      after the other a registered key stays until its member is deleted (C13);
      of concurrent requests for one token one that was accepted is stored, but
      two can be told that they were accepted (C5).
    - The tables: every unique and foreign key holds in every reachable world
      (C6), methods that use a transaction are all or nothing wherever the
      driver fails (C8), a batched insertion equals one statement (C22), and
      which methods can leave a transaction open, and how many (C15).
    - The schema: the catalog the migrations build declares exactly the
      constraints of Schema (C7), and every statement fits it (C27); the
      migrations can be undone but for the fifth (C30), and what Migrator did
      (C26).
    - The APIs: the key every manager method needs (C28), the methods that
      write nothing (C29), the options of a list never reach ORDER BY as text
      (C36).
    - The components composed: voting e-mails reach the voters of the census
      and nobody else (C9), the faucet pays who asks and nobody else (C10), a
      new entity gets all it needs from one request (C18), the registration
      client registers every member, on the registry API and the database, and
      changes nothing else (C19).
    - The token API: authentication guards every effect (C14), the window and
      its int32 bounds (C38).
    - The faucet: a signer works for one goroutine at a time, and a request
      that ends has paid once or not at all (C11); nonces never repeat (C12);
      the amounts and timeouts New computes overflow (C40). What is counted as
      paid is what the node acknowledged.
    - E-mail: every interleaving ends with the results or in a panic (C25);
      without refusals it gives all results (C24); with one refusal it always
      ends in a panic (C23). A mail has the link of its voter, wherever it shows
      it (C21), a link tells what it is for (C39), and no value can change the
      markup of a page (C20).
    - Methods on pages, members, tags and censuses: C32 to C35, C37; who is in a
      census, and with which keys: C17.
    - Start-up: what is served, and on which schema (C16).

    ** Bounds and fuel

    [bulk_loop] runs with one unit of fuel per row, more than it has batches
    (C22 shows it never runs out). [Mail.drive] runs with the [measure] of the
    group, which every step decreases (C25). The lexer and the parser of
    Templates and the scanner of Html run on the constant templates with fuel
    from their length; Static computes the parsed pages, which shows that it is
    enough. The rounds of the faucet and the polls of [waitForTx] are fuel whose
    end is a result of its own ([None], the call is still waiting); Signers has
    no bound on them. [explore] of Interleave takes one unit of fuel per step of
    a schedule and answers false when it runs out, so what it proves of all
    schedules it proves with enough. [int] is 64 bits and is left unbounded; int32 and int64
    conversions wrap where the code converts.

    ** Not modelled

    The HTTP router, the JSON codec and the check of signatures (a call is the
    decoded message and the recovered key); viper, which decodes the
    configuration, and what it does with values that do not have the kind of
    their field (class [Viper], whose laws are its documented order of
    precedence); the pool of connections to the mail server (a parameter of
    Smtp); how /proc is read (Health takes the readings); Prometheus (the
    counters of the registry are labels on record in Metrics; those of rpcapi
    are nil); the help text of the commands, and the printing of
    an answer by testclient; the tests of ethclient and smtpclient, which only
    try the services they need.
    In the catalogs of Ddl the names of constraints are per table, a default
    is not checked against the extensions it needs, and the actions of one
    ALTER TABLE run in the order they are written. Requests interleave between
    the methods of the database and the calls of the services they make, which
    are one step each, although methods such as AddTagToMembers and
    ExpandCensusMembers issue several statements: interleavings inside a method,
    and what PostgreSQL does with two transactions that overlap, are not
    modelled. Nor is a goroutine that outlives its request: the callback of
    validateToken is a call of its handler whose error is dropped, and the mails
    of the two e-mail handlers are handed over before their goroutines run,
    which then report in every order. The order of rows that tie in an ORDER BY
    is not fixed: it is a parameter of each query ([env_plan]). The generation
    of keys may fail ([env_key_fault]), that of a random uuid may not. The error
    registry.go formats twice (line 52) is not read again for percent verbs.
    The nonces of a node are idealised ([nonce_laws]). Log lines of the server
    are left out, as is the SQL text some errors quote.

    This file has the outcomes and the monad, its notations, the predicates on
    computations with the tactics that prove them, and lemmas on lists. *)
From stdpp Require Export base tactics gmap strings list sorting pretty.
From Stdlib Require Export Ascii ZArith Lia.
From Stdlib Require String.

(* Go strings and byte slices are byte sequences: both are [string] here. *)
Abbreviation bytes := string (only parsing).
Abbreviation uuid := N (only parsing).
Abbreviation strlen := Stdlib.Strings.String.length.

Declare Scope go_scope.
Delimit Scope go_scope with go.
Open Scope stdpp_scope.

(** ** Go errors, outcomes and the state monad *)

Inductive gerror :=
| ErrNoRows
| ErrTxDone
| PgUnique (constraint : string)
| PgForeignKey (table constraint : string)
| PgNotNull (column : string)
| PgOther (msg : string)
| Errorf (msg : string)
| Wrapf (msg : string) (wrapped : gerror).

#[export] Instance gerror_eq_dec : EqDecision gerror.
Proof. solve_decision. Defined.

Definition dquote : string := String (ascii_of_nat 34) EmptyString.
Definition quoted (s : string) : string := dquote +:+ s +:+ dquote.

(* err.Error() *)
Fixpoint error_string (e : gerror) : string :=
  match e with
  | ErrNoRows => "sql: no rows in result set"
  | ErrTxDone => "sql: transaction has already been committed or rolled back"
  | PgUnique c =>
      "ERROR: duplicate key value violates unique constraint " +:+ quoted c
        +:+ " (SQLSTATE 23505)"
  | PgForeignKey t c =>
      "ERROR: insert or update on table " +:+ quoted t
        +:+ " violates foreign key constraint " +:+ quoted c
        +:+ " (SQLSTATE 23503)"
  | PgNotNull c =>
      "ERROR: null value in column " +:+ quoted c
        +:+ " violates not-null constraint (SQLSTATE 23502)"
  | PgOther m => m
  | Errorf m => m
  | Wrapf m e => m +:+ error_string e
  end.

(* errors.Unwrap *)
Definition unwrap (e : gerror) : option gerror :=
  match e with Wrapf _ e => Some e | _ => None end.

(* errors.As(err, &pgx.PgError): the first PgError on the chain; the
   constraint name is empty for errors that are not constraint violations. *)
Fixpoint as_pg_error (e : gerror) : option string :=
  match e with
  | PgUnique c | PgForeignKey _ c => Some c
  | PgNotNull _ | PgOther _ => Some ""
  | Wrapf _ e => as_pg_error e
  | _ => None
  end.

Inductive outcome (A : Type) :=
| Ok (a : A)
| Err (e : gerror)
| Panic (msg : string).
Arguments Ok {A} a.
Arguments Err {A} e.
Arguments Panic {A} msg.

(* A computation that reads and writes a state and may fail or panic. *)
Definition M (S A : Type) : Type := S -> outcome A * S.

Section monad.
Context {S : Type}.

Definition retM {A} (a : A) : M S A := fun s => (Ok a, s).
Definition failM {A} (e : gerror) : M S A := fun s => (Err e, s).
Definition panicM {A} (msg : string) : M S A := fun s => (Panic msg, s).
Definition bindM {A B} (m : M S A) (k : A -> M S B) : M S B :=
  fun s => match m s with
           | (Ok a, s') => k a s'
           | (Err e, s') => (Err e, s')
           | (Panic p, s') => (Panic p, s')
           end.
(* [v, err := m]: the error as a value, so that the caller's
   [if err != nil] is a match. A panic is not caught. *)
Definition tryM {A} (m : M S A) : M S (gerror + A) :=
  fun s => match m s with
           | (Ok a, s') => (Ok (inr a), s')
           | (Err e, s') => (Ok (inl e), s')
           | (Panic p, s') => (Panic p, s')
           end.
(* [if err != nil { return ..., f(err) }] *)
Definition onErr {A} (m : M S A) (f : gerror -> gerror) : M S A :=
  fun s => match m s with
           | (Ok a, s') => (Ok a, s')
           | (Err e, s') => (Err (f e), s')
           | (Panic p, s') => (Panic p, s')
           end.
Definition liftE {A} (r : gerror + A) : M S A :=
  match r with inl e => failM e | inr a => retM a end.
Fixpoint mapM_ {A B} (f : A -> M S B) (l : list A) : M S (list B) :=
  match l with
  | [] => retM []
  | x :: l => bindM (f x) (fun y => bindM (mapM_ f l) (fun ys => retM (y :: ys)))
  end.
End monad.

Notation "'let!' x := c 'in' k" := (bindM c (fun x => k))
  (at level 10, x pattern, c at level 99, k at level 200) : go_scope.
Notation "c ;;; k" := (bindM c (fun _ => k))
  (at level 100, right associativity) : go_scope.
(* [if b { return ..., e }] *)
Notation "'fail_if!' b 'with' e 'in' k" := (if b then failM e else k)
  (at level 10, b at level 99, e at level 99, k at level 200) : go_scope.
Open Scope go_scope.

(** ** Predicates on computations *)

(* The state never changes. *)
Definition readonly {S A} (m : M S A) : Prop := forall s, (m s).2 = s.
(* A projection of the state never changes. *)
Definition keeps {S T A} (f : S -> T) (m : M S A) : Prop :=
  forall s, f (m s).2 = f s.
(* A failing run leaves the projection of the state as it was. *)
Definition atomic {S T A} (f : S -> T) (m : M S A) : Prop :=
  forall s, match (m s).1 with Ok _ => True | _ => f (m s).2 = f s end.
(* [m] preserves the invariant [I] and, when it returns, its value is in [R]. *)
Definition preserves {S A} (I : S -> Prop) (R : A -> Prop) (m : M S A) : Prop :=
  forall s, I s -> I (m s).2 /\ forall a, (m s).1 = Ok a -> R a.
(* No run panics. *)
Definition nopanic {S A} (m : M S A) : Prop := forall s p, (m s).1 <> Panic p.

Definition returns {S A} (m : M S A) : Prop := forall s, exists a, (m s).1 = Ok a.

Create HintDb go discriminated.

Section monad_lemmas.
Context {S T : Type} (f : S -> T).
Context {A B : Type}.
Implicit Types (m : M S A) (k : A -> M S B).

Lemma readonly_keeps m : readonly m -> keeps f m.
Proof. intros H s. by rewrite H. Qed.

Lemma readonly_bind m k :
  readonly m -> (forall a, readonly (k a)) -> readonly (bindM m k).
Proof.
  intros Hm Hk s. unfold bindM. specialize (Hm s).
  destruct (m s) as [[] s']; simpl in *; subst; auto. apply Hk.
Qed.

Lemma readonly_onErr m g : readonly m -> readonly (onErr m g).
Proof. intros H s. specialize (H s). unfold onErr. by destruct (m s) as [[] ?]. Qed.

Lemma readonly_tryM m : readonly m -> readonly (tryM m).
Proof. intros H s. specialize (H s). unfold tryM. by destruct (m s) as [[] ?]. Qed.

Lemma keeps_bind m k :
  keeps f m -> (forall a, keeps f (k a)) -> keeps f (bindM m k).
Proof.
  intros Hm Hk s. unfold bindM. specialize (Hm s).
  destruct (m s) as [[] s']; simpl in *; auto. by rewrite Hk.
Qed.

Lemma keeps_onErr m g : keeps f m -> keeps f (onErr m g).
Proof. intros H s. specialize (H s). unfold onErr. by destruct (m s) as [[] ?]. Qed.

Lemma keeps_tryM m : keeps f m -> keeps f (tryM m).
Proof. intros H s. specialize (H s). unfold tryM. by destruct (m s) as [[] ?]. Qed.

Lemma keeps_atomic m : keeps f m -> atomic f m.
Proof. intros H s. specialize (H s). by destruct (m s) as [[] ?]. Qed.

Lemma atomic_bind m k :
  keeps f m -> (forall a, atomic f (k a)) -> atomic f (bindM m k).
Proof.
  intros Hm Hk s. unfold bindM. specialize (Hm s).
  destruct (m s) as [[a| |] s']; simpl in *; auto.
  specialize (Hk a s'). destruct (k a s') as [[] ?]; simpl in *; try done; congruence.
Qed.

Lemma atomic_bind_returns m k :
  atomic f m -> (forall a, returns (k a)) -> atomic f (bindM m k).
Proof.
  intros Hm Hk s. unfold bindM. specialize (Hm s).
  destruct (m s) as [[a| |] s']; simpl in *; auto.
  destruct (Hk a s') as [b ->]. done.
Qed.

Lemma atomic_try_bind m (k : gerror + A -> M S B) :
  atomic f m -> (forall e, keeps f (k (inl e))) ->
  (forall a, returns (k (inr a))) -> atomic f (bindM (tryM m) k).
Proof.
  intros Hm He Hk s. unfold bindM, tryM. specialize (Hm s).
  destruct (m s) as [[a|e|p] s']; simpl in *; auto.
  - destruct (Hk a s') as [b ->]. done.
  - specialize (He e s'). destruct (k (inl e) s') as [[] ?]; simpl in *; try done; congruence.
Qed.

Lemma atomic_onErr m g : atomic f m -> atomic f (onErr m g).
Proof. intros H s. specialize (H s). unfold onErr. by destruct (m s) as [[] ?]. Qed.
End monad_lemmas.

(* what a successful composition consists of *)
Lemma onErr_ok {T A} (m : M T A) f s a s' : onErr m f s = (Ok a, s') -> m s = (Ok a, s').
Proof. unfold onErr. by destruct (m s) as [[] ?]. Qed.
Lemma bind_ok {T A B} (m : M T A) (k : A -> M T B) s b s' :
  bindM m k s = (Ok b, s') -> exists a s1, m s = (Ok a, s1) /\ k a s1 = (Ok b, s').
Proof. unfold bindM. destruct (m s) as [[a|e|p] s1]; [eauto|done|done]. Qed.

Section monad_values.
Context {S T : Type} (f : S -> T) {A : Type}.

Lemma readonly_ret (a : A) : readonly (retM (S:=S) a).
Proof. done. Qed.
Lemma readonly_fail e : readonly (failM (S:=S) (A:=A) e).
Proof. done. Qed.
Lemma readonly_panic p : readonly (panicM (S:=S) (A:=A) p).
Proof. done. Qed.
Lemma readonly_lift (r : gerror + A) : readonly (liftE (S:=S) r).
Proof. by destruct r. Qed.
Lemma keeps_ret (a : A) : keeps f (retM a).
Proof. done. Qed.
Lemma keeps_fail e : keeps f (failM (A:=A) e).
Proof. done. Qed.
Lemma keeps_panic p : keeps f (panicM (A:=A) p).
Proof. done. Qed.
Lemma keeps_lift (r : gerror + A) : keeps f (liftE r).
Proof. by destruct r. Qed.
Lemma atomic_ret (a : A) : atomic f (retM a).
Proof. done. Qed.
Lemma atomic_fail e : atomic f (failM (A:=A) e).
Proof. done. Qed.
Lemma returns_ret (a : A) : returns (retM (S:=S) a).
Proof. intros s. by exists a. Qed.
End monad_values.

#[export] Hint Resolve readonly_ret readonly_fail readonly_panic readonly_lift
  readonly_onErr readonly_tryM keeps_ret keeps_fail keeps_panic keeps_lift
  keeps_onErr keeps_tryM atomic_ret atomic_fail atomic_onErr returns_ret : go.

(* Walks through a computation: binds, conditionals and matches. *)
Ltac go_case :=
  match goal with
  | |- context [if ?b then _ else _] => destruct b eqn:?
  | |- context [match ?x with _ => _ end] => destruct x eqn:?
  end.
Ltac go_readonly :=
  intros; repeat first
    [ solve [eauto with go] | apply readonly_bind; [|intros]
    | apply readonly_onErr | apply readonly_tryM | progress go_case ].
Ltac go_keeps :=
  intros; repeat first
    [ solve [eauto with go] | apply keeps_bind; [|intros]
    | apply keeps_onErr | apply keeps_tryM | progress go_case ].

Section monad_map.
Context {S A B : Type}.

Lemma readonly_mapM_ (g : A -> M S B) l :
  (forall x, readonly (g x)) -> readonly (mapM_ g l).
Proof. intros H. induction l; simpl; go_readonly. Qed.

Lemma keeps_mapM_ {T} (f : S -> T) (g : A -> M S B) l :
  (forall x, keeps f (g x)) -> keeps f (mapM_ g l).
Proof. intros H. induction l; simpl; go_keeps. Qed.
End monad_map.
#[export] Hint Resolve readonly_mapM_ keeps_mapM_ : go.

(** The invariant calculus: [preserves I R m]. *)
Section preserves.
Context {S : Type} (I : S -> Prop).

Lemma preserves_bind {A B} (R : A -> Prop) (Q : B -> Prop) (m : M S A) k :
  preserves I R m -> (forall a, R a -> preserves I Q (k a)) ->
  preserves I Q (bindM m k).
Proof.
  intros Hm Hk s Hs. unfold bindM. destruct (Hm s Hs) as [H1 H2].
  destruct (m s) as [[a|e|p] s']; simpl in *.
  - apply (Hk a); auto.
  - split; [done|congruence].
  - split; [done|congruence].
Qed.

Lemma preserves_ret {A} (R : A -> Prop) a : R a -> preserves I R (retM a).
Proof. intros H s Hs. split; [done|]. by intros ? [= <-]. Qed.
Lemma preserves_fail {A} (R : A -> Prop) e : preserves I R (failM (A:=A) e).
Proof. intros s Hs. by split. Qed.
Lemma preserves_panic {A} (R : A -> Prop) e : preserves I R (panicM (A:=A) e).
Proof. intros s Hs. by split. Qed.

Lemma preserves_onErr {A} (R : A -> Prop) (m : M S A) g :
  preserves I R m -> preserves I R (onErr m g).
Proof.
  intros H s Hs. destruct (H s Hs) as [H1 H2]. unfold onErr.
  destruct (m s) as [[] ?]; simpl in *; split; auto; congruence.
Qed.

Lemma preserves_tryM {A} (R : A -> Prop) (m : M S A) :
  preserves I R m ->
  preserves I (fun r => match r with inl _ => True | inr a => R a end) (tryM m).
Proof.
  intros H s Hs. destruct (H s Hs) as [H1 H2]. unfold tryM.
  destruct (m s) as [[] ?]; simpl in *; split; auto; intros ? [= <-]; auto.
Qed.

Lemma preserves_weaken {A} (R R' : A -> Prop) (m : M S A) :
  preserves I R m -> (forall a, R a -> R' a) -> preserves I R' m.
Proof. intros H HR s Hs. destruct (H s Hs). split; auto. Qed.

Lemma readonly_preserves {A} (m : M S A) : readonly m -> preserves I (fun _ => True) m.
Proof. intros H s Hs. rewrite H. auto. Qed.

Lemma preserves_mapM_ {A B} (R : B -> Prop) (f : A -> M S B) l :
  (forall x, preserves I R (f x)) -> preserves I (Forall R) (mapM_ f l).
Proof.
  intros Hf. induction l as [|x l IH]; simpl; [by apply preserves_ret|].
  eapply preserves_bind; [apply Hf|]. intros y Hy. eapply preserves_bind; [exact IH|].
  intros ys Hys. by apply preserves_ret, Forall_cons.
Qed.
End preserves.

(** Runs that never panic. *)
Section nopanic.
Context {S : Type}.

Lemma nopanic_bind {A B} (m : M S A) (k : A -> M S B) :
  nopanic m -> (forall a, nopanic (k a)) -> nopanic (bindM m k).
Proof.
  intros Hm Hk s p. unfold bindM. specialize (Hm s).
  destruct (m s) as [[a|e|q] s']; simpl in *; [apply Hk|done|]. intros _. by apply (Hm q).
Qed.
Lemma nopanic_onErr {A} (m : M S A) g : nopanic m -> nopanic (onErr m g).
Proof.
  intros H s p. specialize (H s). unfold onErr. destruct (m s) as [[a|e|q] s']; [done..|].
  apply H.
Qed.
Lemma nopanic_tryM {A} (m : M S A) : nopanic m -> nopanic (tryM m).
Proof.
  intros H s p. specialize (H s). unfold tryM. destruct (m s) as [[a|e|q] s']; [done..|].
  intros _. by apply (H q).
Qed.
Lemma nopanic_ret {A} (a : A) : nopanic (retM (S:=S) a).
Proof. done. Qed.
Lemma nopanic_fail {A} e : nopanic (failM (S:=S) (A:=A) e).
Proof. done. Qed.
Lemma nopanic_mapM_ {A B} (f : A -> M S B) l :
  (forall x, nopanic (f x)) -> nopanic (mapM_ f l).
Proof.
  intros H. induction l; simpl; [apply nopanic_ret|].
  apply nopanic_bind; [done|intros]. apply nopanic_bind; [done|intros]. apply nopanic_ret.
Qed.
End nopanic.
#[export] Hint Resolve nopanic_onErr nopanic_tryM nopanic_ret nopanic_fail nopanic_mapM_ : go.
Ltac go_nopanic :=
  intros; repeat first
    [ solve [eauto with go] | apply nopanic_bind; [|intros]
    | apply nopanic_onErr | apply nopanic_tryM | apply nopanic_mapM_; intros
    | progress go_case ].

(** Runs that never return a value. *)
Definition never {S A} (m : M S A) : Prop := forall s a, (m s).1 <> Ok a.
Lemma never_bind {S A B} (m : M S A) (k : A -> M S B) : never m -> never (bindM m k).
Proof. intros Hm s b. unfold bindM. specialize (Hm s). destruct (m s) as [[a| |] ?]; try done. by destruct (Hm a). Qed.
Lemma never_fail {S A} e : never (failM (S:=S) (A:=A) e).
Proof. done. Qed.

(** Runs that always answer. *)
Lemma returns_bind {S A B} (m : M S A) (k : A -> M S B) :
  returns m -> (forall a, returns (k a)) -> returns (bindM m k).
Proof.
  intros Hm Hk s. unfold bindM. destruct (Hm s) as [a Ha]. destruct (m s). simpl in Ha. subst.
  apply Hk.
Qed.
Lemma returns_tryM {S A} (m : M S A) : nopanic m -> returns (tryM m).
Proof.
  intros Hm s. specialize (Hm s). unfold tryM. destruct (m s) as [[a|e|p] s']; simpl; eauto.
  by destruct (Hm p).
Qed.

(** ** Lists *)
Lemma elem_of_slice {A} (x : A) n m l : x ∈ take n (drop m l) -> x ∈ l.
Proof.
  intros Hx. rewrite <- (take_drop m l), <- (take_drop n (drop m l)), !elem_of_app. auto.
Qed.

