(* ===== verification/GoLib.v ===== *)
(** * The parts of Go's standard library the program uses

    Byte strings with their functions ([strings], [encoding/hex]), decimal
    formatting and the wrap-around of [int32] conversions. Go's [len] is
    [strlen]; [fmt]'s [%x] of a byte slice is [EncodeToString]. *)
From S2P Require Import Prelude.

(** ** Machine integers *)

Definition int32_min : Z := -2147483648.
Definition int32_max : Z := 2147483647.
(* int32(z): two's complement wrap-around *)
Definition int32 (z : Z) : Z := (z + 2147483648) mod 4294967296 - 2147483648.
Definition in_int32 (z : Z) : bool := (int32_min <=? z)%Z && (z <=? int32_max)%Z.

Lemma int32_range z : (int32_min <= int32 z <= int32_max)%Z.
Proof.
  unfold int32, int32_min, int32_max.
  pose proof (Z.mod_pos_bound (z + 2147483648) 4294967296). lia.
Qed.

Lemma int32_id z : (int32_min <= z <= int32_max)%Z -> int32 z = z.
Proof. unfold int32, int32_min, int32_max. intros. rewrite Z.mod_small; lia. Qed.

Lemma int32_above z :
  (int32_max < z <= int32_max + 4294967296)%Z -> int32 z = (z - 4294967296)%Z.
Proof.
  unfold int32, int32_min, int32_max. intros.
  rewrite <- (Z.mod_unique_pos (z + 2147483648) 4294967296 1 (z + 2147483648 - 4294967296)); lia.
Qed.

Lemma int32_below z :
  (int32_min - 4294967296 <= z < int32_min)%Z -> int32 z = (z + 4294967296)%Z.
Proof.
  unfold int32, int32_min, int32_max. intros.
  rewrite <- (Z.mod_unique_pos (z + 2147483648) 4294967296 (-1) (z + 2147483648 + 4294967296)); lia.
Qed.

(* fmt.Sprintf("%d", z) *)
Definition decimal (z : Z) : string := pretty z.

(** ** Package strings *)

Definition len (s : string) : Z := Z.of_nat (strlen s).

(* strings.HasPrefix(s, p) *)
Fixpoint HasPrefix (s p : string) : bool :=
  match p, s with
  | EmptyString, _ => true
  | String a p', String b s' => bool_decide (a = b) && HasPrefix s' p'
  | _, _ => false
  end.

(* strings.Contains(s, sub) *)
Fixpoint Contains (s sub : string) : bool :=
  HasPrefix s sub ||
  match s with
  | EmptyString => false
  | String _ s' => Contains s' sub
  end.

(* strings.Split(s, sep) for a one-byte separator: always at least one part *)
Fixpoint Split (s : string) (sep : ascii) : list string :=
  match s with
  | EmptyString => [EmptyString]
  | String a s' =>
      if bool_decide (a = sep) then EmptyString :: Split s' sep
      else match Split s' sep with
           | [] => [String a EmptyString]
           | p :: ps => String a p :: ps
           end
  end.

(* strings.ReplaceAll(s, old, new) for a non-empty [old] *)
Fixpoint replace_go (old new : string) (skip : nat) (s : string) : string :=
  match s with
  | EmptyString => EmptyString
  | String a s' =>
      match skip with
      | S n => replace_go old new n s'
      | O => if HasPrefix s old
             then new +:+ replace_go old new (strlen old - 1) s'
             else String a (replace_go old new 0 s')
      end
  end.
Definition ReplaceAll (s old new : string) : string := replace_go old new 0 s.

Definition is_between (lo hi : nat) (a : ascii) : bool :=
  (lo <=? nat_of_ascii a) && (nat_of_ascii a <=? hi).
Definition is_lower (a : ascii) : bool := is_between 97 122 a.
Definition is_upper (a : ascii) : bool := is_between 65 90 a.
Definition is_digit (a : ascii) : bool := is_between 48 57 a.
Definition to_upper (a : ascii) : ascii :=
  if is_lower a then ascii_of_nat (nat_of_ascii a - 32) else a.

(* strings.Title separates words at every ASCII byte that is not a letter, a
   digit or an underscore. *)
Definition is_separator (a : ascii) : bool :=
  (nat_of_ascii a <? 128) &&
  negb (is_lower a || is_upper a || is_digit a || (nat_of_ascii a =? 95)).

(* strings.Title: the first letter of each word in title case. Two non-ASCII
   letters have an ASCII title case: U+0131 (C4 B1) becomes I and U+017F
   (C5 BF) becomes S; every other non-ASCII rune stays non-ASCII, and is
   copied. *)
Fixpoint title_go (start : bool) (s : string) : string :=
  match s with
  | EmptyString => EmptyString
  | String a s' =>
      if start then
        match s' with
        | String b s'' =>
            if (nat_of_ascii a =? 196) && (nat_of_ascii b =? 177)
            then String "I" (title_go false s'')
            else if (nat_of_ascii a =? 197) && (nat_of_ascii b =? 191)
            then String "S" (title_go false s'')
            else String (to_upper a) (title_go (is_separator a) s')
        | EmptyString => String (to_upper a) EmptyString
        end
      else String a (title_go (is_separator a) s')
  end.
Definition Title (s : string) : string := title_go true s.

(** ** Package encoding/hex *)

Definition hex_digit (n : nat) : ascii :=
  if n <? 10 then ascii_of_nat (48 + n) else ascii_of_nat (87 + n).

Definition hex_value (a : ascii) : option nat :=
  if is_digit a then Some (nat_of_ascii a - 48)
  else if is_between 97 102 a then Some (nat_of_ascii a - 87)
  else if is_between 65 70 a then Some (nat_of_ascii a - 55)
  else None.

Fixpoint EncodeToString (s : bytes) : string :=
  match s with
  | EmptyString => EmptyString
  | String a s' =>
      String (hex_digit (nat_of_ascii a / 16))
        (String (hex_digit (nat_of_ascii a mod 16)) (EncodeToString s'))
  end.

Fixpoint DecodeString (s : string) : gerror + bytes :=
  match s with
  | EmptyString => inr EmptyString
  | String a EmptyString =>
      match hex_value a with
      | None => inl (Errorf "encoding/hex: invalid byte")
      | Some _ => inl (Errorf "encoding/hex: odd length hex string")
      end
  | String a (String b s') =>
      match hex_value a, hex_value b with
      | Some x, Some y =>
          match DecodeString s' with
          | inr t => inr (String (ascii_of_nat (16 * x + y)) t)
          | inl e => inl e
          end
      | _, _ => inl (Errorf "encoding/hex: invalid byte")
      end
  end.

Lemma hex_value_digit n : n < 16 -> hex_value (hex_digit n) = Some n.
Proof. intros. do 16 (destruct n as [|n]; [reflexivity|]). lia. Qed.

Lemma DecodeString_EncodeToString (s : bytes) : DecodeString (EncodeToString s) = inr s.
Proof.
  induction s as [|a s IH]; [done|]. cbn [EncodeToString DecodeString].
  pose proof (nat_ascii_bounded a).
  rewrite !hex_value_digit, IH; [|apply Nat.mod_upper_bound; lia|].
  - rewrite <- Nat.div_mod_eq, ascii_nat_embedding. done.
  - apply Nat.Div0.div_lt_upper_bound. lia.
Qed.

#[export] Instance EncodeToString_inj : Inj (=) (=) EncodeToString.
Proof.
  intros s t H. apply (f_equal DecodeString) in H.
  rewrite !DecodeString_EncodeToString in H. congruence.
Qed.

Lemma HasPrefix_app p s : HasPrefix (p +:+ s) p = true.
Proof.
  induction p as [|a p IH]; [by destruct s|]. simpl.
  by rewrite bool_decide_eq_true_2, IH.
Qed.

Lemma Contains_skip s t sub : Contains t sub = true -> Contains (s +:+ t) sub = true.
Proof.
  intros Ht. induction s as [|a s IH]; [exact Ht|].
  change (Contains (String a (s +:+ t)) sub = true).
  cbn [Contains]. rewrite IH. apply orb_true_r.
Qed.

(* no separator inside a string: Split gives it back *)
Fixpoint free_of (sep : ascii) (s : string) : bool :=
  match s with
  | EmptyString => true
  | String a s' => negb (bool_decide (a = sep)) && free_of sep s'
  end.

Lemma Split_free s sep : free_of sep s = true -> Split s sep = [s].
Proof.
  induction s as [|a s IH]; simpl; [done|]. intros [H1 H2]%andb_prop.
  rewrite negb_true_iff in H1. by rewrite H1, IH.
Qed.

Lemma Split_app s t sep :
  free_of sep s = true -> Split (s +:+ String sep t) sep = s :: Split t sep.
Proof.
  induction s as [|a s IH]; simpl.
  - intros _. by rewrite bool_decide_eq_true_2.
  - intros [H1 H2]%andb_prop. rewrite negb_true_iff in H1. by rewrite H1, IH.
Qed.

Lemma free_of_hex s : free_of "/" (EncodeToString s) = true.
Proof.
  induction s as [|a s IH]; [done|]. cbn [EncodeToString free_of].
  pose proof (nat_ascii_bounded a). rewrite IH.
  assert (Hd : forall n, n < 16 -> negb (bool_decide (hex_digit n = "/"%char)) = true).
  { intros n Hn. do 16 (destruct n as [|n]; [reflexivity|]). lia. }
  rewrite !Hd; [done|apply Nat.mod_upper_bound; lia|].
  apply Nat.Div0.div_lt_upper_bound. lia.
Qed.

Create Rewrite HintDb golib.
#[export] Hint Rewrite DecodeString_EncodeToString HasPrefix_app : golib.

(* the low 64 bits, as a signed integer: big.Int.Int64 *)
Definition int64 (z : Z) : Z := ((z + 2 ^ 63) mod 2 ^ 64 - 2 ^ 63)%Z.

(* a duration in nanoseconds multiplied by time.Second again *)
Lemma int64_times_second t : (0 < t < 2 ^ 63)%Z -> int64 (t * 1000000000) <> t.
Proof.
  intros Ht Heq. unfold int64 in Heq.
  pose proof (Z.div_mod (t * 1000000000 + 2 ^ 63) (2 ^ 64) ltac:(lia)) as Hd.
  set (q := ((t * 1000000000 + 2 ^ 63) / 2 ^ 64)%Z) in *.
  assert (Hdiv : (2 ^ 64 | 999999999 * t)%Z) by (exists q; lia).
  apply Z.gauss in Hdiv; [|vm_compute; reflexivity]. destruct Hdiv as [k Hk]. lia.
Qed.
