(* ===== verification/Ext.v ===== *)
(** * Third-party code the program calls

    The class [Ext] has one field per pure function of an imported module
    (github.com/google/uuid, go.vocdoni.io/dvote, go-ethereum, checkmail) that
    the modelled code calls; nothing is assumed about them here. [ExtLaws]
    states the documented behaviour some theorems rely on. The class [Env] is
    what the program cannot choose: the clock, random identifiers and keys, and
    which calls of the database driver fail. *)
From S2P Require Import Prelude GoLib.

Class Ext := {
  (* dvote/util *)
  TrimHex : string -> string;
  (* dvote/crypto/ethereum *)
  HashRaw : bytes -> bytes;
  PubKeyLengthBytes : Z;
  AddrFromPublicKey : bytes -> gerror + bytes;
  (* go-ethereum/common: BytesToAddress(b).String() *)
  AddressString : bytes -> string;
  (* google/uuid *)
  uuid_Parse : string -> gerror + uuid;
  uuid_String : uuid -> string;
  (* badoux/checkmail *)
  ValidateFormat : string -> option gerror;
  (* net/url.ParseRequestURI: whether the callback URL of an entity parses *)
  ParseRequestURI : string -> option gerror;
  (* pgtype.JSONB.Set of a json.RawMessage (None is the nil slice) *)
  JSONB_Set : option bytes -> gerror + bytes;
}.

(* uuid.Nil *)
Definition uuid_Nil : uuid := 0%N.

(* "TrimHex removes the 0x prefix of a hex string, if there is one." *)
Definition trim_0x (s : string) : string :=
  match s with
  | String a (String b t) => if bool_decide (a = "0"%char /\ b = "x"%char) then t else s
  | _ => s
  end.

Class ExtLaws (E : Ext) : Prop := {
  TrimHex_spec s : TrimHex s = trim_0x s;
  (* BytesToAddress and AddrFromPublicKey give fixed-width addresses; two
     different addresses print differently (EIP-55 hexadecimal). *)
  AddressString_inj a b : AddressString a = AddressString b -> a = b;
  (* uuid.Parse reads what String prints *)
  uuid_Parse_String u : uuid_Parse (uuid_String u) = inr u;
}.

Class Env := {
  (* the error of the n-th driver call, if it fails *)
  env_fault : nat -> option gerror;
  (* time.Now() and now() when n driver calls have been made *)
  env_now : nat -> Z;
  (* the i-th UUID drawn at the n-th tick: uuid.New, gen_random_uuid() *)
  env_uuid : nat -> nat -> uuid;
  (* the i-th ECDSA key pair drawn at the n-th tick: (public, private) *)
  env_key : nat -> nat -> bytes * bytes;
  (* the error of that draw, if the random source fails *)
  env_key_fault : nat -> nat -> option gerror;
  (* where the plan of the n-th query puts the i-th of the rows it sorts, among
     those ORDER BY does not tell apart *)
  env_plan : nat -> nat -> nat;
  (* "a sorts before b under ORDER BY column", PostgreSQL's collation *)
  env_text_le : string -> string -> bool;
  (* the same for jsonb columns *)
  env_json_le : bytes -> bytes -> bool;
}.

(* Every driver call succeeds, and so does every key generation. *)
Definition no_faults {V : Env} : Prop :=
  (forall n, env_fault n = None) /\ forall n i, env_key_fault n i = None.

(* hex text never starts with 0x, so TrimHex leaves it alone *)
Lemma trim_0x_hex s : trim_0x (EncodeToString s) = EncodeToString s.
Proof.
  destruct s as [|a s]; [done|]. cbn [EncodeToString trim_0x].
  rewrite bool_decide_eq_false_2; [done|]. intros [_ Hx].
  pose proof (nat_ascii_bounded a).
  assert (Hd : forall n, n < 16 -> hex_digit n <> "x"%char).
  { intros n Hn. do 16 (destruct n as [|n]; [done|]). lia. }
  eapply (Hd (nat_of_ascii a mod 16)); [|done]. apply Nat.mod_upper_bound. lia.
Qed.

(** ** A concrete instance, for the examples and witnesses

    Addresses are the keys themselves, UUIDs print in binary, the hash is the
    identity. *)
Fixpoint positive_digits (p : positive) : string :=
  match p with
  | xH => "1"
  | xO p => String "0" (positive_digits p)
  | xI p => String "1" (positive_digits p)
  end.
Fixpoint parse_digits (s : string) : option positive :=
  match s with
  | EmptyString => None
  | String a EmptyString => if bool_decide (a = "1"%char) then Some xH else None
  | String a s => p ← parse_digits s;
                  Some (if bool_decide (a = "1"%char) then xI p else xO p)
  end.

Lemma parse_positive_digits p : parse_digits (positive_digits p) = Some p.
Proof.
  induction p as [p IH|p IH|]; [| |done]; cbn [positive_digits parse_digits];
    destruct (positive_digits p) eqn:E; try (by destruct p); by rewrite IH.
Qed.

Definition demo_ext : Ext := {|
  TrimHex := trim_0x;
  HashRaw := fun s => s;
  PubKeyLengthBytes := 2;
  AddrFromPublicKey := fun pk => if bool_decide (pk = "") then inl (Errorf "empty key") else inr pk;
  AddressString := fun a => "0x" +:+ EncodeToString a;
  uuid_Parse := fun s => match s with
                         | "0" => inr 0%N
                         | _ => match parse_digits s with
                                | Some p => inr (Npos p)
                                | None => inl (Errorf "invalid UUID")
                                end
                         end;
  uuid_String := fun u => match u with N0 => "0" | Npos p => positive_digits p end;
  ValidateFormat := fun s => if Contains s "@" then None else Some (Errorf "invalid format");
  ParseRequestURI := fun s => if HasPrefix s "http" then None else Some (Errorf "invalid URI");
  JSONB_Set := fun o => match o with None => inr "null" | Some b => inr b end;
|}.

#[export] Instance demo_ext_laws : ExtLaws demo_ext.
Proof.
  split; simpl.
  - done.
  - intros a b [= H]. by apply EncodeToString_inj in H.
  - intros [|p]; [done|]. pose proof (parse_positive_digits p) as Hp.
    destruct p as [p|p|]; cbn [positive_digits] in *; [| |done]; rewrite Hp; [done|].
    destruct (positive_digits p) eqn:E; [by destruct p|done].
Qed.

(* Driver calls never fail; identifiers are drawn in sequence from [base]. *)
Definition demo_env (base : N) : Env := {|
  env_fault := fun _ => None;
  env_now := fun n => (1000 + Z.of_nat n)%Z;
  env_uuid := fun n i => (base + 100 * N.of_nat n + N.of_nat i)%N;
  env_key := fun n i => ("P" +:+ pretty n +:+ pretty i, "S" +:+ pretty n +:+ pretty i);
  env_key_fault := fun _ _ => None;
  env_plan := fun _ i => i;
  env_text_le := fun a b => Stdlib.Strings.String.leb a b;
  env_json_le := fun a b => Stdlib.Strings.String.leb a b;
|}.

Lemma demo_env_no_faults base : no_faults (V:=demo_env base).
Proof. by split. Qed.
