(* ===== verification/Util.v ===== *)
(** * util/util.go: entity and census identifiers, lists of UUIDs *)
From S2P Require Import Prelude GoLib Ext.

Section util.
Context {X : Ext}.

Definition PubKeyToEntityID (pubKey : bytes) : gerror + bytes :=
  match AddrFromPublicKey pubKey with
  | inl err => inl (Wrapf "cannot get entityID: " err)
  | inr address => inr address
  end.

Definition ValidPubKey (pubKey : bytes) : bool := (len pubKey =? PubKeyLengthBytes)%Z.

Definition DecodeCensusID (id : string) (pubKey : bytes) : gerror + bytes :=
  let decode (censusID : string) : gerror + bytes :=
    match DecodeString (TrimHex censusID) with
    | inl err => inl (Errorf ("cannot decode censusID: " +:+ error_string err))
    | inr censusIDBytes => inr censusIDBytes
    end in
  match Split id "/" with
  | [p] => decode p
  | [p; q] =>
      match DecodeString (TrimHex p) with
      | inl err => inl (Errorf ("error decoding address: " +:+ error_string err))
      | inr inputAddressBytes =>
          match AddrFromPublicKey pubKey with
          | inl err =>
              inl (Errorf ("cannot extract entity address " +:+ error_string err))
          | inr recoveredAddress =>
              if negb (bool_decide (recoveredAddress = inputAddressBytes))
              then inl (Errorf "invalid address in census id")
              else decode q
          end
      end
  | _ => inl (Errorf "invalid census id")
  end.

Definition HexPrefixed (s : string) : string :=
  if negb (HasPrefix s "0x") then "0x" +:+ s else s.
End util.

(* UniqueUUIDs compacts its argument in place: the state of the loop is the
   list, the number of distinct elements kept and the set already found. *)
Record unique_state := mkUnique {
  us_list : list uuid;
  us_n : nat;
  us_found : gset uuid;
}.

Definition unique_step (st : unique_state) (i : nat) : unique_state :=
  match us_list st !! i with
  | None => st
  | Some element =>
      if decide (element ∈ us_found st) then st
      else mkUnique (<[us_n st := element]> (us_list st)) (S (us_n st))
             ({[element]} ∪ us_found st)
  end.

Definition unique_loop (l : list uuid) : unique_state :=
  foldl unique_step (mkUnique l 0 ∅) (seq 0 (length l)).

Definition UniqueUUIDs (l : list uuid) : list uuid :=
  let st := unique_loop l in take (us_n st) (us_list st).

(* the reference: first occurrences, in order *)
Fixpoint first_occurrences (found : gset uuid) (l : list uuid) : list uuid :=
  match l with
  | [] => []
  | x :: l => if decide (x ∈ found) then first_occurrences found l
              else x :: first_occurrences ({[x]} ∪ found) l
  end.

(** ** Lemmas *)

Lemma first_occurrences_app l1 l2 found :
  first_occurrences found (l1 ++ l2) =
  first_occurrences found l1 ++ first_occurrences (list_to_set l1 ∪ found) l2.
Proof.
  revert found. induction l1 as [|y l1 IH]; intros found; simpl.
  - by rewrite (left_id_L ∅ (∪)).
  - case_decide; rewrite IH; simpl.
    + by replace ({[y]} ∪ list_to_set l1 ∪ found) with (list_to_set l1 ∪ found :> gset uuid)
        by set_solver.
    + by replace ({[y]} ∪ list_to_set l1 ∪ found)
        with (list_to_set l1 ∪ ({[y]} ∪ found) :> gset uuid) by set_solver.
Qed.

Lemma unique_loop_invariant l k :
  k <= length l ->
  let st := foldl unique_step (mkUnique l 0 ∅) (seq 0 k) in
  let u := first_occurrences ∅ (take k l) in
  length (us_list st) = length l /\ us_n st = length u /\ us_n st <= k /\
  take (us_n st) (us_list st) = u /\ drop k (us_list st) = drop k l /\
  us_found st = list_to_set (take k l).
Proof.
  induction k as [|k IH]; intros Hk; cbn zeta in *.
  - simpl. repeat split; lia || done.
  - destruct IH as (Hl & Hn & Hle & Hu & Hd & Hf); [lia|].
    rewrite seq_S, foldl_app. simpl.
    set (st := foldl unique_step _ _) in *.
    destruct (lookup_lt_is_Some_2 l k) as [x Hx]; [lia|].
    assert (Hx' : us_list st !! k = Some x).
    { pose proof (lookup_drop (us_list st) k 0) as E1.
      pose proof (lookup_drop l k 0) as E2.
      rewrite Nat.add_0_r in *. congruence. }
    rewrite (take_S_r l k x) by done.
    rewrite first_occurrences_app. simpl. unfold unique_step.
    rewrite Hx', Hf. rewrite !list_to_set_app_L. simpl.
    assert (Hdrop : drop (S k) (us_list st) = drop (S k) l).
    { replace (S k) with (k + 1) by lia. by rewrite <- !drop_drop, Hd. }
    case_decide as Hin; case_decide as Hin'; try set_solver.
    + rewrite app_nil_r. repeat split; try (lia || done). set_solver.
    + cbn [us_list us_n us_found]. rewrite length_insert, length_app. simpl.
      repeat split; try lia.
      * erewrite take_S_r by (apply list_lookup_insert_eq; lia).
        rewrite take_insert_ge by lia. by rewrite Hu.
      * rewrite drop_insert_lt by lia. done.
      * set_solver.
Qed.

(** ** Properties *)

(* uniqueUUIDs, which compacts the slice in place while it ranges over it,
    returns the first occurrence of every UUID in order: it equals the
    reference that never updates the list. *)
Lemma UniqueUUIDs_first_occurrences (l : list uuid) :
  UniqueUUIDs l = first_occurrences ∅ l.
Proof.
  destruct (unique_loop_invariant l (length l)) as (_ & _ & _ & H & _); [done|].
  unfold UniqueUUIDs, unique_loop. rewrite H. by rewrite firstn_all.
Qed.

Section census_id.
Context {X : Ext} {L : ExtLaws X}.

Lemma decode_prefixed_body (c : bytes) :
  DecodeString (TrimHex (HexPrefixed (EncodeToString c))) = inr c.
Proof.
  rewrite TrimHex_spec. unfold HexPrefixed.
  destruct (HasPrefix (EncodeToString c) "0x") eqn:E; simpl.
  - by rewrite trim_0x_hex, DecodeString_EncodeToString.
  - apply DecodeString_EncodeToString.
Qed.

Lemma free_of_prefixed c : free_of "/" (HexPrefixed (EncodeToString c)) = true.
Proof.
  unfold HexPrefixed. destruct (HasPrefix _ _); simpl; apply free_of_hex.
Qed.

(* A census id written as "0x<address>/0x<id>" is decoded to the id exactly
    when the address is the one of the requesting key; with another address it
    is refused, so one entity cannot name another entity's census this way. *)
Lemma DecodeCensusID_address_checked (pubKey addr own c : bytes) :
  AddrFromPublicKey pubKey = inr own ->
  DecodeCensusID (HexPrefixed (EncodeToString addr) +:+ "/" +:+
                  HexPrefixed (EncodeToString c)) pubKey =
  if decide (addr = own) then inr c
  else inl (Errorf "invalid address in census id").
Proof.
  intros Hown. unfold DecodeCensusID.
  change ("/" +:+ ?q) with (String "/" q).
  rewrite Split_app, Split_free by apply free_of_prefixed.
  rewrite decode_prefixed_body, Hown, decode_prefixed_body.
  case_decide; [subst; by rewrite bool_decide_eq_true_2|].
  by rewrite bool_decide_eq_false_2.
Qed.
End census_id.

Lemma DecodeCensusID_address_checked_witness :
  DecodeCensusID (X:=demo_ext)
    (HexPrefixed (EncodeToString "ab") +:+ "/" +:+ HexPrefixed (EncodeToString "cd")) "pk-ab"
  = inl (Errorf "invalid address in census id") /\
  DecodeCensusID (X:=demo_ext)
    (HexPrefixed (EncodeToString "pk-ab") +:+ "/" +:+ HexPrefixed (EncodeToString "cd")) "pk-ab"
  = inr "cd".
Proof.
  split; rewrite (DecodeCensusID_address_checked (X:=demo_ext) "pk-ab" _ "pk-ab" "cd")
    by reflexivity; reflexivity.
Defined.
