(* ===== verification/Types.v ===== *)
(** * types/types.go, types/api.go, types/consts.go: the data of the program

    Go structs are records, pointers and nil-able slices are options (None is
    nil), [int] and [int32] are integers, times are integers counted from Go's
    zero time (so 0 is [time.Time{}]). An embedded struct is a field. *)
From S2P Require Import Prelude GoLib Ext.

(** ** Origins *)

Inductive Origin := Token | Form | DB | API.
#[export] Instance Origin_eq_dec : EqDecision Origin.
Proof. solve_decision. Defined.

Definition Origin_Z (o : Origin) : Z :=
  match o with Token => 0 | Form => 1 | DB => 2 | API => 3 end.

#[export] Instance Origin_countable : Countable Origin.
Proof.
  refine (inj_countable Origin_Z
    (fun z => if decide (z = 0%Z) then Some Token else if decide (z = 1%Z) then Some Form
              else if decide (z = 2%Z) then Some DB else Some API) _).
  by intros [].
Defined.

Definition ToOrigin (origin : string) : Origin :=
  if decide (origin = "Token") then Token
  else if decide (origin = "Form") then Form
  else if decide (origin = "DB") then DB
  else if decide (origin = "API") then API
  else Token.

(* origin_string.go: the tables generated by stringer *)
Definition Origin_name : string := "TokenFormDB".
Definition Origin_index : list nat := [0; 5; 9; 11].

Definition Origin_String (o : Origin) : string :=
  let i := Origin_Z o in
  if (i <? 0)%Z || (i >=? Z.of_nat (length Origin_index) - 1)%Z
  then "Origin(" +:+ decimal i +:+ ")"
  else match Origin_index !! Z.to_nat i, Origin_index !! S (Z.to_nat i) with
       | Some lo, Some hi => Stdlib.Strings.String.substring lo (hi - lo) Origin_name
       | _, _ => ""
       end.

(** ** Stored data *)

Record CreatedUpdated := mkCreatedUpdated { CreatedAt : Z; UpdatedAt : Z }.
Definition zero_CreatedUpdated : CreatedUpdated := mkCreatedUpdated 0 0.

Record EntityInfo := mkEntityInfo {
  ei_CallbackURL : string;
  ei_CallbackSecret : string;
  ei_Email : string;
  ei_Name : string;
  ei_Type : string;
  ei_Size : Z;
  ei_CensusManagersAddresses : option (list bytes);
  ei_Origins : list Origin;
  ei_Consented : bool;
}.
Definition zero_EntityInfo : EntityInfo := mkEntityInfo "" "" "" "" "" 0 None [] false.

Record Entity := mkEntity {
  e_CreatedUpdated : CreatedUpdated;
  e_ID : bytes;
  e_IsAuthorized : bool;
  e_Info : EntityInfo;
}.

Record MemberInfo := mkMemberInfo {
  mi_DateOfBirth : Z;
  mi_Email : string;
  mi_FirstName : string;
  mi_LastName : string;
  mi_Phone : string;
  mi_StreetAddress : string;
  mi_Consented : bool;
  mi_Verified : Z;
  mi_Origin : Origin;
  mi_CustomFields : option bytes;
  mi_Tags : option (list Z);
}.
Definition zero_MemberInfo : MemberInfo :=
  mkMemberInfo 0 "" "" "" "" "" false 0 Token None None.

Record Member := mkMember {
  m_CreatedUpdated : CreatedUpdated;
  m_ID : uuid;
  m_EntityID : bytes;
  m_PubKey : option bytes;
  m_Info : MemberInfo;
}.

Record User := mkUser {
  u_CreatedUpdated : CreatedUpdated;
  u_PubKey : option bytes;
  u_DigestedPubKey : option bytes;
}.

Record CensusInfo := mkCensusInfo {
  ci_CreatedUpdated : CreatedUpdated;
  ci_Name : string;
  ci_MerkleRoot : option bytes;
  ci_MerkleTreeURI : string;
  ci_Size : Z;
  ci_Ephemeral : bool;
  ci_ProcessID : option bytes;
}.

Record Census := mkCensus {
  c_EntityID : bytes;
  c_ID : bytes;
  c_TargetID : uuid;
  c_Info : CensusInfo;
}.

Record CensusMember := mkCensusMember {
  cm_MemberID : uuid;
  cm_CensusID : bytes;
  cm_Ephemeral : bool;
  cm_PrivKey : option bytes;
  cm_PubKey : option bytes;
  cm_DigestedPubKey : option bytes;
}.

Record EphemeralMemberInfo := mkEphemeralMemberInfo {
  em_ID : uuid;
  em_FirstName : string;
  em_LastName : string;
  em_Email : string;
  em_PrivKey : option bytes;
  em_DigestedPubKey : option bytes;
}.

Record Target := mkTarget {
  t_CreatedUpdated : CreatedUpdated;
  t_ID : uuid;
  t_EntityID : bytes;
  t_Name : string;
  t_Filters : string;
}.
Definition zero_Target : Target := mkTarget zero_CreatedUpdated 0%N "" "" "".

Record Tag := mkTag {
  tg_CreatedUpdated : CreatedUpdated;
  tg_ID : Z;
  tg_EntityID : bytes;
  tg_Name : string;
}.
Definition zero_Tag : Tag := mkTag zero_CreatedUpdated 0 "" "".

(** ** The API messages *)

Record TokenEmail := mkTokenEmail { te_Token : uuid; te_Email : string }.
Record Status := mkStatus { s_Registered : bool; s_NeedsUpdate : bool }.
Record ListOptions := mkListOptions {
  lo_Count : Z;
  lo_Order : string;
  lo_Skip : Z;
  lo_SortBy : string;
}.

Record APIrequest := mkAPIrequest {
  rq_Amount : Z;
  rq_AuthHash : string;
  rq_Census : option CensusInfo;
  rq_CensusID : string;
  rq_Keys : list string;
  rq_Email : string;
  rq_EntityID : bytes;
  rq_Entity : option EntityInfo;
  rq_Filter : option Target;
  rq_ListOptions : option ListOptions;
  rq_MemberID : option uuid;
  rq_MemberIDs : list uuid;
  rq_Member : option Member;
  rq_MemberInfo : option MemberInfo;
  rq_MembersInfo : list MemberInfo;
  rq_Method : string;
  rq_InvalidClaims : list bytes;
  rq_PubKey : bytes;
  rq_ProcessID : bytes;
  rq_Signature : string;
  rq_Scope : string;
  rq_Status : option Status;
  rq_TagID : Z;
  rq_TagName : string;
  rq_TargetID : option uuid;
  rq_Timestamp : Z;
  rq_Token : string;
  rq_Topic : string;
  rq_SignaturePublicKey : bytes;
}.

Record APIresponse := mkAPIresponse {
  rs_APIList : list string;
  rs_Census : option Census;
  rs_Censuses : list Census;
  rs_Claims : list bytes;
  rs_Count : Z;
  rs_Entity : option Entity;
  rs_Entities : list Entity;
  rs_Health : Z;
  rs_InvalidIDs : list uuid;
  rs_InvalidKeys : list string;
  rs_Member : option Member;
  rs_Members : list Member;
  rs_MembersTokens : list TokenEmail;
  rs_Message : string;
  rs_Ok : bool;
  rs_PublicKey : string;
  rs_Keys : list string;
  rs_Request : string;
  rs_Status : option Status;
  rs_Tag : option Tag;
  rs_Tags : list Tag;
  rs_Target : option Target;
  rs_Targets : list Target;
  rs_Timestamp : Z;
  rs_Token : string;
  rs_Tokens : list uuid;
  rs_TokenStatus : string;
}.
(* var response types.APIresponse *)
Definition zero_APIresponse : APIresponse :=
  mkAPIresponse [] None [] [] 0 None [] 0 [] [] None [] [] "" false "" [] "" None None []
    None [] 0 "" [] "".

(** Assignments [response.F = v]. *)
Definition set_APIList (v : list string) (r : APIresponse) : APIresponse :=
  mkAPIresponse
  v (rs_Census r) (rs_Censuses r) (rs_Claims r) (rs_Count r) (rs_Entity r) (rs_Entities r)
    (rs_Health r) (rs_InvalidIDs r) (rs_InvalidKeys r) (rs_Member r) (rs_Members r)
    (rs_MembersTokens r) (rs_Message r) (rs_Ok r) (rs_PublicKey r) (rs_Keys r) (rs_Request r) (rs_Status r)
    (rs_Tag r) (rs_Tags r) (rs_Target r) (rs_Targets r) (rs_Timestamp r) (rs_Token r) (rs_Tokens r)
    (rs_TokenStatus r).
Definition set_Census (v : option Census) (r : APIresponse) : APIresponse :=
  mkAPIresponse
  (rs_APIList r) v (rs_Censuses r) (rs_Claims r) (rs_Count r) (rs_Entity r) (rs_Entities r)
    (rs_Health r) (rs_InvalidIDs r) (rs_InvalidKeys r) (rs_Member r) (rs_Members r)
    (rs_MembersTokens r) (rs_Message r) (rs_Ok r) (rs_PublicKey r) (rs_Keys r) (rs_Request r) (rs_Status r)
    (rs_Tag r) (rs_Tags r) (rs_Target r) (rs_Targets r) (rs_Timestamp r) (rs_Token r) (rs_Tokens r)
    (rs_TokenStatus r).
Definition set_Censuses (v : list Census) (r : APIresponse) : APIresponse :=
  mkAPIresponse
  (rs_APIList r) (rs_Census r) v (rs_Claims r) (rs_Count r) (rs_Entity r) (rs_Entities r)
    (rs_Health r) (rs_InvalidIDs r) (rs_InvalidKeys r) (rs_Member r) (rs_Members r)
    (rs_MembersTokens r) (rs_Message r) (rs_Ok r) (rs_PublicKey r) (rs_Keys r) (rs_Request r) (rs_Status r)
    (rs_Tag r) (rs_Tags r) (rs_Target r) (rs_Targets r) (rs_Timestamp r) (rs_Token r) (rs_Tokens r)
    (rs_TokenStatus r).
Definition set_Claims (v : list bytes) (r : APIresponse) : APIresponse :=
  mkAPIresponse
  (rs_APIList r) (rs_Census r) (rs_Censuses r) v (rs_Count r) (rs_Entity r) (rs_Entities r)
    (rs_Health r) (rs_InvalidIDs r) (rs_InvalidKeys r) (rs_Member r) (rs_Members r)
    (rs_MembersTokens r) (rs_Message r) (rs_Ok r) (rs_PublicKey r) (rs_Keys r) (rs_Request r) (rs_Status r)
    (rs_Tag r) (rs_Tags r) (rs_Target r) (rs_Targets r) (rs_Timestamp r) (rs_Token r) (rs_Tokens r)
    (rs_TokenStatus r).
Definition set_Count (v : Z) (r : APIresponse) : APIresponse :=
  mkAPIresponse
  (rs_APIList r) (rs_Census r) (rs_Censuses r) (rs_Claims r) v (rs_Entity r) (rs_Entities r)
    (rs_Health r) (rs_InvalidIDs r) (rs_InvalidKeys r) (rs_Member r) (rs_Members r)
    (rs_MembersTokens r) (rs_Message r) (rs_Ok r) (rs_PublicKey r) (rs_Keys r) (rs_Request r) (rs_Status r)
    (rs_Tag r) (rs_Tags r) (rs_Target r) (rs_Targets r) (rs_Timestamp r) (rs_Token r) (rs_Tokens r)
    (rs_TokenStatus r).
Definition set_Entity (v : option Entity) (r : APIresponse) : APIresponse :=
  mkAPIresponse
  (rs_APIList r) (rs_Census r) (rs_Censuses r) (rs_Claims r) (rs_Count r) v (rs_Entities r)
    (rs_Health r) (rs_InvalidIDs r) (rs_InvalidKeys r) (rs_Member r) (rs_Members r)
    (rs_MembersTokens r) (rs_Message r) (rs_Ok r) (rs_PublicKey r) (rs_Keys r) (rs_Request r) (rs_Status r)
    (rs_Tag r) (rs_Tags r) (rs_Target r) (rs_Targets r) (rs_Timestamp r) (rs_Token r) (rs_Tokens r)
    (rs_TokenStatus r).
Definition set_Entities (v : list Entity) (r : APIresponse) : APIresponse :=
  mkAPIresponse
  (rs_APIList r) (rs_Census r) (rs_Censuses r) (rs_Claims r) (rs_Count r) (rs_Entity r) v
    (rs_Health r) (rs_InvalidIDs r) (rs_InvalidKeys r) (rs_Member r) (rs_Members r)
    (rs_MembersTokens r) (rs_Message r) (rs_Ok r) (rs_PublicKey r) (rs_Keys r) (rs_Request r) (rs_Status r)
    (rs_Tag r) (rs_Tags r) (rs_Target r) (rs_Targets r) (rs_Timestamp r) (rs_Token r) (rs_Tokens r)
    (rs_TokenStatus r).
Definition set_Health (v : Z) (r : APIresponse) : APIresponse :=
  mkAPIresponse
  (rs_APIList r) (rs_Census r) (rs_Censuses r) (rs_Claims r) (rs_Count r) (rs_Entity r)
    (rs_Entities r) v (rs_InvalidIDs r) (rs_InvalidKeys r) (rs_Member r) (rs_Members r)
    (rs_MembersTokens r) (rs_Message r) (rs_Ok r) (rs_PublicKey r) (rs_Keys r) (rs_Request r) (rs_Status r)
    (rs_Tag r) (rs_Tags r) (rs_Target r) (rs_Targets r) (rs_Timestamp r) (rs_Token r) (rs_Tokens r)
    (rs_TokenStatus r).
Definition set_InvalidIDs (v : list uuid) (r : APIresponse) : APIresponse :=
  mkAPIresponse
  (rs_APIList r) (rs_Census r) (rs_Censuses r) (rs_Claims r) (rs_Count r) (rs_Entity r)
    (rs_Entities r) (rs_Health r) v (rs_InvalidKeys r) (rs_Member r) (rs_Members r)
    (rs_MembersTokens r) (rs_Message r) (rs_Ok r) (rs_PublicKey r) (rs_Keys r) (rs_Request r) (rs_Status r)
    (rs_Tag r) (rs_Tags r) (rs_Target r) (rs_Targets r) (rs_Timestamp r) (rs_Token r) (rs_Tokens r)
    (rs_TokenStatus r).
Definition set_InvalidKeys (v : list string) (r : APIresponse) : APIresponse :=
  mkAPIresponse
  (rs_APIList r) (rs_Census r) (rs_Censuses r) (rs_Claims r) (rs_Count r) (rs_Entity r)
    (rs_Entities r) (rs_Health r) (rs_InvalidIDs r) v (rs_Member r) (rs_Members r)
    (rs_MembersTokens r) (rs_Message r) (rs_Ok r) (rs_PublicKey r) (rs_Keys r) (rs_Request r) (rs_Status r)
    (rs_Tag r) (rs_Tags r) (rs_Target r) (rs_Targets r) (rs_Timestamp r) (rs_Token r) (rs_Tokens r)
    (rs_TokenStatus r).
Definition set_Member (v : option Member) (r : APIresponse) : APIresponse :=
  mkAPIresponse
  (rs_APIList r) (rs_Census r) (rs_Censuses r) (rs_Claims r) (rs_Count r) (rs_Entity r)
    (rs_Entities r) (rs_Health r) (rs_InvalidIDs r) (rs_InvalidKeys r) v (rs_Members r)
    (rs_MembersTokens r) (rs_Message r) (rs_Ok r) (rs_PublicKey r) (rs_Keys r) (rs_Request r) (rs_Status r)
    (rs_Tag r) (rs_Tags r) (rs_Target r) (rs_Targets r) (rs_Timestamp r) (rs_Token r) (rs_Tokens r)
    (rs_TokenStatus r).
Definition set_Members (v : list Member) (r : APIresponse) : APIresponse :=
  mkAPIresponse
  (rs_APIList r) (rs_Census r) (rs_Censuses r) (rs_Claims r) (rs_Count r) (rs_Entity r)
    (rs_Entities r) (rs_Health r) (rs_InvalidIDs r) (rs_InvalidKeys r) (rs_Member r) v
    (rs_MembersTokens r) (rs_Message r) (rs_Ok r) (rs_PublicKey r) (rs_Keys r) (rs_Request r) (rs_Status r)
    (rs_Tag r) (rs_Tags r) (rs_Target r) (rs_Targets r) (rs_Timestamp r) (rs_Token r) (rs_Tokens r)
    (rs_TokenStatus r).
Definition set_MembersTokens (v : list TokenEmail) (r : APIresponse) : APIresponse :=
  mkAPIresponse
  (rs_APIList r) (rs_Census r) (rs_Censuses r) (rs_Claims r) (rs_Count r) (rs_Entity r)
    (rs_Entities r) (rs_Health r) (rs_InvalidIDs r) (rs_InvalidKeys r) (rs_Member r)
    (rs_Members r) v (rs_Message r) (rs_Ok r) (rs_PublicKey r) (rs_Keys r) (rs_Request r) (rs_Status r)
    (rs_Tag r) (rs_Tags r) (rs_Target r) (rs_Targets r) (rs_Timestamp r) (rs_Token r) (rs_Tokens r)
    (rs_TokenStatus r).
Definition set_Message (v : string) (r : APIresponse) : APIresponse :=
  mkAPIresponse
  (rs_APIList r) (rs_Census r) (rs_Censuses r) (rs_Claims r) (rs_Count r) (rs_Entity r)
    (rs_Entities r) (rs_Health r) (rs_InvalidIDs r) (rs_InvalidKeys r) (rs_Member r)
    (rs_Members r) (rs_MembersTokens r) v (rs_Ok r) (rs_PublicKey r) (rs_Keys r) (rs_Request r) (rs_Status r)
    (rs_Tag r) (rs_Tags r) (rs_Target r) (rs_Targets r) (rs_Timestamp r) (rs_Token r) (rs_Tokens r)
    (rs_TokenStatus r).
Definition set_Ok (v : bool) (r : APIresponse) : APIresponse :=
  mkAPIresponse
  (rs_APIList r) (rs_Census r) (rs_Censuses r) (rs_Claims r) (rs_Count r) (rs_Entity r)
    (rs_Entities r) (rs_Health r) (rs_InvalidIDs r) (rs_InvalidKeys r) (rs_Member r)
    (rs_Members r) (rs_MembersTokens r) (rs_Message r) v (rs_PublicKey r) (rs_Keys r) (rs_Request r)
    (rs_Status r) (rs_Tag r) (rs_Tags r) (rs_Target r) (rs_Targets r) (rs_Timestamp r) (rs_Token r)
    (rs_Tokens r) (rs_TokenStatus r).
Definition set_Keys (v : list string) (r : APIresponse) : APIresponse :=
  mkAPIresponse
  (rs_APIList r) (rs_Census r) (rs_Censuses r) (rs_Claims r) (rs_Count r) (rs_Entity r)
    (rs_Entities r) (rs_Health r) (rs_InvalidIDs r) (rs_InvalidKeys r) (rs_Member r)
    (rs_Members r) (rs_MembersTokens r) (rs_Message r) (rs_Ok r) (rs_PublicKey r) v (rs_Request r) (rs_Status
    r) (rs_Tag r) (rs_Tags r) (rs_Target r) (rs_Targets r) (rs_Timestamp r) (rs_Token r) (rs_Tokens r)
    (rs_TokenStatus r).
Definition set_Request (v : string) (r : APIresponse) : APIresponse :=
  mkAPIresponse
  (rs_APIList r) (rs_Census r) (rs_Censuses r) (rs_Claims r) (rs_Count r) (rs_Entity r)
    (rs_Entities r) (rs_Health r) (rs_InvalidIDs r) (rs_InvalidKeys r) (rs_Member r)
    (rs_Members r) (rs_MembersTokens r) (rs_Message r) (rs_Ok r) (rs_PublicKey r) (rs_Keys r) v (rs_Status r)
    (rs_Tag r) (rs_Tags r) (rs_Target r) (rs_Targets r) (rs_Timestamp r) (rs_Token r) (rs_Tokens r)
    (rs_TokenStatus r).
Definition set_Status (v : option Status) (r : APIresponse) : APIresponse :=
  mkAPIresponse
  (rs_APIList r) (rs_Census r) (rs_Censuses r) (rs_Claims r) (rs_Count r) (rs_Entity r)
    (rs_Entities r) (rs_Health r) (rs_InvalidIDs r) (rs_InvalidKeys r) (rs_Member r)
    (rs_Members r) (rs_MembersTokens r) (rs_Message r) (rs_Ok r) (rs_PublicKey r) (rs_Keys r) (rs_Request r)
    v (rs_Tag r) (rs_Tags r) (rs_Target r) (rs_Targets r) (rs_Timestamp r) (rs_Token r) (rs_Tokens r)
    (rs_TokenStatus r).
Definition set_Tag (v : option Tag) (r : APIresponse) : APIresponse :=
  mkAPIresponse
  (rs_APIList r) (rs_Census r) (rs_Censuses r) (rs_Claims r) (rs_Count r) (rs_Entity r)
    (rs_Entities r) (rs_Health r) (rs_InvalidIDs r) (rs_InvalidKeys r) (rs_Member r)
    (rs_Members r) (rs_MembersTokens r) (rs_Message r) (rs_Ok r) (rs_PublicKey r) (rs_Keys r) (rs_Request r)
    (rs_Status r) v (rs_Tags r) (rs_Target r) (rs_Targets r) (rs_Timestamp r) (rs_Token r) (rs_Tokens r)
    (rs_TokenStatus r).
Definition set_Tags (v : list Tag) (r : APIresponse) : APIresponse :=
  mkAPIresponse
  (rs_APIList r) (rs_Census r) (rs_Censuses r) (rs_Claims r) (rs_Count r) (rs_Entity r)
    (rs_Entities r) (rs_Health r) (rs_InvalidIDs r) (rs_InvalidKeys r) (rs_Member r)
    (rs_Members r) (rs_MembersTokens r) (rs_Message r) (rs_Ok r) (rs_PublicKey r) (rs_Keys r) (rs_Request r)
    (rs_Status r) (rs_Tag r) v (rs_Target r) (rs_Targets r) (rs_Timestamp r) (rs_Token r) (rs_Tokens r)
    (rs_TokenStatus r).
Definition set_Target (v : option Target) (r : APIresponse) : APIresponse :=
  mkAPIresponse
  (rs_APIList r) (rs_Census r) (rs_Censuses r) (rs_Claims r) (rs_Count r) (rs_Entity r)
    (rs_Entities r) (rs_Health r) (rs_InvalidIDs r) (rs_InvalidKeys r) (rs_Member r)
    (rs_Members r) (rs_MembersTokens r) (rs_Message r) (rs_Ok r) (rs_PublicKey r) (rs_Keys r) (rs_Request r)
    (rs_Status r) (rs_Tag r) (rs_Tags r) v (rs_Targets r) (rs_Timestamp r) (rs_Token r) (rs_Tokens r)
    (rs_TokenStatus r).
Definition set_Targets (v : list Target) (r : APIresponse) : APIresponse :=
  mkAPIresponse
  (rs_APIList r) (rs_Census r) (rs_Censuses r) (rs_Claims r) (rs_Count r) (rs_Entity r)
    (rs_Entities r) (rs_Health r) (rs_InvalidIDs r) (rs_InvalidKeys r) (rs_Member r)
    (rs_Members r) (rs_MembersTokens r) (rs_Message r) (rs_Ok r) (rs_PublicKey r) (rs_Keys r) (rs_Request r)
    (rs_Status r) (rs_Tag r) (rs_Tags r) (rs_Target r) v (rs_Timestamp r) (rs_Token r) (rs_Tokens r)
    (rs_TokenStatus r).
Definition set_Timestamp (v : Z) (r : APIresponse) : APIresponse :=
  mkAPIresponse
  (rs_APIList r) (rs_Census r) (rs_Censuses r) (rs_Claims r) (rs_Count r) (rs_Entity r)
    (rs_Entities r) (rs_Health r) (rs_InvalidIDs r) (rs_InvalidKeys r) (rs_Member r)
    (rs_Members r) (rs_MembersTokens r) (rs_Message r) (rs_Ok r) (rs_PublicKey r) (rs_Keys r) (rs_Request r)
    (rs_Status r) (rs_Tag r) (rs_Tags r) (rs_Target r) (rs_Targets r) v (rs_Token r) (rs_Tokens r)
    (rs_TokenStatus r).
Definition set_Tokens (v : list uuid) (r : APIresponse) : APIresponse :=
  mkAPIresponse
  (rs_APIList r) (rs_Census r) (rs_Censuses r) (rs_Claims r) (rs_Count r) (rs_Entity r)
    (rs_Entities r) (rs_Health r) (rs_InvalidIDs r) (rs_InvalidKeys r) (rs_Member r)
    (rs_Members r) (rs_MembersTokens r) (rs_Message r) (rs_Ok r) (rs_PublicKey r) (rs_Keys r) (rs_Request r)
    (rs_Status r) (rs_Tag r) (rs_Tags r) (rs_Target r) (rs_Targets r) (rs_Timestamp r) (rs_Token r) v
    (rs_TokenStatus r).
Definition set_TokenStatus (v : string) (r : APIresponse) : APIresponse :=
  mkAPIresponse
  (rs_APIList r) (rs_Census r) (rs_Censuses r) (rs_Claims r) (rs_Count r) (rs_Entity r)
    (rs_Entities r) (rs_Health r) (rs_InvalidIDs r) (rs_InvalidKeys r) (rs_Member r)
    (rs_Members r) (rs_MembersTokens r) (rs_Message r) (rs_Ok r) (rs_PublicKey r) (rs_Keys r) (rs_Request r)
    (rs_Status r) (rs_Tag r) (rs_Tags r) (rs_Target r) (rs_Targets r) (rs_Timestamp r) (rs_Token r)
    (rs_Tokens r) v.

(* new(types.APIrequest) *)
Definition zero_APIrequest : APIrequest :=
  mkAPIrequest 0 "" None "" [] "" "" None None None None [] None None [] "" [] "" "" "" "" None 0 "" None 0 "" "" "".
Definition setq_Amount (v : Z) (r : APIrequest) : APIrequest :=
  mkAPIrequest
  v (rq_AuthHash r) (rq_Census r) (rq_CensusID r) (rq_Keys r) (rq_Email r) (rq_EntityID r)
    (rq_Entity r) (rq_Filter r) (rq_ListOptions r) (rq_MemberID r) (rq_MemberIDs r)
    (rq_Member r) (rq_MemberInfo r) (rq_MembersInfo r) (rq_Method r) (rq_InvalidClaims r)
    (rq_PubKey r) (rq_ProcessID r) (rq_Signature r) (rq_Scope r) (rq_Status r) (rq_TagID r)
    (rq_TagName r) (rq_TargetID r) (rq_Timestamp r) (rq_Token r) (rq_Topic r)
    (rq_SignaturePublicKey r).
Definition setq_AuthHash (v : string) (r : APIrequest) : APIrequest :=
  mkAPIrequest
  (rq_Amount r) v (rq_Census r) (rq_CensusID r) (rq_Keys r) (rq_Email r) (rq_EntityID r)
    (rq_Entity r) (rq_Filter r) (rq_ListOptions r) (rq_MemberID r) (rq_MemberIDs r)
    (rq_Member r) (rq_MemberInfo r) (rq_MembersInfo r) (rq_Method r) (rq_InvalidClaims r)
    (rq_PubKey r) (rq_ProcessID r) (rq_Signature r) (rq_Scope r) (rq_Status r) (rq_TagID r)
    (rq_TagName r) (rq_TargetID r) (rq_Timestamp r) (rq_Token r) (rq_Topic r)
    (rq_SignaturePublicKey r).
Definition setq_Census (v : option CensusInfo) (r : APIrequest) : APIrequest :=
  mkAPIrequest
  (rq_Amount r) (rq_AuthHash r) v (rq_CensusID r) (rq_Keys r) (rq_Email r) (rq_EntityID r)
    (rq_Entity r) (rq_Filter r) (rq_ListOptions r) (rq_MemberID r) (rq_MemberIDs r)
    (rq_Member r) (rq_MemberInfo r) (rq_MembersInfo r) (rq_Method r) (rq_InvalidClaims r)
    (rq_PubKey r) (rq_ProcessID r) (rq_Signature r) (rq_Scope r) (rq_Status r) (rq_TagID r)
    (rq_TagName r) (rq_TargetID r) (rq_Timestamp r) (rq_Token r) (rq_Topic r)
    (rq_SignaturePublicKey r).
Definition setq_CensusID (v : string) (r : APIrequest) : APIrequest :=
  mkAPIrequest
  (rq_Amount r) (rq_AuthHash r) (rq_Census r) v (rq_Keys r) (rq_Email r) (rq_EntityID r)
    (rq_Entity r) (rq_Filter r) (rq_ListOptions r) (rq_MemberID r) (rq_MemberIDs r)
    (rq_Member r) (rq_MemberInfo r) (rq_MembersInfo r) (rq_Method r) (rq_InvalidClaims r)
    (rq_PubKey r) (rq_ProcessID r) (rq_Signature r) (rq_Scope r) (rq_Status r) (rq_TagID r)
    (rq_TagName r) (rq_TargetID r) (rq_Timestamp r) (rq_Token r) (rq_Topic r)
    (rq_SignaturePublicKey r).
Definition setq_Keys (v : list string) (r : APIrequest) : APIrequest :=
  mkAPIrequest
  (rq_Amount r) (rq_AuthHash r) (rq_Census r) (rq_CensusID r) v (rq_Email r) (rq_EntityID r)
    (rq_Entity r) (rq_Filter r) (rq_ListOptions r) (rq_MemberID r) (rq_MemberIDs r)
    (rq_Member r) (rq_MemberInfo r) (rq_MembersInfo r) (rq_Method r) (rq_InvalidClaims r)
    (rq_PubKey r) (rq_ProcessID r) (rq_Signature r) (rq_Scope r) (rq_Status r) (rq_TagID r)
    (rq_TagName r) (rq_TargetID r) (rq_Timestamp r) (rq_Token r) (rq_Topic r)
    (rq_SignaturePublicKey r).
Definition setq_Email (v : string) (r : APIrequest) : APIrequest :=
  mkAPIrequest
  (rq_Amount r) (rq_AuthHash r) (rq_Census r) (rq_CensusID r) (rq_Keys r) v (rq_EntityID r)
    (rq_Entity r) (rq_Filter r) (rq_ListOptions r) (rq_MemberID r) (rq_MemberIDs r)
    (rq_Member r) (rq_MemberInfo r) (rq_MembersInfo r) (rq_Method r) (rq_InvalidClaims r)
    (rq_PubKey r) (rq_ProcessID r) (rq_Signature r) (rq_Scope r) (rq_Status r) (rq_TagID r)
    (rq_TagName r) (rq_TargetID r) (rq_Timestamp r) (rq_Token r) (rq_Topic r)
    (rq_SignaturePublicKey r).
Definition setq_EntityID (v : bytes) (r : APIrequest) : APIrequest :=
  mkAPIrequest
  (rq_Amount r) (rq_AuthHash r) (rq_Census r) (rq_CensusID r) (rq_Keys r) (rq_Email r) v
    (rq_Entity r) (rq_Filter r) (rq_ListOptions r) (rq_MemberID r) (rq_MemberIDs r)
    (rq_Member r) (rq_MemberInfo r) (rq_MembersInfo r) (rq_Method r) (rq_InvalidClaims r)
    (rq_PubKey r) (rq_ProcessID r) (rq_Signature r) (rq_Scope r) (rq_Status r) (rq_TagID r)
    (rq_TagName r) (rq_TargetID r) (rq_Timestamp r) (rq_Token r) (rq_Topic r)
    (rq_SignaturePublicKey r).
Definition setq_Entity (v : option EntityInfo) (r : APIrequest) : APIrequest :=
  mkAPIrequest
  (rq_Amount r) (rq_AuthHash r) (rq_Census r) (rq_CensusID r) (rq_Keys r) (rq_Email r)
    (rq_EntityID r) v (rq_Filter r) (rq_ListOptions r) (rq_MemberID r) (rq_MemberIDs r)
    (rq_Member r) (rq_MemberInfo r) (rq_MembersInfo r) (rq_Method r) (rq_InvalidClaims r)
    (rq_PubKey r) (rq_ProcessID r) (rq_Signature r) (rq_Scope r) (rq_Status r) (rq_TagID r)
    (rq_TagName r) (rq_TargetID r) (rq_Timestamp r) (rq_Token r) (rq_Topic r)
    (rq_SignaturePublicKey r).
Definition setq_Filter (v : option Target) (r : APIrequest) : APIrequest :=
  mkAPIrequest
  (rq_Amount r) (rq_AuthHash r) (rq_Census r) (rq_CensusID r) (rq_Keys r) (rq_Email r)
    (rq_EntityID r) (rq_Entity r) v (rq_ListOptions r) (rq_MemberID r) (rq_MemberIDs r)
    (rq_Member r) (rq_MemberInfo r) (rq_MembersInfo r) (rq_Method r) (rq_InvalidClaims r)
    (rq_PubKey r) (rq_ProcessID r) (rq_Signature r) (rq_Scope r) (rq_Status r) (rq_TagID r)
    (rq_TagName r) (rq_TargetID r) (rq_Timestamp r) (rq_Token r) (rq_Topic r)
    (rq_SignaturePublicKey r).
Definition setq_ListOptions (v : option ListOptions) (r : APIrequest) : APIrequest :=
  mkAPIrequest
  (rq_Amount r) (rq_AuthHash r) (rq_Census r) (rq_CensusID r) (rq_Keys r) (rq_Email r)
    (rq_EntityID r) (rq_Entity r) (rq_Filter r) v (rq_MemberID r) (rq_MemberIDs r)
    (rq_Member r) (rq_MemberInfo r) (rq_MembersInfo r) (rq_Method r) (rq_InvalidClaims r)
    (rq_PubKey r) (rq_ProcessID r) (rq_Signature r) (rq_Scope r) (rq_Status r) (rq_TagID r)
    (rq_TagName r) (rq_TargetID r) (rq_Timestamp r) (rq_Token r) (rq_Topic r)
    (rq_SignaturePublicKey r).
Definition setq_MemberID (v : option uuid) (r : APIrequest) : APIrequest :=
  mkAPIrequest
  (rq_Amount r) (rq_AuthHash r) (rq_Census r) (rq_CensusID r) (rq_Keys r) (rq_Email r)
    (rq_EntityID r) (rq_Entity r) (rq_Filter r) (rq_ListOptions r) v (rq_MemberIDs r)
    (rq_Member r) (rq_MemberInfo r) (rq_MembersInfo r) (rq_Method r) (rq_InvalidClaims r)
    (rq_PubKey r) (rq_ProcessID r) (rq_Signature r) (rq_Scope r) (rq_Status r) (rq_TagID r)
    (rq_TagName r) (rq_TargetID r) (rq_Timestamp r) (rq_Token r) (rq_Topic r)
    (rq_SignaturePublicKey r).
Definition setq_MemberIDs (v : list uuid) (r : APIrequest) : APIrequest :=
  mkAPIrequest
  (rq_Amount r) (rq_AuthHash r) (rq_Census r) (rq_CensusID r) (rq_Keys r) (rq_Email r)
    (rq_EntityID r) (rq_Entity r) (rq_Filter r) (rq_ListOptions r) (rq_MemberID r) v
    (rq_Member r) (rq_MemberInfo r) (rq_MembersInfo r) (rq_Method r) (rq_InvalidClaims r)
    (rq_PubKey r) (rq_ProcessID r) (rq_Signature r) (rq_Scope r) (rq_Status r) (rq_TagID r)
    (rq_TagName r) (rq_TargetID r) (rq_Timestamp r) (rq_Token r) (rq_Topic r)
    (rq_SignaturePublicKey r).
Definition setq_Member (v : option Member) (r : APIrequest) : APIrequest :=
  mkAPIrequest
  (rq_Amount r) (rq_AuthHash r) (rq_Census r) (rq_CensusID r) (rq_Keys r) (rq_Email r)
    (rq_EntityID r) (rq_Entity r) (rq_Filter r) (rq_ListOptions r) (rq_MemberID r)
    (rq_MemberIDs r) v (rq_MemberInfo r) (rq_MembersInfo r) (rq_Method r) (rq_InvalidClaims
    r) (rq_PubKey r) (rq_ProcessID r) (rq_Signature r) (rq_Scope r) (rq_Status r) (rq_TagID
    r) (rq_TagName r) (rq_TargetID r) (rq_Timestamp r) (rq_Token r) (rq_Topic r)
    (rq_SignaturePublicKey r).
Definition setq_MemberInfo (v : option MemberInfo) (r : APIrequest) : APIrequest :=
  mkAPIrequest
  (rq_Amount r) (rq_AuthHash r) (rq_Census r) (rq_CensusID r) (rq_Keys r) (rq_Email r)
    (rq_EntityID r) (rq_Entity r) (rq_Filter r) (rq_ListOptions r) (rq_MemberID r)
    (rq_MemberIDs r) (rq_Member r) v (rq_MembersInfo r) (rq_Method r) (rq_InvalidClaims r)
    (rq_PubKey r) (rq_ProcessID r) (rq_Signature r) (rq_Scope r) (rq_Status r) (rq_TagID r)
    (rq_TagName r) (rq_TargetID r) (rq_Timestamp r) (rq_Token r) (rq_Topic r)
    (rq_SignaturePublicKey r).
Definition setq_MembersInfo (v : list MemberInfo) (r : APIrequest) : APIrequest :=
  mkAPIrequest
  (rq_Amount r) (rq_AuthHash r) (rq_Census r) (rq_CensusID r) (rq_Keys r) (rq_Email r)
    (rq_EntityID r) (rq_Entity r) (rq_Filter r) (rq_ListOptions r) (rq_MemberID r)
    (rq_MemberIDs r) (rq_Member r) (rq_MemberInfo r) v (rq_Method r) (rq_InvalidClaims r)
    (rq_PubKey r) (rq_ProcessID r) (rq_Signature r) (rq_Scope r) (rq_Status r) (rq_TagID r)
    (rq_TagName r) (rq_TargetID r) (rq_Timestamp r) (rq_Token r) (rq_Topic r)
    (rq_SignaturePublicKey r).
Definition setq_Method (v : string) (r : APIrequest) : APIrequest :=
  mkAPIrequest
  (rq_Amount r) (rq_AuthHash r) (rq_Census r) (rq_CensusID r) (rq_Keys r) (rq_Email r)
    (rq_EntityID r) (rq_Entity r) (rq_Filter r) (rq_ListOptions r) (rq_MemberID r)
    (rq_MemberIDs r) (rq_Member r) (rq_MemberInfo r) (rq_MembersInfo r) v (rq_InvalidClaims
    r) (rq_PubKey r) (rq_ProcessID r) (rq_Signature r) (rq_Scope r) (rq_Status r) (rq_TagID
    r) (rq_TagName r) (rq_TargetID r) (rq_Timestamp r) (rq_Token r) (rq_Topic r)
    (rq_SignaturePublicKey r).
Definition setq_InvalidClaims (v : list bytes) (r : APIrequest) : APIrequest :=
  mkAPIrequest
  (rq_Amount r) (rq_AuthHash r) (rq_Census r) (rq_CensusID r) (rq_Keys r) (rq_Email r)
    (rq_EntityID r) (rq_Entity r) (rq_Filter r) (rq_ListOptions r) (rq_MemberID r)
    (rq_MemberIDs r) (rq_Member r) (rq_MemberInfo r) (rq_MembersInfo r) (rq_Method r) v
    (rq_PubKey r) (rq_ProcessID r) (rq_Signature r) (rq_Scope r) (rq_Status r) (rq_TagID r)
    (rq_TagName r) (rq_TargetID r) (rq_Timestamp r) (rq_Token r) (rq_Topic r)
    (rq_SignaturePublicKey r).
Definition setq_PubKey (v : bytes) (r : APIrequest) : APIrequest :=
  mkAPIrequest
  (rq_Amount r) (rq_AuthHash r) (rq_Census r) (rq_CensusID r) (rq_Keys r) (rq_Email r)
    (rq_EntityID r) (rq_Entity r) (rq_Filter r) (rq_ListOptions r) (rq_MemberID r)
    (rq_MemberIDs r) (rq_Member r) (rq_MemberInfo r) (rq_MembersInfo r) (rq_Method r)
    (rq_InvalidClaims r) v (rq_ProcessID r) (rq_Signature r) (rq_Scope r) (rq_Status r)
    (rq_TagID r) (rq_TagName r) (rq_TargetID r) (rq_Timestamp r) (rq_Token r) (rq_Topic r)
    (rq_SignaturePublicKey r).
Definition setq_ProcessID (v : bytes) (r : APIrequest) : APIrequest :=
  mkAPIrequest
  (rq_Amount r) (rq_AuthHash r) (rq_Census r) (rq_CensusID r) (rq_Keys r) (rq_Email r)
    (rq_EntityID r) (rq_Entity r) (rq_Filter r) (rq_ListOptions r) (rq_MemberID r)
    (rq_MemberIDs r) (rq_Member r) (rq_MemberInfo r) (rq_MembersInfo r) (rq_Method r)
    (rq_InvalidClaims r) (rq_PubKey r) v (rq_Signature r) (rq_Scope r) (rq_Status r)
    (rq_TagID r) (rq_TagName r) (rq_TargetID r) (rq_Timestamp r) (rq_Token r) (rq_Topic r)
    (rq_SignaturePublicKey r).
Definition setq_Signature (v : string) (r : APIrequest) : APIrequest :=
  mkAPIrequest
  (rq_Amount r) (rq_AuthHash r) (rq_Census r) (rq_CensusID r) (rq_Keys r) (rq_Email r)
    (rq_EntityID r) (rq_Entity r) (rq_Filter r) (rq_ListOptions r) (rq_MemberID r)
    (rq_MemberIDs r) (rq_Member r) (rq_MemberInfo r) (rq_MembersInfo r) (rq_Method r)
    (rq_InvalidClaims r) (rq_PubKey r) (rq_ProcessID r) v (rq_Scope r) (rq_Status r)
    (rq_TagID r) (rq_TagName r) (rq_TargetID r) (rq_Timestamp r) (rq_Token r) (rq_Topic r)
    (rq_SignaturePublicKey r).
Definition setq_Scope (v : string) (r : APIrequest) : APIrequest :=
  mkAPIrequest
  (rq_Amount r) (rq_AuthHash r) (rq_Census r) (rq_CensusID r) (rq_Keys r) (rq_Email r)
    (rq_EntityID r) (rq_Entity r) (rq_Filter r) (rq_ListOptions r) (rq_MemberID r)
    (rq_MemberIDs r) (rq_Member r) (rq_MemberInfo r) (rq_MembersInfo r) (rq_Method r)
    (rq_InvalidClaims r) (rq_PubKey r) (rq_ProcessID r) (rq_Signature r) v (rq_Status r)
    (rq_TagID r) (rq_TagName r) (rq_TargetID r) (rq_Timestamp r) (rq_Token r) (rq_Topic r)
    (rq_SignaturePublicKey r).
Definition setq_Status (v : option Status) (r : APIrequest) : APIrequest :=
  mkAPIrequest
  (rq_Amount r) (rq_AuthHash r) (rq_Census r) (rq_CensusID r) (rq_Keys r) (rq_Email r)
    (rq_EntityID r) (rq_Entity r) (rq_Filter r) (rq_ListOptions r) (rq_MemberID r)
    (rq_MemberIDs r) (rq_Member r) (rq_MemberInfo r) (rq_MembersInfo r) (rq_Method r)
    (rq_InvalidClaims r) (rq_PubKey r) (rq_ProcessID r) (rq_Signature r) (rq_Scope r) v
    (rq_TagID r) (rq_TagName r) (rq_TargetID r) (rq_Timestamp r) (rq_Token r) (rq_Topic r)
    (rq_SignaturePublicKey r).
Definition setq_TagID (v : Z) (r : APIrequest) : APIrequest :=
  mkAPIrequest
  (rq_Amount r) (rq_AuthHash r) (rq_Census r) (rq_CensusID r) (rq_Keys r) (rq_Email r)
    (rq_EntityID r) (rq_Entity r) (rq_Filter r) (rq_ListOptions r) (rq_MemberID r)
    (rq_MemberIDs r) (rq_Member r) (rq_MemberInfo r) (rq_MembersInfo r) (rq_Method r)
    (rq_InvalidClaims r) (rq_PubKey r) (rq_ProcessID r) (rq_Signature r) (rq_Scope r)
    (rq_Status r) v (rq_TagName r) (rq_TargetID r) (rq_Timestamp r) (rq_Token r) (rq_Topic
    r) (rq_SignaturePublicKey r).
Definition setq_TagName (v : string) (r : APIrequest) : APIrequest :=
  mkAPIrequest
  (rq_Amount r) (rq_AuthHash r) (rq_Census r) (rq_CensusID r) (rq_Keys r) (rq_Email r)
    (rq_EntityID r) (rq_Entity r) (rq_Filter r) (rq_ListOptions r) (rq_MemberID r)
    (rq_MemberIDs r) (rq_Member r) (rq_MemberInfo r) (rq_MembersInfo r) (rq_Method r)
    (rq_InvalidClaims r) (rq_PubKey r) (rq_ProcessID r) (rq_Signature r) (rq_Scope r)
    (rq_Status r) (rq_TagID r) v (rq_TargetID r) (rq_Timestamp r) (rq_Token r) (rq_Topic r)
    (rq_SignaturePublicKey r).
Definition setq_TargetID (v : option uuid) (r : APIrequest) : APIrequest :=
  mkAPIrequest
  (rq_Amount r) (rq_AuthHash r) (rq_Census r) (rq_CensusID r) (rq_Keys r) (rq_Email r)
    (rq_EntityID r) (rq_Entity r) (rq_Filter r) (rq_ListOptions r) (rq_MemberID r)
    (rq_MemberIDs r) (rq_Member r) (rq_MemberInfo r) (rq_MembersInfo r) (rq_Method r)
    (rq_InvalidClaims r) (rq_PubKey r) (rq_ProcessID r) (rq_Signature r) (rq_Scope r)
    (rq_Status r) (rq_TagID r) (rq_TagName r) v (rq_Timestamp r) (rq_Token r) (rq_Topic r)
    (rq_SignaturePublicKey r).
Definition setq_Timestamp (v : Z) (r : APIrequest) : APIrequest :=
  mkAPIrequest
  (rq_Amount r) (rq_AuthHash r) (rq_Census r) (rq_CensusID r) (rq_Keys r) (rq_Email r)
    (rq_EntityID r) (rq_Entity r) (rq_Filter r) (rq_ListOptions r) (rq_MemberID r)
    (rq_MemberIDs r) (rq_Member r) (rq_MemberInfo r) (rq_MembersInfo r) (rq_Method r)
    (rq_InvalidClaims r) (rq_PubKey r) (rq_ProcessID r) (rq_Signature r) (rq_Scope r)
    (rq_Status r) (rq_TagID r) (rq_TagName r) (rq_TargetID r) v (rq_Token r) (rq_Topic r)
    (rq_SignaturePublicKey r).
Definition setq_Token (v : string) (r : APIrequest) : APIrequest :=
  mkAPIrequest
  (rq_Amount r) (rq_AuthHash r) (rq_Census r) (rq_CensusID r) (rq_Keys r) (rq_Email r)
    (rq_EntityID r) (rq_Entity r) (rq_Filter r) (rq_ListOptions r) (rq_MemberID r)
    (rq_MemberIDs r) (rq_Member r) (rq_MemberInfo r) (rq_MembersInfo r) (rq_Method r)
    (rq_InvalidClaims r) (rq_PubKey r) (rq_ProcessID r) (rq_Signature r) (rq_Scope r)
    (rq_Status r) (rq_TagID r) (rq_TagName r) (rq_TargetID r) (rq_Timestamp r) v (rq_Topic
    r) (rq_SignaturePublicKey r).
Definition setq_Topic (v : string) (r : APIrequest) : APIrequest :=
  mkAPIrequest
  (rq_Amount r) (rq_AuthHash r) (rq_Census r) (rq_CensusID r) (rq_Keys r) (rq_Email r)
    (rq_EntityID r) (rq_Entity r) (rq_Filter r) (rq_ListOptions r) (rq_MemberID r)
    (rq_MemberIDs r) (rq_Member r) (rq_MemberInfo r) (rq_MembersInfo r) (rq_Method r)
    (rq_InvalidClaims r) (rq_PubKey r) (rq_ProcessID r) (rq_Signature r) (rq_Scope r)
    (rq_Status r) (rq_TagID r) (rq_TagName r) (rq_TargetID r) (rq_Timestamp r) (rq_Token r)
    v (rq_SignaturePublicKey r).
Definition setq_SignaturePublicKey (v : bytes) (r : APIrequest) : APIrequest :=
  mkAPIrequest
  (rq_Amount r) (rq_AuthHash r) (rq_Census r) (rq_CensusID r) (rq_Keys r) (rq_Email r)
    (rq_EntityID r) (rq_Entity r) (rq_Filter r) (rq_ListOptions r) (rq_MemberID r)
    (rq_MemberIDs r) (rq_Member r) (rq_MemberInfo r) (rq_MembersInfo r) (rq_Method r)
    (rq_InvalidClaims r) (rq_PubKey r) (rq_ProcessID r) (rq_Signature r) (rq_Scope r)
    (rq_Status r) (rq_TagID r) (rq_TagName r) (rq_TargetID r) (rq_Timestamp r) (rq_Token r)
    (rq_Topic r) v.

(** Methods of the messages (types/api.go). *)
Definition APIrequest_SetTimestamp (ts : Z) (r : APIrequest) : APIrequest := setq_Timestamp ts r.
Definition APIrequest_GetMethod (r : APIrequest) : string := rq_Method r.
Definition APIresponse_SetID (id : string) (r : APIresponse) : APIresponse := set_Request id r.
Definition APIresponse_SetTimestamp (ts : Z) (r : APIresponse) : APIresponse := set_Timestamp ts r.
Definition APIresponse_SetError (errorMsg : string) (r : APIresponse) : APIresponse :=
  set_Message errorMsg (set_Ok false r).

(** ** Metadata and news feeds

    Nothing in the program reads these; [Any] stands for interface{}, a value
    whose type is not known. A map that may be nil is read as an empty one. *)

Record NewsFeedItemAuthor := mkNewsFeedItemAuthor { nfa_Name : string; nfa_URL : string }.

Record NewsFeedItem (Any : Type) := mkNewsFeedItem {
  nfi_Tags : list Any;
  nfi_Author : NewsFeedItemAuthor;
  nfi_ID : string;
  nfi_Title : string;
  nfi_Summary : string;
  nfi_ContentText : string;
  nfi_ContentHTML : string;
  nfi_URL : string;
  nfi_Image : string;
  nfi_DatePublished : string;
  nfi_DateModified : string;
}.

Record NewsFeed (Any : Type) := mkNewsFeed {
  nf_Items : list (NewsFeedItem Any);
  nf_Version : string;
  nf_Title : string;
  nf_HomePageURL : string;
  nf_Description : string;
  nf_FeedURL : string;
  nf_Icon : string;
  nf_Favicon : string;
  nf_Expired : bool;
}.

Record EntityMetadata (Any : Type) := mkEntityMetadata {
  md_Version : string;
  md_Languages : list string;
  md_Name : gmap string string;
  md_Description : gmap string string;
  md_VotingProcesses : gmap string (list string);
  md_NewsFeed : gmap string string;
  md_Media : gmap string string;
  md_Actions : list Any;
  md_BootEntities : list Any;
  md_TrustedEntities : list Any;
  md_CensusServiceManagedEntities : list Any;
}.

(** ** Faucet amounts (types/consts.go) *)
Definition Finney : Z := 1000000000000000.
Definition MainnetDefaultFaucetAmount : Z := Finney.
Definition GoerliDefaultFaucetAmount : Z := Finney * 1500.
Definition XDAIDefaultFaucetAmount : Z := Finney * 100.
Definition DefaultGasLimit : Z := 1000000.

Definition DefaultFaucetAmount (name : string) : gerror + Z :=
  if decide (name = "mainnet") then inr MainnetDefaultFaucetAmount
  else if decide (name = "goerli") then inr GoerliDefaultFaucetAmount
  else if decide (name = "xdai") then inr XDAIDefaultFaucetAmount
  else if decide (name = "xdaistage") then inr XDAIDefaultFaucetAmount
  else if decide (name = "sokol") then inr GoerliDefaultFaucetAmount
  else inl (Errorf "chain name not found").


Lemma ToOrigin_Origin_String o : o <> API -> ToOrigin (Origin_String o) = o.
Proof. destruct o; vm_compute; congruence. Qed.
Lemma ToOrigin_API : ToOrigin (Origin_String API) = Token.
Proof. reflexivity. Qed.

(** ** Properties *)

(** The generated Origin.String and ToOrigin invert each other on every
    origin but API, which the generated table does not know: its name is
    "Origin(3)", and reading it back gives Token. *)
Lemma Origin_String_roundtrip (o : Origin) :
  ToOrigin (Origin_String o) = o <-> o <> API.
Proof. split; destruct o; vm_compute; congruence. Qed.
