(* ===== verification/Client.v ===== *)
(** * The registration client (cmd/managertest/managertest.go)

    A command that plays an organisation and its members against a running
    server: it signs an entity up, generates tokens and keys, and registers the
    keys with the tokens. Connections, keys, files and the log are the class
    [ClientHost]; log.Fatal ends the process, which here is a panic. What the
    client does with the server of this repository is proved in Flow. *)
From S2P Require Import Prelude GoLib Ext Util Types.

Class ClientHost (S : Type) := {
  (* signer.Generate: HexString's private key, and the public key *)
  cl_Generate : M S (string * bytes);
  (* signer.AddHexKey: the public key of a private key *)
  cl_AddHexKey : string -> gerror + bytes;
  cl_TempDir : M S string;
  cl_ReadFile : string -> M S string;
  cl_WriteFile : string -> string -> M S unit;
  (* NewWSapiConnection *)
  cl_Dial : M S unit;
  (* creg.Request and cmgr.Request with the key of the signer *)
  cl_registry : APIrequest -> bytes -> M S APIresponse;
  cl_manager : APIrequest -> bytes -> M S APIresponse;
  (* log.Errorf, log.Warnf: format and arguments *)
  cl_log : string -> list string -> M S unit;
}.

(* the command line; tls, host and route only choose the addresses *)
Record Flags := mkFlags {
  fl_entityKey : string;
  fl_eid : string;
  fl_method : string;
  fl_usersNumber : Z;
  fl_tokens : string;
  fl_privKeys : string;
}.

(* strings.Join *)
Fixpoint Join (l : list string) (sep : string) : string :=
  match l with
  | [] => ""
  | [s] => s
  | s :: l => s +:+ sep +:+ Join l sep
  end.
(* the bytes hex.DecodeString returns, those before the error if there is one *)
Fixpoint decoded (s : string) : bytes :=
  match s with
  | String a (String b t) =>
      match DecodeString (String a (String b "")) with
      | inr d => d +:+ decoded t
      | inl _ => ""
      end
  | _ => ""
  end.
Definition line_feed : ascii := ascii_of_nat 10.
Definition in_quotes (s : string) : string :=
  String (ascii_of_nat 34) (s +:+ String (ascii_of_nat 34) "").

Section client.
Context {X : Ext} {S : Type} {CH : ClientHost S}.

Definition Fatal {A} (msg : string) : M S A := panicM ("fatal: " +:+ msg).
Definition orFatal {A} (msg : string -> string) (m : M S A) : M S A :=
  let! r := tryM m in
  match r with inl err => Fatal (msg (error_string err)) | inr a => retM a end.
Definition in_parens (msg err : string) : string := msg +:+ " (" +:+ err +:+ ")".

(* a signer has a key once one was generated or added; a message cannot be
   signed without *)
Definition signed (request : APIrequest -> bytes -> M S APIresponse) (req : APIrequest)
    (signer : option bytes) : M S APIresponse :=
  match signer with
  | Some pub => request req pub
  | None => Fatal (rq_Method req)
  end.
(* s.AddHexKey(key), its error ignored *)
Definition add_key (key : string) (signer : option bytes) : option bytes :=
  match cl_AddHexKey key with inr pub => Some pub | inl _ => signer end.
(* privKeyList[idx] *)
Definition at_index (l : list string) (i : nat) : M S string :=
  match l !! i with Some s => retM s | None => panicM "runtime error: index out of range" end.

Definition splitFile (filepath : string) : M S (list string) :=
  let! f := cl_ReadFile filepath in retM (Split f line_feed).

(* the entity's key and identifier; without an identifier the old one stays *)
Definition generateEntity (eid : string) : M S (string * string) :=
  let! (priv, pub) := cl_Generate in
  match PubKeyToEntityID pub with
  | inl err => let! _ := cl_log "cannot calculate entityID: (%v)" [error_string err] in
               retM (priv, eid)
  | inr entityID => retM (priv, EncodeToString entityID)
  end.

Definition temp_dir (dir : string) : M S string :=
  if (len dir =? 0)%Z then orFatal (in_parens "error creating temp dir") cl_TempDir else retM dir.

Definition generateKeys (n : Z) (dir : string) : M S (list string) :=
  let! keys := mapM_ (fun _ => let! (priv, _) := cl_Generate in retM priv) (seq 0 (Z.to_nat n)) in
  let! dir := temp_dir dir in
  let! _ := orFatal (in_parens "error writting privKeys file")
    (cl_WriteFile (dir +:+ "/privKeys") (Join keys (String line_feed ""))) in
  retM keys.

Definition client_generateTokens (n : Z) (entityKey dir : string) : M S (list string) :=
  let! signer :=
    (if bool_decide (entityKey = "") then let! (_, pub) := cl_Generate in retM pub
     else match cl_AddHexKey entityKey with
          | inr pub => retM pub
          | inl err => panicM (error_string err)
          end) in
  let req := setq_Method "signUp" zero_APIrequest in
  let! resp := cl_manager req signer in
  let! _ := (if rs_Ok resp then retM tt
             else cl_log "error during entity signUp: (%s)" [rs_Message resp]) in
  let req := setq_Amount n (setq_Method "generateTokens" req) in
  let! resp := cl_manager req signer in
  if negb (rs_Ok resp) || negb (Z.of_nat (length (rs_Tokens resp)) =? n)%Z
  then Fatal "error generating entity tokens" else
  let tokens := map (fun token => in_quotes (uuid_String token)) (rs_Tokens resp) in
  let! dir := temp_dir dir in
  let! _ := orFatal (in_parens "error writting tokens file")
    (cl_WriteFile (dir +:+ "/tokens") (Join tokens (String line_feed ""))) in
  retM tokens.

Definition received_error (resp : APIresponse) : M S unit :=
  if rs_Ok resp then retM tt else cl_log "recieved error (%s)" [rs_Message resp].

Fixpoint client_registrationStatus (req : APIrequest) (privKeyList : list string)
    (signer : option bytes) : M S unit :=
  match privKeyList with
  | [] => retM tt
  | key :: privKeyList =>
      let signer := add_key key signer in
      let! resp := signed cl_registry req signer in
      let! _ := received_error resp in
      client_registrationStatus req privKeyList signer
  end.

Fixpoint client_validateToken (req : APIrequest) (idx : nat) (tokenList privKeyList : list string)
    (signer : option bytes) : M S unit :=
  match tokenList with
  | [] => retM tt
  | t :: tokenList =>
      let! signer :=
        (if 0 <? length privKeyList
         then let! key := at_index privKeyList idx in retM (add_key key signer)
         else let! (_, pub) := cl_Generate in retM (Some pub)) in
      let req := setq_Token t req in
      let! resp := signed cl_registry req signer in
      let! _ := received_error resp in
      client_validateToken req (idx + 1) tokenList privKeyList signer
  end.

(* one turn of the loop of registerFlow; the token of a turn is cleared before
   the next status is asked *)
Definition register_one (req : APIrequest) (idx : nat) (t : string) (privKeyList : list string)
    (signer : option bytes) : M S (option bytes * APIrequest) :=
  let! signer :=
    (if 0 <? length privKeyList
     then let! key := at_index privKeyList idx in retM (add_key key signer)
     else let! (_, pub) := cl_Generate in retM (Some pub)) in
  let report format args :=
    let! key := at_index privKeyList idx in cl_log format (args ++ [key]) in
  let req := setq_Method "registrationStatus" req in
  let! resp := signed cl_registry req signer in
  let! _ := (if rs_Ok resp && from_option s_Registered false (rs_Status resp)
             then report "privKey %s already registered" [] else retM tt) in
  let req := setq_Token t (setq_Method "validateToken" req) in
  let! resp := signed cl_registry req signer in
  let! _ := (if rs_Ok resp then retM tt
             else report "could not retrieve validate token (%q) for privKey (%q)" [t]) in
  let req := setq_Token "" (setq_Method "registrationStatus" req) in
  let! resp := signed cl_registry req signer in
  let! _ := (if rs_Ok resp then retM tt
             else report "could not retrieve status for privKey (%s)" []) in
  match rs_Status resp with
  | None => panicM "invalid memory address or nil pointer dereference"
  | Some status =>
      let! _ := (if s_Registered status then retM tt
                 else report "privKey %s was not registered correctly" []) in
      retM (signer, req)
  end.
Fixpoint registerFlow (req : APIrequest) (idx : nat) (tokenList privKeyList : list string)
    (signer : option bytes) : M S unit :=
  match tokenList with
  | [] => retM tt
  | t :: tokenList =>
      let! (signer, req) := register_one req idx t privKeyList signer in
      registerFlow req (idx + 1) tokenList privKeyList signer
  end.

(* the keys, and the directory they are written to *)
Definition client_keys (f : Flags) : M S (list string * string) :=
  if (0 <? len (fl_privKeys f))%Z then
    let! keys := orFatal id (splitFile (fl_privKeys f)) in retM (keys, "")
  else if (0 <? fl_usersNumber f)%Z then
    let! dir := orFatal (in_parens "error creating temp dir") cl_TempDir in
    let! keys := generateKeys (fl_usersNumber f) dir in retM (keys, dir)
  else Fatal "invalid arguments for keys generation".

(* the tokens, and the identifier of their entity *)
Definition client_tokens (f : Flags) (dir : string) : M S (list string * string) :=
  if (0 <? len (fl_tokens f))%Z then
    let! tokens := orFatal id (splitFile (fl_tokens f)) in retM (tokens, fl_eid f)
  else if (0 <? fl_usersNumber f)%Z then
    let! (key, eid) := (if (len (fl_entityKey f) =? 0)%Z then generateEntity (fl_eid f)
                        else retM (fl_entityKey f, fl_eid f)) in
    let! tokens := client_generateTokens (fl_usersNumber f) key dir in retM (tokens, eid)
  else Fatal "invalid arguments for token generation".

(* the cases generateTokens and registrationStatus generate an entity of their
   own: its private key and its address *)
Definition client_entity (f : Flags) : M S (string * string) :=
  if (len (fl_entityKey f) =? 0)%Z then
    let! (priv, pub) := cl_Generate in
    let! address := liftE (AddrFromPublicKey pub) in
    retM (priv, EncodeToString address)
  else retM (fl_entityKey f, fl_eid f).

(* entityID is decoded from the flag, before an entity may be generated *)
Definition client_main (f : Flags) : M S unit :=
  let entityID := decoded (fl_eid f) in
  let! _ := match DecodeString (fl_eid f) with
            | inl err => cl_log "error decoding entity id:  %v" [error_string err]
            | inr _ => retM tt
            end in
  let! (keys, dir) := client_keys f in
  let! _ := orFatal id cl_Dial in
  let req := setq_EntityID entityID zero_APIrequest in
  let with_tokens run :=
    let! (tokens, eid) := client_tokens f dir in
    if (len eid <? 20)%Z then Fatal "invalid entityID" else
    if (0 <? length keys) && negb (length keys =? length tokens)
    then Fatal "Mismatch on keys and tokens size" else run tokens in
  if String.eqb (fl_method f) "generateTokens" then
    if (fl_usersNumber f <=? 0)%Z then Fatal "invalid users number" else
    let! (key, _) := client_entity f in
    let! _ := client_generateTokens (fl_usersNumber f) key dir in retM tt
  else if String.eqb (fl_method f) "registrationStatus" then
    let! (_, eid) := (if (0 <? fl_usersNumber f)%Z then client_entity f
                      else retM (fl_entityKey f, fl_eid f)) in
    if (len eid <? 20)%Z then Fatal "invalid entityID" else
    if length keys =? 0 then Fatal "No keys provided" else
    client_registrationStatus (setq_Method "registrationStatus" req) keys None
  else if String.eqb (fl_method f) "validateToken" then
    with_tokens (fun tokens => client_validateToken (setq_Method "validateToken" req) 0 tokens keys None)
  else if String.eqb (fl_method f) "registrationFlow" then
    with_tokens (fun tokens => registerFlow req 0 tokens keys None)
  else retM tt.
End client.
