(* ===== verification/Wire.v ===== *)
(** * Messages of the clients (types/api.go, cmd/managertest/managertest.go, cmd/testclient/testclient.go)

    How the commands send a request: the envelope, its signature and its
    identifier, and what they check of the answer; and the command that sends
    the requests it reads from its input. Keys, JSON and connections are the
    class [Wire]; log.Fatal ends the process, which here is a panic. *)
From S2P Require Import Prelude GoLib Ext Util Types Client.

Record RequestMessage := mkRequestMessage {
  qm_MessageAPI : string;
  qm_ID : string;
  qm_Signature : bytes;
}.
Record ResponseMessage := mkResponseMessage {
  pm_MessageAPI : string;
  pm_ID : string;
  pm_Signature : bytes;
}.

(* [K] are the keys *)
Class Wire (S K : Type) := {
  wi_Unix : M S Z;
  (* rand.Intn(1000) *)
  wi_Intn : M S nat;
  wi_SortedMarshalJSON : APIrequest -> gerror + string;
  wi_SignVocdoniMsg : K -> string -> gerror + bytes;
  wi_Marshal : RequestMessage -> gerror + string;
  (* WS.Write and WS.Read, or HTTP.Post and ReadAll *)
  wi_Send : string -> M S string;
  wi_Unmarshal : string -> gerror + ResponseMessage;
  wi_Unmarshal_response : string -> gerror + APIresponse;
  wi_Unmarshal_request : string -> gerror + APIrequest;
  (* Generate, AddHexKey *)
  wi_Generate : M S K;
  wi_AddHexKey : string -> gerror + K;
  (* printNice *)
  wi_print : APIresponse -> M S unit;
}.

Section wire.
Context {S K : Type} {WI : Wire S K}.

Definition or_fatal {A} (method : string) (m : M S A) : M S A :=
  orFatal (fun err => method +:+ ": " +:+ err) m.

(* [transport] is how a failure of the connection is reported: the two commands
   differ there *)
Definition Request (transport : string -> M S string -> M S string) (req : APIrequest)
    (signer : option K) : M S APIresponse :=
  let method := rq_Method req in
  let! now := wi_Unix in
  let req := APIrequest_SetTimestamp (int32 now) req in
  let! reqInner := or_fatal method (liftE (wi_SortedMarshalJSON req)) in
  let! signature :=
    match signer with
    | Some key => or_fatal method (liftE (wi_SignVocdoniMsg key reqInner))
    | None => retM ""
    end in
  let! id := wi_Intn in
  let reqOuter := mkRequestMessage reqInner (decimal (Z.of_nat id)) signature in
  let! reqBody := or_fatal method (liftE (wi_Marshal reqOuter)) in
  let! message := transport method (wi_Send reqBody) in
  let! respOuter := or_fatal method (liftE (wi_Unmarshal message)) in
  if negb (String.eqb (pm_ID respOuter) (qm_ID reqOuter))
  then Fatal (method +:+ ": request ID doesn'tb match") else
  if (len (pm_Signature respOuter) =? 0)%Z
  then Fatal (method +:+ ": empty signature in response: " +:+ message) else
  or_fatal method (liftE (wi_Unmarshal_response (pm_MessageAPI respOuter))).

(* managertest *)
Definition manager_Request := Request or_fatal.
(* testclient *)
Definition test_Request := Request (fun _ => orFatal id).

(* processLine *)
Definition processLine (input : string) : M S APIrequest :=
  match wi_Unmarshal_request input with
  | inl err => panicM (error_string err)
  | inr req => retM req
  end.

(* a line that is not sent *)
Definition skipped (line : string) : bool := (len line <? 7)%Z || HasPrefix line "#".
Definition send_line (signer : option K) (line : string) : M S unit :=
  let! req := processLine line in
  let! resp := test_Request req signer in
  wi_print resp.
(* the lines of the input up to its end *)
Fixpoint test_lines (signer : option K) (lines : list string) : M S unit :=
  match lines with
  | [] => retM tt
  | line :: lines =>
      if skipped line then test_lines signer lines else
      let! _ := send_line signer line in
      test_lines signer lines
  end.
Definition testclient_main (privKey : string) (lines : list string) : M S unit :=
  let! signer :=
    if String.eqb privKey "" then wi_Generate
    else match wi_AddHexKey privKey with inl err => panicM (error_string err) | inr key => retM key end in
  test_lines (Some signer) lines.

(** ** Lemmas *)

Lemma orFatal_value {A} msg (m : M S A) s a s' : orFatal msg m s = (Ok a, s') -> m s = (Ok a, s').
Proof. unfold orFatal, bindM, tryM. by destruct (m s) as [[b|e|p] s1]. Qed.
Lemma or_fatal_lift {A} msg (x : gerror + A) s a s' :
  or_fatal msg (liftE x) s = (Ok a, s') -> x = inr a /\ s' = s.
Proof. intros H%orFatal_value. unfold liftE in H. destruct x; [done|]. by injection H as -> ->. Qed.

(* what Request gives back is an answer to the message it has sent: signed, and
   with its identifier *)
Lemma Request_answers transport req signer s resp s' :
  (forall m x t y t', transport m x t = (Ok y, t') -> x t = (Ok y, t')) ->
  Request transport req signer s = (Ok resp, s') ->
  exists now id inner signature body message answer s1,
    wi_SortedMarshalJSON (APIrequest_SetTimestamp (int32 now) req) = inr inner /\
    match signer with
    | Some key => wi_SignVocdoniMsg key inner = inr signature
    | None => signature = ""
    end /\
    wi_Marshal (mkRequestMessage inner (decimal (Z.of_nat id)) signature) = inr body /\
    wi_Send body s1 = (Ok message, s') /\ wi_Unmarshal message = inr answer /\
    pm_ID answer = decimal (Z.of_nat id) /\ pm_Signature answer <> "" /\
    wi_Unmarshal_response (pm_MessageAPI answer) = inr resp.
Proof.
  intros Ht. unfold Request. intros (now & s1 & _ & H)%bind_ok.
  apply bind_ok in H as (inner & s2 & [Hi ->]%or_fatal_lift & H).
  apply bind_ok in H as (signature & s3 & Hs & H).
  apply bind_ok in H as (id & s4 & _ & H).
  apply bind_ok in H as (body & s5 & [Hb ->]%or_fatal_lift & H).
  apply bind_ok in H as (message & s6 & Hm%Ht & H).
  apply bind_ok in H as (answer & s7 & [Ha ->]%or_fatal_lift & H).
  destruct (String.eqb_spec (pm_ID answer) (qm_ID (mkRequestMessage inner (decimal (Z.of_nat id)) signature)))
    as [Hid|]; [|done]. cbn [negb] in H.
  destruct (Z.eqb_spec (len (pm_Signature answer)) 0) as [|Hsig]; [done|].
  apply or_fatal_lift in H as [Hr ->].
  exists now, id, inner, signature, body, message, answer, s4. split_and!; try done.
  - destruct signer; [by apply or_fatal_lift in Hs as [? _]|by injection Hs].
  - intros E. by rewrite E in Hsig.
Qed.

(* the test client sends its lines in order, but for the short ones and the
   comments *)
Lemma test_lines_sent signer lines s :
  test_lines signer lines s =
  test_lines signer (filter (fun line => skipped line = false) lines) s.
Proof.
  revert s. induction lines as [|line lines IH]; intros s; [done|].
  rewrite filter_cons. cbn [test_lines]. destruct (skipped line) eqn:E; simpl; [apply IH|].
  rewrite E. unfold bindM. destruct (send_line signer line s) as [[u|e|p] s1]; [apply IH|done..].
Qed.
End wire.
