(* ===== verification/Schema.v ===== *)
(** * The relational schema (database/pgsql/migrations.go)

    The tables as the seven "up" migrations leave them, their primary keys,
    unique and foreign-key constraints, and the statements the program issues
    on them. A statement either fails with the error PostgreSQL reports and
    leaves every table as it was, or returns its result and the new tables. *)
From S2P Require Import Prelude GoLib Ext Types.

(** ** Rows and tables. A nullable column is an option. *)

Record EntityRow := mkEntityRow {
  er_is_authorized : bool;
  er_email : string;
  er_name : string;
  er_type : string;
  er_size : Z;
  er_consented : bool;
  er_callback_url : string;
  er_callback_secret : string;
  er_census_managers_addresses : list bytes;
  er_created_at : Z;
  er_updated_at : Z;
}.

Record UserRow := mkUserRow {
  ur_digested_public_key : bytes;
  ur_created_at : Z;
  ur_updated_at : Z;
}.

Record MemberRow := mkMemberRow {
  mr_entity_id : bytes;
  mr_public_key : option bytes;
  mr_street_address : string;
  mr_first_name : string;
  mr_last_name : string;
  mr_email : option string;
  mr_phone : string;
  mr_date_of_birth : Z;
  mr_origin : Origin;
  mr_consented : bool;
  mr_verified : Z;
  mr_custom_fields : bytes;
  mr_tags : list Z;
  mr_created_at : Z;
  mr_updated_at : Z;
}.

Record TargetRow := mkTargetRow {
  tr_entity_id : bytes;
  tr_name : string;
  tr_filters : string;
  tr_created_at : Z;
  tr_updated_at : Z;
}.

Record CensusRow := mkCensusRow {
  cr_entity_id : bytes;
  cr_target_id : uuid;
  cr_name : string;
  cr_size : Z;
  cr_merkle_root : bytes;
  cr_merkle_tree_uri : string;
  cr_ephemeral : bool;
  cr_created_at : Z;
  cr_updated_at : Z;
}.

Record CensusMemberRow := mkCensusMemberRow {
  xr_ephemeral : bool;
  xr_public_key : option bytes;
  xr_digested_public_key : option bytes;
  xr_private_key : option bytes;
}.

Record TagRow := mkTagRow {
  gr_entity_id : bytes;
  gr_name : string;
  gr_created_at : Z;
  gr_updated_at : Z;
}.

Record Db := mkDb {
  entities : gmap bytes EntityRow;
  entities_origins : gset (Origin * bytes);
  users : gmap bytes UserRow;
  members : gmap uuid MemberRow;
  targets : gmap uuid TargetRow;
  censuses : gmap bytes CensusRow;
  census_members : gmap (uuid * bytes) CensusMemberRow;
  tags : gmap Z TagRow;
}.

Definition empty_db : Db := mkDb ∅ ∅ ∅ ∅ ∅ ∅ ∅ ∅.

Definition set_entities v d := mkDb v (entities_origins d) (users d) (members d)
  (targets d) (censuses d) (census_members d) (tags d).
Definition set_entities_origins v d := mkDb (entities d) v (users d) (members d)
  (targets d) (censuses d) (census_members d) (tags d).
Definition set_users v d := mkDb (entities d) (entities_origins d) v (members d)
  (targets d) (censuses d) (census_members d) (tags d).
Definition set_members v d := mkDb (entities d) (entities_origins d) (users d) v
  (targets d) (censuses d) (census_members d) (tags d).
Definition set_targets v d := mkDb (entities d) (entities_origins d) (users d) (members d)
  v (censuses d) (census_members d) (tags d).
Definition set_censuses v d := mkDb (entities d) (entities_origins d) (users d) (members d)
  (targets d) v (census_members d) (tags d).
Definition set_census_members v d := mkDb (entities d) (entities_origins d) (users d)
  (members d) (targets d) (censuses d) v (tags d).
Definition set_tags v d := mkDb (entities d) (entities_origins d) (users d) (members d)
  (targets d) (censuses d) (census_members d) v.

(** ** Statements *)

Definition Stmt (A : Type) : Type := Db -> gerror + (A * Db).

(* SELECT: reads only *)
Definition select {A} (f : Db -> A) : Stmt A := fun d => inr (f d, d).
(* a statement PostgreSQL refuses to run *)
Definition sql_error {A} (e : gerror) : Stmt A := fun _ => inl e.

(* some row satisfies the condition *)
Definition exists_row {K R} `{Countable K} (p : K -> R -> bool) (m : gmap K R) : bool :=
  existsb (fun x => p x.1 x.2) (map_to_list m).

(* The first error of a list of checks. *)
Fixpoint first_error (l : list (bool * gerror)) : option gerror :=
  match l with
  | [] => None
  | (ok, e) :: l => if ok : bool then first_error l else Some e
  end.
Definition checked {A} (l : list (bool * gerror)) (s : Stmt A) : Stmt A :=
  fun d => match first_error l with Some e => inl e | None => s d end.

(* Go ints are sent as int4 *)
Definition int4 (z : Z) : bool * gerror := (in_int32 z, PgOther "integer out of range").

Definition insert_entity (id : bytes) (r : EntityRow) : Stmt nat := fun d =>
  checked [int4 (er_size r);
           (bool_decide (entities d !! id = None), PgUnique "entities_pkey")]
    (fun d => inr (1, set_entities (<[id := r]> (entities d)) d)) d.

(* CAST(... AS origins): the labels of the enum type *)
Definition enum_origin (label : string) : option Origin :=
  if decide (label = "Token") then Some Token
  else if decide (label = "Form") then Some Form
  else if decide (label = "DB") then Some DB
  else if decide (label = "API") then Some API
  else None.

Definition insert_origin (id : bytes) (label : string) : Stmt nat := fun d =>
  match enum_origin label with
  | None => inl (PgOther ("ERROR: invalid input value for enum origins: " +:+ quoted label))
  | Some o =>
      checked [(bool_decide ((o, id) ∉ entities_origins d), PgUnique "entities_origins_pkey");
               (bool_decide (is_Some (entities d !! id)),
                 PgForeignKey "entities_origins" "entities_origins_entity_id_fkey")]
        (fun d => inr (1, set_entities_origins ({[(o, id)]} ∪ entities_origins d) d)) d
  end.

(* A multi-row INSERT is one statement: all its rows or none. *)
Fixpoint each_row {R} (s : R -> Stmt nat) (rows : list R) : Stmt nat := fun d =>
  match rows with
  | [] => inr (0, d)
  | r :: rows =>
      match s r d with
      | inl e => inl e
      | inr (n, d1) =>
          match each_row s rows d1 with
          | inl e => inl e
          | inr (k, d2) => inr (n + k, d2)
          end
      end
  end.

Definition insert_user (pk digested : option bytes) (now1 now2 : Z) : Stmt nat := fun d =>
  match pk, digested with
  | Some pk, Some dg =>
      checked [(bool_decide (users d !! pk = None), PgUnique "users_pkey");
               (negb (exists_row (fun _ u => bool_decide (ur_digested_public_key u = dg)) (users d)),
                 PgUnique "users_digested_public_key_unique")]
        (fun d => inr (1, set_users (<[pk := mkUserRow dg now1 now2]> (users d)) d)) d
  | None, _ => inl (PgNotNull "public_key")
  | _, None => inl (PgNotNull "digested_public_key")
  end.

(* the unique constraints of table members, for a row stored under [id] *)
Definition member_unique_checks (d : Db) (id : uuid) (r : MemberRow) : list (bool * gerror) :=
  [(negb (exists_row (fun i r' => bool_decide (i <> id /\ mr_entity_id r' = mr_entity_id r /\
      mr_public_key r <> None /\ mr_public_key r' = mr_public_key r)) (members d)),
     PgUnique "members_entity_id_public_key_unique");
   (negb (exists_row (fun i r' => bool_decide (i <> id /\ mr_entity_id r' = mr_entity_id r /\
      mr_email r <> None /\ mr_email r' = mr_email r)) (members d)),
     PgUnique "members_entity_id_email_unique")].

(* the foreign keys of table members *)
Definition member_fk_checks (d : Db) (r : MemberRow) : list (bool * gerror) :=
  [(bool_decide (is_Some (entities d !! mr_entity_id r)),
     PgForeignKey "members" "members_entity_id_fkey");
   (bool_decide ((mr_origin r, mr_entity_id r) ∈ entities_origins d),
     PgForeignKey "members" "members_entity_id_origins_fkey");
   (match mr_public_key r with
    | None => true
    | Some k => bool_decide (is_Some (users d !! k))
    end, PgForeignKey "members" "members_public_key_fkey")].

Definition insert_member_row (x : uuid * MemberRow) : Stmt nat := fun d =>
  checked ((bool_decide (members d !! x.1 = None), PgUnique "members_pkey")
             :: member_unique_checks d x.1 x.2)
    (fun d => inr (1, set_members (<[x.1 := x.2]> (members d)) d)) d.

(* INSERT INTO members VALUES ...: unique indexes are checked row by row,
   foreign keys at the end of the statement *)
Definition insert_members (rows : list (uuid * MemberRow)) : Stmt nat := fun d =>
  match each_row insert_member_row rows d with
  | inl e => inl e
  | inr (n, d') =>
      match first_error (concat (map (fun x => member_fk_checks d' x.2) rows)) with
      | Some e => inl e
      | None => inr (n, d')
      end
  end.

(* UPDATE members ... WHERE id = $1 AND entity_id = $2 AND p *)
Definition update_member (id : uuid) (entity_id : bytes) (p : MemberRow -> bool)
    (f : MemberRow -> MemberRow) : Stmt nat := fun d =>
  match members d !! id with
  | Some r =>
      if bool_decide (mr_entity_id r = entity_id) && p r then
        checked (member_unique_checks d id (f r) ++ member_fk_checks d (f r))
          (fun d => inr (1, set_members (<[id := f r]> (members d)) d)) d
      else inr (0, d)
  | None => inr (0, d)
  end.

Definition set_row_tags (f : list Z -> list Z) (r : MemberRow) : MemberRow :=
  mkMemberRow (mr_entity_id r) (mr_public_key r) (mr_street_address r) (mr_first_name r)
    (mr_last_name r) (mr_email r) (mr_phone r) (mr_date_of_birth r) (mr_origin r)
    (mr_consented r) (mr_verified r) (mr_custom_fields r) (f (mr_tags r))
    (mr_created_at r) (mr_updated_at r).

(* UPDATE members SET tags = ... WHERE p RETURNING id *)
Definition update_members_tags (p : uuid -> MemberRow -> bool) (f : list Z -> list Z) :
    Stmt (list uuid) := fun d =>
  let hit := filter (fun x => p x.1 x.2 = true) (map_to_list (members d)) in
  inr (hit.*1, set_members (map_imap (fun i r => Some (if p i r then set_row_tags f r else r))
                              (members d)) d).

(* DELETE FROM members WHERE p RETURNING ...; census_members ON DELETE CASCADE *)
Definition delete_members (p : uuid -> MemberRow -> bool) : Stmt (list (uuid * MemberRow)) :=
  fun d =>
  let hit := filter (fun x => p x.1 x.2 = true) (map_to_list (members d)) in
  let left := filter (fun x => p x.1 x.2 = false) (members d) in
  inr (hit, set_census_members (filter (fun x => is_Some (left !! x.1.1)) (census_members d))
              (set_members left d)).

(* DELETE FROM entities WHERE id = $1: every table of the entity cascades *)
Definition delete_entity (id : bytes) : Stmt nat := fun d =>
  match entities d !! id with
  | None => inr (0, d)
  | Some _ =>
      let ms := filter (fun x => mr_entity_id x.2 <> id) (members d) in
      let cs := filter (fun x => cr_entity_id x.2 <> id) (censuses d) in
      let ts := filter (fun x => tr_entity_id x.2 <> id) (targets d) in
      (* censuses of other entities keep the targets they name *)
      if negb (exists_row (fun _ c => bool_decide (ts !! cr_target_id c = None)) cs) then
        inr (1, mkDb (delete id (entities d))
                  (filter (fun x => x.2 <> id) (entities_origins d))
                  (users d) ms ts cs
                  (filter (fun x => is_Some (ms !! x.1.1) /\ is_Some (cs !! x.1.2))
                     (census_members d))
                  (filter (fun x => gr_entity_id x.2 <> id) (tags d)))
      else inl (PgForeignKey "targets" "censuses_target_id_fkey")
  end.

(* UPDATE entities SET ... WHERE id = $1 AND p *)
Definition update_entity (id : bytes) (p : EntityRow -> bool) (f : EntityRow -> EntityRow) :
    Stmt nat := fun d =>
  match entities d !! id with
  | Some r => if p r then inr (1, set_entities (<[id := f r]> (entities d)) d) else inr (0, d)
  | None => inr (0, d)
  end.

(* a nil json.RawMessage is NULL *)
Definition insert_target (id : uuid) (r : TargetRow) : Stmt uuid := fun d =>
  checked [(negb (bool_decide (tr_filters r = "")), PgNotNull "filters");
           (bool_decide (targets d !! id = None), PgUnique "targets_pkey");
           (negb (exists_row (fun _ r' => bool_decide (tr_entity_id r' = tr_entity_id r /\
              tr_name r' = tr_name r)) (targets d)), PgUnique "targets_entity_id_name_unique");
           (bool_decide (is_Some (entities d !! tr_entity_id r)),
              PgForeignKey "targets" "targets_entity_id_fkey")]
    (fun d => inr (id, set_targets (<[id := r]> (targets d)) d)) d.

Definition insert_census (id : bytes) (r : CensusRow) : Stmt nat := fun d =>
  checked [int4 (cr_size r);
           (bool_decide (censuses d !! id = None), PgUnique "censuses_pkey");
           (bool_decide (is_Some (targets d !! cr_target_id r)),
              PgForeignKey "censuses" "censuses_target_id_fkey");
           (bool_decide (is_Some (entities d !! cr_entity_id r)),
              PgForeignKey "censuses" "censuses_entity_id_fkey")]
    (fun d => inr (1, set_censuses (<[id := r]> (censuses d)) d)) d.

(* UPDATE censuses SET ... WHERE id = $1 AND entity_id = $2; the updates keep
   entity_id and target_id *)
Definition update_census (id entity_id : bytes) (f : CensusRow -> CensusRow) : Stmt nat :=
  fun d =>
  match censuses d !! id with
  | Some r =>
      if bool_decide (cr_entity_id r = entity_id)
      then inr (1, set_censuses (<[id := f r]> (censuses d)) d) else inr (0, d)
  | None => inr (0, d)
  end.

(* DELETE FROM censuses WHERE id = $1 AND entity_id = $2, cascading *)
Definition delete_census (id entity_id : bytes) : Stmt nat := fun d =>
  match censuses d !! id with
  | Some r =>
      if bool_decide (cr_entity_id r = entity_id)
      then inr (1, set_census_members (filter (fun x => x.1.2 <> id) (census_members d))
                     (set_censuses (delete id (censuses d)) d))
      else inr (0, d)
  | None => inr (0, d)
  end.

Definition insert_census_member (x : (uuid * bytes) * CensusMemberRow) : Stmt nat := fun d =>
  checked [(bool_decide (census_members d !! x.1 = None), PgUnique "census_members_pkey");
           (bool_decide (is_Some (members d !! x.1.1)),
              PgForeignKey "census_members" "census_members_member_id_fkey");
           (bool_decide (is_Some (censuses d !! x.1.2)),
              PgForeignKey "census_members" "census_members_census_id_fkey")]
    (fun d => inr (1, set_census_members (<[x.1 := x.2]> (census_members d)) d)) d.

Definition insert_tag (id : Z) (r : TagRow) : Stmt Z := fun d =>
  checked [(bool_decide (tags d !! id = None), PgUnique "tags_pkey");
           (negb (exists_row (fun _ r' => bool_decide (gr_name r' = gr_name r /\
              gr_entity_id r' = gr_entity_id r)) (tags d)),
              PgUnique "tags_name_entity_id_unique");
           (bool_decide (is_Some (entities d !! gr_entity_id r)),
              PgForeignKey "tags" "tags_entity_id_fkey")]
    (fun d => inr (id, set_tags (<[id := r]> (tags d)) d)) d.

(* DELETE FROM tags WHERE id = $1 AND entity_id = $2 *)
Definition delete_tag (id : Z) (entity_id : bytes) : Stmt nat := fun d =>
  match tags d !! id with
  | Some r => if bool_decide (gr_entity_id r = entity_id)
              then inr (1, set_tags (delete id (tags d)) d) else inr (0, d)
  | None => inr (0, d)
  end.
