(* ===== verification/SchemaOk.v ===== *)
(** * The integrity of the tables

    [db_ok] is the conjunction of the schema's unique and foreign-key
    constraints; every statement of Schema preserves it. [StmtInv I e K]: every
    statement issued for the entity [e] keeps [I], as far as [K] permits it: the
    keys it stores, the members it deletes. *)
From S2P Require Import Prelude GoLib Ext Types Schema.

Definition functional_in {K R V} `{Countable K} (f : R -> option V) (m : gmap K R) : Prop :=
  forall k1 k2 r1 r2 v, m !! k1 = Some r1 -> m !! k2 = Some r2 ->
    f r1 = Some v -> f r2 = Some v -> k1 = k2.

(* the keys of the unique constraints *)
Definition member_pubkey_key (r : MemberRow) : option (bytes * bytes) :=
  k ← mr_public_key r; Some (mr_entity_id r, k).
Definition member_email_key (r : MemberRow) : option (bytes * string) :=
  m ← mr_email r; Some (mr_entity_id r, m).
Definition target_key (r : TargetRow) : option (bytes * string) :=
  Some (tr_entity_id r, tr_name r).
Definition tag_key (r : TagRow) : option (string * bytes) :=
  Some (gr_name r, gr_entity_id r).
Definition user_key (r : UserRow) : option bytes := Some (ur_digested_public_key r).

Record unique_ok (d : Db) : Prop := {
  ok_users : functional_in user_key (users d);
  ok_members_pubkey : functional_in member_pubkey_key (members d);
  ok_members_email : functional_in member_email_key (members d);
  ok_targets : functional_in target_key (targets d);
  ok_tags : functional_in tag_key (tags d);
}.

Record member_fk_ok (d : Db) (r : MemberRow) : Prop := {
  fk_member_entity : is_Some (entities d !! mr_entity_id r);
  fk_member_origin : (mr_origin r, mr_entity_id r) ∈ entities_origins d;
  fk_member_user : forall k, mr_public_key r = Some k -> is_Some (users d !! k);
}.

Record fk_ok (d : Db) : Prop := {
  fk_origins : forall o e, (o, e) ∈ entities_origins d -> is_Some (entities d !! e);
  fk_members : forall i r, members d !! i = Some r -> member_fk_ok d r;
  fk_targets : forall i r, targets d !! i = Some r -> is_Some (entities d !! tr_entity_id r);
  fk_censuses_entity : forall i r, censuses d !! i = Some r ->
    is_Some (entities d !! cr_entity_id r);
  fk_censuses_target : forall i r, censuses d !! i = Some r ->
    is_Some (targets d !! cr_target_id r);
  fk_census_members_member : forall i c r, census_members d !! (i, c) = Some r ->
    is_Some (members d !! i);
  fk_census_members_census : forall i c r, census_members d !! (i, c) = Some r ->
    is_Some (censuses d !! c);
  fk_tags : forall i r, tags d !! i = Some r -> is_Some (entities d !! gr_entity_id r);
}.

Definition db_ok (d : Db) : Prop := unique_ok d /\ fk_ok d.

Definition stmt_ok {A} (I : Db -> Prop) (s : Stmt A) : Prop :=
  forall d a d', I d -> s d = inr (a, d') -> I d'.

Create HintDb schema discriminated.

(** ** Generic lemmas *)

Lemma exists_row_false {K R} `{Countable K} (p : K -> R -> bool) (m : gmap K R) :
  exists_row p m = false <-> forall k r, m !! k = Some r -> p k r = false.
Proof.
  unfold exists_row. rewrite <- not_true_iff_false, existsb_exists. split.
  - intros Hn k r Hk. apply not_true_is_false. intros Hp. apply Hn.
    exists (k, r). split; [|done]. by apply list_elem_of_In, elem_of_map_to_list.
  - intros Hf [[k r] [Hin Hp]]. apply list_elem_of_In, elem_of_map_to_list in Hin.
    simpl in Hp. by rewrite (Hf k r) in Hp.
Qed.

Lemma checked_inv {A} l (s : Stmt A) d x :
  checked l s d = inr x -> Forall (fun c => c.1 = true) l /\ s d = inr x.
Proof.
  unfold checked. induction l as [|[b e] l IH]; simpl; [done|].
  destruct b; [|done]. intros [H1 H2]%IH. by repeat constructor.
Qed.

Lemma first_error_none l : first_error l = None -> Forall (fun c => c.1 = true) l.
Proof. induction l as [|[[] e] l IH]; simpl; [done| |done]. intros. constructor; auto. Qed.

Lemma first_error_some l : Forall (fun c => c.1 = true) l -> first_error l = None.
Proof. induction 1 as [|[[] e] l H _ IH]; simpl in *; done. Qed.

Lemma functional_insert {K R V} `{Countable K} (f : R -> option V) (m : gmap K R) k r :
  functional_in f m ->
  (forall k' r' v, k' <> k -> m !! k' = Some r' -> f r' = Some v -> f r <> Some v) ->
  functional_in f (<[k := r]> m).
Proof.
  intros Hm Hf k1 k2 r1 r2 v. rewrite !lookup_insert.
  repeat case_decide; intros; simplify_eq; try done; [| |by eapply Hm].
  - exfalso. by eapply (Hf k2 r2 v).
  - exfalso. by eapply (Hf k1 r1 v).
Qed.

Lemma functional_filter {K R V} `{Countable K} (f : R -> option V) (m m' : gmap K R) :
  functional_in f m -> m' ⊆ m -> functional_in f m'.
Proof.
  intros Hm Hs k1 k2 r1 r2 v H1 H2. eapply Hm; eapply lookup_weaken; eauto.
Qed.

Lemma functional_delete {K R V} `{Countable K} (f : R -> option V) (m : gmap K R) k :
  functional_in f m -> functional_in f (delete k m).
Proof. intros Hm. eapply functional_filter; [done|]. apply delete_subseteq. Qed.

#[export] Hint Resolve functional_insert functional_delete ok_users ok_members_pubkey
  ok_members_email ok_targets ok_tags : schema.

(* Turns the checks of a successful statement into facts. *)
Ltac checks H :=
  let Hc := fresh "Hc" in
  apply checked_inv in H as [Hc H]; simplify_eq H; clear H; intros; subst;
  repeat match goal with
    | H : Forall _ (_ :: _) |- _ => apply Forall_cons in H as [? H]; simpl in *
    | H : Forall _ [] |- _ => clear H
    | H : Forall _ (_ ++ _) |- _ => apply Forall_app in H as [H ?]
    | H : bool_decide _ = true |- _ => apply bool_decide_eq_true_1 in H
    | H : negb _ = true |- _ => apply negb_true_iff in H
    | H : exists_row _ _ = false |- _ => rewrite exists_row_false in H
    end.

(* The outcomes of a statement that leaves the tables of the goal alone. *)
Ltac same_statement :=
  repeat (unfold checked; first
    [ progress (intros [= _ <-]) | done
    | match goal with |- context [match ?x with _ => _ end] => destruct x end ]); done.

(* Lookups in an updated table, by cases. *)
Ltac row_cases :=
  repeat match goal with
    | H : <[_ := _]> _ !! _ = Some _ |- _ => rewrite lookup_insert in H
    | H : delete _ _ !! _ = Some _ |- _ => apply lookup_delete_Some in H as [??]
    | H : filter _ _ !! _ = Some _ |- _ => apply map_lookup_filter_Some in H as [??]
    | H : context [decide _] |- _ => case_decide; simplify_eq
    | |- is_Some (<[_ := _]> _ !! _) => rewrite lookup_insert; case_decide
    | |- context [decide _] => case_decide
    end.

Section statements.
Lemma each_row_ok {R} (I : Db -> Prop) (s : R -> Stmt nat) rows :
  (forall r, stmt_ok I (s r)) -> stmt_ok I (each_row s rows).
Proof.
  intros Hs. induction rows as [|r rows IH]; intros d a d' Hd; simpl; [by intros [= <- <-]|].
  destruct (s r d) as [|[n d1]] eqn:E1; [done|].
  destruct (each_row s rows d1) as [|[k d2]] eqn:E2; [done|]. intros [= <- <-].
  eapply IH; [|done]. by eapply Hs.
Qed.

Lemma insert_entity_ok id r : stmt_ok db_ok (insert_entity id r).
Proof.
  intros d a d' [Hu Hf] H. unfold insert_entity in H. checks H.
  split; [by destruct Hu|].
  destruct Hf; constructor; simpl; intros; row_cases; eauto.
  edestruct fk_members0 as [???]; eauto. constructor; simpl; eauto.
  row_cases; eauto.
Qed.

Lemma insert_origin_ok id label : stmt_ok db_ok (insert_origin id label).
Proof.
  intros d a d' [Hu Hf] H. unfold insert_origin in H.
  destruct (enum_origin label) as [o|]; [|done]. checks H.
  split; [by destruct Hu|].
  destruct Hf; constructor; simpl; intros; eauto.
  - set_unfold. naive_solver.
  - edestruct fk_members0 as [???]; eauto. constructor; simpl; eauto. set_solver.
Qed.

Lemma insert_user_ok pk dg n1 n2 : stmt_ok db_ok (insert_user pk dg n1 n2).
Proof.
  intros d a d' [Hu Hf] H. unfold insert_user in H.
  destruct pk as [pk|], dg as [dg|]; try done. checks H. split.
  - destruct Hu; constructor; simpl; auto. apply functional_insert; [done|].
    unfold user_key. intros k' r' v Hne Hk [= <-] [= Heq].
    match goal with H : forall _ _, _ -> bool_decide _ = false |- _ =>
      specialize (H k' r' Hk); apply bool_decide_eq_false_1 in H end. congruence.
  - destruct Hf; constructor; simpl; intros; eauto.
    edestruct fk_members0 as [???]; eauto. constructor; simpl; eauto.
    intros; row_cases; eauto.
Qed.

Lemma member_unique_ok d id r :
  unique_ok d -> Forall (fun c => c.1 = true) (member_unique_checks d id r) ->
  unique_ok (set_members (<[id := r]> (members d)) d).
Proof.
  intros Hu Hc. unfold member_unique_checks in Hc.
  apply Forall_cons in Hc as [H1 Hc]. apply Forall_cons in Hc as [H2 _]. simpl in *.
  apply negb_true_iff in H1, H2. rewrite exists_row_false in H1, H2.
  destruct Hu; constructor; simpl; auto; apply functional_insert; auto;
    [unfold member_pubkey_key|unfold member_email_key]; intros k' r' v Hne Hk E1 E2;
    [specialize (H1 k' r' Hk)|specialize (H2 k' r' Hk)].
  - apply bool_decide_eq_false_1 in H1. apply H1.
    destruct (mr_public_key r), (mr_public_key r'); simplify_eq/=. naive_solver.
  - apply bool_decide_eq_false_1 in H2. apply H2.
    destruct (mr_email r), (mr_email r'); simplify_eq/=. naive_solver.
Qed.

Lemma member_fk_checks_ok d r :
  Forall (fun c => c.1 = true) (member_fk_checks d r) -> member_fk_ok d r.
Proof.
  unfold member_fk_checks. intros H.
  repeat (apply Forall_cons in H as [? H]; simpl in *).
  repeat match goal with H : bool_decide _ = true |- _ =>
    apply bool_decide_eq_true_1 in H end.
  constructor; auto. intros k Hk. rewrite Hk in *. by eapply bool_decide_eq_true_1.
Qed.

Lemma member_fk_weaken d d' r :
  member_fk_ok d r -> entities d = entities d' -> entities_origins d = entities_origins d' ->
  users d = users d' -> member_fk_ok d' r.
Proof. intros [] E1 E2 E3. rewrite E1, E2, E3 in *. by constructor. Qed.

Lemma insert_member_fk d id r :
  fk_ok d -> member_fk_ok d r -> fk_ok (set_members (<[id := r]> (members d)) d).
Proof.
  intros Hf Hr. destruct Hf; constructor; simpl; intros; row_cases; eauto using member_fk_weaken.
Qed.
End statements.

(** Inserting member rows one by one. *)
Definition add_members (rows : list (uuid * MemberRow)) (d : Db) : Db :=
  set_members (foldl (fun m x => <[x.1 := x.2]> m) (members d) rows) d.

Lemma add_members_cons x rows d :
  add_members (x :: rows) d = add_members rows (set_members (<[x.1 := x.2]> (members d)) d).
Proof. reflexivity. Qed.

Lemma foldl_insert_lookup {K R} `{Countable K} (rows : list (K * R)) (m : gmap K R) i r :
  foldl (fun m x => <[x.1 := x.2]> m) m rows !! i = Some r ->
  m !! i = Some r \/ (i, r) ∈ rows.
Proof.
  revert m. induction rows as [|[j q] rows IH]; simpl; intros m Hm; [auto|].
  apply IH in Hm as [Hm|Hm]; [|set_solver].
  rewrite lookup_insert in Hm. case_decide; simplify_eq; [set_solver|auto].
Qed.

Lemma foldl_insert_is_Some {K R} `{Countable K} (rows : list (K * R)) (m : gmap K R) i :
  is_Some (foldl (fun m x => <[x.1 := x.2]> m) m rows !! i) <->
  is_Some (m !! i) \/ i ∈ rows.*1.
Proof.
  revert m. induction rows as [|[j q] rows IH]; simpl; intros m; [set_solver|].
  rewrite IH, lookup_insert, elem_of_cons. case_decide; subst; naive_solver.
Qed.

Lemma foldl_insert_notin {K R} `{Countable K} (rows : list (K * R)) (m : gmap K R) i :
  i ∉ rows.*1 -> foldl (fun m x => <[x.1 := x.2]> m) m rows !! i = m !! i.
Proof.
  revert m. induction rows as [|[j q] rows IH]; simpl; intros m Hi; [done|].
  rewrite IH by set_solver. rewrite lookup_insert_ne; set_solver.
Qed.

Lemma each_row_members rows d n d' :
  each_row insert_member_row rows d = inr (n, d') ->
  n = length rows /\ d' = add_members rows d /\ NoDup rows.*1 /\
  (forall x, x ∈ rows -> members d !! x.1 = None) /\
  (unique_ok d -> unique_ok d').
Proof.
  revert d n d'. induction rows as [|[i r] rows IH]; intros d n d'; simpl.
  - intros [= <- <-]. split_and!; [done|by destruct d|constructor|set_solver|done].
  - destruct (insert_member_row (i, r) d) as [|[n1 d1]] eqn:E1; [done|].
    destruct (each_row _ rows d1) as [|[k d2]] eqn:E2; [done|]. intros [= <- <-].
    unfold insert_member_row in E1. apply checked_inv in E1 as [Hc E1].
    injection E1 as <- <-. apply Forall_cons in Hc as [Hpk Hc]. simpl in *.
    apply bool_decide_eq_true_1 in Hpk.
    destruct (IH _ _ _ E2) as (-> & -> & Hnd & Hin & Hu). clear IH.
    split_and!; [done|done| | |].
    + constructor; [|done]. intros ([j q] & -> & Hj)%list_elem_of_fmap.
      specialize (Hin _ Hj). simpl in Hin. by rewrite lookup_insert_eq in Hin.
    + intros x [->|Hx]%elem_of_cons; [done|].
      specialize (Hin _ Hx). simpl in Hin. rewrite lookup_insert in Hin. by case_decide.
    + intros Hd. apply Hu. by apply member_unique_ok.
Qed.

Lemma Forall_concat_map {A B} (P : B -> Prop) (f : A -> list B) l :
  Forall P (concat (map f l)) <-> forall x, x ∈ l -> Forall P (f x).
Proof.
  induction l as [|a l IH]; simpl; [set_solver by constructor|].
  rewrite Forall_app, IH. set_solver.
Qed.

Lemma insert_members_inv rows d n d' :
  insert_members rows d = inr (n, d') ->
  n = length rows /\ d' = add_members rows d /\ NoDup rows.*1 /\
  (forall x, x ∈ rows -> members d !! x.1 = None) /\
  (forall x, x ∈ rows -> member_fk_ok d x.2) /\
  (unique_ok d -> unique_ok d').
Proof.
  unfold insert_members. destruct (each_row _ rows d) as [|[k d1]] eqn:E; [done|].
  destruct (first_error _) eqn:Ef; [done|]. intros [= <- <-].
  apply each_row_members in E as (-> & -> & Hnd & Hin & Hu).
  split_and!; try done. intros x Hx. apply first_error_none in Ef.
  rewrite Forall_concat_map in Ef. pose proof (member_fk_checks_ok _ _ (Ef x Hx)).
  by eapply member_fk_weaken.
Qed.

Lemma add_members_fk rows d :
  fk_ok d -> (forall x, x ∈ rows -> member_fk_ok d x.2) -> fk_ok (add_members rows d).
Proof.
  intros Hf Hr. destruct Hf; constructor; simpl; intros; eauto.
  - apply foldl_insert_lookup in H as [H|H]; [eauto using member_fk_weaken|].
    eapply member_fk_weaken; [by apply (Hr (i, r))|done..].
  - apply foldl_insert_is_Some. left. eauto.
Qed.

Lemma insert_members_ok rows : stmt_ok db_ok (insert_members rows).
Proof.
  intros d n d' [Hu Hf] H. apply insert_members_inv in H as (-> & -> & _ & _ & Hr & Hu').
  split; [auto|]. by apply add_members_fk.
Qed.

(** Updates and deletions. *)

Lemma functional_weaken {K R V} `{Countable K} (f : R -> option V) (m m' : gmap K R) :
  functional_in f m ->
  (forall k r', m' !! k = Some r' -> exists r, m !! k = Some r /\ f r = f r') ->
  functional_in f m'.
Proof.
  intros Hm Hs k1 k2 r1 r2 v H1 H2 E1 E2.
  destruct (Hs _ _ H1) as (q1 & Hq1 & F1), (Hs _ _ H2) as (q2 & Hq2 & F2).
  eapply (Hm k1 k2 q1 q2 v); congruence.
Qed.

Lemma update_member_ok id e p f : stmt_ok db_ok (update_member id e p f).
Proof.
  intros d a d' [Hu Hf] H. unfold update_member in H.
  destruct (members d !! id) as [r|]; [|simplify_eq; by split].
  destruct (_ && _); [|simplify_eq; by split].
  apply checked_inv in H as [Hc H]. simplify_eq H. intros <- <-.
  apply Forall_app in Hc as [Hc1 Hc2]. split; [by apply member_unique_ok|].
  apply insert_member_fk; [done|]. by apply member_fk_checks_ok.
Qed.

Lemma update_entity_ok id p f : stmt_ok db_ok (update_entity id p f).
Proof.
  intros d a d' [Hu Hf] H. unfold update_entity in H.
  destruct (entities d !! id) as [r|]; [|simplify_eq; by split].
  destruct (p r); [|simplify_eq; by split]. simplify_eq.
  split; [by destruct Hu|].
  destruct Hf; constructor; simpl; intros; row_cases; eauto.
  edestruct fk_members0 as [???]; eauto. constructor; simpl; eauto. row_cases; eauto.
Qed.

Lemma update_members_tags_lookup p f d a d' i :
  update_members_tags p f d = inr (a, d') ->
  members d' !! i =
  (fun r => if p i r then set_row_tags f r else r) <$> members d !! i.
Proof.
  unfold update_members_tags. intros [= <- <-]. simpl. rewrite map_lookup_imap.
  by destruct (members d !! i).
Qed.

Lemma update_members_tags_ok p f : stmt_ok db_ok (update_members_tags p f).
Proof.
  intros d a d' [Hu Hf] H.
  assert (Hl : forall i r', members d' !! i = Some r' -> exists r, members d !! i = Some r /\
    mr_entity_id r = mr_entity_id r' /\ mr_public_key r = mr_public_key r' /\
    mr_email r = mr_email r' /\ mr_origin r = mr_origin r').
  { intros i r' Hi. rewrite (update_members_tags_lookup _ _ _ _ _ i H) in Hi.
    destruct (members d !! i) as [r|]; simplify_eq/=. exists r.
    split; [done|]. by destruct (p i r). }
  assert (Hs : forall i, is_Some (members d !! i) -> is_Some (members d' !! i)).
  { intros i [r Hi]. by rewrite (update_members_tags_lookup _ _ _ _ _ i H), Hi. }
  unfold update_members_tags in H. simplify_eq H. intros <- <-. split.
  - destruct Hu; constructor; simpl; auto; eapply functional_weaken; [done| |done|];
      intros k r' Hk; destruct (Hl k r' Hk) as (r & ? & E1 & E2 & E3 & ?); exists r;
      (split; [done|]); unfold member_pubkey_key, member_email_key; by rewrite E1, ?E2, ?E3.
  - destruct Hf; constructor; simpl; intros; eauto.
    destruct (Hl i r) as (r0 & Hr0 & E1 & E2 & E3 & E4); [done|].
    destruct (fk_members0 i r0 Hr0).
    constructor; simpl; intros; rewrite <- ?E1, <- ?E2, <- ?E4 in *; auto.
Qed.

Lemma delete_members_ok p : stmt_ok db_ok (delete_members p).
Proof.
  intros d a d' [Hu Hf] [= <- <-]. split.
  - destruct Hu; constructor; simpl; auto; eapply functional_filter; try done;
      apply map_filter_subseteq.
  - destruct Hf; constructor; simpl; intros; row_cases; eauto using member_fk_weaken.
Qed.

Lemma delete_entity_ok id : stmt_ok db_ok (delete_entity id).
Proof.
  intros d a d' [Hu Hf] H. unfold delete_entity in H.
  destruct (entities d !! id); [|simplify_eq; by split].
  destruct (negb _) eqn:E; [|done]. simplify_eq.
  apply negb_true_iff in E. rewrite exists_row_false in E. split.
  - destruct Hu; constructor; simpl; auto; eapply functional_filter; try done;
      apply map_filter_subseteq.
  - destruct Hf; constructor; simpl; intros; row_cases; simpl in *;
      try (rewrite lookup_delete_is_Some); eauto.
    + set_unfold. naive_solver.
    + destruct (fk_members0 i r) as [???]; [done|]. constructor; simpl; eauto.
      * by rewrite lookup_delete_is_Some.
      * set_solver.
    + specialize (E i r). simpl in E. rewrite map_lookup_filter_Some in E.
      ospecialize (E _); [done|]. apply bool_decide_eq_false_1 in E.
      by apply not_eq_None_Some.
    + naive_solver.
    + naive_solver.
Qed.

Lemma insert_target_ok id r : stmt_ok db_ok (insert_target id r).
Proof.
  intros d a d' [Hu Hf] H. unfold insert_target in H. checks H. split.
  - destruct Hu; constructor; simpl; auto. apply functional_insert; [done|].
    unfold target_key. intros k' r' v Hne Hk [= <-] [= E1 E2].
    match goal with H : forall _ _, _ -> bool_decide _ = false |- _ =>
      specialize (H k' r' Hk); apply bool_decide_eq_false_1 in H end. naive_solver.
  - destruct Hf; constructor; simpl; intros; row_cases; eauto using member_fk_weaken.
Qed.

Lemma insert_census_ok id r : stmt_ok db_ok (insert_census id r).
Proof.
  intros d a d' [Hu Hf] H. unfold insert_census in H. checks H.
  split; [by destruct Hu|].
  destruct Hf; constructor; simpl; intros; row_cases; eauto using member_fk_weaken.
Qed.

Lemma update_census_ok id e f :
  (forall r, cr_entity_id (f r) = cr_entity_id r) ->
  (forall r, cr_target_id (f r) = cr_target_id r) -> stmt_ok db_ok (update_census id e f).
Proof.
  intros He Ht d a d' [Hu Hf] H. unfold update_census in H.
  destruct (censuses d !! id) as [r|] eqn:Hr; [|simplify_eq; by split].
  case_bool_decide; simplify_eq; [|by split]. split; [by destruct Hu|].
  destruct Hf; constructor; simpl; intros; row_cases; rewrite ?He, ?Ht;
    eauto using member_fk_weaken.
Qed.

Lemma delete_census_ok id e : stmt_ok db_ok (delete_census id e).
Proof.
  intros d a d' [Hu Hf] H. unfold delete_census in H.
  destruct (censuses d !! id) as [r|] eqn:Hr; [|simplify_eq; by split].
  case_bool_decide; simplify_eq; [|by split]. split; [by destruct Hu|].
  destruct Hf; constructor; simpl; intros; row_cases; simpl in *;
    try (rewrite lookup_delete_is_Some); eauto using member_fk_weaken.
Qed.

Lemma insert_census_member_ok x : stmt_ok db_ok (insert_census_member x).
Proof.
  intros d a d' [Hu Hf] H. unfold insert_census_member in H. checks H.
  split; [by destruct Hu|].
  destruct Hf; constructor; simpl; intros; row_cases; simpl in *;
    eauto using member_fk_weaken; destruct x as [[i' c'] r']; simplify_eq/=; eauto.
Qed.

Lemma insert_tag_ok id r : stmt_ok db_ok (insert_tag id r).
Proof.
  intros d a d' [Hu Hf] H. unfold insert_tag in H. checks H. split.
  - destruct Hu; constructor; simpl; auto. apply functional_insert; [done|].
    unfold tag_key. intros k' r' v Hne Hk [= <-] [= E1 E2].
    match goal with H : forall _ _, _ -> bool_decide _ = false |- _ =>
      specialize (H k' r' Hk); apply bool_decide_eq_false_1 in H end. naive_solver.
  - destruct Hf; constructor; simpl; intros; row_cases; eauto using member_fk_weaken.
Qed.

Lemma delete_tag_ok id e : stmt_ok db_ok (delete_tag id e).
Proof.
  intros d a d' [Hu Hf] H. unfold delete_tag in H.
  destruct (tags d !! id) as [r|] eqn:Hr; [|simplify_eq; by split].
  case_bool_decide; simplify_eq; [|by split]. split.
  - destruct Hu; constructor; simpl; auto with schema.
  - destruct Hf; constructor; simpl; intros; row_cases; eauto using member_fk_weaken.
Qed.

Lemma select_ok {A} I (f : Db -> A) : stmt_ok I (select f).
Proof. by intros d a d' Hd [= <- <-]. Qed.

Lemma sql_error_ok {A} I e : stmt_ok (A:=A) I (sql_error e).
Proof. done. Qed.

#[export] Hint Resolve select_ok sql_error_ok each_row_ok : schema.

(** ** Invariants of the statements an entity's operations issue

    [StmtInv I e K]: every statement of Schema, as the operations of entity [e]
    use it, preserves [I], when what it does to the members is permitted by
    [K]. The operations are proved against this interface once; [db_ok] is an
    instance for every entity, and Tenant and Keys have others. *)

(* what the operations may do to the members of an entity *)
Record Permit := mkPermit {
  (* insert a member with the key *)
  may_store : bytes -> Prop;
  (* give the member the key *)
  may_register : uuid -> bytes -> Prop;
  (* delete the member *)
  may_delete : uuid -> MemberRow -> Prop;
  (* delete the entity *)
  may_drop : Prop;
}.
Definition everything : Permit :=
  mkPermit (fun _ => True) (fun _ _ => True) (fun _ _ => True) True.
Definition nothing : Permit :=
  mkPermit (fun _ => False) (fun _ _ => False) (fun _ _ => False) False.
(* anything, with the keys of [P] *)
Definition only_keys (P : bytes -> Prop) : Permit :=
  mkPermit P (fun _ => P) (fun _ _ => True) True.

(* a key column that is empty, or has a key of [P] *)
Definition key_of (P : bytes -> Prop) (o : option bytes) : Prop := forall k, o = Some k -> P k.
(* a member row of the entity with a key that may be stored *)
Definition row_of (e : bytes) (K : Permit) (r : MemberRow) : Prop :=
  mr_entity_id r = e /\ key_of (may_store K) (mr_public_key r).

(* a row of census_members is of a member and a census of the entity *)
Definition enrols (e : bytes) (x : (uuid * bytes) * CensusMemberRow) (d : Db) : Prop :=
  (forall r, members d !! x.1.1 = Some r -> mr_entity_id r = e) /\
  (forall r, censuses d !! x.1.2 = Some r -> cr_entity_id r = e).

Class StmtInv (I : Db -> Prop) (e : bytes) (K : Permit) : Prop := {
  inv_insert_entity r : stmt_ok I (insert_entity e r);
  inv_insert_origin l : stmt_ok I (insert_origin e l);
  inv_insert_user pk dg n1 n2 : stmt_ok I (insert_user pk dg n1 n2);
  inv_insert_members rows : (forall x, x ∈ rows -> row_of e K x.2) ->
    stmt_ok I (insert_members rows);
  inv_update_member id p f : (forall r, mr_entity_id (f r) = mr_entity_id r) ->
    (forall r, mr_public_key (f r) = mr_public_key r \/
               exists k, mr_public_key (f r) = Some k /\ may_register K id k) ->
    stmt_ok I (update_member id e p f);
  inv_update_members_tags p f : (forall i r, p i r = true -> mr_entity_id r = e) ->
    stmt_ok I (update_members_tags p f);
  inv_delete_members p : (forall i r, p i r = true -> mr_entity_id r = e /\ may_delete K i r) ->
    stmt_ok I (delete_members p);
  inv_delete_entity : may_drop K -> stmt_ok I (delete_entity e);
  inv_update_entity p f : stmt_ok I (update_entity e p f);
  inv_insert_target id r : tr_entity_id r = e -> stmt_ok I (insert_target id r);
  inv_insert_census id r : cr_entity_id r = e -> stmt_ok I (insert_census id r);
  inv_update_census id f : (forall r, cr_entity_id (f r) = cr_entity_id r) ->
    (forall r, cr_target_id (f r) = cr_target_id r) -> stmt_ok I (update_census id e f);
  inv_delete_census id : stmt_ok I (delete_census id e);
  inv_insert_census_member x d a d' : I d -> enrols e x d ->
    insert_census_member x d = inr (a, d') -> I d';
  inv_insert_tag id r : gr_entity_id r = e -> stmt_ok I (insert_tag id r);
  inv_delete_tag id : stmt_ok I (delete_tag id e);
}.

#[export] Instance db_ok_inv e K : StmtInv db_ok e K.
Proof.
  split; intros; eauto using insert_entity_ok, insert_origin_ok, insert_user_ok,
    insert_members_ok, update_member_ok, update_entity_ok, update_members_tags_ok,
    delete_members_ok, delete_entity_ok, insert_target_ok, insert_census_ok, update_census_ok,
    delete_census_ok, insert_tag_ok, delete_tag_ok.
  by eapply insert_census_member_ok.
Qed.

#[export] Hint Extern 0 (StmtInv _ _ _) => eassumption : schema.
#[export] Hint Resolve inv_insert_entity inv_insert_origin inv_insert_user inv_insert_members
  inv_update_member inv_update_members_tags
  inv_update_entity inv_insert_target inv_insert_census inv_update_census inv_delete_census
  inv_insert_tag inv_delete_tag : schema.

(* the WHERE clause names the entity *)
Ltac where_entity :=
  intros; repeat match goal with
    | H : _ && _ = true |- _ => apply andb_prop in H as [? ?]
    | H : bool_decide _ = true |- _ => apply bool_decide_eq_true_1 in H
    end; assumption.
#[export] Hint Extern 2 (forall _ _, _ = true -> mr_entity_id _ = _) => where_entity : schema.

(** ** The rows of a census *)

Lemma insert_census_members_inv rows d n d' :
  each_row insert_census_member rows d = inr (n, d') ->
  d' = set_census_members (foldl (fun m x => <[x.1 := x.2]> m) (census_members d) rows) d /\
  NoDup rows.*1.
Proof.
  intros H. cut (d' = set_census_members (foldl (fun m x => <[x.1 := x.2]> m) (census_members d) rows) d /\
    NoDup rows.*1 /\ forall x, x ∈ rows -> census_members d !! x.1 = None); [tauto|].
  revert d n d' H. induction rows as [|x rows IH]; intros d n d'; simpl.
  - intros [= <- <-]. split; [by destruct d|]. split; [constructor|]. intros y Hy. by apply not_elem_of_nil in Hy.
  - destruct (insert_census_member x d) as [|[n1 d1]] eqn:E1; [done|].
    destruct (each_row _ rows d1) as [|[k d2]] eqn:E2; [done|]. intros [= <- <-].
    unfold insert_census_member in E1. apply checked_inv in E1 as [Hc E1]. injection E1 as <- <-.
    apply Forall_cons in Hc as [Hpk _]. simpl in Hpk. apply bool_decide_eq_true_1 in Hpk.
    destruct (IH _ _ _ E2) as (-> & Hnd & Hin). simpl in Hin. split; [done|]. split.
    + constructor; [|done]. intros (y & Hy & Hyin)%list_elem_of_fmap. specialize (Hin y Hyin).
      rewrite <- Hy, lookup_insert_eq in Hin. done.
    + intros y [->|Hy]%elem_of_cons; [done|]. specialize (Hin y Hy).
      rewrite lookup_insert in Hin. by case_decide.
Qed.

Section enrol.
Context {I : Db -> Prop} {e : bytes} {K : Permit} {HI : StmtInv I e K}.

(* inserting rows of the entity's members in the entity's censuses *)
Lemma insert_census_members_ok rows :
  stmt_ok (fun d => I d /\ forall x, x ∈ rows -> enrols e x d) (each_row insert_census_member rows).
Proof.
  assert (Hs : forall l, (forall x, x ∈ l -> x ∈ rows) ->
    stmt_ok (fun d => I d /\ forall x, x ∈ rows -> enrols e x d) (each_row insert_census_member l));
    [|by apply Hs].
  induction l as [|x l IH]; intros Hl d a d' [Hd Hx]; simpl; [by intros [= <- <-]|].
  destruct (insert_census_member x d) as [|[n d1]] eqn:E1; [done|].
  destruct (each_row _ l d1) as [|[m d2]] eqn:E2; [done|]. intros [= <- <-].
  refine (IH _ d1 m d2 _ E2); [intros y Hy; apply Hl; by right|].
  split; [eapply inv_insert_census_member; [exact Hd|apply Hx, Hl; left|exact E1]|].
  apply checked_inv in E1 as [_ [= _ <-]]. exact Hx.
Qed.
End enrol.
