(* ===== verification/Tenant.v ===== *)
(** * The data of one entity

    Every table but users and census_members carries the entity its rows belong
    to: [tenant_rows e] is the part of those tables that belongs to [e]. The rows
    of census_members belong to the entity of their census: they are the voter
    rolls of [e], with the private keys of its ephemeral voters. [tenant e] is
    both parts. The statements the operations of another entity issue leave it
    alone; for the rolls, whose rows also go when their member does, this needs
    that the members in a census are members of its entity ([rolls_ok], which
    every statement keeps). Users belong to no entity. *)
From S2P Require Import Prelude GoLib Ext Types Schema SchemaOk.

Record TenantRows := mkTenantRows {
  td_entity : option EntityRow;
  td_origins : gset (Origin * bytes);
  td_members : gmap uuid MemberRow;
  td_targets : gmap uuid TargetRow;
  td_censuses : gmap bytes CensusRow;
  td_tags : gmap Z TagRow;
}.

Definition tenant_rows (e : bytes) (d : Db) : TenantRows :=
  mkTenantRows (entities d !! e)
    (filter (fun x => x.2 = e) (entities_origins d))
    (filter (fun x => mr_entity_id x.2 = e) (members d))
    (filter (fun x => tr_entity_id x.2 = e) (targets d))
    (filter (fun x => cr_entity_id x.2 = e) (censuses d))
    (filter (fun x => gr_entity_id x.2 = e) (tags d)).

(* the invariant "these rows of [e] are [T]" *)
Definition rows_are (e : bytes) (T : TenantRows) (d : Db) : Prop := tenant_rows e d = T.

(** ** Generic lemmas on filtered maps *)
Section filtered.
Context {K R : Type} `{Countable K} (f : R -> bytes) (e : bytes).
Implicit Types m : gmap K R.

Lemma filter_insert_other m k r :
  f r <> e -> (forall r', m !! k = Some r' -> f r' <> e) ->
  filter (fun x : K * R => f x.2 = e) (<[k := r]> m) = filter (fun x => f x.2 = e) m.
Proof.
  intros Hr Hm. apply map_eq. intros i. apply option_eq. intros v.
  rewrite !map_lookup_filter_Some, lookup_insert. case_decide; simplify_eq/=; [|done].
  split; [by intros [[= <-] ?]|]. intros [Hi He]. by apply Hm in Hi.
Qed.

Lemma filter_delete_other m k :
  (forall r', m !! k = Some r' -> f r' <> e) ->
  filter (fun x : K * R => f x.2 = e) (delete k m) = filter (fun x => f x.2 = e) m.
Proof.
  intros Hm. apply map_eq. intros i. apply option_eq. intros v.
  rewrite !map_lookup_filter_Some, lookup_delete_Some. simpl. split; [tauto|].
  intros [Hi He]. split_and!; try done. intros <-. by apply Hm in Hi.
Qed.

Lemma filter_filter_other (P : K * R -> Prop) `{!forall x, Decision (P x)} m :
  (forall k r, f r = e -> m !! k = Some r -> P (k, r)) ->
  filter (fun x : K * R => f x.2 = e) (filter P m) = filter (fun x => f x.2 = e) m.
Proof.
  intros HP. apply map_eq. intros i. apply option_eq. intros v.
  rewrite !map_lookup_filter_Some. simpl. split; [tauto|].
  intros [Hi He]. eauto 10.
Qed.

Lemma filter_foldl_other rows m :
  (forall x, x ∈ rows -> f x.2 <> e /\ m !! x.1 = None) ->
  filter (fun x : K * R => f x.2 = e) (foldl (fun m x => <[x.1 := x.2]> m) m rows)
  = filter (fun x => f x.2 = e) m.
Proof.
  intros Hr. apply map_eq. intros i. apply option_eq. intros v.
  rewrite !map_lookup_filter_Some. simpl. split.
  - intros [Hi He]. split; [|done]. apply foldl_insert_lookup in Hi as [Hi|Hi]; [done|].
    by destruct (Hr _ Hi).
  - intros [Hi He]. split; [|done]. rewrite foldl_insert_notin; [done|].
    intros (x & -> & Hx)%list_elem_of_fmap. destruct (Hr _ Hx). congruence.
Qed.
End filtered.

(** ** Another entity's statements *)
Section other.
Context (e0 e : bytes) (T : TenantRows) (Hne : e <> e0).

Lemma rows_insert_members rows :
  (forall x, x ∈ rows -> mr_entity_id x.2 = e) ->
  stmt_ok (rows_are e0 T) (insert_members rows).
Proof.
  intros Hr d a d' Hd (_ & -> & _ & Hf & _)%insert_members_inv. revert Hd.
  unfold rows_are, tenant_rows. simpl. intros <-. f_equal. apply filter_foldl_other.
  intros x Hx. split; [|by apply Hf]. by rewrite (Hr _ Hx).
Qed.

Lemma rows_update_member id p f :
  (forall r, mr_entity_id (f r) = mr_entity_id r) ->
  stmt_ok (rows_are e0 T) (update_member id e p f).
Proof.
  intros Hf d a d' Hd H. unfold update_member in H.
  destruct (members d !! id) as [r|] eqn:Hr; [|by simplify_eq].
  destruct (_ && _) eqn:Hc; [|by simplify_eq].
  apply checked_inv in H as [_ [= <- <-]].
  apply andb_prop in Hc as [He%bool_decide_eq_true_1 _].
  revert Hd. unfold rows_are, tenant_rows. simpl. intros <-. f_equal.
  apply (filter_insert_other mr_entity_id); intros; rewrite ?Hf; congruence.
Qed.

Lemma rows_update_members_tags p f :
  (forall i r, p i r = true -> mr_entity_id r = e) ->
  stmt_ok (rows_are e0 T) (update_members_tags p f).
Proof.
  intros Hp d a d' Hd H.
  assert (Hl := fun i => update_members_tags_lookup _ _ _ _ _ i H).
  revert Hd. unfold rows_are, tenant_rows. injection H as _ <-. simpl in *. intros <-. f_equal.
  apply map_eq. intros i. apply option_eq. intros v.
  rewrite !map_lookup_filter_Some, Hl. simpl. split.
  - intros [(r & Hv & Hi)%fmap_Some He]. destruct (p i r) eqn:Hpi; [|by subst].
    apply Hp in Hpi. subst v. simpl in He. congruence.
  - intros [Hi He]. split; [|done]. rewrite Hi. simpl.
    destruct (p i v) eqn:Hpi; [|done]. apply Hp in Hpi. congruence.
Qed.

Lemma rows_delete_members p :
  (forall i r, p i r = true -> mr_entity_id r = e) ->
  stmt_ok (rows_are e0 T) (delete_members p).
Proof.
  intros Hp d a d' Hd [= _ <-]. revert Hd. unfold rows_are, tenant_rows. simpl. intros <-.
  f_equal. apply (filter_filter_other mr_entity_id). intros i r He Hi. simpl.
  destruct (p i r) eqn:Hpi; [|done]. apply Hp in Hpi. congruence.
Qed.

Lemma rows_insert_entity r : stmt_ok (rows_are e0 T) (insert_entity e r).
Proof.
  intros d a d' Hd [_ [= _ <-]]%checked_inv. revert Hd. unfold rows_are, tenant_rows. simpl.
  by rewrite lookup_insert_ne.
Qed.

Lemma rows_insert_origin l : stmt_ok (rows_are e0 T) (insert_origin e l).
Proof.
  intros d a d' Hd H. unfold insert_origin in H. destruct (enum_origin l); [|done].
  apply checked_inv in H as [_ [= _ <-]]. revert Hd. unfold rows_are, tenant_rows. simpl.
  intros <-. f_equal. apply leibniz_equiv. intros x.
  rewrite !elem_of_filter. set_unfold. split; [|tauto]. intros [? [->|?]]; [|done].
  simpl in *. congruence.
Qed.

Lemma rows_delete_entity : stmt_ok (rows_are e0 T) (delete_entity e).
Proof.
  intros d a d' Hd H. unfold delete_entity in H.
  destruct (entities d !! e); [|by simplify_eq]. destruct (negb _); [|done].
  injection H as _ <-. revert Hd. unfold rows_are, tenant_rows. simpl. intros <-.
  rewrite lookup_delete_ne by done. f_equal.
  - apply leibniz_equiv. intros x. rewrite !elem_of_filter. split; [tauto|].
    intros [He Hx]. split_and!; congruence.
  - apply (filter_filter_other mr_entity_id). simpl. congruence.
  - apply (filter_filter_other tr_entity_id). simpl. congruence.
  - apply (filter_filter_other cr_entity_id). simpl. congruence.
  - apply (filter_filter_other gr_entity_id). simpl. congruence.
Qed.

Lemma rows_update_entity p f : stmt_ok (rows_are e0 T) (update_entity e p f).
Proof.
  intros d a d' Hd H. unfold update_entity in H.
  destruct (entities d !! e); [|by simplify_eq]. destruct (p e1); [|by simplify_eq].
  injection H as _ <-. revert Hd. unfold rows_are, tenant_rows. simpl.
  by rewrite lookup_insert_ne.
Qed.

Lemma rows_insert_target id r :
  tr_entity_id r = e -> stmt_ok (rows_are e0 T) (insert_target id r).
Proof.
  intros Hr d a d' Hd H. unfold insert_target in H. checks H. revert Hd.
  unfold rows_are, tenant_rows. simpl. intros <-. f_equal.
  apply (filter_insert_other tr_entity_id); congruence.
Qed.

Lemma rows_insert_census id r :
  cr_entity_id r = e -> stmt_ok (rows_are e0 T) (insert_census id r).
Proof.
  intros Hr d a d' Hd H. unfold insert_census in H. checks H. revert Hd.
  unfold rows_are, tenant_rows. simpl. intros <-. f_equal.
  apply (filter_insert_other cr_entity_id); congruence.
Qed.

Lemma rows_update_census id f :
  (forall r, cr_entity_id (f r) = cr_entity_id r) ->
  stmt_ok (rows_are e0 T) (update_census id e f).
Proof.
  intros Hf d a d' Hd H. unfold update_census in H.
  destruct (censuses d !! id) as [r|] eqn:Hr; [|by simplify_eq].
  case_bool_decide; [|by simplify_eq]. injection H as _ <-. revert Hd.
  unfold rows_are, tenant_rows. simpl. intros <-. f_equal.
  apply (filter_insert_other cr_entity_id); intros; rewrite ?Hf; congruence.
Qed.

Lemma rows_delete_census id : stmt_ok (rows_are e0 T) (delete_census id e).
Proof.
  intros d a d' Hd H. unfold delete_census in H.
  destruct (censuses d !! id) as [r|] eqn:Hr; [|by simplify_eq].
  case_bool_decide; [|by simplify_eq]. injection H as _ <-. revert Hd.
  unfold rows_are, tenant_rows. simpl. intros <-. f_equal.
  apply (filter_delete_other cr_entity_id); congruence.
Qed.

Lemma rows_insert_tag id r :
  gr_entity_id r = e -> stmt_ok (rows_are e0 T) (insert_tag id r).
Proof.
  intros Hr d a d' Hd H. unfold insert_tag in H. checks H. revert Hd.
  unfold rows_are, tenant_rows. simpl. intros <-. f_equal.
  apply (filter_insert_other gr_entity_id); congruence.
Qed.

Lemma rows_delete_tag id : stmt_ok (rows_are e0 T) (delete_tag id e).
Proof.
  intros d a d' Hd H. unfold delete_tag in H.
  destruct (tags d !! id) as [r|] eqn:Hr; [|by simplify_eq].
  case_bool_decide; [|by simplify_eq]. injection H as _ <-. revert Hd.
  unfold rows_are, tenant_rows. simpl. intros <-. f_equal.
  apply (filter_delete_other gr_entity_id); congruence.
Qed.

Lemma rows_insert_user pk dg n1 n2 : stmt_ok (rows_are e0 T) (insert_user pk dg n1 n2).
Proof.
  intros d a d' Hd H. unfold insert_user in H. destruct pk, dg; try done.
  by apply checked_inv in H as [_ [= _ <-]].
Qed.
End other.

(* The statements of entity [e] keep these rows of every other entity. *)
Lemma rows_inv e0 e T K : e <> e0 -> StmtInv (rows_are e0 T) e K.
Proof.
  intros. split; intros; eauto using rows_update_member,
    rows_update_members_tags, rows_insert_entity,
    rows_insert_origin, rows_delete_entity, rows_update_entity, rows_insert_target,
    rows_insert_census, rows_update_census, rows_delete_census, rows_insert_tag,
    rows_delete_tag, rows_insert_user.
  - eapply rows_insert_members; [done|]. intros x Hx.
    match goal with Hr : forall _, _ -> row_of _ _ _ |- _ => apply Hr, Hx end.
  - eapply rows_delete_members; [done|]. intros i r Hp.
    match goal with Hd : forall _ _, _ -> _ /\ _ |- _ => by apply (Hd i r) end.
  - match goal with E : insert_census_member _ _ = _ |- _ => apply checked_inv in E as [_ [= _ <-]] end.
    done.
Qed.

(** ** Voter rolls *)

(* the census is one of the entity *)
Definition owns_census (e : bytes) (d : Db) (c : bytes) : bool :=
  match censuses d !! c with Some r => bool_decide (cr_entity_id r = e) | None => false end.
(* the rows of census_members that are of the entity's censuses *)
Definition voter_rolls (e : bytes) (d : Db) : gmap (uuid * bytes) CensusMemberRow :=
  filter (fun x => owns_census e d x.1.2 = true) (census_members d).

(* the members in a census are members of its entity *)
Definition rolls_ok (d : Db) : Prop :=
  forall x r m c, census_members d !! x = Some r -> members d !! x.1 = Some m ->
    censuses d !! x.2 = Some c -> mr_entity_id m = cr_entity_id c.

(* the data of the entity *)
Definition tenant (e : bytes) (d : Db) : TenantRows * gmap (uuid * bytes) CensusMemberRow :=
  (tenant_rows e d, voter_rolls e d).

(* tables whose constraints and voter rolls are in order *)
Definition sound (d : Db) : Prop := db_ok d /\ rolls_ok d.

(* what a statement of [e] does to the members, the censuses and their rolls *)
Record moves (e : bytes) (d d' : Db) : Prop := mkMoves {
  moves_members i r' : members d' !! i = Some r' ->
    (exists r, members d !! i = Some r /\ mr_entity_id r' = mr_entity_id r) \/
    (members d !! i = None /\ mr_entity_id r' = e);
  moves_censuses c r' : censuses d' !! c = Some r' ->
    (exists r, censuses d !! c = Some r /\ cr_entity_id r' = cr_entity_id r) \/
    (censuses d !! c = None /\ cr_entity_id r' = e);
  moves_back c r : censuses d !! c = Some r ->
    (exists r', censuses d' !! c = Some r' /\ cr_entity_id r' = cr_entity_id r) \/
    cr_entity_id r = e;
  moves_rolls x v : census_members d' !! x = Some v ->
    census_members d !! x = Some v \/ enrols e (x, v) d;
  moves_kept x v : census_members d !! x = Some v ->
    census_members d' !! x = Some v \/
    (exists r, members d !! x.1 = Some r /\ mr_entity_id r = e) \/
    (exists r, censuses d !! x.2 = Some r /\ cr_entity_id r = e);
}.

Section moves.
Context {e : bytes} {d d' : Db} (Hm : moves e d d').

Lemma moves_rolls_ok : fk_ok d -> rolls_ok d -> rolls_ok d'.
Proof.
  intros Hf Hr [i c] v m cr Hv Hi Hc. simpl in *.
  destruct (moves_rolls _ _ _ Hm _ _ Hv) as [Hold|[Hei Hec]].
  - destruct (fk_census_members_member d Hf i c v Hold) as [m0 Hm0].
    destruct (fk_census_members_census d Hf i c v Hold) as [c0 Hc0].
    destruct (moves_members _ _ _ Hm _ _ Hi) as [(? & ? & ->)|[]]; [|congruence].
    destruct (moves_censuses _ _ _ Hm _ _ Hc) as [(? & ? & ->)|[]]; [|congruence].
    simplify_eq. by apply (Hr (i, c) v).
  - simpl in *. transitivity e; [|symmetry].
    + destruct (moves_members _ _ _ Hm _ _ Hi) as [(r & Hr0 & ->)|[_ ->]]; [by apply Hei|done].
    + destruct (moves_censuses _ _ _ Hm _ _ Hc) as [(r & Hr0 & ->)|[_ ->]]; [by apply Hec|done].
Qed.

Lemma owns_census_Some e0 dd c :
  owns_census e0 dd c = true <-> exists r, censuses dd !! c = Some r /\ cr_entity_id r = e0.
Proof.
  unfold owns_census. destruct (censuses dd !! c) as [r|]; [|naive_solver].
  rewrite bool_decide_eq_true. naive_solver.
Qed.

Lemma moves_voter_rolls e0 :
  e <> e0 -> fk_ok d -> rolls_ok d -> voter_rolls e0 d' = voter_rolls e0 d.
Proof.
  intros Hne Hf Hr. apply map_eq. intros [i c]. apply option_eq. intros v. unfold voter_rolls.
  rewrite !map_lookup_filter_Some, !owns_census_Some. simpl. split; intros [Hv (q & Hq & He)].
  - destruct (moves_censuses _ _ _ Hm _ _ Hq) as [(q0 & Hq0 & Hqe)|[]]; [|congruence].
    split; [|exists q0; split; [done|congruence]].
    destruct (moves_rolls _ _ _ Hm _ _ Hv) as [Hold|[_ Hec]]; [done|].
    specialize (Hec _ Hq0). congruence.
  - split.
    + destruct (moves_kept _ _ _ Hm _ _ Hv) as [|[(m & Hi & Hme)|(q0 & Hq0 & Hqe)]]; [done| |];
        simpl in *; [|congruence].
      exfalso. apply Hne. rewrite <- He, <- Hme. by apply (Hr (i, c) v).
    + destruct (moves_back _ _ _ Hm _ _ Hq) as [(q' & Hq' & Hqe)|]; [|congruence].
      exists q'. split; [done|congruence].
Qed.
End moves.

(** ** What the statements move *)
Section statements.
Context (e : bytes).

Lemma moves_refl d : moves e d d.
Proof. split; eauto. Qed.

Lemma moves_same d d' :
  members d' = members d -> censuses d' = censuses d -> census_members d' = census_members d ->
  moves e d d'.
Proof. intros Hm Hc Hx. split; rewrite ?Hm, ?Hc, ?Hx; eauto. Qed.

(* only the members change *)
Lemma moves_only_members d d' :
  (forall i r', members d' !! i = Some r' ->
     (exists r, members d !! i = Some r /\ mr_entity_id r' = mr_entity_id r) \/
     (members d !! i = None /\ mr_entity_id r' = e)) ->
  censuses d' = censuses d -> census_members d' = census_members d -> moves e d d'.
Proof. intros Hm Hc Hx. split; rewrite ?Hc, ?Hx; eauto. Qed.

(* only one census changes *)
Lemma moves_census d d' c r :
  members d' = members d -> census_members d' = census_members d ->
  censuses d' = <[c := r]> (censuses d) -> cr_entity_id r = e ->
  (forall q, censuses d !! c = Some q -> cr_entity_id q = e) -> moves e d d'.
Proof.
  intros Hm Hx Hc Hr Hq. split; rewrite ?Hm, ?Hx; eauto; intros c' q; rewrite Hc.
  - intros [[<- <-]|[Hne Hc']]%lookup_insert_Some; [|by eauto].
    destruct (censuses d !! c) as [q|] eqn:E; [left|by right].
    exists q. split; [done|]. by rewrite Hr, (Hq q).
  - intros Hc'. destruct (decide (c = c')) as [<-|Hne]; [right; by apply Hq|left].
    exists q. by rewrite lookup_insert_ne.
Qed.

Lemma moves_insert_members rows d a d' :
  (forall x, x ∈ rows -> mr_entity_id x.2 = e) ->
  insert_members rows d = inr (a, d') -> moves e d d'.
Proof.
  intros Hr (_ & -> & _ & Hf & _)%insert_members_inv. apply moves_only_members; [|done..].
  intros i r [Hi|Hi]%foldl_insert_lookup; [by eauto|]. right. split; [by apply (Hf (i, r))|by apply (Hr (i, r))].
Qed.

Lemma moves_update_member id p f d a d' :
  (forall r, mr_entity_id (f r) = mr_entity_id r) ->
  update_member id e p f d = inr (a, d') -> moves e d d'.
Proof.
  intros Hf H. unfold update_member in H.
  destruct (members d !! id) as [r|] eqn:Hr; [|simplify_eq; apply moves_refl].
  destruct (_ && _); [|simplify_eq; apply moves_refl].
  apply checked_inv in H as [_ [= _ <-]]. apply moves_only_members; [|done..]. simpl.
  intros i r' [[<- <-]|[_ Hi]]%lookup_insert_Some; eauto.
Qed.

Lemma moves_update_members_tags p f d a d' :
  update_members_tags p f d = inr (a, d') -> moves e d d'.
Proof.
  intros H. pose proof (fun i => update_members_tags_lookup _ _ _ _ _ i H) as Hl.
  injection H as _ <-. apply moves_only_members; [|done..]. intros i r'. rewrite Hl.
  intros (r & Hr & ->)%fmap_Some. left. exists r. split; [done|]. by destruct (p i r).
Qed.

Lemma moves_delete_members p d a d' :
  (forall i r, p i r = true -> mr_entity_id r = e) ->
  delete_members p d = inr (a, d') -> fk_ok d -> moves e d d'.
Proof.
  intros Hp [= _ <-] Hf. split; simpl; eauto.
  - intros i r [Hi _]%map_lookup_filter_Some. eauto.
  - intros x v [Hx _]%map_lookup_filter_Some. eauto.
  - intros [i c] v Hx. rewrite map_lookup_filter_Some. simpl.
    destruct (fk_census_members_member d Hf i c v Hx) as [r Hr].
    destruct (p i r) eqn:Hpr; [right; left; exists r; by split; [|eapply Hp]|left].
    split; [done|]. exists r. by apply map_lookup_filter_Some.
Qed.

Lemma moves_delete_entity d a d' : delete_entity e d = inr (a, d') -> fk_ok d -> moves e d d'.
Proof.
  intros H Hf. unfold delete_entity in H.
  destruct (entities d !! e); [|simplify_eq; apply moves_refl]. destruct (negb _); [|done].
  injection H as _ <-. split; simpl.
  - intros i r [Hi _]%map_lookup_filter_Some. eauto.
  - intros c r [Hc _]%map_lookup_filter_Some. eauto.
  - intros c r Hc. destruct (decide (cr_entity_id r = e)) as [He|He]; [by right|left].
    exists r. by rewrite map_lookup_filter_Some.
  - intros x v [Hx _]%map_lookup_filter_Some. eauto.
  - intros [i c] v Hx. rewrite map_lookup_filter_Some. simpl.
    destruct (fk_census_members_member d Hf i c v Hx) as [r Hr].
    destruct (fk_census_members_census d Hf i c v Hx) as [q Hq].
    destruct (decide (mr_entity_id r = e)) as [He|He]; [right; left; eauto|].
    destruct (decide (cr_entity_id q = e)) as [He'|He']; [right; right; eauto|left].
    split; [done|]. split; [exists r|exists q]; by rewrite map_lookup_filter_Some.
Qed.

Lemma moves_insert_census id r d a d' :
  cr_entity_id r = e -> insert_census id r d = inr (a, d') -> moves e d d'.
Proof.
  intros Hr H. apply checked_inv in H as [Hc [= _ <-]].
  apply Forall_cons in Hc as [_ [Hn%bool_decide_eq_true_1 _]%Forall_cons].
  eapply moves_census; [reflexivity..|done|congruence].
Qed.

Lemma moves_update_census id f d a d' :
  (forall r, cr_entity_id (f r) = cr_entity_id r) ->
  update_census id e f d = inr (a, d') -> moves e d d'.
Proof.
  intros Hf H. unfold update_census in H.
  destruct (censuses d !! id) as [r|] eqn:Hr; [|simplify_eq; apply moves_refl].
  case_bool_decide; [|simplify_eq; apply moves_refl]. injection H as _ <-.
  eapply moves_census; [reflexivity..|by rewrite Hf|congruence].
Qed.

Lemma moves_delete_census id d a d' :
  delete_census id e d = inr (a, d') -> moves e d d'.
Proof.
  intros H. unfold delete_census in H.
  destruct (censuses d !! id) as [r|] eqn:Hr; [|simplify_eq; apply moves_refl].
  case_bool_decide as He; [|simplify_eq; apply moves_refl]. injection H as _ <-.
  split; simpl; eauto.
  - intros c q [_ Hc]%lookup_delete_Some. eauto.
  - intros c q Hc. destruct (decide (id = c)) as [<-|Hne]; [right; congruence|left].
    exists q. by rewrite lookup_delete_ne.
  - intros x v [Hx _]%map_lookup_filter_Some. eauto.
  - intros [i c] v Hx. destruct (decide (c = id)) as [->|Hne]; [right; right; eauto|left].
    by rewrite map_lookup_filter_Some.
Qed.

Lemma moves_insert_census_member x d a d' :
  enrols e x d -> insert_census_member x d = inr (a, d') -> moves e d d'.
Proof.
  intros Hx H. apply checked_inv in H as [Hc [= _ <-]].
  apply Forall_cons in Hc as [Hn%bool_decide_eq_true_1 _]. destruct x as [y w].
  split; simpl in *; eauto.
  - intros z v [[<- <-]|[_ Hz]]%lookup_insert_Some; eauto.
  - intros z v Hz. left. rewrite lookup_insert_ne; [done|]. congruence.
Qed.
End statements.

(** ** The statements together *)

(* An invariant of sound tables that the moves of [e] keep is one of its
   statements. *)
Lemma moves_inv (I : Db -> Prop) e K :
  (forall d, I d -> db_ok d) -> (forall d d', I d -> db_ok d' -> moves e d d' -> I d') ->
  StmtInv I e K.
Proof.
  intros Hok Hmv.
  assert (Hall : forall A (s : Stmt A), stmt_ok db_ok s ->
    (forall d a d', I d -> s d = inr (a, d') -> moves e d d') -> stmt_ok I s).
  { intros A s Hs Hm d a d' Hd H. apply (Hmv d); [done|by eapply Hs; [apply Hok|]|by eapply Hm]. }
  assert (Hsame : forall A (s : Stmt A), stmt_ok db_ok s ->
    (forall d a d', s d = inr (a, d') -> members d' = members d /\ censuses d' = censuses d /\
       census_members d' = census_members d) -> stmt_ok I s).
  { intros A s Hs Hm. apply Hall; [done|]. intros d a d' _ H.
    destruct (Hm _ _ _ H) as (? & ? & ?). by apply moves_same. }
  split; intros.
  - apply Hsame; [apply insert_entity_ok|]. unfold insert_entity. intros d a d'. same_statement.
  - apply Hsame; [apply insert_origin_ok|]. unfold insert_origin. intros d a d'. same_statement.
  - apply Hsame; [apply insert_user_ok|]. unfold insert_user. intros d a d'. same_statement.
  - apply Hall; [apply insert_members_ok|]. intros d a d' _. apply moves_insert_members.
    intros x Hx. by apply (H x).
  - apply Hall; [apply update_member_ok|]. intros d a d' _. by apply moves_update_member.
  - apply Hall; [apply update_members_tags_ok|]. intros d a d' _. apply moves_update_members_tags.
  - apply Hall; [apply delete_members_ok|]. intros d a d' Hd E.
    eapply moves_delete_members; [|exact E|apply (Hok d Hd)]. intros i r Hp. by apply (H i r).
  - apply Hall; [apply delete_entity_ok|]. intros d a d' Hd E.
    eapply moves_delete_entity; [exact E|apply (Hok d Hd)].
  - apply Hsame; [apply update_entity_ok|]. unfold update_entity. intros d a d'. same_statement.
  - apply Hsame; [apply insert_target_ok|]. unfold insert_target. intros d a d'. same_statement.
  - apply Hall; [apply insert_census_ok|]. intros d a d' _. by apply moves_insert_census.
  - apply Hall; [by apply update_census_ok|]. intros d a d' _. by apply moves_update_census.
  - apply Hall; [apply delete_census_ok|]. intros d a d' _. apply moves_delete_census.
  - apply (Hmv d); [done|by eapply insert_census_member_ok; [apply Hok|]|].
    by eapply moves_insert_census_member.
  - apply Hsame; [apply insert_tag_ok|]. unfold insert_tag. intros d a d'. same_statement.
  - apply Hsame; [apply delete_tag_ok|]. unfold delete_tag. intros d a d'. same_statement.
Qed.

(* the tables stay sound *)
#[export] Instance sound_inv e K : StmtInv sound e K.
Proof.
  apply moves_inv; [by intros d []|]. intros d d' [Hd Hr] Hd' Hm. split; [done|].
  by apply (moves_rolls_ok Hm); [apply Hd|].
Qed.

(* and the voter rolls of the other entities as they were *)
Definition rolls_are (e : bytes) R (d : Db) : Prop := sound d /\ voter_rolls e d = R.

Lemma rolls_inv e0 e R K : e <> e0 -> StmtInv (rolls_are e0 R) e K.
Proof.
  intros Hne. apply moves_inv; [by intros d [[] _]|]. intros d d' [[Hd Hr] <-] Hd' Hm.
  split; [split; [done|]; by apply (moves_rolls_ok Hm); [apply Hd|]|].
  by apply (moves_voter_rolls Hm); [|apply Hd|].
Qed.

(** ** Two invariants *)
Lemma both_inv (I1 I2 : Db -> Prop) e K :
  StmtInv I1 e K -> StmtInv I2 e K -> StmtInv (fun d => I1 d /\ I2 d) e K.
Proof.
  intros H1 H2.
  assert (Hb : forall A (s : Stmt A), stmt_ok I1 s -> stmt_ok I2 s ->
            stmt_ok (fun d => I1 d /\ I2 d) s).
  { intros A s Hs1 Hs2 d a d' [Hd1 Hd2] H. split; [by eapply Hs1|by eapply Hs2]. }
  split; intros; try (apply Hb; eauto using inv_delete_members, inv_delete_entity with schema).
  match goal with H : _ /\ _ |- _ => destruct H end.
  split; by eapply inv_insert_census_member.
Qed.

(* all the data of another entity *)
Definition tenant_is (e : bytes) T (d : Db) : Prop := rows_are e T.1 d /\ rolls_are e T.2 d.

Lemma tenant_inv e0 e T K : e <> e0 -> StmtInv (tenant_is e0 T) e K.
Proof. intros He. apply both_inv; [by apply rows_inv|by apply rolls_inv]. Qed.

Lemma tenant_is_spec e T d : tenant_is e T d <-> sound d /\ tenant e d = T.
Proof.
  unfold tenant_is, rows_are, rolls_are, tenant. destruct T as [T R]. simpl.
  split; [by intros (<- & ? & <-)|by intros [? [= <- <-]]].
Qed.
