(* ===== verification/Keys.v ===== *)
(** * Where the keys of members come from

    [keys_in P d]: every public key in the table of members is one that [P]
    allows for its entity and its member. Every statement keeps it, when the
    keys it stores are allowed: an instance of [StmtInv]. [registered e t k d]:
    the member [t] of [e] has the key [k]; every statement that may not delete
    the member, or register another key for it, keeps that. *)
From S2P Require Import Prelude GoLib Ext Util Types Schema SchemaOk.

Definition keys_in (P : bytes -> uuid -> bytes -> Prop) (d : Db) : Prop :=
  forall t r k, members d !! t = Some r -> mr_public_key r = Some k -> P (mr_entity_id r) t k.

Section keys.
Context (P : bytes -> uuid -> bytes -> Prop) (e : bytes) (K : Permit).
Hypothesis allowed : forall t k, may_store K k \/ may_register K t k -> P e t k.

(* a row of [d'] is one of [d], with the same entity and key, or has a new key *)
Lemma keys_in_rows d d' :
  (forall t r', members d' !! t = Some r' ->
     (exists r, members d !! t = Some r /\ mr_entity_id r' = mr_entity_id r /\
        mr_public_key r' = mr_public_key r) \/
     mr_entity_id r' = e /\ key_of (P e t) (mr_public_key r')) ->
  keys_in P d -> keys_in P d'.
Proof.
  intros Hrows Hd t r' k Hr Hk. destruct (Hrows t r' Hr) as [(r & Ht & -> & Hp)|[-> HK]].
  - apply Hd; [done|congruence].
  - by apply HK.
Qed.

Lemma keys_in_same d d' : members d' = members d -> keys_in P d -> keys_in P d'.
Proof. intros Hm. apply keys_in_rows. rewrite Hm. eauto. Qed.

Lemma keys_in_filter d d' (Q : uuid * MemberRow -> Prop) `{!forall x, Decision (Q x)} :
  members d' = filter Q (members d) -> keys_in P d -> keys_in P d'.
Proof.
  intros Hm. apply keys_in_rows. rewrite Hm. intros t r [Ht _]%map_lookup_filter_Some. eauto.
Qed.

Lemma keys_insert_members rows :
  (forall x, x ∈ rows -> row_of e K x.2) -> stmt_ok (keys_in P) (insert_members rows).
Proof.
  intros Hr d a d' Hd (_ & -> & _)%insert_members_inv. revert Hd. apply keys_in_rows.
  intros t r Ht. apply foldl_insert_lookup in Ht as [Ht|Ht]; [eauto|right].
  destruct (Hr _ Ht) as [He Hk]. split; [done|]. intros k Hrk. apply allowed. left. by apply Hk.
Qed.

Lemma keys_update_member id p f :
  (forall r, mr_entity_id (f r) = mr_entity_id r) ->
  (forall r, mr_public_key (f r) = mr_public_key r \/
             exists k, mr_public_key (f r) = Some k /\ may_register K id k) ->
  stmt_ok (keys_in P) (update_member id e p f).
Proof.
  intros He Hk d a d' Hd H. unfold update_member in H.
  destruct (members d !! id) as [r|] eqn:Hr; [|by simplify_eq].
  destruct (_ && _) eqn:Hc; [|by simplify_eq].
  apply checked_inv in H as [_ [= <- <-]].
  apply andb_prop in Hc as [Hre%bool_decide_eq_true_1 _]. revert Hd. apply keys_in_rows.
  simpl. intros t r' [[<- <-]|[_ Ht]]%lookup_insert_Some; [|eauto].
  destruct (Hk r) as [Hs|(k' & Hk' & Hs)]; [left; by exists r|right]. split; [by rewrite He|].
  intros k Hrk. apply allowed. right. congruence.
Qed.

Lemma keys_update_members_tags p f : stmt_ok (keys_in P) (update_members_tags p f).
Proof.
  intros d a d' Hd H. revert Hd. apply keys_in_rows. intros t r'.
  rewrite (update_members_tags_lookup _ _ _ _ _ t H). intros (r & Ht & ->)%fmap_Some.
  left. exists r. split; [exact Ht|]. by destruct (p t r).
Qed.

Lemma keys_delete_members p : stmt_ok (keys_in P) (delete_members p).
Proof. intros d a d' Hd [= _ <-]. revert Hd. eapply keys_in_filter. reflexivity. Qed.

Lemma keys_delete_entity : stmt_ok (keys_in P) (delete_entity e).
Proof.
  intros d a d' Hd H. unfold delete_entity in H.
  destruct (entities d !! e); [|by simplify_eq]. destruct (negb _); [|done].
  injection H as _ <-. revert Hd. eapply keys_in_filter. reflexivity.
Qed.

#[export] Instance keys_inv : StmtInv (keys_in P) e K.
Proof.
  split; intros; eauto using keys_insert_members, keys_update_member, keys_update_members_tags,
    keys_delete_members, keys_delete_entity.
  all: try (match goal with H : insert_census_member _ _ = _ |- _ => apply checked_inv in H as [_ [= _ <-]] end; done).
  all: intros d a d' Hd E; revert Hd; apply keys_in_same; revert E.
  - unfold insert_entity. same_statement.
  - unfold insert_origin. same_statement.
  - unfold insert_user. same_statement.
  - unfold update_entity. same_statement.
  - unfold insert_target. same_statement.
  - unfold insert_census. same_statement.
  - unfold update_census. same_statement.
  - unfold delete_census. same_statement.
  - unfold insert_tag. same_statement.
  - unfold delete_tag. same_statement.
Qed.
End keys.

(** ** A registered key

    The member [t] of the entity has the key [k]. It keeps it while nothing gives
    it another key and nothing deletes it: another instance of [StmtInv]. *)
Definition registered (e : bytes) (t : uuid) (k : bytes) (d : Db) : Prop :=
  exists r, members d !! t = Some r /\ mr_entity_id r = e /\ mr_public_key r = Some k.

(* what may be done without losing the key of the member *)
Definition keeps_key (K : Permit) (t : uuid) (k : bytes) : Prop :=
  (forall k', may_register K t k' -> k' = k) /\
  (forall r, mr_public_key r = Some k -> ~ may_delete K t r) /\ ~ may_drop K.

Section registered.
Context (e0 : bytes) (t : uuid) (k : bytes) (e : bytes) (K : Permit).
Hypothesis kept : e = e0 -> keeps_key K t k.

Lemma registered_same d d' :
  members d' = members d -> registered e0 t k d -> registered e0 t k d'.
Proof. intros Hm. unfold registered. by rewrite Hm. Qed.

Lemma registered_filter d d' (Q : uuid * MemberRow -> Prop) `{!forall x, Decision (Q x)} :
  members d' = filter Q (members d) ->
  (forall r, mr_entity_id r = e0 -> mr_public_key r = Some k -> Q (t, r)) ->
  registered e0 t k d -> registered e0 t k d'.
Proof.
  intros Hm HQ (r & Hr & He & Hk). exists r. rewrite Hm, map_lookup_filter_Some. by auto.
Qed.

Lemma registered_insert_members rows : stmt_ok (registered e0 t k) (insert_members rows).
Proof.
  intros d a d' (r & Hr & He & Hk) (_ & -> & _ & Hf & _)%insert_members_inv.
  exists r. split; [|done]. simpl. rewrite foldl_insert_notin; [done|].
  intros ([i q] & -> & Hi)%list_elem_of_fmap. specialize (Hf _ Hi). simpl in *. congruence.
Qed.

Lemma registered_update_member id p f :
  (forall r, mr_entity_id (f r) = mr_entity_id r) ->
  (forall r, mr_public_key (f r) = mr_public_key r \/
             exists k, mr_public_key (f r) = Some k /\ may_register K id k) ->
  stmt_ok (registered e0 t k) (update_member id e p f).
Proof.
  intros He Hk d a d' Hd H. unfold update_member in H.
  destruct (members d !! id) as [q|] eqn:Hq; [|by simplify_eq].
  destruct (_ && _) eqn:Hc; [|by simplify_eq].
  apply checked_inv in H as [_ [= <- <-]].
  apply andb_prop in Hc as [Hqe%bool_decide_eq_true_1 _].
  destruct Hd as (r & Hr & Hre & Hrk). unfold registered. simpl.
  destruct (decide (id = t)) as [->|Hi]; [|exists r; by rewrite lookup_insert_ne].
  rewrite Hq in Hr. injection Hr as ->. exists (f r). rewrite lookup_insert_eq, He.
  split; [done|]. split; [done|]. destruct (Hk r) as [->|(k' & -> & HK)]; [done|].
  f_equal. destruct kept as [Hreg _]; [congruence|]. by apply Hreg.
Qed.

Lemma registered_update_members_tags p f : stmt_ok (registered e0 t k) (update_members_tags p f).
Proof.
  intros d a d' (r & Hr & He & Hk) H. pose proof (update_members_tags_lookup _ _ _ _ _ t H) as Ht.
  rewrite Hr in Ht. eexists. split; [exact Ht|]. by destruct (p t r).
Qed.

Lemma registered_delete_members p :
  (forall i r, p i r = true -> mr_entity_id r = e /\ may_delete K i r) ->
  stmt_ok (registered e0 t k) (delete_members p).
Proof.
  intros Hp d a d' Hd [= _ <-]. revert Hd. eapply registered_filter; [reflexivity|].
  intros r He Hk. simpl. destruct (p t r) eqn:Ep; [|done]. destruct (Hp _ _ Ep) as [Hre Hdel].
  destruct kept as (_ & Hn & _); [congruence|]. by destruct (Hn r Hk).
Qed.

Lemma registered_delete_entity : may_drop K -> stmt_ok (registered e0 t k) (delete_entity e).
Proof.
  intros Hdrop d a d' Hd H. unfold delete_entity in H.
  destruct (entities d !! e); [|by simplify_eq]. destruct (negb _); [|done].
  injection H as _ <-. revert Hd. eapply registered_filter; [reflexivity|].
  intros r He _. simpl. intros Hre. destruct kept as (_ & _ & Hn); [congruence|done].
Qed.

#[export] Instance registered_inv : StmtInv (registered e0 t k) e K.
Proof.
  split; intros; eauto using registered_insert_members, registered_update_member,
    registered_update_members_tags, registered_delete_members, registered_delete_entity.
  all: try (match goal with H : insert_census_member _ _ = _ |- _ =>
              apply checked_inv in H as [_ [= _ <-]] end; done).
  all: intros d a d' Hd E; revert Hd; apply registered_same; revert E.
  - unfold insert_entity. same_statement.
  - unfold insert_origin. same_statement.
  - unfold insert_user. same_statement.
  - unfold update_entity. same_statement.
  - unfold insert_target. same_statement.
  - unfold insert_census. same_statement.
  - unfold update_census. same_statement.
  - unfold delete_census. same_statement.
  - unfold insert_tag. same_statement.
  - unfold delete_tag. same_statement.
Qed.
End registered.
