(* ===== verification/Session.v ===== *)
(** * The database session (sqlx over database/sql)

    The state [World] is the committed database, the number of driver calls
    made so far (it indexes the environment: clock, random values, faults), the
    number of transactions begun and not yet ended, and the sequence behind
    [tags.id]. Every call of the driver may fail with the environment's error.

    A transaction is the private copy of the tables its statements work on;
    [Commit] publishes it. [d.db] reads the committed tables, also while a
    transaction is open. Requests are served one at a time here; Registry
    interleaves two of them. *)
From S2P Require Import Prelude GoLib Ext Types Schema SchemaOk.

Record World := mkWorld {
  w_db : Db;
  w_tick : nat;
  w_open : nat;
  w_tag_seq : Z;
}.

Definition initial_world : World := mkWorld empty_db 0 0 1.

Definition tick (w : World) : World :=
  mkWorld (w_db w) (S (w_tick w)) (w_open w) (w_tag_seq w).
Definition set_db (d : Db) (w : World) : World :=
  mkWorld d (w_tick w) (w_open w) (w_tag_seq w).
Definition set_open (n : nat) (w : World) : World :=
  mkWorld (w_db w) (w_tick w) n (w_tag_seq w).
Definition set_tag_seq (z : Z) (w : World) : World :=
  mkWorld (w_db w) (w_tick w) (w_open w) z.

(* [D A]: a computation of the program on the database *)
Abbreviation D := (M World).
(* a transaction: the tables as its statements left them *)
Abbreviation Tx := Db.

Section session.
Context {V : Env}.

(* A driver call: it takes a tick, and fails when the environment says so. *)
Definition driver {A} (m : D A) : D A := fun w =>
  match env_fault (w_tick w) with
  | Some e => (Err e, tick w)
  | None => m (tick w)
  end.

(* d.db.Exec / NamedExec, autocommit *)
Definition db_exec {A} (s : Stmt A) : D A :=
  driver (fun w => match s (w_db w) with
                   | inl e => (Err e, w)
                   | inr (a, d) => (Ok a, set_db d w)
                   end).

(* A violated constraint is not reported by NamedQuery: its result has no row
   (comment at pgsql.go:431). *)
Definition deferred {A} (r : gerror + A) : gerror + option A :=
  match r with
  | inl (PgUnique _) | inl (PgForeignKey _ _) | inl (PgNotNull _) => inr None
  | inl e => inl e
  | inr a => inr (Some a)
  end.

(* d.db.NamedQuery(INSERT ... RETURNING) and result.Next() *)
Definition db_query {A} (s : Stmt A) : D (option A) :=
  driver (fun w => match deferred (s (w_db w)) with
                   | inl e => (Err e, w)
                   | inr None => (Ok None, w)
                   | inr (Some (a, d)) => (Ok (Some a), set_db d w)
                   end).

(* d.db.Select: all the rows, no error when there are none *)
Definition db_select {A} (f : Db -> A) : D A := driver (fun w => (Ok (f (w_db w)), w)).
(* d.db.Get, QueryRowx + StructScan: sql.ErrNoRows when there is none *)
Definition db_get {A} (f : Db -> option A) : D A :=
  driver (fun w => match f (w_db w) with
                   | Some a => (Ok a, w)
                   | None => (Err ErrNoRows, w)
                   end).

(* d.db.Beginx *)
Definition Beginx : D Tx := driver (fun w => (Ok (w_db w), set_open (S (w_open w)) w)).

(* tx.Exec / NamedExec *)
Definition tx_exec {A} (t : Tx) (s : Stmt A) : D (A * Tx) :=
  driver (fun w => match s t with
                   | inl e => (Err e, w)
                   | inr (a, t') => (Ok (a, t'), w)
                   end).

(* tx.NamedQuery(INSERT ... RETURNING) *)
Definition tx_query {A} (t : Tx) (s : Stmt A) : D (option (A * Tx)) :=
  driver (fun w => match deferred (s t) with
                   | inl e => (Err e, w)
                   | inr x => (Ok x, w)
                   end).

(* tx.Commit: the transaction is over whether or not it succeeds *)
Definition Commit (t : Tx) : D unit := fun w =>
  let w' := set_open (pred (w_open w)) (tick w) in
  match env_fault (w_tick w) with
  | Some e => (Err e, w')
  | None => (Ok tt, set_db t w')
  end.

(* tx.Rollback of an open transaction *)
Definition Rollback : D unit := fun w =>
  let w' := set_open (pred (w_open w)) (tick w) in
  match env_fault (w_tick w) with
  | Some e => (Err e, w')
  | None => (Ok tt, w')
  end.

(* tx.Rollback after Commit has failed: database/sql answers ErrTxDone *)
Definition Rollback_done : D unit := failM ErrTxDone.

(* result.RowsAffected, rows.Scan, rows.Close *)
Definition RowsAffected (n : nat) : D nat := driver (retM n).
Definition Scan {A} (a : A) : D A := driver (retM a).

(* time.Now(), and now() in a statement *)
Definition time_Now : D Z := fun w => (Ok (env_now (w_tick w)), w).
(* the tick at which a statement draws its default UUIDs *)
Definition now_tick : D nat := fun w => (Ok (w_tick w), w).
(* uuid.New() *)
Definition uuid_New : D uuid := fun w => (Ok (env_uuid (w_tick w) 0), tick w).

(* INSERT INTO tags ... RETURNING id: the id is nextval of a sequence, which
   no failure rolls back *)
Definition db_query_tag (r : TagRow) : D (option Z) :=
  driver (fun w =>
    let id := w_tag_seq w in
    if (int32_max <? id)%Z then (Err (PgOther "ERROR: nextval: reached maximum value of sequence"), w)
    else let w := set_tag_seq (id + 1) w in
         match deferred (insert_tag id r (w_db w)) with
         | inl e => (Err e, w)
         | inr None => (Ok None, w)
         | inr (Some (a, d)) => (Ok (Some a), set_db d w)
         end).
End session.

Create HintDb session discriminated.

(** ** What the calls keep *)
Section session_lemmas.
Context {V : Env}.

Lemma driver_inv {A} (m : D A) w a w' :
  driver m w = (Ok a, w') -> m (tick w) = (Ok a, w').
Proof. unfold driver. by destruct (env_fault _). Qed.

Lemma driver_no_fault {A} (m : D A) w : no_faults -> driver m w = m (tick w).
Proof. intros [Hf _]. unfold driver. by rewrite Hf. Qed.

Lemma driver_keeps {A T} (f : World -> T) (m : D A) :
  (forall w, f (tick w) = f w) -> keeps f m -> keeps f (driver m).
Proof. intros Ht Hm w. unfold driver. destruct (env_fault _); simpl; [done|]. by rewrite Hm. Qed.

Lemma driver_preserves {A} (I : World -> Prop) (R : A -> Prop) (m : D A) :
  (forall w, I w -> I (tick w)) -> preserves I R m -> preserves I R (driver m).
Proof.
  intros Ht Hm w Hw. unfold driver. destruct (env_fault _); cbn [fst snd].
  - split; [auto|discriminate].
  - by apply Hm, Ht.
Qed.

Lemma driver_nopanic {A} (m : D A) : nopanic m -> nopanic (driver m).
Proof. intros Hm w p. unfold driver. destruct (env_fault _); [done|apply Hm]. Qed.
Lemma db_get_nopanic {A} (f : Db -> option A) : nopanic (db_get f).
Proof. apply driver_nopanic. intros w p. by destruct (f _). Qed.
Lemma db_query_nopanic {A} (s : Stmt A) : nopanic (db_query s).
Proof. apply driver_nopanic. intros w p. by destruct (deferred _) as [|[[]|]]. Qed.
Lemma Scan_nopanic {A} (a : A) : nopanic (Scan a).
Proof. by apply driver_nopanic. Qed.

Lemma db_select_keeps {A} (f : Db -> A) : keeps w_db (db_select f).
Proof. by apply driver_keeps. Qed.
Lemma db_get_keeps {A} (f : Db -> option A) : keeps w_db (db_get f).
Proof. apply driver_keeps; [done|]. intros w. by destruct (f (w_db w)). Qed.
Lemma Beginx_keeps : keeps w_db Beginx.
Proof. by apply driver_keeps. Qed.
Lemma tx_exec_keeps {A} t (s : Stmt A) : keeps w_db (tx_exec t s).
Proof. apply driver_keeps; [done|]. intros w. by destruct (s t) as [|[]]. Qed.
Lemma tx_query_keeps {A} t (s : Stmt A) : keeps w_db (tx_query t s).
Proof. apply driver_keeps; [done|]. intros w. by destruct (deferred (s t)). Qed.
Lemma Rollback_keeps : keeps w_db Rollback.
Proof. intros w. unfold Rollback. by destruct (env_fault _). Qed.
Lemma Rollback_done_keeps : keeps w_db Rollback_done.
Proof. done. Qed.
Lemma RowsAffected_keeps n : keeps w_db (RowsAffected n).
Proof. by apply driver_keeps. Qed.
Lemma Scan_keeps {A} (a : A) : keeps w_db (Scan a).
Proof. by apply driver_keeps. Qed.
Lemma time_Now_keeps : keeps w_db time_Now.
Proof. done. Qed.
Lemma now_tick_keeps : keeps w_db now_tick.
Proof. done. Qed.
Lemma uuid_New_keeps : keeps w_db uuid_New.
Proof. done. Qed.
Lemma Commit_atomic t : atomic w_db (Commit t).
Proof. intros w. unfold Commit. by destruct (env_fault _). Qed.
Lemma db_exec_atomic {A} (s : Stmt A) : atomic w_db (db_exec s).
Proof.
  intros w. unfold db_exec, driver. destruct (env_fault _); [done|].
  by destruct (s _) as [|[]].
Qed.
Lemma db_query_atomic {A} (s : Stmt A) : atomic w_db (db_query s).
Proof.
  intros w. unfold db_query, driver. destruct (env_fault _); [done|].
  by destruct (deferred _) as [|[[]|]].
Qed.
Lemma db_query_tag_atomic r : atomic w_db (db_query_tag r).
Proof.
  intros w. unfold db_query_tag, driver. destruct (env_fault _); [done|].
  destruct (_ <? _)%Z; [done|]. by destruct (deferred _) as [|[[]|]].
Qed.
End session_lemmas.

#[export] Hint Resolve db_select_keeps db_get_keeps Beginx_keeps tx_exec_keeps tx_query_keeps
  Rollback_keeps Rollback_done_keeps RowsAffected_keeps Scan_keeps time_Now_keeps
  now_tick_keeps uuid_New_keeps Commit_atomic db_exec_atomic db_query_atomic
  db_query_tag_atomic db_get_nopanic db_query_nopanic Scan_nopanic : go.

(** ** Invariants of the tables along a computation *)
Definition holds (I : Db -> Prop) (w : World) : Prop := I (w_db w).
(* [safe I R m]: [m] keeps the invariant [I] of the committed tables, and its
   value satisfies [R] *)
Abbreviation safe I := (preserves (holds I)).
Definition anything {A} (_ : A) : Prop := True.

Section session_ok.
Context {V : Env} (I : Db -> Prop).

Lemma keeps_safe {A} (m : D A) : keeps w_db m -> safe I anything m.
Proof. intros H w Hw. unfold holds in *. rewrite H. by split. Qed.

Lemma Beginx_safe : safe I I Beginx.
Proof. apply driver_preserves; [done|]. intros w Hw. split; [done|]. by intros ? [= <-]. Qed.

Lemma tx_exec_safe {A} t (s : Stmt A) :
  I t -> stmt_ok I s -> safe I (fun x => I x.2) (tx_exec t s).
Proof.
  intros Ht Hs. apply driver_preserves; [done|]. intros w Hw.
  destruct (s t) as [|[a t']] eqn:E; simpl; (split; [done|]); [done|].
  intros ? [= <-]. refine (Hs _ _ _ _ E); assumption.
Qed.

Lemma deferred_some {A} (r : gerror + A) a : deferred r = inr (Some a) -> r = inr a.
Proof. destruct r as [[]|]; simpl; congruence. Qed.

Lemma tx_query_safe {A} t (s : Stmt A) :
  I t -> stmt_ok I s ->
  safe I (fun x => match x with Some y => I y.2 | None => True end) (tx_query t s).
Proof.
  intros Ht Hs. apply driver_preserves; [done|]. intros w Hw.
  destruct (deferred (s t)) as [|x] eqn:E; simpl; (split; [done|]); [done|].
  intros ? [= <-]. destruct x as [[a t']|]; [|done].
  apply deferred_some in E. refine (Hs _ _ _ _ E); assumption.
Qed.

Lemma Commit_safe t : I t -> safe I anything (Commit t).
Proof. intros Ht w Hw. unfold Commit. by destruct (env_fault _). Qed.

Lemma db_exec_safe {A} (s : Stmt A) : stmt_ok I s -> safe I anything (db_exec s).
Proof.
  intros Hs. apply driver_preserves; [done|]. intros w Hw.
  destruct (s (w_db w)) as [|[a d]] eqn:E; simpl; split; try done. refine (Hs _ _ _ _ E); assumption.
Qed.

Lemma db_query_safe {A} (s : Stmt A) : stmt_ok I s -> safe I anything (db_query s).
Proof.
  intros Hs. apply driver_preserves; [done|]. intros w Hw.
  destruct (deferred _) as [|[[a d]|]] eqn:E; simpl; split; try done.
  apply deferred_some in E. refine (Hs _ _ _ _ E); assumption.
Qed.

Lemma db_query_tag_safe r :
  (forall id, stmt_ok I (insert_tag id r)) -> safe I anything (db_query_tag r).
Proof.
  intros Hs. apply driver_preserves; [done|]. intros w Hw. simpl.
  destruct (_ <? _)%Z; [done|]. simpl.
  destruct (deferred _) as [|[[a d]|]] eqn:E; simpl; split; try done.
  apply deferred_some in E. refine (Hs _ _ _ _ _ E); assumption.
Qed.

Lemma safe_bind_any {A B} (Q : B -> Prop) (m : D A) k :
  keeps w_db m -> (forall a, safe I Q (k a)) -> safe I Q (bindM m k).
Proof. intros. eapply preserves_bind; [by apply keeps_safe|auto]. Qed.

Lemma tx_exec_post {A} t (s : Stmt A) (R : Tx -> Prop) :
  (forall a t', s t = inr (a, t') -> R t') -> safe I (fun x => R x.2) (tx_exec t s).
Proof.
  intros Hs. apply driver_preserves; [done|]. intros w Hw.
  destruct (s t) as [|[a t']] eqn:E; simpl; (split; [done|]); [done|].
  intros ? [= <-]. by apply (Hs a).
Qed.

(* [safe] from tables [d], with what the reads found in them *)
Definition safe_at (d : Db) {A} (Q : A -> Prop) (m : D A) : Prop :=
  forall w, w_db w = d -> holds I (m w).2 /\ forall a, (m w).1 = Ok a -> Q a.

Lemma safe_from {A} (Q : A -> Prop) m : (forall d, I d -> safe_at d Q m) -> safe I Q m.
Proof. intros H w Hw. by apply (H (w_db w)). Qed.
Lemma safe_at_safe {A} d (Q : A -> Prop) m : I d -> safe I Q m -> safe_at d Q m.
Proof. intros Hd H w <-. by apply H. Qed.
Lemma safe_at_read {A B} d (R : A -> Prop) (Q : B -> Prop) (m : D A) k :
  I d -> keeps w_db m -> (forall w a w', w_db w = d -> m w = (Ok a, w') -> R a) ->
  (forall a, R a -> safe_at d Q (k a)) -> safe_at d Q (bindM m k).
Proof.
  intros Hd Hm HR Hk w Hw. specialize (Hm w). unfold bindM, holds.
  destruct (m w) as [[a|e|p] w'] eqn:E; simpl in *.
  - apply Hk; [by eapply HR|congruence].
  - split; [congruence|done].
  - split; [congruence|done].
Qed.
Lemma safe_at_skip {A B} d (Q : B -> Prop) (m : D A) k :
  I d -> keeps w_db m -> (forall a, safe_at d Q (k a)) -> safe_at d Q (bindM m k).
Proof. intros. by apply (safe_at_read d anything). Qed.
Lemma safe_at_fail {A} d (Q : A -> Prop) e : I d -> safe_at d Q (failM e).
Proof. intros Hd w <-. by split. Qed.
Lemma safe_at_panic {A} d (Q : A -> Prop) p : I d -> safe_at d Q (panicM p).
Proof. intros Hd w <-. by split. Qed.
(* a transaction starts from the tables *)
Lemma safe_at_Beginx {B} d (Q : B -> Prop) f (k : Tx -> D B) :
  I d -> safe I Q (k d) -> safe_at d Q (bindM (onErr Beginx f) k).
Proof.
  intros Hd Hk. apply (safe_at_read d (eq d)); [done|by apply keeps_onErr, Beginx_keeps| |].
  - intros w a w' <- H%onErr_ok. by apply driver_inv in H as [= <- _].
  - intros a <-. by apply safe_at_safe.
Qed.

End session_ok.

#[export] Hint Resolve preserves_fail preserves_panic : session.
