(* ===== verification/PgTypes.v ===== *)
(** * database/pgsql/types.go: Go values and PostgreSQL values

    The pgtype values the driver reads and writes, the conversions between them
    and the program's types, and the tables of struct fields that ORDER BY
    columns are looked up in by reflection. *)
From S2P Require Import Prelude GoLib Ext Types Schema.

(** ** pgtype values *)

Inductive pgStatus := Undefined | Null | Present.
#[export] Instance pgStatus_eq_dec : EqDecision pgStatus.
Proof. solve_decision. Defined.

Record Text := mkText { txt_String : string; txt_Status : pgStatus }.
Record JSONB := mkJSONB { jb_Bytes : bytes; jb_Status : pgStatus }.
Record Int4Array := mkInt4Array { ia_Elements : list Z; ia_Status : pgStatus }.
Record ByteaArray := mkByteaArray { ba_Elements : list bytes; ba_Status : pgStatus }.
Record EnumArray := mkEnumArray { en_Elements : list string; en_Status : pgStatus }.

Definition Int4Array_Set (l : option (list Z)) : Int4Array :=
  match l with Some l => mkInt4Array l Present | None => mkInt4Array [] Null end.
(* AssignTo(&dst): null gives the nil slice, undefined leaves dst alone *)
Definition Int4Array_AssignTo (a : Int4Array) (dst : option (list Z)) : option (list Z) :=
  match ia_Status a with
  | Present => Some (ia_Elements a) | Null => None | Undefined => dst
  end.
Definition ByteaArray_Set (l : option (list bytes)) : ByteaArray :=
  match l with Some l => mkByteaArray l Present | None => mkByteaArray [] Null end.
Definition ByteaArray_AssignTo (a : ByteaArray) : gerror + option (list bytes) :=
  match ba_Status a with
  | Present => inr (Some (ba_Elements a))
  | Null => inr None
  | Undefined => inl (Errorf "cannot decode ByteaArray")
  end.
Definition EnumArray_Set (l : list string) : EnumArray := mkEnumArray l Present.
Definition EnumArray_AssignTo (a : EnumArray) (dst : list string) : list string :=
  match en_Status a with Present => en_Elements a | Null => [] | Undefined => dst end.

(** ** Entities *)

Record PGEntity := mkPGEntity {
  pe_Entity : Entity;
  pe_CensusManagersAddresses : ByteaArray;
  pe_Origins : EnumArray;
}.

Definition ToPGOriginArray (x : list Origin) : gerror + EnumArray :=
  inr (EnumArray_Set (map Origin_String x)).

Definition ToOriginArray (p : EnumArray) : gerror + list Origin :=
  inr (map ToOrigin (EnumArray_AssignTo p [])).

Definition StringToOriginArray (s : list string) : gerror + list Origin := inr (map ToOrigin s).

Definition ToPGEntity (x : Entity) : gerror + PGEntity :=
  let managers := ByteaArray_Set (ei_CensusManagersAddresses (e_Info x)) in
  match ToPGOriginArray (ei_Origins (e_Info x)) with
  | inl err => inl err
  | inr pgOrigins => inr (mkPGEntity x managers pgOrigins)
  end.

Definition set_managers (v : option (list bytes)) (i : EntityInfo) : EntityInfo :=
  mkEntityInfo (ei_CallbackURL i) (ei_CallbackSecret i) (ei_Email i) (ei_Name i) (ei_Type i)
    (ei_Size i) v (ei_Origins i) (ei_Consented i).
Definition set_origins (v : list Origin) (i : EntityInfo) : EntityInfo :=
  mkEntityInfo (ei_CallbackURL i) (ei_CallbackSecret i) (ei_Email i) (ei_Name i) (ei_Type i)
    (ei_Size i) (ei_CensusManagersAddresses i) v (ei_Consented i).
Definition set_info (v : EntityInfo) (e : Entity) : Entity :=
  mkEntity (e_CreatedUpdated e) (e_ID e) (e_IsAuthorized e) v.

Definition ToEntity (x : PGEntity) : gerror + Entity :=
  let y := pe_Entity x in
  match ByteaArray_AssignTo (pe_CensusManagersAddresses x) with
  | inl err => inl err
  | inr managers =>
      let y := set_info (set_managers managers (e_Info y)) y in
      if bool_decide (en_Status (pe_Origins x) = Null) then inr y
      else match ToOriginArray (pe_Origins x) with
           | inl err => inl err
           | inr origins => inr (set_info (set_origins origins (e_Info y)) y)
           end
  end.

(** ** Members *)

Record PGMember := mkPGMember {
  pm_Member : Member;
  pm_CustomFields : JSONB;
  pm_Tags : Int4Array;
  pm_Email : Text;
}.

Definition set_Email (v : string) (m : Member) : Member :=
  let i := m_Info m in
  mkMember (m_CreatedUpdated m) (m_ID m) (m_EntityID m) (m_PubKey m)
    (mkMemberInfo (mi_DateOfBirth i) v (mi_FirstName i) (mi_LastName i) (mi_Phone i)
       (mi_StreetAddress i) (mi_Consented i) (mi_Verified i) (mi_Origin i)
       (mi_CustomFields i) (mi_Tags i)).
Definition set_MemberTags (v : option (list Z)) (m : Member) : Member :=
  let i := m_Info m in
  mkMember (m_CreatedUpdated m) (m_ID m) (m_EntityID m) (m_PubKey m)
    (mkMemberInfo (mi_DateOfBirth i) (mi_Email i) (mi_FirstName i) (mi_LastName i) (mi_Phone i)
       (mi_StreetAddress i) (mi_Consented i) (mi_Verified i) (mi_Origin i)
       (mi_CustomFields i) v).
Definition set_times (c u : Z) (m : PGMember) : PGMember :=
  let x := pm_Member m in
  mkPGMember (mkMember (mkCreatedUpdated c u) (m_ID x) (m_EntityID x) (m_PubKey x) (m_Info x))
    (pm_CustomFields m) (pm_Tags m) (pm_Email m).

(* y.Email.Set(s) and the status the code gives it *)
Definition email_Text (s : string) : Text :=
  if bool_decide (0 < strlen s) then mkText s Present else mkText "" Null.
(* x.Email.Status != Null || len(x.Email.String) > 0 *)
Definition Text_email (t : Text) : string :=
  if bool_decide (txt_Status t <> Null) || bool_decide (0 < strlen (txt_String t))
  then txt_String t else "".

Section members.
Context {X : Ext}.

Definition ToPGMember (x : Member) : gerror + PGMember :=
  match JSONB_Set (mi_CustomFields (m_Info x)) with
  | inl err => inl err
  | inr fields =>
      inr (mkPGMember x (mkJSONB fields Present) (Int4Array_Set (mi_Tags (m_Info x)))
             (email_Text (mi_Email (m_Info x))))
  end.
End members.

(* [x.CustomFields.AssignTo(y.MemberInfo.CustomFields)] is given a slice, not a
   pointer to one: it fails, the error is dropped, y keeps its own value. *)
Definition ToMember (x : PGMember) : Member :=
  let y := pm_Member x in
  let y := set_MemberTags (Int4Array_AssignTo (pm_Tags x) (mi_Tags (m_Info y))) y in
  set_Email (Text_email (pm_Email x)) y.

(** ** Ephemeral members *)

Record PGEphemeralMemberInfo := mkPGEphemeral {
  px_Info : EphemeralMemberInfo;
  px_Email : Text;
}.
Definition ToPGEphemeralMemberInfo (x : EphemeralMemberInfo) : PGEphemeralMemberInfo :=
  mkPGEphemeral x (email_Text (em_Email x)).
Definition ToEphemeralMemberInfo (x : PGEphemeralMemberInfo) : EphemeralMemberInfo :=
  let y := px_Info x in
  mkEphemeralMemberInfo (em_ID y) (em_FirstName y) (em_LastName y)
    (Text_email (px_Email x)) (em_PrivKey y) (em_DigestedPubKey y).

(** ** ORDER BY columns *)

Inductive OrderBySQLi :=
| DateOfBirth | Email | FirstName | LastName | Phone | StreetAddress | Consented | Verified
| OriginColumn | CustomFields | Name | MerkleRoot | MerkleTreeURI | Size | CreatedAtColumn
| UpdatedAtColumn | UnknownColumn.

Definition ToOrderBySQLi (orderBy : string) : OrderBySQLi :=
  if decide (orderBy = "dateOfBirth") then DateOfBirth
  else if decide (orderBy = "email") then Email
  else if decide (orderBy = "firstName") then FirstName
  else if decide (orderBy = "lastName") then LastName
  else if decide (orderBy = "phone") then Phone
  else if decide (orderBy = "streetAddress") then StreetAddress
  else if decide (orderBy = "consented") then Consented
  else if decide (orderBy = "verified") then Verified
  else if decide (orderBy = "origin") then OriginColumn
  else if decide (orderBy = "customFields") then CustomFields
  else if decide (orderBy = "name") then Name
  else if decide (orderBy = "merkleRoot") then MerkleRoot
  else if decide (orderBy = "merkleTreeURI") then MerkleTreeURI
  else if decide (orderBy = "size") then Size
  else if decide (orderBy = "createdAt") then CreatedAtColumn
  else if decide (orderBy = "updatedAt") then UpdatedAtColumn
  else UnknownColumn.

(* the exported fields of a struct with the db tag of each, embedded structs
   and their promoted fields included *)
Definition MemberInfo_fields : list (string * string) :=
  [("DateOfBirth", "date_of_birth"); ("Email", "email"); ("FirstName", "first_name");
   ("LastName", "last_name"); ("Phone", "phone"); ("StreetAddress", "street_address");
   ("Consented", "consented"); ("Verified", "verified"); ("Origin", "origin");
   ("CustomFields", "custom_fields"); ("Tags", "tags")].
Definition Census_fields : list (string * string) :=
  [("EntityID", "entity_id"); ("ID", "id"); ("TargetID", "target_id"); ("CensusInfo", "");
   ("CreatedUpdated", ""); ("CreatedAt", "created_at"); ("UpdatedAt", "updated_at");
   ("Name", "name"); ("MerkleRoot", "merkle_root"); ("MerkleTreeURI", "merkle_tree_uri");
   ("Size", "size"); ("Ephemeral", "ephemeral"); ("ProcessID", "process_id")].

(* t.FieldByName(name) and field.Tag.Get("db") *)
Fixpoint FieldByName (t : list (string * string)) (name : string) : option string :=
  match t with
  | [] => None
  | (f, tag) :: t => if decide (f = name) then Some tag else FieldByName t name
  end.

Lemma FieldByName_in t name tag : FieldByName t name = Some tag -> tag ∈ t.*2.
Proof.
  induction t as [|[f g] t IH]; simpl; [done|]. case_decide; [|set_solver].
  intros [= ->]. set_solver.
Qed.

(** ** What a database round trip keeps *)

(* the email a Go value and its column agree on *)
Lemma Text_email_Text s : Text_email (email_Text s) = s.
Proof.
  unfold email_Text, Text_email. destruct s; reflexivity.
Qed.

Section roundtrip.
Context {X : Ext}.

(* converting a member to its PostgreSQL form and back gives the same
    member, whatever its fields: the email (empty is stored as NULL) and the
    tags (nil is stored as NULL) included. *)
Lemma ToMember_ToPGMember (x : Member) (y : PGMember) :
  ToPGMember x = inr y -> ToMember y = x.
Proof.
  unfold ToPGMember. destruct (JSONB_Set _); [done|]. intros [= <-].
  unfold ToMember, set_Email, set_MemberTags; simpl. rewrite Text_email_Text.
  destruct x as [? ? ? ? [? ? ? ? ? ? ? ? ? ? tgs]]; simpl. by destruct tgs.
Qed.
End roundtrip.

Lemma ToMember_ToPGMember_witness :
  let x := mkMember zero_CreatedUpdated 7%N "e" None
             (mkMemberInfo 0 "a@b" "A" "B" "" "" false 0 Token None (Some [1%Z])) in
  exists y, ToPGMember (X:=demo_ext) x = inr y /\ ToMember y = x.
Proof.
  intros x. eexists. split; [reflexivity|].
  by apply (ToMember_ToPGMember (X:=demo_ext)).
Defined.

(** Converting an entity to its PostgreSQL form and back gives the same
    entity exactly when none of its origins is API (whose generated name is not
    read back). *)
Lemma ToEntity_ToPGEntity (x : Entity) :
  match ToPGEntity x with inl e => inl e | inr y => ToEntity y end = inr x <->
  API ∉ ei_Origins (e_Info x).
Proof.
  destruct x as [cu id au [cb cs em nm ty sz ma os co]]. unfold ToPGEntity, ToEntity, set_info,
    set_managers, set_origins; simpl.
  assert (Hm : map (fun x => ToOrigin (Origin_String x)) os = os <-> API ∉ os).
  { clear. induction os as [|o os IH]; simpl; [set_solver|].
    rewrite not_elem_of_cons, <- IH. destruct (decide (o = API)) as [->|Ho].
    - rewrite ToOrigin_API. split; [discriminate|naive_solver].
    - rewrite ToOrigin_Origin_String by done. split; [intros [= ?]|intros [_ ->]]; auto. }
  rewrite <- Hm. destruct ma; cbn; rewrite map_map; split; [intros [= ->]|intros ->| intros [= ->]|intros ->]; done.
Qed.
