(* ===== verification/PgTx.v ===== *)
(** * Transactions and batches (database/pgsql/pgsql.go)

    The shapes the operations of pgsql.go share: rolling back on an error,
    committing, and [bulkInsert], which splits an insertion into statements
    PostgreSQL accepts. The SQL text that some error messages quote is left
    out of them. *)
From S2P Require Import Prelude GoLib Ext Types Schema SchemaOk Session.

(* fmt's %v of an error value *)
Definition error_v {A} (r : gerror + A) : string :=
  match r with inl e => error_string e | inr _ => "<nil>" end.

(* PostgreSQL's protocol counts the parameters of a statement in 16 bits *)
Definition max_parameters : nat := Z.to_nat 65535.

Definition named_batch {R} (params : nat) (s : list R -> Stmt nat) (batch : list R) : Stmt nat :=
  if max_parameters <? params * length batch
  then sql_error (PgOther "extended protocol limited to 65535 parameters")
  else s batch.

(* int(64-bit) arithmetic never overflows here: [numField] is a small constant *)
Definition maxBulkInsert (numField : nat) : nat := Z.to_nat 65536 / numField - 1.

Section transactions.
Context {V : Env}.

(* if rollErr := tx.Rollback(); err != nil { return ... } with err non-nil *)
Definition rollback_with {A} (f : string -> gerror) : D A :=
  let! r := tryM Rollback in failM (f (error_v r)).

(* if rollbackErr := tx.Rollback(); rollbackErr != nil { f } ; g *)
Definition rollback_or {A} (f : gerror -> gerror) (g : gerror) : D A :=
  let! r := tryM Rollback in
  match r with inl rollbackErr => failM (f rollbackErr) | inr _ => failM g end.

(* if err = tx.Commit(); err != nil { if rollErr := tx.Rollback(); err != nil ... } *)
Definition commit_or (t : Tx) (f : string -> gerror -> gerror) : D unit :=
  let! r := tryM (Commit t) in
  match r with
  | inr _ => retM tt
  | inl err => let! rb := tryM Rollback_done in failM (f (error_v rb) err)
  end.

Definition commit_default (rb : string) (err : gerror) : gerror :=
  Wrapf ("something is very wrong: error rolling back: " +:+ rb
           +:+ " after final commit to DB: ") err.

Section bulk.
Context {R : Type} (params : nat) (s : list R -> Stmt nat) (bulkSlice : list R).
Context (maxBulk : nat).

(* for i := 0; i < len(bulkSlice); i += maxBulkInsert *)
Fixpoint bulk_loop (fuel : nat) (i : nat) (t : Tx) : D Tx :=
  if length bulkSlice <=? i then retM t
  else match fuel with
  | O => panicM "out of fuel"
  | S fuel =>
      let limit := if length bulkSlice <? i + maxBulk then length bulkSlice
                   else i + maxBulk in
      let batch := take (limit - i) (drop i bulkSlice) in
      let! result := tryM (tx_exec t (named_batch params s batch)) in
      match result with
      | inl err =>
          rollback_or (Wrapf "something is very wrong: could not rollback performing batch insert ")
            (Wrapf "error during batch insert " err)
      | inr (n, t) =>
          let! added := tryM (RowsAffected n) in
          match added with
          | inl err =>
              rollback_with (fun rb => Wrapf
                ("something is very wrong: could not rollback performing batch insert: "
                   +:+ rb +:+ " after error on counting affected rows: ") err)
          | inr addedRows =>
              if negb (addedRows =? length batch) then
                let! _ := tryM Rollback in
                failM (Errorf ("expected to have inserted " +:+ decimal (Z.of_nat addedRows)
                  +:+ " rows but inserted " +:+ decimal (Z.of_nat (length batch))))
              else bulk_loop fuel (i + maxBulk) t
          end
      end
  end.
End bulk.

(* every caller has numField small enough for maxBulkInsert > 0: one step of
   fuel per row is enough *)
Definition bulkInsert {R} (t : Tx) (params : nat) (s : list R -> Stmt nat)
    (bulkData : list R) (numField : nat) : D Tx :=
  bulk_loop params s bulkData (maxBulkInsert numField) (length bulkData) 0 t.
End transactions.

(** ** Automation: atomicity and integrity of an operation *)

Section tx_lemmas.
Context {V : Env}.

Lemma rollback_with_keeps {A} f : keeps w_db (rollback_with (A:=A) f).
Proof. go_keeps. Qed.
Lemma rollback_or_keeps {A} f g : keeps w_db (rollback_or (A:=A) f g).
Proof. go_keeps. Qed.
Lemma commit_or_ok t f w u w' : commit_or t f w = (Ok u, w') -> w_db w' = t.
Proof. unfold commit_or, bindM, tryM, Commit. destruct (env_fault _); [done|]. by intros [= _ <-]. Qed.
Lemma commit_or_atomic t f : atomic w_db (commit_or t f).
Proof.
  apply atomic_try_bind; [apply Commit_atomic|intros; go_keeps|auto with go].
Qed.
Lemma commit_or_safe (I : Db -> Prop) t f : I t -> safe I anything (commit_or t f).
Proof.
  intros Ht. eapply preserves_bind; [by apply preserves_tryM, Commit_safe|].
  intros [e|] _; [apply keeps_safe; go_keeps|by apply preserves_ret].
Qed.
Lemma bulk_loop_keeps {R} p (s : list R -> Stmt nat) l mx fuel i t :
  keeps w_db (bulk_loop p s l mx fuel i t).
Proof.
  revert i t. induction fuel; intros i t; simpl; go_keeps; apply rollback_or_keeps ||
    apply rollback_with_keeps.
Qed.
Lemma bulkInsert_keeps {R} t p (s : list R -> Stmt nat) l n : keeps w_db (bulkInsert t p s l n).
Proof. apply bulk_loop_keeps. Qed.
Lemma keeps_safe_any {A} (I : Db -> Prop) (Q : A -> Prop) (m : D A) :
  keeps w_db m -> (forall w a, (m w).1 <> Ok a) -> safe I Q m.
Proof. intros H Hn w Hw. unfold holds. rewrite H. split; [done|]. intros a Ha. by apply Hn in Ha. Qed.
Lemma rollback_with_safe {A} I (Q : A -> Prop) f : safe I Q (rollback_with (A:=A) f).
Proof.
  apply keeps_safe_any; [apply rollback_with_keeps|]. intros w a.
  unfold rollback_with, bindM, tryM. by destruct (Rollback w) as [[] ?].
Qed.
Lemma rollback_or_safe {A} I (Q : A -> Prop) f g : safe I Q (rollback_or (A:=A) f g).
Proof.
  apply keeps_safe_any; [apply rollback_or_keeps|]. intros w a.
  unfold rollback_or, bindM, tryM. by destruct (Rollback w) as [[] ?].
Qed.
Lemma named_batch_ok {R} I p (s : list R -> Stmt nat) l :
  stmt_ok I (s l) -> stmt_ok I (named_batch p s l).
Proof. intros H. unfold named_batch. destruct (_ <? _); auto with schema. Qed.
Lemma bulk_loop_safe {R} (I : Db -> Prop) p (s : list R -> Stmt nat) l mx fuel i t :
  (forall b, (forall x, x ∈ b -> x ∈ l) -> stmt_ok I (s b)) -> I t ->
  safe I I (bulk_loop p s l mx fuel i t).
Proof.
  intros Hs. revert i t. induction fuel; intros i t Ht; simpl;
    destruct (_ <=? _); auto using preserves_ret, preserves_panic.
  eapply preserves_bind;
    [apply preserves_tryM, tx_exec_safe; [done|apply named_batch_ok, Hs]|].
  { intros x. apply elem_of_slice. }
  intros [e|[n t']] Ht'; simpl in *; [apply rollback_or_safe|].
  eapply preserves_bind; [apply keeps_safe; go_keeps|]. intros [e|k] _.
  - apply rollback_with_safe.
  - destruct (negb _); [|auto]. eapply preserves_bind; [apply keeps_safe; go_keeps|].
    intros; apply preserves_fail.
Qed.
Lemma bulkInsert_safe {R} (I : Db -> Prop) t p (s : list R -> Stmt nat) l n :
  (forall b, (forall x, x ∈ b -> x ∈ l) -> stmt_ok I (s b)) -> I t ->
  safe I I (bulkInsert t p s l n).
Proof. apply bulk_loop_safe. Qed.
End tx_lemmas.

#[export] Hint Resolve rollback_with_keeps rollback_or_keeps commit_or_atomic
  bulkInsert_keeps : go.

(* [atomic w_db]: reads and transactions in progress keep the tables, the last
   call commits. *)
Ltac go_atomic :=
  intros; repeat first
    [ solve [eauto with go]
    | solve [apply keeps_atomic; go_keeps]
    | apply atomic_bind; [solve [go_keeps]|intros]
    | apply atomic_bind_returns; [|solve [auto with go]]
    | apply atomic_onErr
    | progress go_case ].

(* [safe]: the integrity of the tables of a transaction is a fact in the
   context, the statement's lemma is in [schema]. *)
Ltac go_safe_call :=
  lazymatch goal with
  | |- preserves _ _ Beginx => apply Beginx_safe
  | |- preserves _ _ (tx_exec _ _) => apply tx_exec_safe; [assumption|eauto with schema]
  | |- preserves _ _ (tx_query _ _) => apply tx_query_safe; [assumption|eauto with schema]
  | |- preserves _ _ (bulkInsert _ _ _ _ _) =>
      apply bulkInsert_safe; [intros; eauto with schema|assumption]
  | |- preserves _ _ (commit_or _ _) => apply commit_or_safe; assumption
  | |- preserves _ _ (Commit _) => apply Commit_safe; assumption
  | |- preserves _ _ (db_exec _) => apply db_exec_safe; eauto with schema
  | |- preserves _ _ (db_query _) => apply db_query_safe; eauto with schema
  | |- preserves _ _ (db_query_tag _) => apply db_query_tag_safe; eauto with schema
  | |- preserves _ _ (tryM _) => apply preserves_tryM; go_safe_call
  | |- preserves _ _ (onErr _ _) => apply preserves_onErr; go_safe_call
  | |- preserves _ _ (bindM _ _) => eapply preserves_bind; [go_safe_call|intros ? ?]
  | |- _ => solve [eauto with session] || (apply keeps_safe; go_keeps; fail)
  end.
Ltac go_safe :=
  intros; repeat (simpl in *; first
    [ solve [eauto using preserves_fail, preserves_panic, rollback_with_safe, rollback_or_safe with session]
    | apply preserves_ret; (exact I || assumption || done)
    | match goal with |- preserves _ _ (bindM _ _) =>
        eapply preserves_bind; [go_safe_call|intros ? ?] end
    | go_safe_call
    | apply preserves_onErr
    | progress go_case ]).

(** ** Batches amount to one statement *)

Class Batchable {R} (s : list R -> Stmt nat) : Prop := {
  batch_nil d : s [] d = inr (0, d);
  batch_count l d n d' : s l d = inr (n, d') -> n = length l;
  batch_app l1 l2 d n d' :
    s (l1 ++ l2) d = inr (n, d') <->
    exists n1 d1 n2, s l1 d = inr (n1, d1) /\ s l2 d1 = inr (n2, d') /\ n = n1 + n2;
}.

#[export] Instance each_row_batchable {R} (s : R -> Stmt nat) :
  (forall r d n d', s r d = inr (n, d') -> n = 1) -> Batchable (each_row s).
Proof.
  intros Hs. split; [done| |].
  - induction l as [|r l IH]; intros d n d'; simpl; [by intros [= <- _]|].
    destruct (s r d) as [|[n1 d1]] eqn:E1; [done|].
    destruct (each_row s l d1) as [|[n2 d2]] eqn:E2; [done|]. intros [= <- <-].
    apply Hs in E1 as ->. by apply IH in E2 as ->.
  - induction l1 as [|r l1 IH]; intros l2 d n d'; simpl.
    + split; [intros H; by eexists 0, d, n|]. by intros (? & ? & ? & [= <- <-] & ? & ->).
    + destruct (s r d) as [|[n1 d1]] eqn:E1; [naive_solver|]. split.
      * destruct (each_row s (l1 ++ l2) d1) as [|[k d2]] eqn:E2; [done|]. intros [= <- <-].
        apply IH in E2 as (m1 & d3 & m2 & -> & H2 & ->). exists (n1 + m1), d3, m2.
        split_and!; [done..|lia].
      * intros (m1 & d3 & m2 & H1 & H2 & ->).
        destruct (each_row s l1 d1) as [|[k d4]] eqn:E2; [done|]. injection H1 as <- <-.
        assert (each_row s (l1 ++ l2) d1 = inr (k + m2, d')) as -> by (apply IH; eauto 10).
        by rewrite Nat.add_assoc.
Qed.

Lemma insert_user_count pk dg a b d n d' : insert_user pk dg a b d = inr (n, d') -> n = 1.
Proof.
  unfold insert_user. destruct pk, dg; try done. intros [_ H]%checked_inv. congruence.
Qed.
Lemma insert_census_member_count x d n d' : insert_census_member x d = inr (n, d') -> n = 1.
Proof. intros [_ H]%checked_inv. congruence. Qed.
#[export] Instance insert_census_batchable : Batchable (each_row insert_census_member).
Proof. apply each_row_batchable, insert_census_member_count. Qed.
Lemma insert_member_row_count x d n d' : insert_member_row x d = inr (n, d') -> n = 1.
Proof. intros [_ H]%checked_inv. congruence. Qed.

Lemma insert_members_iff rows d n d' :
  insert_members rows d = inr (n, d') <->
  each_row insert_member_row rows d = inr (n, d') /\
  forall x, x ∈ rows -> Forall (fun c => c.1 = true) (member_fk_checks d x.2).
Proof.
  unfold insert_members. destruct (each_row _ rows d) as [|[k d1]] eqn:E; [naive_solver|].
  pose proof (each_row_members _ _ _ _ E) as (_ & Hd & _).
  assert (Hc : forall r, member_fk_checks d1 r = member_fk_checks d r) by (by subst).
  split.
  - destruct (first_error _) eqn:Ef; [done|]. intros [= <- <-]. split; [done|].
    intros x Hx. apply first_error_none in Ef. rewrite Forall_concat_map in Ef.
    rewrite <- Hc. auto.
  - intros [[= <- <-] H]. rewrite first_error_some; [done|]. apply Forall_concat_map.
    intros x Hx. rewrite Hc. auto.
Qed.

#[export] Instance insert_members_batchable : Batchable insert_members.
Proof.
  pose proof (each_row_batchable insert_member_row insert_member_row_count) as [_ Hn Ha].
  split; [done| |].
  - intros l d n d' [H _]%insert_members_iff. eauto.
  - intros l1 l2 d n d'. rewrite insert_members_iff, Ha. setoid_rewrite insert_members_iff.
    split.
    + intros [(n1 & d1 & n2 & H1 & H2 & ->) Hf]. exists n1, d1, n2.
      pose proof (each_row_members _ _ _ _ H1) as (_ & Hd & _).
      split_and!; try done; intros x Hx; [|rewrite Hd]; apply Hf; set_solver.
    + intros (n1 & d1 & n2 & [H1 F1] & [H2 F2] & ->). split; [eauto 10|].
      pose proof (each_row_members _ _ _ _ H1) as (_ & Hd & _).
      intros x [Hx|Hx]%elem_of_app; [by apply F1|]. specialize (F2 x Hx).
      by rewrite Hd in F2.
Qed.

Section batches.
Context {V : Env} (Hok : no_faults) {R : Type} (s : list R -> Stmt nat) {Hs : Batchable s}.
Context (params mx : nat) (data : list R).
Context (Hmx : 1 <= mx) (Hp : params * mx <= max_parameters).

Lemma driver_ok {A} (m : D A) w : driver m w = m (tick w).
Proof. unfold driver. by rewrite (proj1 Hok). Qed.

(* one turn of the loop *)
Lemma bulk_loop_step fuel i t w :
  i < length data ->
  bulk_loop params s data mx (S fuel) i t w =
  match s (take mx (drop i data)) t with
  | inl e => (Err (Wrapf "error during batch insert " e),
              set_open (pred (w_open w)) (tick (tick w)))
  | inr (_, t') => bulk_loop params s data mx fuel (i + mx) t' (tick (tick w))
  end.
Proof.
  intros Hi. cbn [bulk_loop]. destruct (Nat.leb_spec (length data) i); [lia|].
  assert (Hb : take ((if length data <? i + mx then length data else i + mx) - i) (drop i data)
               = take mx (drop i data)).
  { destruct (Nat.ltb_spec (length data) (i + mx)); [|f_equal; lia].
    rewrite !take_ge; [done|rewrite length_drop; lia..]. }
  rewrite Hb. unfold bindM, tryM, tx_exec, RowsAffected. rewrite driver_ok.
  unfold named_batch. destruct (Nat.ltb_spec max_parameters (params * length (take mx (drop i data)))).
  { pose proof (firstn_le_length mx (drop i data)). nia. }
  destruct (s _ t) as [e|[n t']] eqn:E.
  - unfold rollback_or, bindM, tryM, Rollback. rewrite (proj1 Hok). reflexivity.
  - rewrite driver_ok. unfold retM. rewrite (batch_count _ _ _ _ E), Nat.eqb_refl. reflexivity.
Qed.

Lemma bulk_loop_spec fuel i t w :
  length data - i <= fuel ->
  match s (drop i data) t with
  | inr (_, t') => (bulk_loop params s data mx fuel i t w).1 = Ok t' /\
                   w_open (bulk_loop params s data mx fuel i t w).2 = w_open w
  | inl _ => (exists e, (bulk_loop params s data mx fuel i t w).1 = Err e) /\
             w_open (bulk_loop params s data mx fuel i t w).2 = pred (w_open w)
  end.
Proof.
  revert i t w. induction fuel as [|fuel IH]; intros i t w Hf.
  - rewrite drop_ge, batch_nil by lia. simpl. by destruct (Nat.leb_spec (length data) i); [|lia].
  - destruct (decide (i < length data)) as [Hi|Hi].
    2: { rewrite drop_ge, batch_nil by lia. simpl.
         by destruct (Nat.leb_spec (length data) i); [|lia]. }
    rewrite bulk_loop_step by done.
    assert (Ha := batch_app (take mx (drop i data)) (drop (i + mx) data) t).
    rewrite <- drop_drop, take_drop, drop_drop in Ha.
    specialize (IH (i + mx)).
    destruct (s (take mx (drop i data)) t) as [e|[n1 t1]] eqn:E1.
    + destruct (s (drop i data) t) as [|[n t']] eqn:E; simpl; [eauto|].
      by edestruct Ha as [(? & ? & ? & ? & _) _].
    + specialize (IH t1 (tick (tick w)) ltac:(lia)). simpl in IH.
      destruct (s (drop (i + mx) data) t1) as [e2|[n2 t2]] eqn:E2.
      * destruct (s (drop i data) t) as [|[n t']] eqn:E; [done|].
        edestruct Ha as [(? & ? & ? & ? & ? & _) _]; [done|]. congruence.
      * rewrite (proj2 (Ha (n1 + n2) t2)); eauto 10.
Qed.
End batches.

(* also when the driver may fail: a batched insertion that succeeds did what
   the single statement does *)
Lemma bulk_loop_inv {V : Env} {R} (s : list R -> Stmt nat) `{!Batchable s} params mx data fuel i
    t w t' w' :
  bulk_loop params s data mx fuel i t w = (Ok t', w') ->
  exists n, s (drop i data) t = inr (n, t').
Proof.
  revert i t w. induction fuel as [|fuel IH]; intros i t w.
  all: cbn [bulk_loop]; destruct (Nat.leb_spec (length data) i) as [Hi|Hi];
    [intros [= <- _]; exists 0; rewrite drop_ge by done; apply batch_nil|try done].
  assert (Hb : take ((if length data <? i + mx then length data else i + mx) - i) (drop i data)
               = take mx (drop i data)).
  { destruct (Nat.ltb_spec (length data) (i + mx)); [|f_equal; lia].
    rewrite !take_ge; [done|rewrite length_drop; lia..]. }
  rewrite Hb. unfold bindM at 1, tryM at 1, tx_exec.
  destruct (driver _ w) as [[[n t1]|err|p] w1] eqn:E1; try done.
  2: { unfold rollback_or, bindM, tryM. by destruct (Rollback w1) as [[] ?]. }
  apply driver_inv in E1. unfold bindM at 1, tryM at 1.
  destruct (RowsAffected _ _) as [[rows|err|p] w2]; try done.
  2: { unfold rollback_with, bindM, tryM. by destruct (Rollback w2) as [[] ?]. }
  destruct (negb _); [unfold bindM, tryM; by destruct (Rollback w2) as [[] ?]|].
  intros (n2 & H2)%IH.
  destruct (named_batch _ _ _ t) as [|[n1 t2]] eqn:E2; [done|]. injection E1 as <- <- _.
  unfold named_batch in E2. clear Hb. destruct (max_parameters <? _); [discriminate|].
  exists (n1 + n2). rewrite <- (take_drop mx (drop i data)). apply batch_app.
  rewrite drop_drop. eauto 10.
Qed.

Lemma bulkInsert_inv {V : Env} {R} (s : list R -> Stmt nat) `{!Batchable s} params numField data
    t w t' w' :
  bulkInsert t params s data numField w = (Ok t', w') -> exists n, s data t = inr (n, t').
Proof. intros H. by apply bulk_loop_inv in H. Qed.

Lemma bulkInsert_post {V : Env} {R} (I : Db -> Prop) (s : list R -> Stmt nat) `{!Batchable s}
    params numField data t (Q : Tx -> Prop) :
  (forall n t', s data t = inr (n, t') -> Q t') -> safe I Q (bulkInsert t params s data numField).
Proof.
  intros HQ w Hw. unfold holds. rewrite bulkInsert_keeps. split; [done|]. intros t' Ht'.
  destruct (bulkInsert _ _ _ _ _ w) as [o w'] eqn:E. simpl in Ht'. subst o.
  apply (bulkInsert_inv s) in E as [n Hn]. by eapply HQ.
Qed.

Lemma maxBulkInsert_bounds numField :
  (0 < Z.of_nat numField <= 32768)%Z ->
  1 <= maxBulkInsert numField /\ numField * maxBulkInsert numField <= max_parameters.
Proof.
  intros H. unfold maxBulkInsert, max_parameters.
  pose proof (Nat.Div0.mul_div_le (Z.to_nat 65536) numField) as Hq.
  assert (2 <= Z.to_nat 65536 / numField) by (apply Nat.div_le_lower_bound; lia).
  generalize dependent (Z.to_nat 65536 / numField). intros q Hq H2.
  split; [lia|]. rewrite Nat.mul_sub_distr_l. lia.
Qed.

(** C22: [bulkInsert] amounts to a single INSERT of all the rows: when that
    statement would succeed the batches succeed with the same tables, when it
    would fail [bulkInsert] fails and rolls the transaction back. The loop
    always ends, and no batch exceeds PostgreSQL's 65535 parameters. *)
Theorem bulkInsert_single_statement {V : Env} {R} (s : list R -> Stmt nat) (data : list R)
    (params numField : nat) (t : Tx) (w : World) :
  no_faults -> Batchable s -> (0 < Z.of_nat numField <= 32768)%Z -> params <= numField ->
  match s data t with
  | inr (_, t') => (bulkInsert t params s data numField w).1 = Ok t'
  | inl _ => (exists e, (bulkInsert t params s data numField w).1 = Err e) /\
             w_open (bulkInsert t params s data numField w).2 = pred (w_open w)
  end.
Proof.
  intros Hok Hs Hn Hp. destruct (maxBulkInsert_bounds numField Hn) as [H1 H2].
  pose proof (bulk_loop_spec Hok s params (maxBulkInsert numField) data H1
                ltac:(nia) (length data) 0 t w ltac:(lia)) as H.
  rewrite drop_0 in H. destruct (s data t) as [|[]]; [done|tauto].
Qed.

Lemma bulkInsert_single_statement_witness :
  let s := each_row (fun k : bytes => insert_user (Some k) (Some k) 0 0) in
  (bulkInsert (V:=demo_env 1) empty_db 4 s ["a"; "b"] 4 initial_world).1 =
  Ok (set_users (<["b" := mkUserRow "b" 0 0]> (<["a" := mkUserRow "a" 0 0]> ∅)) empty_db).
Proof.
  intros s.
  exact (bulkInsert_single_statement (V:=demo_env 1) s ["a"; "b"] 4 4 empty_db initial_world
           (demo_env_no_faults 1)
           (each_row_batchable _ (fun k => insert_user_count (Some k) (Some k) 0 0))
           ltac:(lia) ltac:(lia)).
Defined.
