(* ===== verification/PgEntities.v ===== *)
(** * Entities and users (database/pgsql/pgsql.go) *)
From S2P Require Import Prelude GoLib Ext Util Types Schema SchemaOk Session PgTypes PgTx.

(* the labels of the enum type origins *)
Definition origin_label (o : Origin) : string :=
  match o with Token => "Token" | Form => "Form" | DB => "DB" | API => "API" end.

(* the row the INSERT of AddEntity stores *)
Definition entity_row (p : PGEntity) : EntityRow :=
  let e := pe_Entity p in let i := e_Info e in
  mkEntityRow (e_IsAuthorized e) (ei_Email i) (ei_Name i) (ei_Type i) (ei_Size i)
    (ei_Consented i) (ei_CallbackURL i) (ei_CallbackSecret i)
    (ba_Elements (pe_CensusManagersAddresses p))
    (CreatedAt (e_CreatedUpdated e)) (UpdatedAt (e_CreatedUpdated e)).

(* StructScan of a selected row: created_at and updated_at are not selected,
   and there is no column for the origins *)
Definition scan_entity (id : bytes) (r : EntityRow) : PGEntity :=
  mkPGEntity
    (mkEntity zero_CreatedUpdated id (er_is_authorized r)
       (mkEntityInfo (er_callback_url r) (er_callback_secret r) (er_email r) (er_name r)
          (er_type r) (er_size r) None [] (er_consented r)))
    (mkByteaArray (er_census_managers_addresses r) Present) (mkEnumArray [] Undefined).

(* COALESCE(NULLIF(v, ''), old) *)
Definition coalesce_nonempty (v old : string) : string :=
  if bool_decide (v = "") then old else v.

Section entities_ops.
Context {X : Ext} {V : Env}.

Definition AddEntity (entityID : bytes) (info : EntityInfo) : D unit :=
  match ei_CensusManagersAddresses info with
  | None => failM (Errorf "census manager addresses not found")
  | Some _ =>
      let! tx := onErr Beginx (Wrapf "cannot initialize postgres transaction: ") in
      let! created := time_Now in
      let! updated := time_Now in
      let entity := mkEntity (mkCreatedUpdated created updated) entityID false info in
      let! pgEntity := onErr (liftE (ToPGEntity entity))
        (Wrapf "cannot convert entity data types to postgres types: ") in
      let! (_, tx) := onErr (tx_exec tx (insert_entity entityID (entity_row pgEntity)))
        (Wrapf "cannot add insert query in the transaction: ") in
      let! r := tryM (tx_exec tx (each_row (insert_origin entityID)
                                    (en_Elements (pe_Origins pgEntity)))) in
      match r with
      | inl err =>
          rollback_or
            (fun rollbackErr => Wrapf ("cannot perform db rollback " +:+ error_string rollbackErr
                                         +:+ " after error ") err)
            (Wrapf "cannot add insert query in the transaction: " err)
      | inr (_, tx) => commit_or tx commit_default
      end
  end.

Definition EntityOrigins (entityID : bytes) : D (list Origin) :=
  let! stringOrigins := onErr
    (db_select (fun d => map (fun x => origin_label x.1)
       (filter (fun x => x.2 = entityID) (elements (entities_origins d)))))
    (Wrapf "cannot retrieve entity origins: ") in
  liftE (StringToOriginArray stringOrigins).

Definition pg_Entity (entityID : bytes) : D Entity :=
  let! pgEntity := db_get (fun d => scan_entity entityID <$> entities d !! entityID) in
  let! entity := onErr (liftE (ToEntity pgEntity))
    (Wrapf "cannot convert postgres types to entity data types: ") in
  let! r := tryM (EntityOrigins entityID) in
  match r with
  | inl err =>
      if negb (bool_decide (err = ErrNoRows))
      then failM (Wrapf "cannot entity origins: " err)
      else retM (set_info (set_origins [] (e_Info entity)) entity)
  | inr origins => retM (set_info (set_origins origins (e_Info entity)) entity)
  end.

Definition DeleteEntity (entityID : bytes) : D unit :=
  fail_if! (len entityID =? 0)%Z with Errorf "invalid arguments" in
  let! result := onErr (db_exec (delete_entity entityID)) (Wrapf "error deleting entity: ") in
  let! rows := onErr (RowsAffected result) (Wrapf "error veryfying deleted entity: ") in
  fail_if! negb (rows =? 1) with Errorf "nothing to delete" in
  retM tt.

Definition EntitiesID : D (list string) :=
  let! ids := db_select (fun d => (map_to_list (entities d)).*1) in
  retM (map EncodeToString ids).

Definition authorize_row (now : Z) (r : EntityRow) : EntityRow :=
  mkEntityRow true (er_email r) (er_name r) (er_type r) (er_size r) (er_consented r)
    (er_callback_url r) (er_callback_secret r) (er_census_managers_addresses r)
    (er_created_at r) now.

Definition AuthorizeEntity (entityID : bytes) : D unit :=
  let entity := mkEntity zero_CreatedUpdated entityID true zero_EntityInfo in
  let! _ := onErr (liftE (ToPGEntity entity))
    (Wrapf "cannot convert member data types to postgres types: ") in
  let! now := time_Now in
  let! result := onErr
    (db_exec (update_entity entityID (fun r => negb (er_is_authorized r)) (authorize_row now)))
    (Wrapf "error updating entity: ") in
  let! rows := onErr (RowsAffected result) (Wrapf "cannot get affected rows: ") in
  fail_if! rows =? 0 with Errorf "already authorized" in
  fail_if! negb (rows =? 1) with Errorf "could not authorize" in
  retM tt.

(* the SET and WHERE clauses of UpdateEntity *)
Definition update_entity_row (i : EntityInfo) (now : Z) (r : EntityRow) : EntityRow :=
  mkEntityRow (er_is_authorized r) (coalesce_nonempty (ei_Email i) (er_email r))
    (coalesce_nonempty (ei_Name i) (er_name r)) (er_type r) (er_size r) (er_consented r)
    (ei_CallbackURL i) (ei_CallbackSecret i) (er_census_managers_addresses r)
    (er_created_at r) now.
Definition update_entity_differs (i : EntityInfo) (r : EntityRow) : bool :=
  negb (bool_decide (ei_Name i = er_name r)) ||
  negb (bool_decide (ei_CallbackURL i = er_callback_url r)) ||
  negb (bool_decide (ei_CallbackSecret i = er_callback_secret r)) ||
  negb (bool_decide (ei_Email i = er_email r)).

Definition UpdateEntity (entityID : bytes) (info : EntityInfo) : D Z :=
  let entity := mkEntity zero_CreatedUpdated entityID false info in
  let! _ := onErr (liftE (ToPGEntity entity))
    (Wrapf "cannot convert member data types to postgres types: ") in
  let! now := time_Now in
  let! result := onErr
    (db_exec (update_entity entityID (update_entity_differs info) (update_entity_row info now)))
    (Wrapf "error updating entity: ") in
  let! rows := onErr (RowsAffected result) (Wrapf "cannot get affected rows: ") in
  fail_if! negb (rows =? 1) && negb (rows =? 0)
    with Errorf ("expected to update 0 or 1 rows, but updated "
                   +:+ decimal (Z.of_nat rows) +:+ " rows") in
  retM (Z.of_nat rows).

Definition EntityHas (entityID : bytes) (memberID : uuid) : bool := true.

(* encode(id, 'hex') is scanned into the []byte field ID *)
Definition AdminEntityList : D (list Entity) :=
  db_select (fun d => map (fun x : bytes * EntityRow => let r := x.2 in
    mkEntity (mkCreatedUpdated (er_created_at r) (er_updated_at r)) (EncodeToString x.1) false
      (mkEntityInfo "" "" (er_email r) (er_name r) (er_type r) (er_size r) None [] false))
    (map_to_list (entities d))).

(** ** Users *)

Definition AddUser (user : User) : D unit :=
  match u_PubKey user with
  | None => failM (Errorf "invalid public Key")
  | Some pubKey =>
      let digested := match u_DigestedPubKey user with
                      | None | Some EmptyString => Some pubKey
                      | Some k => Some k
                      end in
      let! created := time_Now in
      let! updated := time_Now in
      let! result := onErr (db_exec (insert_user (Some pubKey) digested created updated))
        (Wrapf "cannot add user: ") in
      let! rows := onErr (RowsAffected result)
        (Wrapf "cannot verify that user was added to the db: ") in
      fail_if! negb (rows =? 1) with Errorf "cannot add user" in
      retM tt
  end.

Definition pg_User (pubKey : bytes) : D User :=
  db_get (fun d => (fun r => mkUser zero_CreatedUpdated (Some pubKey)
                               (Some (ur_digested_public_key r))) <$> users d !! pubKey).
End entities_ops.

(** ** Lemmas *)
Section entities_lemmas.
Context {X : Ext} {V : Env}.

Lemma EntityOrigins_keeps e : keeps w_db (EntityOrigins e).
Proof. unfold EntityOrigins. go_keeps. Qed.
Lemma pg_Entity_keeps e : keeps w_db (pg_Entity e).
Proof. pose proof EntityOrigins_keeps. unfold pg_Entity. go_keeps. Qed.
Lemma EntitiesID_keeps : keeps w_db EntitiesID.
Proof. unfold EntitiesID. go_keeps. Qed.
Lemma AdminEntityList_keeps : keeps w_db AdminEntityList.
Proof. unfold AdminEntityList. go_keeps. Qed.
Lemma pg_User_keeps k : keeps w_db (pg_User k).
Proof. unfold pg_User. go_keeps. Qed.

Lemma AddEntity_atomic e i : atomic w_db (AddEntity e i).
Proof. unfold AddEntity. go_atomic. Qed.
End entities_lemmas.

Section entities_inv.
Context {X : Ext} {V : Env} {I : Db -> Prop} {e : bytes} {K : Permit} {HI : StmtInv I e K}.

Lemma AddEntity_safe i : safe I anything (AddEntity e i).
Proof. unfold AddEntity. go_safe. Qed.
Lemma DeleteEntity_safe : may_drop K -> safe I anything (DeleteEntity e).
Proof. intros HK. pose proof (inv_delete_entity HK). unfold DeleteEntity. go_safe. Qed.
Lemma AuthorizeEntity_safe : safe I anything (AuthorizeEntity e).
Proof. unfold AuthorizeEntity. go_safe. Qed.
Lemma UpdateEntity_safe i : safe I anything (UpdateEntity e i).
Proof. unfold UpdateEntity. go_safe. Qed.
Lemma AddUser_safe u : safe I anything (AddUser u).
Proof. unfold AddUser. go_safe. Qed.
End entities_inv.
