(* ===== verification/PgMembers.v ===== *)
(** * Members: creation, import, registration, update
    (database/pgsql/pgsql.go) *)
From S2P Require Import Prelude GoLib Ext Util Types Schema SchemaOk Session PgTypes PgTx.
From S2P Require Import PgEntities.

(** ** Rows *)

(* the columns the driver is given for a PGMember *)
Definition email_value (t : Text) : option string :=
  match txt_Status t with Present => Some (txt_String t) | _ => None end.

(* INSERT INTO members (entity_id, public_key, street_address, first_name, last_name,
   email, phone, date_of_birth, verified, custom_fields, created_at, updated_at):
   origin, consented and tags take their column defaults *)
Definition member_row (p : PGMember) : MemberRow :=
  let m := pm_Member p in let i := m_Info m in
  mkMemberRow (m_EntityID m) (m_PubKey m) (mi_StreetAddress i) (mi_FirstName i)
    (mi_LastName i) (email_value (pm_Email p)) (mi_Phone i) (mi_DateOfBirth i) Token false
    (mi_Verified i) (jb_Bytes (pm_CustomFields p)) []
    (CreatedAt (m_CreatedUpdated m)) (UpdatedAt (m_CreatedUpdated m)).

(* the INSERT of CreateMembersWithTokens: no email and no custom_fields column *)
Definition token_row (p : PGMember) : MemberRow :=
  let m := pm_Member p in let i := m_Info m in
  mkMemberRow (m_EntityID m) (m_PubKey m) (mi_StreetAddress i) (mi_FirstName i)
    (mi_LastName i) None (mi_Phone i) (mi_DateOfBirth i) Token false
    (mi_Verified i) "{}" []
    (CreatedAt (m_CreatedUpdated m)) (UpdatedAt (m_CreatedUpdated m)).

Definition insert_one_member (id : uuid) (r : MemberRow) : Stmt uuid := fun d =>
  match insert_members [(id, r)] d with
  | inl e => inl e
  | inr (_, d') => inr (id, d')
  end.

Definition nil_w : string := "%!w(<nil>)".

Section members_ops.
Context {X : Ext} {V : Env}.

(** ** Tokens *)

Fixpoint token_members (entityID : bytes) (tokens : list uuid) : D (list PGMember) :=
  match tokens with
  | [] => retM []
  | token :: tokens =>
      fail_if! bool_decide (token = uuid_Nil) with Errorf "error parsing the uuids" in
      let! created := time_Now in
      let! updated := time_Now in
      let m := mkMember (mkCreatedUpdated created updated) token entityID None zero_MemberInfo in
      let! rest := token_members entityID tokens in
      retM (mkPGMember m (mkJSONB "" Undefined) (mkInt4Array [] Undefined)
              (mkText "" Undefined) :: rest)
  end.

Definition CreateMembersWithTokens (entityID : bytes) (tokens : list uuid) : D unit :=
  let! pgmembers := token_members entityID tokens in
  let! tx := onErr Beginx (Wrapf "cannot initialize postgres transaction: ") in
  let! tx := onErr (bulkInsert tx 11 insert_members
                      (map (fun p => (m_ID (pm_Member p), token_row p)) pgmembers) 12)
               (Wrapf "error during bulk insert: ") in
  commit_or tx commit_default.

Fixpoint new_tokens (n : nat) : D (list uuid) :=
  match n with
  | O => retM []
  | S n => let! t := uuid_New in let! ts := new_tokens n in retM (t :: ts)
  end.

Definition CreateNMembers (entityID : bytes) (n : Z) : D (list uuid) :=
  let! tokens := new_tokens (Z.to_nat n) in
  let! _ := CreateMembersWithTokens entityID tokens in
  retM tokens.

(** ** Adding a member *)

Definition insert_user_now (tx : Tx) (pubKey : bytes) : D (nat * Tx) :=
  let! created := time_Now in
  let! updated := time_Now in
  tx_exec tx (insert_user (Some pubKey) (Some pubKey) created updated).

(* the user of a new member: created in the transaction when unknown *)
Definition AddMember_user (tx : Tx) (pubKey : bytes) : D Tx :=
  let! r := tryM (pg_User pubKey) in
  match r with
  | inr _ => retM tx
  | inl err =>
      if negb (bool_decide (err = ErrNoRows))
      then failM (Wrapf "error retrieving members corresponding user: " err)
      else
        let! r := tryM (insert_user_now tx pubKey) in
        match r with
        | inl err => rollback_with (fun rb =>
            Wrapf ("error rolling back user creation for member: " +:+ rb +:+ " after error: ") err)
        | inr (n, tx) =>
            let! rows := onErr (RowsAffected n) (Wrapf "error creating user for member: ") in
            fail_if! negb (rows =? 1)
              with Errorf ("error creating user for member: " +:+ nil_w) in
            retM tx
        end
  end.

Definition AddMember_rollback {A} (err : gerror) : D A :=
  rollback_with (fun rb =>
    Wrapf ("error rolling back member and user creation: " +:+ rb +:+ " after error: ") err).

Definition AddMember (entityID pubKey : bytes) (info : MemberInfo) : D uuid :=
  let member := mkMember zero_CreatedUpdated uuid_Nil entityID (Some pubKey) info in
  let! tx := onErr Beginx (Wrapf "cannot initialize postgres transaction: ") in
  let! tx := AddMember_user tx pubKey in
  match ToPGMember member with
  | inl _ => panicM "nil pointer dereference" (* pgmember is used before err is checked *)
  | inr pgmember =>
      let! created := time_Now in
      let! updated := time_Now in
      let pgmember := set_times created updated pgmember in
      let! now := now_tick in
      let! r := tryM (tx_query tx (insert_one_member (env_uuid now 0) (member_row pgmember))) in
      match r with
      | inl err => AddMember_rollback err
      | inr None =>
          let! _ := tryM Rollback in
          failM (Errorf "no rows affected after adding member, posible violation of db constraints")
      | inr (Some (id, tx)) =>
          let! r := tryM (Scan id) in
          match r with
          | inl err => AddMember_rollback err
          | inr id =>
              let! r := tryM (Scan tt) in
              match r with
              | inl err => AddMember_rollback err
              | inr _ =>
                  let! _ := commit_or tx (fun rb err =>
                    Wrapf ("error rolling back member and user creation: " +:+ rb
                             +:+ " after error: ") err) in
                  retM id
              end
          end
      end
  end.

(** ** Imports *)

(* pgMembers of a list of infos; [err] on the first custom fields that are not JSON *)
Fixpoint import_rows (entityID : bytes) (info : list MemberInfo) : D (list PGMember) :=
  match info with
  | [] => retM []
  | member :: info =>
      let newMember := mkMember zero_CreatedUpdated uuid_Nil entityID None member in
      let! pgMember := onErr (liftE (ToPGMember newMember))
        (Wrapf "cannot convert member data types to postgres types: ") in
      let! created := time_Now in
      let! updated := time_Now in
      let! rest := import_rows entityID info in
      retM (set_times created updated pgMember :: rest)
  end.

(* the ids PostgreSQL draws for the rows of a bulk insert *)
Definition with_ids (now : nat) (rows : list PGMember) : list (uuid * MemberRow) :=
  imap (fun i p => (env_uuid now i, member_row p)) rows.

(* fields with custom_fields and email: 12 columns *)
Definition bulk_members (tx : Tx) (rows : list PGMember) : D Tx :=
  let! now := now_tick in
  bulkInsert tx 12 insert_members (with_ids now rows) 12.

Definition ImportMembers (entityID : bytes) (info : list MemberInfo) : D unit :=
  fail_if! length info <=? 0 with Errorf "no member data provided" in
  let! members := import_rows entityID info in
  let! tx := onErr Beginx (Wrapf "cannot initialize postgres transaction: ") in
  let! r := tryM (bulk_members tx members) in
  match r with
  | inl err =>
      match unwrap err ≫= as_pg_error with
      | Some constraintName =>
          fail_if! bool_decide (constraintName = "members_entity_id_email_unique")
            with Errorf "error during bulk insert: duplicate email" in
          failM (Wrapf "error during bulk insert: " err)
      | None => failM (Wrapf "error during bulk insert: " err)
      end
  | inr tx => commit_or tx commit_default
  end.

(* [keys] holds createEthRandomKeysBatch(len(info)) *)
Fixpoint import_with_keys (entityID : bytes) (keys : list (bytes * bytes))
    (info : list MemberInfo) {struct info} : D (list PGMember) :=
  match info, keys with
  | [], _ => retM []
  | _ :: _, [] => panicM "index out of range"
  | member :: info, (pubKey, _) :: keys =>
      let! _ := onErr (AddUser (mkUser zero_CreatedUpdated (Some pubKey) None))
        (Wrapf "error creating generated user for imported member: ") in
      let newMember := mkMember zero_CreatedUpdated uuid_Nil entityID (Some pubKey) member in
      let! pgMember := onErr (liftE (ToPGMember newMember))
        (Wrapf "cannot convert member data types to postgres types: ") in
      let! created := time_Now in
      let! updated := time_Now in
      let! rest := import_with_keys entityID keys info in
      retM (set_times created updated pgMember :: rest)
  end.

(* nil, not an error, when a key cannot be generated *)
Definition createEthRandomKeysBatch (n : nat) : D (list (bytes * bytes)) :=
  let! now := now_tick in
  if existsb (fun i => match env_key_fault now i with Some _ => true | None => false end) (seq 0 n)
  then retM [] else retM (map (env_key now) (seq 0 n)).

Definition ImportMembersWithPubKey (entityID : bytes) (info : list MemberInfo) : D unit :=
  fail_if! length info <=? 0 with Errorf "no member data provided" in
  let! keys := createEthRandomKeysBatch (length info) in
  let! members := import_with_keys entityID keys info in
  let! tx := onErr Beginx (Wrapf "cannot initialize postgres transaction: ") in
  let! tx := onErr (bulk_members tx members) (Wrapf "error during bulk insert: ") in
  commit_or tx commit_default.

(* the loop of AddMemberBulk: the users and the members to insert *)
Fixpoint bulk_rows (entityID : bytes) (members : list Member) :
    D (list (bytes * Z * Z) * list PGMember) :=
  match members with
  | [] => retM ([], [])
  | member :: members =>
      match m_PubKey member with
      | None | Some EmptyString => failM (Errorf "found empty public keys")
      | Some pubKey =>
          let! ucreated := time_Now in
          let! uupdated := time_Now in
          fail_if! negb (len (m_EntityID member) =? 0)%Z &&
                   negb (bool_decide (m_EntityID member = entityID))
            with Errorf ("expected member entityID " +:+ EncodeToString entityID
              +:+ " but provided entityID " +:+ EncodeToString (m_EntityID member)) in
          let member := mkMember (m_CreatedUpdated member) (m_ID member) entityID
                          (m_PubKey member) (m_Info member) in
          let! pgMember := onErr (liftE (ToPGMember member))
            (Wrapf "cannot convert member data types to postgres types: ") in
          let! created := time_Now in
          let! updated := time_Now in
          let! (us, ms) := bulk_rows entityID members in
          retM ((pubKey, ucreated, uupdated) :: us, set_times created updated pgMember :: ms)
      end
  end.

Definition insert_user_row (u : bytes * Z * Z) : Stmt nat :=
  insert_user (Some u.1.1) (Some u.1.1) u.1.2 u.2.

Definition AddMemberBulk (entityID : bytes) (members : list Member) : D unit :=
  fail_if! length members <=? 0 with Errorf "no member data provided" in
  let! tx := onErr Beginx (Wrapf "cannot initialize postgres transaction: ") in
  let! (users, pgMembers) := bulk_rows entityID members in
  let! tx := onErr (bulkInsert tx 4 (each_row insert_user_row) users 4)
    (Wrapf "error during bulk insert: ") in
  let! tx := onErr (bulk_members tx pgMembers) (Wrapf "error during bulk insert: ") in
  onErr (Commit tx) (Wrapf "could not commit bulk import ").

(** ** Updates *)

(* the SET and WHERE clauses of UpdateMember *)
Definition update_member_row (p : PGMember) (now : Z) (r : MemberRow) : MemberRow :=
  let i := m_Info (pm_Member p) in
  mkMemberRow (mr_entity_id r) (mr_public_key r)
    (coalesce_nonempty (mi_StreetAddress i) (mr_street_address r))
    (coalesce_nonempty (mi_FirstName i) (mr_first_name r))
    (coalesce_nonempty (mi_LastName i) (mr_last_name r))
    (match email_value (pm_Email p) with Some e => Some e | None => mr_email r end)
    (mr_phone r)
    (if decide (mi_DateOfBirth i = mr_date_of_birth r) then mr_date_of_birth r
     else mi_DateOfBirth i)
    (mr_origin r) (mr_consented r) (mr_verified r) (mr_custom_fields r)
    (match Int4Array_AssignTo (pm_Tags p) None with Some l => l | None => mr_tags r end)
    (mr_created_at r) now.
Definition update_member_differs (p : PGMember) (r : MemberRow) : bool :=
  let i := m_Info (pm_Member p) in
  negb (bool_decide (mi_StreetAddress i = mr_street_address r)) ||
  negb (bool_decide (mi_FirstName i = mr_first_name r)) ||
  negb (bool_decide (mi_LastName i = mr_last_name r)) ||
  negb (bool_decide (email_value (pm_Email p) = mr_email r)) ||
  negb (bool_decide (mi_DateOfBirth i = mr_date_of_birth r)) ||
  negb (bool_decide (Int4Array_AssignTo (pm_Tags p) None = Some (mr_tags r))).

Definition UpdateMember (entityID : bytes) (memberID : option uuid) (info : MemberInfo) : D Z :=
  match memberID with
  | None => failM (Errorf "memberID is nil")
  | Some memberID =>
      let member := mkMember zero_CreatedUpdated memberID entityID None info in
      let! pgmember := onErr (liftE (ToPGMember member))
        (Wrapf "cannot convert member data types to postgres types: ") in
      let! now := time_Now in
      let! result := onErr
        (db_exec (update_member memberID entityID (update_member_differs pgmember)
                    (update_member_row pgmember now)))
        (Wrapf "error updating member: ") in
      let! rows := onErr (RowsAffected result) (Wrapf "cannot get affected rows: ") in
      fail_if! negb (rows =? 1) && negb (rows =? 0)
        with Errorf ("expected to update 0 or 1 rows, but updated "
                       +:+ decimal (Z.of_nat rows) +:+ " rows") in
      retM (Z.of_nat rows)
  end.

(** ** Registration *)

Definition register_row (pubKey : bytes) (now : Z) (r : MemberRow) : MemberRow :=
  mkMemberRow (mr_entity_id r) (Some pubKey) (mr_street_address r) (mr_first_name r)
    (mr_last_name r) (mr_email r) (mr_phone r) (mr_date_of_birth r) (mr_origin r)
    (mr_consented r) now (mr_custom_fields r) (mr_tags r) (mr_created_at r) now.

Definition RegisterMember_user (tx : Tx) (pubKey : bytes) : D Tx :=
  let! r := tryM (pg_User pubKey) in
  match r with
  | inr _ => retM tx
  | inl err =>
      if negb (bool_decide (err = ErrNoRows))
      then failM (Wrapf "error retrieving members corresponding user: " err)
      else
        let! r := tryM (insert_user_now tx pubKey) in
        match r with
        | inl err => rollback_with (fun rb =>
            Wrapf ("error rolling back user creation for member: " +:+ rb +:+ " after error: ") err)
        | inr (n, tx) =>
            let! rows := onErr (RowsAffected n) (Wrapf "error creating user for member: ") in
            fail_if! negb (rows =? 1)
              with Errorf ("error creating user for member: " +:+ nil_w) in
            retM tx
        end
  end.

Definition RegisterMember (entityID pubKey : bytes) (token : option uuid) : D unit :=
  match token with
  | None => failM (Errorf "token is nil")
  | Some token =>
      let member := mkMember zero_CreatedUpdated token entityID (Some pubKey) zero_MemberInfo in
      let! tx := onErr Beginx (Wrapf "cannot initialize postgres transaction: ") in
      let! now := time_Now in
      fail_if! negb (ValidPubKey pubKey)
        with Errorf ("invalid public key size " +:+ decimal (len pubKey)) in
      let! tx := RegisterMember_user tx pubKey in
      let! pgmember := onErr (liftE (ToPGMember member))
        (Wrapf "cannot convert member data types to postgres types: ") in
      let! r := tryM (tx_exec tx (update_member (m_ID (pm_Member pgmember)) entityID
                                    (fun _ => true) (register_row pubKey now))) in
      match r with
      | inl err => AddMember_rollback err
      | inr (n, tx) =>
          let! r := tryM (RowsAffected n) in
          match r with
          | inl err => rollback_with (fun rb =>
              Wrapf ("error rolling back member and user creation: " +:+ rb
                +:+ " after not being able to get affected rows: ") err)
          | inr rows =>
              if negb (rows =? 1) then
                let! _ := tryM Rollback in
                failM (Errorf ("expected 1 row affected after adding member, but found "
                  +:+ decimal (Z.of_nat rows) +:+ ", posible violation of db constraints"))
              else commit_or tx (fun rb err =>
                Wrapf ("error rolling back member and user creation: " +:+ rb
                  +:+ " after final commit to DB: ") err)
          end
      end
  end.
End members_ops.

(** ** Lemmas *)

Lemma insert_one_member_ok I e K id r :
  StmtInv I e K -> row_of e K r -> stmt_ok I (insert_one_member id r).
Proof.
  intros HI Hr d a d' Hd. unfold insert_one_member.
  destruct (insert_members _ d) as [|[n d1]] eqn:E; [done|]. intros [= <- <-].
  eapply (inv_insert_members (e:=e) (K:=K)); [|done..]. intros x ->%list_elem_of_singleton. done.
Qed.
Lemma insert_user_row_ok I e K us : StmtInv I e K -> stmt_ok I (each_row insert_user_row us).
Proof. intros. apply each_row_ok. intros. apply inv_insert_user. Qed.

Section members_lemmas.
Context {X : Ext} {V : Env}.

Lemma token_members_keeps e ts : keeps w_db (token_members e ts).
Proof. induction ts; simpl; go_keeps. Qed.
Lemma new_tokens_keeps n : keeps w_db (new_tokens n).
Proof. induction n; simpl; go_keeps. Qed.
Lemma insert_user_now_keeps tx k : keeps w_db (insert_user_now tx k).
Proof. unfold insert_user_now. go_keeps. Qed.
Lemma AddMember_user_keeps tx k : keeps w_db (AddMember_user tx k).
Proof. pose proof pg_User_keeps. pose proof insert_user_now_keeps. unfold AddMember_user. go_keeps. Qed.
Lemma RegisterMember_user_keeps tx k : keeps w_db (RegisterMember_user tx k).
Proof. pose proof pg_User_keeps. pose proof insert_user_now_keeps. unfold RegisterMember_user. go_keeps. Qed.
Lemma AddMember_rollback_keeps {A} e : keeps w_db (AddMember_rollback (A:=A) e).
Proof. apply rollback_with_keeps. Qed.
Lemma import_rows_keeps e l : keeps w_db (import_rows e l).
Proof. induction l; simpl; go_keeps. Qed.
Lemma bulk_members_keeps tx l : keeps w_db (bulk_members tx l).
Proof. unfold bulk_members. go_keeps. Qed.
Lemma bulk_rows_keeps e l : keeps w_db (bulk_rows e l).
Proof. induction l; simpl; go_keeps. Qed.
Lemma createEthRandomKeysBatch_keeps n : keeps w_db (createEthRandomKeysBatch n).
Proof. unfold createEthRandomKeysBatch. go_keeps. Qed.

End members_lemmas.

#[export] Hint Resolve token_members_keeps new_tokens_keeps pg_User_keeps AddMember_user_keeps
  RegisterMember_user_keeps AddMember_rollback_keeps import_rows_keeps bulk_members_keeps
  bulk_rows_keeps createEthRandomKeysBatch_keeps EntityOrigins_keeps pg_Entity_keeps : go.

(* the entity and the keys of the rows to insert *)
Definition rows_of_entity (e : bytes) (K : Permit) : list PGMember -> Prop :=
  Forall (fun p => m_EntityID (pm_Member p) = e /\ key_of (may_store K) (m_PubKey (pm_Member p))).

Lemma key_of_None K : key_of K None.
Proof. done. Qed.
Lemma key_of_Some (K : bytes -> Prop) k : K k -> key_of K (Some k).
Proof. by intros Hk ? [= <-]. Qed.
#[export] Hint Resolve key_of_None key_of_Some : schema.
(* the keys of the rows UpdateMember and RegisterMember store *)
#[export] Hint Extern 1 (forall _, mr_public_key (update_member_row _ _ _) = _ \/ _) =>
  intros ?; by left : schema.
#[export] Hint Extern 1 (forall _, mr_public_key (register_row _ _ _) = _ \/ _) =>
  intros ?; right; eexists; split; [reflexivity|];
  match goal with H : pm_Member _ = _ |- _ => rewrite H; auto end : schema.

Section members_inv.
Context {X : Ext} {V : Env} {I : Db -> Prop} {e : bytes} {K : Permit} {HI : StmtInv I e K}.

Lemma insert_user_now_safe tx k : I tx -> safe I (fun x => I x.2) (insert_user_now tx k).
Proof.
  intros Ht. unfold insert_user_now. do 2 (apply safe_bind_any; [auto with go|intros ?]).
  apply tx_exec_safe; [done|]. apply inv_insert_user.
Qed.
Lemma AddMember_user_safe tx k : I tx -> safe I I (AddMember_user tx k).
Proof.
  intros Ht. unfold AddMember_user.
  eapply preserves_bind; [apply keeps_safe, keeps_tryM, pg_User_keeps|].
  intros [err|] _; [|by apply preserves_ret]. destruct (negb _); [apply preserves_fail|].
  eapply preserves_bind; [by apply preserves_tryM, insert_user_now_safe|].
  intros [err'|[n tx']] H; [apply rollback_with_safe|]. go_safe.
Qed.
Lemma RegisterMember_user_safe tx k : I tx -> safe I I (RegisterMember_user tx k).
Proof. apply AddMember_user_safe. Qed.

Lemma with_ids_entity now l x :
  rows_of_entity e K l -> x ∈ with_ids now l -> row_of e K x.2.
Proof.
  unfold with_ids. rewrite list_elem_of_lookup. intros Hl [i Hi].
  rewrite list_lookup_imap in Hi. destruct (l !! i) eqn:E; simplify_eq/=.
  eapply Forall_lookup_1 in Hl; [|done]. done.
Qed.
Lemma bulk_members_safe tx l : rows_of_entity e K l -> I tx -> safe I I (bulk_members tx l).
Proof.
  intros Hl Ht. unfold bulk_members. apply safe_bind_any; [auto with go|intros now].
  apply bulkInsert_safe; [|done]. intros b Hb. apply inv_insert_members.
  intros x Hx. eapply with_ids_entity; eauto.
Qed.
Lemma ToPGMember_safe m g : safe I (fun p => pm_Member p = m) (onErr (liftE (ToPGMember m)) g).
Proof.
  apply preserves_onErr. intros w Hw. unfold ToPGMember. destruct (JSONB_Set _); simpl;
    split; try done. by intros ? [= <-].
Qed.
Lemma import_rows_safe l : safe I (rows_of_entity e K) (import_rows e l).
Proof.
  induction l; simpl; [by apply preserves_ret; constructor|].
  eapply preserves_bind; [apply ToPGMember_safe|intros p Hp].
  do 2 (apply safe_bind_any; [auto with go|intros ?]).
  eapply preserves_bind; [done|]. intros l' Hl'. apply preserves_ret. constructor; [simpl; by rewrite Hp|done].
Qed.
Lemma token_members_safe ts :
  safe I (rows_of_entity e K) (token_members e ts).
Proof.
  induction ts; simpl; [by apply preserves_ret; constructor|].
  destruct (bool_decide _); [apply preserves_fail|].
  do 2 (apply safe_bind_any; [auto with go|intros ?]).
  eapply preserves_bind; [done|]. intros l' Hl'. apply preserves_ret. by constructor.
Qed.
Lemma bulk_rows_safe l :
  Forall (fun m => key_of (may_store K) (m_PubKey m)) l -> safe I (fun x => rows_of_entity e K x.2) (bulk_rows e l).
Proof.
  induction 1 as [|m l Hm _ IH]; simpl; [by apply preserves_ret; constructor|].
  destruct (m_PubKey m) as [[|c k]|]; try apply preserves_fail.
  do 2 (apply safe_bind_any; [auto with go|intros ?]).
  destruct (_ && _); [apply preserves_fail|].
  eapply preserves_bind; [apply ToPGMember_safe|intros p Hp].
  do 2 (apply safe_bind_any; [auto with go|intros ?]).
  eapply preserves_bind; [done|]. intros [us ms] Hl'. apply preserves_ret. constructor; [simpl; by rewrite Hp|done].
Qed.
Lemma import_with_keys_safe ks l :
  (forall k, may_store K k) -> safe I (rows_of_entity e K) (import_with_keys e ks l).
Proof.
  intros HK. revert ks. induction l as [|m l IH]; intros ks; simpl;
    [by apply preserves_ret; constructor|].
  destruct ks as [|[k s] ks]; [apply preserves_panic|].
  eapply preserves_bind; [apply preserves_onErr, (AddUser_safe (e:=e) (K:=K))|intros ? _].
  eapply preserves_bind; [apply ToPGMember_safe|intros p Hp].
  do 2 (apply safe_bind_any; [auto with go|intros ?]).
  eapply preserves_bind; [apply IH|]. intros l' Hl'. apply preserves_ret. constructor; [|done].
  simpl. rewrite Hp. split; [done|]. intros ? _. apply HK.
Qed.
Lemma token_rows_safe tx l :
  rows_of_entity e K l -> I tx ->
  safe I I (bulkInsert tx 11 insert_members
              (map (fun p => (m_ID (pm_Member p), token_row p)) l) 12).
Proof.
  intros Hl Ht. apply bulkInsert_safe; [|done]. intros b Hb. apply inv_insert_members.
  intros x Hx. apply Hb, list_elem_of_fmap in Hx as (p & -> & Hp).
  unfold rows_of_entity in Hl. rewrite Forall_forall in Hl. by apply (Hl p).
Qed.
Lemma insert_member_safe tx id p m c u :
  ToPGMember m = inr p -> m_EntityID m = e -> key_of (may_store K) (m_PubKey m) -> I tx ->
  safe I (fun r => match r with Some y => I y.2 | None => True end)
    (tx_query tx (insert_one_member id (member_row (set_times c u p)))).
Proof.
  intros Hp He Hk Ht. apply tx_query_safe; [done|]. eapply insert_one_member_ok; [done|].
  unfold ToPGMember in Hp. destruct (JSONB_Set _); simplify_eq. done.
Qed.
End members_inv.

Ltac go_safe_call ::=
  lazymatch goal with
  | |- preserves _ _ Beginx => apply Beginx_safe
  | |- preserves _ _ (tx_exec _ _) => apply tx_exec_safe; [assumption|eauto with schema]
  | |- preserves _ _ (tx_query _ (insert_one_member _ (member_row (set_times _ _ _)))) =>
      eapply insert_member_safe; [eassumption|reflexivity|eauto with schema|assumption]
  | |- preserves _ _ (tx_query _ _) => apply tx_query_safe; [assumption|eauto with schema]
  | |- preserves _ _ (bulkInsert _ _ insert_members _ _) => apply token_rows_safe; assumption
  | |- preserves _ _ (bulkInsert _ _ _ _ _) =>
      apply bulkInsert_safe; [intros; eauto with schema|assumption]
  | |- preserves _ _ (commit_or _ _) => apply commit_or_safe; assumption
  | |- preserves _ _ (Commit _) => apply Commit_safe; assumption
  | |- preserves _ _ (db_exec _) => apply db_exec_safe; eauto with schema
  | |- preserves _ _ (db_query _) => apply db_query_safe; eauto with schema
  | |- preserves _ _ (db_query_tag _) => apply db_query_tag_safe; eauto with schema
  | |- preserves _ _ (AddMember_user _ _) => eapply AddMember_user_safe; assumption
  | |- preserves _ _ (RegisterMember_user _ _) => eapply RegisterMember_user_safe; assumption
  | |- preserves _ _ (bulk_members _ _) => apply bulk_members_safe; assumption
  | HI : StmtInv _ _ ?K |- preserves _ _ (import_rows _ _) => apply (import_rows_safe (K:=K))
  | HI : StmtInv _ _ ?K |- preserves _ _ (token_members _ _) => apply (token_members_safe (K:=K))
  | |- preserves _ _ (bulk_rows _ _) => eapply bulk_rows_safe; eassumption
  | |- preserves _ _ (import_with_keys _ _ _) => apply import_with_keys_safe; assumption
  | |- preserves _ _ (AddMember_rollback _) => apply rollback_with_safe
  | |- preserves _ _ (onErr (liftE (ToPGMember _)) _) => apply ToPGMember_safe
  | |- preserves _ _ (tryM _) => apply preserves_tryM; go_safe_call
  | |- preserves _ _ (onErr _ _) => apply preserves_onErr; go_safe_call
  | |- preserves _ _ (bindM _ _) => eapply preserves_bind; [go_safe_call|intros ? ?]
  | |- _ => solve [eauto with session] || (apply keeps_safe; go_keeps; fail)
  end.

#[export] Hint Resolve insert_user_row_ok : schema.

Section members_atomic.
Context {X : Ext} {V : Env}.

Lemma CreateMembersWithTokens_atomic e ts : atomic w_db (CreateMembersWithTokens e ts).
Proof. unfold CreateMembersWithTokens. go_atomic. Qed.
Lemma CreateNMembers_atomic e n : atomic w_db (CreateNMembers e n).
Proof. pose proof CreateMembersWithTokens_atomic. unfold CreateNMembers. go_atomic. Qed.
Lemma AddMember_atomic e k i : atomic w_db (AddMember e k i).
Proof. unfold AddMember. go_atomic. Qed.
Lemma ImportMembers_atomic e l : atomic w_db (ImportMembers e l).
Proof. unfold ImportMembers. go_atomic. Qed.
Lemma AddMemberBulk_atomic e l : atomic w_db (AddMemberBulk e l).
Proof. unfold AddMemberBulk. go_atomic. Qed.
Lemma RegisterMember_atomic e k t : atomic w_db (RegisterMember e k t).
Proof. unfold RegisterMember. go_atomic. Qed.
End members_atomic.

Section members_ok.
Context {X : Ext} {V : Env} {I : Db -> Prop} {e : bytes} {K : Permit} {HI : StmtInv I e K}.

Lemma CreateMembersWithTokens_safe ts : safe I anything (CreateMembersWithTokens e ts).
Proof. unfold CreateMembersWithTokens. go_safe. Qed.
Lemma CreateNMembers_safe n : safe I anything (CreateNMembers e n).
Proof. pose proof CreateMembersWithTokens_safe. unfold CreateNMembers. go_safe. Qed.
Lemma AddMember_safe k i : may_store K k -> safe I anything (AddMember e k i).
Proof. unfold AddMember. go_safe. Qed.
Lemma ImportMembers_safe l : safe I anything (ImportMembers e l).
Proof. unfold ImportMembers. go_safe. Qed.
Lemma ImportMembersWithPubKey_safe l :
  (forall k, may_store K k) -> safe I anything (ImportMembersWithPubKey e l).
Proof. unfold ImportMembersWithPubKey. go_safe. Qed.
Lemma AddMemberBulk_safe l :
  Forall (fun m => key_of (may_store K) (m_PubKey m)) l -> safe I anything (AddMemberBulk e l).
Proof. unfold AddMemberBulk. go_safe. Qed.
Lemma UpdateMember_safe id i : safe I anything (UpdateMember e id i).
Proof. unfold UpdateMember. go_safe. Qed.
Lemma RegisterMember_safe k t :
  (forall i, t = Some i -> may_register K i k) -> safe I anything (RegisterMember e k t).
Proof.
  intros Hk. unfold RegisterMember. destruct t as [t|]; [|go_safe]. specialize (Hk t eq_refl).
  go_safe.
Qed.
End members_ok.
