(* ===== verification/PgQueries.v ===== *)
(** * Members: lookup, listing and deletion (database/pgsql/pgsql.go) *)
From S2P Require Import Prelude GoLib Ext Util Types Schema SchemaOk Session PgTypes PgTx.
From S2P Require Import PgEntities PgMembers.

(** ** The LIKE operator on UTF-8 text *)

Definition is_continuation (a : ascii) : bool := is_between 128 191 a.

(* the characters of a UTF-8 text *)
Fixpoint utf8_chars (s : string) : list string :=
  match s with
  | EmptyString => []
  | String a s' =>
      match s' with
      | EmptyString => [String a EmptyString]
      | String b _ =>
          match utf8_chars s' with
          | c :: cs => if is_continuation b then String a c :: cs
                       else String a EmptyString :: c :: cs
          | [] => [String a EmptyString]
          end
      end
  end.

(* None: the pattern ends in its escape character *)
Fixpoint like (p : list string) : list string -> option bool :=
  match p with
  | [] => fun t => Some (bool_decide (t = []))
  | c :: p' =>
      if bool_decide (c = "%") then
        fix any t := match like p' t with
                     | Some false => match t with [] => Some false | _ :: t' => any t' end
                     | r => r
                     end
      else if bool_decide (c = "_") then
        fun t => match t with [] => Some false | _ :: t' => like p' t' end
      else if bool_decide (c = "\") then
        match p' with
        | [] => fun t => match t with [] => Some false | _ => None end
        | e :: p'' => fun t => match t with
                               | [] => Some false
                               | x :: t' => if bool_decide (x = e) then like p'' t' else Some false
                               end
        end
      else fun t => match t with
                    | [] => Some false
                    | x :: t' => if bool_decide (x = c) then like p' t' else Some false
                    end
  end.
Definition LIKE (s pattern : string) : option bool := like (utf8_chars pattern) (utf8_chars s).

(** ** Scanned rows *)

(* StructScan of the columns of Member *)
Definition scan_member (x : uuid * MemberRow) : PGMember :=
  let r := x.2 in
  mkPGMember
    (mkMember zero_CreatedUpdated x.1 (mr_entity_id r) (mr_public_key r)
       (mkMemberInfo (mr_date_of_birth r) "" (mr_first_name r) (mr_last_name r) (mr_phone r)
          (mr_street_address r) (mr_consented r) (mr_verified r) Token None None))
    (mkJSONB (mr_custom_fields r) Present) (mkInt4Array (mr_tags r) Present)
    (match mr_email r with Some e => mkText e Present | None => mkText "" Null end).
(* the columns of MemberPubKey: neither consented nor tags *)
Definition scan_member_pubkey (x : uuid * MemberRow) : PGMember :=
  let p := scan_member x in let m := pm_Member p in let i := m_Info m in
  mkPGMember
    (mkMember zero_CreatedUpdated (m_ID m) (m_EntityID m) (m_PubKey m)
       (mkMemberInfo (mi_DateOfBirth i) "" (mi_FirstName i) (mi_LastName i) (mi_Phone i)
          (mi_StreetAddress i) false (mi_Verified i) Token None None))
    (pm_CustomFields p) (mkInt4Array [] Undefined) (pm_Email p).
(* the columns of ListMembers: not consented *)
Definition scan_member_list (x : uuid * MemberRow) : PGMember :=
  mkPGMember (pm_Member (scan_member_pubkey x)) (pm_CustomFields (scan_member x))
    (pm_Tags (scan_member x)) (pm_Email (scan_member x)).
(* the columns of MembersTokensEmails: id and email *)
Definition scan_token_email (x : uuid * MemberRow) : PGMember :=
  mkPGMember (mkMember zero_CreatedUpdated x.1 "" None zero_MemberInfo)
    (mkJSONB "" Undefined) (mkInt4Array [] Undefined) (pm_Email (scan_member x)).

(* SELECT ... FROM members WHERE p *)
Definition member_rows (p : uuid -> MemberRow -> bool) (d : Db) : list (uuid * MemberRow) :=
  filter (fun x => p x.1 x.2 = true) (map_to_list (members d)).

(** ** Options of a list query (ListMembers, ListCensus) *)

Record Page := mkPage {
  pg_column : string;
  pg_descending : bool;
  pg_limit : option Z;
  pg_offset : Z;
}.

(* sql.NullInt32.Scan of an int *)
Definition NullInt32_Scan (z : Z) : gerror + Z :=
  if in_int32 z then inr z
  else inl (Errorf ("converting driver.Value type int (" +:+ quoted (decimal z)
                      +:+ ") to a int32: value out of range")).

Definition page_of (t : list (string * string)) (default : string)
    (filter : option ListOptions) : gerror + Page :=
  match FieldByName t (Title default) with
  | None => inl (Errorf (default +:+ " field not found in DB. Something is very wrong"))
  | Some orderField =>
      match filter with
      | None => inr (mkPage orderField false None 0)
      | Some f =>
          let '(orderField, descending) :=
            if (0 <? len (lo_SortBy f))%Z then
              match FieldByName t (Title (lo_SortBy f)) with
              | Some tag => (tag, bool_decide (lo_Order f = "descend"))
              | None => (orderField, false)
              end
            else (orderField, false) in
          match (if (0 <? lo_Skip f)%Z then NullInt32_Scan (lo_Skip f) else inr 0%Z) with
          | inl err => inl err
          | inr offset =>
              match (if (0 <? lo_Count f)%Z then
                       match NullInt32_Scan (lo_Count f) with
                       | inl err => inl err | inr n => inr (Some n)
                       end
                     else inr None) with
              | inl err => inl err
              | inr limit => inr (mkPage orderField descending limit offset)
              end
          end
      end
  end.

(* LIMIT $2 OFFSET $3 *)
Definition limit_offset {A} (pg : Page) (l : list A) : list A :=
  let l := drop (Z.to_nat (pg_offset pg)) l in
  match pg_limit pg with Some n => take (Z.to_nat n) l | None => l end.

(* ORDER BY ... ASC | DESC *)
Definition ordered {A} (le : A -> A -> bool) (descending : bool) (a b : A) : Prop :=
  (if descending then le b a else le a b) = true.
#[export] Instance ordered_dec {A} (le : A -> A -> bool) descending (a b : A) :
  Decision (ordered le descending a b).
Proof. unfold ordered. apply _. Defined.
(* rows that are equal on the column come in the order of the query's plan,
   which may differ from one query to the next *)
Definition row_order {A} (plan : nat -> nat) (le : A -> A -> bool) (descending : bool)
    (a b : nat * A) : Prop :=
  ordered le descending a.2 b.2 /\ (ordered le descending b.2 a.2 -> plan a.1 <= plan b.1).
#[export] Instance row_order_dec {A} plan (le : A -> A -> bool) descending (a b : nat * A) :
  Decision (row_order plan le descending a b).
Proof. unfold row_order. apply _. Defined.
Definition order_by {A} (plan : nat -> nat) (le : A -> A -> bool) (descending : bool)
    (l : list A) : list A :=
  map snd (merge_sort (row_order plan le descending) (imap pair l)).

Section order.
Context {V : Env}.

(* NULLs sort last in ascending order *)
Definition nulls_last {A} (le : A -> A -> bool) (a b : option A) : bool :=
  match a, b with
  | Some a, Some b => le a b
  | Some _, None | None, None => true
  | None, Some _ => false
  end.
Fixpoint array_le (a b : list Z) : bool :=
  match a, b with
  | [], _ => true
  | _ :: _, [] => false
  | x :: a, y :: b => if (x =? y)%Z then array_le a b else (x <? y)%Z
  end.

(* the comparison of a column of members; None when there is no such column *)
Definition member_le (column : string) : option (uuid * MemberRow -> uuid * MemberRow -> bool) :=
  let on {A} (f : MemberRow -> A) (le : A -> A -> bool) :=
    Some (fun a b : uuid * MemberRow => le (f a.2) (f b.2)) in
  if decide (column = "date_of_birth") then on mr_date_of_birth Z.leb
  else if decide (column = "email") then on mr_email (nulls_last env_text_le)
  else if decide (column = "first_name") then on mr_first_name env_text_le
  else if decide (column = "last_name") then on mr_last_name env_text_le
  else if decide (column = "phone") then on mr_phone env_text_le
  else if decide (column = "street_address") then on mr_street_address env_text_le
  else if decide (column = "consented") then on mr_consented implb
  else if decide (column = "verified") then on mr_verified Z.leb
  else if decide (column = "origin") then on (fun r => Origin_Z (mr_origin r)) Z.leb
  else if decide (column = "custom_fields") then on mr_custom_fields env_json_le
  else if decide (column = "tags") then on mr_tags array_le
  else None.
End order.

Definition no_column {A} (c : string) : Stmt A :=
  sql_error (PgOther (if decide (c = "") then "ERROR: syntax error after ORDER BY"
                      else "ERROR: column " +:+ quoted c +:+ " does not exist")).

(* SELECT ... WHERE p ORDER BY column LIMIT OFFSET *)
Definition select_page {A} (plan : nat -> nat) (le : option (A -> A -> bool)) (pg : Page)
    (rows : Db -> list A) : Stmt (list A) :=
  match le with
  | None => no_column (pg_column pg)
  | Some le => select (fun d => limit_offset pg (order_by plan le (pg_descending pg) (rows d)))
  end.

(* NamedQuery over a slice: one group of parameters per element *)
Definition named_query {A} (params n : nat) (s : Stmt A) : Stmt A :=
  if max_parameters <? params * n
  then sql_error (PgOther "extended protocol limited to 65535 parameters") else s.

(* for result.Next() over the rows of NamedQuery *)
Definition rows_of {A} (r : option (list A)) : list A := default [] r.

Section queries.
Context {X : Ext} {V : Env}.

Definition pg_Member (entityID : bytes) (memberID : option uuid) : D Member :=
  match memberID with
  | None => failM (Errorf "memberID is nil")
  | Some memberID =>
      let! pgMember := db_get (fun d =>
        r ← members d !! memberID;
        if bool_decide (mr_entity_id r = entityID) then Some (scan_member (memberID, r))
        else None) in
      retM (ToMember pgMember)
  end.

Definition MemberByEmail (entityID : bytes) (email : string) : D Member :=
  fail_if! (len email =? 0)%Z || (len entityID =? 0)%Z with Errorf "invalid arguments" in
  let matches r := match mr_email r with Some e => LIKE e email | None => Some false end in
  let of_entity (x : uuid * MemberRow) := bool_decide (mr_entity_id x.2 = entityID) in
  let! r := db_select (fun d =>
    let rows := member_rows (fun i r => of_entity (i, r)) d in
    if existsb (fun x => bool_decide (matches x.2 = None)) rows
    then inl (PgOther "ERROR: LIKE pattern must not end with escape character")
    else inr (filter (fun x => matches x.2 = Some true) rows)) in
  let! pgMembers := liftE r in
  match map scan_member pgMembers with
  | _ :: _ :: _ => failM (Errorf "duplicate email")
  | [m] => retM (ToMember m)
  | [] => panicM "index out of range [0] with length 0"
  end.

Definition pg_Members (entityID : bytes) (memberIDs : list uuid) :
    D (list Member * list uuid) :=
  fail_if! (len entityID =? 0)%Z with Errorf "invalid arguments" in
  if length memberIDs =? 0 then retM ([], []) else
  let! result := db_query (named_query 1 (length memberIDs)
    (select (member_rows (fun i _ => bool_decide (i ∈ memberIDs))))) in
  let! pgmembers := mapM_ (fun x => onErr (Scan (scan_member x))
                                      (Wrapf "error parsing query result: ")) (rows_of result) in
  let found : list uuid := map (fun p => m_ID (pm_Member p)) pgmembers in
  retM (map ToMember pgmembers,
        elements (list_to_set memberIDs ∖ list_to_set found : gset uuid)).

(* encode() of a text, compared with a uuid column: PostgreSQL refuses the
   statement whatever the data *)
Definition MembersKeys (entityID : bytes) (memberKeys : list bytes) :
    D (list Member * list bytes) :=
  fail_if! (len entityID =? 0)%Z || (length memberKeys =? 0) with Errorf "invalid arguments" in
  let! result := db_query (named_query 1 (length memberKeys)
    (sql_error (A:=list (uuid * MemberRow))
       (PgOther "ERROR: function encode(text, unknown) does not exist"))) in
  let! pgmembers := mapM_ (fun x => onErr (Scan (scan_member x))
                                      (Wrapf "error parsing query result: ")) (rows_of result) in
  let found := map (fun p => EncodeToString (default "" (m_PubKey (pm_Member p)))) pgmembers in
  let invalid : list string :=
    elements (list_to_set (map EncodeToString memberKeys) ∖ list_to_set found : gset string) in
  let! invalidTokens := mapM_ (fun k => onErr (liftE (DecodeString k))
                                 (fun _ => Errorf "error decoding token")) invalid in
  retM (map ToMember pgmembers, invalidTokens).

Definition DeleteMember (entityID : bytes) (memberID : option uuid) : D unit :=
  match memberID with
  | None => failM (Errorf "memberID is nil")
  | Some memberID =>
      let! deleted := onErr (db_exec (delete_members (fun i r =>
        bool_decide (i = memberID) && bool_decide (mr_entity_id r = entityID))))
        (Wrapf "error deleting member: ") in
      let! r := tryM (RowsAffected (length deleted)) in
      let rows := match r with inl _ => 0 | inr n => n end in
      fail_if! negb (rows =? 1) with Errorf "nothing to delete" in
      retM tt
  end.

Definition DeleteMembers (entityID : bytes) (members : list uuid) : D (Z * list uuid) :=
  fail_if! (len entityID =? 0)%Z with Errorf "invalid arguments" in
  if length members =? 0 then retM (0%Z, []) else
  let! result := onErr
    (db_query (named_query 1 (length members) (delete_members (fun i r =>
       bool_decide (mr_entity_id r = entityID) && bool_decide (i ∈ members)))))
    (fun err => Errorf ("error removing members of " +:+ EncodeToString entityID
                          +:+ ": (" +:+ error_string err +:+ ")")) in
  let! ids := mapM_ (fun x => onErr (Scan x.1) (Wrapf "error parsing query result: "))
                (rows_of result) in
  retM (Z.of_nat (length ids),
        elements (list_to_set members ∖ list_to_set ids : gset uuid)).

Definition DeleteMembersByKeys (entityID : bytes) (memberKeys : list bytes) :
    D (Z * list bytes) :=
  fail_if! (len entityID =? 0)%Z with Errorf "invalid arguments" in
  if length memberKeys =? 0 then retM (0%Z, []) else
  let! result := onErr
    (db_query (named_query 1 (length memberKeys) (delete_members (fun i r =>
       bool_decide (mr_entity_id r = entityID) &&
       match mr_public_key r with Some k => bool_decide (k ∈ memberKeys) | None => false end))))
    (Wrapf ("DeleteMembersByKeys: error removing members of " +:+ EncodeToString entityID
              +:+ ": ")) in
  let! keys := mapM_ (fun x => onErr (Scan (default "" (mr_public_key x.2)))
                                 (Wrapf "error parsing query result: ")) (rows_of result) in
  let invalid : list string :=
    elements (list_to_set (map EncodeToString memberKeys) ∖
              list_to_set (map EncodeToString keys) : gset string) in
  let! invalidKeys := mapM_ (fun k => onErr (liftE (DecodeString k))
                               (Wrapf "error converting hex to string: ")) invalid in
  retM (Z.of_nat (length keys), invalidKeys).

Definition MemberPubKey (entityID pubKey : bytes) : D Member :=
  let! pgMember := db_get (fun d =>
    match member_rows (fun _ r => bool_decide (mr_public_key r = Some pubKey) &&
                                  bool_decide (mr_entity_id r = entityID)) d with
    | x :: _ => Some (scan_member_pubkey x)
    | [] => None
    end) in
  retM (ToMember pgMember).

Definition MembersTokensEmails (entityID : bytes) : D (list Member) :=
  let! pgMembers := db_select (fun d => map scan_token_email
    (member_rows (fun _ r => bool_decide (mr_entity_id r = entityID) &&
                             bool_decide (mr_public_key r = None)) d)) in
  retM (map ToMember pgMembers).

Definition CountMembers (entityID : bytes) : D Z :=
  fail_if! (len entityID =? 0)%Z with Errorf "invalid entity id" in
  db_select (fun d => Z.of_nat (length
    (member_rows (fun _ r => bool_decide (mr_entity_id r = entityID)) d))).

Definition ListMembers (entityID : bytes) (filter : option ListOptions) : D (list Member) :=
  let! pg := liftE (page_of MemberInfo_fields "lastName" filter) in
  let! now := now_tick in
  let! pgMembers := db_exec (select_page (env_plan now) (member_le (pg_column pg)) pg
    (member_rows (fun _ r => bool_decide (mr_entity_id r = entityID)))) in
  retM (map (fun x => ToMember (scan_member_list x)) pgMembers).

Definition TargetMembers (entityID : bytes) (targetID : option uuid) : D (list Member) :=
  match targetID with
  | None => failM (Errorf "targetID is nil")
  | Some _ => ListMembers entityID (Some (mkListOptions 0 "" 0 ""))
  end.

Definition DumpClaims (entityID : bytes) : D (list bytes) :=
  db_select (fun d => omap (fun x : uuid * MemberRow =>
    k ← mr_public_key x.2; u ← users d !! k; Some (ur_digested_public_key u))
    (member_rows (fun _ r => bool_decide (mr_entity_id r = entityID)) d)).
End queries.

(** ** Lemmas *)

Lemma select_page_select {A} plan le pg (rows : Db -> list A) d x :
  select_page plan le pg rows d = inr x -> x.2 = d.
Proof. unfold select_page, no_column. destruct le; [|done]. by intros [= <-]. Qed.
Lemma select_page_ok {A} I plan le pg (rows : Db -> list A) :
  stmt_ok I (select_page plan le pg rows).
Proof. intros d a d' Hd H. apply select_page_select in H. simpl in H. by subst. Qed.
Lemma imap_pair_snd {A} (l : list A) : map snd (imap pair l) = l.
Proof.
  apply list_eq. intros i. rewrite list_lookup_fmap, list_lookup_imap. by destruct (l !! i).
Qed.
Lemma order_by_Permutation {A} plan (le : A -> A -> bool) descending l :
  order_by plan le descending l ≡ₚ l.
Proof.
  unfold order_by. rewrite merge_sort_Permutation. by rewrite imap_pair_snd.
Qed.
Lemma named_query_ok {A} I p n (s : Stmt A) : stmt_ok I s -> stmt_ok I (named_query p n s).
Proof. intros H. unfold named_query. destruct (_ <? _); auto with schema. Qed.
#[export] Hint Resolve select_page_ok named_query_ok : schema.

Section queries_lemmas.
Context {X : Ext} {V : Env}.

Lemma db_exec_keeps {A} (s : Stmt A) :
  (forall d x, s d = inr x -> x.2 = d) -> keeps w_db (db_exec s).
Proof.
  intros Hs. apply driver_keeps; [done|]. intros w.
  destruct (s (w_db w)) as [|[a d]] eqn:E; [done|]. by apply Hs in E.
Qed.
Lemma db_query_keeps {A} (s : Stmt A) :
  (forall d x, s d = inr x -> x.2 = d) -> keeps w_db (db_query s).
Proof.
  intros Hs. apply driver_keeps; [done|]. intros w.
  destruct (deferred _) as [|[[a d]|]] eqn:E; [done| |done].
  apply deferred_some, Hs in E. done.
Qed.
Lemma named_select_same {A} p n (f : Db -> A) d x :
  named_query p n (select f) d = inr x -> x.2 = d.
Proof. unfold named_query. destruct (_ <? _); [done|]. by intros [= <-]. Qed.

Lemma pg_Member_keeps e i : keeps w_db (pg_Member e i).
Proof. unfold pg_Member. go_keeps. Qed.
Lemma MemberByEmail_keeps e m : keeps w_db (MemberByEmail e m).
Proof. unfold MemberByEmail. go_keeps. Qed.
Lemma pg_Members_keeps e l : keeps w_db (pg_Members e l).
Proof.
  unfold pg_Members. go_keeps. apply db_query_keeps. intros d x. apply named_select_same.
Qed.
Lemma MembersKeys_keeps e l : keeps w_db (MembersKeys e l).
Proof.
  unfold MembersKeys. go_keeps; try (apply db_query_keeps; intros d x; unfold named_query;
    by destruct (_ <? _)); apply keeps_mapM_; go_keeps.
Qed.
Lemma MemberPubKey_keeps e k : keeps w_db (MemberPubKey e k).
Proof. unfold MemberPubKey. go_keeps. Qed.
Lemma MembersTokensEmails_keeps e : keeps w_db (MembersTokensEmails e).
Proof. unfold MembersTokensEmails. go_keeps. Qed.
Lemma CountMembers_keeps e : keeps w_db (CountMembers e).
Proof. unfold CountMembers. go_keeps. Qed.
Lemma ListMembers_keeps e f : keeps w_db (ListMembers e f).
Proof. unfold ListMembers. go_keeps. apply db_exec_keeps, select_page_select. Qed.
Lemma TargetMembers_keeps e t : keeps w_db (TargetMembers e t).
Proof. unfold TargetMembers. destruct t; [apply ListMembers_keeps|go_keeps]. Qed.
Lemma DumpClaims_keeps e : keeps w_db (DumpClaims e).
Proof. unfold DumpClaims. go_keeps. Qed.
Lemma scans_keep {A B} (f : A -> B) g l :
  keeps w_db (mapM_ (fun x => onErr (Scan (f x)) g) l).
Proof. apply keeps_mapM_. intros. go_keeps. Qed.
Lemma decodes_keep g l : keeps w_db (mapM_ (fun k => onErr (liftE (DecodeString k)) g) l).
Proof. apply keeps_mapM_. intros. go_keeps. Qed.
End queries_lemmas.

#[export] Hint Resolve pg_Member_keeps MemberByEmail_keeps pg_Members_keeps MembersKeys_keeps
  MemberPubKey_keeps MembersTokensEmails_keeps CountMembers_keeps ListMembers_keeps
  TargetMembers_keeps DumpClaims_keeps scans_keep decodes_keep : go.

Section queries_inv.
Context {X : Ext} {V : Env} {I : Db -> Prop} {e : bytes} {K : Permit} {HI : StmtInv I e K}.

(* the WHERE clause of a deletion names the entity and members that may go *)
Lemma where_delete p :
  (forall i r, p i r = true -> mr_entity_id r = e /\ may_delete K i r) ->
  safe I anything (db_exec (delete_members p)) /\
  forall m n, safe I anything (db_query (named_query m n (delete_members p))).
Proof.
  intros Hp. pose proof (inv_delete_members p Hp) as Hs.
  split; intros; [by apply db_exec_safe|by apply db_query_safe, named_query_ok].
Qed.

Lemma DeleteMember_safe i :
  (forall id r, i = Some id -> may_delete K id r) -> safe I anything (DeleteMember e i).
Proof.
  intros HK. unfold DeleteMember. destruct i as [i|]; [|go_safe].
  eapply preserves_bind; [apply preserves_onErr|go_safe].
  apply where_delete. intros j r [->%bool_decide_eq_true_1 He%bool_decide_eq_true_1]%andb_prop. auto.
Qed.
Lemma DeleteMembers_safe l :
  (forall id r, id ∈ l -> may_delete K id r) -> safe I anything (DeleteMembers e l).
Proof.
  intros HK. unfold DeleteMembers. destruct (_ =? 0)%Z; [go_safe|]. destruct (_ =? 0); [go_safe|].
  eapply preserves_bind; [apply preserves_onErr|go_safe].
  apply where_delete. intros j r [He%bool_decide_eq_true_1 Hj%bool_decide_eq_true_1]%andb_prop. auto.
Qed.
Lemma DeleteMembersByKeys_safe l :
  (forall id r k, k ∈ l -> mr_public_key r = Some k -> may_delete K id r) ->
  safe I anything (DeleteMembersByKeys e l).
Proof.
  intros HK. unfold DeleteMembersByKeys.
  destruct (_ =? 0)%Z; [go_safe|]. destruct (_ =? 0); [go_safe|].
  eapply preserves_bind; [apply preserves_onErr|go_safe].
  apply where_delete. intros j r [He%bool_decide_eq_true_1 Hj]%andb_prop. split; [done|].
  destruct (mr_public_key r) as [k|] eqn:Ek; [|done]. apply bool_decide_eq_true_1 in Hj. eauto.
Qed.
End queries_inv.

(** ** The members of a target *)
Section target_members.
Context {X : Ext} {V : Env}.

(* the members TargetMembers lists: all those of the entity, whatever the target *)
Lemma TargetMembers_inv e t ms w w' :
  TargetMembers e t w = (Ok ms, w') ->
  w_db w' = w_db w /\ exists rows, ms = map (fun x => ToMember (scan_member_list x)) rows /\
    rows ≡ₚ member_rows (fun _ r => bool_decide (mr_entity_id r = e)) (w_db w).
Proof.
  unfold TargetMembers. destruct t; [|done]. unfold ListMembers.
  intros (pg & w1 & Hpg & (now & w2 & Hnow & (rows & w3 & Hq & Hret)%bind_ok)%bind_ok)%bind_ok.
  vm_compute in Hpg. injection Hpg as <- <-. injection Hnow as _ <-. injection Hret as <- <-. revert Hq.
  unfold db_exec. intros Hq%driver_inv. cbn [pg_column] in Hq.
  unfold member_le in Hq. simpl in Hq. unfold select_page, select in Hq. injection Hq as <- <-.
  split; [done|]. eexists. split; [reflexivity|]. cbn [w_db tick].
  unfold limit_offset. cbn [pg_limit pg_offset]. rewrite drop_0. apply order_by_Permutation.
Qed.

Lemma member_rows_elem e d i r :
  (i, r) ∈ member_rows (fun _ r => bool_decide (mr_entity_id r = e)) d <->
  members d !! i = Some r /\ mr_entity_id r = e.
Proof.
  unfold member_rows. rewrite list_elem_of_filter, elem_of_map_to_list. simpl.
  rewrite bool_decide_eq_true. tauto.
Qed.
End target_members.
