(* ===== verification/PgTags.v ===== *)
(** * Tags (database/pgsql/pgsql.go) *)
From S2P Require Import Prelude GoLib Ext Util Types Schema SchemaOk Session PgTypes PgTx.
From S2P Require Import PgEntities PgMembers PgQueries.

(* array_append, array_remove *)
Definition array_append (tag : Z) (l : list Z) : list Z := l ++ [tag].
Definition array_remove (tag : Z) (l : list Z) : list Z := filter (.≠ tag) l.

(* the WHERE clauses: tags && intset(tag), and its negation *)
Definition tagged (entityID : bytes) (tag : Z) (r : MemberRow) : bool :=
  bool_decide (mr_entity_id r = entityID) && bool_decide (tag ∈ mr_tags r).
Definition untagged (entityID : bytes) (tag : Z) (r : MemberRow) : bool :=
  bool_decide (mr_entity_id r = entityID) && negb (bool_decide (tag ∈ mr_tags r)).

Section tags_ops.
Context {X : Ext} {V : Env}.

Definition AddTag (entityID : bytes) (tagName : string) : D Z :=
  fail_if! bool_decide (tagName = "") with Errorf "invalid tag name" in
  let! created := time_Now in
  let! updated := time_Now in
  let! result := onErr (db_query_tag (mkTagRow entityID tagName created updated))
    (Wrapf "error inserting tag: ") in
  match result with
  | None => failM (Errorf ("error inserting tag: " +:+ nil_w))
  | Some id => onErr (Scan id) (Wrapf "error inserting tag: ")
  end.

Definition scan_tag (id : Z) (r : TagRow) : Tag := mkTag zero_CreatedUpdated id "" (gr_name r).

Definition ListTags (entityID : bytes) : D (list Tag) :=
  fail_if! (len entityID =? 0)%Z with Errorf "invalid entity ID" in
  db_select (fun d => omap (fun x : Z * TagRow =>
    if bool_decide (gr_entity_id x.2 = entityID) then Some (scan_tag x.1 x.2) else None)
    (map_to_list (tags d))).

Definition pg_Tag (entityID : bytes) (tagID : Z) : D Tag :=
  fail_if! (len entityID =? 0)%Z || (tagID =? 0)%Z with Errorf "invalid arguments" in
  db_get (fun d => r ← tags d !! tagID;
                   if bool_decide (gr_entity_id r = entityID) then Some (scan_tag tagID r)
                   else None).

Definition TagByName (entityID : bytes) (tagName : string) : D Tag :=
  fail_if! (len entityID =? 0)%Z || (len tagName =? 0)%Z with Errorf "invalid arguments" in
  db_get (fun d => head (omap (fun x : Z * TagRow =>
    if bool_decide (gr_entity_id x.2 = entityID /\ gr_name x.2 = tagName)
    then Some (scan_tag x.1 x.2) else None) (map_to_list (tags d)))).

(* d.Tag(...) with the errors of its three callers *)
Definition checked_tag (entityID : bytes) (tagID : Z) (missing failed : string) : D Tag :=
  onErr (pg_Tag entityID tagID) (fun err =>
    if bool_decide (err = ErrNoRows)
    then Errorf (missing +:+ decimal tagID +:+ " for entity " +:+ EncodeToString entityID)
    else Errorf (failed +:+ decimal tagID +:+ " for " +:+ EncodeToString entityID
                   +:+ " : (" +:+ error_string err +:+ ")")).

Definition DeleteTag (entityID : bytes) (tagID : Z) : D unit :=
  fail_if! (len entityID =? 0)%Z with Errorf "invalid entity ID" in
  let! _ := checked_tag entityID tagID "removing not existing tag "
              "DeleteTag: error retrieving tag " in
  let! tx := onErr Beginx (Wrapf "cannot initialize postgres transaction: ") in
  let! (ids, tx) := onErr
    (tx_exec tx (update_members_tags (fun _ => tagged entityID tagID) (array_remove tagID)))
    (fun err => Errorf ("DeleteTag: error adding  tag " +:+ decimal tagID
       +:+ "  to members of " +:+ EncodeToString entityID +:+ ": ("
       +:+ error_string err +:+ ")")) in
  let! _ := onErr (RowsAffected (length ids)) (Wrapf "cannot get affected rows: ") in
  let! (n, tx) := onErr (tx_exec tx (delete_tag tagID entityID))
    (Wrapf ("DeleteTag: error deleting tags for entity " +:+ EncodeToString entityID +:+ ": ")) in
  let! _ := onErr (RowsAffected n)
    (Wrapf ("DeleteTag: error deleting tag " +:+ decimal tagID +:+ " for "
              +:+ EncodeToString entityID +:+ " : ")) in
  commit_or tx (fun rb err =>
    Wrapf ("something is very wrong: error rolling back on deleting tag: " +:+ rb
             +:+ " after final commit to DB: ") err).

Definition AddTagToMembers (entityID : bytes) (members : list uuid) (tagID : Z) :
    D (Z * list uuid) :=
  fail_if! (len entityID =? 0)%Z with Errorf "invalid arguments" in
  if length members =? 0 then retM (0%Z, []) else
  let! _ := checked_tag entityID tagID "trying to add not existing tag "
              "error retrieving tag " in
  let! result := onErr
    (db_query (named_query 2 (length members)
       (update_members_tags
          (fun i r => untagged entityID tagID r && bool_decide (i ∈ members))
          (array_append tagID))))
    (fun err => Errorf ("error adding  tag " +:+ decimal tagID +:+ "  to members of "
       +:+ EncodeToString entityID +:+ ": (" +:+ error_string err +:+ ")")) in
  let! ids := mapM_ (fun x : uuid => onErr (Scan x) (Wrapf "error parsing query result: "))
                (rows_of result) in
  retM (Z.of_nat (length ids),
        elements (list_to_set members ∖ list_to_set ids : gset uuid)).

Definition RemoveTagFromMembers (entityID : bytes) (members : list uuid) (tagID : Z) :
    D (Z * list uuid) :=
  fail_if! (len entityID =? 0)%Z with Errorf "invalid arguments" in
  if length members =? 0 then retM (0%Z, []) else
  let! tag := checked_tag entityID tagID "non-existing tag "
                "RemoveTagFromMembers: error retrieving tag " in
  let! result := onErr
    (db_query (named_query 2 (length members)
       (update_members_tags
          (fun i r => tagged entityID (tg_ID tag) r && bool_decide (i ∈ members))
          (array_remove tagID))))
    (fun err => Errorf ("error removing  tag " +:+ decimal tagID +:+ "  to members of "
       +:+ EncodeToString entityID +:+ ": (" +:+ error_string err +:+ ")")) in
  let! ids := mapM_ (fun x : uuid => onErr (Scan x) (Wrapf "error parsing query result: "))
                (rows_of result) in
  retM (Z.of_nat (length ids),
        elements (list_to_set members ∖ list_to_set ids : gset uuid)).
End tags_ops.

(** ** Lemmas *)
Section tags_lemmas.
Context {X : Ext} {V : Env}.

Lemma ListTags_keeps e : keeps w_db (ListTags e).
Proof. unfold ListTags. go_keeps. Qed.
Lemma pg_Tag_keeps e t : keeps w_db (pg_Tag e t).
Proof. unfold pg_Tag. go_keeps. Qed.
Lemma TagByName_keeps e n : keeps w_db (TagByName e n).
Proof. unfold TagByName. go_keeps. Qed.
Lemma checked_tag_keeps e t a b : keeps w_db (checked_tag e t a b).
Proof. apply keeps_onErr, pg_Tag_keeps. Qed.
Lemma scan_ids_keep g (l : list uuid) :
  keeps w_db (mapM_ (fun x => onErr (Scan x) g) l).
Proof. apply keeps_mapM_. intros. go_keeps. Qed.

Lemma DeleteTag_atomic e t : atomic w_db (DeleteTag e t).
Proof. pose proof checked_tag_keeps. unfold DeleteTag. go_atomic. Qed.
End tags_lemmas.
#[export] Hint Resolve ListTags_keeps pg_Tag_keeps TagByName_keeps checked_tag_keeps
  scan_ids_keep : go.

#[export] Hint Unfold tagged untagged : schema.
#[export] Hint Extern 1 (forall _ _, tagged _ _ _ = true -> mr_entity_id _ = _) =>
  unfold tagged; where_entity : schema.
#[export] Hint Extern 1 (forall _ _, tagged _ _ _ && _ = true -> mr_entity_id _ = _) =>
  unfold tagged; where_entity : schema.
#[export] Hint Extern 1 (forall _ _, untagged _ _ _ && _ = true -> mr_entity_id _ = _) =>
  unfold untagged; where_entity : schema.

Section tags_inv.
Context {X : Ext} {V : Env} {I : Db -> Prop} {e : bytes} {K : Permit} {HI : StmtInv I e K}.

Lemma AddTag_safe n : safe I anything (AddTag e n).
Proof. unfold AddTag. go_safe. Qed.
Lemma DeleteTag_safe t : safe I anything (DeleteTag e t).
Proof. unfold DeleteTag. go_safe. Qed.
Lemma AddTagToMembers_safe l t : safe I anything (AddTagToMembers e l t).
Proof. unfold AddTagToMembers. go_safe. Qed.
Lemma RemoveTagFromMembers_safe l t : safe I anything (RemoveTagFromMembers e l t).
Proof. unfold RemoveTagFromMembers. go_safe. Qed.
End tags_inv.
