(* ===== verification/PgCensus.v ===== *)
(** * Targets and censuses (database/pgsql/pgsql.go) *)
From S2P Require Import Prelude GoLib Ext Util Types Schema SchemaOk Session PgTypes PgTx.
From S2P Require Import PgEntities PgMembers PgQueries.

(** ** Rows *)

Definition scan_target (id : uuid) (r : TargetRow) : Target :=
  mkTarget zero_CreatedUpdated id (tr_entity_id r) (tr_name r) (tr_filters r).

Definition scan_census (id : bytes) (r : CensusRow) : Census :=
  mkCensus (cr_entity_id r) id (cr_target_id r)
    (mkCensusInfo (mkCreatedUpdated (cr_created_at r) (cr_updated_at r)) (cr_name r)
       (Some (cr_merkle_root r)) (cr_merkle_tree_uri r) (cr_size r) (cr_ephemeral r) None).
(* the columns of ListCensus: neither size nor ephemeral *)
Definition scan_census_list (x : bytes * CensusRow) : Census :=
  let r := x.2 in
  mkCensus (cr_entity_id r) x.1 (cr_target_id r)
    (mkCensusInfo (mkCreatedUpdated (cr_created_at r) (cr_updated_at r)) (cr_name r)
       (Some (cr_merkle_root r)) (cr_merkle_tree_uri r) 0 false None).

Definition census_member_row (c : CensusMember) : (uuid * bytes) * CensusMemberRow :=
  ((cm_MemberID c, cm_CensusID c),
   mkCensusMemberRow (cm_Ephemeral c) (cm_PubKey c) (cm_DigestedPubKey c) (cm_PrivKey c)).

Definition set_census_size (n : Z) (r : CensusRow) : CensusRow :=
  mkCensusRow (cr_entity_id r) (cr_target_id r) (cr_name r) n (cr_merkle_root r)
    (cr_merkle_tree_uri r) (cr_ephemeral r) (cr_created_at r) (cr_updated_at r).
Definition touch_census (now : Z) (r : CensusRow) : CensusRow :=
  mkCensusRow (cr_entity_id r) (cr_target_id r) (cr_name r) (cr_size r) (cr_merkle_root r)
    (cr_merkle_tree_uri r) (cr_ephemeral r) (cr_created_at r) now.

(* the SET clause of UpdateCensus *)
Definition update_census_row (root : bytes) (uri : string) (now : Z) (r : CensusRow) : CensusRow :=
  mkCensusRow (cr_entity_id r) (cr_target_id r) (cr_name r) (cr_size r)
    (coalesce_nonempty root (cr_merkle_root r)) (coalesce_nonempty uri (cr_merkle_tree_uri r))
    (cr_ephemeral r) (cr_created_at r) now.

(* the size update of AddCensusWithMembers names no entity *)
Definition resize_census (id : bytes) (now n : Z) : Stmt nat := fun d =>
  match censuses d !! id with
  | Some c => update_census id (cr_entity_id c) (fun r => touch_census now (set_census_size n r)) d
  | None => inr (0, d)
  end.

Section census_ops.
Context {X : Ext} {V : Env}.

(** ** Targets *)

Definition AddTarget (entityID : bytes) (target : Target) : D uuid :=
  fail_if! (len entityID =? 0)%Z with Errorf "adding target for other entity" in
  let target_entity := if (len (t_EntityID target) =? 0)%Z then entityID else t_EntityID target in
  fail_if! negb (bool_decide (EncodeToString target_entity = EncodeToString entityID))
    with Errorf "trying to add target for another entity" in
  let! created := time_Now in
  let! updated := time_Now in
  let! now := now_tick in
  let! result := db_query (insert_target (env_uuid now 0)
    (mkTargetRow target_entity (t_Name target) (t_Filters target) created updated)) in
  match result with
  | None => failM (Errorf "result has no rows, posible violation of db constraints")
  | Some id => Scan id
  end.

Definition pg_Target (entityID : bytes) (targetID : option uuid) : D Target :=
  match targetID with
  | None => failM (Errorf "error retrieving target")
  | Some targetID =>
      fail_if! (len entityID =? 0)%Z || bool_decide (targetID = uuid_Nil)
        with Errorf "error retrieving target" in
      db_get (fun d => r ← targets d !! targetID;
                       if bool_decide (tr_entity_id r = entityID)
                       then Some (scan_target targetID r) else None)
  end.

Definition of_entity_targets (entityID : bytes) (d : Db) : list (uuid * TargetRow) :=
  filter (fun x => tr_entity_id x.2 = entityID) (map_to_list (targets d)).

Definition CountTargets (entityID : bytes) : D Z :=
  fail_if! (len entityID =? 0)%Z with Errorf "invalid entity id" in
  db_select (fun d => Z.of_nat (length (of_entity_targets entityID d))).

Definition ListTargets (entityID : bytes) : D (list Target) :=
  fail_if! (len entityID =? 0)%Z with Errorf "error retrieving target" in
  db_select (fun d => map (fun x => scan_target x.1 x.2) (of_entity_targets entityID d)).

(** ** Censuses *)

Definition pg_Census (entityID censusID : bytes) : D Census :=
  fail_if! (len entityID =? 0)%Z || (len censusID <? 1)%Z with Errorf "error retrieving target" in
  db_get (fun d => r ← censuses d !! censusID;
                   if bool_decide (cr_entity_id r = entityID)
                   then Some (scan_census censusID r) else None).

Definition census_args (entityID censusID : bytes) (targetID : option uuid) : bool :=
  (len entityID =? 0)%Z || (len censusID =? 0)%Z ||
  match targetID with None => true | Some t => bool_decide (t = uuid_Nil) end.

Definition AddCensus (entityID censusID : bytes) (targetID : option uuid)
    (info : option CensusInfo) : D unit :=
  fail_if! census_args entityID censusID targetID with Errorf "invalid arguments" in
  let info := default (mkCensusInfo zero_CreatedUpdated "" (Some "") "" 0 false None) info in
  let root := default "" (ci_MerkleRoot info) in
  let! created := time_Now in
  let! updated := time_Now in
  let! result := onErr
    (db_exec (insert_census censusID
       (mkCensusRow entityID (default uuid_Nil targetID) (ci_Name info) (ci_Size info) root
          (ci_MerkleTreeURI info) (ci_Ephemeral info) created updated)))
    (Wrapf "failed to add census: ") in
  let! rows := onErr (RowsAffected result) (Wrapf "failed to add census: ") in
  fail_if! negb (rows =? 1) with Errorf "failed to add census: rows != 1" in
  retM tt.

(* the members of the entity that have registered a key *)
Definition registered_ids (entityID : bytes) (d : Db) : list uuid :=
  (member_rows (fun _ r => bool_decide (mr_entity_id r = entityID) &&
     match mr_public_key r with
     | Some k => bool_decide (is_Some (users d !! k)) | None => false
     end) d).*1.

Definition AddCensusWithMembers (entityID censusID : bytes) (targetID : option uuid)
    (info : option CensusInfo) : D Z :=
  fail_if! census_args entityID censusID targetID with Errorf "invalid arguments" in
  let! members := db_select (registered_ids entityID) in
  fail_if! length members =? 0 with Errorf "target contains 0 members" in
  match info with
  | None => panicM "nil pointer dereference" (* *info *)
  | Some info =>
      let! created := time_Now in
      let! updated := time_Now in
      let! tx := onErr Beginx (Wrapf "cannot initialize postgres transaction: ") in
      let! now := time_Now in
      let! (n, tx) := onErr
        (tx_exec tx (match ci_MerkleRoot info with
           | None => sql_error (PgNotNull "merkle_root")
           | Some root => insert_census censusID
               (mkCensusRow entityID (default uuid_Nil targetID) (ci_Name info) (ci_Size info)
                  root (ci_MerkleTreeURI info) false created updated)
           end))
        (Wrapf "cannot add census: ") in
      let! rows := onErr (RowsAffected n) (Wrapf "cannot add census: ") in
      fail_if! negb (rows =? 1) with Errorf ("cannot add census: " +:+ nil_w) in
      let censusMembers :=
        map (fun m => mkCensusMember m censusID false None None None) members in
      let! tx := onErr
        (bulkInsert tx 2 (each_row insert_census_member) (map census_member_row censusMembers) 2)
        (Wrapf "error during bulk insert: ") in
      let! r := tryM (tx_exec tx (resize_census censusID now
                                  (Z.of_nat (length censusMembers)))) in
      match r with
      | inl err =>
          rollback_or
            (fun rb => Wrapf ("cannot perform db rollback " +:+ error_string rb
                                +:+ " after error ") err)
            (Wrapf "rolled back due to error updating census size: " err)
      | inr (n, tx) =>
          let! r := tryM (RowsAffected n) in
          let bad := match r with inl _ => true | inr updated => negb (updated =? 1) end in
          if bad then
            let err := match r with inl e => e | inr _ => Errorf nil_w end in
            rollback_or
              (fun rb => Wrapf ("cannot perform db rollback " +:+ error_string rb
                                  +:+ " after error ") err)
              (Wrapf "rolled back due to error updating census size: " err)
          else
            let! r := tryM (Commit tx) in
            match r with
            | inl err =>
                let! rb := tryM Rollback_done in
                match rb with
                | inl rollbackErr => failM (Wrapf ("cannot perform db rollback "
                    +:+ error_string rollbackErr +:+ " after error ") err)
                | inr _ => failM (Wrapf
                    "rolled back because could not commit addCensus and addCensusMembers: " err)
                end
            | inr _ => retM (Z.of_nat (length censusMembers))
            end
      end
  end.

Definition UpdateCensus (entityID censusID : bytes) (info : option CensusInfo) : D Z :=
  match info with
  | None => failM (Errorf "invalid arguments")
  | Some info =>
      fail_if! (len entityID =? 0)%Z || (len censusID =? 0)%Z with Errorf "invalid arguments" in
      let root := default "" (ci_MerkleRoot info) in
      let! now := time_Now in
      let! result := onErr
        (db_exec (update_census censusID entityID
                    (update_census_row root (ci_MerkleTreeURI info) now)))
        (Wrapf "error updating census: ") in
      let! rows := onErr (RowsAffected result) (Wrapf "cannot get affected rows: ") in
      fail_if! negb (rows =? 1) && negb (rows =? 0)
        with Errorf ("expected to update 0 or 1 rows, but updated "
                       +:+ decimal (Z.of_nat rows) +:+ " rows") in
      retM (Z.of_nat rows)
  end.

Definition of_entity_censuses (entityID : bytes) (d : Db) : list (bytes * CensusRow) :=
  filter (fun x => cr_entity_id x.2 = entityID) (map_to_list (censuses d)).

Definition CountCensus (entityID : bytes) : D Z :=
  fail_if! (len entityID =? 0)%Z with Errorf "invalid entity id" in
  db_select (fun d => Z.of_nat (length (of_entity_censuses entityID d))).

(* the comparison of a column of censuses; None when there is no such column *)
Definition census_le (column : string) : option (bytes * CensusRow -> bytes * CensusRow -> bool) :=
  let on {A} (f : bytes * CensusRow -> A) (le : A -> A -> bool) :=
    Some (fun a b => le (f a) (f b)) in
  if decide (column = "id") then on fst Stdlib.Strings.String.leb
  else if decide (column = "entity_id") then on (fun x => cr_entity_id x.2) Stdlib.Strings.String.leb
  else if decide (column = "target_id") then on (fun x => cr_target_id x.2) N.leb
  else if decide (column = "created_at") then on (fun x => cr_created_at x.2) Z.leb
  else if decide (column = "updated_at") then on (fun x => cr_updated_at x.2) Z.leb
  else if decide (column = "name") then on (fun x => cr_name x.2) env_text_le
  else if decide (column = "merkle_root")
  then on (fun x => cr_merkle_root x.2) Stdlib.Strings.String.leb
  else if decide (column = "merkle_tree_uri") then on (fun x => cr_merkle_tree_uri x.2) env_text_le
  else if decide (column = "size") then on (fun x => cr_size x.2) Z.leb
  else if decide (column = "ephemeral") then on (fun x => cr_ephemeral x.2) implb
  else None.

Definition ListCensus (entityID : bytes) (filter : option ListOptions) : D (list Census) :=
  fail_if! (len entityID =? 0)%Z with Errorf "error retrieving target" in
  let! pg := liftE (page_of Census_fields "name" filter) in
  let! now := now_tick in
  let! rows := db_exec (select_page (env_plan now) (census_le (pg_column pg)) pg
                          (of_entity_censuses entityID)) in
  retM (map scan_census_list rows).

Definition DeleteCensus (entityID censusID : bytes) : D unit :=
  fail_if! (len censusID =? 0)%Z || (len entityID =? 0)%Z with Errorf "invalid arguments" in
  let! result := onErr (db_exec (delete_census censusID entityID))
    (Wrapf "error deleting census: ") in
  let! r := tryM (RowsAffected result) in
  let rows := match r with inl _ => 0 | inr n => n end in
  fail_if! negb (rows =? 1) with Errorf "nothing to delete" in
  retM tt.

(** ** The members of a census *)

Definition DumpCensusClaims (entityID censusID : bytes) : D (list bytes) :=
  let! _ := onErr (pg_Census entityID censusID) (fun _ => Errorf "could not retrieve census") in
  db_select (fun d => omap (fun x : (uuid * bytes) * CensusMemberRow =>
    if bool_decide (x.1.2 = censusID) then Some (default "" (xr_digested_public_key x.2))
    else None) (map_to_list (census_members d))).

(* the loop of ExpandCensusMembers: the i-th generated key is [env_key now i] *)
Fixpoint expand_members (censusID : bytes) (ephemeral : bool) (now i : nat)
    (members : list Member) : D (list CensusMember) :=
  match members with
  | [] => retM []
  | member :: members =>
      if ValidPubKey (default "" (m_PubKey member)) then
        let! rest := expand_members censusID ephemeral now i members in
        retM (mkCensusMember (m_ID member) censusID false None None (m_PubKey member) :: rest)
      else if ephemeral then
        let! _ := match env_key_fault now i with
                  | Some err => panicM ("expandCensusClaims: cound not generate emphemeral signkeys: ("
                                          +:+ error_string err +:+ ")")
                  | None => retM tt
                  end in
        let '(pub, priv) := env_key now i in
        let '(pubKey, privKey) := (EncodeToString pub, EncodeToString priv) in
        let failed err := Errorf ("cound not decode to bytes emphemeral identity pubKey: ("
                                    +:+ error_string err +:+ ")") in
        let! pubKeyBytes := onErr (liftE (DecodeString pubKey)) failed in
        let! privKeyBytes := onErr (liftE (DecodeString privKey)) failed in
        let! rest := expand_members censusID ephemeral now (S i) members in
        retM (mkCensusMember (m_ID member) censusID true (Some privKeyBytes) (Some pubKeyBytes)
                (Some pubKeyBytes) :: rest)
      else expand_members censusID ephemeral now i members
  end.

Definition ExpandCensusMembers (entityID censusID : bytes) : D (list CensusMember) :=
  let! census := onErr (pg_Census entityID censusID)
    (fun _ => Errorf "could not retrieve census") in
  let! members := onErr (TargetMembers entityID (Some (c_TargetID census)))
    (fun _ => Errorf "could not retrieve target members") in
  let! now := now_tick in
  let! censusMembers :=
    expand_members censusID (ci_Ephemeral (c_Info census)) now 0 members in
  let! tx := onErr Beginx (Wrapf "could not initialize postgres transaction: ") in
  let! tx := onErr
    (bulkInsert tx 6 (each_row insert_census_member) (map census_member_row censusMembers) 6)
    (Wrapf "error during bulk insert: ") in
  let! (n, tx) := onErr
    (tx_exec tx (update_census censusID entityID
                   (set_census_size (Z.of_nat (length censusMembers)))))
    (Wrapf "could not update census as ephemeral: ") in
  let! updatedRows := onErr (RowsAffected n)
    (fun err => Errorf ("could not verify updating census as ephemeral: ("
                          +:+ error_string err +:+ ")")) in
  fail_if! negb (updatedRows =? 1) with Errorf "could not update census as ephemeral" in
  let! _ := commit_or tx commit_default in
  retM censusMembers.

Definition ListEphemeralMemberInfo (entityID censusID : bytes) : D (list EphemeralMemberInfo) :=
  let! census := onErr (pg_Census entityID censusID)
    (fun _ => Errorf "could not retrieve census") in
  let! pgInfo := onErr
    (db_select (fun d => omap (fun x : (uuid * bytes) * CensusMemberRow =>
       m ← members d !! x.1.1;
       if bool_decide (x.1.2 = c_ID census) && xr_ephemeral x.2 then
         Some (mkPGEphemeral
           (mkEphemeralMemberInfo x.1.1 (mr_first_name m) (mr_last_name m) ""
              (xr_private_key x.2) (xr_digested_public_key x.2))
           (match mr_email m with Some e => mkText e Present | None => mkText "" Null end))
       else None) (map_to_list (census_members d))))
    (fun err => Errorf ("could not retrieve census members info: ("
                          +:+ error_string err +:+ ")")) in
  retM (map ToEphemeralMemberInfo pgInfo).

Definition EphemeralMemberInfoByEmail (entityID censusID : bytes) (email : string) :
    D EphemeralMemberInfo :=
  let! census := onErr (pg_Census entityID censusID)
    (Wrapf "cound not retrieve census: ") in
  let! member := onErr (MemberByEmail entityID email)
    (Wrapf "cound not retrieve member by email: ") in
  let! censusMember := onErr
    (db_get (fun d => x ← census_members d !! (m_ID member, c_ID census);
                      if xr_ephemeral x then Some x else None))
    (Wrapf "could not retrieve census members info: ") in
  let i := m_Info member in
  retM (mkEphemeralMemberInfo (m_ID member) (mi_FirstName i) (mi_LastName i) (mi_Email i)
          (xr_private_key censusMember) (xr_digested_public_key censusMember)).
End census_ops.

(** ** Lemmas *)

Lemma insert_census_opt_ok I e K id (o : option bytes) f :
  StmtInv I e K -> (forall root, cr_entity_id (f root) = e) ->
  stmt_ok I (match o with None => sql_error (PgNotNull "merkle_root")
             | Some root => insert_census id (f root) end).
Proof. intros HI Hf. destruct o; [by eapply inv_insert_census|apply sql_error_ok]. Qed.
#[export] Hint Resolve insert_census_opt_ok : schema.

Section census_lemmas.
Context {X : Ext} {V : Env}.

Lemma pg_Target_keeps e t : keeps w_db (pg_Target e t).
Proof. unfold pg_Target. go_keeps. Qed.
Lemma CountTargets_keeps e : keeps w_db (CountTargets e).
Proof. unfold CountTargets. go_keeps. Qed.
Lemma ListTargets_keeps e : keeps w_db (ListTargets e).
Proof. unfold ListTargets. go_keeps. Qed.
Lemma pg_Census_keeps e c : keeps w_db (pg_Census e c).
Proof. unfold pg_Census. go_keeps. Qed.
Lemma CountCensus_keeps e : keeps w_db (CountCensus e).
Proof. unfold CountCensus. go_keeps. Qed.
Lemma ListCensus_keeps e f : keeps w_db (ListCensus e f).
Proof. unfold ListCensus. go_keeps. apply db_exec_keeps, select_page_select. Qed.
Lemma DumpCensusClaims_keeps e c : keeps w_db (DumpCensusClaims e c).
Proof. pose proof pg_Census_keeps. unfold DumpCensusClaims. go_keeps. Qed.
Lemma ListEphemeralMemberInfo_keeps e c : keeps w_db (ListEphemeralMemberInfo e c).
Proof. pose proof pg_Census_keeps. unfold ListEphemeralMemberInfo. go_keeps. Qed.
Lemma EphemeralMemberInfoByEmail_keeps e c m : keeps w_db (EphemeralMemberInfoByEmail e c m).
Proof. pose proof pg_Census_keeps. unfold EphemeralMemberInfoByEmail. go_keeps. Qed.
Lemma expand_members_keeps c b n i l : keeps w_db (expand_members c b n i l).
Proof. revert i. induction l; simpl; go_keeps. Qed.

Lemma ExpandCensusMembers_atomic e c : atomic w_db (ExpandCensusMembers e c).
Proof.
  pose proof pg_Census_keeps. pose proof expand_members_keeps.
  unfold ExpandCensusMembers. go_atomic.
Qed.
Lemma AddCensusWithMembers_atomic e c t i : atomic w_db (AddCensusWithMembers e c t i).
Proof.
  unfold AddCensusWithMembers. go_atomic.
  all: apply atomic_try_bind; [auto with go|intros; go_keeps|auto with go].
Qed.
End census_lemmas.
#[export] Hint Resolve pg_Target_keeps CountTargets_keeps ListTargets_keeps pg_Census_keeps
  CountCensus_keeps ListCensus_keeps DumpCensusClaims_keeps ListEphemeralMemberInfo_keeps
  EphemeralMemberInfoByEmail_keeps expand_members_keeps : go.

Section census_inv.
Context {X : Ext} {V : Env} {I : Db -> Prop} {e : bytes} {K : Permit} {HI : StmtInv I e K}.

Lemma AddTarget_safe t : safe I anything (AddTarget e t).
Proof.
  unfold AddTarget. destruct (_ =? _)%Z; [apply preserves_fail|].
  destruct (negb _) eqn:Et; [apply preserves_fail|].
  apply negb_false_iff, bool_decide_eq_true_1, (inj EncodeToString) in Et. go_safe.
Qed.
Lemma AddCensus_safe c t i : safe I anything (AddCensus e c t i).
Proof. unfold AddCensus. go_safe. Qed.
Lemma UpdateCensus_safe c i : safe I anything (UpdateCensus e c i).
Proof. unfold UpdateCensus. go_safe. Qed.
Lemma DeleteCensus_safe c : safe I anything (DeleteCensus e c).
Proof. unfold DeleteCensus. go_safe. Qed.

(* the census that pg_Census finds, and the rows of the loop *)
Lemma pg_Census_ok c w census w' :
  pg_Census e c w = (Ok census, w') ->
  exists r, censuses (w_db w) !! c = Some r /\ cr_entity_id r = e.
Proof.
  unfold pg_Census. destruct (_ || _); [done|]. intros H%driver_inv.
  change (w_db (tick w)) with (w_db w) in H.
  destruct (censuses (w_db w) !! c) as [r|]; [|done]. simpl in H.
  case_bool_decide; [eauto|done].
Qed.

Lemma expand_members_ok c b n i ms l w w' :
  expand_members c b n i ms w = (Ok l, w') ->
  forall x, x ∈ l -> cm_CensusID x = c /\ cm_MemberID x ∈ map m_ID ms.
Proof.
  revert i l w w'. induction ms as [|m ms IH]; intros i l w w'; simpl.
  { intros [= <- _] x Hx. by apply not_elem_of_nil in Hx. }
  assert (Hin : forall j l0 y w1 w2 w3, expand_members c b n j ms w1 = (Ok l0, w2) ->
    cm_CensusID y = c -> cm_MemberID y = m_ID m -> retM (y :: l0) w2 = (Ok l, w3) ->
    forall x, x ∈ l -> cm_CensusID x = c /\ cm_MemberID x ∈ m_ID m :: map m_ID ms).
  { intros j l0 y w1 w2 w3 H Hc Hi [= <- _] x [->|Hx]%elem_of_cons.
    - split; [done|]. rewrite Hi. left.
    - destruct (IH _ _ _ _ H x Hx) as [? ?]. split; [done|]. by right. }
  destruct (ValidPubKey _); [|destruct b].
  - intros (l0 & w1 & H & Hret)%bind_ok. by eapply (fun y => Hin _ _ y _ _ _ H); [..|exact Hret].
  - intros (u & w1 & _ & H)%bind_ok. destruct (env_key n i) as [pub priv].
    apply bind_ok in H as (k1 & w2 & _ & (k2 & w3 & _ & (l0 & w4 & H & Hret)%bind_ok)%bind_ok).
    by eapply (fun y => Hin _ _ y _ _ _ H); [..|exact Hret].
  - intros H x Hx. destruct (IH _ _ _ _ H x Hx) as [? ?]. split; [done|]. by right.
Qed.

Lemma ExpandCensusMembers_safe c : safe I anything (ExpandCensusMembers e c).
Proof.
  apply safe_from. intros d Hd. unfold ExpandCensusMembers.
  apply (safe_at_read I d (fun _ => exists r, censuses d !! c = Some r /\ cr_entity_id r = e));
    [done|go_keeps|intros w a w' <- E%onErr_ok; by eapply pg_Census_ok|intros census (cr & Hcr & Hce)].
  apply (safe_at_read I d (fun ms => forall i r, i ∈ map m_ID ms -> members d !! i = Some r ->
    mr_entity_id r = e)); [done|go_keeps| |intros ms Hms].
  { intros w a w' <- E%onErr_ok i r Hi Hr. apply TargetMembers_inv in E as (_ & rows & -> & Hp).
    rewrite map_map in Hi. apply list_elem_of_fmap in Hi as ([j q] & -> & Hj).
    rewrite Hp in Hj. apply member_rows_elem in Hj as [Hj Hq]. simpl in *. congruence. }
  apply safe_at_skip; [done|auto with go|intros now].
  apply (safe_at_read I d (fun l => forall x, x ∈ l -> cm_CensusID x = c /\ cm_MemberID x ∈ map m_ID ms));
    [done|auto with go|intros; by eapply expand_members_ok|intros l Hl].
  apply safe_at_Beginx; [done|].
  eapply preserves_bind; [apply preserves_onErr, (bulkInsert_post _ _ _ _ _ _ I)|go_safe].
  intros n t' E. refine (proj1 (insert_census_members_ok (I:=I) (e:=e) _ _ _ _ _ E)).
  split; [done|]. intros y (x & -> & Hx)%list_elem_of_fmap. destruct (Hl x Hx) as [Hc Hi].
  split; simpl; [intros r; by apply Hms|]. intros r. rewrite Hc. congruence.
Qed.

Lemma AddCensusWithMembers_safe c t i : safe I anything (AddCensusWithMembers e c t i).
Proof.
  apply safe_from. intros d Hd. unfold AddCensusWithMembers.
  destruct (census_args _ _ _); [by apply safe_at_fail|].
  apply (safe_at_read I d (fun ms => forall j r, j ∈ ms -> members d !! j = Some r ->
    mr_entity_id r = e)); [done|go_keeps| |intros ms Hms].
  { intros w a w' <- E%driver_inv j r Hj Hr. injection E as <- _.
    apply list_elem_of_fmap in Hj as ([j' q] & -> & Hj). apply list_elem_of_filter in Hj as [Hq Hj].
    apply elem_of_map_to_list in Hj. apply andb_prop in Hq as [Hq%bool_decide_eq_true_1 _].
    simpl in *. change (w_db (tick w)) with (w_db w) in Hj. congruence. }
  destruct (_ =? 0); [by apply safe_at_fail|]. destruct i as [info|]; [|by apply safe_at_panic].
  do 2 (apply safe_at_skip; [done|auto with go|intros ?]).
  apply safe_at_Beginx; [done|]. apply safe_bind_any; [auto with go|intros now].
  set (T := fun t : Tx => I t /\ members t = members d /\
              exists r, censuses t !! c = Some r /\ cr_entity_id r = e).
  apply (preserves_bind _ (fun x => T x.2)).
  { apply preserves_onErr, tx_exec_post. intros n t' E. destruct (ci_MerkleRoot info) as [root|]; [|done].
    split; [by eapply (inv_insert_census (I:=I) (e:=e)); [..|exact E]|].
    apply checked_inv in E as [_ [= _ <-]]. simpl. rewrite lookup_insert_eq. eauto. }
  intros [n tx] (HI' & Hm & cr & Hcr & Hce). simpl in *.
  apply safe_bind_any; [auto with go|intros rows]. destruct (negb _); [apply preserves_fail|].
  apply (preserves_bind _ T).
  { apply preserves_onErr, bulkInsert_post; [apply _|]. intros k t' E.
pose proof (insert_census_members_inv _ _ _ _ E) as [Et _].
    split; [|rewrite Et; eauto].
    refine (proj1 (insert_census_members_ok (I:=I) (e:=e) _ _ _ _ _ E)).
    split; [done|]. intros y (x & -> & Hx)%list_elem_of_fmap.
    apply list_elem_of_fmap in Hx as (j & -> & Hj). split; simpl.
    - intros r Hr. rewrite Hm in Hr. by apply (Hms j).
    - intros r. rewrite Hcr. congruence. }
  clear tx cr HI' Hm Hcr Hce. intros tx (HI' & _ & cr & Hcr & Hce).
  apply (preserves_bind _ (fun r => match r with inr x => I x.2 | inl _ => True end)).
  { apply preserves_tryM, tx_exec_post. intros k t' E. unfold resize_census in E. rewrite Hcr, Hce in E.
    by eapply (inv_update_census (I:=I) (e:=e)); [..|exact E]. }
  intros [err|[k tx']] Htx; go_safe.
Qed.
End census_inv.
