(* ===== verification/PgOps.v ===== *)
(** * The operations of the database together

    One constructor per method of database.Database that reads or writes
    tables, the worlds their sequences reach, and what holds of all of them:
    integrity, isolation of entities, atomicity. *)
From S2P Require Import Prelude GoLib Ext Util Types Schema SchemaOk Session Tenant PgTypes.
From S2P Require Import PgTx PgEntities PgMembers PgQueries PgTags PgCensus.

Inductive Op :=
| OpAddEntity (e : bytes) (info : EntityInfo)
| OpDeleteEntity (e : bytes)
| OpAuthorizeEntity (e : bytes)
| OpUpdateEntity (e : bytes) (info : EntityInfo)
| OpAddUser (u : User)
| OpAddMember (e k : bytes) (info : MemberInfo)
| OpImportMembersWithPubKey (e : bytes) (info : list MemberInfo)
| OpImportMembers (e : bytes) (info : list MemberInfo)
| OpAddMemberBulk (e : bytes) (members : list Member)
| OpCreateMembersWithTokens (e : bytes) (tokens : list uuid)
| OpCreateNMembers (e : bytes) (n : Z)
| OpUpdateMember (e : bytes) (id : option uuid) (info : MemberInfo)
| OpRegisterMember (e k : bytes) (token : option uuid)
| OpDeleteMember (e : bytes) (id : option uuid)
| OpDeleteMembers (e : bytes) (ids : list uuid)
| OpDeleteMembersByKeys (e : bytes) (keys : list bytes)
| OpAddTag (e : bytes) (name : string)
| OpDeleteTag (e : bytes) (tag : Z)
| OpAddTagToMembers (e : bytes) (ids : list uuid) (tag : Z)
| OpRemoveTagFromMembers (e : bytes) (ids : list uuid) (tag : Z)
| OpAddTarget (e : bytes) (t : Target)
| OpAddCensus (e c : bytes) (t : option uuid) (info : option CensusInfo)
| OpAddCensusWithMembers (e c : bytes) (t : option uuid) (info : option CensusInfo)
| OpUpdateCensus (e c : bytes) (info : option CensusInfo)
| OpDeleteCensus (e c : bytes)
| OpExpandCensusMembers (e c : bytes)
| OpEntity (e : bytes) | OpEntityOrigins (e : bytes) | OpEntitiesID | OpAdminEntityList
| OpUser (k : bytes) | OpMember (e : bytes) (id : option uuid) | OpMemberByEmail (e : bytes) (m : string)
| OpMembers (e : bytes) (ids : list uuid) | OpMembersKeys (e : bytes) (keys : list bytes)
| OpMemberPubKey (e k : bytes) | OpMembersTokensEmails (e : bytes) | OpCountMembers (e : bytes)
| OpListMembers (e : bytes) (f : option ListOptions) | OpTargetMembers (e : bytes) (t : option uuid)
| OpDumpClaims (e : bytes) | OpListTags (e : bytes) | OpTag (e : bytes) (t : Z)
| OpTagByName (e : bytes) (n : string) | OpTarget (e : bytes) (t : option uuid)
| OpCountTargets (e : bytes) | OpListTargets (e : bytes) | OpCensus (e c : bytes)
| OpCountCensus (e : bytes) | OpListCensus (e : bytes) (f : option ListOptions)
| OpDumpCensusClaims (e c : bytes) | OpListEphemeralMemberInfo (e c : bytes)
| OpEphemeralMemberInfoByEmail (e c : bytes) (m : string).

Definition discard {S A} (m : M S A) : M S unit := let! _ := m in retM tt.

Section ops.
Context {X : Ext} {V : Env}.

Definition run (o : Op) : D unit :=
  match o with
  | OpAddEntity e i => AddEntity e i
  | OpDeleteEntity e => DeleteEntity e
  | OpAuthorizeEntity e => AuthorizeEntity e
  | OpUpdateEntity e i => discard (UpdateEntity e i)
  | OpAddUser u => AddUser u
  | OpAddMember e k i => discard (AddMember e k i)
  | OpImportMembersWithPubKey e l => ImportMembersWithPubKey e l
  | OpImportMembers e l => ImportMembers e l
  | OpAddMemberBulk e l => AddMemberBulk e l
  | OpCreateMembersWithTokens e l => CreateMembersWithTokens e l
  | OpCreateNMembers e n => discard (CreateNMembers e n)
  | OpUpdateMember e id i => discard (UpdateMember e id i)
  | OpRegisterMember e k t => RegisterMember e k t
  | OpDeleteMember e id => DeleteMember e id
  | OpDeleteMembers e l => discard (DeleteMembers e l)
  | OpDeleteMembersByKeys e l => discard (DeleteMembersByKeys e l)
  | OpAddTag e n => discard (AddTag e n)
  | OpDeleteTag e t => DeleteTag e t
  | OpAddTagToMembers e l t => discard (AddTagToMembers e l t)
  | OpRemoveTagFromMembers e l t => discard (RemoveTagFromMembers e l t)
  | OpAddTarget e t => discard (AddTarget e t)
  | OpAddCensus e c t i => AddCensus e c t i
  | OpAddCensusWithMembers e c t i => discard (AddCensusWithMembers e c t i)
  | OpUpdateCensus e c i => discard (UpdateCensus e c i)
  | OpDeleteCensus e c => DeleteCensus e c
  | OpExpandCensusMembers e c => discard (ExpandCensusMembers e c)
  | OpEntity e => discard (pg_Entity e)
  | OpEntityOrigins e => discard (EntityOrigins e)
  | OpEntitiesID => discard EntitiesID
  | OpAdminEntityList => discard AdminEntityList
  | OpUser k => discard (pg_User k)
  | OpMember e id => discard (pg_Member e id)
  | OpMemberByEmail e m => discard (MemberByEmail e m)
  | OpMembers e l => discard (pg_Members e l)
  | OpMembersKeys e l => discard (MembersKeys e l)
  | OpMemberPubKey e k => discard (MemberPubKey e k)
  | OpMembersTokensEmails e => discard (MembersTokensEmails e)
  | OpCountMembers e => discard (CountMembers e)
  | OpListMembers e f => discard (ListMembers e f)
  | OpTargetMembers e t => discard (TargetMembers e t)
  | OpDumpClaims e => discard (DumpClaims e)
  | OpListTags e => discard (ListTags e)
  | OpTag e t => discard (pg_Tag e t)
  | OpTagByName e n => discard (TagByName e n)
  | OpTarget e t => discard (pg_Target e t)
  | OpCountTargets e => discard (CountTargets e)
  | OpListTargets e => discard (ListTargets e)
  | OpCensus e c => discard (pg_Census e c)
  | OpCountCensus e => discard (CountCensus e)
  | OpListCensus e f => discard (ListCensus e f)
  | OpDumpCensusClaims e c => discard (DumpCensusClaims e c)
  | OpListEphemeralMemberInfo e c => discard (ListEphemeralMemberInfo e c)
  | OpEphemeralMemberInfoByEmail e c m => discard (EphemeralMemberInfoByEmail e c m)
  end.

(* the entity whose data a method writes *)
Definition writes (o : Op) : option bytes :=
  match o with
  | OpAddEntity e _ | OpDeleteEntity e | OpAuthorizeEntity e | OpUpdateEntity e _
  | OpAddMember e _ _ | OpImportMembersWithPubKey e _ | OpImportMembers e _
  | OpAddMemberBulk e _ | OpCreateMembersWithTokens e _ | OpCreateNMembers e _
  | OpUpdateMember e _ _ | OpRegisterMember e _ _ | OpDeleteMember e _ | OpDeleteMembers e _
  | OpDeleteMembersByKeys e _ | OpAddTag e _ | OpDeleteTag e _ | OpAddTagToMembers e _ _
  | OpRemoveTagFromMembers e _ _ | OpAddTarget e _ | OpAddCensus e _ _ _
  | OpAddCensusWithMembers e _ _ _ | OpUpdateCensus e _ _ | OpDeleteCensus e _
  | OpExpandCensusMembers e _ => Some e
  | _ => None
  end.

(* the methods that write through a transaction *)
Definition transactional (o : Op) : bool :=
  match o with
  | OpAddEntity _ _ | OpAddMember _ _ _ | OpImportMembers _ _ | OpAddMemberBulk _ _
  | OpCreateMembersWithTokens _ _ | OpCreateNMembers _ _ | OpRegisterMember _ _ _
  | OpDeleteTag _ _ | OpAddCensusWithMembers _ _ _ _ | OpExpandCensusMembers _ _ => true
  | _ => false
  end.

Definition run_all (os : list Op) (w : World) : World := foldl (fun w o => (run o w).2) w os.

Inductive reachable : World -> Prop :=
| reachable_init : reachable initial_world
| reachable_step o w : reachable w -> reachable (run o w).2.

Lemma reachable_run_all os : reachable (run_all os initial_world).
Proof.
  unfold run_all. induction os as [|o os IH] using rev_ind; [constructor|].
  rewrite foldl_app. by constructor.
Qed.

Lemma discard_safe {A} I (Q : A -> Prop) (m : D A) : safe I Q m -> safe I anything (discard m).
Proof. intros H. eapply preserves_bind; [done|]. intros. by apply preserves_ret. Qed.
Lemma discard_keeps {A} (m : D A) I : keeps w_db m -> safe I anything (discard m).
Proof. intros H. eapply discard_safe. by apply keeps_safe. Qed.
Lemma discard_atomic {A} (m : D A) : atomic w_db m -> atomic w_db (discard m).
Proof. intros H. apply atomic_bind_returns; auto with go. Qed.

Lemma any_store k : may_store everything k.
Proof. done. Qed.
Lemma any_register k (t : option uuid) i : t = Some i -> may_register everything i k.
Proof. done. Qed.
Lemma any_keys (l : list Member) : Forall (fun m => key_of (may_store everything) (m_PubKey m)) l.
Proof. by apply Forall_true. Qed.

(* An invariant of the statements of the entity that is written is an
   invariant of the method. *)
Lemma run_safe (I : Db -> Prop) o :
  (forall e, writes o = Some e -> StmtInv I e everything) ->
  (forall u, o = OpAddUser u -> exists e, StmtInv I e everything) ->
  safe I anything (run o).
Proof.
  intros Hw Hu.
  destruct o; simpl in *; try (pose proof (Hw _ eq_refl));
    try (apply discard_keeps; auto using EntitiesID_keeps, AdminEntityList_keeps with go; fail);
    eauto using any_store, any_keys, any_register, AddEntity_safe, AuthorizeEntity_safe,
      ImportMembersWithPubKey_safe, ImportMembers_safe, AddMemberBulk_safe,
      CreateMembersWithTokens_safe, RegisterMember_safe, DeleteTag_safe,
      AddCensus_safe, DeleteCensus_safe;
    try (eapply discard_safe; eauto using any_store, any_keys, UpdateEntity_safe, AddMember_safe, CreateNMembers_safe,
      UpdateMember_safe, AddTag_safe,
      AddTagToMembers_safe, RemoveTagFromMembers_safe, AddTarget_safe, UpdateCensus_safe,
      AddCensusWithMembers_safe, ExpandCensusMembers_safe; fail).
  - by apply DeleteEntity_safe.
  - destruct (Hu _ eq_refl) as [e He]. by eapply AddUser_safe.
  - by apply DeleteMember_safe.
  - by eapply discard_safe, DeleteMembers_safe.
  - by eapply discard_safe, DeleteMembersByKeys_safe.
Qed.

Lemma run_db_ok o : safe db_ok anything (run o).
Proof.
  apply run_safe; intros; [apply _|exists ""; apply _].
Qed.

Lemma reachable_db_ok (w : World) : reachable w -> db_ok (w_db w).
Proof.
  induction 1 as [|o w _ IH].
  - split; constructor; simpl; try (intros ?; set_solver).
    all: intros; simplify_map_eq.
  - apply (run_db_ok o w IH).
Qed.

(* and so the tables are sound, voter rolls included *)
Lemma reachable_sound (w : World) : reachable w -> sound (w_db w).
Proof.
  induction 1 as [|o w Hr IH].
  - split; [apply (reachable_db_ok initial_world); constructor|]. by intros x r m c.
  - assert (Hs : safe sound anything (run o));
      [apply run_safe; intros; [apply _|exists ""; apply _]|by apply (Hs w IH)].
Qed.

(** ** Properties *)

(** C6: Whatever methods of the database run, in whatever order and with
    whatever failures of the driver, the tables satisfy every unique and
    foreign-key constraint of the schema. *)
Theorem reachable_integrity (w : World) : reachable w -> db_ok (w_db w).
Proof. apply reachable_db_ok. Qed.

(* A method called for one entity leaves the data of every other entity
    as it was: its row, origins, members, targets, censuses, voter rolls and
    tags. *)
Lemma run_isolation (o : Op) (e : bytes) (w : World) :
  sound (w_db w) -> writes o <> Some e ->
  tenant e (w_db (run o w).2) = tenant e (w_db w).
Proof.
  intros Hs Hw.
  assert (HI : safe (tenant_is e (tenant e (w_db w))) anything (run o)).
  2: { apply (tenant_is_spec e (tenant e (w_db w))), HI. by apply tenant_is_spec. }
  apply run_safe.
  - intros e' He'. apply tenant_inv. congruence.
  - intros u _. exists (String "x" e). apply tenant_inv.
    clear. induction e; congruence.
Qed.

(** C8: A method that writes through a transaction is all or nothing: when it
    returns an error or panics, at whatever call the driver failed, the
    committed tables are the ones it started with. *)
Theorem transactional_atomic (o : Op) (w : World) :
  transactional o = true ->
  match (run o w).1 with Ok _ => True | _ => w_db (run o w).2 = w_db w end.
Proof.
  intros Ho. revert w. change (atomic w_db (run o)).
  destruct o; try done; simpl;
    try match goal with |- atomic _ (discard _) => apply discard_atomic end;
    auto using AddEntity_atomic, AddMember_atomic, ImportMembers_atomic, AddMemberBulk_atomic,
      CreateMembersWithTokens_atomic, CreateNMembers_atomic, RegisterMember_atomic,
      DeleteTag_atomic, AddCensusWithMembers_atomic, ExpandCensusMembers_atomic.
Qed.
End ops.

(** ** Concrete runs *)

Definition demo_entity : EntityInfo :=
  mkEntityInfo "" "secret" "e@x" "E" "" 0 (Some ["m"]) [Token] false.
Definition demo_ops : list Op :=
  [OpAddEntity "e1" demo_entity; OpAddEntity "e2" demo_entity;
   OpCreateMembersWithTokens "e1" [11%N; 12%N]; OpRegisterMember "e1" "k1" (Some 11%N);
   OpAddTag "e1" "T"; OpAddTagToMembers "e1" [11%N; 12%N; 13%N] 1].
Definition demo_world : World :=
  run_all (X:=demo_ext) (V:=demo_env 1) demo_ops initial_world.

Lemma reachable_integrity_witness :
  db_ok (w_db demo_world) /\ size (members (w_db demo_world)) = 2.
Proof.
  split; [|vm_compute; reflexivity].
  apply (reachable_integrity (X:=demo_ext) (V:=demo_env 1)), reachable_run_all.
Defined.

(* a driver whose [n]-th call fails *)
Definition failing_env (n : nat) : Env := {|
  env_fault := fun i => if i =? n then Some (PgOther "connection reset") else None;
  env_now := env_now (Env:=demo_env 1);
  env_uuid := env_uuid (Env:=demo_env 1);
  env_key := env_key (Env:=demo_env 1);
  env_key_fault := env_key_fault (Env:=demo_env 1);
  env_plan := env_plan (Env:=demo_env 1);
  env_text_le := env_text_le (Env:=demo_env 1);
  env_json_le := env_json_le (Env:=demo_env 1);
|}.

Lemma transactional_atomic_witness :
  let o := OpRegisterMember "e1" "k2" (Some 12%N) in
  let w := demo_world in
  (exists e, (run (X:=demo_ext) (V:=failing_env (w_tick w + 4)) o w).1 = Err e) /\
  w_db (run (X:=demo_ext) (V:=failing_env (w_tick w + 4)) o w).2 = w_db w.
Proof.
  intros o w. pose proof (transactional_atomic (X:=demo_ext) (V:=failing_env (w_tick w + 4)) o w
                eq_refl) as H.
  assert (He : exists e, (run (X:=demo_ext) (V:=failing_env (w_tick w + 4)) o w).1 = Err e)
    by (eexists; vm_compute; reflexivity).
  split; [exact He|]. destruct He as [e He]. rewrite He in H. exact H.
Defined.

Section not_atomic.
Context {X : Ext}.

(* importMembersWithPubKey is not all or nothing: it creates the users
    with autocommitted statements before its transaction, so that a failing
    import (here: of an entity that does not exist) returns an error and
    leaves users behind. *)
Lemma ImportMembersWithPubKey_leaves_users (m : MemberInfo) (fields : bytes) :
  JSONB_Set (mi_CustomFields m) = inr fields ->
  let r := run (V:=demo_env 1) (OpImportMembersWithPubKey "none" [m]) initial_world in
  (exists e, r.1 = Err e) /\ users (w_db r.2) <> users (w_db initial_world).
Proof.
  intros Hf. unfold run, ImportMembersWithPubKey, import_with_keys, ToPGMember. cbn zeta.
  cbn [mi_CustomFields m_Info]. rewrite Hf.
  split; [eexists; vm_compute; reflexivity|vm_compute; congruence].
Qed.
End not_atomic.

Lemma ImportMembersWithPubKey_leaves_users_witness :
  let r := run (X:=demo_ext) (V:=demo_env 1)
             (OpImportMembersWithPubKey "none" [zero_MemberInfo]) initial_world in
  (exists e, r.1 = Err e) /\ users (w_db r.2) <> users (w_db initial_world).
Proof.
  exact (ImportMembersWithPubKey_leaves_users (X:=demo_ext) zero_MemberInfo "null" eq_refl).
Defined.
