(* ===== verification/PgTests.v ===== *)
(** * The integration tests of the database (test/testpgsql/pgsql_test.go)

    The tests, in their order, on the methods of pgsql.go and one database that
    starts empty. What the tests draw at random is fixed: keys and identifiers
    that differ. An error of a method the test does not expect, or an
    assertion that does not hold, is an error of the test. *)
From S2P Require Import Prelude GoLib Ext Util Types Schema Session Tenant.
From S2P Require Import PgTypes PgTx PgEntities PgMembers PgQueries PgTags PgCensus.

#[export] Instance EntityInfo_eq_dec : EqDecision EntityInfo.
Proof. solve_decision. Defined.

Section tests.
Context {X : Ext} {V : Env}.

(* if !b { t.Fatal(msg) } *)
Definition assert (b : bool) (msg : string) : D unit := fail_if! negb b with Errorf msg in retM tt.
(* if err == nil { t.Fatal(msg) } *)
Definition must_fail {A} (m : D A) (msg : string) : D unit :=
  let! r := tryM m in assert (match r with inl _ => true | inr _ => false end) msg.
(* if err != e { t.Fatal(msg) } *)
Definition fails_with {A} (e : gerror) (m : D A) (msg : string) : D unit :=
  let! r := tryM m in
  assert (match r with inl err => bool_decide (err = e) | inr _ => false end) msg.
Definition length_is {A} (l : list A) (n : nat) : bool := length l =? n.

(* testcommon.CreateEntities, CreateMembers: the keys *)
Definition entity_info (name : string) : EntityInfo :=
  mkEntityInfo "" "" "e@mail.com" name "abcde" 100 (Some [name]) [Token] false.
Definition a_key (c : ascii) : bytes := String c "k".
(* uuid.New() in a test *)
Definition tempUUID : uuid := 999999999%N.
Definition no_options : option ListOptions := Some (mkListOptions 0 "" 0 "").

Definition TestEntity : D unit :=
  let entityID := "E1" in
  let info := mkEntityInfo "" "" "" "test entity" "" 0
                (Some [String "001" (String "002" (String "003" ""))]) [Token] true in
  let! startEntities := EntitiesID in
  let! _ := AddEntity entityID info in
  let! _ := must_fail (AddEntity entityID zero_EntityInfo) "added duplicate entity" in
  let! entity := pg_Entity entityID in
  let! _ := assert (ei_Consented (e_Info entity)) "cannot verify consented field" in
  let! _ := assert (bool_decide (e_Info entity = info)) "entity info" in
  let updateInfo := mkEntityInfo "http://127.0.0.1/extapi" "asdafgewgrf" "" "test1 entity" "" 0
                      (ei_CensusManagersAddresses info) [Token] true in
  let! count := UpdateEntity entityID updateInfo in
  let! _ := assert (count =? 1)%Z "expected to update one row" in
  let! updatedEntity := pg_Entity entityID in
  let! _ := assert (bool_decide (e_Info updatedEntity = updateInfo)) "updated entity info" in
  let! _ := assert (negb (e_IsAuthorized updatedEntity)) "authorized not explicitly" in
  let! _ := AuthorizeEntity entityID in
  let! updatedEntity := pg_Entity entityID in
  let! _ := assert (e_IsAuthorized updatedEntity) "not authorized" in
  let! _ := fails_with (Errorf "already authorized") (AuthorizeEntity entityID) "reauthorize" in
  let! finalEntities := EntitiesID in
  let! _ := assert (length finalEntities =? S (length startEntities)) "one new entity" in
  let! _ := must_fail (DeleteEntity "E9") "deleted a random entity" in
  DeleteEntity entityID.

Definition TestUser : D unit :=
  let! _ := AddUser (mkUser zero_CreatedUpdated (Some (a_key "u")) None) in
  let! _ := pg_User (a_key "u") in retM tt.

(* TestMember, up to the registration of members with tokens *)
Definition TestMember_rows (e0 : bytes) : D unit :=
  let pubBytes := a_key "m" in
  let memberInfo := mkMemberInfo 0 "" "Lak" "Lik" "" "" false 0 Token None None in
  let! _ := AddUser (mkUser zero_CreatedUpdated (Some pubBytes) None) in
  let! initialCount := CountMembers e0 in
  let! id := AddMember e0 pubBytes memberInfo in
  let! count := CountMembers e0 in
  let! _ := assert (count =? initialCount + 1)%Z "count" in
  let! _ := must_fail (AddMember e0 pubBytes memberInfo) "cannot add twice" in
  let! member := pg_Member e0 (Some id) in
  let! memberPubKey := MemberPubKey e0 pubBytes in
  let! _ := assert (bool_decide (m_ID memberPubKey = m_ID member)) "MemberPubKey" in
  let! _ := assert (mi_Verified (m_Info member) =? 0)%Z "verified" in
  let! _ := assert (mi_DateOfBirth (m_Info member) =? 0)%Z "dateofbirth" in
  let! _ := assert (bool_decide (mi_FirstName (m_Info member) = "Lak" /\
                                 mi_LastName (m_Info member) = "Lik" /\
                                 mi_Email (m_Info member) = "" /\
                                 mi_Origin (m_Info member) = Token)) "member info" in
  let! member := pg_Member e0 (Some (m_ID member)) in
  let! _ := assert (bool_decide (m_PubKey member = Some pubBytes)) "pubkey" in
  let! count := UpdateMember e0 (Some (m_ID member))
                  (mkMemberInfo 0 "updated@mail.com" "" "" "" "" false 0 Token None None) in
  let! _ := assert (count =? 1)%Z "updated rows" in
  let! newMember := pg_Member e0 (Some (m_ID member)) in
  let! _ := assert (bool_decide (mi_Email (m_Info newMember) = "updated@mail.com")) "email" in
  let! _ := assert (bool_decide (mi_FirstName (m_Info newMember) = "Lak")) "empty name" in
  let bulk := map (fun i => mkMemberInfo 0 "" ("Name" +:+ decimal (Z.of_nat i))
                              ("LastName" +:+ decimal (Z.of_nat i)) "" "" false 0 Token None None)
                (seq 0 10) in
  let! _ := ImportMembers e0 bulk in
  let! count := CountMembers e0 in
  let! _ := assert (count =? initialCount + 11)%Z "count" in
  let! allMembers := ListMembers e0 no_options in
  let ids := map m_ID (take 2 allMembers) in
  let! (members, invalidIDs) := pg_Members e0 ids in
  let! _ := assert (length_is members 2 && length_is invalidIDs 0) "Members" in
  let! _ := assert (forallb (fun m => bool_decide (m_ID m ∈ ids)) members) "Members ids" in
  let! (members, invalidIDs) := pg_Members e0 (ids ++ [tempUUID]) in
  let! _ := assert (length_is members 2 && bool_decide (invalidIDs = [tempUUID])) "Members" in
  let! members := ListMembers e0 (Some (mkListOptions 5 "descend" 2 "lastName")) in
  let! _ := assert (length members <=? 5) "limit" in
  let! tokenMembers := MembersTokensEmails e0 in
  let! _ := assert (length_is tokenMembers (length bulk)) "tokens" in
  let! _ := DeleteMember e0 (Some (m_ID member)) in
  let! _ := fails_with ErrNoRows (pg_Member e0 (Some (m_ID member))) "deleted member" in
  must_fail (DeleteMember e0 (Some uuid_Nil)) "deleted a random member".

(* the registration *)
Definition TestMember_register (e0 e1 : bytes) : D unit :=
  let! _ := AddEntity e1 (entity_info "b") in
  let pubKey := a_key "r" in
  let! tokens := CreateNMembers e1 5 in
  let! _ := fails_with ErrNoRows (pg_User pubKey) "user" in
  let! _ := RegisterMember e1 pubKey (tokens !! 0) in
  let! registeredMember := pg_Member e1 (tokens !! 0) in
  let! _ := assert (bool_decide (m_PubKey registeredMember = Some pubKey)) "member's key" in
  let! registeredUser := pg_User pubKey in
  let! _ := assert (bool_decide (u_PubKey registeredUser = Some pubKey)) "user's key" in
  let! _ := must_fail (RegisterMember e1 pubKey (Some tempUUID)) "random token" in
  must_fail (RegisterMember e0 pubKey (tokens !! 1)) "token of another entity".

(* the deletion of many, and AddMemberBulk *)
Definition TestMember_delete (e0 : bytes) : D unit :=
  let! members := ListMembers e0 None in
  let ids := map m_ID members in
  let! (updatedCount, _) := DeleteMembers e0 (take 1 ids ++ take 1 ids) in
  let! _ := assert (updatedCount =? 1)%Z "duplicates deleted once" in
  let memberIDs := drop 1 ids in
  let! (updatedCount, _) := DeleteMembers e0 memberIDs in
  let! _ := assert (updatedCount =? Z.of_nat (length memberIDs))%Z "deleted" in
  let! n := CountMembers e0 in
  let! _ := assert (n =? 0)%Z "no members" in
  let! (updatedCount, invalidIDs) := DeleteMembers e0 [tempUUID] in
  let! _ := assert (bool_decide (invalidIDs = [tempUUID]) && (updatedCount =? 0)%Z) "invalid" in
  let bulkKeys := map a_key ["0"; "1"; "2"; "3"; "4"; "5"; "6"; "7"; "8"; "9"]%char in
  let bulkMembers := map (fun k => mkMember zero_CreatedUpdated uuid_Nil "" (Some k) zero_MemberInfo)
                       bulkKeys in
  let! _ := AddMemberBulk e0 bulkMembers in
  let! _ := mapM_ (fun k => let! _ := pg_User k in let! _ := MemberPubKey e0 k in retM tt) bulkKeys in
  let! _ := must_fail (AddMemberBulk e0 bulkMembers) "duplicate members" in
  let! (updated, invalidKeys) := DeleteMembersByKeys e0 (take 9 bulkKeys) in
  let! _ := assert ((updated =? 9)%Z && length_is invalidKeys 0) "deleted by key" in
  let! (updated, invalidKeys) := DeleteMembersByKeys e0 (take 9 bulkKeys) in
  let! _ := assert ((updated =? 0)%Z && length_is invalidKeys 9) "invalid keys" in
  let! (updated, invalidKeys) := DeleteMembersByKeys e0 (drop 9 bulkKeys ++ drop 9 bulkKeys) in
  assert ((updated =? 1)%Z && length_is invalidKeys 0) "duplicate keys".

Definition TestMember : D unit :=
  let! _ := AddEntity "E2" (entity_info "a") in
  let! _ := TestMember_rows "E2" in
  let! _ := TestMember_register "E2" "E3" in
  let! _ := TestMember_delete "E2" in
  let! _ := DeleteEntity "E2" in
  DeleteEntity "E3".

Definition a_target (e : bytes) (name : string) : Target :=
  mkTarget zero_CreatedUpdated uuid_Nil e name "{}".

Definition TestTarget : D unit :=
  let e := "E4" in
  let! _ := AddEntity e (entity_info "c") in
  let! targets := ListTargets e in
  let! _ := assert (length_is targets 0) "0 targets" in
  let! count := CountTargets e in
  let! _ := assert (count =? 0)%Z "0 targets" in
  let! targetID := AddTarget e (a_target e "all") in
  let! outTarget := pg_Target e (Some targetID) in
  let! _ := assert (bool_decide (t_Name outTarget = "all")) "target" in
  let! _ := must_fail (AddTarget e (a_target e "all")) "duplicate target" in
  let! targets := ListTargets e in
  let! _ := assert (length_is targets 1) "1 target" in
  let! count := CountTargets e in
  assert (count =? 1)%Z "1 target".

(* TestCensus, up to the ephemeral censuses *)
Definition TestCensus_rows (e : bytes) : D uuid :=
  let! targetID := AddTarget e (a_target e "all") in
  let info name := mkCensusInfo zero_CreatedUpdated name (Some "root") "ipfs://1" 0 false None in
  let! count := CountCensus e in
  let! _ := assert (count =? 0)%Z "0 censuses" in
  let! _ := AddCensus e "c1" (Some targetID) (Some (info "census1")) in
  let! census := pg_Census e "c1" in
  let! _ := assert (bool_decide (ci_Name (c_Info census) = "census1")) "census" in
  let! count := CountCensus e in
  let! _ := assert (count =? 1)%Z "1 census" in
  let! _ := must_fail (AddCensus e "c1" (Some targetID) (Some (info "census1"))) "duplicate" in
  let! _ := must_fail (AddCensus e "c2" (Some uuid_Nil) (Some (info "census1"))) "no target" in
  let! targetID := AddTarget e (a_target e "all1") in
  let! _ := AddCensus e "c3" (Some targetID) (Some (info "census3")) in
  let! count := CountCensus e in
  let! _ := assert (count =? 2)%Z "2 censuses" in
  let! censuses := ListCensus e no_options in
  let! _ := assert (length_is censuses 2) "2 censuses" in
  let first := default "" (head (map c_ID censuses)) in
  let! _ := DeleteCensus e first in
  let! _ := fails_with ErrNoRows (pg_Census e first) "deleted census" in
  let! count := CountCensus e in
  let! _ := assert (count =? 1)%Z "1 census" in
  let! _ := must_fail (DeleteCensus e "c9") "random census" in
  let! count := CountCensus e in
  let! _ := assert (count =? 1)%Z "1 census" in
  retM targetID.

Definition TestCensus_ephemeral (e : bytes) (targetID : uuid) : D unit :=
  let! memberIDs := CreateNMembers e 4 in
  let! _ := RegisterMember e (a_key "x") (memberIDs !! 0) in
  let! _ := RegisterMember e (a_key "y") (memberIDs !! 1) in
  let c := "c4" in
  let! _ := AddCensus e c (Some targetID)
    (Some (mkCensusInfo zero_CreatedUpdated "id" None "" 0 true None)) in
  let! censusMembers := ExpandCensusMembers e c in
  let! _ := assert (length_is censusMembers (length memberIDs)) "census members" in
  let! census := pg_Census e c in
  let! _ := assert (ci_Ephemeral (c_Info census)) "ephemeral" in
  let! censusClaims := DumpCensusClaims e c in
  let! _ := assert (length_is censusClaims (length censusMembers)) "claims" in
  let! _ := assert (forallb (fun x => negb (len x.1 =? 0)%Z &&
                                      bool_decide (x.1 = default "" (cm_DigestedPubKey x.2)))
                      (zip censusClaims censusMembers)) "digested keys" in
  let! _ := assert (length_is (filter (fun m => cm_Ephemeral m = true) censusMembers) 2) "2 ephemeral" in
  let! ephemeralMembers := ListEphemeralMemberInfo e c in
  let! _ := assert (length_is ephemeralMembers 2) "2 ephemeral" in
  let email := "test@mail.com" in
  let! count := UpdateMember e (memberIDs !! 2)
    (mkMemberInfo 0 email "" "" "" "" false 0 Token None None) in
  let! _ := assert (count =? 1)%Z "updated rows" in
  let! ephemeralMember := EphemeralMemberInfoByEmail e c email in
  let! _ := assert (bool_decide (Some (em_ID ephemeralMember) = memberIDs !! 2)) "by email" in
  let kept (census : Census) := bool_decide (ci_MerkleRoot (c_Info census) = Some "root2" /\
                                             ci_MerkleTreeURI (c_Info census) = "ipfs://...") in
  let! count := UpdateCensus e c
    (Some (mkCensusInfo zero_CreatedUpdated "" (Some "root2") "ipfs://..." 0 false None)) in
  let! _ := assert (count =? 1)%Z "updated rows" in
  let! census := pg_Census e c in
  let! _ := assert (kept census) "updated census" in
  let! count := UpdateCensus e c (Some (mkCensusInfo zero_CreatedUpdated "" None "" 0 false None)) in
  let! _ := assert (count =? 1)%Z "updated rows" in
  let! census := pg_Census e c in
  assert (kept census) "census kept".

Definition TestCensus : D unit :=
  let e := "E5" in
  let! _ := AddEntity e (entity_info "d") in
  let! targetID := TestCensus_rows e in
  let! _ := TestCensus_ephemeral e targetID in
  DeleteEntity e.

Definition TestTags : D unit :=
  let e := "E6" in
  let! _ := AddEntity e (entity_info "e") in
  let! memberIDs := CreateNMembers e 2 in
  let! tags := ListTags e in
  let! _ := assert (length_is tags 0) "0 tags" in
  let! tagID := AddTag e "TestTag" in
  let! tag := pg_Tag e tagID in
  let! tagByName := TagByName e "TestTag" in
  let! _ := assert (tg_ID tagByName =? tg_ID tag)%Z "TagByName" in
  let! _ := fails_with ErrNoRows (TagByName e "NonExistingTag") "no such tag" in
  let! tags := ListTags e in
  let! _ := assert (bool_decide (map tg_ID tags = [tagID])) "1 tag" in
  let! (added, invalidIDs) := AddTagToMembers e memberIDs (tg_ID tag) in
  let! _ := assert ((added =? 2)%Z && length_is invalidIDs 0) "tagged" in
  let! taggedMembers := ListMembers e None in
  let! _ := assert (forallb (fun m => bool_decide (mi_Tags (m_Info m) = Some [tg_ID tag])) taggedMembers)
              "tags of the members" in
  let! _ := must_fail (AddTag e "TestTag") "duplicate name" in
  let! (updated, invalidIDs) := AddTagToMembers e memberIDs (tg_ID tag) in
  let! _ := assert ((updated =? 0)%Z && length_is invalidIDs 2) "same tag twice" in
  let! (updated, invalidIDs) := AddTagToMembers e [tempUUID] (tg_ID tag) in
  let! _ := assert ((updated =? 0)%Z && bool_decide (invalidIDs = [tempUUID])) "random member" in
  let! (deleted, invalidIDs) := RemoveTagFromMembers e [tempUUID] (tg_ID tag) in
  let! _ := assert ((deleted =? 0)%Z && bool_decide (invalidIDs = [tempUUID])) "random member" in
  let memberIDs := memberIDs ++ take 1 memberIDs in
  let untagged (members : list Member) :=
    forallb (fun m => length_is (default [] (mi_Tags (m_Info m))) 0) members in
  let! (deleted, invalidIDs) := RemoveTagFromMembers e memberIDs (tg_ID tag) in
  let! _ := assert ((deleted =? 2)%Z && length_is invalidIDs 0) "removed" in
  let! taggedMembers := ListMembers e None in
  let! _ := assert (untagged taggedMembers) "tags removed" in
  let! (added, invalidIDs) := AddTagToMembers e memberIDs (tg_ID tag) in
  let! _ := assert ((added =? 2)%Z && length_is invalidIDs 0) "tagged again" in
  let! _ := DeleteTag e (tg_ID tag) in
  let! taggedMembers := ListMembers e None in
  let! _ := assert (untagged taggedMembers) "tags deleted" in
  let! _ := fails_with ErrNoRows (pg_Tag e (tg_ID tag)) "tag deleted" in
  let! tagID := AddTag e "TestTag" in
  let! _ := DeleteTag e tagID in
  fails_with ErrNoRows (pg_Tag e tagID) "tag deleted".

Definition pgsql_tests : D unit :=
  let! _ := TestEntity in let! _ := TestUser in let! _ := TestMember in
  let! _ := TestTarget in let! _ := TestCensus in TestTags.
End tests.

Lemma pgsql_tests_pass :
  fst (pgsql_tests (X:=demo_ext) (V:=demo_env 1) initial_world) = Ok tt.
Proof. vm_compute. reflexivity. Qed.
