(* ===== verification/Leaks.v ===== *)
(** * Transactions that never end (database/pgsql/pgsql.go)

    [Beginx] takes a connection of the pool until [Commit] or [Rollback] gives
    it back, and several methods return an error between the two. [w_open]
    counts the transactions begun and not ended: here, what each method of
    the database does to it. *)
From S2P Require Import Prelude GoLib Ext Util Types Schema SchemaOk Session PgTypes PgTx.
From S2P Require Import PgEntities PgMembers PgQueries PgTags PgCensus PgOps.

(** ** The calculus *)

(* [lands all o m]: with [n] other transactions open besides its own, [m] leaves
   [o n] open when it returns; and when it fails and [all], its own is over. *)
Definition lands {A} (all : bool) (o : nat -> nat) (m : D A) : Prop :=
  forall w n, w_open w = S n ->
    match (m w).1 with
    | Ok _ => w_open (m w).2 = o n
    | _ => w_open (m w).2 = n \/ all = false /\ w_open (m w).2 = S n
    end.
(* the transaction is still open: its statements *)
Abbreviation open_tx all := (lands all S).
(* the transaction is over: the last call of a method *)
Abbreviation ends_tx all := (lands all (fun n => n)).

Section calculus.
Context {V : Env}.

Lemma lands_weaken {A} o (m : D A) : lands true o m -> lands false o m.
Proof. intros H w n Hw. specialize (H w n Hw). destruct (m w) as [[]]; naive_solver. Qed.

(* a call that cannot fail, or whose error is a value *)
Lemma lands_value {A} all (m : D A) : keeps w_open m -> returns m -> open_tx all m.
Proof. intros Hk Hr w n Hw. rewrite Hk. by destruct (Hr w) as [a ->]. Qed.
Lemma lands_keeps {A} (m : D A) : keeps w_open m -> open_tx false m.
Proof. intros Hk w n Hw. rewrite Hk. destruct (m w) as [[]]; simpl in *; auto. Qed.
Lemma lands_fail {A} o e : lands false o (failM (A:=A) e).
Proof. intros w n Hw. right. by split. Qed.
Lemma lands_panic {A} o p : lands false o (panicM (A:=A) p).
Proof. intros w n Hw. right. by split. Qed.
Lemma lands_ret {A} all (a : A) : open_tx all (retM a).
Proof. by intros w n. Qed.

Lemma lands_bind {A B} all o (m : D A) (k : A -> D B) :
  open_tx all m -> (forall a, lands all o (k a)) -> lands all o (bindM m k).
Proof.
  intros Hm Hk w n Hw. specialize (Hm w n Hw). unfold bindM.
  destruct (m w) as [[a|e|p] w1]; cbn [fst snd] in *; [exact (Hk a w1 n Hm)|done|done].
Qed.
Lemma lands_bind_end {A B} all (m : D A) (k : A -> D B) :
  ends_tx all m -> (forall a, keeps w_open (k a)) -> ends_tx all (bindM m k).
Proof.
  intros Hm Hk w n Hw. specialize (Hm w n Hw). unfold bindM.
  destruct (m w) as [[a|e|p] w1]; simpl in *; [|done|done].
  rewrite Hk. destruct (k a w1) as [[]]; simpl; auto.
Qed.
Lemma lands_onErr {A} all o (m : D A) g : lands all o m -> lands all o (onErr m g).
Proof. intros H w n Hw. specialize (H w n Hw). unfold onErr. by destruct (m w) as [[]]. Qed.

(* [if err != nil] after a call that ends the transaction when it fails *)
Lemma lands_try {A B} all o (m : D A) (k : gerror + A -> D B) :
  open_tx true m -> (forall e, keeps w_open (k (inl e))) -> (forall e, never (k (inl e))) ->
  (forall a, lands all o (k (inr a))) -> lands all o (bindM (tryM m) k).
Proof.
  intros Hm He Hn Hk w n Hw. specialize (Hm w n Hw). unfold bindM, tryM.
  destruct (m w) as [[a|e|p] w1]; cbn [fst snd] in *; [exact (Hk a w1 n Hm)| |].
  - destruct Hm as [Hm|[? _]]; [|done]. specialize (Hn e w1). rewrite He.
    destruct (k (inl e) w1) as [[b|e'|p'] w2]; cbn [fst snd] in *; [by destruct (Hn b)|auto..].
  - by destruct Hm as [Hm|[? _]]; [left|].
Qed.

Lemma lands_tryM_end {A} all (m : D A) :
  ends_tx true m -> nopanic m -> ends_tx all (tryM m).
Proof.
  intros Hm Hp w n Hw. specialize (Hm w n Hw). specialize (Hp w). unfold tryM.
  destruct (m w) as [[a|e|p] w1]; cbn [fst snd] in *; [done| |by destruct (Hp p)].
  by destruct Hm as [Hm|[? _]].
Qed.

(** ** The calls *)

Lemma Rollback_lands all : ends_tx all Rollback.
Proof. intros w n Hw. unfold Rollback. destruct (env_fault _); simpl; rewrite Hw; auto. Qed.
Lemma Commit_lands all t : ends_tx all (Commit t).
Proof. intros w n Hw. unfold Commit. destruct (env_fault _); simpl; rewrite Hw; auto. Qed.
Lemma Rollback_nopanic : nopanic Rollback.
Proof. intros w p. unfold Rollback. by destruct (env_fault _). Qed.
Lemma Commit_nopanic t : nopanic (Commit t).
Proof. intros w p. unfold Commit. by destruct (env_fault _). Qed.
Lemma tx_exec_nopanic {A} t (s : Stmt A) : nopanic (tx_exec t s).
Proof. apply driver_nopanic. intros w p. by destruct (s t) as [|[]]. Qed.
Lemma tx_query_nopanic {A} t (s : Stmt A) : nopanic (tx_query t s).
Proof. apply driver_nopanic. intros w p. by destruct (deferred _). Qed.
Lemma RowsAffected_nopanic n : nopanic (RowsAffected n).
Proof. by apply driver_nopanic. Qed.

Lemma db_exec_open {A} (s : Stmt A) : keeps w_open (db_exec s).
Proof. apply driver_keeps; [done|]. intros w. by destruct (s _) as [|[]]. Qed.
Lemma db_query_open {A} (s : Stmt A) : keeps w_open (db_query s).
Proof. apply driver_keeps; [done|]. intros w. by destruct (deferred _) as [|[[]|]]. Qed.
Lemma db_query_tag_open r : keeps w_open (db_query_tag r).
Proof.
  apply driver_keeps; [done|]. intros w. cbn zeta. destruct (_ <? _)%Z; [done|].
  by destruct (deferred _) as [|[[]|]].
Qed.
Lemma db_select_open {A} (f : Db -> A) : keeps w_open (db_select f).
Proof. by apply driver_keeps. Qed.
Lemma db_get_open {A} (f : Db -> option A) : keeps w_open (db_get f).
Proof. apply driver_keeps; [done|]. intros w. by destruct (f _). Qed.
Lemma tx_exec_open {A} t (s : Stmt A) : keeps w_open (tx_exec t s).
Proof. apply driver_keeps; [done|]. intros w. by destruct (s t) as [|[]]. Qed.
Lemma tx_query_open {A} t (s : Stmt A) : keeps w_open (tx_query t s).
Proof. apply driver_keeps; [done|]. intros w. by destruct (deferred _). Qed.
Lemma RowsAffected_open n : keeps w_open (RowsAffected n).
Proof. by apply driver_keeps. Qed.
Lemma Scan_open {A} (a : A) : keeps w_open (Scan a).
Proof. by apply driver_keeps. Qed.
Lemma time_Now_open : keeps w_open time_Now.
Proof. done. Qed.
Lemma now_tick_open : keeps w_open now_tick.
Proof. done. Qed.
Lemma uuid_New_open : keeps w_open uuid_New.
Proof. done. Qed.
Lemma Rollback_done_open : keeps w_open Rollback_done.
Proof. done. Qed.

Lemma time_Now_returns : returns time_Now.
Proof. intros w. by eexists. Qed.
Lemma now_tick_returns : returns now_tick.
Proof. intros w. by eexists. Qed.

(* a method that begins a transaction its rest ends *)
Lemma Beginx_keeps_open {A} g (k : Tx -> D A) :
  (forall t, ends_tx true (k t)) -> keeps w_open (bindM (onErr Beginx g) k).
Proof.
  intros Hk w. unfold bindM, onErr, Beginx, driver. destruct (env_fault _); [done|].
  cbn [fst snd]. specialize (Hk (w_db (tick w)) (set_open (S (w_open (tick w))) (tick w)) (w_open w) eq_refl).
  destruct (k _ _) as [[a|e|p] w1]; cbn [fst snd] in *; [done|naive_solver..].
Qed.
End calculus.

#[export] Hint Resolve lands_fail lands_panic lands_ret Rollback_lands Commit_lands
  Rollback_nopanic Commit_nopanic tx_exec_nopanic tx_query_nopanic RowsAffected_nopanic
  db_exec_open db_query_open db_query_tag_open db_select_open db_get_open tx_exec_open
  tx_query_open RowsAffected_open Scan_open time_Now_open now_tick_open uuid_New_open
  Rollback_done_open lands_tryM_end time_Now_returns now_tick_returns : go.

(* Walks through the statements of a transaction. *)
Ltac go_lands :=
  intros; repeat first
    [ solve [eauto with go]
    | solve [apply lands_value; [solve [go_keeps]|apply returns_tryM; solve [go_nopanic]]]
    | solve [apply lands_value; [solve [go_keeps]|solve [eauto with go]]]
    | apply lands_bind_end; [solve [eauto with go]|solve [go_keeps]]
    | apply lands_onErr
    | apply lands_bind; [|intros]
    | progress go_case
    | solve [apply lands_keeps; go_keeps] ].

(** ** The pieces of the methods *)
Section pieces.
Context {X : Ext} {V : Env}.

Lemma rollback_with_lands {A} all f : ends_tx all (rollback_with (A:=A) f).
Proof. unfold rollback_with. go_lands. Qed.
Lemma rollback_or_lands {A} all f g : ends_tx all (rollback_or (A:=A) f g).
Proof. unfold rollback_or. go_lands. Qed.
Lemma AddMember_rollback_lands {A} all err : ends_tx all (AddMember_rollback (A:=A) err).
Proof. apply rollback_with_lands. Qed.
Lemma commit_or_lands all t f : ends_tx all (commit_or t f).
Proof. unfold commit_or. go_lands. Qed.

(* an error path that rolls back *)
Lemma lands_never {A} all o (m : D A) : ends_tx true m -> never m -> lands all o m.
Proof.
  intros Hm Hn w n Hw. specialize (Hm w n Hw). specialize (Hn w).
  destruct (m w) as [[a|e|p] w1]; cbn [fst snd] in *; [by destruct (Hn a)|..];
    by destruct Hm as [Hm|[? _]]; [left|].
Qed.
Lemma rollback_with_never {A} f : never (rollback_with (A:=A) f).
Proof. intros w a. unfold rollback_with, bindM, tryM. by destruct (Rollback w) as [[] ?]. Qed.
Lemma rollback_or_never {A} f g : never (rollback_or (A:=A) f g).
Proof. intros w a. unfold rollback_or, bindM, tryM. by destruct (Rollback w) as [[] ?]. Qed.
Lemma rollback_fail_lands {A} all o e :
  lands all o (let! _ := tryM Rollback in failM (A:=A) e).
Proof.
  apply lands_never; [go_lands|]. intros w a. unfold bindM, tryM.
  by destruct (Rollback w) as [[] ?].
Qed.
Lemma bulk_error_lands {A} all o f g : lands all o (rollback_or (A:=A) f g).
Proof. apply lands_never; [apply rollback_or_lands|apply rollback_or_never]. Qed.
Lemma bulk_error_with_lands {A} all o f : lands all o (rollback_with (A:=A) f).
Proof. apply lands_never; [apply rollback_with_lands|apply rollback_with_never]. Qed.

(* the batches roll back on each of their errors, and the loop ends *)
Lemma bulk_loop_lands {R} p (s : list R -> Stmt nat) l mx fuel i t all :
  1 <= mx -> length l - i <= fuel -> open_tx all (bulk_loop p s l mx fuel i t).
Proof.
  intros Hmx. revert i t. induction fuel as [|fuel IH]; intros i t Hf; cbn [bulk_loop];
    destruct (Nat.leb_spec (length l) i); try apply lands_ret; [lia|]. cbn zeta.
  apply lands_bind; [go_lands|intros [e|[n t']]]; [apply bulk_error_lands|].
  apply lands_bind; [go_lands|intros [e|k]]; [apply bulk_error_with_lands|].
  destruct (negb _); [apply rollback_fail_lands|]. apply IH. lia.
Qed.
Lemma bulkInsert_lands {R} t p (s : list R -> Stmt nat) l numField all :
  (0 < Z.of_nat numField <= 32768)%Z -> open_tx all (bulkInsert t p s l numField).
Proof. intros Hn. apply bulk_loop_lands; [by apply maxBulkInsert_bounds|lia]. Qed.
Lemma bulk_members_lands t rows all : open_tx all (bulk_members t rows).
Proof.
  unfold bulk_members. apply lands_bind; [go_lands|]. intros. by apply bulkInsert_lands.
Qed.

Lemma pg_User_open k : keeps w_open (pg_User k).
Proof. unfold pg_User. go_keeps. Qed.
Lemma insert_user_now_open t k : keeps w_open (insert_user_now t k).
Proof. unfold insert_user_now. go_keeps. Qed.
Lemma AddMember_user_lands t k : open_tx false (AddMember_user t k).
Proof.
  unfold AddMember_user.
  apply lands_bind; [apply lands_keeps, keeps_tryM, pg_User_open|intros [err|u]]; [|go_lands].
  destruct (negb _); [go_lands|].
  apply lands_bind; [apply lands_keeps, keeps_tryM, insert_user_now_open|].
  intros [e|[n t']]; [apply bulk_error_with_lands|]. go_lands.
Qed.
End pieces.

#[export] Hint Resolve rollback_with_lands rollback_or_lands AddMember_rollback_lands
  commit_or_lands rollback_fail_lands bulk_members_lands AddMember_user_lands pg_User_open : go.
#[export] Hint Extern 1 (lands _ _ (bulkInsert _ _ _ _ _)) => apply bulkInsert_lands; lia : go.

(** ** The methods *)
Section methods.
Context {X : Ext} {V : Env}.

Lemma token_members_open e ts : keeps w_open (token_members e ts).
Proof. induction ts; simpl; go_keeps. Qed.
Lemma new_tokens_open n : keeps w_open (new_tokens n).
Proof. induction n; simpl; go_keeps. Qed.
Lemma import_rows_open e l : keeps w_open (import_rows e l).
Proof. induction l; simpl; go_keeps. Qed.
Lemma AddUser_open u : keeps w_open (AddUser u).
Proof. unfold AddUser. go_keeps. Qed.
Lemma import_with_keys_open e ks l : keeps w_open (import_with_keys e ks l).
Proof.
  pose proof AddUser_open. revert ks. induction l; intros [|[k p] ks]; simpl; go_keeps.
Qed.
Lemma bulk_rows_open e l : keeps w_open (bulk_rows e l).
Proof. induction l; simpl; go_keeps. Qed.

Lemma CreateMembersWithTokens_open e ts : keeps w_open (CreateMembersWithTokens e ts).
Proof.
  apply keeps_bind; [apply token_members_open|]. intros. apply Beginx_keeps_open. go_lands.
Qed.
Lemma CreateNMembers_open e n : keeps w_open (CreateNMembers e n).
Proof. pose proof CreateMembersWithTokens_open. pose proof new_tokens_open. unfold CreateNMembers. go_keeps. Qed.
Lemma ImportMembers_open e l : keeps w_open (ImportMembers e l).
Proof.
  unfold ImportMembers. destruct (_ <=? 0); [go_keeps|].
  apply keeps_bind; [apply import_rows_open|]. intros ms. apply Beginx_keeps_open. intros t.
  apply lands_try; [go_lands|go_keeps| |go_lands].
  intros err. destruct (_ ≫= _); [destruct (bool_decide _)|]; apply never_fail.
Qed.
Lemma ImportMembersWithPubKey_open e l : keeps w_open (ImportMembersWithPubKey e l).
Proof.
  unfold ImportMembersWithPubKey. destruct (_ <=? 0); [go_keeps|].
  apply keeps_bind; [unfold createEthRandomKeysBatch; go_keeps|]. intros ks.
  apply keeps_bind; [apply import_with_keys_open|]. intros ms. apply Beginx_keeps_open. go_lands.
Qed.

(* returns everything it took when it succeeds, and at most one transaction
   less when it does not *)
Definition one_leak {A} (m : D A) : Prop := forall w,
  match (m w).1 with
  | Ok _ => w_open (m w).2 = w_open w
  | _ => w_open (m w).2 = w_open w \/ w_open (m w).2 = S (w_open w)
  end.

Lemma one_leak_keeps {A} (m : D A) : keeps w_open m -> one_leak m.
Proof. intros H w. rewrite H. destruct (m w) as [[]]; simpl; auto. Qed.
Lemma one_leak_bind {A B} (m : D A) (k : A -> D B) :
  keeps w_open m -> (forall a, one_leak (k a)) -> one_leak (bindM m k).
Proof.
  intros Hm Hk w. specialize (Hm w). unfold bindM.
  destruct (m w) as [[a|e|p] w1]; cbn [fst snd] in *; [|auto..].
  rewrite <- Hm. apply Hk.
Qed.
Lemma one_leak_bind_keeps {A B} (m : D A) (k : A -> D B) :
  one_leak m -> (forall a, keeps w_open (k a)) -> one_leak (bindM m k).
Proof.
  intros Hm Hk w. specialize (Hm w). unfold bindM.
  destruct (m w) as [[a|e|p] w1]; cbn [fst snd] in *; [|done..].
  rewrite Hk, Hm. destruct (k a w1) as [[]]; simpl; auto.
Qed.
Lemma Beginx_one_leak {A} g (k : Tx -> D A) :
  (forall t, ends_tx false (k t)) -> one_leak (bindM (onErr Beginx g) k).
Proof.
  intros Hk w. unfold bindM, onErr, Beginx, driver. destruct (env_fault _); [by left|].
  cbn [fst snd]. specialize (Hk (w_db (tick w)) (set_open (S (w_open (tick w))) (tick w)) (w_open w) eq_refl).
  destruct (k _ _) as [[a|e|p] w1]; cbn [fst snd] in *; naive_solver.
Qed.

Lemma AddEntity_leak e i : one_leak (AddEntity e i).
Proof.
  unfold AddEntity. destruct (ei_CensusManagersAddresses i); [|by apply one_leak_keeps].
  apply Beginx_one_leak. go_lands.
Qed.
Lemma AddMember_leak e k i : one_leak (AddMember e k i).
Proof. apply Beginx_one_leak. go_lands. Qed.
Lemma AddMemberBulk_leak e l : one_leak (AddMemberBulk e l).
Proof.
  unfold AddMemberBulk. destruct (_ <=? 0); [by apply one_leak_keeps|].
  pose proof bulk_rows_open. apply Beginx_one_leak. go_lands.
Qed.
Lemma RegisterMember_leak e k t : one_leak (RegisterMember e k t).
Proof.
  unfold RegisterMember. destruct t; [|by apply one_leak_keeps].
  apply Beginx_one_leak. go_lands.
Qed.
Lemma pg_Tag_open e t : keeps w_open (pg_Tag e t).
Proof. unfold pg_Tag. go_keeps. Qed.
Lemma DeleteTag_leak e t : one_leak (DeleteTag e t).
Proof.
  unfold DeleteTag. destruct (_ =? 0)%Z; [by apply one_leak_keeps|].
  apply one_leak_bind; [apply keeps_onErr, pg_Tag_open|]. intros _. apply Beginx_one_leak. go_lands.
Qed.
Lemma AddCensusWithMembers_leak e c t i : one_leak (AddCensusWithMembers e c t i).
Proof.
  unfold AddCensusWithMembers. destruct (census_args _ _ _); [by apply one_leak_keeps|].
  apply one_leak_bind; [auto with go|]. intros ms. destruct (_ =? 0); [by apply one_leak_keeps|].
  destruct i; [|by apply one_leak_keeps]. do 2 (apply one_leak_bind; [auto with go|intros]).
  apply Beginx_one_leak. go_lands.
Qed.
Lemma scans_open {A B} (f : A -> B) g l :
  keeps w_open (mapM_ (fun x => onErr (Scan (f x)) g) l).
Proof. apply keeps_mapM_. intros. go_keeps. Qed.
Lemma decodes_open g l : keeps w_open (mapM_ (fun k => onErr (liftE (DecodeString k)) g) l).
Proof. apply keeps_mapM_. intros. go_keeps. Qed.
Lemma EntityOrigins_open e : keeps w_open (EntityOrigins e).
Proof. unfold EntityOrigins. go_keeps. Qed.
Lemma MemberByEmail_open e m : keeps w_open (MemberByEmail e m).
Proof. unfold MemberByEmail. go_keeps. Qed.
Lemma pg_Census_open e c : keeps w_open (pg_Census e c).
Proof. unfold pg_Census. go_keeps. Qed.
Lemma ListMembers_open e f : keeps w_open (ListMembers e f).
Proof. unfold ListMembers. go_keeps. Qed.
Lemma expand_members_open c b n i l : keeps w_open (expand_members c b n i l).
Proof. revert i. induction l; intros i; simpl; go_keeps. Qed.
Lemma ExpandCensusMembers_leak e c : one_leak (ExpandCensusMembers e c).
Proof.
  unfold ExpandCensusMembers.
  apply one_leak_bind; [apply keeps_onErr, pg_Census_open|]. intros census.
  apply one_leak_bind; [apply keeps_onErr, ListMembers_open|]. intros ms.
  apply one_leak_bind; [auto with go|]. intros now.
  apply one_leak_bind; [apply expand_members_open|]. intros cs.
  apply Beginx_one_leak. go_lands.
Qed.
End methods.

#[export] Hint Resolve scans_open decodes_open EntityOrigins_open pg_Census_open pg_Tag_open
  ListMembers_open MemberByEmail_open CreateMembersWithTokens_open CreateNMembers_open ImportMembers_open
  ImportMembersWithPubKey_open AddUser_open : go.

(* the methods with a return between Beginx and the end of the transaction *)
Definition leaky (o : Op) : bool :=
  match o with
  | OpAddEntity _ _ | OpAddMember _ _ _ | OpAddMemberBulk _ _ | OpRegisterMember _ _ _
  | OpDeleteTag _ _ | OpAddCensusWithMembers _ _ _ _ | OpExpandCensusMembers _ _ => true
  | _ => false
  end.

Ltac head_of t := lazymatch t with ?f _ => head_of f | _ => t end.

Section runs.
Context {X : Ext} {V : Env}.

Lemma discard_open {A} (m : D A) : keeps w_open m -> keeps w_open (discard m).
Proof. intros H. apply keeps_bind; [done|]. auto with go. Qed.
Lemma discard_leak {A} (m : D A) : one_leak m -> one_leak (discard m).
Proof. intros H. apply one_leak_bind_keeps; [done|]. auto with go. Qed.

Lemma run_open o : leaky o = false -> keeps w_open (run o).
Proof.
  intros Ho. destruct o; try discriminate; simpl; try apply discard_open;
    solve [auto with go] ||
    (match goal with |- keeps _ ?m => let h := head_of m in unfold h end; go_keeps).
Qed.
Lemma run_leak o : one_leak (run o).
Proof.
  destruct (leaky o) eqn:Ho; [|by apply one_leak_keeps, run_open].
  destruct o; try discriminate; simpl; try apply discard_leak;
    auto using AddEntity_leak, AddMember_leak, AddMemberBulk_leak, RegisterMember_leak,
      DeleteTag_leak, AddCensusWithMembers_leak, ExpandCensusMembers_leak.
Qed.

(* the calls of a history that failed in one of the leaky methods *)
Fixpoint failures (os : list Op) (w : World) : nat :=
  match os with
  | [] => 0
  | o :: os =>
      (if leaky o then match (run o w).1 with Ok _ => 0 | _ => 1 end else 0) +
      failures os (run o w).2
  end.

Lemma run_all_open os w :
  w_open w <= w_open (run_all os w) <= w_open w + failures os w.
Proof.
  revert w. induction os as [|o os IH]; intros w; simpl; [lia|].
  specialize (IH (run o w).2). pose proof (run_open o) as Hk. pose proof (run_leak o w) as Hl.
  destruct (leaky o); [|rewrite Hk in IH by done; lia].
  destruct (run o w) as [[]]; simpl in *; lia.
Qed.
End runs.

(** ** Properties *)

(** C15: Whatever methods of the database run in a row, and wherever the driver
    fails, each call that succeeds ends the transaction it began, and so does
    each call, failed or not, of a method that is not one of the seven of
    [leaky]; a failed call of one of these keeps at most one transaction, and
    the connection it holds, open for ever. So the transactions left open
    after a history are at most its failed calls of those methods. *)
Theorem transactions_end {X : Ext} {V : Env} (os : list Op) (o : Op) (w : World) :
  (forall w', run o w = (Ok tt, w') -> w_open w' = w_open w) /\
  (leaky o = false -> w_open (run o w).2 = w_open w) /\
  w_open w <= w_open (run o w).2 <= S (w_open w) /\
  w_open w <= w_open (run_all os w) <= w_open w + failures os w.
Proof.
  pose proof (run_leak o w) as Hl. pose proof (run_open o) as Hk. repeat split.
  - intros w' Hr. by rewrite Hr in Hl.
  - intros Ho. by apply Hk.
  - destruct (run o w) as [[]]; simpl in *; lia.
  - destruct (run o w) as [[]]; simpl in *; lia.
  - apply run_all_open.
  - apply run_all_open.
Qed.

(** ** Leaks without a fault of the driver *)
Section leaks.
Context {X : Ext} {V : Env} (Hok : no_faults).

(* a key of the wrong size: the check comes after Beginx *)
Lemma RegisterMember_bad_key_leaks e k t w :
  ValidPubKey k = false ->
  (run (OpRegisterMember e k (Some t)) w).1
    = Err (Errorf ("invalid public key size " +:+ decimal (len k))) /\
  w_open (run (OpRegisterMember e k (Some t)) w).2 = S (w_open w).
Proof.
  intros Hk. cbn [run]. unfold RegisterMember. cbn zeta. rewrite Hk.
  unfold bindM, onErr, Beginx. by rewrite driver_no_fault.
Qed.

(* a member without a key: the rows are built after Beginx *)
Lemma AddMemberBulk_bad_row_leaks e l w err w1 :
  l <> [] -> bulk_rows e l (set_open (S (w_open w)) (tick w)) = (Err err, w1) ->
  (run (OpAddMemberBulk e l) w).1 = Err err /\
  w_open (run (OpAddMemberBulk e l) w).2 = S (w_open w).
Proof.
  intros Hl Hr. cbn [run].
  assert (AddMemberBulk e l w = (Err err, w1)) as ->.
  { unfold AddMemberBulk. replace (length l <=? 0) with false by (by destruct l).
    unfold bindM at 1, onErr at 1, Beginx. rewrite driver_no_fault by done.
    unfold bindM at 1. change (w_open (tick w)) with (w_open w). by rewrite Hr. }
  split; [done|].
  pose proof (bulk_rows_open e l (set_open (S (w_open w)) (tick w))) as Hk. by rewrite Hr in Hk.
Qed.
End leaks.

(* three registrations of one entity: two transactions stay open *)
Lemma transactions_end_witness :
  let os := [OpAddEntity "e1" demo_entity; OpAddEntity "e1" demo_entity;
             OpAddEntity "e1" demo_entity] in
  failures (X:=demo_ext) (V:=demo_env 1) os initial_world = 2 /\
  w_open (run_all (X:=demo_ext) (V:=demo_env 1) os initial_world) = 2 /\
  w_open (run (X:=demo_ext) (V:=demo_env 1) (OpDeleteEntity "e1") demo_world).2 = 0.
Proof.
  intros os. destruct (transactions_end (X:=demo_ext) (V:=demo_env 1) os (OpDeleteEntity "e1")
                         demo_world) as (_ & H & _).
  split; [vm_compute; reflexivity|]. split; [vm_compute; reflexivity|].
  rewrite H by reflexivity. vm_compute. reflexivity.
Defined.

Lemma AddMemberBulk_leak_demo :
  let m := mkMember zero_CreatedUpdated uuid_Nil "e1" None zero_MemberInfo in
  w_open (run (X:=demo_ext) (V:=demo_env 1) (OpAddMemberBulk "e1" [m]) initial_world).2 = 1.
Proof.
  intros m. refine (proj2 (AddMemberBulk_bad_row_leaks (demo_env_no_faults 1) "e1" [m]
                             initial_world _ _ _ eq_refl)). discriminate.
Qed.
