(* ===== verification/PgSpec.v ===== *)
(** * What the methods on lists of members and on tags do
    (DeleteMembers, AddTagToMembers, DeleteTag, ListMembers, UpdateMember)

    The specifications of the methods of pgsql.go that take a list or a page:
    the rows they change, the answer they give, and that they do answer when
    the driver does not fail. *)
From S2P Require Import Prelude GoLib Ext Util Types Schema SchemaOk Session PgTypes PgTx.
From S2P Require Import PgEntities PgMembers PgQueries PgTags PgOps.

Section specs.
Context {X : Ext} {V : Env}.

(* running a computation step by step *)
Lemma run_bind {S A B} (m : M S A) (k : A -> M S B) s a s' :
  m s = (Ok a, s') -> bindM m k s = k a s'.
Proof. intros E. unfold bindM. by rewrite E. Qed.
Lemma run_onErr {S A} (m : M S A) g s a s' : m s = (Ok a, s') -> onErr m g s = (Ok a, s').
Proof. intros E. unfold onErr. by rewrite E. Qed.

(* member [i] is one of entity [e] *)
Definition belongs (e : bytes) (d : Db) (i : uuid) : bool :=
  match members d !! i with Some r => bool_decide (mr_entity_id r = e) | None => false end.

Lemma scan_all {A B} (f : A -> B) g (l : list A) w :
  no_faults -> exists w', mapM_ (fun x => onErr (Scan (f x)) g) l w = (Ok (map f l), w') /\
    w_db w' = w_db w.
Proof.
  intros Hf. revert w. induction l as [|x l IH]; intros w; simpl; [by exists w|].
  assert (Hx : onErr (Scan (f x)) g w = (Ok (f x), tick w)).
  { unfold onErr, Scan. by rewrite driver_no_fault. }
  unfold bindM. rewrite Hx.
  destruct (IH (tick w)) as (w' & -> & Hw). exists w'. by split.
Qed.

Lemma db_query_ok {A} (s : Stmt A) a d w :
  no_faults -> s (w_db w) = inr (a, d) ->
  db_query s w = (Ok (Some a), set_db d (tick w)).
Proof.
  intros Hf Hs. unfold db_query. rewrite driver_no_fault by done.
  change (w_db (tick w)) with (w_db w). by rewrite Hs.
Qed.

Lemma named_query_small {A} k n (s : Stmt A) :
  (Z.of_nat (k * n) <= 65535)%Z -> named_query k n s = s.
Proof.
  intros Hn. unfold named_query. destruct (Nat.ltb_spec max_parameters (k * n)) as [Hl|]; [|done].
  unfold max_parameters in Hl. lia.
Qed.

(* the rows a statement hits, as the identifiers of the map *)
Lemma hit_spec (p : uuid -> MemberRow -> bool) (m : gmap uuid MemberRow) :
  let hit := (filter (fun x => p x.1 x.2 = true) (map_to_list m)).*1 in
  NoDup hit /\ forall i, i ∈ hit <-> exists r, m !! i = Some r /\ p i r = true.
Proof.
  cbn zeta. split.
  - apply NoDup_fmap_fst; [|apply NoDup_filter, NoDup_map_to_list].
    intros i r1 r2 [_ H1]%list_elem_of_filter [_ H2]%list_elem_of_filter.
    apply elem_of_map_to_list in H1, H2. congruence.
  - intros i. rewrite list_elem_of_fmap. split.
    + intros ([j r] & -> & Hj). apply list_elem_of_filter in Hj as [Hp Hj].
      apply elem_of_map_to_list in Hj. eauto.
    + intros (r & Hr & Hp). exists (i, r). split; [done|].
      apply list_elem_of_filter. split; [done|]. by apply elem_of_map_to_list.
Qed.

(* the answer (count, invalid) of a statement that hits [p] among [l] *)
Lemma answer_spec (p : uuid -> MemberRow -> bool) (m : gmap uuid MemberRow) (l : list uuid) :
  let hit := (filter (fun x => p x.1 x.2 && bool_decide (x.1 ∈ l) = true) (map_to_list m)).*1 in
  let invalid := elements (list_to_set l ∖ list_to_set hit : gset uuid) in
  NoDup invalid /\
  (forall i, i ∈ invalid <-> i ∈ l /\ ~ exists r, m !! i = Some r /\ p i r = true) /\
  length hit + length invalid = size (list_to_set l : gset uuid).
Proof.
  cbn zeta. pose proof (hit_spec (fun i r => p i r && bool_decide (i ∈ l)) m) as [Hnd Hhit].
  cbn zeta in *. set (hit := (filter _ _).*1) in *.
  assert (Hin : forall i, i ∈ hit <-> i ∈ l /\ exists r, m !! i = Some r /\ p i r = true).
  { intros i. rewrite Hhit. setoid_rewrite andb_true_iff. setoid_rewrite bool_decide_eq_true.
    naive_solver. }
  split; [apply NoDup_elements|]. split.
  - intros i. rewrite elem_of_elements, elem_of_difference, !elem_of_list_to_set, Hin. naive_solver.
  - rewrite <- (size_list_to_set (C:=gset uuid) hit) by done.
    change (length (elements ?Y)) with (size Y).
    rewrite <- size_union by set_solver. f_equal. apply set_eq. intros i.
    rewrite elem_of_union, elem_of_difference, !elem_of_list_to_set, Hin.
    destruct (decide (i ∈ hit)) as [Hi|Hi]; rewrite Hin in Hi; naive_solver.
Qed.
End specs.

Section tag_lemmas.
Context {X : Ext} {V : Env}.

Lemma run_Beginx w : no_faults -> Beginx w = (Ok (w_db w), set_open (S (w_open w)) (tick w)).
Proof. intros Hf. unfold Beginx. by rewrite driver_no_fault. Qed.
Lemma run_tx_exec {A} t (s : Stmt A) a t' w :
  no_faults -> s t = inr (a, t') -> tx_exec t s w = (Ok (a, t'), tick w).
Proof. intros Hf Hs. unfold tx_exec. rewrite driver_no_fault by done. by rewrite Hs. Qed.
Lemma run_RowsAffected n w : no_faults -> RowsAffected n w = (Ok n, tick w).
Proof. intros Hf. unfold RowsAffected. by rewrite driver_no_fault. Qed.
Lemma run_commit_or t f w :
  no_faults -> exists w', commit_or t f w = (Ok tt, w') /\ w_db w' = t.
Proof.
  intros Hf. unfold commit_or, bindM, tryM, Commit. rewrite (proj1 Hf). eexists. split; reflexivity.
Qed.

Lemma set_row_tags_id f r : f (mr_tags r) = mr_tags r -> set_row_tags f r = r.
Proof. intros Hf. unfold set_row_tags. rewrite Hf. by destruct r. Qed.

Lemma array_remove_absent t (l : list Z) : t ∉ l -> filter (.≠ t) l = l.
Proof.
  induction l as [|x l IH]; [done|]. intros [Hx Hl]%not_elem_of_cons.
  rewrite filter_cons_True by congruence. by rewrite IH.
Qed.

Lemma untag_row e t r :
  (if tagged e t r then set_row_tags (array_remove t) r else r) =
  (if bool_decide (mr_entity_id r = e) then set_row_tags (filter (.≠ t)) r else r).
Proof.
  unfold tagged. destruct (bool_decide (mr_entity_id r = e)); [|done]. simpl.
  case_bool_decide as Ht; [done|]. symmetry. by apply set_row_tags_id, array_remove_absent.
Qed.

(* tag [t] of entity [e] *)
Definition has_tag (e : bytes) (t : Z) (d : Db) : Prop :=
  exists r, tags d !! t = Some r /\ gr_entity_id r = e.

Lemma checked_tag_ok e t m1 m2 w :
  no_faults -> e <> "" -> t <> 0%Z -> has_tag e t (w_db w) ->
  exists tag, checked_tag e t m1 m2 w = (Ok tag, tick w) /\ tg_ID tag = t.
Proof.
  intros Hf He Ht (r & Hr & Hre). exists (scan_tag t r). split; [|done].
  apply run_onErr. unfold pg_Tag. assert (Hlen : (len e =? 0)%Z = false) by (by destruct e).
  apply Z.eqb_neq in Ht. rewrite Hlen, Ht. cbn [orb]. unfold db_get.
  rewrite driver_no_fault by done.
  change (w_db (tick w)) with (w_db w). rewrite Hr. simpl. by rewrite bool_decide_eq_true_2.
Qed.
End tag_lemmas.

Section update_lemmas.
Context {X : Ext} {V : Env}.

End update_lemmas.

Section page_lemmas.
Context {V : Env}.

(* what a collation is: a total preorder, on which distinct values may tie *)
Record collation {A} (le : A -> A -> bool) : Prop := mkCollation {
  collation_total a b : le a b = true \/ le b a = true;
  collation_trans a b c : le a b = true -> le b c = true -> le a c = true;
}.

Lemma nulls_last_collation {A} (le : A -> A -> bool) : collation le -> collation (nulls_last le).
Proof.
  intros [Ht Hr].
  split; [intros [a|] [b|]; simpl; auto|intros [a|] [b|] [c|]; simpl; try done; apply Hr].
Qed.
Lemma array_le_collation : collation array_le.
Proof.
  split.
  - intros a. induction a as [|x a IH]; intros [|y b]; simpl; auto.
    destruct (Z.eqb_spec x y) as [->|Hn]; [rewrite Z.eqb_refl; apply IH|].
    replace (y =? x)%Z with false by (symmetry; apply Z.eqb_neq; congruence).
    rewrite !Z.ltb_lt. lia.
  - intros a. induction a as [|x a IH]; intros [|y b] [|z c]; simpl; try done.
    destruct (Z.eqb_spec x y) as [->|Hxy], (Z.eqb_spec y z) as [->|Hyz];
      rewrite ?Z.eqb_refl; [apply IH|..].
    + destruct (Z.eqb_spec y z); [lia|done].
    + destruct (Z.eqb_spec x z); [lia|done].
    + rewrite !Z.ltb_lt. destruct (Z.eqb_spec x z); lia.
Qed.
Lemma leb_collation : collation Z.leb.
Proof. split; intros *; rewrite !Z.leb_le; lia. Qed.
Lemma implb_collation : collation implb.
Proof. split; [intros [] []|intros [] [] []]; auto. Qed.
(* ordering rows by a column *)
Lemma on_collation {A B} (f : A -> B) le : collation le -> collation (fun a b => le (f a) (f b)).
Proof. intros [Ht Hr]. split; eauto. Qed.

Lemma member_le_collation c le :
  collation env_text_le -> collation env_json_le -> member_le c = Some le -> collation le.
Proof.
  intros Ht Hj. unfold member_le.
  repeat (case_decide; [intros [= <-]; cbv beta;
    match goal with |- collation (fun a b => ?g (@?f a) (@?h b)) => apply (on_collation f g) end|]);
    [..|done];
    auto using leb_collation, nulls_last_collation, implb_collation, array_le_collation.
Qed.

(** ** ORDER BY *)
Section ordered.
Context {A : Type} (le : A -> A -> bool) (descending : bool) (Hle : collation le).

#[local] Instance ordered_total : Total (ordered le descending).
Proof.
  intros a b. unfold ordered. destruct Hle as [Ht _]. destruct descending; [apply or_comm|]; apply Ht.
Qed.
#[local] Instance ordered_trans : Transitive (ordered le descending).
Proof.
  intros a b c. unfold ordered. destruct Hle as [_ Hr]. destruct descending; [intros; by eapply Hr|apply Hr].
Qed.
#[local] Instance row_order_total plan : Total (row_order plan le descending).
Proof.
  intros a b. unfold row_order. destruct (total (ordered le descending) a.2 b.2) as [H|H].
  - destruct (decide (ordered le descending b.2 a.2)) as [Hb|Hb]; [|left; by split].
    destruct (Nat.le_ge_cases (plan a.1) (plan b.1)); [left|right]; by split.
  - destruct (decide (ordered le descending a.2 b.2)) as [Hb|Hb]; [|right; by split].
    destruct (Nat.le_ge_cases (plan a.1) (plan b.1)); [left|right]; by split.
Qed.

(* whatever the plan, the rows come sorted on the column *)
Lemma order_by_Sorted plan l : Sorted (ordered le descending) (order_by plan le descending l).
Proof.
  unfold order_by. apply (Sorted_fmap snd (row_order plan le descending)); [by intros x y []|].
  apply Sorted_merge_sort, _.
Qed.

(* without ties there is one such list *)
Lemma order_by_no_ties plan1 plan2 l :
  (forall a b, a ∈ l -> b ∈ l -> le a b = true -> le b a = true -> a = b) ->
  order_by plan1 le descending l = order_by plan2 le descending l.
Proof.
  intros Hl. apply (Sorted_unique_strong (ordered le descending)); [|apply order_by_Sorted..|].
  - intros a b Ha Hb H1 H2. rewrite order_by_Permutation in Ha, Hb.
    unfold ordered in H1, H2. apply Hl; [done..| |]; by destruct descending.
  - by rewrite !order_by_Permutation.
Qed.
End ordered.

Lemma page_of_slice t d order sortBy pg count skip :
  page_of t d (Some (mkListOptions 0 order 0 sortBy)) = inr pg ->
  (0 <= count <= int32_max)%Z -> (0 <= skip <= int32_max)%Z ->
  page_of t d (Some (mkListOptions count order skip sortBy)) =
  inr (mkPage (pg_column pg) (pg_descending pg)
         (if (count =? 0)%Z then None else Some count) skip).
Proof.
  intros Hp Hc Hs. unfold page_of in *. cbn [lo_Count lo_Skip lo_SortBy lo_Order] in *.
  destruct (FieldByName t (Title d)); [|done].
  assert (Hi : forall z, (0 <= z <= int32_max)%Z -> in_int32 z = true).
  { intros z Hz. unfold in_int32. apply andb_true_iff. rewrite !Z.leb_le.
    unfold int32_min. lia. }
  destruct (if (0 <? len sortBy)%Z then _ else _) as [f b]. simpl in Hp. injection Hp as <-.
  unfold NullInt32_Scan. rewrite (Hi count Hc), (Hi skip Hs). cbn [pg_column pg_descending].
  destruct (Z.ltb_spec 0 skip) as [|Hs0], (Z.ltb_spec 0 count) as [|Hc0],
    (Z.eqb_spec count 0) as [|Hz]; try lia; try done; by replace skip with 0%Z by lia.
Qed.
End page_lemmas.

(* runs the loop that scans the rows of a result *)
Ltac run_scan Hf w' Hw' :=
  cbn [rows_of default from_option id];
  match goal with
  | |- context [bindM (mapM_ (fun x => onErr (Scan (@?f x)) ?g) ?l) _ ?w1] =>
      let Hs := fresh in
      destruct (scan_all f g l w1 Hf) as (w' & Hs & Hw');
      rewrite (run_bind _ _ _ _ _ Hs); clear Hs; unfold retM
  end.

(** ** Properties *)
Section properties.
Context {X : Ext} {V : Env}.

(** C33: DeleteMembers deletes the listed members of the entity and no other row,
    and tells which identifiers it did not know: each listed identifier that is
    not a member of the entity is in the answer once, and the number of deleted
    rows, of unknown identifiers and of duplicates add up to the length of the
    list. *)
Theorem DeleteMembers_spec (e : bytes) (l : list uuid) (w : World) :
  no_faults -> e <> "" -> (Z.of_nat (length l) <= 65535)%Z ->
  exists n invalid w', DeleteMembers e l w = (Ok (Z.of_nat n, invalid), w') /\
    (forall i, members (w_db w') !! i =
       if belongs e (w_db w) i && bool_decide (i ∈ l) then None else members (w_db w) !! i) /\
    NoDup invalid /\
    (forall i, i ∈ invalid <-> i ∈ l /\ belongs e (w_db w) i = false) /\
    n + length invalid = size (list_to_set l : gset uuid).
Proof.
  intros Hf He Hl. unfold DeleteMembers.
  assert (Hlen : (len e =? 0)%Z = false) by (by destruct e). rewrite Hlen.
  destruct l as [|x l'] eqn:El; [exists 0, [], w|].
  { split_and!; try done; [|constructor|by intros i; set_solver].
    intros i. by rewrite andb_false_r. }
  rewrite <- El in *. replace (length l =? 0) with false by (by rewrite El). clear El x l'.
  rewrite named_query_small by lia.
  set (p := fun (i : uuid) (r : MemberRow) => bool_decide (mr_entity_id r = e)).
  destruct (answer_spec p (members (w_db w)) l) as (Hnd & Hinv & Hsize). cbn zeta in *.
  erewrite run_bind by (apply run_onErr, db_query_ok; done || reflexivity).
  run_scan Hf w' Hw'.
  eexists _, _, w'. split; [reflexivity|]. rewrite Hw'. cbn [w_db set_db members set_census_members set_members].
  unfold belongs. split_and!.
  - intros i. rewrite map_lookup_filter. destruct (members (w_db w) !! i) as [r|]; simpl; [|done].
    destruct (bool_decide (mr_entity_id r = e) && bool_decide (i ∈ l)) eqn:E; case_guard; simpl;
      congruence.
  - exact Hnd.
  - intros i. etransitivity; [apply Hinv|]. subst p. cbn beta.
    rewrite <- not_true_iff_false. f_equiv. split; intros Hn Hb; apply Hn.
    + destruct (members (w_db w) !! i) as [r|]; [|done]. eauto.
    + by destruct Hb as (r & -> & Hb).
  - exact Hsize.
Qed.

(* addTagToMembers gives the tag to the listed members of the entity that do
    not have it, appending it to their tags, and touches no other row; every
    other listed identifier (unknown, of another entity, or already tagged) is
    in the answer once. *)
Lemma AddTagToMembers_spec (e : bytes) (l : list uuid) (t : Z) (w : World) :
  no_faults -> e <> "" -> t <> 0%Z -> l <> [] -> (Z.of_nat (2 * length l) <= 65535)%Z ->
  has_tag e t (w_db w) ->
  exists n invalid w', AddTagToMembers e l t w = (Ok (Z.of_nat n, invalid), w') /\
    (forall i, members (w_db w') !! i =
       (fun r => if untagged e t r && bool_decide (i ∈ l)
                 then set_row_tags (fun tags => tags ++ [t]) r else r)
       <$> members (w_db w) !! i) /\
    (forall i, i ∈ invalid <-> i ∈ l /\
       ~ exists r, members (w_db w) !! i = Some r /\ untagged e t r = true) /\
    n + length invalid = size (list_to_set l : gset uuid).
Proof.
  intros Hf He Ht Hne Hl Htag. unfold AddTagToMembers.
  assert (Hlen : (len e =? 0)%Z = false) by (by destruct e). rewrite Hlen.
  replace (length l =? 0) with false by (by destruct l).
  destruct (checked_tag_ok e t "trying to add not existing tag " "error retrieving tag " w)
    as (tag & Hc & _); try done.
  rewrite (run_bind _ _ _ _ _ Hc). rewrite named_query_small by exact Hl.
  destruct (answer_spec (fun _ r => untagged e t r) (members (w_db w)) l) as (_ & Hinv & Hsize).
  cbn zeta in *.
  erewrite run_bind by (apply run_onErr, db_query_ok; done || reflexivity).
  run_scan Hf w' Hw'. rewrite map_id.
  eexists _, _, w'. split; [reflexivity|]. rewrite Hw'. split; [|split; [exact Hinv|exact Hsize]].
  intros i. cbn [w_db set_db members set_members]. rewrite map_lookup_imap.
  change (w_db (tick w)) with (w_db w). by destruct (members (w_db w) !! i).
Qed.

(** C35: DeleteTag removes the tag for good: the tag is gone, no member of the
    entity has it any more, their other tags are as before, in order, and the
    members of other entities are untouched. *)
Theorem DeleteTag_spec (e : bytes) (t : Z) (w : World) :
  no_faults -> e <> "" -> t <> 0%Z -> has_tag e t (w_db w) ->
  exists w', DeleteTag e t w = (Ok tt, w') /\
    tags (w_db w') = delete t (tags (w_db w)) /\
    (forall i, members (w_db w') !! i =
       (fun r => if bool_decide (mr_entity_id r = e)
                 then set_row_tags (filter (.≠ t)) r else r) <$> members (w_db w) !! i) /\
    (forall i r, members (w_db w') !! i = Some r -> mr_entity_id r = e -> t ∉ mr_tags r).
Proof.
  intros Hf He Ht Htag. unfold DeleteTag.
  assert (Hlen : (len e =? 0)%Z = false) by (by destruct e). rewrite Hlen.
  edestruct checked_tag_ok as (tag & Hc & _); [exact Hf|exact He|exact Ht|exact Htag|].
  rewrite (run_bind _ _ _ _ _ Hc).
  erewrite run_bind by (apply run_onErr, run_Beginx; done); cbn beta iota.
  erewrite run_bind by (apply run_onErr, run_tx_exec; done || reflexivity); cbn beta iota.
  erewrite run_bind by (apply run_onErr, run_RowsAffected; done); cbn beta iota.
  destruct Htag as (r & Hr & Hre).
  assert (Hd : forall m, delete_tag t e (set_members m (w_db w)) =
                 inr (1, set_tags (delete t (tags (w_db w))) (set_members m (w_db w)))).
  { intros m. unfold delete_tag. cbn [tags set_members]. rewrite Hr. by rewrite bool_decide_eq_true_2. }
  erewrite run_bind by (apply run_onErr, run_tx_exec; done || apply Hd); cbn beta iota.
  erewrite run_bind by (apply run_onErr, run_RowsAffected; done); cbn beta iota.
  edestruct run_commit_or as (w' & Hrun & Hw'); [exact Hf|].
  exists w'. split; [exact Hrun|]. rewrite Hw'. cbn [tags members set_tags set_members].
  assert (Hm : forall i, map_imap (fun _ r => Some (if tagged e t r
                 then set_row_tags (array_remove t) r else r)) (members (w_db w)) !! i =
               (fun r => if bool_decide (mr_entity_id r = e)
                 then set_row_tags (filter (.≠ t)) r else r) <$> members (w_db w) !! i).
  { intros i. rewrite map_lookup_imap. destruct (members (w_db w) !! i) as [ri|]; [|done].
    simpl. by rewrite untag_row. }
  split; [done|]. split; [exact Hm|]. intros i ri Hi Hrie.
  rewrite Hm in Hi. apply fmap_Some in Hi as (r0 & _ & ->). revert Hrie.
  case_bool_decide as Hr0; [|done]. intros _. cbn [mr_tags set_row_tags].
  rewrite list_elem_of_filter. by intros [? _].
Qed.

(** C32: ListMembers pages through the members of the entity: every query answers
    the slice its skip and count say of a list of all of them, sorted on the
    column in the requested direction. When no two members of the entity tie on
    the column it is the same list in every query, so consecutive pages repeat
    and miss no member; members that tie come in an order of each query's own. *)
Theorem ListMembers_pages (e : bytes) (order sortBy : string) (pg : Page)
    (le : uuid * MemberRow -> uuid * MemberRow -> bool) :
  no_faults -> collation env_text_le -> collation env_json_le ->
  page_of MemberInfo_fields "lastName" (Some (mkListOptions 0 order 0 sortBy)) = inr pg ->
  member_le (pg_column pg) = Some le ->
  let rows := member_rows (fun _ r => bool_decide (mr_entity_id r = e)) in
  (* the query at [w] answers a slice of [full] *)
  let pages (full : list (uuid * MemberRow)) w := forall count skip,
    (0 <= count <= int32_max)%Z -> (0 <= skip <= int32_max)%Z ->
    let tail := drop (Z.to_nat skip) full in
    (ListMembers e (Some (mkListOptions count order skip sortBy)) w).1 =
    Ok (map (fun x => ToMember (scan_member_list x))
          (if (count =? 0)%Z then tail else take (Z.to_nat count) tail)) in
  let sorted full d := full ≡ₚ rows d /\ Sorted (ordered le (pg_descending pg)) full in
  (forall w, exists full, sorted full (w_db w) /\ pages full w) /\
  (forall d, (forall a b, a ∈ rows d -> b ∈ rows d -> le a b = true -> le b a = true -> a = b) ->
     exists full, sorted full d /\ forall w, w_db w = d -> pages full w).
Proof.
  intros Hf Ht Hj Hp Hle rows pages sorted. pose proof (member_le_collation _ _ Ht Hj Hle) as Hc.
  set (listed plan d := order_by plan le (pg_descending pg) (rows d)).
  assert (Hs : forall plan d, sorted (listed plan d) d).
  { intros plan d. split; [apply order_by_Permutation|by apply order_by_Sorted]. }
  assert (Hpages : forall w, pages (listed (env_plan (w_tick w)) (w_db w)) w).
  { intros w count skip Hcount Hskip. cbn zeta. unfold ListMembers.
    rewrite (page_of_slice _ _ _ _ _ _ _ Hp Hcount Hskip).
    unfold bindM, liftE, retM, db_exec, now_tick. rewrite driver_no_fault by done.
    cbn [pg_column]. rewrite Hle. unfold select_page, select, limit_offset.
    cbn [pg_descending pg_offset pg_limit]. change (w_db (tick w)) with (w_db w).
    by destruct (count =? 0)%Z. }
  split; [intros w; eauto|]. intros d Hd. exists (listed id d). split; [apply Hs|].
  intros w <-. unfold listed. rewrite (order_by_no_ties le _ Hc id (env_plan (w_tick w))) by done.
  apply Hpages.
Qed.

End properties.

(** ** Witnesses *)

#[local] Existing Instance demo_ext.
#[local] Instance spec_env : Env := demo_env 1.

Lemma DeleteMembers_spec_witness :
  exists n invalid, (DeleteMembers "e1" [11%N; 99%N; 11%N] demo_world).1
    = Ok (Z.of_nat n, invalid) /\ n + length invalid = 2 /\ 99%N ∈ invalid.
Proof.
  destruct (DeleteMembers_spec "e1" [11%N; 99%N; 11%N] demo_world)
    as (n & invalid & w' & Hrun & _ & _ & Hin & Hsize);
    [exact (demo_env_no_faults 1)|discriminate|simpl; lia|].
  exists n, invalid. rewrite Hrun. split; [reflexivity|]. split; [rewrite Hsize; reflexivity|].
  apply Hin. split; [|vm_compute; reflexivity]. right. left.
Defined.

Lemma demo_has_tag : has_tag "e1" 1 (w_db demo_world).
Proof. eexists. split; [vm_compute; reflexivity|reflexivity]. Qed.

(* both members have the tag already, 13 does not exist *)
Lemma AddTagToMembers_spec_witness :
  exists n invalid, (AddTagToMembers "e1" [11%N; 13%N] 1 demo_world).1
    = Ok (Z.of_nat n, invalid) /\ n + length invalid = 2 /\ 13%N ∈ invalid.
Proof.
  destruct (AddTagToMembers_spec "e1" [11%N; 13%N] 1 demo_world)
    as (n & invalid & w' & Hrun & _ & Hin & Hsize);
    [exact (demo_env_no_faults 1)|discriminate|discriminate|discriminate|simpl; lia
    |exact demo_has_tag|].
  exists n, invalid. rewrite Hrun. split; [reflexivity|]. split; [rewrite Hsize; reflexivity|].
  apply Hin. split; [right; left|]. intros (r & Hr & _). vm_compute in Hr. discriminate Hr.
Defined.

Lemma DeleteTag_spec_witness :
  exists w', DeleteTag "e1" 1 demo_world = (Ok tt, w') /\ tags (w_db w') = ∅.
Proof.
  destruct (DeleteTag_spec "e1" 1 demo_world) as (w' & Hrun & Ht & _);
    [exact (demo_env_no_faults 1)|discriminate|discriminate|exact demo_has_tag|].
  exists w'. split; [exact Hrun|]. rewrite Ht. vm_compute. reflexivity.
Defined.



Lemma text_collation : collation Stdlib.Strings.String.leb.
Proof.
  split; [intros a b; apply Stdlib.Strings.String.leb_total|].
  unfold Stdlib.Strings.String.leb. intros a. induction a as [|x a IH]; intros [|y b] [|z c]; simpl;
    try done. unfold Ascii.compare.
  destruct (N.compare_spec (Ascii.N_of_ascii x) (Ascii.N_of_ascii y)),
    (N.compare_spec (Ascii.N_of_ascii y) (Ascii.N_of_ascii z)),
    (N.compare_spec (Ascii.N_of_ascii x) (Ascii.N_of_ascii z)); try done; try lia. apply IH.
Qed.

(* an entity with one member, for the second part: nothing ties *)
Definition one_member_world : World := run_all (X:=demo_ext) (V:=demo_env 1)
  [OpAddEntity "e1" demo_entity; OpCreateMembersWithTokens "e1" [11%N]] initial_world.

Lemma ListMembers_pages_witness :
  (exists full : list (uuid * MemberRow), length full = 2 /\
    (ListMembers "e1" (Some (mkListOptions 1 "descend" 1 "email")) demo_world).1
    = Ok (map (fun x => ToMember (scan_member_list x)) (take 1 (drop 1 full)))) /\
  exists full : list (uuid * MemberRow), length full = 1 /\
    (ListMembers "e1" (Some (mkListOptions 1 "descend" 0 "email")) one_member_world).1
    = Ok (map (fun x => ToMember (scan_member_list x)) (take 1 (drop 0 full))).
Proof.
  destruct (ListMembers_pages "e1" "descend" "email" (mkPage "email" true None 0)
              (fun a b => nulls_last env_text_le (mr_email a.2) (mr_email b.2)))
    as (Hany & Hone);
    [exact (demo_env_no_faults 1)|exact text_collation|exact text_collation
    |vm_compute; reflexivity|reflexivity|]. split.
  - destruct (Hany demo_world) as (full & [Hp _] & Hpages). exists full.
    split; [rewrite (Permutation_length Hp); vm_compute; reflexivity|].
    apply (Hpages 1%Z 1%Z); unfold int32_max; lia.
  - destruct (Hone (w_db one_member_world)) as (full & [Hp _] & Hpages).
    { intros a b Ha Hb _ _.
      assert (E : exists x, member_rows (fun _ r => bool_decide (mr_entity_id r = "e1"))
                (w_db one_member_world) = [x]) by (eexists; vm_compute; reflexivity).
      destruct E as [x E]. rewrite E in Ha, Hb. apply list_elem_of_singleton in Ha, Hb. congruence. }
    exists full. split; [rewrite (Permutation_length Hp); vm_compute; reflexivity|].
    apply (Hpages one_member_world eq_refl 1%Z 0%Z); unfold int32_max; lia.
Defined.

(* The members that generate creates have no name, so the default order of
   listMembers ties them: with a plan that differs from one query to the next,
   two consecutive pages show one member twice and the other one never. *)
Definition tie_env : Env := {|
  env_fault := env_fault (Env:=demo_env 1);
  env_now := env_now (Env:=demo_env 1);
  env_uuid := env_uuid (Env:=demo_env 1);
  env_key := env_key (Env:=demo_env 1);
  env_key_fault := env_key_fault (Env:=demo_env 1);
  env_plan := fun n i => if Nat.even n then i else 1 - i;
  env_text_le := env_text_le (Env:=demo_env 1);
  env_json_le := env_json_le (Env:=demo_env 1);
|}.

Lemma pages_repeat :
  let page skip := ListMembers (V:=tie_env) "e1" (Some (mkListOptions 1 "" skip "")) in
  let ids (o : outcome (list Member)) := match o with Ok l => map m_ID l | _ => [] end in
  ids (page 0%Z demo_world).1 = [11%N] /\ ids (page 1%Z (page 0%Z demo_world).2).1 = [11%N].
Proof. split; vm_compute; reflexivity. Qed.
