(* ===== verification/PgCensusSpec.v ===== *)
(** * What ExpandCensusMembers does

    A census becomes the list of its voters: the specification of
    ExpandCensusMembers of pgsql.go, as the rows it leaves in census_members. *)
From S2P Require Import Prelude GoLib Ext Util Types Schema SchemaOk Session PgTypes PgTx.
From S2P Require Import PgEntities PgMembers PgQueries PgCensus PgOps PgSpec.

(** ** Inserted rows *)

Lemma foldl_insert_elem {K R} `{Countable K} (rows : list (K * R)) (m : gmap K R) i r :
  NoDup rows.*1 -> (i, r) ∈ rows -> foldl (fun m x => <[x.1 := x.2]> m) m rows !! i = Some r.
Proof.
  revert m. induction rows as [|[j q] rows IH]; simpl; intros m Hnd Hin; [by apply not_elem_of_nil in Hin|].
  apply NoDup_cons in Hnd as [Hj Hnd]. apply elem_of_cons in Hin as [[= -> ->]|Hin].
  - rewrite foldl_insert_notin by done. apply lookup_insert_eq.
  - by apply IH.
Qed.

#[export] Instance insert_census_members_batchable : Batchable (each_row insert_census_member).
Proof.
  apply each_row_batchable. intros r d n d' H. unfold insert_census_member in H.
  apply checked_inv in H as [_ H]. by injection H as <- _.
Qed.

(** ** The loop *)
Section spec.
Context {X : Ext} {V : Env}.

(* the row in a census of a member with the key [k]; [key] is a generated pair *)
Definition census_entry (ephemeral : bool) (k : option bytes) (key : bytes * bytes) :
    option CensusMemberRow :=
  if ValidPubKey (default "" k) then Some (mkCensusMemberRow false None k None)
  else if ephemeral then Some (mkCensusMemberRow true (Some key.1) (Some key.1) (Some key.2))
  else None.

(* each member without a key has an index of its own among the generated keys *)
Definition own_index (ms : list Member) (index : uuid -> nat) : Prop :=
  forall x y, x ∈ ms -> y ∈ ms ->
    ValidPubKey (default "" (m_PubKey x)) = false -> ValidPubKey (default "" (m_PubKey y)) = false ->
    index (m_ID x) = index (m_ID y) -> m_ID x = m_ID y.

Lemma expand_members_run c eph now k ms w l w' :
  NoDup (map m_ID ms) -> expand_members c eph now k ms w = (Ok l, w') ->
  exists index, w' = w /\
    (eph = true -> own_index ms index) /\ (forall i, k <= index i) /\
    map census_member_row l = omap (fun m =>
      (fun r => ((m_ID m, c), r)) <$> census_entry eph (m_PubKey m) (env_key now (index (m_ID m)))) ms.
Proof.
  revert k l. induction ms as [|m ms IH]; intros k l Hnd.
  { intros [= <- <-]. exists (fun _ => k). split; [done|].
    split; [intros _ x y Hx; by apply not_elem_of_nil in Hx|]. done. }
  apply NoDup_cons in Hnd as [Hm Hnd].
  assert (Hother : forall x, x ∈ ms -> m_ID x <> m_ID m).
  { intros x Hx He. apply Hm. rewrite <- He. by apply list_elem_of_fmap_2. }
  cbn [expand_members].
  destruct (ValidPubKey (default "" (m_PubKey m))) eqn:Ev; [|destruct eph eqn:Ee].
  - intros (l0 & w1 & H & [= <- <-])%bind_ok.
    destruct (IH k l0 Hnd H) as (index & -> & Hown & Hk & Hl). exists index. split; [done|].
    split_and!; [|done|simpl; rewrite Hl; unfold census_entry at 2; by rewrite Ev].
    intros He x y [->|Hx]%elem_of_cons [->|Hy]%elem_of_cons; try congruence. by apply (Hown He).
  - intros (u & w1 & Hfault & H)%bind_ok. destruct (env_key_fault now k); [done|].
    injection Hfault as _ <-. destruct (env_key now k) as [pub priv] eqn:Ek.
    rewrite !DecodeString_EncodeToString in H.
    apply bind_ok in H as (k1 & w1 & [= <- <-] & (k2 & w2 & [= <- <-] & H)%bind_ok).
    apply bind_ok in H as (l0 & w3 & H & [= <- <-]).
    destruct (IH (S k) l0 Hnd H) as (index & -> & Hown & Hk & Hl).
    set (index' := fun i => if decide (i = m_ID m) then k else index i).
    assert (Hi : forall x, x ∈ ms -> index' (m_ID x) = index (m_ID x)).
    { intros x Hx. unfold index'. rewrite decide_False by auto. done. }
    assert (Hi0 : index' (m_ID m) = k) by (unfold index'; by rewrite decide_True).
    exists index'. split_and!; [done|..].
    + intros _ x y [->|Hx]%elem_of_cons [->|Hy]%elem_of_cons; try done.
      * rewrite Hi0, Hi by done. intros _ _ He. specialize (Hk (m_ID y)). lia.
      * rewrite Hi0, Hi by done. intros _ _ He. specialize (Hk (m_ID x)). lia.
      * rewrite !Hi by done. by apply (Hown eq_refl).
    + intros i. unfold index'. case_decide; [done|]. specialize (Hk i). lia.
    + simpl. unfold census_entry at 1. rewrite Ev, Hi0, Ek. simpl. f_equal. rewrite Hl.
      apply list_omap_ext, Forall_Forall2_diag, Forall_forall. intros x Hx. by rewrite Hi.
  - intros H. destruct (IH k l Hnd H) as (index & -> & Hown & Hk & Hl). exists index.
    split_and!; [done..|simpl; rewrite Hl; unfold census_entry at 2; by rewrite Ev].
Qed.

(** ** The method *)

Lemma member_rows_NoDup p d : NoDup (member_rows p d).*1.
Proof.
  pose proof (NoDup_fst_map_to_list (members d)) as Hnd.
  eapply sublist_NoDup; [exact Hnd|]. apply fmap_sublist, sublist_filter.
Qed.

(* the steps of ExpandCensusMembers when it succeeds *)
Lemma ExpandCensusMembers_inv e c l w w' :
  ExpandCensusMembers e c w = (Ok l, w') ->
  exists cr rows index now, censuses (w_db w) !! c = Some cr /\ cr_entity_id cr = e /\
    rows ≡ₚ member_rows (fun _ r => bool_decide (mr_entity_id r = e)) (w_db w) /\
    (cr_ephemeral cr = true -> own_index (map (fun x => ToMember (scan_member_list x)) rows) index) /\
    map census_member_row l = omap (fun x : uuid * MemberRow => (fun r => ((x.1, c), r)) <$>
      census_entry (cr_ephemeral cr) (mr_public_key x.2) (env_key now (index x.1))) rows /\
    NoDup (map census_member_row l).*1 /\
    w_db w' = set_censuses (<[c := set_census_size (Z.of_nat (length l)) cr]> (censuses (w_db w)))
      (set_census_members (foldl (fun m x => <[x.1 := x.2]> m) (census_members (w_db w))
         (map census_member_row l)) (w_db w)).
Proof.
  unfold ExpandCensusMembers.
  intros (census & w1 & H1%onErr_ok & (ms & w2 & H2%onErr_ok & H)%bind_ok)%bind_ok.
  unfold pg_Census in H1. destruct (_ || _); [done|]. apply driver_inv in H1.
  change (w_db (tick w)) with (w_db w) in H1.
  destruct (censuses (w_db w) !! c) as [cr|] eqn:Ec; [|done]. simpl in H1.
  case_bool_decide as He; [|done]. injection H1 as <- <-.
  apply TargetMembers_inv in H2 as (Hw2 & rows & -> & Hrows). cbn [w_db tick] in *.
  apply bind_ok in H as (now & w3 & [= <- <-] & H).
  apply bind_ok in H as (l0 & w4 & Hrun & H). cbn [c_Info ci_Ephemeral scan_census] in Hrun.
  apply expand_members_run in Hrun as (index & -> & Hown & _ & Hl).
  2: { rewrite map_map. change (NoDup rows.*1). rewrite Hrows. apply member_rows_NoDup. }
  apply bind_ok in H as (tx & w5 & H5%onErr_ok%driver_inv & H). injection H5 as <- <-.
  apply bind_ok in H as (tx & w6 & H6%onErr_ok & H). apply (bulkInsert_inv (each_row insert_census_member)) in H6 as [n H6].
  apply insert_census_members_inv in H6 as [-> Hnd]. cbn [w_db tick] in H. rewrite Hw2 in H.
  apply bind_ok in H as ([k tx2] & w7 & H7%onErr_ok%driver_inv & H).
  unfold update_census in H7. cbn [censuses set_census_members] in H7. rewrite Ec in H7.
  rewrite bool_decide_eq_true_2 in H7 by done. injection H7 as <- <- <-.
  apply bind_ok in H as (u & w8 & H8%onErr_ok%driver_inv & H).
  destruct (negb _); [done|]. apply bind_ok in H as (v & w9 & H9 & [= <- <-]).
  apply commit_or_ok in H9. exists cr, rows, index, (w_tick w2). rewrite H9.
  split_and!; try done. rewrite Hl. clear. induction rows as [|x rows IH]; [done|].
  simpl in *. destruct (census_entry _ _ _); simpl; [f_equal|]; exact IH.
Qed.

(* a member of the entity without a key of its own *)
Definition keyless (d : Db) (e : bytes) (i : uuid) : Prop :=
  exists m, members d !! i = Some m /\ mr_entity_id m = e /\
    ValidPubKey (default "" (mr_public_key m)) = false.

(** C17: ExpandCensusMembers makes the census of an entity: when it succeeds,
    every member of the entity with a registered key is in the census under
    that key; when the census is ephemeral, every other member is in
    it with a freshly generated key pair that no other member has, and when it
    is not, none of them is added; the memberships in other censuses and of
    other members, and all other tables, are as before, and the size stored
    for the census is the number of members added. *)
Theorem ExpandCensusMembers_spec (e c : bytes) (l : list CensusMember) (w w' : World) :
  ExpandCensusMembers e c w = (Ok l, w') ->
  let d := w_db w in let d' := w_db w' in
  exists cr now (index : uuid -> nat), censuses d !! c = Some cr /\ cr_entity_id cr = e /\
    (forall i m, members d !! i = Some m -> mr_entity_id m = e ->
       census_members d' !! (i, c) =
         match census_entry (cr_ephemeral cr) (mr_public_key m) (env_key now (index i)) with
         | Some x => Some x
         | None => census_members d !! (i, c)
         end) /\
    (cr_ephemeral cr = true -> forall i j, keyless d e i -> keyless d e j ->
       index i = index j -> i = j) /\
    (forall i c', c' <> c \/ (forall m, members d !! i = Some m -> mr_entity_id m <> e) ->
       census_members d' !! (i, c') = census_members d !! (i, c')) /\
    d' = set_censuses (<[c := set_census_size (Z.of_nat (length l)) cr]> (censuses d))
           (set_census_members (census_members d') d).
Proof.
  intros H d d'. apply ExpandCensusMembers_inv in H as
    (cr & rows & index & now & Hc & He & Hrows & Hown & Hl & Hnd & Hd').
  fold d in Hc, Hrows, Hd'. fold d' in Hd'.
  assert (Hin : forall i m, (i, m) ∈ rows <-> members d !! i = Some m /\ mr_entity_id m = e).
  { intros i m. rewrite Hrows. apply member_rows_elem. }
  assert (Hrow : forall i c' x, ((i, c'), x) ∈ map census_member_row l <-> c' = c /\ exists m,
            (i, m) ∈ rows /\ census_entry (cr_ephemeral cr) (mr_public_key m) (env_key now (index i)) = Some x).
  { intros i c' x. rewrite Hl, list_elem_of_omap. split.
    - intros ([j m] & Hj & (r & Hr & [= -> -> ->])%fmap_Some). eauto.
    - intros (-> & m & Hm & Hx). exists (i, m). simpl. rewrite Hx. done. }
  assert (Hm' : census_members d' = foldl (fun m x => <[x.1 := x.2]> m) (census_members d)
                                      (map census_member_row l)) by (by rewrite Hd').
  exists cr, now, index. split_and!; [done|done| | | |].
  - intros i m Hi Hme. assert (Him : (i, m) ∈ rows) by (by apply Hin). rewrite Hm'.
    destruct (census_entry _ _ _) as [x|] eqn:Ex.
    + apply foldl_insert_elem; [done|]. apply Hrow. eauto.
    + apply foldl_insert_notin. intros ([[j c'] x] & [= -> ->] & (_ & m' & Hm2 & Hx)%Hrow)%list_elem_of_fmap.
      apply Hin in Hm2 as [Hm2 _]. congruence.
  - intros Heph i j (m & Hi & Hme & Hv) (m' & Hj & Hme' & Hv') Hij.
    refine (Hown Heph (ToMember (scan_member_list (i, m))) (ToMember (scan_member_list (j, m'))) _ _ Hv Hv' Hij);
      [apply (list_elem_of_fmap_2 (fun x => ToMember (scan_member_list x)) rows (i, m))
      |apply (list_elem_of_fmap_2 (fun x => ToMember (scan_member_list x)) rows (j, m'))]; by apply Hin.
  - intros i c' Hi. rewrite Hm'. apply foldl_insert_notin.
    intros ([[j c2] x] & [= -> ->] & (-> & m & [Hm Hme]%Hin & _)%Hrow)%list_elem_of_fmap.
    destruct Hi as [Hi|Hi]; [done|by apply (Hi m)].
  - rewrite Hm'. exact Hd'.
Qed.
End spec.

(** ** Witness: an ephemeral census, a member with a key and one without *)

#[local] Existing Instance demo_ext.
#[local] Instance census_env : Env := demo_env 1.

Definition ann : MemberInfo := mkMemberInfo 0 "a@x" "Ann" "Bell" "" "" false 0 Token None None.
Definition ephemeral_world : World := run_all
  [OpAddEntity "e1" demo_entity; OpAddEntity "e2" demo_entity; OpImportMembers "e1" [ann];
   OpAddTarget "e1" (mkTarget zero_CreatedUpdated uuid_Nil "e1" "all" "{}");
   OpAddCensus "e1" "C1" (Some 1201%N)
     (Some (mkCensusInfo zero_CreatedUpdated "c" (Some "r") "" 1 true None));
   OpCreateMembersWithTokens "e1" [11%N]; OpRegisterMember "e1" "k1" (Some 11%N)] initial_world.

Lemma ExpandCensusMembers_spec_witness :
  exists w', (exists l, ExpandCensusMembers "e1" "C1" ephemeral_world = (Ok l, w') /\ length l = 2) /\
    census_members (w_db w') !! (11%N, "C1") = Some (mkCensusMemberRow false None (Some "k1") None) /\
    exists pub priv, census_members (w_db w') !! (901%N, "C1")
      = Some (mkCensusMemberRow true (Some pub) (Some pub) (Some priv)).
Proof.
  assert (Hr : exists l, (ExpandCensusMembers "e1" "C1" ephemeral_world).1 = Ok l /\ length l = 2)
    by (eexists; split; [vm_compute; reflexivity|reflexivity]).
  assert (H1 : exists m, members (w_db ephemeral_world) !! 11%N = Some m /\ mr_entity_id m = "e1" /\
            mr_public_key m = Some "k1") by (eexists; split; [vm_compute; reflexivity|done]).
  assert (H2 : exists m, members (w_db ephemeral_world) !! 901%N = Some m /\ mr_entity_id m = "e1" /\
            mr_public_key m = None) by (eexists; split; [vm_compute; reflexivity|done]).
  assert (H3 : cr_ephemeral <$> censuses (w_db ephemeral_world) !! "C1" = Some true)
    by (vm_compute; reflexivity).
  destruct Hr as (l & Hl & Hlen), H1 as (m1 & Hm1 & He1 & Hk1), H2 as (m2 & Hm2 & He2 & Hk2).
  destruct (ExpandCensusMembers "e1" "C1" ephemeral_world) as [o w'] eqn:E. simpl in Hl. subst o.
  destruct (ExpandCensusMembers_spec "e1" "C1" l ephemeral_world w' E)
    as (cr & now & index & Hc & _ & Hmem & _).
  rewrite Hc in H3. injection H3 as H3. exists w'. split; [exists l; split; [reflexivity|exact Hlen]|].
  rewrite (Hmem _ _ Hm1 He1), (Hmem _ _ Hm2 He2), Hk1, Hk2, H3.
  split; [reflexivity|]. do 2 eexists. reflexivity.
Defined.
