(* ===== verification/Ddl.v ===== *)
(** * Data definition: the statements of the migrations
    (database/pgsql/migrations.go)

    A catalog holds the tables, their columns and constraints, the enumerated
    types and the extensions of a PostgreSQL database; a data definition
    statement is refused with PostgreSQL's reason or gives the new catalog.
    [catalog_ok] is what makes a catalog meaningful, and every statement keeps
    it. *)
From S2P Require Import Prelude GoLib Ext.

(** ** Catalogs *)

Inductive ColType :=
| TBytea | TText | TTimestamp | TUuid | TJsonb | TBoolean | TInteger
| TArray (t : ColType)
| TEnum (name : string).

Record Column := mkColumn {
  col_type : ColType;
  col_not_null : bool;
  (* the expression after DEFAULT *)
  col_default : option string;
}.

Inductive OnDelete := NoAction | Cascade.

Inductive Constr :=
| PrimaryKey (cols : list string)
| Unique (cols : list string)
| ForeignKey (cols : list string) (table : string) (refs : list string) (on_delete : OnDelete).

Record Table := mkTable {
  t_columns : list (string * Column);
  t_constraints : gmap string Constr;
}.

Record Catalog := mkCatalog {
  c_tables : gmap string Table;
  c_enums : gmap string (list string);
  c_extensions : gset string;
}.

#[export] Instance ColType_eq_dec : EqDecision ColType.
Proof. solve_decision. Defined.
#[export] Instance Column_eq_dec : EqDecision Column.
Proof. solve_decision. Defined.
#[export] Instance OnDelete_eq_dec : EqDecision OnDelete.
Proof. solve_decision. Defined.
#[export] Instance Constr_eq_dec : EqDecision Constr.
Proof. solve_decision. Defined.
#[export] Instance Table_eq_dec : EqDecision Table.
Proof. solve_decision. Defined.
#[export] Instance Catalog_eq_dec : EqDecision Catalog.
Proof. solve_decision. Defined.

Definition empty_catalog : Catalog := mkCatalog ∅ ∅ ∅.

Definition set_c_tables v c := mkCatalog v (c_enums c) (c_extensions c).
Definition set_c_enums v c := mkCatalog (c_tables c) v (c_extensions c).
Definition set_c_extensions v c := mkCatalog (c_tables c) (c_enums c) v.
Definition set_t_columns v t := mkTable v (t_constraints t).
Definition set_t_constraints v t := mkTable (t_columns t) v.

(** ** Statements *)

Inductive Action :=
| AddColumn (name : string) (col : Column)
| DropColumn (name : string)
| SetDefault (name : string) (expr : string)
(* REFERENCES table without columns refers to its primary key *)
| AddPrimaryKey (name : string) (cols : list string)
| AddUnique (name : string) (cols : list string)
| AddForeignKey (name : string) (cols : list string) (table : string)
    (refs : option (list string)) (on_delete : OnDelete)
| DropConstraint (name : string).

Inductive Ddl :=
| CreateExtension (name : string)          (* IF NOT EXISTS *)
| DropExtension (name : string)            (* IF EXISTS *)
| CreateEnum (name : string) (labels : list string)
| AddEnumValue (name label : string)       (* IF NOT EXISTS *)
| DropType (name : string)
| CreateTable (name : string) (cols : list (string * Column))
| DropTable (name : string)
| AlterTable (name : string) (actions : list Action).

(** ** What a statement checks *)

Definition constr_cols (k : Constr) : list string :=
  match k with PrimaryKey cols | Unique cols | ForeignKey cols _ _ _ => cols end.

(* the columns of a key that can be referred to *)
Definition key_cols (k : Constr) : option (list string) :=
  match k with PrimaryKey cols | Unique cols => Some cols | ForeignKey _ _ _ _ => None end.

Definition constrs (t : Table) : list Constr := (map_to_list (t_constraints t)).*2.
Definition has_col (t : Table) (n : string) : bool := bool_decide (n ∈ (t_columns t).*1).
Definition primary_key (t : Table) : option (list string) :=
  head (omap (fun k => match k with PrimaryKey cols => Some cols | _ => None end) (constrs t)).

(* a foreign key refers to a key of an existing table *)
Definition fk_supported (ts : gmap string Table) (k : Constr) : bool :=
  match k with
  | ForeignKey cols table refs _ =>
      match ts !! table with
      | Some t => (length cols =? length refs) && bool_decide (Some refs ∈ map key_cols (constrs t))
      | None => false
      end
  | _ => true
  end.
Definition fks_supported (ts : gmap string Table) : bool :=
  forallb (fun x => forallb (fk_supported ts) (constrs x.2)) (map_to_list ts).

Fixpoint type_exists (enums : gmap string (list string)) (ty : ColType) : bool :=
  match ty with
  | TArray ty => type_exists enums ty
  | TEnum name => bool_decide (is_Some (enums !! name))
  | _ => true
  end.
Fixpoint uses_enum (name : string) (ty : ColType) : bool :=
  match ty with
  | TArray ty => uses_enum name ty
  | TEnum n => bool_decide (n = name)
  | _ => false
  end.

Definition ddl_error (what name why : string) : gerror :=
  PgOther (what +:+ " " +:+ quoted name +:+ " " +:+ why).

(** ** Running a statement *)

Definition put_table (n : string) (t : Table) (c : Catalog) : Catalog :=
  set_c_tables (<[n := t]> (c_tables c)) c.

(* the keys other tables refer to are still there *)
Definition unless_referenced (what name : string) (c : Catalog) : gerror + Catalog :=
  if fks_supported (c_tables c) then inr c
  else inl (PgOther ("cannot drop " +:+ what +:+ " " +:+ name +:+
                     " because other objects depend on it")).

Definition not_null (cols : list string) (x : string * Column) : string * Column :=
  if bool_decide (x.1 ∈ cols) then (x.1, mkColumn (col_type x.2) true (col_default x.2)) else x.

Definition set_default (n expr : string) (x : string * Column) : string * Column :=
  if bool_decide (x.1 = n) then (x.1, mkColumn (col_type x.2) (col_not_null x.2) (Some expr)) else x.

(* a new constraint has a name and columns of the table *)
Definition add_constraint (tn n : string) (k : Constr) (t : Table) (c : Catalog) :
    gerror + Catalog :=
  if negb (bool_decide (t_constraints t !! n = None))
  then inl (ddl_error "constraint" n "already exists")
  else if negb (forallb (has_col t) (constr_cols k))
  then inl (PgOther "column named in key does not exist")
  else inr (put_table tn (set_t_constraints (<[n := k]> (t_constraints t)) t) c).

Definition run_action (tn : string) (a : Action) (c : Catalog) : gerror + Catalog :=
  match c_tables c !! tn with
  | None => inl (ddl_error "relation" tn "does not exist")
  | Some t =>
      match a with
      | AddColumn n col =>
          if has_col t n then inl (ddl_error "column" n "already exists") else
          if negb (type_exists (c_enums c) (col_type col)) then inl (PgOther "type does not exist") else
          inr (put_table tn (set_t_columns (t_columns t ++ [(n, col)]) t) c)
      | DropColumn n =>
          if negb (has_col t n) then inl (ddl_error "column" n "does not exist") else
          (* constraints on the column go with it *)
          unless_referenced "column" n
            (put_table tn (mkTable (filter (fun x => x.1 <> n) (t_columns t))
                             (filter (fun x => n ∉ constr_cols x.2) (t_constraints t))) c)
      | SetDefault n expr =>
          if negb (has_col t n) then inl (ddl_error "column" n "does not exist") else
          inr (put_table tn (set_t_columns (map (set_default n expr) (t_columns t)) t) c)
      | AddPrimaryKey n cols =>
          if negb (bool_decide (primary_key t = None))
          then inl (ddl_error "table" tn "has a primary key")
          else add_constraint tn n (PrimaryKey cols)
                 (set_t_columns (map (not_null cols) (t_columns t)) t) c
      | AddUnique n cols => add_constraint tn n (Unique cols) t c
      | AddForeignKey n cols table refs od =>
          let refs := match refs with
                      | Some refs => Some refs
                      | None => t' ← c_tables c !! table; primary_key t'
                      end in
          match refs with
          | None => inl (ddl_error "no primary key for table" table "")
          | Some refs =>
              match add_constraint tn n (ForeignKey cols table refs od) t c with
              | inl e => inl e
              | inr c' => if fk_supported (c_tables c') (ForeignKey cols table refs od) then inr c'
                          else inl (PgOther "there is no unique constraint matching given keys")
              end
          end
      | DropConstraint n =>
          if bool_decide (t_constraints t !! n = None)
          then inl (ddl_error "constraint" n "does not exist")
          else unless_referenced "constraint" n
                 (put_table tn (set_t_constraints (delete n (t_constraints t)) t) c)
      end
  end.

Fixpoint fold_run {A} (run : A -> Catalog -> gerror + Catalog) (l : list A) (c : Catalog) :
    gerror + Catalog :=
  match l with
  | [] => inr c
  | a :: l => match run a c with inl e => inl e | inr c => fold_run run l c end
  end.

Definition run_ddl (s : Ddl) (c : Catalog) : gerror + Catalog :=
  match s with
  | CreateExtension n => inr (set_c_extensions ({[n]} ∪ c_extensions c) c)
  | DropExtension n => inr (set_c_extensions (c_extensions c ∖ {[n]}) c)
  | CreateEnum n labels =>
      if bool_decide (is_Some (c_enums c !! n)) then inl (ddl_error "type" n "already exists")
      else inr (set_c_enums (<[n := labels]> (c_enums c)) c)
  | AddEnumValue n label =>
      match c_enums c !! n with
      | None => inl (ddl_error "type" n "does not exist")
      | Some labels =>
          if bool_decide (label ∈ labels) then inr c
          else inr (set_c_enums (<[n := labels ++ [label]]> (c_enums c)) c)
      end
  | DropType n =>
      if negb (bool_decide (is_Some (c_enums c !! n)))
      then inl (ddl_error "type" n "does not exist") else
      if existsb (fun x => existsb (fun y => uses_enum n (col_type y.2)) (t_columns x.2))
           (map_to_list (c_tables c))
      then inl (PgOther "cannot drop type because other objects depend on it")
      else inr (set_c_enums (delete n (c_enums c)) c)
  | CreateTable n cols =>
      if bool_decide (is_Some (c_tables c !! n)) then inl (ddl_error "relation" n "already exists") else
      if negb (bool_decide (NoDup cols.*1)) then inl (PgOther "column specified more than once") else
      if negb (forallb (fun x => type_exists (c_enums c) (col_type x.2)) cols)
      then inl (PgOther "type does not exist")
      else inr (put_table n (mkTable cols ∅) c)
  | DropTable n =>
      if negb (bool_decide (is_Some (c_tables c !! n)))
      then inl (ddl_error "table" n "does not exist")
      else unless_referenced "table" n (set_c_tables (delete n (c_tables c)) c)
  | AlterTable n actions => fold_run (run_action n) actions c
  end.

(* a migration is one transaction: all its statements or none *)
Definition run_script : list Ddl -> Catalog -> gerror + Catalog := fold_run run_ddl.

(** ** Well-formed catalogs *)

Record table_ok (enums : gmap string (list string)) (t : Table) : Prop := {
  ok_names : NoDup (t_columns t).*1;
  ok_types : Forall (fun x => type_exists enums (col_type x.2) = true) (t_columns t);
  ok_constrs : map_Forall (fun _ k => forallb (has_col t) (constr_cols k) = true)
                 (t_constraints t);
  ok_primary : map_Forall (fun _ k => match k with
      | PrimaryKey cols => Forall (fun x => x.1 ∈ cols -> col_not_null x.2 = true) (t_columns t)
      | _ => True
      end) (t_constraints t);
  ok_one_primary : forall n1 n2 cs1 cs2, t_constraints t !! n1 = Some (PrimaryKey cs1) ->
    t_constraints t !! n2 = Some (PrimaryKey cs2) -> n1 = n2;
}.

Record catalog_ok (c : Catalog) : Prop := {
  ok_tables : map_Forall (fun _ => table_ok (c_enums c)) (c_tables c);
  ok_fks : fks_supported (c_tables c) = true;
}.

(** ** Lemmas *)

Lemma elem_of_constrs t k : k ∈ constrs t <-> exists n, t_constraints t !! n = Some k.
Proof.
  unfold constrs. rewrite list_elem_of_fmap. split.
  - intros ([n k'] & -> & Hk%elem_of_map_to_list). eauto.
  - intros [n Hk]. exists (n, k). split; [done|]. by apply elem_of_map_to_list.
Qed.

Lemma forallb_Forall {A} (p : A -> bool) l :
  forallb p l = true <-> Forall (fun x => p x = true) l.
Proof. rewrite forallb_forall, Forall_forall. by setoid_rewrite <- list_elem_of_In. Qed.

Lemma fks_supported_spec ts :
  fks_supported ts = true <->
  forall n t m k, ts !! n = Some t -> t_constraints t !! m = Some k -> fk_supported ts k = true.
Proof.
  unfold fks_supported. rewrite forallb_Forall, Forall_forall. split.
  - intros H n t m k Ht Hk. specialize (H (n, t)). rewrite forallb_Forall, Forall_forall in H.
    apply H; [by apply elem_of_map_to_list|]. apply elem_of_constrs. eauto.
  - intros H [n t] Ht%elem_of_map_to_list. rewrite forallb_Forall, Forall_forall.
    intros k [m Hk]%elem_of_constrs. eauto.
Qed.

Lemma primary_key_None t n cols :
  primary_key t = None -> t_constraints t !! n <> Some (PrimaryKey cols).
Proof.
  unfold primary_key. intros Hn Hk.
  assert (Hin : PrimaryKey cols ∈ constrs t) by (apply elem_of_constrs; eauto).
  assert (Hc : cols ∈ omap (fun k => match k with PrimaryKey cols => Some cols | _ => None end)
                 (constrs t)) by (apply list_elem_of_omap; eauto).
  destruct (omap _ _); [by apply not_elem_of_nil in Hc|done].
Qed.

(* a foreign key is still supported when its table keeps its keys *)
Lemma fk_supported_mono ts ts' k :
  (forall n t, ts !! n = Some t ->
     exists t', ts' !! n = Some t' /\ t_constraints t ⊆ t_constraints t') ->
  fk_supported ts k = true -> fk_supported ts' k = true.
Proof.
  intros Hts. destruct k as [| |cols table refs od]; [done..|]. simpl.
  destruct (ts !! table) as [t|] eqn:Ht; [|done].
  destruct (Hts _ _ Ht) as (t' & -> & Hsub). rewrite !andb_true_iff, !bool_decide_eq_true.
  intros [Hl Hr]. split; [done|]. apply list_elem_of_fmap in Hr as (k & Hk & Hin).
  apply list_elem_of_fmap. exists k. split; [done|].
  apply elem_of_constrs in Hin as [m Hm]. apply elem_of_constrs. exists m.
  by apply (lookup_weaken _ _ _ _ Hm).
Qed.

(* what keeps a catalog well-formed when a table is put: the table is, its
   old keys are still there, its new foreign keys are supported *)
Lemma put_table_ok tn t c :
  catalog_ok c -> table_ok (c_enums c) t ->
  (forall t0, c_tables c !! tn = Some t0 -> t_constraints t0 ⊆ t_constraints t) ->
  (forall n k, t_constraints t !! n = Some k ->
     (exists t0, c_tables c !! tn = Some t0 /\ t_constraints t0 !! n = Some k) \/
     fk_supported (<[tn := t]> (c_tables c)) k = true) ->
  catalog_ok (put_table tn t c).
Proof.
  intros [Ht Hf] Hok Hsub Hnew. split; simpl.
  - by apply map_Forall_insert_2.
  - rewrite fks_supported_spec in *. intros n t1 m k Hn Hk.
    assert (Hmono : forall k, fk_supported (c_tables c) k = true ->
              fk_supported (<[tn := t]> (c_tables c)) k = true).
    { intros k'. apply fk_supported_mono. intros n' t' Hn'.
      destruct (decide (n' = tn)) as [->|]; [rewrite lookup_insert_eq; eauto|].
      rewrite lookup_insert_ne by done. exists t'. by split. }
    destruct (decide (n = tn)) as [->|].
    + rewrite lookup_insert_eq in Hn. injection Hn as <-.
      destruct (Hnew _ _ Hk) as [(t0 & H0 & Hk0)|]; [|done]. eauto.
    + rewrite lookup_insert_ne in Hn by done. eauto.
Qed.

Lemma catalog_checked c c' what n :
  map_Forall (fun _ => table_ok (c_enums c')) (c_tables c') ->
  unless_referenced what n c' = inr c -> catalog_ok c.
Proof.
  unfold unless_referenced. intros Ht. destruct (fks_supported _) eqn:E; [|done].
  intros [= <-]. by split.
Qed.

Lemma has_col_true t n : has_col t n = true <-> n ∈ (t_columns t).*1.
Proof. apply bool_decide_eq_true. Qed.

(* columns changed in place *)
Lemma table_ok_map enums t (f : string * Column -> string * Column) :
  (forall x, (f x).1 = x.1 /\ col_type (f x).2 = col_type x.2 /\
             (col_not_null x.2 = true -> col_not_null (f x).2 = true)) ->
  table_ok enums t -> table_ok enums (set_t_columns (map f (t_columns t)) t).
Proof.
  intros Hf [H1 H2 H3 H4 H5].
  assert (Hn : (map f (t_columns t)).*1 = (t_columns t).*1).
  { rewrite <- list_fmap_compose. apply list_fmap_ext. intros i x _. apply Hf. }
  split; simpl; [by rewrite Hn| | | |done].
  - apply Forall_fmap. eapply Forall_impl; [done|]. intros x Hx. simpl.
    destruct (Hf x) as (_ & -> & _). done.
  - apply (map_Forall_impl _ _ _ H3). intros n k. rewrite !forallb_Forall.
    intros Hk. apply (Forall_impl _ _ _ Hk). intros x. rewrite !has_col_true. simpl. by rewrite Hn.
  - apply (map_Forall_impl _ _ _ H4). intros n [cols| |] Hk; [|done..].
    apply Forall_fmap. apply (Forall_impl _ _ _ Hk). intros x Hx. simpl.
    destruct (Hf x) as (-> & _ & Himp). auto.
Qed.

Lemma add_constraint_ok tn n k t t0 c c' :
  catalog_ok c -> c_tables c !! tn = Some t0 -> t_constraints t0 = t_constraints t ->
  table_ok (c_enums c) t ->
  match k with
  | PrimaryKey cols => primary_key t0 = None /\
      Forall (fun x => x.1 ∈ cols -> col_not_null x.2 = true) (t_columns t)
  | Unique _ => True
  | ForeignKey _ _ _ _ => fk_supported (c_tables c') k = true
  end ->
  add_constraint tn n k t c = inr c' -> catalog_ok c'.
Proof.
  intros Hok Ht0 Heq Ht Hk. unfold add_constraint.
  destruct (bool_decide _) eqn:En; [|done]. apply bool_decide_eq_true in En. simpl.
  destruct (forallb _ _) eqn:Ec; [|done]. simpl. intros [= <-].
  apply put_table_ok; [done| | |].
  - destruct Ht as [H1 H2 H3 H4 H5]. split; simpl; [done|done| | |].
    + apply map_Forall_insert_2; [done|]. apply (map_Forall_impl _ _ _ H3). done.
    + apply map_Forall_insert_2; [|done]. destruct k; [apply Hk|done|done].
    + assert (Hp : forall m cs, is_Some (Some n) -> t_constraints t !! m = Some (PrimaryKey cs) ->
                match k with PrimaryKey _ => False | _ => True end).
      { intros m cs _ Hm. destruct k; [|done..]. destruct Hk as [Hk _].
        rewrite <- Heq in Hm. by apply (primary_key_None _ _ _ Hk) in Hm. }
      intros n1 n2 cs1 cs2. rewrite !lookup_insert. repeat case_decide; subst; try done.
      * intros [= ->] H2'. by destruct (Hp _ _ (mk_is_Some _ _ eq_refl) H2').
      * intros H1' [= ->]. by destruct (Hp _ _ (mk_is_Some _ _ eq_refl) H1').
      * apply H5.
  - intros t1 Ht1. assert (t1 = t0) as -> by congruence. rewrite Heq. simpl. by apply insert_subseteq.
  - simpl. intros m k'. rewrite lookup_insert. case_decide as Hm.
    + intros [= <-]. right. destruct k; done.
    + left. exists t0. split; [done|]. by rewrite Heq.
Qed.

Lemma Forall_filtered {A} (P Q : A -> Prop) `{forall x, Decision (Q x)} l :
  Forall P l -> Forall P (filter Q l).
Proof. rewrite !Forall_forall. intros HP x [_ Hx]%list_elem_of_filter. auto. Qed.

Lemma drop_column_table_ok enums n t :
  table_ok enums t ->
  table_ok enums (mkTable (filter (fun x => x.1 <> n) (t_columns t))
                    (filter (fun x => n ∉ constr_cols x.2) (t_constraints t))).
Proof.
  intros [H1 H2 H3 H4 H5].
  assert (Hl : forall m k, filter (fun x : string * Constr => n ∉ constr_cols x.2)
                (t_constraints t) !! m = Some k ->
              t_constraints t !! m = Some k /\ n ∉ constr_cols k).
  { intros m k Hk. by apply map_lookup_filter_Some in Hk. }
  split; simpl.
  - eapply sublist_NoDup; [done|]. apply fmap_sublist, sublist_filter.
  - by apply Forall_filtered.
  - intros m k [Hk Hn]%Hl. specialize (H3 _ _ Hk). simpl in H3.
    rewrite forallb_Forall in *. rewrite Forall_forall in *. intros x Hx.
    specialize (H3 x Hx). rewrite has_col_true in *. simpl.
    apply list_elem_of_fmap in H3 as (y & -> & Hy). apply list_elem_of_fmap.
    exists y. split; [done|]. apply list_elem_of_filter. split; [|done]. by intros <-.
  - intros m k [Hk _]%Hl. specialize (H4 _ _ Hk). simpl in H4. destruct k; [|done..].
    by apply Forall_filtered.
  - intros n1 n2 cs1 cs2 [? _]%Hl [? _]%Hl. eauto.
Qed.

Lemma run_action_ok tn a c c' :
  catalog_ok c -> run_action tn a c = inr c' -> catalog_ok c'.
Proof.
  intros Hok. unfold run_action. destruct (c_tables c !! tn) as [t|] eqn:Et; [|done].
  pose proof (ok_tables _ Hok tn t Et) as Ht.
  destruct a as [n col|n|n expr|n cols|n cols|n cols table refs od|n].
  - destruct (has_col t n) eqn:En; [done|]. destruct (type_exists _ _) eqn:Ety; [|done].
    simpl. intros [= <-].
    assert (Hn : n ∉ (t_columns t).*1)
      by (rewrite <- has_col_true, En; discriminate).
    destruct Ht as [H1 H2 H3 H4 H5]. apply put_table_ok; [done| | |].
    + split; simpl; [| | | |done].
      * rewrite fmap_app. apply NoDup_app. split_and!; [done|set_solver|apply NoDup_singleton].
      * apply Forall_app. by repeat constructor.
      * apply (map_Forall_impl _ _ _ H3). intros m k. rewrite !forallb_Forall.
        intros Hk. apply (Forall_impl _ _ _ Hk). intros x. rewrite !has_col_true. simpl.
        rewrite fmap_app. set_solver.
      * apply map_Forall_lookup_2. intros m k Hk. specialize (H4 _ _ Hk). simpl in H4.
        specialize (H3 _ _ Hk). simpl in H3. destruct k; [|done..]. apply Forall_app.
        split; [done|]. constructor; [|done]. simpl in *. intros Hin. destruct Hn.
        rewrite forallb_Forall, Forall_forall in H3. by apply has_col_true, H3.
    + intros t0 H0. assert (t0 = t) as -> by congruence. done.
    + intros m k Hk. left. eauto.
  - destruct (has_col t n); [|done]. simpl. apply catalog_checked. simpl.
    apply map_Forall_insert_2; [|apply Hok]. by apply drop_column_table_ok.
  - destruct (has_col t n); [|done]. simpl. intros [= <-]. apply put_table_ok; [done| | |].
    + apply table_ok_map; [|done]. intros [m col]. unfold set_default. simpl. by case_bool_decide.
    + intros t0 H0. assert (t0 = t) as -> by congruence. done.
    + intros m k Hk. left. eauto.
  - destruct (bool_decide (primary_key t = None)) eqn:Ep; [|done]. apply bool_decide_eq_true in Ep.
    simpl. apply (add_constraint_ok _ _ _ _ t); [done|done|done| |].
    + apply table_ok_map; [|done]. intros [m col]. unfold not_null. simpl. by case_bool_decide.
    + split; [done|]. simpl. apply Forall_fmap, Forall_forall. intros [m col] _. simpl.
      unfold not_null. simpl. by case_bool_decide.
  - by apply (add_constraint_ok _ _ _ _ t).
  - destruct (match refs with Some _ => _ | None => _ end) as [refs'|]; [|done].
    destruct (add_constraint _ _ _ _ _) as [|c1] eqn:Ec; [done|].
    destruct (fk_supported _ _) eqn:Ef; [|done]. intros [= ->].
    revert Ec. by apply (add_constraint_ok _ _ _ _ t).
  - case_bool_decide; [done|]. apply catalog_checked. simpl.
    apply map_Forall_insert_2; [|apply Hok]. destruct Ht as [H1 H2 H3 H4 H5].
    split; simpl; [done|done|by apply map_Forall_delete..|].
    intros n1 n2 cs1 cs2 [_ ?]%lookup_delete_Some [_ ?]%lookup_delete_Some. eauto.
Qed.

Lemma fold_run_ok {A} (run : A -> Catalog -> gerror + Catalog) l c c' :
  (forall a c c', catalog_ok c -> run a c = inr c' -> catalog_ok c') ->
  catalog_ok c -> fold_run run l c = inr c' -> catalog_ok c'.
Proof.
  intros Hrun. revert c. induction l as [|a l IH]; intros c Hok; simpl; [by intros [= <-]|].
  destruct (run a c) eqn:E; [done|]. eauto.
Qed.

(* enumerated types that are kept keep the columns typed *)
Lemma table_ok_enums enums enums' t :
  (forall n, is_Some (enums !! n) ->
     is_Some (enums' !! n) \/ Forall (fun x => uses_enum n (col_type x.2) = false) (t_columns t)) ->
  table_ok enums t -> table_ok enums' t.
Proof.
  intros He [H1 H2 H3 H4 H5]. split; [done| |done..].
  rewrite Forall_forall in *. intros x Hx. specialize (H2 x Hx).
  assert (He' : forall n, is_Some (enums !! n) ->
            is_Some (enums' !! n) \/ uses_enum n (col_type x.2) = false).
  { intros n Hn. destruct (He n Hn) as [|Hf]; [by left|right]. rewrite Forall_forall in Hf. auto. }
  revert H2 He'. generalize (col_type x.2). clear. intros ty.
  induction ty as [| | | | | | |ty IH|n]; simpl; try done.
  intros Hn%bool_decide_eq_true He. apply bool_decide_eq_true.
  destruct (He n Hn) as [|Hu]; [done|]. by rewrite bool_decide_eq_true_2 in Hu.
Qed.

Lemma run_ddl_ok s c c' : catalog_ok c -> run_ddl s c = inr c' -> catalog_ok c'.
Proof.
  intros Hok. destruct s as [n|n|n labels|n label|n|n cols|n|n actions]; simpl.
  - intros [= <-]. by destruct Hok.
  - intros [= <-]. by destruct Hok.
  - case_bool_decide; [done|]. intros [= <-]. destruct Hok as [Ht Hf]. split; simpl; [|done].
    apply (map_Forall_impl _ _ _ Ht). intros m t. apply table_ok_enums. intros n' Hn'. left.
    rewrite lookup_insert. case_decide; [by eexists|done].
  - destruct (c_enums c !! n) as [labels|]; [|done]. case_bool_decide; [by intros [= <-]|].
    intros [= <-]. destruct Hok as [Ht Hf]. split; simpl; [|done].
    apply (map_Forall_impl _ _ _ Ht). intros m t. apply table_ok_enums. intros n' Hn'. left.
    rewrite lookup_insert. case_decide; [by eexists|done].
  - case_bool_decide; [|done]. simpl. destruct (existsb _ _) eqn:Ex; [done|]. intros [= <-].
    destruct Hok as [Ht Hf]. split; simpl; [|done]. apply map_Forall_lookup_2. intros m t Hm.
    specialize (Ht _ _ Hm). simpl in Ht. revert Ht. apply table_ok_enums. intros n' Hn'.
    destruct (decide (n' = n)) as [->|]; [right|left; by rewrite lookup_delete_ne].
    rewrite <- not_true_iff_false, existsb_exists in Ex. apply Forall_forall. intros x Hx.
    apply not_true_is_false. intros Hu. apply Ex. exists (m, t).
    split; [by apply list_elem_of_In, elem_of_map_to_list|]. apply existsb_exists. exists x.
    by split; [apply list_elem_of_In|].
  - destruct (bool_decide (is_Some _)) eqn:En; [done|].
    destruct (bool_decide (NoDup _)) eqn:Ed; [|done].
    destruct (forallb _ _) eqn:Et; [|done]. simpl. intros [= <-].
    apply bool_decide_eq_true in Ed. apply bool_decide_eq_false in En.
    apply put_table_ok; [done| | |].
    + split; simpl; [done|by apply forallb_Forall|apply map_Forall_empty..|].
      intros n1 n2 cs1 cs2 H. by rewrite lookup_empty in H.
    + intros t0 H0. destruct En. by eexists.
    + simpl. intros m k Hk. by rewrite lookup_empty in Hk.
  - case_bool_decide; [|done]. simpl. apply catalog_checked. simpl.
    apply map_Forall_delete. apply Hok.
  - apply fold_run_ok; [|done]. apply run_action_ok.
Qed.

Lemma run_script_ok l c c' : catalog_ok c -> run_script l c = inr c' -> catalog_ok c'.
Proof. apply fold_run_ok. apply run_ddl_ok. Qed.

Lemma empty_catalog_ok : catalog_ok empty_catalog.
Proof. split; [apply map_Forall_empty|reflexivity]. Qed.

(** ** Columns added and dropped again *)

Lemma put_put tn t t' c : put_table tn t (put_table tn t' c) = put_table tn t c.
Proof. unfold put_table, set_c_tables. simpl. by rewrite insert_insert_eq. Qed.
Lemma put_id tn t c : c_tables c !! tn = Some t -> put_table tn t c = c.
Proof. intros Ht. unfold put_table, set_c_tables. rewrite insert_id by done. by destruct c. Qed.
Lemma put_comm tn1 tn2 t1 t2 c : tn1 <> tn2 ->
  put_table tn1 t1 (put_table tn2 t2 c) = put_table tn2 t2 (put_table tn1 t1 c).
Proof. intros Hn. unfold put_table, set_c_tables. simpl. by rewrite insert_insert_ne. Qed.

Definition more_columns (cols : list (string * Column)) (t : Table) : Table :=
  set_t_columns (t_columns t ++ cols) t.

Lemma add_columns tn cols c c' :
  cols <> [] ->
  fold_run (run_action tn) (map (fun x => AddColumn x.1 x.2) cols) c = inr c' <->
  exists t, c_tables c !! tn = Some t /\ c' = put_table tn (more_columns cols t) c /\
    NoDup cols.*1 /\ (forall n, n ∈ cols.*1 -> n ∉ (t_columns t).*1) /\
    Forall (fun x => type_exists (c_enums c) (col_type x.2) = true) cols.
Proof.
  intros Hne. revert c. induction cols as [|[n col] cols IH]; intros c; [done|]. clear Hne.
  cbn [map fold_run]. unfold run_action at 1. simpl.
  destruct (c_tables c !! tn) as [t|] eqn:Et; [|split; [done|naive_solver]].
  assert (Hhas : has_col t n = true <-> n ∈ (t_columns t).*1) by apply has_col_true.
  destruct (has_col t n) eqn:En.
  { split; [done|]. intros (t' & [= <-] & _ & _ & Hn & _). destruct (Hn n); [set_solver|].
    by apply Hhas. }
  assert (Hn : n ∉ (t_columns t).*1) by (rewrite <- Hhas; done). clear Hhas.
  destruct (type_exists _ _) eqn:Ety; simpl.
  2: { split; [done|]. intros (t' & _ & _ & _ & _ & Hty). apply Forall_cons in Hty as [Hty _].
       simpl in Hty. congruence. }
  destruct cols as [|x cols].
  { simpl. unfold more_columns. split.
    - intros [= <-]. exists t. split_and!; [done|done|apply NoDup_singleton|set_solver|].
      by repeat constructor.
    - intros (t' & [= <-] & -> & _). done. }
  rewrite IH by done. simpl. rewrite lookup_insert_eq. split.
  - intros (t' & [= <-] & -> & Hnd & Hd & Hty). exists t. split_and!.
    + done.
    + rewrite put_put. unfold more_columns. simpl. by rewrite <- app_assoc.
    + simpl in Hd. rewrite fmap_app in Hd. constructor; [|done].
      intros Hin. apply (Hd n Hin). set_solver.
    + intros m Hm. simpl in Hd. rewrite fmap_app in Hd. apply elem_of_cons in Hm as [->|Hm]; [done|].
      specialize (Hd m Hm). set_solver.
    + by constructor.
  - intros (t' & [= <-] & -> & Hnd & Hd & Hty). eexists. split; [done|].
    apply NoDup_cons in Hnd as [Hnin Hnd]. apply Forall_cons in Hty as [_ Hty]. split_and!.
    + rewrite put_put. unfold more_columns. simpl. by rewrite <- app_assoc.
    + done.
    + intros m Hm. simpl. rewrite fmap_app. intros [Hin|Hin]%elem_of_app.
      * apply (Hd m); [|done]. by right.
      * simpl in Hin. apply list_elem_of_singleton in Hin as ->. done.
    + done.
Qed.

(* foreign keys do not see other columns *)
Lemma fks_supported_columns tn t t' ts :
  ts !! tn = Some t -> t_constraints t' = t_constraints t ->
  fks_supported ts = true -> fks_supported (<[tn := t']> ts) = true.
Proof.
  intros Ht Heq. rewrite !fks_supported_spec. intros H n t1 m k Hn Hk.
  apply (fk_supported_mono ts).
  - intros n' t0 Hn'. rewrite lookup_insert. case_decide as Hd; [subst|eauto].
    exists t'. split; [done|]. rewrite Heq. by assert (t0 = t) as -> by congruence.
  - rewrite lookup_insert in Hn. case_decide as Hd; [subst|eauto].
    injection Hn as <-. rewrite Heq in Hk. eauto.
Qed.

Lemma drop_columns tn cols t c :
  catalog_ok c -> c_tables c !! tn = Some t ->
  NoDup cols.*1 -> (forall n, n ∈ cols.*1 -> n ∉ (t_columns t).*1) ->
  fold_run (run_action tn) (map DropColumn cols.*1) (put_table tn (more_columns cols t) c) = inr c.
Proof.
  intros Hok Ht. induction cols as [|[n col] cols IH]; intros Hnd Hd; simpl.
  { unfold more_columns. rewrite app_nil_r. f_equal. apply put_id.
    rewrite Ht. by destruct t. }
  apply NoDup_cons in Hnd as [Hn Hnd].
  unfold run_action. simpl. rewrite lookup_insert_eq.
  assert (Hhas : has_col (more_columns ((n, col) :: cols) t) n = true).
  { apply has_col_true. simpl. rewrite fmap_app. set_solver. }
  rewrite Hhas. simpl.
  assert (Hcols : filter (fun x : string * Column => x.1 <> n) (t_columns t ++ (n, col) :: cols)
            = t_columns t ++ cols).
  { assert (Hid : forall l : list (string * Column), (n ∉ l.*1) -> filter (fun x => x.1 <> n) l = l).
    { intros l Hl. induction l as [|x l IHl]; [done|]. apply not_elem_of_cons in Hl as [Hx Hl].
      rewrite filter_cons_True by congruence. f_equal. by apply IHl. }
    rewrite filter_app, Hid by (apply Hd; set_solver). f_equal.
    rewrite filter_cons_False by (simpl; tauto). by apply Hid. }
  assert (Hcon : filter (fun x : string * Constr => n ∉ constr_cols x.2) (t_constraints t)
            = t_constraints t).
  { apply map_filter_id. intros m k Hk. simpl. intros Hin.
    destruct (ok_tables _ Hok tn t Ht) as [_ _ H3 _ _]. specialize (H3 _ _ Hk). simpl in H3.
    rewrite forallb_Forall, Forall_forall in H3. apply H3, has_col_true in Hin.
    revert Hin. apply Hd. set_solver. }
  unfold unless_referenced. rewrite Hcols, Hcon, put_put. simpl.
  rewrite (fks_supported_columns tn t) by (done || apply Hok).
  apply IH; [done|]. intros m Hm. apply Hd. set_solver.
Qed.

(* columns that were added can be dropped, which gives the catalog before *)
Lemma add_drop_columns tn cols c c' :
  catalog_ok c -> cols <> [] ->
  run_ddl (AlterTable tn (map (fun x => AddColumn x.1 x.2) cols)) c = inr c' ->
  run_ddl (AlterTable tn (map DropColumn cols.*1)) c' = inr c.
Proof.
  intros Hok Hne (t & Ht & -> & Hnd & Hd & _)%add_columns; [|done]. by apply drop_columns.
Qed.
