(* ===== verification/Migrations.v ===== *)
(** * The migrations (database/pgsql/migrations.go)

    The seven migrations as scripts of data definition statements, up and
    down, the catalogs they give, and Migrator, which applies them through the
    sql-migrate library. *)
From S2P Require Import Prelude GoLib Ext Ddl.

(** ** The scripts *)

Definition NotNull (ty : ColType) : Column := mkColumn ty true None.
Definition NotNullDefault (ty : ColType) (expr : string) : Column := mkColumn ty true (Some expr).
Definition Nullable (ty : ColType) : Column := mkColumn ty false None.
Definition origin_type : ColType := TEnum "origins".

(* the first two columns of most tables *)
Definition timestamps : list (string * Column) :=
  [("updated_at", NotNullDefault TTimestamp "CURRENT_TIMESTAMP");
   ("created_at", NotNullDefault TTimestamp "CURRENT_TIMESTAMP")].

Definition create_entities : list Ddl := [
  CreateTable "entities" (timestamps ++ [
    ("id", NotNull TBytea); ("address", NotNull TBytea); ("email", NotNull TText);
    ("name", NotNull TText); ("callback_url", NotNull TText);
    ("callback_secret", NotNull TText);
    ("census_managers_addresses", NotNull (TArray TBytea))]);
  AlterTable "entities" [AddPrimaryKey "entities_pkey" ["id"]];
  AlterTable "entities" [AddUnique "entities_address_unique" ["address"]]].

Definition create_entities_origins : list Ddl := [
  CreateEnum "origins" ["Token"; "Form"; "DB"];
  CreateTable "entities_origins" [
    ("origin", NotNullDefault origin_type "'Form'"); ("entity_id", NotNull TBytea)];
  AlterTable "entities_origins"
    [AddForeignKey "entities_origins_entity_id_fkey" ["entity_id"] "entities" (Some ["id"]) Cascade];
  AlterTable "entities_origins" [AddPrimaryKey "entities_origins_pkey" ["origin"; "entity_id"]]].

Definition create_users : list Ddl := [
  CreateTable "users" (timestamps ++ [
    ("public_key", NotNull TBytea); ("digested_public_key", NotNull TBytea)]);
  AlterTable "users" [AddPrimaryKey "users_pkey" ["public_key"]];
  AlterTable "users" [AddUnique "users_digested_public_key_unique" ["digested_public_key"]]].

Definition create_members : list Ddl := [
  CreateTable "members" (timestamps ++ [
    ("id", NotNullDefault TUuid "public.gen_random_uuid()"); ("entity_id", NotNull TBytea);
    ("public_key", Nullable TBytea); ("street_address", NotNull TText);
    ("first_name", NotNull TText); ("last_name", NotNull TText); ("email", NotNull TText);
    ("phone", NotNull TText); ("date_of_birth", NotNull TTimestamp);
    ("origin", NotNullDefault origin_type "'Token'");
    ("consented", NotNullDefault TBoolean "false"); ("verified", NotNull TTimestamp);
    ("custom_fields", NotNullDefault TJsonb "'{}'::jsonb")]);
  AlterTable "members" [AddPrimaryKey "members_pkey" ["id"]];
  AlterTable "members"
    [AddForeignKey "members_entity_id_fkey" ["entity_id"] "entities" (Some ["id"]) Cascade];
  AlterTable "members"
    [AddForeignKey "members_public_key_fkey" ["public_key"] "users" (Some ["public_key"]) NoAction];
  AlterTable "members"
    [AddUnique "members_entity_id_public_key_unique" ["entity_id"; "public_key"]];
  AlterTable "members"
    [AddForeignKey "members_entity_id_origins_fkey" ["origin"; "entity_id"] "entities_origins"
       None NoAction]].

Definition create_push_tokens : list Ddl := [
  CreateTable "push_tokens" [
    ("user_id", NotNull TBytea);
    ("created_at", NotNullDefault TTimestamp "CURRENT_TIMESTAMP"); ("token", NotNull TText)];
  AlterTable "push_tokens" [AddPrimaryKey "push_tokens_pkey" ["token"]];
  AlterTable "push_tokens"
    [AddForeignKey "push_tokens_user_id_fkey" ["user_id"] "users" (Some ["public_key"]) Cascade]].

Definition create_targets : list Ddl := [
  CreateTable "targets" (timestamps ++ [
    ("id", NotNullDefault TUuid "public.gen_random_uuid()"); ("entity_id", NotNull TBytea);
    ("name", NotNull TText); ("filters", NotNullDefault TJsonb "'{}'::jsonb")]);
  AlterTable "targets" [AddPrimaryKey "targets_pkey" ["id"]];
  AlterTable "targets"
    [AddForeignKey "targets_entity_id_fkey" ["entity_id"] "entities" (Some ["id"]) Cascade];
  AlterTable "targets" [AddUnique "targets_entity_id_name_unique" ["entity_id"; "name"]]].

Definition create_censuses : list Ddl := [
  CreateTable "censuses" (timestamps ++ [
    ("target_id", NotNull TUuid); ("id", NotNull TBytea); ("name", NotNull TText);
    ("entity_id", NotNull TBytea); ("merkle_root", NotNull TBytea);
    ("merkle_tree_uri", NotNull TText); ("size", NotNull TInteger)]);
  AlterTable "censuses" [AddPrimaryKey "censuses_pkey" ["id"]];
  AlterTable "censuses"
    [AddForeignKey "censuses_target_id_fkey" ["target_id"] "targets" (Some ["id"]) NoAction];
  AlterTable "censuses"
    [AddForeignKey "censuses_entity_id_fkey" ["entity_id"] "entities" (Some ["id"]) Cascade]].

Definition create_census_members : list Ddl := [
  CreateTable "census_members" [("member_id", NotNull TUuid); ("census_id", NotNull TBytea)];
  AlterTable "census_members" [AddPrimaryKey "census_members_pkey" ["member_id"; "census_id"]];
  AlterTable "census_members"
    [AddForeignKey "census_members_member_id_fkey" ["member_id"] "members" (Some ["id"]) Cascade];
  AlterTable "census_members"
    [AddForeignKey "census_members_census_id_fkey" ["census_id"] "censuses" (Some ["id"]) Cascade]].

Definition migration1up : list Ddl :=
  [CreateExtension "pgcrypto"] ++ create_entities ++ create_entities_origins ++ create_users ++
  create_members ++ create_push_tokens ++ create_targets ++ create_censuses ++
  create_census_members.
Definition migration1down : list Ddl := [
  DropTable "census_members"; DropTable "censuses"; DropTable "targets";
  DropTable "push_tokens"; DropTable "members"; DropTable "users";
  DropTable "entities_origins"; DropType "origins"; DropTable "entities";
  DropExtension "pgcrypto"].

Definition migration2up : list Ddl :=
  [AlterTable "entities" [AddColumn "is_authorized" (NotNullDefault TBoolean "false")]].
Definition migration2down : list Ddl := [AlterTable "entities" [DropColumn "is_authorized"]].

(* SERIAL is an integer with the next value of a sequence as its default *)
Definition migration3up : list Ddl := [
  CreateExtension "intarray";
  CreateTable "tags" (timestamps ++ [
    ("id", NotNullDefault TInteger "nextval('tags_id_seq')"); ("name", NotNull TText);
    ("entity_id", NotNull TBytea)]);
  AlterTable "tags" [AddPrimaryKey "tags_pkey" ["id"]];
  AlterTable "tags" [AddUnique "tags_name_entity_id_unique" ["name"; "entity_id"]];
  AlterTable "tags"
    [AddForeignKey "tags_entity_id_fkey" ["entity_id"] "entities" (Some ["id"]) Cascade];
  AlterTable "members" [AddColumn "tags" (NotNullDefault (TArray TInteger) "'{}'")]].
Definition migration3down : list Ddl := [
  DropTable "tags"; AlterTable "members" [DropColumn "tags"]; DropExtension "intarray"].

Definition migration4up : list Ddl := [
  AlterTable "censuses" [AddColumn "ephemeral" (NotNullDefault TBoolean "false")];
  AlterTable "census_members" [
    AddColumn "ephemeral" (NotNullDefault TBoolean "false");
    AddColumn "public_key" (Nullable TBytea);
    AddColumn "digested_public_key" (Nullable TBytea);
    AddColumn "private_key" (Nullable TBytea)]].
Definition migration4down : list Ddl := [
  AlterTable "censuses" [DropColumn "ephemeral"];
  AlterTable "census_members" [
    DropColumn "ephemeral"; DropColumn "public_key"; DropColumn "digested_public_key";
    DropColumn "private_key"]].

Definition migration5up : list Ddl := [
  AlterTable "members" [
    DropConstraint "members_public_key_fkey";
    AddForeignKey "members_public_key_fkey" ["public_key"] "users" (Some ["public_key"]) Cascade;
    DropColumn "email"; AddColumn "email" (Nullable TText);
    AddUnique "members_entity_id_email_unique" ["entity_id"; "email"]];
  AlterTable "entities" [DropColumn "address"];
  AddEnumValue "origins" "API";
  AlterTable "entities_origins" [SetDefault "origin" "'Token'"]].
Definition migration5down : list Ddl := [
  AlterTable "members" [
    DropConstraint "members_public_key_fkey";
    AddForeignKey "members_public_key_fkey" ["public_key"] "users" (Some ["public_key"]) NoAction;
    DropConstraint "members_entity_id_email_unique"];
  AlterTable "entities" [AddColumn "address" (Nullable TBytea)]].

Definition migration6up : list Ddl := [
  AlterTable "entities" [
    AddColumn "type" (mkColumn TText false (Some "'undefined'"));
    AddColumn "size" (mkColumn TInteger false (Some "0"))]].
Definition migration6down : list Ddl := [AlterTable "entities" [DropColumn "type"; DropColumn "size"]].

Definition migration7up : list Ddl :=
  [AlterTable "entities" [AddColumn "consented" (NotNullDefault TBoolean "false")]].
Definition migration7down : list Ddl := [AlterTable "entities" [DropColumn "consented"]].

Record Migration := mkMigration { Id : string; Up : list Ddl; Down : list Ddl }.

Definition Migrations : list Migration := [
  mkMigration "1" migration1up migration1down; mkMigration "2" migration2up migration2down;
  mkMigration "3" migration3up migration3down; mkMigration "4" migration4up migration4down;
  mkMigration "5" migration5up migration5down; mkMigration "6" migration6up migration6down;
  mkMigration "7" migration7up migration7down].

(* the migrations applied one after the other, each a transaction *)
Definition migrate_up (ms : list Migration) (c : Catalog) : gerror + Catalog :=
  fold_run (fun m => run_script (Up m)) ms c.
Definition migrate_down (ms : list Migration) (c : Catalog) : gerror + Catalog :=
  fold_run (fun m => run_script (Down m)) (reverse ms) c.

(* the catalog when the first [n] migrations are applied to an empty database *)
Definition catalog_at (n : nat) : gerror + Catalog := migrate_up (take n Migrations) empty_catalog.
(* when all are *)
Definition catalog : Catalog :=
  Eval vm_compute in match catalog_at 7 with inr c => c | inl _ => empty_catalog end.

Definition column (c : Catalog) (tn n : string) : option Column :=
  t ← c_tables c !! tn; (fun x => x.2.2) <$> list_find (fun x => x.1 = n) (t_columns t).
Definition constraint (c : Catalog) (tn n : string) : option Constr :=
  t ← c_tables c !! tn; t_constraints t !! n.

(* what a result shows of its catalog *)
Definition seen {A} (r : gerror + Catalog) (f : Catalog -> option A) : option A :=
  match r with inr c => f c | inl _ => None end.
Definition undo (down : list Ddl) (r : gerror + Catalog) : gerror + Catalog :=
  match r with inr c => run_script down c | inl e => inl e end.

(* the catalogs that migrations give, up and down in any order *)
Inductive migrated : Catalog -> Prop :=
| migrated_empty : migrated empty_catalog
| migrated_up m c c' : m ∈ Migrations -> migrated c -> run_script (Up m) c = inr c' -> migrated c'
| migrated_down m c c' : m ∈ Migrations -> migrated c -> run_script (Down m) c = inr c' -> migrated c'.

(** ** Migrator *)

Inductive MigrationDirection := DirUp | DirDown.

(* rubenv/sql-migrate: FindMigrations of the source, GetMigrationRecords (the
   identifiers applied) and ExecMax, which "will apply at most max migrations,
   pass 0 for no limit, and returns the number of applied migrations"; and
   json.Marshal of the records *)
Class SqlMigrate (S : Type) := {
  FindMigrations : list Migration -> M S (list Migration);
  GetMigrationRecords : M S (list string);
  ExecMax : list Migration -> MigrationDirection -> nat -> M S nat;
  MarshalRecords : list string -> gerror + string;
}.

(* the methods of the interface Database that concern migrations *)
Class MigrationDatabase (S : Type) := {
  db_Migrate : MigrationDirection -> M S Z;
  db_MigrateStatus : M S (Z * Z * string);
  db_MigrationUpSync : M S Z;
}.

Section pgsql_migrations.
Context {S : Type} {L : SqlMigrate S}.

Definition Migrate (dir : MigrationDirection) : M S Z :=
  let! n := onErr (ExecMax Migrations dir 1) (Wrapf "failed migration: ") in
  retM (Z.of_nat n).

(* on an error the counts come with it, and no caller looks at them *)
Definition MigrateStatus : M S (Z * Z * string) :=
  let! total := onErr (FindMigrations Migrations)
    (Wrapf "cannot retrieve total migrations status: ") in
  let! record := onErr GetMigrationRecords
    (Wrapf "cannot  retrieve applied migrations status: ") in
  let! recordB := onErr (liftE (MarshalRecords record))
    (Wrapf "failed to parse migration status: ") in
  retM (Z.of_nat (length total), Z.of_nat (length record), recordB).

Definition MigrationUpSync : M S Z :=
  let! n := onErr (ExecMax Migrations DirUp 0) (Wrapf "cannot  perform missing migrations: ") in
  retM (Z.of_nat n).

#[export] Instance pgsql_migrations : MigrationDatabase S := {|
  db_Migrate := Migrate; db_MigrateStatus := MigrateStatus; db_MigrationUpSync := MigrationUpSync;
|}.
End pgsql_migrations.

Section Migrator.
Context {S : Type} {DB : MigrationDatabase S}.

Definition in_parens (e : gerror) : string := "(" +:+ error_string e +:+ ")".

(* the branches of the switch *)
Definition Migrator_upSync : M S unit :=
  let! status := onErr db_MigrateStatus (fun err =>
    Errorf ("could not retrieve migrations status: " +:+ in_parens err)) in
  let '(mTotal, mApplied, _) := status in
  if (mApplied <? mTotal)%Z then
    let! n := onErr db_MigrationUpSync (fun err =>
      Errorf ("could not apply necessary migrations " +:+ in_parens err)) in
    (* err is nil here *)
    fail_if! negb (n =? mTotal - mApplied)%Z
      with Errorf "could not apply all necessary migrations (<nil>)" in
    retM tt
  else
    fail_if! (mTotal <? mApplied)%Z
      with Errorf "someting goes terribly wrong with the DB migrations" in
    retM tt.

Definition Migrator_one (op : MigrationDirection) : M S unit :=
  let! n := onErr (db_Migrate op) (fun err =>
    Errorf ("error applying migration: " +:+ in_parens err)) in
  fail_if! negb (n =? 1)%Z with Errorf "reported applied migrations !=1" in
  retM tt.

Definition Migrator (action : string) : M S unit :=
  let! _ := (if bool_decide (action = "upSync") then Migrator_upSync
             else if bool_decide (action = "up") then Migrator_one DirUp
             else if bool_decide (action = "down") then Migrator_one DirDown
             else if bool_decide (action = "status") then retM tt
             else failM (Errorf "unknown migrate command")) in
  let! _ := onErr db_MigrateStatus (fun err =>
    Errorf ("could not retrieve migrations status: " +:+ in_parens err)) in
  retM tt.
End Migrator.

(* what the program relies on: [ids] are the records of the applied migrations *)
Class SqlMigrateLaws {S} (L : SqlMigrate S) (ids : S -> list string) : Prop := {
  FindMigrations_law ms s l s' : FindMigrations ms s = (Ok l, s') ->
    length l = length ms /\ ids s' = ids s;
  GetMigrationRecords_law s l s' : GetMigrationRecords s = (Ok l, s') -> l = ids s /\ ids s' = ids s;
  ExecMax_law ms dir max s n s' : ExecMax ms dir max s = (Ok n, s') ->
    match dir with
    | DirUp => length (ids s') = length (ids s) + n
    | DirDown => length (ids s) = length (ids s') + n
    end;
}.

(** ** Lemmas *)

Lemma catalog_at_last : catalog_at 7 = inr catalog.
Proof. vm_compute. reflexivity. Qed.

Lemma migrated_ok c : migrated c -> catalog_ok c.
Proof.
  induction 1; [exact empty_catalog_ok|by eapply run_script_ok..].
Qed.
Lemma migrate_up_ok ms c c' : catalog_ok c -> migrate_up ms c = inr c' -> catalog_ok c'.
Proof. apply fold_run_ok. intros. by eapply run_script_ok. Qed.
Lemma catalog_well_formed : catalog_ok catalog.
Proof. eapply migrate_up_ok; [exact empty_catalog_ok|exact catalog_at_last]. Qed.

(* a migration that adds columns to one table, and the one that drops them *)
Lemma columns_migration tn cols c c' :
  catalog_ok c -> cols <> [] ->
  run_script [AlterTable tn (map (fun x => AddColumn x.1 x.2) cols)] c = inr c' ->
  run_script [AlterTable tn (map DropColumn cols.*1)] c' = inr c.
Proof.
  intros Hok Hne. unfold run_script, fold_run.
  destruct (run_ddl _ c) eqn:E; [done|]. intros [= <-].
  by rewrite (add_drop_columns _ _ _ _ Hok Hne E).
Qed.

(* the same for two tables *)
Lemma columns_migration2 tn1 cols1 tn2 cols2 c c' :
  catalog_ok c -> tn1 <> tn2 -> cols1 <> [] -> cols2 <> [] ->
  run_script [AlterTable tn1 (map (fun x => AddColumn x.1 x.2) cols1);
              AlterTable tn2 (map (fun x => AddColumn x.1 x.2) cols2)] c = inr c' ->
  run_script [AlterTable tn1 (map DropColumn cols1.*1); AlterTable tn2 (map DropColumn cols2.*1)] c'
  = inr c.
Proof.
  intros Hok Hne Hc1 Hc2. unfold run_script, fold_run, run_ddl.
  destruct (fold_run _ _ c) as [|c1] eqn:E1; [done|].
  apply add_columns in E1 as (t1 & H1 & -> & Hnd1 & Hd1 & _); [|done].
  destruct (fold_run _ _ _) as [|c2] eqn:E2; [done|]. intros [= <-].
  apply add_columns in E2 as (t2 & H2 & -> & Hnd2 & Hd2 & Hty2); [|done].
  simpl in H2. rewrite lookup_insert_ne in H2 by done. rewrite put_comm by done.
  rewrite drop_columns; [..|done|done].
  - by rewrite drop_columns.
  - apply (run_ddl_ok (AlterTable tn2 (map (fun x => AddColumn x.1 x.2) cols2)) c); [done|].
    apply add_columns; [done|]. exists t2. by split_and!.
  - simpl. by rewrite lookup_insert_ne.
Qed.

(* the links of the chain, decided *)
Definition chain_holds (n : nat) : bool :=
  match Migrations !! n, catalog_at n, catalog_at (S n) with
  | Some m, inr c, inr c' =>
      match run_script (Down m) c' with
      | inr c0 => bool_decide (run_script (Up m) c = inr c') &&
                  bool_decide (run_script (Up m) c0 = inr c') &&
                  Bool.eqb (bool_decide (c0 = c)) (negb (bool_decide (Id m = "5")))
      | inl _ => false
      end
  | _, _, _ => false
  end.
Lemma chain_holds_spec n :
  chain_holds n = true -> exists m c c' c0, Migrations !! n = Some m /\ catalog_at n = inr c /\
    run_script (Up m) c = inr c' /\ catalog_at (S n) = inr c' /\
    run_script (Down m) c' = inr c0 /\ run_script (Up m) c0 = inr c' /\
    (c0 = c <-> Id m <> "5").
Proof.
  unfold chain_holds. destruct (Migrations !! n) as [m|]; [|done].
  destruct (catalog_at n) as [|c]; [done|]. destruct (catalog_at (S n)) as [|c']; [done|].
  destruct (run_script (Down m) c') as [|c0] eqn:E; [done|].
  rewrite !andb_true_iff, !bool_decide_eq_true, Bool.eqb_true_iff. intros [[H1 H2] H3].
  exists m, c, c', c0. split_and!; try done.
  destruct (decide (c0 = c)), (decide (Id m = "5"));
    rewrite ?bool_decide_eq_true_2, ?bool_decide_eq_false_2 in H3 by done; naive_solver.
Qed.

Section migrator_lemmas.
Context {S : Type} {L : SqlMigrate S} {ids : S -> list string} {HL : SqlMigrateLaws L ids}.

Lemma MigrateStatus_ok s t a r s' :
  MigrateStatus s = (Ok (t, a, r), s') ->
  t = Z.of_nat (length Migrations) /\ a = Z.of_nat (length (ids s)) /\ ids s' = ids s.
Proof.
  unfold MigrateStatus. intros (l & s1 & H1%onErr_ok & H)%bind_ok.
  apply bind_ok in H as (rec & s2 & H2%onErr_ok & H).
  apply bind_ok in H as (b & s3 & H3%onErr_ok & H). injection H as <- <- <- <-.
  apply FindMigrations_law in H1 as [-> Hi1]. apply GetMigrationRecords_law in H2 as [-> Hi2].
  assert (s3 = s2) as ->.
  { revert H3. unfold liftE. destruct (MarshalRecords _); [done|]. by intros [= _ <-]. }
  rewrite Hi2, Hi1. by split_and!.
Qed.

Lemma Migrate_ok dir s n s' :
  Migrate dir s = (Ok n, s') ->
  match dir with
  | DirUp => Z.of_nat (length (ids s')) = (Z.of_nat (length (ids s)) + n)%Z
  | DirDown => Z.of_nat (length (ids s')) = (Z.of_nat (length (ids s)) - n)%Z
  end.
Proof.
  unfold Migrate. intros (k & s1 & H1%onErr_ok & [= <- <-])%bind_ok.
  apply ExecMax_law in H1. destruct dir; lia.
Qed.

Lemma MigrationUpSync_ok s n s' :
  MigrationUpSync s = (Ok n, s') ->
  Z.of_nat (length (ids s')) = (Z.of_nat (length (ids s)) + n)%Z.
Proof.
  unfold MigrationUpSync. intros (k & s1 & H1%onErr_ok & [= <- <-])%bind_ok.
  apply ExecMax_law in H1. lia.
Qed.

Lemma Migrator_upSync_ok s s' :
  Migrator_upSync s = (Ok tt, s') -> length (ids s') = length Migrations.
Proof.
  unfold Migrator_upSync. intros ([[t a] r] & s1 & H1%onErr_ok & H)%bind_ok.
  apply MigrateStatus_ok in H1 as (-> & -> & Hi). revert H.
  destruct (Z.ltb_spec (Z.of_nat (length (ids s))) (Z.of_nat (length Migrations))).
  - intros (n & s2 & H2%onErr_ok & Hn)%bind_ok. apply MigrationUpSync_ok in H2. revert Hn.
    destruct (Z.eqb_spec n (Z.of_nat (length Migrations) - Z.of_nat (length (ids s)))); [|done].
    intros [= <-]. rewrite Hi in H2. lia.
  - destruct (Z.ltb_spec (Z.of_nat (length Migrations)) (Z.of_nat (length (ids s)))); [done|].
    intros [= <-]. rewrite Hi. lia.
Qed.

Lemma Migrator_upSync_action s s' :
  Migrator "upSync" s = (Ok tt, s') -> length (ids s') = length Migrations.
Proof.
  unfold Migrator. intros (u & s1 & H1 & H)%bind_ok. destruct u.
  apply bind_ok in H as ([[t a] r] & s2 & H2%onErr_ok & [= <-]).
  apply MigrateStatus_ok in H2 as (_ & _ & Hi). rewrite Hi.
  rewrite bool_decide_eq_true_2 in H1 by done. by apply Migrator_upSync_ok in H1.
Qed.

Lemma Migrator_one_ok dir s s' :
  Migrator_one dir s = (Ok tt, s') ->
  match dir with
  | DirUp => length (ids s') = length (ids s) + 1
  | DirDown => length (ids s) = length (ids s') + 1
  end.
Proof.
  unfold Migrator_one. intros (n & s1 & H1%onErr_ok & H)%bind_ok. apply Migrate_ok in H1.
  revert H. destruct (Z.eqb_spec n 1) as [->|]; [|done]. intros [= <-]. destruct dir; lia.
Qed.
End migrator_lemmas.

(** ** Properties *)

(* the migrations are well typed: from the empty database, whatever
    migrations are applied and undone in whatever order, every table has
    distinct columns of existing types, every key is on columns of its table,
    primary keys are unique and not null, and every foreign key refers to a
    key of an existing table. *)
Lemma migrations_typed (c : Catalog) : migrated c -> catalog_ok c.
Proof. apply migrated_ok. Qed.

(* migrations 2, 4, 6 and 7 can be undone on any well-formed catalog:
    the down script gives back exactly the catalog the up script was run on. *)
Lemma migration_down_undoes_up (m : Migration) (c c' : Catalog) :
  m ∈ Migrations -> Id m ∈ ["2"; "4"; "6"; "7"] -> catalog_ok c ->
  run_script (Up m) c = inr c' -> run_script (Down m) c' = inr c.
Proof.
  intros Hm Hid Hok Hup.
  repeat (apply elem_of_cons in Hm as [->|Hm]); [..|by apply not_elem_of_nil in Hm];
    try (apply (bool_decide_pack _) in Hid; vm_compute in Hid; done); revert Hup.
  - by apply (columns_migration "entities" [("is_authorized", NotNullDefault TBoolean "false")]).
  - by apply (columns_migration2 "censuses" [("ephemeral", NotNullDefault TBoolean "false")]
      "census_members" [("ephemeral", NotNullDefault TBoolean "false");
        ("public_key", Nullable TBytea); ("digested_public_key", Nullable TBytea);
        ("private_key", Nullable TBytea)]).
  - by apply (columns_migration "entities" [("type", mkColumn TText false (Some "'undefined'"));
      ("size", mkColumn TInteger false (Some "0"))]).
  - by apply (columns_migration "entities" [("consented", NotNullDefault TBoolean "false")]).
Qed.

(** C30: Along the seven migrations from the empty database: each applies, each
    can be undone and applied again, which gives the same catalog, and undoing
    the one applied last gives back the catalog before it except for the fifth;
    undoing all of them leaves the database empty. *)
Theorem migrations_chain :
  Forall (fun n => exists m c c' c0, Migrations !! n = Some m /\ catalog_at n = inr c /\
    run_script (Up m) c = inr c' /\ catalog_at (S n) = inr c' /\
    run_script (Down m) c' = inr c0 /\ run_script (Up m) c0 = inr c' /\
    (c0 = c <-> Id m <> "5")) (seq 0 7) /\
  migrate_down Migrations catalog = inr empty_catalog.
Proof.
  split; [|vm_compute; reflexivity].
  apply Forall_forall. intros n Hn%elem_of_seq. apply chain_holds_spec.
  do 7 (destruct n as [|n]; [vm_compute; reflexivity|]). lia.
Qed.

(* what undoing the fifth migration does not give back: the address of an
    entity is no longer required nor unique, the e-mail of a member is no longer
    required, the default origin of an entity is still 'Token' instead of 'Form'
    and origins still have the label 'API'. *)
Lemma migration5_not_undone :
  let before := catalog_at 4 in let after := undo migration5down (catalog_at 5) in
  (seen before (fun c => column c "entities" "address") = Some (NotNull TBytea) /\
   seen after (fun c => column c "entities" "address") = Some (Nullable TBytea)) /\
  (seen before (fun c => constraint c "entities" "entities_address_unique")
     = Some (Unique ["address"]) /\
   seen after (fun c => constraint c "entities" "entities_address_unique") = None) /\
  (seen before (fun c => column c "members" "email") = Some (NotNull TText) /\
   seen after (fun c => column c "members" "email") = Some (Nullable TText)) /\
  (seen before (fun c => column c "entities_origins" "origin" ≫= col_default) = Some "'Form'" /\
   seen after (fun c => column c "entities_origins" "origin" ≫= col_default) = Some "'Token'") /\
  (seen before (fun c => c_enums c !! "origins") = Some ["Token"; "Form"; "DB"] /\
   seen after (fun c => c_enums c !! "origins") = Some ["Token"; "Form"; "DB"; "API"]).
Proof. vm_compute. repeat split. Qed.

(** C26: What Migrator did when it reports no error: after "upSync" no
    migration is missing, "up" and "down" applied or undid exactly one,
    "status" changed nothing; it knows no other action. *)
Theorem Migrator_effect {S} (L : SqlMigrate S) (ids : S -> list string) (action : string) (s s' : S) :
  SqlMigrateLaws L ids -> Migrator action s = (Ok tt, s') ->
  (action = "upSync" /\ length (ids s') = length Migrations) \/
  (action = "up" /\ length (ids s') = length (ids s) + 1) \/
  (action = "down" /\ length (ids s) = length (ids s') + 1) \/
  (action = "status" /\ ids s' = ids s).
Proof.
  intros HL. unfold Migrator. intros (u & s1 & H1 & H)%bind_ok. destruct u.
  apply bind_ok in H as ([[t a] r] & s2 & H2%onErr_ok & [= <-]).
  apply MigrateStatus_ok in H2 as (_ & _ & Hi). rewrite Hi. clear Hi. revert H1.
  case_bool_decide as E1; [intros H1%Migrator_upSync_ok; auto|].
  case_bool_decide as E2; [intros H1%(Migrator_one_ok DirUp); auto|].
  case_bool_decide as E3; [intros H1%(Migrator_one_ok DirDown); auto|].
  case_bool_decide as E4; [intros [= <-]; auto 6|done].
Qed.

(** ** Witnesses: sql-migrate in memory *)

(* the catalog and the applied migrations, the last one first *)
Definition Memory : Type := Catalog * list string.

Fixpoint memory_up (ms : list Migration) (max : nat) (s : Memory) : gerror + (nat * Memory) :=
  match ms, max with
  | [], _ | _, 0 => inr (0, s)
  | m :: ms, Datatypes.S max =>
      if bool_decide (Id m ∈ s.2) then memory_up ms (Datatypes.S max) s else
      match run_script (Up m) s.1 with
      | inl e => inl e
      | inr c => match memory_up ms max (c, Id m :: s.2) with
                 | inl e => inl e
                 | inr (n, s) => inr (Datatypes.S n, s)
                 end
      end
  end.
Definition memory_down (ms : list Migration) (s : Memory) : gerror + (nat * Memory) :=
  match s.2 with
  | [] => inr (0, s)
  | i :: ids =>
      match list_find (fun m => Id m = i) ms with
      | None => inl (Errorf "unknown migration in database")
      | Some (_, m) => match run_script (Down m) s.1 with
                       | inl e => inl e
                       | inr c => inr (1, (c, ids))
                       end
      end
  end.

#[local] Instance memory_migrate : SqlMigrate Memory := {|
  FindMigrations := retM;
  GetMigrationRecords := fun s => (Ok s.2, s);
  ExecMax ms dir max := fun s =>
    match (match dir with
           | DirUp => memory_up ms (if max =? 0 then length ms else max) s
           | DirDown => memory_down ms s
           end) with
    | inl e => (Err e, s)
    | inr (n, s') => (Ok n, s')
    end;
  MarshalRecords := fun l => inr (String.concat "," l);
|}.

Lemma memory_up_length ms max s n s' :
  memory_up ms max s = inr (n, s') -> length s'.2 = length s.2 + n.
Proof.
  revert max s n. induction ms as [|m ms IH]; intros [|max] s n; simpl; try (intros [= <- <-]; lia).
  case_bool_decide; [apply IH|]. destruct (run_script _ _) as [|c]; [done|].
  destruct (memory_up ms max _) as [|[k s1]] eqn:E; [done|]. intros [= <- <-].
  apply IH in E. simpl in E. lia.
Qed.

#[local] Instance memory_laws : SqlMigrateLaws memory_migrate snd.
Proof.
  split.
  - intros ms s l s' [= <- <-]. done.
  - intros s l s' [= <- <-]. done.
  - intros ms dir max s n s'. simpl. destruct dir.
    + destruct (memory_up _ _ _) as [|[k s1]] eqn:E; [done|]. intros [= <- <-].
      by apply memory_up_length in E.
    + unfold memory_down. destruct s as [c [|i ids]]; simpl; [intros [= <- <-]; simpl; lia|].
      destruct (list_find _ _) as [[? m]|]; [|done]. destruct (run_script _ _); [done|].
      intros [= <- <-]. simpl. lia.
Qed.

Lemma ran {T A} (m : M T A) s a : (m s).1 = Ok a -> m s = (Ok a, (m s).2).
Proof. destruct (m s). simpl. by intros ->. Qed.

Definition synced : Memory := (Migrator "upSync" (empty_catalog, [])).2.
Definition undone : Memory := (Migrator "down" synced).2.

Lemma Migrator_effect_witness :
  length synced.2 = length Migrations /\ synced.1 = catalog /\
  (exists e, (Migrator "up" synced).1 = Err e) /\ length synced.2 = length undone.2 + 1.
Proof.
  split; [|split; [vm_compute; reflexivity|split; [eexists; vm_compute; reflexivity|]]].
  - destruct (Migrator_effect memory_migrate snd "upSync" (empty_catalog, []) synced memory_laws)
      as [[_ H]|[[H _]|[[H _]|[H _]]]]; [|exact H|discriminate H..].
    apply (ran (Migrator "upSync")). vm_compute. reflexivity.
  - destruct (Migrator_effect memory_migrate snd "down" synced undone memory_laws)
      as [[H _]|[[H _]|[[_ H]|[H _]]]]; [|discriminate H..|exact H|discriminate H].
    apply (ran (Migrator "down")). vm_compute. reflexivity.
Defined.

Definition small : Catalog :=
  put_table "entities" (mkTable [("id", NotNull TBytea)] ∅) empty_catalog.
Definition small7 : Catalog :=
  put_table "entities" (mkTable [("id", NotNull TBytea);
    ("consented", NotNullDefault TBoolean "false")] ∅) empty_catalog.

Lemma migration_down_undoes_up_witness : run_script migration7down small7 = inr small.
Proof.
  apply (migration_down_undoes_up (mkMigration "7" migration7up migration7down) small small7).
  - do 6 right. left.
  - do 3 right. left.
  - apply (run_ddl_ok (CreateTable "entities" [("id", NotNull TBytea)]) empty_catalog);
      [exact empty_catalog_ok|vm_compute; reflexivity].
  - vm_compute. reflexivity.
Defined.
