(* ===== verification/Relational.v ===== *)
(** * The tables as rows

    Schema models the tables by hand, as maps of records, and SchemaOk states
    their integrity [db_ok]. Here the same tables are rows of values, and the
    constraints the migrations declare get their meaning on rows: the two
    agree, and the rows have the columns and types the migrations give. *)
From S2P Require Import Prelude GoLib Ext Types Schema SchemaOk PgEntities Ddl Migrations.

(** ** Values and rows *)

Inductive Value :=
| VBytea (b : bytes) | VText (s : string) | VTimestamp (t : Z) | VUuid (u : uuid)
| VJsonb (b : bytes) | VBoolean (b : bool) | VInteger (z : Z) | VEnum (label : string)
| VByteaArray (l : list bytes) | VIntegerArray (l : list Z).

#[export] Instance Value_eq_dec : EqDecision Value.
Proof. solve_decision. Defined.

(* a missing value is NULL *)
Abbreviation Row := (list (string * option Value)).

Fixpoint cell (r : Row) (n : string) : option Value :=
  match r with
  | [] => None
  | (m, v) :: r => if decide (m = n) then v else cell r n
  end.

(* the values of a key; none when one is NULL *)
Definition key (cols : list string) (r : Row) : option (list Value) := mapM (cell r) cols.

(** ** The rows of each table *)

Definition stamps (created updated : Z) : Row :=
  [("updated_at", Some (VTimestamp updated)); ("created_at", Some (VTimestamp created))].

Definition entity_values (id : bytes) (r : EntityRow) : Row :=
  stamps (er_created_at r) (er_updated_at r) ++
  [("id", Some (VBytea id)); ("email", Some (VText (er_email r)));
   ("name", Some (VText (er_name r))); ("callback_url", Some (VText (er_callback_url r)));
   ("callback_secret", Some (VText (er_callback_secret r)));
   ("census_managers_addresses", Some (VByteaArray (er_census_managers_addresses r)));
   ("is_authorized", Some (VBoolean (er_is_authorized r)));
   ("type", Some (VText (er_type r))); ("size", Some (VInteger (er_size r)));
   ("consented", Some (VBoolean (er_consented r)))].
Definition origin_values (x : Origin * bytes) : Row :=
  [("origin", Some (VEnum (origin_label x.1))); ("entity_id", Some (VBytea x.2))].
Definition user_values (pk : bytes) (r : UserRow) : Row :=
  stamps (ur_created_at r) (ur_updated_at r) ++
  [("public_key", Some (VBytea pk));
   ("digested_public_key", Some (VBytea (ur_digested_public_key r)))].
Definition member_values (id : uuid) (r : MemberRow) : Row :=
  stamps (mr_created_at r) (mr_updated_at r) ++
  [("id", Some (VUuid id)); ("entity_id", Some (VBytea (mr_entity_id r)));
   ("public_key", VBytea <$> mr_public_key r);
   ("street_address", Some (VText (mr_street_address r)));
   ("first_name", Some (VText (mr_first_name r))); ("last_name", Some (VText (mr_last_name r)));
   ("phone", Some (VText (mr_phone r)));
   ("date_of_birth", Some (VTimestamp (mr_date_of_birth r)));
   ("origin", Some (VEnum (origin_label (mr_origin r))));
   ("consented", Some (VBoolean (mr_consented r)));
   ("verified", Some (VTimestamp (mr_verified r)));
   ("custom_fields", Some (VJsonb (mr_custom_fields r)));
   ("tags", Some (VIntegerArray (mr_tags r))); ("email", VText <$> mr_email r)].
Definition target_values (id : uuid) (r : TargetRow) : Row :=
  stamps (tr_created_at r) (tr_updated_at r) ++
  [("id", Some (VUuid id)); ("entity_id", Some (VBytea (tr_entity_id r)));
   ("name", Some (VText (tr_name r))); ("filters", Some (VJsonb (tr_filters r)))].
Definition census_values (id : bytes) (r : CensusRow) : Row :=
  stamps (cr_created_at r) (cr_updated_at r) ++
  [("target_id", Some (VUuid (cr_target_id r))); ("id", Some (VBytea id));
   ("name", Some (VText (cr_name r))); ("entity_id", Some (VBytea (cr_entity_id r)));
   ("merkle_root", Some (VBytea (cr_merkle_root r)));
   ("merkle_tree_uri", Some (VText (cr_merkle_tree_uri r)));
   ("size", Some (VInteger (cr_size r))); ("ephemeral", Some (VBoolean (cr_ephemeral r)))].
Definition census_member_values (x : uuid * bytes) (r : CensusMemberRow) : Row :=
  [("member_id", Some (VUuid x.1)); ("census_id", Some (VBytea x.2));
   ("ephemeral", Some (VBoolean (xr_ephemeral r))); ("public_key", VBytea <$> xr_public_key r);
   ("digested_public_key", VBytea <$> xr_digested_public_key r);
   ("private_key", VBytea <$> xr_private_key r)].
Definition tag_values (id : Z) (r : TagRow) : Row :=
  stamps (gr_created_at r) (gr_updated_at r) ++
  [("id", Some (VInteger id)); ("name", Some (VText (gr_name r)));
   ("entity_id", Some (VBytea (gr_entity_id r)))].

Definition map_rows {K R} `{Countable K} (f : K -> R -> Row) (m : gmap K R) : list Row :=
  map (fun x => f x.1 x.2) (map_to_list m).

(* no statement of the program writes push_tokens *)
Definition rows (d : Db) (tn : string) : list Row :=
  if decide (tn = "entities") then map_rows entity_values (entities d) else
  if decide (tn = "entities_origins") then map origin_values (elements (entities_origins d)) else
  if decide (tn = "users") then map_rows user_values (users d) else
  if decide (tn = "members") then map_rows member_values (members d) else
  if decide (tn = "targets") then map_rows target_values (targets d) else
  if decide (tn = "censuses") then map_rows census_values (censuses d) else
  if decide (tn = "census_members") then map_rows census_member_values (census_members d) else
  if decide (tn = "tags") then map_rows tag_values (tags d) else [].

(** ** What a catalog asks of the rows *)

Definition constr_holds (d : Db) (l : list Row) (k : Constr) : Prop :=
  match k with
  | PrimaryKey cols => Forall (fun r => is_Some (key cols r)) l /\ NoDup (omap (key cols) l)
  | Unique cols => NoDup (omap (key cols) l)
  | ForeignKey cols table refs _ =>
      Forall (fun r => match key cols r with
                       | None => True
                       | Some v => Exists (fun r' => key refs r' = Some v) (rows d table)
                       end) l
  end.

Definition constrs_hold (c : Catalog) (d : Db) : Prop :=
  map_Forall (fun tn t => map_Forall (fun _ k => constr_holds d (rows d tn) k) (t_constraints t))
    (c_tables c).

Definition has_type (enums : gmap string (list string)) (ty : ColType) (v : Value) : bool :=
  match ty, v with
  | TBytea, VBytea _ | TText, VText _ | TTimestamp, VTimestamp _ | TUuid, VUuid _
  | TJsonb, VJsonb _ | TBoolean, VBoolean _ | TInteger, VInteger _ => true
  | TArray TBytea, VByteaArray _ | TArray TInteger, VIntegerArray _ => true
  | TEnum n, VEnum label => bool_decide (label ∈ default [] (enums !! n))
  | _, _ => false
  end.

Definition row_typed (enums : gmap string (list string)) (cols : list (string * Column)) (r : Row) :
    Prop :=
  r.*1 ≡ₚ cols.*1 /\
  Forall (fun x => match cell r x.1 with
                   | Some v => has_type enums (col_type x.2) v = true
                   | None => col_not_null x.2 = false
                   end) cols.
Definition rows_typed (c : Catalog) (d : Db) : Prop :=
  map_Forall (fun tn t => Forall (row_typed (c_enums c) (t_columns t)) (rows d tn)) (c_tables c).

(** ** Keys of rows and keys of records *)

Lemma elem_of_map_rows {K R} `{Countable K} (f : K -> R -> Row) m r :
  r ∈ map_rows f m <-> exists k x, m !! k = Some x /\ r = f k x.
Proof.
  unfold map_rows. rewrite list_elem_of_fmap. split.
  - intros ([k x] & -> & Hk%elem_of_map_to_list). eauto.
  - intros (k & x & Hk & ->). exists (k, x). split; [done|]. by apply elem_of_map_to_list.
Qed.

Lemma NoDup_omap_keys {A V} (f : A -> option V) (l : list A) :
  NoDup l ->
  NoDup (omap f l) <-> (forall x y v, x ∈ l -> y ∈ l -> f x = Some v -> f y = Some v -> x = y).
Proof.
  induction l as [|a l IH]; intros Hnd; [split; [set_solver|constructor]|].
  apply NoDup_cons in Hnd as [Ha Hnd]. specialize (IH Hnd). simpl.
  destruct (f a) as [v|] eqn:Ea.
  - rewrite NoDup_cons, IH. rewrite list_elem_of_omap. split.
    + intros [Hv H] x y w Hx Hy. apply elem_of_cons in Hx as [->|Hx], Hy as [->|Hy]; try done.
      * rewrite Ea. intros [= <-] Hw. destruct Hv. eauto.
      * intros Hw. rewrite Ea. intros [= ->]. destruct Hv. eauto.
      * apply H; done.
    + intros H. split.
      * intros (x & Hx & Hv). destruct Ha. rewrite (H a x v); [done|set_solver..|done|done].
      * intros x y w Hx Hy. apply H; set_solver.
  - rewrite IH. split.
    + intros H x y w Hx Hy. apply elem_of_cons in Hx as [->|Hx], Hy as [->|Hy];
        rewrite ?Ea; try done. apply H; done.
    + intros H x y w Hx Hy. apply H; set_solver.
Qed.

Lemma omap_map {A B V} (f : A -> B) (g : B -> option V) l : omap g (map f l) = omap (g ∘ f) l.
Proof. induction l as [|a l IH]; [done|]. cbn in *. by rewrite IH. Qed.

(* a unique constraint on rows is one on records *)
Lemma unique_rows {K R V} `{Countable K} (f : K -> R -> Row) (m : gmap K R) cols
    (g : R -> option V) (enc : V -> list Value) :
  Inj (=) (=) enc -> (forall k r, key cols (f k r) = enc <$> g r) ->
  NoDup (omap (key cols) (map_rows f m)) <-> functional_in g m.
Proof.
  intros Hinj Hkey. unfold map_rows. rewrite omap_map, NoDup_omap_keys by apply NoDup_map_to_list.
  unfold functional_in. simpl. setoid_rewrite Hkey. split.
  - intros Hu k1 k2 r1 r2 v H1%elem_of_map_to_list H2%elem_of_map_to_list G1 G2.
    assert (E : (k1, r1) = (k2, r2)); [|congruence].
    apply (Hu _ _ (enc v)); simpl; by rewrite ?G1, ?G2.
  - intros Hu [k1 r1] [k2 r2] v H1%elem_of_map_to_list H2%elem_of_map_to_list. simpl.
    intros (v1 & G1 & E1)%fmap_Some (v2 & G2 & E2)%fmap_Some. rewrite E1 in E2.
    apply Hinj in E2 as <-. assert (k1 = k2) as <- by eauto. congruence.
Qed.

(* a primary key is the key of the map *)
Lemma primary_rows {K R} `{Countable K} d (f : K -> R -> Row) (m : gmap K R) cols
    (enc : K -> list Value) :
  Inj (=) (=) enc -> (forall k r, key cols (f k r) = Some (enc k)) ->
  constr_holds d (map_rows f m) (PrimaryKey cols).
Proof.
  intros Hinj Hkey. split.
  - apply Forall_forall. intros r (k & x & _ & ->)%elem_of_map_rows. rewrite Hkey. by eexists.
  - unfold map_rows. rewrite omap_map, NoDup_omap_keys by apply NoDup_map_to_list.
    intros [k1 r1] [k2 r2] v H1%elem_of_map_to_list H2%elem_of_map_to_list. simpl.
    rewrite !Hkey. intros [= <-] [= E%Hinj]. congruence.
Qed.

(* a foreign key from the records of one map to another *)
Lemma foreign_rows {K R} `{Countable K} d (f : K -> R -> Row) (m : gmap K R) cols t refs od
    (P : K -> R -> Prop) :
  (forall k r, match key cols (f k r) with
               | None => True
               | Some v => Exists (fun r' => key refs r' = Some v) (rows d t)
               end <-> P k r) ->
  constr_holds d (map_rows f m) (ForeignKey cols t refs od) <->
  (forall k r, m !! k = Some r -> P k r).
Proof.
  intros HP. simpl. rewrite Forall_forall. split.
  - intros H0 k r Hk. apply HP. apply H0. apply elem_of_map_rows. eauto.
  - intros H0 r (k & x & Hk & ->)%elem_of_map_rows. apply HP. eauto.
Qed.

(* some row of a map has the key [k] *)
Lemma exists_rows {K R} `{Countable K} (f : K -> R -> Row) (m : gmap K R) refs
    (enc : K -> list Value) k :
  Inj (=) (=) enc -> (forall k r, key refs (f k r) = Some (enc k)) ->
  Exists (fun r' => key refs r' = Some (enc k)) (map_rows f m) <-> is_Some (m !! k).
Proof.
  intros Hinj Hkey. rewrite Exists_exists. split.
  - intros (r & (k' & x & Hk & ->)%elem_of_map_rows & Hr). rewrite Hkey in Hr.
    injection Hr as ->%Hinj. by eexists.
  - intros [x Hx]. exists (f k x). split; [apply elem_of_map_rows; eauto|apply Hkey].
Qed.

(** ** The constraints of the catalog *)

Definition declared (c : Catalog) : list (string * Constr) :=
  concat (map (fun x => map (fun y => (x.1, y.2)) (map_to_list (t_constraints x.2)))
            (map_to_list (c_tables c))).

Lemma constrs_hold_declared c d :
  constrs_hold c d <-> Forall (fun x => constr_holds d (rows d x.1) x.2) (declared c).
Proof.
  unfold constrs_hold, declared. rewrite Forall_concat, Forall_map, map_Forall_to_list.
  apply Forall_iff. intros [tn t]. simpl. rewrite Forall_map.
  etrans; [apply map_Forall_to_list|]. by apply Forall_iff; intros [n k].
Qed.

Definition catalog_declared : list (string * Constr) := Eval vm_compute in declared catalog.
Lemma catalog_declared_eq : declared catalog = catalog_declared.
Proof. vm_compute. reflexivity. Qed.

(* how the values of a key encode it *)
#[export] Instance enc1_inj {A} (f : A -> Value) : Inj (=) (=) f -> Inj (=) (=) (fun a => [f a]).
Proof. intros Hf a b [= ?%Hf]. done. Qed.
#[export] Instance enc2_inj {A B} (f : A -> Value) (g : B -> Value) :
  Inj (=) (=) f -> Inj (=) (=) g -> Inj (=) (=) (fun x : A * B => [f x.1; g x.2]).
Proof. intros Hf Hg [a b] [a' b'] [= ?%Hf ?%Hg]. simpl in *. congruence. Qed.
#[export] Instance VBytea_inj : Inj (=) (=) VBytea.
Proof. by intros ?? [=]. Qed.
#[export] Instance VText_inj : Inj (=) (=) VText.
Proof. by intros ?? [=]. Qed.
#[export] Instance VUuid_inj : Inj (=) (=) VUuid.
Proof. by intros ?? [=]. Qed.
#[export] Instance VInteger_inj : Inj (=) (=) VInteger.
Proof. by intros ?? [=]. Qed.
#[export] Instance origin_inj : Inj (=) (=) (fun o => VEnum (origin_label o)).
Proof. by intros [] [] [=]. Qed.

Lemma origin_rows_key x : key ["origin"; "entity_id"] (origin_values x)
  = Some [VEnum (origin_label x.1); VBytea x.2].
Proof. reflexivity. Qed.

Lemma exists_origin d x :
  Exists (fun r' => key ["origin"; "entity_id"] r' = Some [VEnum (origin_label x.1); VBytea x.2])
    (map origin_values (elements (entities_origins d))) <-> x ∈ entities_origins d.
Proof.
  rewrite Exists_exists. split.
  - intros (r & (y & -> & Hy%elem_of_elements)%list_elem_of_fmap & Hr). rewrite origin_rows_key in Hr.
    injection Hr as Ho He. destruct x as [o e], y as [o' e']. simpl in *. subst e'.
    assert (o' = o) as -> by (destruct o, o'; done). done.
  - intros Hx. exists (origin_values x). split; [|apply origin_rows_key].
    apply list_elem_of_fmap. exists x. by rewrite elem_of_elements.
Qed.

Lemma exists_entity d e :
  Exists (fun r' => key ["id"] r' = Some [VBytea e]) (map_rows entity_values (entities d))
  <-> is_Some (entities d !! e).
Proof. by apply (exists_rows entity_values (entities d) ["id"] (fun k => [VBytea k])); [apply _|]. Qed.
Lemma exists_user d k :
  Exists (fun r' => key ["public_key"] r' = Some [VBytea k]) (map_rows user_values (users d))
  <-> is_Some (users d !! k).
Proof. by apply (exists_rows user_values (users d) _ (fun k => [VBytea k])); [apply _|]. Qed.
Lemma exists_member d i :
  Exists (fun r' => key ["id"] r' = Some [VUuid i]) (map_rows member_values (members d))
  <-> is_Some (members d !! i).
Proof. by apply (exists_rows member_values (members d) _ (fun k => [VUuid k])); [apply _|]. Qed.
Lemma exists_target d i :
  Exists (fun r' => key ["id"] r' = Some [VUuid i]) (map_rows target_values (targets d))
  <-> is_Some (targets d !! i).
Proof. by apply (exists_rows target_values (targets d) _ (fun k => [VUuid k])); [apply _|]. Qed.
Lemma exists_census d c :
  Exists (fun r' => key ["id"] r' = Some [VBytea c]) (map_rows census_values (censuses d))
  <-> is_Some (censuses d !! c).
Proof. by apply (exists_rows census_values (censuses d) _ (fun k => [VBytea k])); [apply _|]. Qed.

Section constraints.
Context (d : Db).

Lemma users_unique :
  NoDup (omap (key ["digested_public_key"]) (map_rows user_values (users d)))
  <-> functional_in user_key (users d).
Proof. by apply (unique_rows _ _ _ _ (fun v => [VBytea v])); [apply _|]. Qed.
Lemma members_pubkey_unique :
  NoDup (omap (key ["entity_id"; "public_key"]) (map_rows member_values (members d)))
  <-> functional_in member_pubkey_key (members d).
Proof.
  apply (unique_rows _ _ _ _ (fun v => [VBytea v.1; VBytea v.2])); [apply _|].
  intros k r. unfold key, member_pubkey_key. simpl. by destruct (mr_public_key r).
Qed.
Lemma members_email_unique :
  NoDup (omap (key ["entity_id"; "email"]) (map_rows member_values (members d)))
  <-> functional_in member_email_key (members d).
Proof.
  apply (unique_rows _ _ _ _ (fun v => [VBytea v.1; VText v.2])); [apply _|].
  intros k r. unfold key, member_email_key. simpl. by destruct (mr_email r).
Qed.
Lemma targets_unique :
  NoDup (omap (key ["entity_id"; "name"]) (map_rows target_values (targets d)))
  <-> functional_in target_key (targets d).
Proof. by apply (unique_rows _ _ _ _ (fun v => [VBytea v.1; VText v.2])); [apply _|]. Qed.
Lemma tags_unique :
  NoDup (omap (key ["name"; "entity_id"]) (map_rows tag_values (tags d)))
  <-> functional_in tag_key (tags d).
Proof. by apply (unique_rows _ _ _ _ (fun v => [VText v.1; VBytea v.2])); [apply _|]. Qed.

Lemma origins_primary :
  constr_holds d (map origin_values (elements (entities_origins d)))
    (PrimaryKey ["origin"; "entity_id"]).
Proof.
  split.
  - apply Forall_forall. intros r (x & -> & _)%list_elem_of_fmap. rewrite origin_rows_key. by eexists.
  - rewrite omap_map, NoDup_omap_keys by apply NoDup_elements.
    intros x y v _ _. unfold compose. rewrite !origin_rows_key. intros [= <-] [= Ho He].
    destruct x as [o e], y as [o' e']. simpl in *. subst. by destruct o, o'.
Qed.
Lemma origins_foreign :
  constr_holds d (map origin_values (elements (entities_origins d)))
    (ForeignKey ["entity_id"] "entities" ["id"] Cascade)
  <-> (forall o e, (o, e) ∈ entities_origins d -> is_Some (entities d !! e)).
Proof.
  simpl. rewrite Forall_forall. split.
  - intros H o e Ho. apply exists_entity. apply (H (origin_values (o, e))).
    apply list_elem_of_fmap. exists (o, e). by rewrite elem_of_elements.
  - intros H r ([o e] & -> & Ho%elem_of_elements)%list_elem_of_fmap. apply exists_entity. eauto.
Qed.
End constraints.

(** ** The two descriptions agree *)

(* one goal for each constraint the hypothesis can be about *)
Ltac each_declared H :=
  unfold catalog_declared in H;
  repeat (let E := fresh in apply elem_of_cons in H as [E|H];
    [try discriminate E; injection E as; subst|]);
  [..|by apply not_elem_of_nil in H].

Lemma primary_keys_hold d tn cols :
  (tn, PrimaryKey cols) ∈ catalog_declared -> constr_holds d (rows d tn) (PrimaryKey cols).
Proof.
  assert (HN : forall cols, constr_holds d [] (PrimaryKey cols)) by (split; constructor).
  intros H. each_declared H.
  - by apply (primary_rows _ _ _ _ (fun x => [VUuid x.1; VBytea x.2])); [apply _|].
  - by apply (primary_rows _ _ _ _ (fun x => [VBytea x])); [apply _|].
  - by apply (primary_rows _ _ _ _ (fun x => [VUuid x])); [apply _|].
  - by apply (primary_rows _ _ _ _ (fun x => [VBytea x])); [apply _|].
  - apply origins_primary.
  - by apply (primary_rows _ _ _ _ (fun x => [VBytea x])); [apply _|].
  - by apply (primary_rows _ _ _ _ (fun x => [VInteger x])); [apply _|].
  - by apply (primary_rows _ _ _ _ (fun x => [VUuid x])); [apply _|].
  - apply HN.
Qed.

(* a unique constraint of the catalog, on records *)
Definition unique_means (d : Db) (tn : string) (cols : list string) : Prop :=
  match tn, cols with
  | "members", ["entity_id"; "email"] => functional_in member_email_key (members d)
  | "members", _ => functional_in member_pubkey_key (members d)
  | "users", _ => functional_in user_key (users d)
  | "tags", _ => functional_in tag_key (tags d)
  | _, _ => functional_in target_key (targets d)
  end.
Lemma unique_keys_hold d tn cols :
  (tn, Unique cols) ∈ catalog_declared ->
  constr_holds d (rows d tn) (Unique cols) <-> unique_means d tn cols.
Proof.
  intros H. each_declared H.
  - apply members_email_unique.
  - apply members_pubkey_unique.
  - apply users_unique.
  - apply tags_unique.
  - apply targets_unique.
Qed.

(* the foreign keys of the catalog, on records *)
Definition foreign_means (d : Db) (tn : string) (cols : list string) : Prop :=
  match tn, cols with
  | "census_members", ["census_id"] =>
      forall k r, census_members d !! k = Some r -> is_Some (censuses d !! k.2)
  | "census_members", _ =>
      forall k r, census_members d !! k = Some r -> is_Some (members d !! k.1)
  | "censuses", ["entity_id"] =>
      forall k r, censuses d !! k = Some r -> is_Some (entities d !! cr_entity_id r)
  | "censuses", _ =>
      forall k r, censuses d !! k = Some r -> is_Some (targets d !! cr_target_id r)
  | "members", ["origin"; "entity_id"] =>
      forall k r, members d !! k = Some r -> (mr_origin r, mr_entity_id r) ∈ entities_origins d
  | "members", ["entity_id"] =>
      forall k r, members d !! k = Some r -> is_Some (entities d !! mr_entity_id r)
  | "members", _ =>
      forall k r, members d !! k = Some r ->
        forall pk, mr_public_key r = Some pk -> is_Some (users d !! pk)
  | "entities_origins", _ => forall o e, (o, e) ∈ entities_origins d -> is_Some (entities d !! e)
  | "tags", _ => forall k r, tags d !! k = Some r -> is_Some (entities d !! gr_entity_id r)
  | "targets", _ => forall k r, targets d !! k = Some r -> is_Some (entities d !! tr_entity_id r)
  | _, _ => True
  end.
Lemma foreign_keys_hold d tn cols t refs od :
  (tn, ForeignKey cols t refs od) ∈ catalog_declared ->
  constr_holds d (rows d tn) (ForeignKey cols t refs od) <-> foreign_means d tn cols.
Proof.
  intros H. each_declared H.
  - apply foreign_rows. intros k r. apply exists_census.
  - apply foreign_rows. intros k r. apply exists_member.
  - apply foreign_rows. intros k r. apply exists_entity.
  - apply foreign_rows. intros k r. apply exists_target.
  - apply foreign_rows. intros k r. apply (exists_origin d (mr_origin r, mr_entity_id r)).
  - apply foreign_rows. intros k r. apply exists_entity.
  - apply foreign_rows. intros k r.
    assert (Hk : key ["public_key"] (member_values k r) = (fun pk => [VBytea pk]) <$> mr_public_key r)
      by (unfold key; simpl; by destruct (mr_public_key r)).
    rewrite Hk. destruct (mr_public_key r) as [pk|]; cbn [fmap option_fmap option_map]; [|done].
    rewrite (exists_user d pk). split; [by intros ? ? [= <-]|auto].
  - apply origins_foreign.
  - apply foreign_rows. intros k r. apply exists_entity.
  - apply foreign_rows. intros k r. apply exists_entity.
  - split; [done|constructor].
Qed.

Definition constr_means (d : Db) (x : string * Constr) : Prop :=
  match x.2 with
  | PrimaryKey _ => True
  | Unique cols => unique_means d x.1 cols
  | ForeignKey cols _ _ _ => foreign_means d x.1 cols
  end.

Lemma constrs_hold_means d : constrs_hold catalog d <-> Forall (constr_means d) catalog_declared.
Proof.
  rewrite constrs_hold_declared, catalog_declared_eq, !Forall_forall.
  apply forall_proper. intros [tn k]. unfold constr_means. simpl.
  assert (Hk : (tn, k) ∈ catalog_declared -> constr_holds d (rows d tn) k <-> match k with
            | PrimaryKey _ => True
            | Unique cols => unique_means d tn cols
            | ForeignKey cols _ _ _ => foreign_means d tn cols
            end); [|tauto].
  intros Hin. destruct k.
  - split; [done|intros _]. by apply primary_keys_hold.
  - by apply unique_keys_hold.
  - by apply foreign_keys_hold.
Qed.

Lemma constrs_hold_db_ok d : constrs_hold catalog d <-> db_ok d.
Proof.
  rewrite constrs_hold_means. unfold catalog_declared. rewrite !Forall_cons. unfold constr_means.
  cbn [fst snd unique_means foreign_means]. split.
  - intros H. decompose [and] H. clear H.
    split; constructor; auto; try (intros i c r Hr; match goal with
      H : forall k r, census_members d !! k = Some r -> _ |- _ => exact (H (i, c) r Hr) end).
    intros i r Hr. constructor; eauto.
  - intros [[U1 U2 U3 U4 U5] [F1 F2 F3 F4 F5 F6 F7 F8]]. split_and!; eauto.
    all: try (intros [i c] r Hr; simpl; eauto).
    all: try (intros i r Hr; by destruct (F2 i r Hr)).
Qed.

(** ** The rows have the columns of the catalog *)

Definition catalog_columns : list (string * list (string * Column)) :=
  Eval vm_compute in map (fun x => (x.1, t_columns x.2)) (map_to_list (c_tables catalog)).

Lemma rows_typed_columns d :
  rows_typed catalog d <->
  Forall (fun x => Forall (row_typed (c_enums catalog) x.2) (rows d x.1)) catalog_columns.
Proof.
  assert (E : catalog_columns = map (fun x => (x.1, t_columns x.2)) (map_to_list (c_tables catalog)))
    by (vm_compute; reflexivity).
  rewrite E, Forall_map. unfold rows_typed. etrans; [apply map_Forall_to_list|].
  by apply Forall_iff; intros [tn t].
Qed.

Lemma origin_label_enum (enums : gmap string (list string)) o :
  enums !! "origins" = Some ["Token"; "Form"; "DB"; "API"] ->
  bool_decide (origin_label o ∈ default [] (enums !! "origins")) = true.
Proof. intros ->. by destruct o. Qed.

Lemma Forall_map_rows {K R} `{Countable K} (f : K -> R -> Row) (m : gmap K R) P :
  (forall k r, P (f k r)) -> Forall P (map_rows f m).
Proof. intros HP. apply Forall_forall. by intros r (k & x & _ & ->)%elem_of_map_rows. Qed.

Lemma catalog_enums : c_enums catalog !! "origins" = Some ["Token"; "Form"; "DB"; "API"].
Proof. vm_compute. reflexivity. Qed.

Lemma rows_typed_all d : rows_typed catalog d.
Proof.
  rewrite rows_typed_columns. unfold catalog_columns.
  pose proof (fun o => origin_label_enum (c_enums catalog) o catalog_enums) as He.
  assert (Hs : forall (l l' : list string), bool_decide (l ≡ₚ l') = true -> l ≡ₚ l')
    by (intros l l'; apply bool_decide_eq_true).
  revert He. generalize (c_enums catalog) as enums. intros enums He.
  repeat (apply Forall_cons; split); [..|by apply Forall_nil]; cbn [fst snd].
  all: try (apply Forall_map_rows; intros k r);
    try (apply Forall_forall; intros row ([o e] & -> & _)%list_elem_of_fmap).
  all: try (split; [apply Hs; vm_compute; reflexivity|]).
  all: repeat (apply Forall_cons; split); try apply Forall_nil; try exact I.
  all: cbn.
  all: repeat match goal with
              | |- context [_ <$> ?x] =>
                  lazymatch x with Some _ => fail | None => fail | _ => destruct x end
              end.
  all: try reflexivity; try apply He.
Qed.

(** ** Properties *)

(** C7: The hand-written tables and the migrations agree: the constraints the
    seven migrations leave in the catalog (primary, unique and foreign keys)
    hold of the rows of a database exactly when the model's integrity [db_ok]
    does; so the integrity proved of the methods is the one PostgreSQL
    enforces. *)
Theorem schema_is_migrated (d : Db) :
  catalog_at 7 = inr catalog /\ (constrs_hold catalog d <-> db_ok d).
Proof. split; [apply catalog_at_last|apply constrs_hold_db_ok]. Qed.

(* the rows are well typed: every row of every table has the columns the
    migrations leave the table with and no others, each with a value of the
    type of the column (an origin is a label of the enumeration), and NULL only
    where the column admits it. *)
Lemma rows_well_typed (d : Db) : rows_typed catalog d.
Proof. apply rows_typed_all. Qed.
