(* ===== verification/Statements.v ===== *)
(** * The columns the statements name (database/pgsql/pgsql.go)

    Every SQL statement of the methods, with the tables and the columns it
    names, checked against the catalogs of the migrations the way PostgreSQL
    resolves names. *)
From S2P Require Import Prelude GoLib Ext Ddl Migrations.

(* a column, qualified with its table where the statement does *)
Inductive ColRef := In (table col : string) | Bare (col : string).

Inductive Query :=
| Insert (table : string) (cols : list string)
| Update (table : string) (set_cols reads : list string)
| Select (from : list string) (cols : list ColRef)
| Delete (table : string) (reads : list string).

Definition table_cols (c : Catalog) (tn : string) : list string :=
  match c_tables c !! tn with Some t => (t_columns t).*1 | None => [] end.

(* a column without a table is a column of exactly one of the tables *)
Definition resolves (c : Catalog) (from : list string) (x : ColRef) : bool :=
  match x with
  | In tn n => bool_decide (tn ∈ from) && bool_decide (n ∈ table_cols c tn)
  | Bare n => length (filter (fun tn => n ∈ table_cols c tn) from) =? 1
  end.

(* columns an INSERT has to give *)
Definition required (t : Table) : list string :=
  (filter (fun x => col_not_null x.2 = true /\ col_default x.2 = None) (t_columns t)).*1.

Definition query_ok (c : Catalog) (q : Query) : bool :=
  match q with
  | Insert tn cols =>
      match c_tables c !! tn with
      | Some t => bool_decide (NoDup cols) && forallb (has_col t) cols &&
                  forallb (fun n => bool_decide (n ∈ cols)) (required t)
      | None => false
      end
  | Update tn set_cols reads =>
      match c_tables c !! tn with
      | Some t => bool_decide (NoDup set_cols) && forallb (has_col t) (set_cols ++ reads)
      | None => false
      end
  | Select from cols =>
      forallb (fun tn => bool_decide (is_Some (c_tables c !! tn))) from &&
      forallb (resolves c from) cols
  | Delete tn reads =>
      match c_tables c !! tn with Some t => forallb (has_col t) reads | None => false end
  end.

(** ** The statements *)

Definition from_one (tn : string) (cols : list string) : Query := Select [tn] (map Bare cols).

Definition insert_users : Query :=
  Insert "users" ["public_key"; "digested_public_key"; "created_at"; "updated_at"].
Definition insert_members_cols : Query :=
  Insert "members" ["entity_id"; "public_key"; "street_address"; "first_name"; "last_name"; "email";
    "phone"; "date_of_birth"; "verified"; "custom_fields"; "created_at"; "updated_at"].
Definition member_cols : list string :=
  ["id"; "entity_id"; "public_key"; "street_address"; "first_name"; "last_name"; "email"; "phone";
   "date_of_birth"; "verified"; "custom_fields"].

Definition entity_statements : list (string * Query) := [
  ("AddEntity", Insert "entities" ["id"; "is_authorized"; "email"; "name"; "type"; "size"; "consented";
     "callback_url"; "callback_secret"; "census_managers_addresses"; "created_at"; "updated_at"]);
  ("AddEntity", Insert "entities_origins" ["entity_id"; "origin"]);
  ("Entity", from_one "entities" ["id"; "is_authorized"; "email"; "name"; "type"; "size"; "consented";
     "callback_url"; "callback_secret"; "census_managers_addresses"]);
  ("DeleteEntity", Delete "entities" ["id"]);
  ("EntitiesID", from_one "entities" ["id"]);
  ("AuthorizeEntity", Update "entities" ["is_authorized"; "updated_at"] ["is_authorized"; "id"]);
  ("UpdateEntity", Update "entities" ["name"; "callback_url"; "callback_secret"; "email"; "updated_at"]
     ["name"; "email"; "id"; "callback_url"; "callback_secret"]);
  ("EntityOrigins", from_one "entities_origins" ["origin"; "entity_id"]);
  ("AdminEntityList", from_one "entities" ["name"; "id"; "email"; "created_at"; "updated_at"; "type";
     "size"])].

Definition user_statements : list (string * Query) := [
  ("AddUser", insert_users);
  ("User", from_one "users" ["public_key"; "digested_public_key"])].

Definition member_statements : list (string * Query) := [
  ("CreateMembersWithTokens", Insert "members" ["id"; "entity_id"; "public_key"; "street_address";
     "first_name"; "last_name"; "phone"; "date_of_birth"; "verified"; "created_at"; "updated_at"]);
  ("AddMember", insert_users); ("AddMember", insert_members_cols);
  ("ImportMembersWithPubKey", insert_members_cols);
  ("ImportMembers", insert_members_cols);
  ("AddMemberBulk", insert_users); ("AddMemberBulk", insert_members_cols);
  ("UpdateMember", Update "members" ["street_address"; "first_name"; "last_name"; "email";
     "date_of_birth"; "tags"; "updated_at"] ["id"; "entity_id"; "street_address"; "first_name";
     "last_name"; "email"; "date_of_birth"; "tags"]);
  ("RegisterMember", insert_users);
  ("RegisterMember", Update "members" ["public_key"; "updated_at"; "verified"] ["id"; "entity_id"]);
  ("Member", from_one "members" (member_cols ++ ["consented"; "tags"]));
  ("MemberByEmail", from_one "members" (member_cols ++ ["consented"; "tags"]));
  ("Members", from_one "members" (member_cols ++ ["consented"; "tags"]));
  ("MembersKeys", from_one "members" (member_cols ++ ["consented"; "tags"]));
  ("DeleteMember", Delete "members" ["id"; "entity_id"]);
  ("DeleteMembers", Delete "members" ["entity_id"; "id"]);
  ("DeleteMembersByKeys", Delete "members" ["entity_id"; "public_key"]);
  ("MemberPubKey", from_one "members" member_cols);
  ("MembersTokensEmails", from_one "members" ["id"; "email"; "entity_id"; "public_key"]);
  ("CountMembers", from_one "members" ["entity_id"]);
  ("ListMembers", from_one "members" (member_cols ++ ["tags"]))].

Definition tag_statements : list (string * Query) := [
  ("AddTag", Insert "tags" ["entity_id"; "name"; "created_at"; "updated_at"]);
  ("ListTags", from_one "tags" ["id"; "name"; "entity_id"]);
  ("DeleteTag", Update "members" ["tags"] ["tags"; "entity_id"]);
  ("DeleteTag", Delete "tags" ["id"; "entity_id"]);
  ("Tag", from_one "tags" ["id"; "name"; "entity_id"]);
  ("TagByName", from_one "tags" ["id"; "name"; "entity_id"]);
  ("AddTagToMembers", Update "members" ["tags"] ["tags"; "entity_id"; "id"]);
  ("RemoveTagFromMembers", Update "members" ["tags"] ["tags"; "entity_id"; "id"])].

Definition census_statements : list (string * Query) := [
  ("DumpClaims", Select ["users"; "members"] [In "users" "digested_public_key";
     In "members" "public_key"; In "users" "public_key"; In "members" "entity_id"]);
  ("DumpCensusClaims", from_one "census_members" ["digested_public_key"; "census_id"]);
  ("ExpandCensusMembers", Insert "census_members" ["census_id"; "member_id"; "ephemeral"; "public_key";
     "digested_public_key"; "private_key"]);
  ("ExpandCensusMembers", Update "censuses" ["size"] ["id"; "entity_id"]);
  ("ListEphemeralMemberInfo", Select ["census_members"; "members"] [Bare "id"; Bare "first_name";
     Bare "last_name"; Bare "email"; Bare "private_key"; In "census_members" "digested_public_key";
     In "members" "id"; In "census_members" "member_id"; In "census_members" "census_id";
     In "census_members" "ephemeral"]);
  ("EphemeralMemberInfoByEmail", from_one "census_members" ["member_id"; "census_id"; "ephemeral";
     "private_key"; "public_key"; "digested_public_key"]);
  ("AddTarget", Insert "targets" ["entity_id"; "name"; "filters"; "created_at"; "updated_at"]);
  ("Target", from_one "targets" ["id"; "entity_id"; "name"; "filters"]);
  ("CountTargets", from_one "targets" ["entity_id"]);
  ("ListTargets", from_one "targets" ["id"; "entity_id"; "name"; "filters"]);
  ("Census", from_one "censuses" ["id"; "entity_id"; "target_id"; "name"; "size"; "merkle_root";
     "merkle_tree_uri"; "ephemeral"; "created_at"; "updated_at"]);
  ("AddCensus", Insert "censuses" ["id"; "entity_id"; "target_id"; "name"; "size"; "merkle_root";
     "merkle_tree_uri"; "ephemeral"; "created_at"; "updated_at"]);
  ("AddCensusWithMembers", Select ["members"; "users"] [In "members" "id"; In "members" "public_key";
     In "users" "public_key"; In "members" "entity_id"]);
  ("AddCensusWithMembers", Insert "censuses" ["id"; "entity_id"; "target_id"; "name"; "size";
     "merkle_root"; "merkle_tree_uri"; "created_at"; "updated_at"]);
  ("AddCensusWithMembers", Insert "census_members" ["census_id"; "member_id"]);
  ("AddCensusWithMembers", Update "censuses" ["size"; "updated_at"] ["id"]);
  ("UpdateCensus", Update "censuses" ["merkle_root"; "merkle_tree_uri"; "updated_at"]
     ["merkle_root"; "merkle_tree_uri"; "id"; "entity_id"]);
  ("CountCensus", from_one "censuses" ["entity_id"]);
  ("ListCensus", from_one "censuses" ["id"; "entity_id"; "target_id"; "name"; "merkle_root";
     "merkle_tree_uri"; "created_at"; "updated_at"]);
  ("DeleteCensus", Delete "censuses" ["id"; "entity_id"])].

Definition statements : list (string * Query) :=
  entity_statements ++ user_statements ++ member_statements ++ tag_statements ++ census_statements.

Definition well_typed (r : gerror + Catalog) (q : Query) : bool :=
  match r with inr c => query_ok c q | inl _ => false end.

(* the statements of the methods that a database with [n] migrations refuses *)
Definition refused (n : nat) : list string :=
  remove_dups (map fst (filter (fun x => well_typed (catalog_at n) x.2 = false) statements)).

(** C27: Every statement of pgsql.go names existing tables and columns, without
    ambiguity, and every INSERT gives the columns that need a value, once the
    seven migrations are applied; with fewer, some statement is refused, and
    without the last one no entity can be created or read. *)
Theorem statements_well_typed :
  Forall (fun x => query_ok catalog x.2 = true) statements /\
  Forall (fun n => refused n <> []) (seq 0 7) /\
  refused 6 = ["AddEntity"; "Entity"] /\ refused 7 = [].
Proof.
  split; [|split; [|split; vm_compute; reflexivity]].
  - apply forallb_Forall. vm_compute. reflexivity.
  - assert (H : forallb (fun n => negb (bool_decide (refused n = []))) (seq 0 7) = true)
      by (vm_compute; reflexivity).
    apply forallb_Forall in H. apply (Forall_impl _ _ _ H). intros n Hn.
    by apply negb_true_iff, bool_decide_eq_false in Hn.
Qed.
