(* ===== verification/Database.v ===== *)
(** * The interface between the APIs and the database (database/database.go)

    [Database S]: the methods of database.Database the request handlers call,
    as computations on a state [S]; [Host S]: what else a handler asks for (the
    clock, random values, e-mail, the Ethereum faucet, the registration
    callback). The handlers are written against the two classes, their theorems
    against the laws below; [pgsql] is the implementation of pgsql.go. *)
From S2P Require Import Prelude GoLib Ext Util Types Schema SchemaOk Session Tenant.
From S2P Require Import PgTypes PgTx PgEntities PgMembers PgQueries PgTags PgCensus PgOps.

(* A method whose pointer may be nil without an error has an option, one whose
   value is read although there may be an error has both. *)
Class Database (S : Type) := {
  db_AddEntity : bytes -> EntityInfo -> M S unit;
  db_Entity : bytes -> M S Entity;
  db_UpdateEntity : bytes -> EntityInfo -> M S Z;
  db_AdminEntityList : M S (list Entity);
  db_AddMember : bytes -> bytes -> MemberInfo -> M S uuid;
  db_ImportMembers : bytes -> list MemberInfo -> M S unit;
  db_AddMemberBulk : bytes -> list Member -> M S unit;
  db_Member : bytes -> option uuid -> M S Member;
  db_Members : bytes -> list uuid -> M S (list Member * list uuid);
  db_DeleteMember : bytes -> option uuid -> M S unit;
  db_DeleteMembers : bytes -> list uuid -> M S (Z * list uuid);
  db_DeleteMembersByKeys : bytes -> list bytes -> M S (Z * list bytes);
  db_MemberPubKey : bytes -> bytes -> M S Member;
  db_CountMembers : bytes -> M S Z;
  db_ListMembers : bytes -> option ListOptions -> M S (list Member);
  db_UpdateMember : bytes -> option uuid -> MemberInfo -> M S Z;
  db_AddTag : bytes -> string -> M S Z;
  db_DeleteTag : bytes -> Z -> M S unit;
  db_TagByName : bytes -> string -> M S (option Tag);
  db_ListTags : bytes -> M S (list Tag);
  db_AddTagToMembers : bytes -> list uuid -> Z -> M S (Z * list uuid);
  db_RemoveTagFromMembers : bytes -> list uuid -> Z -> M S (Z * list uuid);
  db_CreateMembersWithTokens : bytes -> list uuid -> M S unit;
  db_RegisterMember : bytes -> bytes -> option uuid -> M S unit;
  db_MembersTokensEmails : bytes -> M S (list Member);
  db_AddTarget : bytes -> Target -> M S uuid;
  db_Target : bytes -> option uuid -> M S (option Target);
  db_CountTargets : bytes -> M S Z;
  db_ListTargets : bytes -> M S (list Target * option gerror);
  db_TargetMembers : bytes -> option uuid -> M S (list Member);
  db_DumpClaims : bytes -> M S (list bytes);
  db_ExpandCensusMembers : bytes -> bytes -> M S (list CensusMember);
  db_ListEphemeralMemberInfo : bytes -> bytes -> M S (list EphemeralMemberInfo);
  db_EphemeralMemberInfoByEmail : bytes -> bytes -> string -> M S (option EphemeralMemberInfo);
  db_Census : bytes -> bytes -> M S Census;
  db_UpdateCensus : bytes -> bytes -> option CensusInfo -> M S Z;
  db_AddCensus : bytes -> bytes -> option uuid -> option CensusInfo -> M S unit;
  db_CountCensus : bytes -> M S Z;
  db_DeleteCensus : bytes -> bytes -> M S unit;
  db_ListCensus : bytes -> option ListOptions -> M S (list Census);
}.

Class Host (S : Type) := {
  (* uuid.New() *)
  host_uuid : M S uuid;
  (* time.Now().Unix() *)
  host_Unix : M S Z;
  (* rand.Perm(n) *)
  host_Perm : nat -> M S (list nat);
  (* go callback(url, secret, event, uid) *)
  host_callback : string -> string -> string -> uuid -> M S unit;
  (* m.smtp.SendVotingLink and SendValidationLink *)
  host_SendVotingLink : EphemeralMemberInfo -> Entity -> bytes -> M S unit;
  host_SendValidationLink : Member -> Entity -> M S unit;
  (* m.smtp != nil *)
  host_smtp : bool;
  (* the choices of the scheduler among the goroutines of a handler *)
  host_schedule : M S (list nat);
  (* time.Time.String, in the time zone of the server *)
  host_time_String : Z -> string;
  (* m.eth.SendTokens(ctx, BytesToAddress(b), maxAcceptedBalance, amount), by b;
     None when m.eth is nil *)
  host_SendTokens : option (string -> Z -> Z -> M S Z);
  (* RegistryRequests.With(prometheus.Labels{method: l}).Inc(), by l *)
  host_Inc : string -> M S unit;
}.

(* request.X.String() of a pointer: a nil pointer panics *)
Definition deref {S A} (p : option A) : M S A :=
  match p with
  | Some a => retM a
  | None => panicM "invalid memory address or nil pointer dereference"
  end.

(** ** A database on another state *)
Section map_db.
Context {S T : Type} (F : forall A, M S A -> M T A).

Definition map_db (D : Database S) : Database T := {|
  db_AddEntity e i := F _ (db_AddEntity e i);
  db_Entity e := F _ (db_Entity e);
  db_UpdateEntity e i := F _ (db_UpdateEntity e i);
  db_AdminEntityList := F _ db_AdminEntityList;
  db_AddMember e k i := F _ (db_AddMember e k i);
  db_ImportMembers e l := F _ (db_ImportMembers e l);
  db_AddMemberBulk e l := F _ (db_AddMemberBulk e l);
  db_Member e i := F _ (db_Member e i);
  db_Members e l := F _ (db_Members e l);
  db_DeleteMember e i := F _ (db_DeleteMember e i);
  db_DeleteMembers e l := F _ (db_DeleteMembers e l);
  db_DeleteMembersByKeys e l := F _ (db_DeleteMembersByKeys e l);
  db_MemberPubKey e k := F _ (db_MemberPubKey e k);
  db_CountMembers e := F _ (db_CountMembers e);
  db_ListMembers e f := F _ (db_ListMembers e f);
  db_UpdateMember e i m := F _ (db_UpdateMember e i m);
  db_AddTag e n := F _ (db_AddTag e n);
  db_DeleteTag e t := F _ (db_DeleteTag e t);
  db_TagByName e n := F _ (db_TagByName e n);
  db_ListTags e := F _ (db_ListTags e);
  db_AddTagToMembers e l t := F _ (db_AddTagToMembers e l t);
  db_RemoveTagFromMembers e l t := F _ (db_RemoveTagFromMembers e l t);
  db_CreateMembersWithTokens e l := F _ (db_CreateMembersWithTokens e l);
  db_RegisterMember e k t := F _ (db_RegisterMember e k t);
  db_MembersTokensEmails e := F _ (db_MembersTokensEmails e);
  db_AddTarget e t := F _ (db_AddTarget e t);
  db_Target e t := F _ (db_Target e t);
  db_CountTargets e := F _ (db_CountTargets e);
  db_ListTargets e := F _ (db_ListTargets e);
  db_TargetMembers e t := F _ (db_TargetMembers e t);
  db_DumpClaims c := F _ (db_DumpClaims c);
  db_ExpandCensusMembers e c := F _ (db_ExpandCensusMembers e c);
  db_ListEphemeralMemberInfo e c := F _ (db_ListEphemeralMemberInfo e c);
  db_EphemeralMemberInfoByEmail e c m := F _ (db_EphemeralMemberInfoByEmail e c m);
  db_Census e c := F _ (db_Census e c);
  db_UpdateCensus e c i := F _ (db_UpdateCensus e c i);
  db_AddCensus e c t i := F _ (db_AddCensus e c t i);
  db_CountCensus e := F _ (db_CountCensus e);
  db_DeleteCensus e c := F _ (db_DeleteCensus e c);
  db_ListCensus e f := F _ (db_ListCensus e f);
|}.

Definition map_host (H : Host S) : Host T := {|
  host_uuid := F _ host_uuid;
  host_Unix := F _ host_Unix;
  host_Perm n := F _ (host_Perm n);
  host_callback a b c u := F _ (host_callback a b c u);
  host_SendVotingLink m e p := F _ (host_SendVotingLink m e p);
  host_SendValidationLink m e := F _ (host_SendValidationLink m e);
  host_smtp := host_smtp;
  host_schedule := F _ host_schedule;
  host_time_String := host_time_String;
  host_SendTokens := option_map (fun f a b c => F _ (f a b c)) host_SendTokens;
  host_Inc l := F _ (host_Inc l);
|}.
End map_db.

(** ** The implementation *)

(* return &a, nil *)
Definition pointer {S A} (m : M S A) : M S (option A) := let! a := m in retM (Some a).
(* return nil, err and return list, nil *)
Definition with_error {S A} (m : M S (list A)) : M S (list A * option gerror) :=
  let! r := tryM m in
  retM (match r with inl err => ([], Some err) | inr l => (l, None) end).

Lemma pointer_keeps {S A T} (f : S -> T) (m : M S A) : keeps f m -> keeps f (pointer m).
Proof. intros Hm. unfold pointer. go_keeps. Qed.
Lemma with_error_keeps {S A T} (f : S -> T) (m : M S (list A)) :
  keeps f m -> keeps f (with_error m).
Proof. intros Hm. unfold with_error. go_keeps. Qed.
Lemma pointer_preserves {S A} (I : S -> Prop) (R : A -> Prop) (m : M S A) :
  preserves I R m -> preserves I (fun p => forall a, p = Some a -> R a) (pointer m).
Proof.
  intros Hm. eapply preserves_bind; [exact Hm|]. intros a Ha. apply preserves_ret.
  by intros ? [= <-].
Qed.
Lemma deref_preserves {S A} (I : S -> Prop) (p : option A) :
  preserves I (fun a => p = Some a) (deref p).
Proof. destruct p; [by apply preserves_ret|by apply preserves_panic]. Qed.
#[export] Hint Resolve pointer_keeps with_error_keeps : go.

Section pgsql.
Context {X : Ext} {V : Env}.

#[export] Instance pgsql : Database World := {|
  db_AddEntity := AddEntity;
  db_Entity := pg_Entity;
  db_UpdateEntity := UpdateEntity;
  db_AdminEntityList := AdminEntityList;
  db_AddMember := AddMember;
  db_ImportMembers := ImportMembers;
  db_AddMemberBulk := AddMemberBulk;
  db_Member := pg_Member;
  db_Members := pg_Members;
  db_DeleteMember := DeleteMember;
  db_DeleteMembers := DeleteMembers;
  db_DeleteMembersByKeys := DeleteMembersByKeys;
  db_MemberPubKey := MemberPubKey;
  db_CountMembers := CountMembers;
  db_ListMembers := ListMembers;
  db_UpdateMember := UpdateMember;
  db_AddTag := AddTag;
  db_DeleteTag := DeleteTag;
  db_TagByName e n := pointer (TagByName e n);
  db_ListTags := ListTags;
  db_AddTagToMembers := AddTagToMembers;
  db_RemoveTagFromMembers := RemoveTagFromMembers;
  db_CreateMembersWithTokens := CreateMembersWithTokens;
  db_RegisterMember := RegisterMember;
  db_MembersTokensEmails := MembersTokensEmails;
  db_AddTarget := AddTarget;
  db_Target e t := pointer (pg_Target e t);
  db_CountTargets := CountTargets;
  db_ListTargets e := with_error (ListTargets e);
  db_TargetMembers := TargetMembers;
  db_DumpClaims := DumpClaims;
  db_ExpandCensusMembers := ExpandCensusMembers;
  db_ListEphemeralMemberInfo := ListEphemeralMemberInfo;
  db_EphemeralMemberInfoByEmail e c m := pointer (EphemeralMemberInfoByEmail e c m);
  db_Census := pg_Census;
  db_UpdateCensus := UpdateCensus;
  db_AddCensus := AddCensus;
  db_CountCensus := CountCensus;
  db_DeleteCensus := DeleteCensus;
  db_ListCensus := ListCensus;
|}.

(* the clock and random values of the environment; e-mails and callbacks leave
   the database alone *)
Definition env_host (eth : option (string -> Z -> Z -> D Z)) : Host World := {|
  host_uuid := uuid_New;
  host_Unix := time_Now;
  host_Perm := fun n => retM (seq 0 n);
  host_callback := fun _ _ _ _ => retM tt;
  host_SendVotingLink := fun _ _ _ => retM tt;
  host_SendValidationLink := fun _ _ => retM tt;
  host_smtp := true;
  host_schedule := retM [];
  host_time_String := decimal;
  host_SendTokens := eth;
  host_Inc := fun _ => retM tt;
|}.
End pgsql.

(** ** What the handlers rely on *)

(* anything may be done to the members of an entity, or nothing *)
Definition every_key (e : bytes) : Permit := everything.
Definition no_key (e : bytes) : Permit := nothing.

(* [J] is an invariant of the state that every method keeps when it is called
   for an entity [e] in [E], if [K e] permits what it does to the members, and
   every read method keeps for every entity. *)
Class DatabaseInv {S} (DB : Database S) (J : S -> Prop) (E : bytes -> Prop)
    (K : bytes -> Permit) : Prop := {
  inv_Entity e : preserves J anything (db_Entity e);
  inv_AdminEntityList : preserves J anything db_AdminEntityList;
  inv_Member e i : preserves J anything (db_Member e i);
  inv_Members e l : preserves J anything (db_Members e l);
  inv_MemberPubKey e k : preserves J anything (db_MemberPubKey e k);
  inv_CountMembers e : preserves J anything (db_CountMembers e);
  inv_ListMembers e f : preserves J anything (db_ListMembers e f);
  inv_TagByName e n : preserves J anything (db_TagByName e n);
  inv_ListTags e : preserves J anything (db_ListTags e);
  inv_MembersTokensEmails e : preserves J anything (db_MembersTokensEmails e);
  inv_Target e t : preserves J anything (db_Target e t);
  inv_CountTargets e : preserves J anything (db_CountTargets e);
  inv_ListTargets e : preserves J anything (db_ListTargets e);
  inv_TargetMembers e t : preserves J anything (db_TargetMembers e t);
  inv_DumpClaims e : preserves J anything (db_DumpClaims e);
  inv_ListEphemeralMemberInfo e c : preserves J anything (db_ListEphemeralMemberInfo e c);
  inv_EphemeralMemberInfoByEmail e c m : preserves J anything (db_EphemeralMemberInfoByEmail e c m);
  inv_Census e c : preserves J anything (db_Census e c);
  inv_CountCensus e : preserves J anything (db_CountCensus e);
  inv_ListCensus e f : preserves J anything (db_ListCensus e f);
  inv_AddEntity e i : E e -> preserves J anything (db_AddEntity e i);
  inv_UpdateEntity e i : E e -> preserves J anything (db_UpdateEntity e i);
  inv_AddMember e k i : E e -> may_store (K e) k -> preserves J anything (db_AddMember e k i);
  inv_ImportMembers e l : E e -> preserves J anything (db_ImportMembers e l);
  inv_AddMemberBulk e l : E e -> Forall (fun m => key_of (may_store (K e)) (m_PubKey m)) l ->
    preserves J anything (db_AddMemberBulk e l);
  inv_DeleteMember e i : E e -> (forall id r, i = Some id -> may_delete (K e) id r) ->
    preserves J anything (db_DeleteMember e i);
  inv_DeleteMembers e l : E e -> (forall id r, id ∈ l -> may_delete (K e) id r) ->
    preserves J anything (db_DeleteMembers e l);
  inv_DeleteMembersByKeys e l : E e ->
    (forall id r k, k ∈ l -> mr_public_key r = Some k -> may_delete (K e) id r) ->
    preserves J anything (db_DeleteMembersByKeys e l);
  inv_UpdateMember e i m : E e -> preserves J anything (db_UpdateMember e i m);
  inv_AddTag e n : E e -> preserves J anything (db_AddTag e n);
  inv_DeleteTag e t : E e -> preserves J anything (db_DeleteTag e t);
  inv_AddTagToMembers e l t : E e -> preserves J anything (db_AddTagToMembers e l t);
  inv_RemoveTagFromMembers e l t : E e -> preserves J anything (db_RemoveTagFromMembers e l t);
  inv_CreateMembersWithTokens e l : E e -> preserves J anything (db_CreateMembersWithTokens e l);
  inv_RegisterMember e k t : E e -> (forall i, t = Some i -> may_register (K e) i k) ->
    preserves J anything (db_RegisterMember e k t);
  inv_AddTarget e t : E e -> preserves J anything (db_AddTarget e t);
  inv_ExpandCensusMembers e c : E e -> preserves J anything (db_ExpandCensusMembers e c);
  inv_UpdateCensus e c i : E e -> preserves J anything (db_UpdateCensus e c i);
  inv_AddCensus e c t i : E e -> preserves J anything (db_AddCensus e c t i);
  inv_DeleteCensus e c : E e -> preserves J anything (db_DeleteCensus e c);
}.

(* The same for the services; the faucet may be asked to pay the addresses of [P]. *)
Class HostInv {S} (H : Host S) (J : S -> Prop) (P : bytes -> Prop) : Prop := {
  inv_uuid : preserves J anything host_uuid;
  inv_Unix : preserves J anything host_Unix;
  inv_Perm n : preserves J anything (host_Perm n);
  inv_callback a b c u : preserves J anything (host_callback a b c u);
  inv_SendVotingLink m e p : preserves J anything (host_SendVotingLink m e p);
  inv_SendValidationLink m e : preserves J anything (host_SendValidationLink m e);
  inv_schedule : preserves J anything host_schedule;
  inv_SendTokens f a b c : host_SendTokens = Some f -> P a -> preserves J anything (f a b c);
  inv_Inc l : preserves J anything (host_Inc l);
}.

Create HintDb handlers discriminated.
#[export] Hint Resolve inv_Entity inv_AdminEntityList inv_Member inv_Members inv_MemberPubKey
  inv_CountMembers inv_ListMembers inv_TagByName inv_ListTags inv_MembersTokensEmails inv_Target
  inv_CountTargets inv_ListTargets inv_TargetMembers inv_DumpClaims inv_ListEphemeralMemberInfo
  inv_EphemeralMemberInfoByEmail inv_Census inv_CountCensus inv_ListCensus inv_AddEntity
  inv_UpdateEntity inv_AddMember inv_ImportMembers inv_AddMemberBulk inv_DeleteMember
  inv_DeleteMembers inv_DeleteMembersByKeys inv_UpdateMember inv_AddTag inv_DeleteTag
  inv_AddTagToMembers inv_RemoveTagFromMembers inv_CreateMembersWithTokens inv_RegisterMember
  inv_AddTarget inv_ExpandCensusMembers inv_UpdateCensus inv_AddCensus inv_DeleteCensus
  inv_uuid inv_Unix inv_Perm inv_callback inv_SendVotingLink inv_SendValidationLink
  inv_schedule inv_SendTokens inv_Inc
  preserves_fail preserves_panic : handlers.
#[export] Hint Extern 0 (DatabaseInv _ _ _ _) => eassumption : handlers.
#[export] Hint Extern 0 (HostInv _ _ _) => eassumption : handlers.

Section map_db_inv.
Context {S T : Type} (F : forall A, M S A -> M T A) (J : S -> Prop) (K : T -> Prop).
Hypothesis F_inv : forall A (m : M S A), preserves J anything m -> preserves K anything (F A m).

Lemma map_db_inv (D : Database S) E L : DatabaseInv D J E L -> DatabaseInv (map_db F D) K E L.
Proof. intros HD. split; intros; apply F_inv; eauto with handlers. Qed.

Lemma map_host_inv (H : Host S) P : HostInv H J P -> HostInv (map_host F H) K P.
Proof.
  intros HH. split; intros; try (apply F_inv; eauto with handlers; fail).
  simpl in *. destruct host_SendTokens as [g|] eqn:Hg; [|done]. simplify_option_eq.
  apply F_inv. by eapply inv_SendTokens.
Qed.
End map_db_inv.

Section pgsql_inv.
Context {X : Ext} {V : Env}.

(* An invariant of the statements of every entity of [E] is one of the methods. *)
Lemma pgsql_inv (I : Db -> Prop) (E : bytes -> Prop) K :
  (forall e, E e -> StmtInv I e (K e)) -> DatabaseInv pgsql (holds I) E K.
Proof.
  intros HE. split; intros; simpl;
    try (apply keeps_safe; auto using AdminEntityList_keeps with go; fail);
    pose proof (HE _ ltac:(eassumption)).
  all: eauto using AddEntity_safe, UpdateEntity_safe, AddMember_safe, ImportMembers_safe,
    AddMemberBulk_safe, DeleteMember_safe, DeleteMembers_safe, DeleteMembersByKeys_safe,
    UpdateMember_safe, AddTag_safe, DeleteTag_safe, AddTagToMembers_safe,
    RemoveTagFromMembers_safe, CreateMembersWithTokens_safe, RegisterMember_safe,
    AddTarget_safe, ExpandCensusMembers_safe, UpdateCensus_safe, AddCensus_safe,
    DeleteCensus_safe.
Qed.

Lemma env_host_inv (I : Db -> Prop) (P : bytes -> Prop) eth :
  (forall f a b c, eth = Some f -> P a -> safe I anything (f a b c)) ->
  HostInv (env_host eth) (holds I) P.
Proof.
  intros He. split; intros; simpl in *; eauto; apply keeps_safe; auto with go.
Qed.
End pgsql_inv.

(* An invariant of everything a handler calls is an invariant of the handler. *)
Ltac go_inv :=
  intros; repeat (cbn beta zeta; first
    [ solve [eauto with handlers]
    | apply preserves_ret; exact I
    | eapply preserves_bind;
        [solve [eauto with handlers | apply preserves_tryM; eauto with handlers
               | apply preserves_onErr; eauto with handlers]|intros ? ?]
    | apply (preserves_bind _ anything); [|intros ? ?]
    | apply preserves_onErr
    | progress go_case ]).
