(* ===== verification/TestDb.v ===== *)
(** * The mock database of the unit tests (database/testdb/testdb.go)

    A second implementation of database.Database: it stores nothing, and its
    answers depend on the hexadecimal text of the entity identifier or of the
    key. [mock_X] is the method X; [testdb] is the instance of [Database] (the
    methods the handlers do not call are not in it). Several methods return a
    nil pointer without an error, and ListTargets a target with an error: what
    pgsql never does. *)
From S2P Require Import Prelude GoLib Ext Types Schema Session Database.

(* Pub and Priv, both in hexadecimal; the text of Priv is not used here *)
Definition Signers_Pub : list string :=
  [ (* User() no rows *)
   "03f9d1e41906436bf2e8aab319383dea6a4c06426266955293fd92b41f6346256f";
   (* user no rows failed AddUser() *)
   "03733ca0d2462ef3cd4dbd331d5ec27a63eeb13afbaf03f236847479c3e8d7fd94";
   (* failed User() *)
   "0399d0ad8447520e66df7db954b0936f4b141a01ba6213dda88c9df7293b66262e";
   (* MemberPubKey() no rows *)
   "026163a9bc3425426bbb7f0fde6c9bb4504493415a34b99a84162fe01640a784a3"].

(* the text of the identifiers and keys that make methods fail *)
Definition entity_09fa : string := "09fa012e40f844b073fab7fcbd7f7a5716c1a365".
Definition entity_f6da : string := "f6da3e4864d566faf82163a407e84a9001592678".
Definition entity_ca52 : string := "ca526af2aaa0f3e9bb68ab80de4392590f7b153a".
Definition entity_5fa5 : string := "5fa506aa68191bcc657795e57f080472e712c27d".
Definition entity_c873 : string := "c87363d9919daef530bf19e907df7f2d8920be75".
Definition entity_6d3e : string := "6d3e07d7d1dd84469cc3adf49fa83daf2678b4c9".

Definition hex_is (b : bytes) (text : string) : bool := String.eqb (EncodeToString b) text.
Definition is_signer (i : nat) (pubKey : bytes) : bool := hex_is pubKey (Signers_Pub !!! i).

Section testdb.
(* [uuid.New()] and [fmt]'s [%+v] of a target *)
Context {S : Type} (uuid_New : M S uuid) (print_Target : Target -> string).

(* %x or %s of the hexadecimal text *)
Definition error_of (msg : string) (id : bytes) : gerror := Errorf (msg +:+ EncodeToString id).

Definition mock_Ping : M S unit := retM tt.
Definition mock_Close : M S unit := retM tt.

Definition mock_Entity (entityID : bytes) : M S Entity :=
  fail_if! hex_is entityID entity_09fa with error_of "error adding entity with id: " entityID in
  fail_if! hex_is entityID entity_f6da with error_of "cannot fetch entity with ID: " entityID in
  let! managerAddresses := onErr (liftE (DecodeString
      "02ed03e6408e34af72a0e062a50cd9e77997c6c0eded5835b7367bb5695e844bf4"))
    (fun err => Errorf ("error decoding manager address: " +:+ error_string err)) in
  let id := if hex_is entityID entity_ca52 then String "001" "" else entityID in
  retM (mkEntity zero_CreatedUpdated id false
    (mkEntityInfo "" "" "entity@entity.org" "test entity" "" 0 (Some [managerAddresses]) [] false)).

Definition mock_EntitiesID : M S (list string) := retM [].
Definition mock_AdminEntityList : M S (list Entity) := retM [].
Definition mock_EntityHas (entityID : bytes) (memberID : option uuid) : M S bool := retM true.
Definition mock_EntityOrigins (entityID : bytes) : M S (list Origin) := retM [].

Definition mock_AddEntity (entityID : bytes) (info : EntityInfo) : M S unit :=
  fail_if! hex_is entityID entity_09fa with error_of "error adding entity with id: " entityID in
  retM tt.
Definition mock_DeleteEntity (entityID : bytes) : M S unit :=
  fail_if! hex_is entityID entity_09fa with error_of "error deleting entity with id: " entityID in
  retM tt.
Definition mock_AuthorizeEntity (entityID : bytes) : M S unit :=
  fail_if! hex_is entityID entity_09fa with error_of "error adding entity with id: " entityID in
  retM tt.
Definition mock_UpdateEntity (entityID : bytes) (info : EntityInfo) : M S Z :=
  fail_if! hex_is entityID entity_09fa with error_of "error updating entity with id: " entityID in
  retM 1%Z.

(* []byte("020b..."): the bytes of the text *)
Definition mock_member (id : uuid) (entityID : bytes) : Member :=
  mkMember zero_CreatedUpdated id entityID
    (Some "020be846bab70b4eff964d74178187832b3c7866f8509de340b6fccc53032834c6")
    (mkMemberInfo 0 "hello@vocdoni.io" "Julian" "Assange" "+441827738192" "Yolo St. 550"
       false 0 Token None None).

Definition mock_Member (entityID : bytes) (memberID : option uuid) : M S Member :=
  fail_if! hex_is entityID entity_5fa5 with ErrNoRows in
  fail_if! hex_is entityID entity_09fa with Errorf "cannot get member" in
  retM (mock_member (default uuid_Nil memberID) entityID).

Definition mock_Members (entityID : bytes) (memberIDs : list uuid) :
    M S (list Member * list uuid) := retM ([], []).
Definition mock_MembersKeys (entityID : bytes) (memberKeys : list bytes) :
    M S (list Member * list bytes) := retM ([], []).

Definition mock_MemberPubKey (entityID pubKey : bytes) : M S Member :=
  fail_if! is_signer 3 pubKey with ErrNoRows in
  let! id := uuid_New in
  retM (mock_member id entityID).

Definition mock_CountMembers (entityID : bytes) : M S Z :=
  fail_if! hex_is entityID entity_09fa
    with error_of "error counting members of entity: " entityID in
  retM 0%Z.

Definition mock_ListMembers (entityID : bytes) (filter : option ListOptions) : M S (list Member) :=
  fail_if! hex_is entityID entity_5fa5 with ErrNoRows in
  fail_if! hex_is entityID entity_09fa with Errorf "cannot list members" in
  retM [].

Definition mock_Census (entityID censusID : bytes) : M S Census :=
  fail_if! hex_is entityID entity_5fa5
    with error_of "error getting census of entity: " entityID in
  retM (mkCensus "" "0x0" uuid_Nil (mkCensusInfo zero_CreatedUpdated "" None "" 0 false None)).

Definition mock_CountCensus (entityID : bytes) : M S Z :=
  fail_if! hex_is entityID entity_5fa5
    with error_of "error counting census of entity: " entityID in
  retM 0%Z.

Definition mock_ListCensus (entityID : bytes) (filter : option ListOptions) : M S (list Census) :=
  fail_if! hex_is entityID entity_5fa5 with ErrNoRows in
  fail_if! hex_is entityID entity_09fa
    with error_of "cannot list census from entity: " entityID in
  retM [].

Definition mock_AddCensus (entityID censusID : bytes) (targetID : option uuid)
    (info : option CensusInfo) : M S unit :=
  fail_if! hex_is entityID entity_c873 with error_of "cannot add census to entity: " entityID in
  retM tt.
Definition mock_DeleteCensus (entityID censusID : bytes) : M S unit :=
  fail_if! hex_is entityID entity_c873 with error_of "cannot add census to entity: " entityID in
  retM tt.
Definition mock_AddCensusWithMembers (entityID censusID : bytes) (targetID : option uuid)
    (info : option CensusInfo) : M S Z :=
  fail_if! hex_is entityID entity_c873
    with error_of "cannot add census members to entity: " entityID in
  retM 0%Z.

Definition mock_AddMember (entityID pubKey : bytes) (info : MemberInfo) : M S uuid :=
  fail_if! String.eqb (mi_Email info) "fail@fail.fail"
    with Errorf "cannot add member, invalid mock email" in
  fail_if! hex_is entityID entity_f6da with error_of "cannot fetch entity with ID: " entityID in
  fail_if! is_signer 1 pubKey with error_of "error adding user with pubKey: " pubKey in
  fail_if! is_signer 2 pubKey with Errorf "cannot query for user" in
  retM uuid_Nil.

Definition mock_DeleteMember (entityID : bytes) (memberID : option uuid) : M S unit :=
  fail_if! hex_is entityID entity_09fa
    with error_of "error deleting member of entity: " entityID in
  retM tt.
Definition mock_DeleteMembers (entityID : bytes) (members : list uuid) : M S (Z * list uuid) :=
  fail_if! hex_is entityID entity_09fa
    with error_of "error deleting members of entity: " entityID in
  retM (Z.of_nat (length members), []).
Definition mock_DeleteMembersByKeys (entityID : bytes) (memberKeys : list bytes) :
    M S (Z * list bytes) :=
  fail_if! hex_is entityID entity_09fa
    with error_of "error deleting members of entity: " entityID in
  retM (Z.of_nat (length memberKeys), []).

Definition mock_ImportMembersWithPubKey (entityID : bytes) (info : list MemberInfo) : M S unit :=
  fail_if! hex_is entityID entity_5fa5
    with error_of "error importing members of entity: " entityID in
  retM tt.
Definition mock_ImportMembers (entityID : bytes) (info : list MemberInfo) : M S unit :=
  fail_if! hex_is entityID entity_5fa5
    with error_of "error importing members of entity: " entityID in
  retM tt.
Definition mock_AddMemberBulk (entityID : bytes) (members : list Member) : M S unit := retM tt.

Definition mock_UpdateMember (entityID : bytes) (memberID : option uuid) (info : MemberInfo) :
    M S Z :=
  fail_if! hex_is entityID entity_09fa
    with error_of "error updating member of entity: " entityID in
  retM 1%Z.

Definition mock_AddTag (entityID : bytes) (tagName : string) : M S Z := retM 1%Z.
Definition mock_ListTags (entityID : bytes) : M S (list Tag) := retM [].
Definition mock_DeleteTag (entityID : bytes) (tagID : Z) : M S unit := retM tt.
Definition mock_Tag (entityID : bytes) (tagID : Z) : M S (option Tag) := retM None.
Definition mock_TagByName (entityID : bytes) (tagName : string) : M S (option Tag) := retM None.
Definition mock_AddTagToMembers (entityID : bytes) (members : list uuid) (tagID : Z) :
    M S (Z * list uuid) := retM (Z.of_nat (length members), []).
Definition mock_RemoveTagFromMembers (entityID : bytes) (members : list uuid) (tagID : Z) :
    M S (Z * list uuid) := retM (Z.of_nat (length members), []).

Definition mock_CreateMembersWithTokens (entityID : bytes) (tokens : list uuid) : M S unit :=
  fail_if! hex_is entityID entity_5fa5 with Errorf "cannot create members" in retM tt.
Definition mock_CreateNMembers (entityID : bytes) (n : Z) : M S (list uuid) :=
  fail_if! hex_is entityID entity_5fa5 with Errorf "cannot create members" in retM [].
Definition mock_RegisterMember (entityID pubKey : bytes) (token : option uuid) : M S unit :=
  fail_if! hex_is entityID entity_5fa5 with Errorf "cannot create members" in retM tt.

Definition mock_MembersTokensEmails (entityID : bytes) : M S (list Member) :=
  fail_if! hex_is entityID entity_5fa5 with ErrNoRows in
  fail_if! hex_is entityID entity_09fa
    with error_of "error exporting members of entity: " entityID in
  retM [].
Definition mock_DumpClaims (entityID : bytes) : M S (list bytes) := retM [].
Definition mock_DumpCensusClaims (entityID censusID : bytes) : M S (list bytes) := retM [].
Definition mock_ExpandCensusMembers (entityID censusID : bytes) : M S (list CensusMember) := retM [].
Definition mock_ListEphemeralMemberInfo (entityID censusID : bytes) :
    M S (list EphemeralMemberInfo) := retM [].
Definition mock_EphemeralMemberInfoByEmail (entityID censusID : bytes) (email : string) :
    M S (option EphemeralMemberInfo) := retM None.
Definition mock_UpdateCensus (entityID censusID : bytes) (info : option CensusInfo) : M S Z :=
  retM 1%Z.

Definition mock_AddTarget (entityID : bytes) (target : Target) : M S uuid :=
  fail_if! hex_is entityID entity_5fa5
    with Errorf ("cannot add target: " +:+ print_Target target) in
  retM uuid_Nil.
(* the target that comes with the second error is not modelled: nobody reads it *)
Definition mock_Target (entityID : bytes) (targetID : option uuid) : M S (option Target) :=
  fail_if! hex_is entityID entity_09fa
    with error_of "error getting target from entity: " entityID in
  fail_if! hex_is entityID entity_6d3e
    with error_of "error listing targets of entity: " entityID in
  retM None.
Definition mock_ListTargets (entityID : bytes) : M S (list Target * option gerror) :=
  if hex_is entityID entity_c873 then retM ([], Some ErrNoRows)
  else if hex_is entityID entity_6d3e
  then retM ([zero_Target], Some (error_of "error listing targets of entity: " entityID))
  else retM ([], None).
Definition mock_CountTargets (entityID : bytes) : M S Z :=
  fail_if! hex_is entityID entity_09fa
    with error_of "error counting targets of entity: " entityID in
  retM 0%Z.
Definition mock_TargetMembers (entityID : bytes) (targetID : option uuid) : M S (list Member) :=
  fail_if! hex_is entityID entity_5fa5
    with error_of "error targeting members of entity: " entityID in
  retM [].

Definition mock_AddUser (user : User) : M S unit :=
  let pubKey := default "" (u_PubKey user) in
  fail_if! is_signer 1 pubKey with error_of "error adding user with pubKey: " pubKey in
  retM tt.
Definition mock_User (pubKey : bytes) : M S User :=
  fail_if! is_signer 0 pubKey || is_signer 1 pubKey with ErrNoRows in
  fail_if! is_signer 2 pubKey with Errorf "cannot query for user" in
  retM (mkUser zero_CreatedUpdated (Some pubKey) (Some pubKey)).

(* MigrateStatus: applied, total and the time of the last one *)
Definition mock_Migrate (down : bool) : M S Z := retM 0%Z.
Definition mock_MigrateStatus : M S (Z * Z * string) := retM (0%Z, 0%Z, "").
Definition mock_MigrationUpSync : M S Z := retM 0%Z.

Definition testdb : Database S := {|
  db_AddEntity := mock_AddEntity;
  db_Entity := mock_Entity;
  db_UpdateEntity := mock_UpdateEntity;
  db_AdminEntityList := mock_AdminEntityList;
  db_AddMember := mock_AddMember;
  db_ImportMembers := mock_ImportMembers;
  db_AddMemberBulk := mock_AddMemberBulk;
  db_Member := mock_Member;
  db_Members := mock_Members;
  db_DeleteMember := mock_DeleteMember;
  db_DeleteMembers := mock_DeleteMembers;
  db_DeleteMembersByKeys := mock_DeleteMembersByKeys;
  db_MemberPubKey := mock_MemberPubKey;
  db_CountMembers := mock_CountMembers;
  db_ListMembers := mock_ListMembers;
  db_UpdateMember := mock_UpdateMember;
  db_AddTag := mock_AddTag;
  db_DeleteTag := mock_DeleteTag;
  db_TagByName := mock_TagByName;
  db_ListTags := mock_ListTags;
  db_AddTagToMembers := mock_AddTagToMembers;
  db_RemoveTagFromMembers := mock_RemoveTagFromMembers;
  db_CreateMembersWithTokens := mock_CreateMembersWithTokens;
  db_RegisterMember := mock_RegisterMember;
  db_MembersTokensEmails := mock_MembersTokensEmails;
  db_AddTarget := mock_AddTarget;
  db_Target := mock_Target;
  db_CountTargets := mock_CountTargets;
  db_ListTargets := mock_ListTargets;
  db_TargetMembers := mock_TargetMembers;
  db_DumpClaims := mock_DumpClaims;
  db_ExpandCensusMembers := mock_ExpandCensusMembers;
  db_ListEphemeralMemberInfo := mock_ListEphemeralMemberInfo;
  db_EphemeralMemberInfoByEmail := mock_EphemeralMemberInfoByEmail;
  db_Census := mock_Census;
  db_UpdateCensus := mock_UpdateCensus;
  db_AddCensus := mock_AddCensus;
  db_CountCensus := mock_CountCensus;
  db_DeleteCensus := mock_DeleteCensus;
  db_ListCensus := mock_ListCensus;
|}.

(* It keeps every invariant of the state that uuid.New keeps. *)
Lemma testdb_inv (J : S -> Prop) (E : bytes -> Prop) K :
  preserves J anything uuid_New -> DatabaseInv testdb J E K.
Proof.
  intros HN.
  assert (Hr : forall A (m : M S A), readonly m -> preserves J anything m)
    by (intros A m Hm; by apply readonly_preserves).
  split; intros; simpl; try (apply Hr;
    unfold mock_Entity, mock_AdminEntityList, mock_AddEntity, mock_UpdateEntity, mock_Member,
      mock_Members, mock_CountMembers, mock_ListMembers, mock_Census, mock_CountCensus,
      mock_ListCensus, mock_AddCensus, mock_DeleteCensus, mock_AddMember, mock_DeleteMember,
      mock_DeleteMembers, mock_DeleteMembersByKeys, mock_ImportMembers, mock_AddMemberBulk,
      mock_UpdateMember, mock_AddTag, mock_ListTags, mock_DeleteTag, mock_Tag, mock_TagByName,
      mock_AddTagToMembers, mock_RemoveTagFromMembers, mock_CreateMembersWithTokens,
      mock_RegisterMember, mock_MembersTokensEmails, mock_DumpClaims, mock_ExpandCensusMembers,
      mock_ListEphemeralMemberInfo, mock_EphemeralMemberInfoByEmail, mock_UpdateCensus,
      mock_AddTarget, mock_Target, mock_ListTargets, mock_CountTargets, mock_TargetMembers;
    go_readonly; fail).
  unfold mock_MemberPubKey. destruct (is_signer 3 _); [by apply preserves_fail|].
  eapply preserves_bind; [exact HN|intros; by apply preserves_ret].
Qed.
End testdb.
