(* ===== verification/TokenAPI.v ===== *)
(** * tokenapi: management of tokens by an external service
    (tokenapi/tokenapi.go, tokenapi/api.go)

    Every call is authenticated by a hash of its fields and the secret the
    entity shares with the service. *)
From S2P Require Import Prelude GoLib Ext Util Types PgTypes Session PgOps Database.

Definition AuthWindowSeconds : Z := 300.

(* the dynamic types of the values passed to checkAuth; a pointer
   (request.ListOptions) matches no case of the type switch *)
Inductive AuthField :=
| FString (s : string)
| FStrings (l : list string)
| FListOptions (o : ListOptions)
| FBytes (b : bytes)
| FPointer (o : option ListOptions).

Definition field_bytes (f : AuthField) : bytes :=
  match f with
  | FString s => s
  | FStrings l => foldr (fun k s => k +:+ s) "" l
  | FListOptions v => decimal (lo_Skip v) +:+ decimal (lo_Count v) +:+ lo_Order v +:+ lo_SortBy v
  | FBytes b => b
  | FPointer _ => ""
  end.
Definition toHash (fields : list AuthField) : bytes :=
  foldr (fun f s => field_bytes f +:+ s) "" fields.

(* timestamp is an int32, and so are the sums *)
Definition in_window (timestamp now : Z) : bool :=
  let current := int32 now in
  negb ((int32 (current + AuthWindowSeconds) <? timestamp)%Z
        || (timestamp <? int32 (current - AuthWindowSeconds))%Z).

Section tokenapi.
Context {X : Ext} {S : Type} {DB : Database S} {H : Host S}.

Definition authHash (fields : list AuthField) : string :=
  EncodeToString (HashRaw (toHash fields)).

Definition checkAuth (timestamp : Z) (auth : string) (fields : list AuthField) : M S bool :=
  if length fields =? 0 then retM false else
  let! now := host_Unix in
  if negb (in_window timestamp now) then retM false else
  retM (bool_decide (authHash fields = TrimHex auth)).

Definition getSecret (entityID : bytes) : M S string :=
  let! entity := db_Entity entityID in
  retM (ei_CallbackSecret (e_Info entity)).

(* secret, err := t.getSecret(...) and its error branches *)
Definition requireSecret (entityID : bytes) : M S string :=
  onErr (getSecret entityID) (fun err =>
    if bool_decide (err = ErrNoRows) then Errorf "invalid entityID"
    else Errorf "error retrieving entity").
Definition requireAuth (request : APIrequest) (fields : list AuthField) : M S unit :=
  let! ok := checkAuth (rq_Timestamp request) (rq_AuthHash request) fields in
  fail_if! negb ok with Errorf "invalid authentication" in
  retM tt.

Definition timestampField (request : APIrequest) : AuthField :=
  FString (decimal (rq_Timestamp request)).

(* the fields each method hashes *)
Definition token_fields (request : APIrequest) (secret : string) : list AuthField :=
  [FBytes (rq_EntityID request); FString (rq_Method request); timestampField request;
   FString (rq_Token request); FString secret].
Definition generate_fields (request : APIrequest) (secret : string) : list AuthField :=
  [FString (decimal (rq_Amount request)); FBytes (rq_EntityID request);
   FString (rq_Method request); timestampField request; FString secret].
Definition importKeysBulk_fields (request : APIrequest) (secret : string) : list AuthField :=
  [FStrings (rq_Keys request); FBytes (rq_EntityID request); FString (rq_Method request);
   timestampField request; FString secret].
Definition listKeys_fields (request : APIrequest) (secret : string) : list AuthField :=
  [FBytes (rq_EntityID request); FPointer (rq_ListOptions request); FString (rq_Method request);
   timestampField request; FString secret].
Definition deleteKeys_fields (request : APIrequest) (secret : string) : list AuthField :=
  [FBytes (rq_EntityID request); FStrings (rq_Keys request); FString (rq_Method request);
   timestampField request; FString secret].

(* the checks revoke and status share *)
Definition requireToken (request : APIrequest) : M S uuid :=
  fail_if! (len (rq_EntityID request) =? 0)%Z with Errorf "invalid entityID" in
  fail_if! (len (rq_Token request) =? 0)%Z with Errorf "invalid token" in
  onErr (liftE (uuid_Parse (rq_Token request))) (fun _ => Errorf "invalid token format").

Definition revoke (request : APIrequest) : M S APIresponse :=
  let! uid := requireToken request in
  let! secret := requireSecret (rq_EntityID request) in
  let! _ := requireAuth request (token_fields request secret) in
  let! _ := onErr (db_DeleteMember (rq_EntityID request) (Some uid))
    (fun _ => Errorf "could not delete member") in
  retM (set_Ok true zero_APIresponse).

Definition status (request : APIrequest) : M S APIresponse :=
  let! uid := requireToken request in
  let! secret := requireSecret (rq_EntityID request) in
  let! _ := requireAuth request (token_fields request secret) in
  let! r := tryM (db_Member (rq_EntityID request) (Some uid)) in
  match r with
  | inl _ => retM (set_TokenStatus "invalid" zero_APIresponse)
  | inr member =>
      if negb (len (default "" (m_PubKey member)) =? PubKeyLengthBytes)%Z
      then retM (set_TokenStatus "available" zero_APIresponse)
      else retM (set_TokenStatus "registered" zero_APIresponse)
  end.

(* response.Tokens = append(response.Tokens, uuid.New()), n times *)
Definition new_uuids (n : Z) : M S (list uuid) := mapM_ (fun _ => host_uuid) (seq 0 (Z.to_nat n)).

Definition generate (request : APIrequest) : M S APIresponse :=
  fail_if! (len (rq_EntityID request) =? 0)%Z with Errorf "invalid entityId" in
  let! secret := requireSecret (rq_EntityID request) in
  let! _ := requireAuth request (generate_fields request secret) in
  fail_if! (rq_Amount request <? 1)%Z with Errorf "invalid token amount" in
  let! tokens := new_uuids (rq_Amount request) in
  let! _ := onErr (db_CreateMembersWithTokens (rq_EntityID request) tokens)
    (fun _ => Errorf "could not generate tokens") in
  retM (set_Tokens tokens zero_APIresponse).

(* members[i].PubKey of each claim *)
Definition member_of_key (pubKey : bytes) : Member :=
  mkMember zero_CreatedUpdated uuid_Nil "" (Some pubKey) zero_MemberInfo.

Definition importKeysBulk (request : APIrequest) : M S APIresponse :=
  fail_if! (len (rq_EntityID request) =? 0)%Z || (length (rq_Keys request) =? 0)
    with Errorf "invalid arguments" in
  let! secret := requireSecret (rq_EntityID request) in
  let! _ := requireAuth request (importKeysBulk_fields request secret) in
  let! keys := mapM_ (fun claim => onErr (liftE (DecodeString (TrimHex claim)))
    (fun _ => Errorf ("error decoding claim (" +:+ claim +:+ ")"))) (rq_Keys request) in
  let! _ := onErr (db_AddMemberBulk (rq_EntityID request) (map member_of_key keys))
    (fun _ => Errorf "could not import keys") in
  retM zero_APIresponse.

Definition checkOptions (filter : option ListOptions) (method : string) : gerror + unit :=
  match filter with
  | None => inr tt
  | Some f =>
      if (lo_Skip f <? 0)%Z || (lo_Count f <? 0)%Z then inl (Errorf "invalid skip/count")
      else if negb (bool_decide (lo_Order f = "")) || negb (bool_decide (lo_SortBy f = ""))
      then inl (Errorf "invalid filter parameters")
      else inr tt
  end.

Definition listKeys (request : APIrequest) : M S APIresponse :=
  fail_if! (len (rq_EntityID request) =? 0)%Z with Errorf "invalid arguments" in
  let! secret := requireSecret (rq_EntityID request) in
  let! _ := requireAuth request (listKeys_fields request secret) in
  let! _ := onErr (liftE (checkOptions (rq_ListOptions request) (rq_Method request)))
    (fun _ => Errorf "invalid filter options") in
  let! members := onErr (db_ListMembers (rq_EntityID request) (rq_ListOptions request))
    (fun err => if bool_decide (err = ErrNoRows) then Errorf "no members found"
                else Errorf "cannot retrieve members") in
  let keys := omap (fun member =>
    match m_PubKey member with
    | None | Some EmptyString => None
    | Some k => Some (EncodeToString k)
    end) members in
  retM (set_Keys keys zero_APIresponse).

Definition deleteKeys (request : APIrequest) : M S APIresponse :=
  fail_if! (len (rq_EntityID request) =? 0)%Z with Errorf "invalid arguments" in
  let! secret := requireSecret (rq_EntityID request) in
  let! _ := requireAuth request (deleteKeys_fields request secret) in
  let! keys := mapM_ (fun key => onErr (liftE (DecodeString key))
                                   (fun _ => Errorf "error decoding keys")) (rq_Keys request) in
  let! (deleted, invalidKeysBytes) := onErr (db_DeleteMembersByKeys (rq_EntityID request) keys)
    (fun err => if bool_decide (err = ErrNoRows) then Errorf "no members found"
                else Errorf "cannot delete members") in
  retM (set_InvalidKeys (map EncodeToString invalidKeysBytes)
          (set_Count deleted zero_APIresponse)).

(* EnableAPI: the registered methods, whether a signature is required, and the
   fields each authenticates *)
Definition tokenapi_methods :
    list (string * bool * (APIrequest -> M S APIresponse) * (APIrequest -> string -> list AuthField)) :=
  [("revoke", false, revoke, token_fields);
   ("status", false, status, token_fields);
   ("generate", false, generate, generate_fields);
   ("importKeysBulk", false, importKeysBulk, importKeysBulk_fields);
   ("listKeys", false, listKeys, listKeys_fields);
   ("deleteKeys", false, deleteKeys, deleteKeys_fields)].
End tokenapi.

(** ** Lemmas *)

Lemma in_window_iff timestamp now :
  (0 <= now <= int32_max - 300)%Z ->
  in_window timestamp now = true <-> (now - 300 <= timestamp <= now + 300)%Z.
Proof.
  intros Hn. unfold in_window, AuthWindowSeconds.
  rewrite (int32_id now), !int32_id by (unfold int32_min, int32_max in *; lia).
  rewrite negb_true_iff, orb_false_iff, !Z.ltb_ge. lia.
Qed.

Lemma in_window_last timestamp now :
  (int32_max - 300 < now <= int32_max)%Z -> in_window timestamp now = false.
Proof.
  intros Hn. unfold in_window, AuthWindowSeconds.
  rewrite (int32_id now) by (unfold int32_min, int32_max in *; lia).
  rewrite (int32_above (now + 300)), (int32_id (now - 300))
    by (unfold int32_min, int32_max in *; lia).
  rewrite negb_false_iff, orb_true_iff, !Z.ltb_lt. unfold int32_max in *. lia.
Qed.

(* an outcome that is not a value *)
Definition fails {A} (o : outcome A) : Prop := forall a, o <> Ok a.

Section lemmas.
Context {X : Ext} {S : Type} {DB : Database S} {H : Host S}.

Lemma bind_answer {A B} (m : M S A) (k : A -> M S B) s b :
  (bindM m k s).1 = Ok b -> exists a, (m s).1 = Ok a /\ (k a (m s).2).1 = Ok b.
Proof. unfold bindM. destruct (m s) as [[] ?]; simpl; [eauto|done..]. Qed.

Lemma checkAuth_ok timestamp auth fields s :
  (checkAuth timestamp auth fields s).1 = Ok true ->
  authHash fields = TrimHex auth /\
  exists now, (host_Unix s).1 = Ok now /\ in_window timestamp now = true.
Proof.
  unfold checkAuth. destruct (_ =? _); [by intros [=]|].
  intros (now & Hn & Hk)%bind_answer. destruct (in_window timestamp now) eqn:E; simpl in Hk; [|done].
  injection Hk as Hk. apply bool_decide_eq_true_1 in Hk. eauto.
Qed.

End lemmas.

(** ** Properties *)
Section properties.
Context {X : Ext} {S : Type} {DB : Database S} {H : Host S}.

(* the authentication of a request succeeded at [s]: the secret of its entity
   and the clock, read one after the other *)
Definition authenticated (fields : APIrequest -> string -> list AuthField) (request : APIrequest)
    (s : S) : Prop :=
  exists entity s1 s2 now,
    db_Entity (rq_EntityID request) s = (Ok entity, s1) /\
    host_Unix s1 = (Ok now, s2) /\ in_window (rq_Timestamp request) now = true /\
    authHash (fields request (ei_CallbackSecret (e_Info entity))) = TrimHex (rq_AuthHash request).

(* the handler [h], started at [s], gets past its authentication *)
Definition guarded (h : M S APIresponse) (auth : S -> Prop) : Prop :=
  forall (J : S -> Prop) s, DatabaseInv DB J (fun _ => False) no_key -> HostInv H J (fun _ => False) ->
    J s -> ~ auth s -> fails (h s).1 /\ J (h s).2.

Lemma fail_inv {A} (J : S -> Prop) e s :
  J s -> fails (failM (A:=A) e s).1 /\ J (failM (A:=A) e s).2.
Proof. by split. Qed.

(* the steps before the authentication read only; the rest is not reached *)
Lemma guarded_auth (request : APIrequest) fields (k : unit -> M S APIresponse) :
  guarded (let! secret := requireSecret (rq_EntityID request) in
           let! u := requireAuth request (fields request secret) in k u)
    (authenticated fields request).
Proof.
  intros J s HD HH Hs Hn.
  unfold requireSecret, requireAuth, getSecret, checkAuth, bindM, onErr.
  pose proof (inv_Entity (rq_EntityID request) s Hs) as [HJ _].
  destruct (db_Entity (rq_EntityID request) s) as [[entity|err|p] s1] eqn:E1; simpl in *;
    [|by split..].
  destruct (_ =? 0); [by split|].
  pose proof (inv_Unix s1 HJ) as [HJ2 _].
  destruct (host_Unix s1) as [[now|err|p] s2] eqn:E2; simpl in *; [|by split..].
  destruct (in_window _ now) eqn:Ew; simpl; [|by split].
  case_bool_decide as Ha; simpl; [|by split].
  exfalso. apply Hn. by exists entity, s1, s2, now.
Qed.

Lemma guarded_fail_if (b : bool) e (h : M S APIresponse) P :
  guarded h P -> guarded (if b then failM e else h) P.
Proof. intros Hh J s HD HH Hs Hn. destruct b; [by apply fail_inv|by apply Hh]. Qed.

Lemma guarded_token (request : APIrequest) fields k :
  guarded (let! uid := requireToken request in
           let! secret := requireSecret (rq_EntityID request) in
           let! u := requireAuth request (fields request secret) in k uid u)
    (authenticated fields request).
Proof.
  intros J s HD HH Hs Hn. unfold requireToken. unfold bindM at 1.
  destruct (_ =? 0)%Z; [by apply (fail_inv (A:=APIresponse))|].
  destruct (_ =? 0)%Z; [by apply (fail_inv (A:=APIresponse))|].
  unfold onErr at 1, liftE. destruct (uuid_Parse _); [by apply (fail_inv (A:=APIresponse))|].
  simpl. by apply guarded_auth.
Qed.

(** C14: No method of the token API has an effect for a request that is not
    authenticated: unless its AuthHash is the hash of its fields with the
    secret stored for its entity and its timestamp is in the window, the call
    fails and keeps every invariant that the reads of the database keep. *)
Theorem tokenapi_requires_auth name sig handler fields (request : APIrequest) :
  (name, sig, handler, fields) ∈ tokenapi_methods ->
  guarded (handler request) (authenticated fields request).
Proof.
  intros Hm. unfold tokenapi_methods in Hm.
  repeat (apply elem_of_cons in Hm as [[= -> -> -> ->]|Hm]); [..|by apply not_elem_of_nil in Hm].
  all: unfold revoke, status, generate, importKeysBulk, listKeys, deleteKeys;
    repeat apply guarded_fail_if; first [apply (guarded_token request _ (fun _ _ => _))
      | apply (guarded_auth request)].
Qed.
End properties.

Section more_properties.
Context {X : Ext} {S : Type} {DB : Database S} {H : Host S}.

(** C38: The authentication window: while the clock is more than 300 s before
    the end of int32 (year 2038), exactly the timestamps within 300 s of the
    clock pass; in its last 300 s the sum overflows and every request is
    refused, whatever its hash. *)
Theorem checkAuth_window (timestamp now : Z) (auth : string) (fields : list AuthField) (s s' : S) :
  fields <> [] -> host_Unix s = (Ok now, s') -> (0 <= now <= int32_max)%Z ->
  checkAuth timestamp auth fields s =
  (Ok (bool_decide (now <= int32_max - 300 /\ now - 300 <= timestamp <= now + 300)%Z &&
       bool_decide (authHash fields = TrimHex auth)), s').
Proof.
  intros Hf Hu Hn. unfold checkAuth. destruct fields as [|f fields]; [done|].
  cbn [length Nat.eqb]. unfold bindM. rewrite Hu.
  destruct (decide (now <= int32_max - 300)%Z) as [Hle|Hgt].
  - destruct (in_window timestamp now) eqn:E; simpl.
    + apply in_window_iff in E; [|lia]. by rewrite (bool_decide_eq_true_2 (_ /\ _)).
    + rewrite (bool_decide_eq_false_2 (_ /\ _)); [done|]. intros [_ Hw].
      apply in_window_iff in Hw; [congruence|lia].
  - rewrite in_window_last by lia. simpl. rewrite (bool_decide_eq_false_2 (_ /\ _)) by lia.
    done.
Qed.

(* the hash of listKeys does not cover its list options (they are passed as
    a pointer, which the type switch ignores): a request with other options is
    authenticated by the same AuthHash, although the README lists them among
    the hashed fields. *)
Lemma listKeys_options_not_authenticated (request : APIrequest) (o : option ListOptions) (s : S) :
  authenticated listKeys_fields request s ->
  authenticated listKeys_fields (setq_ListOptions o request) s.
Proof.
  intros (entity & s1 & s2 & now & He & Hu & Hw & Ha).
  exists entity, s1, s2, now. destruct request; simpl in *. split_and!; done.
Qed.

End more_properties.

(** ** Concrete requests *)

Definition demo_fields (method token : string) (amount : Z) : APIrequest :=
  setq_Amount amount (setq_Token token (setq_Method method (setq_EntityID "e1"
    (setq_Timestamp 1000 zero_APIrequest)))).
Definition demo_request (fields : APIrequest -> string -> list AuthField)
    (method token : string) (amount : Z) : APIrequest :=
  let r := demo_fields method token amount in
  setq_AuthHash (authHash (X:=demo_ext) (fields r "secret")) r.

#[local] Existing Instance demo_ext.
#[local] Instance demo_env1 : Env := demo_env 1.
#[local] Instance demo_host : Host World := env_host None.

Lemma tokenapi_requires_auth_witness :
  let forged := setq_AuthHash "00" (demo_request token_fields "revoke" "1101" 0) in
  fails (revoke forged demo_world).1 /\
  w_db (revoke forged demo_world).2 = w_db demo_world.
Proof.
  intros forged.
  refine (tokenapi_requires_auth "revoke" false revoke token_fields forged ltac:(left)
            (holds (fun d => d = w_db demo_world)) demo_world _ _ eq_refl _).
  - apply pgsql_inv. intros e [].
  - apply env_host_inv. intros f a b c Hf _. discriminate Hf.
  - intros (en & s1 & s2 & now & He & Hu & Hw & Ha). vm_compute in He.
    injection He as <- <-. vm_compute in Ha. discriminate.
Defined.

Lemma checkAuth_window_witness :
  checkAuth 1299 "61" [FString "a"] initial_world = (Ok true, initial_world) /\
  checkAuth 1301 "61" [FString "a"] initial_world = (Ok false, initial_world).
Proof.
  split; (rewrite (checkAuth_window _ 1000 "61" [FString "a"] initial_world initial_world);
    [vm_compute; reflexivity|discriminate|reflexivity|unfold int32_max; lia]).
Defined.

Lemma listKeys_options_not_authenticated_witness :
  let r := demo_request listKeys_fields "listKeys" "" 0 in
  let o := Some (mkListOptions 1 "" 5 "") in
  (listKeys r demo_world).1 = Ok (set_Keys [EncodeToString "k1"] zero_APIresponse) /\
  authenticated listKeys_fields (setq_ListOptions o r) demo_world.
Proof.
  intros r o. split; [vm_compute; reflexivity|].
  apply listKeys_options_not_authenticated. do 4 eexists.
  split; [vm_compute; reflexivity|]. split; [vm_compute; reflexivity|].
  split; vm_compute; reflexivity.
Defined.

