(* ===== verification/Registry.v ===== *)
(** * registry: registration of members by their own keys
    (registry/registry.go, registry/api.go) *)
From S2P Require Import Prelude GoLib Ext Util Types Schema SchemaOk Session PgTypes PgTx.
From S2P Require Import PgEntities PgMembers PgQueries PgTags PgOps Database.

(* an outcome that is not a value *)
Definition failing {A} (o : outcome A) : Prop := forall a, o <> Ok a.

Section registry.
Context {X : Ext} {S : Type} {DB : Database S} {H : Host S}.

Definition checkMemberInfo (m : option MemberInfo) : bool :=
  match m with
  | None => false
  | Some m => match ValidateFormat (mi_Email m) with Some _ => false | None => true end
  end.

(* a failure that is counted *)
Definition fail_counted {A} (label msg : string) : M S A :=
  let! _ := host_Inc label in failM (Errorf msg).

(* fmt.Errorf is given the text of the error as its format: a percent sign in it
   would be read as a verb once more, which is left out here *)
Definition register (request : APIrequest) : M S APIresponse :=
  let! _ := host_Inc "register" in
  let! _ := onErr (db_Entity (rq_EntityID request)) (fun err =>
    if bool_decide (err = ErrNoRows) then Errorf "invalid entityID"
    else Errorf "error retrieving entity") in
  fail_if! negb (checkMemberInfo (rq_MemberInfo request)) with Errorf "invalid member info" in
  let! _ := onErr (db_AddMember (rq_EntityID request) (rq_SignaturePublicKey request)
                     (default zero_MemberInfo (rq_MemberInfo request)))
    (fun err => Errorf ("cannot create member: (" +:+ error_string err +:+ ")")) in
  let! _ := host_Inc "register_success" in
  retM zero_APIresponse.

(* validateToken up to the call of RegisterMember *)
Definition validateToken_check (request : APIrequest) : M S (Entity * Member * uuid) :=
  let! _ := host_Inc "validateToken" in
  fail_if! (len (rq_Token request) =? 0)%Z with Errorf "invalid token" in
  let! uid := onErr (liftE (uuid_Parse (rq_Token request)))
    (fun _ => Errorf "invalid token format") in
  let! r := tryM (db_Entity (rq_EntityID request)) in
  let! entity :=
    (match r with
     | inr entity => retM entity
     | inl err => if bool_decide (err = ErrNoRows)
                  then fail_counted "validateToken_error_entity" "invalid entity id"
                  else failM (Errorf "error retrieving entity")
     end) in
  let! r := tryM (db_Member (rq_EntityID request) (Some uid)) in
  let! member :=
    (match r with
     | inr member => retM member
     | inl err => if bool_decide (err = ErrNoRows)
                  then fail_counted "validateToken_error_invalid_token" "invalid token id"
                  else failM (Errorf "error retrieving token")
     end) in
  let memberPubKey := default "" (m_PubKey member) in
  if bool_decide (memberPubKey = rq_SignaturePublicKey request)
  then fail_counted "validateToken_error_already_registered" "duplicate user already registered"
  else if negb (len memberPubKey =? 0)%Z
  then fail_counted "validateToken_error_reused_token" "invalid token" else
  retM (entity, member, uid).

(* the rest of validateToken *)
Definition validateToken_commit (request : APIrequest) (x : Entity * Member * uuid) :
    M S APIresponse :=
  let '(entity, member, uid) := x in
  let! _ := onErr (db_RegisterMember (rq_EntityID request) (rq_SignaturePublicKey request)
                     (Some uid)) (fun _ => Errorf "invalidToken") in
  let url := ei_CallbackURL (e_Info entity) in
  let! _ := (if bool_decide (ParseRequestURI url = None)
             then (* go callback(...): a goroutine, whose failure the request does not see *)
                  let! _ := tryM (host_callback url (ei_CallbackSecret (e_Info entity))
                                    "register" uid) in
                  retM tt
             else retM tt) in
  let! tag := tryM (db_TagByName (rq_EntityID request) "PendingValidation") in
  let! _ := (match tag with
             | inl _ | inr None => retM tt
             | inr (Some tag) =>
                 let! _ := tryM (db_RemoveTagFromMembers (rq_EntityID request)
                                   [m_ID member] (tg_ID tag)) in
                 retM tt
             end) in
  let! _ := host_Inc "validateToken_sucess" in
  retM zero_APIresponse.

Definition validateToken (request : APIrequest) : M S APIresponse :=
  let! x := validateToken_check request in validateToken_commit request x.

(* callback: the URL it requests; the clock is read once *)
Definition callback_url (callbackURL secret event : string) (uid : uuid) (now : Z) : string :=
  let ts := decimal (int32 now) in
  let h := HashRaw (event +:+ ts +:+ uuid_String uid +:+ secret) in
  let url := ReplaceAll callbackURL "{TOKEN}" (uuid_String uid) in
  let url := ReplaceAll url "{TIMESTAMP}" ts in
  let url := ReplaceAll url "{AUTH}" (EncodeToString h) in
  ReplaceAll url "{EVENT}" event.

Definition registrationStatus (request : APIrequest) : M S APIresponse :=
  let! _ := host_Inc "status" in
  let! _ := onErr (db_Entity (rq_EntityID request)) (fun _ => Errorf "entity does not exist") in
  let! r := tryM (db_MemberPubKey (rq_EntityID request) (rq_SignaturePublicKey request)) in
  match r with
  | inl err =>
      if bool_decide (err = ErrNoRows)
      then let! _ := host_Inc "status_not_registered" in
           retM (set_Status (Some (mkStatus false false)) zero_APIresponse)
      else failM (Errorf "cannot query for member")
  | inr _ => let! _ := host_Inc "status_registered" in
             retM (set_Status (Some (mkStatus true false)) zero_APIresponse)
  end.

Definition subscribe (request : APIrequest) : M S APIresponse := retM (set_Ok true zero_APIresponse).
Definition unsubscribe (request : APIrequest) : M S APIresponse := retM (set_Ok true zero_APIresponse).
Definition listSubscriptions (request : APIrequest) : M S APIresponse :=
  retM (set_Ok true zero_APIresponse).

(* EnableAPI: every method requires a signature *)
Definition registry_methods : list (string * bool * (APIrequest -> M S APIresponse)) :=
  [("register", true, register); ("validateToken", true, validateToken);
   ("registrationStatus", true, registrationStatus); ("subscribe", true, subscribe);
   ("unsubscribe", true, unsubscribe); ("listSubscriptions", true, listSubscriptions)].

End registry.

(** ** RegisterMember (pgsql.go): what a registration stores *)
Section register_member.
Context {X : Ext} {V : Env}.

Lemma update_member_one id e f d d' :
  update_member id e (fun _ => true) f d = inr (1, d') ->
  exists r, members d !! id = Some r /\ mr_entity_id r = e /\
            d' = set_members (<[id := f r]> (members d)) d.
Proof.
  unfold update_member. destruct (members d !! id) as [r|]; [|done].
  destruct (bool_decide (mr_entity_id r = e)) eqn:E; simpl; [|done].
  intros [_ [= <-]]%checked_inv. apply bool_decide_eq_true_1 in E. eauto.
Qed.

(* the users of [d'] are those of [d], and perhaps one of the key [k] *)
Definition users_after (k : bytes) (d d' : Db) : Prop :=
  users d' = users d \/
  users d !! k = None /\ exists n1 n2, users d' = <[k := mkUserRow k n1 n2]> (users d).
(* and the tables a registration does not change *)
Definition same_rest (d d' : Db) : Prop :=
  entities d' = entities d /\ entities_origins d' = entities_origins d /\
  targets d' = targets d /\ censuses d' = censuses d /\
  census_members d' = census_members d /\ tags d' = tags d.

Lemma RegisterMember_user_members tx k w tx' w' :
  RegisterMember_user tx k w = (Ok tx', w') ->
  (members tx' = members tx /\ users_after k tx tx' /\ same_rest tx tx') /\ w_db w' = w_db w.
Proof.
  intros E. pose proof (RegisterMember_user_keeps tx k w) as Hk. rewrite E in Hk.
  split; [|done]. revert E. unfold RegisterMember_user, bindM, tryM.
  destruct (pg_User k w) as [[u|err|p] w1]; try done;
    [by intros [= <- _]; split; [|split; [left|]]|].
  destruct (negb _); [done|]. unfold insert_user_now, bindM, time_Now, tx_exec.
  destruct (driver _ w1) as [[[n t]|err'|p] w2] eqn:E2; simpl; try done.
  - apply driver_inv in E2. destruct (insert_user _ _ _ _ tx) as [|[m t']] eqn:E3; [done|].
    injection E2 as <- <- <-. unfold onErr, RowsAffected.
    destruct (driver _ _) as [[a|e|p] w3]; try done. destruct (negb _); [done|].
    intros [= <- _]. unfold insert_user in E3. apply checked_inv in E3 as [Hn [= _ <-]].
    apply Forall_cons, proj1, bool_decide_eq_true_1 in Hn.
    split; [done|]. split; [right; split; [done|by do 2 eexists]|done].
  - unfold rollback_with, bindM, tryM. by destruct (Rollback w2) as [[] ?].
Qed.

Lemma RegisterMember_ok e k t w w' :
  RegisterMember e k (Some t) w = (Ok tt, w') ->
  ValidPubKey k = true /\
  exists r now, members (w_db w) !! t = Some r /\ mr_entity_id r = e /\
    members (w_db w') = <[t := register_row k now r]> (members (w_db w)) /\
    users_after k (w_db w) (w_db w') /\ same_rest (w_db w) (w_db w').
Proof.
  (* Beginx, the size of the key, the user, the update, the commit *)
  unfold RegisterMember. unfold bindM at 1, onErr at 1, Beginx.
  destruct (driver _ w) as [[tx|err|p] w1] eqn:E1; try done.
  apply driver_inv in E1. injection E1 as <- <-.
  unfold bindM at 1, time_Now. destruct (negb (ValidPubKey k)) eqn:Ek; [done|].
  apply negb_false_iff in Ek. intros Hrun. split; [done|]. revert Hrun.
  unfold bindM at 1. destruct (RegisterMember_user _ _ _) as [[tx|err|p] w2] eqn:E2; try done.
  apply RegisterMember_user_members in E2 as [(Hm & Hus & Hrest) Hw]. simpl in Hm.
  unfold bindM at 1, onErr at 1, liftE.
  destruct (ToPGMember _) as [|pm] eqn:Ep; [done|]. simpl.
  assert (Hid : m_ID (pm_Member pm) = t).
  { unfold ToPGMember in Ep. destruct (JSONB_Set _); by simplify_eq. }
  rewrite Hid. clear Hid Ep.
  unfold bindM at 1, tryM at 1, tx_exec.
  destruct (driver _ w2) as [[[n t']|err|p] w3] eqn:E3; simpl; try done.
  2: { unfold AddMember_rollback, rollback_with, bindM, tryM. by destruct (Rollback w3) as [[] ?]. }
  apply driver_inv in E3. destruct (update_member _ _ _ _ tx) as [|[m t'']] eqn:E4; [done|].
  injection E3 as <- <- <-. unfold bindM at 1, tryM at 1, RowsAffected.
  destruct (driver _ _) as [[rows|err|p] w4] eqn:E5; simpl; try done.
  2: { unfold rollback_with, bindM, tryM. by destruct (Rollback w4) as [[] ?]. }
  apply driver_inv in E5. injection E5 as <- <-.
  destruct (Nat.eqb_spec m 1); simpl.
  2: { unfold bindM, tryM. by destruct (Rollback _) as [[] ?]. }
  subst m. intros Hc%commit_or_ok. apply update_member_one in E4 as (r & Hr & He & ->).
  rewrite Hm in Hr. exists r. eexists. rewrite Hc. split_and!; [done|done| |exact Hus|exact Hrest..].
  simpl. by rewrite Hm.
Qed.
End register_member.

(** ** Two registrations with one token, interleaved *)
Section race.
Context {X : Ext} {S : Type} {DB : Database S} {H : Host S}.

(* two goroutines serve two requests; both read the member before either of
   them registers it *)
Definition validateToken_interleaved (r1 r2 : APIrequest) : M S (APIresponse * APIresponse) :=
  let! x1 := validateToken_check r1 in
  let! x2 := validateToken_check r2 in
  let! a1 := validateToken_commit r1 x1 in
  let! a2 := validateToken_commit r2 x2 in
  retM (a1, a2).

(* the same two requests one after the other *)
Definition validateToken_sequential (r1 r2 : APIrequest) : M S (APIresponse * APIresponse) :=
  let! a1 := validateToken r1 in
  let! a2 := validateToken r2 in
  retM (a1, a2).
End race.

#[local] Existing Instance demo_ext.
#[local] Instance registry_env : Env := demo_env 1.
#[local] Instance registry_host : Host World := env_host None.

Definition token_request (token : string) (key : bytes) : APIrequest :=
  setq_SignaturePublicKey key (setq_Token token (setq_EntityID "e1" zero_APIrequest)).

(* registration by token is not safe under concurrency: served one after
    the other, the second of two requests for one token is refused; when both
    read the member before either registers it, both are told they registered
    and the member has the key of the last one. *)
Lemma validateToken_race :
  let r1 := token_request "0011" "k2" in
  let r2 := token_request "0011" "k3" in
  failing (validateToken_sequential r1 r2 demo_world).1 /\
  (exists a, (validateToken_interleaved r1 r2 demo_world).1 = Ok a) /\
  mr_public_key <$> members (w_db (validateToken_interleaved r1 r2 demo_world).2) !! 12%N
  = Some (Some "k3").
Proof.
  intros r1 r2. split; [|split; [eexists|]; vm_compute; reflexivity].
  intros a. vm_compute. discriminate.
Qed.

(** ** Witnesses *)

