(* ===== verification/Metrics.v ===== *)
(** * What the registry counts (registry/metrics.go, registry/registry.go)

    RegistryRequests is a vector of Prometheus counters by label; the handlers
    of Registry increment them with [host_Inc]. Here they run on a state that
    records the labels in the order they are incremented, over any database and
    any other services. *)
From S2P Require Import Prelude GoLib Ext Util Types Session PgTypes Database Registry.

(** ** The recorded labels *)
Section counted.
Context {S : Type}.

Definition Counted : Type := S * list string.
Definition uncounted {A} (m : M S A) : M Counted A := fun c =>
  let '(o, s) := m c.1 in (o, (s, c.2)).

Definition counted_db (D : Database S) : Database Counted := map_db (@uncounted) D.
(* the services of [H], with the increments on record *)
Definition counted_host (H : Host S) : Host Counted := {|
  host_uuid := uncounted host_uuid;
  host_Unix := uncounted host_Unix;
  host_Perm n := uncounted (host_Perm n);
  host_callback a b c u := uncounted (host_callback a b c u);
  host_SendVotingLink m e p := uncounted (host_SendVotingLink m e p);
  host_SendValidationLink m e := uncounted (host_SendValidationLink m e);
  host_smtp := host_smtp;
  host_schedule := uncounted host_schedule;
  host_time_String := host_time_String;
  host_SendTokens := option_map (fun f a b c => uncounted (f a b c)) host_SendTokens;
  host_Inc l := fun c => (Ok tt, (c.1, c.2 ++ [l]));
|}.

(* [m] increments some labels, as [Q] says of its outcome *)
Definition counts {A} (Q : outcome A -> list string -> Prop) (m : M Counted A) : Prop :=
  forall c, exists l, (m c).2.2 = c.2 ++ l /\ Q (m c).1 l.
(* no label *)
Definition silent {A} (m : M Counted A) : Prop := counts (fun _ l => l = []) m.

Lemma counts_bind {A B} Q (m : M Counted A) (k : A -> M Counted B) :
  silent m -> (forall e, Q (Err e) []) -> (forall p, Q (Panic p) []) ->
  (forall a, counts Q (k a)) -> counts Q (bindM m k).
Proof.
  intros Hm He Hp Hk c. unfold bindM. destruct (Hm c) as (l & Hl & ->). rewrite app_nil_r in Hl.
  destruct (m c) as [[a|e|p] c']; simpl in *.
  - rewrite <- Hl. apply Hk.
  - exists []. by rewrite Hl, app_nil_r.
  - exists []. by rewrite Hl, app_nil_r.
Qed.

Lemma counts_assoc {A B C} Q (m : M Counted A) (k : A -> M Counted B) (k' : B -> M Counted C) :
  counts Q (bindM m (fun a => bindM (k a) k')) -> counts Q (bindM (bindM m k) k').
Proof. intros H c. specialize (H c). unfold bindM in *. by destruct (m c) as [[] ?]. Qed.
Lemma counts_then_fail {A B} (Q : outcome B -> list string -> Prop) e (k : A -> M Counted B) :
  Q (Err e) [] -> counts Q (bindM (failM e) k).
Proof. intros HQ c. exists []. by rewrite app_nil_r. Qed.
Lemma counts_then_ret {A B} (Q : outcome B -> list string -> Prop) (a : A) (k : A -> M Counted B) :
  counts Q (k a) -> counts Q (bindM (retM a) k).
Proof. done. Qed.

Lemma counts_ret {A} Q (a : A) : Q (Ok a) [] -> counts Q (retM a).
Proof. intros HQ c. exists []. by rewrite app_nil_r. Qed.
Lemma counts_fail {A} (Q : outcome A -> list string -> Prop) e : Q (Err e) [] -> counts Q (failM e).
Proof. intros HQ c. exists []. by rewrite app_nil_r. Qed.

Lemma uncounted_silent {A} (m : M S A) : silent (uncounted m).
Proof. intros c. exists []. unfold uncounted. destruct (m c.1). by rewrite app_nil_r. Qed.
Lemma silent_onErr {A} (m : M Counted A) f : silent m -> silent (onErr m f).
Proof. intros Hm c. specialize (Hm c). unfold onErr. by destruct (m c) as [[] ?]. Qed.
Lemma silent_tryM {A} (m : M Counted A) : silent m -> silent (tryM m).
Proof.
  intros Hm c. destruct (Hm c) as (l & Hl & ->). exists []. unfold tryM.
  by destruct (m c) as [[] ?].
Qed.
Lemma silent_ret {A} (a : A) : silent (retM a).
Proof. by apply counts_ret. Qed.
Lemma silent_lift {A} (r : gerror + A) : silent (liftE r).
Proof. destruct r; [by apply counts_fail|by apply counts_ret]. Qed.
Lemma silent_bind {A B} (m : M Counted A) (k : A -> M Counted B) :
  silent m -> (forall a, silent (k a)) -> silent (bindM m k).
Proof. intros Hm Hk. by apply counts_bind. Qed.
End counted.
Arguments Counted : clear implicits.

Create HintDb counts discriminated.
#[export] Hint Resolve silent_onErr silent_tryM silent_ret silent_lift : counts.

Section registry_counts.
Context {X : Ext} {S : Type} {DB : Database S} {H : Host S}.
#[local] Instance labels_db : Database (Counted S) := counted_db DB.
#[local] Instance labels_host : Host (Counted S) := counted_host H.

(* an increment, and what follows *)
Lemma counts_Inc {A} (Q : outcome A -> list string -> Prop) label (k : unit -> M (Counted S) A) :
  counts (fun o l => Q o (label :: l)) (k tt) -> counts Q (bindM (host_Inc label) k).
Proof.
  intros Hk c. destruct (Hk (c.1, c.2 ++ [label])) as (l & Hl & HQ). exists (label :: l).
  split; [|exact HQ]. unfold bindM. simpl in *. by rewrite Hl, <- app_assoc.
Qed.

(* the labels of the errors of validateToken that are counted *)
Definition error_labels : list (string * string) :=
  [("validateToken_error_entity", "invalid entity id");
   ("validateToken_error_invalid_token", "invalid token id");
   ("validateToken_error_already_registered", "duplicate user already registered");
   ("validateToken_error_reused_token", "invalid token")].

(* the labels of a request, after the one of its method: that of its success,
   or at most one that names its error *)
Definition outcome_labels {A} (success : string) (errors : list (string * string))
    (o : outcome A) (l : list string) : Prop :=
  match o with
  | Ok _ => l = [success]
  | Err e => l = [] \/ exists label, l = [label] /\ (label, error_string e) ∈ errors
  | Panic _ => l = []
  end.

Lemma counts_then_counted {A B} success errors label msg (k : A -> M (Counted S) B) :
  (label, msg) ∈ errors ->
  counts (outcome_labels success errors) (bindM (fail_counted label msg) k).
Proof.
  intros Hin. apply counts_assoc, counts_Inc, counts_then_fail. right. by exists label.
Qed.
Lemma counts_success {A} success errors (a : A) :
  counts (outcome_labels success errors) (let! _ := host_Inc (S:=Counted S) success in retM a).
Proof. apply counts_Inc. by apply counts_ret. Qed.

(* the label of the method, then those of the outcome *)
Lemma counts_method {A} label success errors (k : unit -> M (Counted S) A) :
  counts (outcome_labels success errors) (k tt) ->
  counts (fun o l => exists l', l = label :: l' /\ outcome_labels success errors o l')
    (bindM (host_Inc label) k).
Proof. intros Hk. apply counts_Inc. intros c. destruct (Hk c) as (l & Hl & HQ). eauto. Qed.

(* runs the next step of a handler *)
Ltac quiet :=
  first [apply silent_onErr | apply silent_tryM | idtac];
  first [apply uncounted_silent | apply silent_lift | apply silent_ret].
Ltac go_counts :=
  intros; repeat (cbn beta iota zeta; first
    [ apply counts_success
    | apply counts_ret; reflexivity
    | apply counts_fail; by left
    | apply counts_then_fail; by left
    | apply counts_then_counted; set_solver
    | apply counts_then_ret
    | apply counts_assoc
    | apply counts_bind; [quiet|intros; by left|done|intros ?]
    | match goal with
      | |- counts _ (bindM (match ?x with _ => _ end) _) => destruct x
      | |- counts _ (match ?x with _ => _ end) => destruct x
      end ]).

(* validateToken is counted once, then once more for what came of it: its
   success exactly when the request is accepted, or the error it answers with *)
Lemma validateToken_counts (request : APIrequest) :
  counts (fun o l => exists l', l = "validateToken" :: l' /\
            outcome_labels "validateToken_sucess" error_labels o l')
    (validateToken (S:=Counted S) request).
Proof.
  unfold validateToken, validateToken_check, validateToken_commit.
  apply counts_assoc, counts_method. go_counts.
Qed.

(* so is register, whose errors have no label *)
Lemma register_counts (request : APIrequest) :
  counts (fun o l => exists l', l = "register" :: l' /\ outcome_labels "register_success" [] o l')
    (register (S:=Counted S) request).
Proof. unfold register. apply counts_method. go_counts. Qed.

(* and registrationStatus, by whether the key is registered *)
Lemma registrationStatus_counts (request : APIrequest) :
  counts (fun o l => exists l', l = "status" :: l' /\
            match o with
            | Ok r => exists b, rs_Status r = Some (mkStatus b false) /\
                l' = [if b : bool then "status_registered" else "status_not_registered"]
            | _ => l' = []
            end)
    (registrationStatus (S:=Counted S) request).
Proof.
  unfold registrationStatus. apply counts_Inc.
  apply counts_bind; [quiet|eauto..|intros _]. apply counts_bind; [quiet|eauto..|intros [err|m]].
  - destruct (bool_decide _); [|apply counts_fail; eauto].
    apply counts_Inc, counts_ret. eexists. split; [reflexivity|]. by exists false.
  - apply counts_Inc, counts_ret. eexists. split; [reflexivity|]. by exists true.
Qed.

(* the other methods count nothing *)
Lemma subscriptions_count_nothing (request : APIrequest) :
  silent (subscribe (S:=Counted S) request) /\ silent (unsubscribe (S:=Counted S) request) /\
  silent (listSubscriptions (S:=Counted S) request).
Proof. split_and!; apply silent_ret. Qed.
End registry_counts.
