(* ===== verification/Roster.v ===== *)
(** * The life of a token: a specification the token API and the registry refine

    Abstractly an entity keeps a roster, a map from the tokens of its members
    to their keys. A token is generated free, a member registers one key with
    it, and it can be revoked. The handlers generate, validateToken, revoke
    and status, with the methods of pgsql.go they call, refine this machine.
    The other calls that change a roster (importKeysBulk, deleteKeys, register
    and the manager's) are outside of it; what they may do to a registered key
    is in Concurrent. *)
From S2P Require Import Prelude GoLib Ext Util Types Schema SchemaOk Tenant Session.
From S2P Require Import PgTypes PgTx PgEntities PgMembers PgQueries PgTags PgOps PgSpec.
From S2P Require Import Database TokenAPI Registry.

(** ** The machine *)

(* the members of an entity, each with its key once it has registered *)
Abbreviation Roster := (gmap uuid (option bytes)).

Inductive Command :=
| Generate (tokens : list uuid)
| Register (i : uuid) (k : bytes)
| Revoke (i : uuid)
| Look (i : uuid) (answer : string).

Section machine.
Context {X : Ext}.

(* what status tells of a token *)
Definition tell (o : option (option bytes)) : string :=
  match o with
  | None => "invalid"
  | Some k => if (len (default "" k) =? PubKeyLengthBytes)%Z then "registered" else "available"
  end.

Inductive roster_step (R : Roster) : Command -> Roster -> Prop :=
| step_generate tokens :
    NoDup tokens -> (forall i, i ∈ tokens -> i <> uuid_Nil /\ R !! i = None) ->
    roster_step R (Generate tokens) (list_to_map (map (fun i => (i, None)) tokens) ∪ R)
| step_register i k o :
    ValidPubKey k = true -> R !! i = Some o -> default "" o = "" ->
    (forall j, R !! j <> Some (Some k)) ->
    roster_step R (Register i k) (<[i := Some k]> R)
| step_revoke i o :
    R !! i = Some o -> roster_step R (Revoke i) (delete i R)
(* a lookup the database refuses is told as "invalid" too *)
| step_look i answer :
    answer = tell (R !! i) \/ answer = "invalid" -> roster_step R (Look i answer) R.

(** ** The tables as a roster *)

Definition roster_row (e : bytes) (r : MemberRow) : option (option bytes) :=
  if bool_decide (mr_entity_id r = e) then Some (mr_public_key r) else None.
Definition roster (e : bytes) (d : Db) : Roster := omap (roster_row e) (members d).

(** ** The calls *)

Inductive Call :=
| CallGenerate (request : APIrequest)
| CallValidate (request : APIrequest)
| CallRevoke (request : APIrequest)
| CallStatus (request : APIrequest).

Definition request_of (c : Call) : APIrequest :=
  match c with CallGenerate r | CallValidate r | CallRevoke r | CallStatus r => r end.

(* the token of a request *)
Definition token_of (request : APIrequest) : uuid :=
  match uuid_Parse (rq_Token request) with inr i => i | inl _ => uuid_Nil end.

Definition serve {S} {DB : Database S} {H : Host S} (c : Call) : M S APIresponse :=
  match c with
  | CallGenerate r => generate r
  | CallValidate r => validateToken r
  | CallRevoke r => revoke r
  | CallStatus r => status r
  end.

(* the command an answered call amounts to *)
Definition effect (c : Call) (response : APIresponse) : Command :=
  match c with
  | CallGenerate _ => Generate (rs_Tokens response)
  | CallValidate r => Register (token_of r) (rq_SignaturePublicKey r)
  | CallRevoke r => Revoke (token_of r)
  | CallStatus r => Look (token_of r) (rs_TokenStatus response)
  end.
End machine.

(** ** Lemmas on rosters *)
Section roster_lemmas.
Context {X : Ext} (e : bytes).

Lemma lookup_roster d i : roster e d !! i = members d !! i ≫= roster_row e.
Proof. unfold roster. by rewrite lookup_omap. Qed.

Lemma roster_Some d i o :
  roster e d !! i = Some o <->
  exists r, members d !! i = Some r /\ mr_entity_id r = e /\ mr_public_key r = o.
Proof.
  rewrite lookup_roster. unfold roster_row. destruct (members d !! i) as [r|]; simpl;
    [|naive_solver]. case_bool_decide; naive_solver.
Qed.

Lemma roster_tenant d d' : tenant_rows e d = tenant_rows e d' -> roster e d = roster e d'.
Proof.
  intros [= _ _ Hm _ _ _]. apply map_eq. intros i. apply option_eq. intros o.
  rewrite !roster_Some. apply (f_equal (lookup i)) in Hm.
  assert (Hi : forall dd r, filter (fun x : uuid * MemberRow => mr_entity_id x.2 = e) (members dd) !! i
                 = Some r <-> members dd !! i = Some r /\ mr_entity_id r = e).
  { intros dd r. apply map_lookup_filter_Some. }
  split; intros (r & H1 & H2 & H3); exists r.
  - destruct (proj1 (Hi d' r)); [rewrite <- Hm; apply Hi; by split|by split_and!].
  - destruct (proj1 (Hi d r)); [rewrite Hm; apply Hi; by split|by split_and!].
Qed.

Lemma roster_members d d' : members d = members d' -> roster e d = roster e d'.
Proof. unfold roster. by intros ->. Qed.

(* in a consistent database a key is in a roster once *)
Lemma roster_key_once d i j k :
  unique_ok d -> roster e d !! i = Some (Some k) -> roster e d !! j = Some (Some k) -> i = j.
Proof.
  intros Hd (r1 & H1 & E1 & K1)%roster_Some (r2 & H2 & E2 & K2)%roster_Some.
  eapply (ok_members_pubkey d Hd i j r1 r2 (e, k)); try done;
    unfold member_pubkey_key; [rewrite K1|rewrite K2]; simpl; by rewrite ?E1, ?E2.
Qed.

Lemma roster_update_tags p f d a d' :
  update_members_tags p f d = inr (a, d') -> roster e d' = roster e d.
Proof.
  intros Hu. apply map_eq. intros i. rewrite !lookup_roster.
  rewrite (update_members_tags_lookup _ _ _ _ _ i Hu).
  destruct (members d !! i) as [r|]; [|done]. simpl. by destruct (p i r).
Qed.

Lemma roster_insert d i r k now :
  members d !! i = Some r -> mr_entity_id r = e ->
  roster e (set_members (<[i := register_row k now r]> (members d)) d) = <[i := Some k]> (roster e d).
Proof.
  intros Hr He. unfold roster. simpl. apply omap_insert_Some.
  unfold roster_row. simpl. by rewrite bool_decide_eq_true_2.
Qed.

Lemma roster_delete d i a d' :
  delete_members (fun j r => bool_decide (j = i) && bool_decide (mr_entity_id r = e)) d
  = inr (a, d') ->
  roster e d' = delete i (roster e d) /\ (roster e d !! i = None <-> a = []).
Proof.
  unfold delete_members. intros [= Ha <-]. split.
  - apply map_eq. intros j. rewrite lookup_delete, !lookup_roster. simpl.
    rewrite map_lookup_filter. destruct (members d !! j) as [r|] eqn:Er; simpl; [|by case_decide].
    unfold roster_row. repeat case_bool_decide; subst; simpl; repeat case_decide; try done.

  - rewrite eq_None_not_Some, <- Ha. split.
    + intros Hn. apply elem_of_nil_inv. intros [j r] [Hp Hj]%list_elem_of_filter. simpl in Hp.
      apply andb_true_iff in Hp as [->%bool_decide_eq_true_1 He%bool_decide_eq_true_1].
      apply elem_of_map_to_list in Hj. apply Hn. exists (mr_public_key r).
      apply roster_Some. eauto.
    + intros Hl [o (r & Hr & He & _)%roster_Some].
      assert (Hin : (i, r) ∈ @nil (uuid * MemberRow)); [|by apply not_elem_of_nil in Hin].
      rewrite <- Hl. apply list_elem_of_filter. split; [|by apply elem_of_map_to_list]. simpl.
      by rewrite !bool_decide_eq_true_2.
Qed.

Lemma roster_add_members (rows : list (uuid * MemberRow)) d :
  NoDup rows.*1 -> (forall x, x ∈ rows -> mr_entity_id x.2 = e /\ mr_public_key x.2 = None) ->
  roster e (add_members rows d) = list_to_map (map (fun i => (i, None)) rows.*1) ∪ roster e d.
Proof.
  revert d. induction rows as [|[i r] rows IH]; intros d; simpl.
  - intros _ _. by rewrite (left_id_L ∅ (∪)).
  - intros Hnd Hr. apply NoDup_cons in Hnd as [Hi Hnd]. rewrite add_members_cons.
    rewrite IH; [|done|set_solver]. simpl.
    assert (Hn : (list_to_map (map (fun j => (j, None)) rows.*1) : Roster) !! i = None).
    { apply not_elem_of_list_to_map. by rewrite <- list_fmap_compose, list_fmap_id. }
    assert (Hx : roster e (set_members (<[i := r]> (members d)) d) = <[i := None]> (roster e d)).
    { destruct (Hr (i, r)) as [He Hk]; [set_solver|]. unfold roster. simpl.
      apply omap_insert_Some. unfold roster_row. simpl in *. rewrite bool_decide_eq_true_2 by done.
      by rewrite Hk. }
    rewrite Hx, <- insert_union_r by done. by rewrite insert_union_l.
Qed.
End roster_lemmas.

(** ** The methods of the database *)
Section methods.
Context {X : Ext} {V : Env}.

Lemma token_members_inv e ts w ps w' :
  token_members e ts w = (Ok ps, w') ->
  map (fun p => m_ID (pm_Member p)) ps = ts /\ (uuid_Nil ∉ ts) /\
  Forall (fun p => m_EntityID (pm_Member p) = e /\ m_PubKey (pm_Member p) = None) ps.
Proof.
  revert ps w. induction ts as [|t ts IH]; intros ps w; simpl.
  { intros [= <- _]. split_and!; [done|set_solver|constructor]. }
  destruct (bool_decide (t = uuid_Nil)) eqn:Et; [done|]. apply bool_decide_eq_false_1 in Et.
  unfold bindM, time_Now. destruct (token_members e ts w) as [[rest|err|p] w1] eqn:E; try done.
  intros [= <- ->]. apply IH in E as (Hi & Hn & Hf). split_and!.
  - simpl. by rewrite Hi.
  - set_solver.
  - by constructor.
Qed.

Lemma CreateMembersWithTokens_inv e ts w u w' :
  CreateMembersWithTokens e ts w = (Ok u, w') ->
  roster_step (roster e (w_db w)) (Generate ts) (roster e (w_db w')).
Proof.
  unfold CreateMembersWithTokens. unfold bindM at 1.
  destruct (token_members e ts w) as [[ps|err|p] w1] eqn:E1; try done.
  pose proof (token_members_keeps e ts w) as Hk1. rewrite E1 in Hk1. simpl in Hk1.
  apply token_members_inv in E1 as (Hids & Hnil & Hps).
  unfold bindM at 1, onErr at 1, Beginx.
  destruct (driver _ w1) as [[tx|err|p] w2] eqn:E2; try done.
  apply driver_inv in E2. injection E2 as <- _. change (w_db (tick w1)) with (w_db w1).
  unfold bindM, onErr.
  destruct (bulkInsert _ _ _ _ _ w2) as [[tx|err|p] w3] eqn:E3; try done.
  intros Hc%commit_or_ok. rewrite Hc, <- Hk1. clear Hc.
  apply (bulkInsert_inv insert_members) in E3 as (n & E3).
  apply insert_members_inv in E3 as (_ & -> & Hnd & Hnew & _).
  set (rows := map (fun p => (m_ID (pm_Member p), token_row p)) ps) in *.
  assert (Hrows : rows.*1 = ts).
  { unfold rows. rewrite <- Hids. by rewrite <- list_fmap_compose. }
  rewrite roster_add_members; [|done|].
  - rewrite Hrows in *. constructor; [done|]. intros i Hi. split; [by intros ->|].
    rewrite <- Hrows in Hi. apply list_elem_of_fmap in Hi as (x & -> & Hx).
    rewrite lookup_roster, (Hnew x Hx). done.
  - intros x Hx. unfold rows in Hx. apply list_elem_of_fmap in Hx as (p & -> & Hp).
    rewrite Forall_forall in Hps. by apply Hps in Hp.
Qed.

Lemma DeleteMember_cases e i w :
  let R := roster e (w_db w) in
  match DeleteMember e (Some i) w with
  | (Ok _, w') => roster_step R (Revoke i) (roster e (w_db w'))
  | (_, w') => roster e (w_db w') = R \/ roster_step R (Revoke i) (roster e (w_db w'))
  end.
Proof.
  intros R. unfold DeleteMember, bindM at 1, onErr at 1, db_exec.
  destruct (driver _ w) as [[hit|err|p] w1] eqn:E1.
  - apply driver_inv in E1. destruct (delete_members _ _) as [err|[a d]] eqn:Ed; [done|].
    injection E1 as <- <-. apply (roster_delete e) in Ed as [Hd Hhit].
    change (w_db (tick w)) with (w_db w) in *. fold R in Hd, Hhit.
    assert (Hs : a <> [] -> roster_step R (Revoke i) (delete i R)).
    { intros Ha. destruct (R !! i) as [o|] eqn:Eo; [by econstructor|]. tauto. }
    assert (Hn : a = [] -> roster e d = R).
    { intros Ha. rewrite Hd. apply delete_id. tauto. }
    unfold bindM, tryM, RowsAffected, driver. destruct (env_fault _); simpl.
    + destruct a; [left; by apply Hn|right; rewrite Hd; by apply Hs].
    + destruct (Nat.eqb_spec (length a) 1) as [Hl|Hl]; simpl.
      * rewrite Hd. apply Hs. by intros ->.
      * destruct a; [left; by apply Hn|right; rewrite Hd; by apply Hs].
  - left. revert E1. unfold driver. destruct (env_fault _); [by intros [= _ <-]|].
    destruct (delete_members _ _) as [err'|[a d]]; [by intros [= _ <-]|done].
  - revert E1. unfold driver. destruct (env_fault _); [done|].
    by destruct (delete_members _ _) as [err'|[a d]].
Qed.

Lemma pointer_nopanic {A} (m : D A) : nopanic m -> nopanic (pointer m).
Proof. intros Hm. unfold pointer. go_nopanic. Qed.
Lemma TagByName_nopanic e n : nopanic (TagByName e n).
Proof. unfold TagByName. go_nopanic. Qed.
Lemma RemoveTag_nopanic e l t : nopanic (RemoveTagFromMembers e l t).
Proof. unfold RemoveTagFromMembers, checked_tag, pg_Tag. go_nopanic. Qed.
(* removing a tag changes nothing but the tags of members *)
Definition no_tags (e : bytes) (d : Db) :=
  (roster e d, users d, entities d, entities_origins d, targets d, censuses d,
   census_members d, tags d).
Lemma RemoveTag_rest e0 R e l t :
  safe (fun d => no_tags e0 d = R) anything (RemoveTagFromMembers e l t).
Proof.
  assert (Hs : forall p f, stmt_ok (fun d => no_tags e0 d = R) (update_members_tags p f)).
  { intros p f d a d' <- Hu. unfold no_tags. rewrite (roster_update_tags e0 _ _ _ _ _ Hu).
    by injection Hu as <- <-. }
  unfold RemoveTagFromMembers. go_safe.
Qed.

(* and of the members that it lists *)
Lemma RemoveTag_others R e i t :
  safe (fun d => delete i (members d) = R) anything (RemoveTagFromMembers e [i] t).
Proof.
  assert (Hs : forall p f, (forall j r, p j r = true -> j = i) ->
    stmt_ok (fun d => delete i (members d) = R) (update_members_tags p f)).
  { intros p f Hp d a d' <- Hu. apply map_eq. intros j.
    destruct (decide (i = j)) as [<-|Hij]; [by rewrite !lookup_delete_eq|].
    rewrite !lookup_delete_ne by done. rewrite (update_members_tags_lookup _ _ _ _ _ j Hu).
    destruct (members d !! j) as [r|]; [|done]. simpl.
    destruct (p j r) eqn:E; [by rewrite (Hp _ _ E) in Hij|done]. }
  assert (Hp : forall j (b : bool), b && bool_decide (j ∈ [i]) = true -> j = i).
  { intros j b [_ Hj%bool_decide_eq_true_1%list_elem_of_singleton]%andb_prop. done. }
  unfold RemoveTagFromMembers. go_safe.
Qed.

Lemma RegisterMember_user_run tx k w :
  no_faults ->
  (users (w_db w) !! k = None -> forall u r, users tx !! u = Some r ->
     u <> k /\ ur_digested_public_key r <> k) ->
  exists tx' w', RegisterMember_user tx k w = (Ok tx', w') /\ entities tx' = entities tx /\
    entities_origins tx' = entities_origins tx /\ members tx' = members tx /\
    (users (w_db w) = users tx -> is_Some (users tx' !! k)).
Proof.
  intros Hf Hu. unfold RegisterMember_user, bindM, tryM, pg_User, db_get.
  rewrite driver_no_fault by done. change (w_db (tick w)) with (w_db w).
  destruct (users (w_db w) !! k) as [u|] eqn:Ek; simpl.
  { exists tx, (tick w). split_and!; try done. intros <-. by rewrite Ek. }
  unfold insert_user_now, bindM, time_Now.
  assert (Hins : forall n1 n2, insert_user (Some k) (Some k) n1 n2 tx
            = inr (1, set_users (<[k := mkUserRow k n1 n2]> (users tx)) tx)).
  { intros n1 n2. unfold insert_user, checked, first_error.
    destruct (users tx !! k) as [r|] eqn:Er; [by destruct (Hu eq_refl k r Er)|].
    rewrite bool_decide_eq_true_2 by done.
    assert (exists_row (fun _ u => bool_decide (ur_digested_public_key u = k)) (users tx) = false)
      as ->; [|done].
    apply exists_row_false. intros u r Hr. apply bool_decide_eq_false_2.
    by destruct (Hu eq_refl u r Hr). }
  erewrite run_tx_exec by (try apply Hins; done). unfold onErr. rewrite run_RowsAffected by done.
  simpl. do 2 eexists. split; [reflexivity|]. simpl. split_and!; try done.
  intros _. rewrite lookup_insert_eq. by eexists.
Qed.

(* a free key can be registered for a member of a consistent database *)
Lemma RegisterMember_run e k i r f w :
  no_faults -> db_ok (w_db w) -> JSONB_Set None = inr f -> ValidPubKey k = true ->
  members (w_db w) !! i = Some r -> mr_entity_id r = e ->
  (forall j, roster e (w_db w) !! j <> Some (Some k)) ->
  (users (w_db w) !! k = None -> forall u r, users (w_db w) !! u = Some r ->
     ur_digested_public_key r <> k) ->
  exists w', RegisterMember e k (Some i) w = (Ok tt, w').
Proof.
  intros Hf Hok Hj Hv Hr He Hk Hu. unfold RegisterMember.
  unfold bindM at 1, onErr at 1. rewrite run_Beginx by done. unfold bindM at 1, time_Now.
  rewrite Hv. simpl. set (now := env_now _). set (w1 := set_open _ _).
  destruct (RegisterMember_user_run (w_db w) k w1 Hf) as (tx & w2 & E & Hent & Horig & Hm & Hus).
  { intros Hn u r' Hr'. split; [intros ->; change (w_db w1) with (w_db w) in Hn; congruence|].
    by apply (Hu Hn u). }
  unfold bindM at 1. rewrite E. clear E. unfold bindM at 1, onErr at 1, liftE, ToPGMember. simpl.
  rewrite Hj. simpl.
  assert (Hs : update_member i e (fun _ => true) (register_row k now) tx
            = inr (1, set_members (<[i := register_row k now r]> (members tx)) tx)).
  { unfold update_member. rewrite Hm, Hr. rewrite bool_decide_eq_true_2 by done. simpl.
    unfold checked. simpl. rewrite Hm.
    match goal with |- context [exists_row ?p ?m] => assert (exists_row p m = false) as -> end.
    { apply exists_row_false. intros j r' Hj'. apply bool_decide_eq_false_2.
      intros (_ & He' & _ & Hk'). apply (Hk j), roster_Some. exists r'. by rewrite He'. }
    match goal with |- context [exists_row ?p ?m] => assert (exists_row p m = false) as -> end.
    { apply exists_row_false. intros j r' Hj'. apply bool_decide_eq_false_2.
      intros (Hne & He' & Hm1 & Hm2). apply Hne.
      destruct (mr_email r) as [m|] eqn:Em; [|done].
      eapply (ok_members_email _ (proj1 Hok) j i r' r (e, m)); try done;
        unfold member_email_key; by rewrite ?Hm2, ?Em, ?He', ?He. }
    simpl. destruct (fk_members _ (proj2 Hok) i r Hr) as [F1 F2 _].
    rewrite Hent, Horig. rewrite !bool_decide_eq_true_2; [done|by apply Hus|done|done]. }
  unfold bindM at 1, tryM at 1. erewrite run_tx_exec by (try apply Hs; done). simpl.
  unfold bindM at 1, tryM at 1. rewrite run_RowsAffected by done. simpl.
  match goal with |- context [commit_or ?t ?g ?w] =>
    destruct (run_commit_or t g w Hf) as (w' & -> & _) end. eauto.
Qed.
End methods.

(** ** The handlers *)

(* what the methods of the database keep the calls keep *)
Lemma serve_inv {X : Ext} {S} {DB : Database S} {H : Host S} c J (E : bytes -> Prop) :
  DatabaseInv DB J E every_key -> HostInv H J (fun _ => False) ->
  E (rq_EntityID (request_of c)) ->
  preserves J anything (serve c).
Proof.
  intros HD HH He. destruct c as [r|r|r|r]; simpl in *;
    unfold generate, revoke, status, validateToken, validateToken_check, validateToken_commit,
      fail_counted, requireToken, requireSecret, getSecret, requireAuth, checkAuth, new_uuids.
  all: go_inv.
  2-4: apply readonly_preserves, readonly_lift.
  eapply preserves_weaken; [apply preserves_mapM_; intros; apply inv_uuid|done].
Qed.

Section handlers.
Context {X : Ext} {V : Env} (eth : option (string -> Z -> Z -> D Z)).
#[local] Instance roster_host : Host World := env_host eth.

Lemma requireToken_inv request w i w' :
  requireToken (S:=World) request w = (Ok i, w') -> i = token_of request /\ w' = w.
Proof.
  unfold requireToken, token_of. destruct (_ =? 0)%Z; [done|]. destruct (_ =? 0)%Z; [done|].
  unfold onErr, liftE. destruct (uuid_Parse _); [done|]. by intros [= -> ->].
Qed.
Lemma requireToken_keeps request : keeps w_db (requireToken (S:=World) request).
Proof. unfold requireToken. go_keeps. Qed.
Lemma requireSecret_keeps e : keeps w_db (requireSecret (S:=World) e).
Proof.
  pose proof (pg_Entity_keeps e). unfold requireSecret, getSecret. simpl. go_keeps.
Qed.
Lemma requireAuth_keeps request fields : keeps w_db (requireAuth (S:=World) request fields).
Proof. unfold requireAuth, checkAuth. simpl. go_keeps. Qed.
Lemma new_uuids_keeps n : keeps w_db (new_uuids (S:=World) n).
Proof. unfold new_uuids. simpl. apply keeps_mapM_. intros _. apply uuid_New_keeps. Qed.
Hint Resolve requireToken_keeps requireSecret_keeps requireAuth_keeps new_uuids_keeps : go.

(* runs the next call of a handler, which keeps the tables *)
Ltac step_keeps w1 E :=
  match goal with
  | |- context [bindM ?m _ ?w] =>
      let Hk := fresh "Hk" in
      assert (Hk : keeps w_db m) by eauto with go; specialize (Hk w);
      unfold bindM at 1; destruct (m w) as [[?a|?err|?p] w1] eqn:E; simpl in Hk
  end.

Lemma generate_step request w :
  let e := rq_EntityID request in
  match generate request w with
  | (Ok r, w') => roster_step (roster e (w_db w)) (Generate (rs_Tokens r)) (roster e (w_db w'))
  | (_, w') => w_db w' = w_db w
  end.
Proof.
  intros e. unfold generate. destruct (_ =? 0)%Z; [done|].
  step_keeps w1 E1; [|done..]. step_keeps w2 E2; [|simpl; congruence..].
  destruct (_ <? 1)%Z; [simpl; congruence|]. step_keeps w3 E3; [|simpl; congruence..].
  unfold bindM, onErr, db_CreateMembersWithTokens, pgsql.
  pose proof (CreateMembersWithTokens_atomic (rq_EntityID request) a1 w3) as Ha.
  destruct (CreateMembersWithTokens _ _ w3) as [[u|err|p] w4] eqn:E4; simpl in *; [|congruence..].
  apply CreateMembersWithTokens_inv in E4. replace (w_db w) with (w_db w3) by congruence. done.
Qed.

Lemma status_step request w :
  let e := rq_EntityID request in
  match status request w with
  | (Ok r, w') => w_db w' = w_db w /\
      (rs_TokenStatus r = tell (roster e (w_db w) !! token_of request) \/ rs_TokenStatus r = "invalid")
  | (_, w') => w_db w' = w_db w
  end.
Proof.
  intros e. unfold status. step_keeps w0 E0; [|done..].
  apply requireToken_inv in E0 as [-> ->].
  step_keeps w1 E1; [|done..]. step_keeps w2 E2; [|simpl; congruence..].
  unfold bindM, tryM, db_Member, pgsql. fold e.
  unfold pg_Member, bindM, db_get, driver.
  destruct (env_fault _); [simpl; split; [congruence|auto]|]. simpl.
  replace (w_db w2) with (w_db w) by congruence. rewrite lookup_roster.
  destruct (members (w_db w) !! token_of request) as [r|]; simpl;
    [|split; [congruence|auto]].
  unfold roster_row. case_bool_decide; simpl; [|split; [congruence|auto]].
  destruct (_ =? _)%Z; (split; [simpl; congruence|left; done]).
Qed.

Lemma revoke_step request w :
  let e := rq_EntityID request in
  let R := roster e (w_db w) in
  match revoke request w with
  | (Ok r, w') => roster_step R (Revoke (token_of request)) (roster e (w_db w'))
  | (_, w') => roster e (w_db w') = R \/
               roster_step R (Revoke (token_of request)) (roster e (w_db w'))
  end.
Proof.
  intros e R. unfold revoke. step_keeps w0 E0; [|left; unfold R; simpl; congruence..].
  apply requireToken_inv in E0 as [-> ->].
  step_keeps w1 E1; [|left; unfold R; simpl; congruence..].
  step_keeps w2 E2; [|left; unfold R; simpl; congruence..].
  unfold bindM, onErr, db_DeleteMember, pgsql. fold e.
  pose proof (DeleteMember_cases e (token_of request) w2) as Hc. cbn zeta in Hc.
  unfold R. replace (w_db w) with (w_db w2) by congruence.
  by destruct (DeleteMember _ _ w2) as [[u|err|p] w3].
Qed.
Lemma validateToken_check_roster request w :
  match validateToken_check request w with
  | (Ok (entity, member, i), w') => w_db w' = w_db w /\ i = token_of request /\
      exists o, roster (rq_EntityID request) (w_db w) !! i = Some o /\ default "" o = ""
  | (_, w') => w_db w' = w_db w
  end.
Proof.
  unfold validateToken_check. unfold bindM at 1. simpl host_Inc. unfold retM at 1.
  destruct (_ =? 0)%Z; [done|]. unfold token_of. unfold bindM at 1, onErr at 1, liftE. destruct (uuid_Parse _) as [err|i]; [done|].
  simpl. unfold bindM at 1, tryM at 1.
  pose proof (pg_Entity_keeps (rq_EntityID request) w) as Hk.
  change (db_Entity (rq_EntityID request)) with (pg_Entity (rq_EntityID request)).
  change (db_Member (rq_EntityID request)) with (pg_Member (rq_EntityID request)).
  destruct (pg_Entity _ w) as [[entity|err|p] w1]; simpl in *;
    [|unfold bindM at 1; by case_bool_decide|done].
  unfold bindM at 1, retM at 1. unfold bindM at 1, tryM at 1, pg_Member, bindM at 1, db_get, driver.
  destruct (env_fault _); [unfold bindM at 1; by case_bool_decide|]. simpl. rewrite Hk.
  destruct (members (w_db w) !! i) as [r|] eqn:Er; simpl; [|exact Hk].
  case_bool_decide as He; simpl; [|exact Hk].
  unfold bindM at 1, retM at 1. change (m_PubKey _) with (mr_public_key r).
  destruct (bool_decide _); [exact Hk|].
  destruct (Z.eqb_spec (len (default "" (mr_public_key r))) 0) as [Hl|]; simpl; [|exact Hk].
  split_and!; [exact Hk|done|]. exists (mr_public_key r). split.
  - rewrite lookup_roster, Er. simpl. unfold roster_row. by rewrite bool_decide_eq_true_2.
  - destruct (default "" (mr_public_key r)); [done|]. unfold len in Hl. simpl in Hl. lia.
Qed.

(* once the member has the key the rest of validateToken cannot fail *)
Lemma validateToken_commit_run request entity member i w1 w2 :
  let e := rq_EntityID request in
  RegisterMember e (rq_SignaturePublicKey request) (Some i) w1 = (Ok tt, w2) ->
  exists w3, validateToken_commit request (entity, member, i) w1 = (Ok zero_APIresponse, w3) /\
    forall I : Db -> Prop,
      (forall t, safe I anything (RemoveTagFromMembers e [m_ID member] t)) ->
      I (w_db w2) -> I (w_db w3).
Proof.
  intros e E. unfold validateToken_commit.
  unfold bindM at 1, onErr at 1, db_RegisterMember, pgsql. fold e. rewrite E.
  match goal with |- exists w3, ?m w2 = _ /\ _ =>
    assert (Hret : returns m);
    [|assert (Hs : forall I, (forall t, safe I anything (RemoveTagFromMembers e [m_ID member] t)) ->
        safe I (fun a => a = zero_APIresponse) m);
      [|destruct (Hret w2) as [a Ha]; exists (m w2).2; split]] end.
  - apply returns_bind; [destruct (bool_decide _); apply returns_ret|intros _].
    apply returns_bind; [apply returns_tryM, pointer_nopanic, TagByName_nopanic|intros [err|[tag|]]].
    1,3: repeat (apply returns_bind; [apply returns_ret|intros]); apply returns_ret.
    apply returns_bind; [|intros; apply returns_bind; intros; apply returns_ret].
    apply returns_bind; [apply returns_tryM, RemoveTag_nopanic|intros; apply returns_ret].
  - intros I HI. apply safe_bind_any; [by destruct (bool_decide _)|intros _].
    apply safe_bind_any; [apply keeps_tryM, pointer_keeps, TagByName_keeps|intros [err|[tag|]]].
    1,3: do 2 (apply (preserves_bind _ anything); [by apply preserves_ret|intros]); by apply preserves_ret.
    apply (preserves_bind _ anything);
      [|intros; apply (preserves_bind _ anything); intros; by apply preserves_ret].
    apply (preserves_bind _ anything); [|intros; by apply preserves_ret].
    eapply preserves_weaken; [apply preserves_tryM, HI|done].
  - destruct (Hs (fun _ => True) ltac:(by intros t w _) w2 I) as [_ Hv].
    rewrite (surjective_pairing (_ w2)). f_equal. rewrite Ha. f_equal. by apply Hv.
  - intros I' HI Hw. by apply (Hs I' HI w2).
Qed.

Lemma validateToken_step request w :
  let e := rq_EntityID request in let k := rq_SignaturePublicKey request in
  db_ok (w_db w) -> (0 < PubKeyLengthBytes)%Z ->
  match validateToken request w with
  | (Ok r, w') => roster_step (roster e (w_db w)) (Register (token_of request) k) (roster e (w_db w'))
  | (_, w') => w_db w' = w_db w
  end.
Proof.
  intros e k Hok Hlen. unfold validateToken, bindM at 1.
  pose proof (validateToken_check_roster request w) as Hc.
  destruct (validateToken_check request w) as [[[[entity member] i]|err|p] w1] eqn:E1; [|done..].
  destruct Hc as (Hk1 & -> & o & Ho & Hfree).
  set (R' := <[token_of request := Some k]> (roster e (w_db w))).
  pose proof (RegisterMember_atomic e k (Some (token_of request)) w1) as Ha.
  assert (Hsafe : safe db_ok anything (RegisterMember e k (Some (token_of request))))
    by (apply (RegisterMember_safe (K:=everything)); intros; exact I).
  destruct (RegisterMember e k _ w1) as [[[]|err|p] w2] eqn:E2; simpl in Ha.
  2,3: unfold validateToken_commit, bindM at 1, onErr at 1, db_RegisterMember, pgsql;
    fold e k; rewrite E2; congruence.
  destruct (validateToken_commit_run request entity member _ _ _ E2) as (w3 & -> & HI).
  pose proof (HI (fun d => no_tags e d = no_tags e (w_db w2)) (fun t => RemoveTag_rest _ _ _ _ t) eq_refl)
    as [= HR _ _ _ _ _ _ _].
  fold e in HR. rewrite HR. clear HR HI.
  assert (Hok2 : db_ok (w_db w2)).
  { assert (Hw1 : holds db_ok w1) by (unfold holds; by rewrite Hk1).
    destruct (Hsafe w1 Hw1) as [Hd _]. by rewrite E2 in Hd. }
  apply RegisterMember_ok in E2 as (Hv & r & now & Hr & He & Hm & _).
  assert (HR' : roster e (w_db w2) = R').
  { unfold R'. rewrite <- Hk1. rewrite <- (roster_insert e _ _ r k now Hr He).
    by apply roster_members. }
  rewrite HR'. unfold R'.
  apply (step_register _ _ _ o); [done..|]. intros j Hj.
  assert (j = token_of request) as ->.
  { apply (roster_key_once e (w_db w2) j (token_of request) k); [apply Hok2|..];
      rewrite HR'; unfold R'; [|by rewrite lookup_insert_eq].
    destruct (decide (j = token_of request)) as [->|Hj']; [by rewrite lookup_insert_eq|].
    by rewrite lookup_insert_ne by congruence. }
  unfold e in Hj. rewrite Ho in Hj. injection Hj as ->. simpl in Hfree. rewrite Hfree in Hv.
  apply Z.eqb_eq in Hv. unfold len in Hv. simpl in Hv. lia.
Qed.

(* a request the checks let through *)
Lemma validateToken_check_run request entity o w :
  let e := rq_EntityID request in
  no_faults -> rq_Token request <> "" -> uuid_Parse (rq_Token request) = inr (token_of request) ->
  (pg_Entity e w).1 = Ok entity -> ValidPubKey (rq_SignaturePublicKey request) = true ->
  (0 < PubKeyLengthBytes)%Z ->
  roster e (w_db w) !! token_of request = Some o -> default "" o = "" ->
  exists member w', validateToken_check request w = (Ok (entity, member, token_of request), w') /\
    m_ID member = token_of request /\ w_db w' = w_db w.
Proof.
  intros e Hf Ht Hu He Hv Hlen Ho Hfree. unfold validateToken_check.
  unfold bindM at 1. simpl host_Inc. unfold retM at 1.
  destruct (Z.eqb_spec (len (rq_Token request)) 0) as [Hl|_].
  { destruct (rq_Token request); [done|]. unfold len in Hl. simpl in Hl. lia. }
  unfold bindM at 1, onErr at 1, liftE. rewrite Hu. simpl.
  unfold bindM at 1, tryM at 1. fold e.
  pose proof (pg_Entity_keeps e w) as Hk.
  change (db_Entity e) with (pg_Entity e). change (db_Member e) with (pg_Member e).
  destruct (pg_Entity e w) as [out w1]. simpl in *. subst out.
  apply roster_Some in Ho as (r & Hr & Hre & Hrk).
  unfold bindM at 1, retM at 1. unfold bindM at 1, tryM at 1, pg_Member, bindM at 1, db_get.
  rewrite driver_no_fault by done.
  change (w_db (tick w1)) with (w_db w1). rewrite Hk, Hr. simpl. rewrite Hre.
  rewrite bool_decide_eq_true_2 by done. simpl. unfold bindM at 1, retM at 1. change (m_PubKey _) with (mr_public_key r).
  rewrite Hrk, Hfree.
  rewrite bool_decide_eq_false_2; [simpl; by do 2 eexists|]. intros Hkey. rewrite <- Hkey in Hv.
  apply Z.eqb_eq in Hv. unfold len in Hv. simpl in Hv. lia.
Qed.

(* keys that no user has but the one it is the key of *)
Definition fresh_key (k : bytes) (d : Db) : Prop :=
  users d !! k = None -> forall u r, users d !! u = Some r -> ur_digested_public_key r <> k.

(* a request with a free token and a free key is served *)
Lemma validateToken_run request entity o null w :
  let e := rq_EntityID request in let k := rq_SignaturePublicKey request in
  let R := roster e (w_db w) in
  no_faults -> db_ok (w_db w) -> (0 < PubKeyLengthBytes)%Z -> JSONB_Set None = inr null ->
  rq_Token request <> "" -> uuid_Parse (rq_Token request) = inr (token_of request) ->
  (pg_Entity e w).1 = Ok entity -> ValidPubKey k = true ->
  R !! token_of request = Some o -> default "" o = "" -> (forall j, R !! j <> Some (Some k)) ->
  fresh_key k (w_db w) ->
  exists w', validateToken request w = (Ok zero_APIresponse, w') /\
    roster e (w_db w') = <[token_of request := Some k]> R /\
    delete (token_of request) (members (w_db w')) = delete (token_of request) (members (w_db w)) /\
    users_after k (w_db w) (w_db w') /\ same_rest (w_db w) (w_db w').
Proof.
  intros e k R Hf Hok Hlen Hj Ht Hu He Hv Ho Hfree Hk Hdg.
  destruct (validateToken_check_run request entity o w) as (member & w1 & E1 & Hid & Hw1); try done.
  apply roster_Some in Ho as (r & Hr & Hre & Hrk).
  destruct (RegisterMember_run e k (token_of request) r null w1) as (w2 & E2); try done;
    [by rewrite Hw1..|].
  destruct (validateToken_commit_run request entity member _ _ _ E2) as (w3 & E3 & HI).
  exists w3. split; [unfold validateToken; by rewrite (run_bind _ _ _ _ _ E1)|].
  pose proof (HI (fun d => delete _ (members d) = delete _ (members (w_db w2)))
    (fun t => RemoveTag_others _ _ _ t) eq_refl) as HM. simpl in HM. rewrite Hid in HM.
  pose proof (HI (fun d => no_tags e d = no_tags e (w_db w2)) (fun t => RemoveTag_rest _ _ _ _ t) eq_refl)
    as [= HR HU HE HO HT HC HV HG].
  rewrite HM, HR. unfold users_after, same_rest. rewrite HU, HE, HO, HT, HC, HV, HG.
  apply RegisterMember_ok in E2 as (_ & r' & now & Hr' & He' & Hm & Hus & Hrest).
  unfold R. rewrite <- Hw1. split; [|split; [|done]].
  - rewrite <- (roster_insert e _ _ r' k now Hr' He'). by apply roster_members.
  - by rewrite Hm, delete_insert_eq.
Qed.

(* the key of a user that was added is fresh, and so are the others *)
Lemma fresh_key_after k k' d d' :
  users_after k d d' -> fresh_key k' d -> fresh_key k' d'.
Proof.
  intros [Hu|(_ & n1 & n2 & Hu)] Hf Hn u r; rewrite Hu in *; [by apply Hf|].
  destruct (decide (k' = k)) as [->|Hk]; [by rewrite lookup_insert_eq in Hn|].
  rewrite lookup_insert_ne in Hn by done.
  intros [[<- <-]|[Hku Hr]]%lookup_insert_Some; [done|by apply (Hf Hn u)].
Qed.

(* what Entity answers depends on two tables *)
Lemma pg_Entity_same e w w' :
  no_faults -> same_rest (w_db w) (w_db w') -> (pg_Entity e w').1 = (pg_Entity e w).1.
Proof.
  intros Hf (HE & HO & _). unfold pg_Entity, EntityOrigins, bindM, db_get, db_select, onErr, tryM.
  rewrite !driver_no_fault by done. change (w_db (tick w')) with (w_db w').
  change (w_db (tick w)) with (w_db w). rewrite HE.
  destruct (scan_entity e <$> entities (w_db w) !! e) as [x|]; [|done]. unfold liftE.
  destruct (ToEntity x) as [|y]; [done|]. simpl. rewrite ?driver_no_fault by done. simpl. rewrite HO.
  by repeat case_match; simplify_eq.
Qed.

(* these calls send no ether *)
Lemma serve_no_ether c : serve (H:=env_host eth) c = serve (H:=env_host None) c.
Proof. by destruct c. Qed.

Lemma serve_ok c : preserves (holds db_ok) anything (serve (S:=World) c).
Proof.
  rewrite serve_no_ether. apply (serve_inv c _ (fun _ => True)); [|by apply env_host_inv|done].
  apply pgsql_inv. intros e _. apply db_ok_inv.
Qed.

(* a call leaves the rosters of the other entities alone *)
Lemma serve_elsewhere e c w :
  rq_EntityID (request_of c) <> e -> roster e (w_db (serve c w).2) = roster e (w_db w).
Proof.
  intros He. apply roster_tenant.
  assert (Hs : preserves (holds (rows_are e (tenant_rows e (w_db w)))) anything
                 (serve (S:=World) c)); [|exact (proj1 (Hs w eq_refl))].
  rewrite serve_no_ether.
  apply (serve_inv c _ (fun e' => e' <> e)); [|by apply env_host_inv|done].
  apply pgsql_inv. intros e' He'. by apply rows_inv.
Qed.

(* what one call may do to the roster of its entity *)
Lemma serve_step c w :
  let e := rq_EntityID (request_of c) in let R := roster e (w_db w) in
  db_ok (w_db w) -> (0 < PubKeyLengthBytes)%Z ->
  match serve c w with
  | (Ok response, w') => roster_step R (effect c response) (roster e (w_db w'))
  | (_, w') => roster e (w_db w') = R \/
      exists request, c = CallRevoke request /\
        roster_step R (Revoke (token_of request)) (roster e (w_db w'))
  end.
Proof.
  intros e R Hok Hlen. destruct c as [r|r|r|r]; simpl in *.
  - pose proof (generate_step r w) as Hs. cbn zeta in Hs.
    destruct (generate r w) as [[]]; [done|left; unfold R; congruence..].
  - pose proof (validateToken_step r w Hok Hlen) as Hs. cbn zeta in Hs.
    destruct (validateToken r w) as [[]]; [done|left; unfold R; congruence..].
  - pose proof (revoke_step r w) as Hs. cbn zeta in Hs.
    destruct (revoke r w) as [[]]; [done|destruct Hs; eauto..].
  - pose proof (status_step r w) as Hs. cbn zeta in Hs.
    destruct (status r w) as [[]]; [|left; unfold R; congruence..].
    destruct Hs as [Hw Ha]. fold e in Ha. unfold R. rewrite Hw. by constructor.
Qed.

(** C2: The token API and the registry refine the machine of rosters: a call
    that is answered takes, for its entity, exactly the step its answer tells
    (the tokens it returns were generated and none existed; the key it
    accepted is registered, is nobody else's, and the token was free; the
    token it revoked is gone; the status is the token's), a call that fails
    changes no roster, except that a failing revoke may have removed its own
    token, and no call changes the roster of another entity. *)
Theorem roster_refinement (c : Call) (e : bytes) (w : World) :
  let R := roster e (w_db w) in let R' := roster e (w_db (serve c w).2) in
  db_ok (w_db w) -> (0 < PubKeyLengthBytes)%Z ->
  db_ok (w_db (serve c w).2) /\
  if bool_decide (rq_EntityID (request_of c) = e) then
    match (serve c w).1 with
    | Ok response => roster_step R (effect c response) R'
    | _ => R' = R \/ exists request, c = CallRevoke request /\ roster_step R (Revoke (token_of request)) R'
    end
  else R' = R.
Proof.
  intros R R' Hok Hlen. split; [exact (proj1 (serve_ok c w Hok))|].
  case_bool_decide as He; [|by apply serve_elsewhere].
  pose proof (serve_step c w Hok Hlen) as Hs. cbn zeta in Hs. rewrite He in Hs.
  unfold R, R'. by destruct (serve c w) as [[] w'].
Qed.

(** C31: A free token can be used: when the driver works, a request with the
    token of a member that has no key yet, signed by a key of the right size
    that no member of the entity has, is answered, and the member has the key
    afterwards. *)
Theorem validateToken_available (request : APIrequest) (entity : Entity) (o : option bytes)
    (null : bytes) (w : World) :
  let e := rq_EntityID request in let k := rq_SignaturePublicKey request in
  let R := roster e (w_db w) in
  no_faults -> db_ok (w_db w) -> (0 < PubKeyLengthBytes)%Z -> JSONB_Set None = inr null ->
  rq_Token request <> "" -> uuid_Parse (rq_Token request) = inr (token_of request) ->
  (pg_Entity e w).1 = Ok entity -> ValidPubKey k = true ->
  R !! token_of request = Some o -> default "" o = "" -> (forall j, R !! j <> Some (Some k)) ->
  fresh_key k (w_db w) ->
  exists w', validateToken request w = (Ok zero_APIresponse, w') /\
    roster e (w_db w') = <[token_of request := Some k]> R.
Proof.
  intros e k R Hf Hok Hlen Hj Ht Hu He Hv Ho Hfree Hk Hdg.
  destruct (validateToken_run request entity o null w) as (w' & E & HR & _); try done. eauto.
Qed.

End handlers.

(** ** Witnesses *)

#[local] Existing Instance demo_ext.
#[local] Instance roster_env : Env := demo_env 1.

Lemma demo_world_ok : db_ok (w_db demo_world).
Proof. apply (reachable_db_ok (X:=demo_ext) (V:=demo_env 1)), reachable_run_all. Qed.

(* 12 is free, 11 is registered *)
Lemma roster_refinement_witness :
  let c := CallValidate (token_request "0011" "k2") in
  roster_step (roster "e1" (w_db demo_world)) (Register 12%N "k2")
    (roster "e1" (w_db (serve (H:=env_host None) c demo_world).2)).
Proof.
  intros c. assert (Hl : (0 < PubKeyLengthBytes)%Z) by reflexivity.
  destruct (roster_refinement None c "e1" demo_world demo_world_ok Hl) as [_ Hs].
  assert (Hr : (serve (H:=env_host None) c demo_world).1 = Ok zero_APIresponse)
    by (vm_compute; reflexivity).
  unfold roster_host in Hs. rewrite Hr in Hs. exact Hs.
Defined.

Lemma validateToken_available_witness :
  let r := token_request "0011" "k2" in
  exists w', validateToken (H:=env_host None) r demo_world = (Ok zero_APIresponse, w') /\
    roster "e1" (w_db w') !! 12%N = Some (Some "k2").
Proof.
  intros r. destruct (pg_Entity "e1" demo_world) as [[en|err|p] w1] eqn:E;
    [|apply (f_equal fst) in E; vm_compute in E; discriminate E..].
  destruct (validateToken_available None r en None "null" demo_world) as (w' & Hr & HR).
  - exact (demo_env_no_faults 1).
  - exact demo_world_ok.
  - reflexivity.
  - reflexivity.
  - discriminate.
  - reflexivity.
  - exact (f_equal fst E).
  - reflexivity.
  - vm_compute. reflexivity.
  - reflexivity.
  - intros j (row & Hrow & _ & Hk)%roster_Some.
    assert (Hn : exists_row (fun _ r => bool_decide (mr_public_key r = Some "k2"))
                   (members (w_db demo_world)) = false) by (vm_compute; reflexivity).
    apply (proj1 (exists_row_false _ _) Hn j row), bool_decide_eq_false_1 in Hrow. contradiction.
  - intros _. assert (Hn : exists_row (fun _ r => bool_decide (ur_digested_public_key r = "k2"))
                   (users (w_db demo_world)) = false) by (vm_compute; reflexivity).
    intros u row Hu. by apply (proj1 (exists_row_false _ _) Hn u row), bool_decide_eq_false_1 in Hu.
  - exists w'. split; [exact Hr|]. change "e1" with (rq_EntityID r). unfold r in *.
    rewrite HR. apply lookup_insert_eq.
Defined.
