(* ===== verification/Templates.v ===== *)
(** * text/template (Go's standard library)

    The part of the template language the mails of smtpclient/static.go are
    written in: text, the fields of the data, and {{if}} without an else. *)
From S2P Require Import Prelude GoLib.

Inductive Template :=
| TEnd
| TText (s : string) (rest : Template)
| TField (f : string) (rest : Template)
| TIf (f : string) (body rest : Template).

Inductive Lexeme := TokText (s : string) | TokAction (s : string).

(* [s] up to the first [sep], and what follows it *)
Fixpoint cut (sep s : string) : option (string * string) :=
  if HasPrefix s sep then Some ("", String.substring (strlen sep) (strlen s) s) else
  match s with
  | "" => None
  | String a s => '(l, r) ← cut sep s; Some (String a l, r)
  end.

(* text and actions between braces; one unit of fuel per action *)
Fixpoint lex (fuel : nat) (s : string) : gerror + list Lexeme :=
  match fuel with
  | 0 => inl (Errorf "template: out of fuel")
  | S fuel =>
      match cut "{{" s with
      | None => inr [TokText s]
      | Some (l, s) =>
          match cut "}}" s with
          | None => inl (Errorf "template: unclosed action")
          | Some (a, s) => match lex fuel s with
                           | inl e => inl e
                           | inr ts => inr (TokText l :: TokAction a :: ts)
                           end
          end
      end
  end.

(* the template up to its end, or to an {{end}} *)
Fixpoint parse (fuel : nat) (inner : bool) (ts : list Lexeme) : gerror + (Template * list Lexeme) :=
  match fuel with
  | 0 => inl (Errorf "template: out of fuel")
  | S fuel =>
      match ts with
      | [] => if inner then inl (Errorf "template: unexpected EOF") else inr (TEnd, [])
      | TokText s :: ts =>
          match parse fuel inner ts with inl e => inl e | inr (t, r) => inr (TText s t, r) end
      | TokAction a :: ts =>
          if bool_decide (a = "end") then
            if inner then inr (TEnd, ts) else inl (Errorf "template: unexpected {{end}}")
          else if HasPrefix a "if ." then
            match parse fuel true ts with
            | inl e => inl e
            | inr (body, ts) =>
                match parse fuel inner ts with
                | inl e => inl e
                | inr (t, r) => inr (TIf (String.substring 4 (strlen a) a) body t, r)
                end
            end
          else if HasPrefix a "." then
            match parse fuel inner ts with
            | inl e => inl e
            | inr (t, r) => inr (TField (String.substring 1 (strlen a) a) t, r)
            end
          else inl (Errorf "template: unexpected action")
      end
  end.

Definition Parse (s : string) : gerror + Template :=
  match lex (Datatypes.S (strlen s)) s with
  | inl e => inl e
  | inr ts => match parse (Datatypes.S (length ts)) false ts with
              | inl e => inl e
              | inr (t, _) => inr t
              end
  end.

(* the fields of the struct the template is executed with *)
Abbreviation Fields := (list (string * string)).
Definition field (d : Fields) (f : string) : option string :=
  (fun x => x.2.2) <$> list_find (fun x => x.1 = f) d.

(* an empty string is false *)
Fixpoint Execute (t : Template) (d : Fields) : gerror + string :=
  match t with
  | TEnd => inr ""
  | TText s t => match Execute t d with inl e => inl e | inr r => inr (s +:+ r) end
  | TField f t =>
      match field d f with
      | None => inl (Errorf ("template: can't evaluate field " +:+ f))
      | Some v => match Execute t d with inl e => inl e | inr r => inr (v +:+ r) end
      end
  | TIf f body t =>
      match field d f with
      | None => inl (Errorf ("template: can't evaluate field " +:+ f))
      | Some v =>
          match (if bool_decide (v = "") then inr "" else Execute body d), Execute t d with
          | inr b, inr r => inr (b +:+ r)
          | inl e, _ | _, inl e => inl e
          end
      end
  end.

(** ** Lemmas on templates *)

(* every field the template names is one of [fs] *)
Fixpoint closed (fs : list string) (t : Template) : bool :=
  match t with
  | TEnd => true
  | TText _ t => closed fs t
  | TField f t => bool_decide (f ∈ fs) && closed fs t
  | TIf f b t => bool_decide (f ∈ fs) && closed fs b && closed fs t
  end.
(* the template shows the field whatever the others are *)
Fixpoint shows (f : string) (t : Template) : bool :=
  match t with
  | TEnd => false
  | TText _ t => shows f t
  | TField g t => bool_decide (g = f) || shows f t
  | TIf _ _ t => shows f t
  end.

Lemma field_defined (d : Fields) f : f ∈ d.*1 -> exists v, field d f = Some v.
Proof.
  intros (x & -> & Hx)%list_elem_of_fmap. unfold field.
  destruct (list_find_elem_of (fun y : string * string => y.1 = x.1) d x Hx eq_refl) as [[i y] ->].
  simpl. eauto.
Qed.

Lemma Execute_total t (d : Fields) : closed d.*1 t = true -> exists r, Execute t d = inr r.
Proof.
  induction t as [|s t IH|f t IH|f b IHb t IH]; simpl.
  - eauto.
  - intros H. destruct (IH H) as [r ->]. eauto.
  - intros [H1%bool_decide_eq_true H2]%andb_true_iff.
    destruct (field_defined d f H1) as [v ->], (IH H2) as [r ->]. eauto.
  - intros [[H1%bool_decide_eq_true Hb]%andb_true_iff H2]%andb_true_iff.
    destruct (field_defined d f H1) as [v ->], (IH H2) as [r ->], (IHb Hb) as [r' ->].
    destruct (bool_decide _); eauto.
Qed.

Lemma app_cons x (a b : string) : String x a +:+ b = String x (a +:+ b).
Proof. reflexivity. Qed.
Lemma app_nil (a : string) : "" +:+ a = a.
Proof. reflexivity. Qed.
Lemma app_assoc_s (a b c : string) : (a +:+ b) +:+ c = a +:+ (b +:+ c).
Proof. induction a as [|x a IH]; [done|]. by rewrite !app_cons, IH. Qed.

Lemma Execute_shows t (d : Fields) f v r :
  shows f t = true -> field d f = Some v -> Execute t d = inr r ->
  exists a b, r = a +:+ v +:+ b.
Proof.
  revert r. induction t as [|s t IH|g t IH|g body IHb t IH]; intros r; simpl; [done|..].
  - intros Hs Hf. destruct (Execute t d) as [|r'] eqn:E; [done|]. intros [= <-].
    destruct (IH r' Hs Hf eq_refl) as (a & b & ->). exists (s +:+ a), b.
    by rewrite app_assoc_s.
  - intros Hs Hf. destruct (field d g) as [w|] eqn:Eg; [|done].
    destruct (Execute t d) as [|r'] eqn:E; [done|]. intros [= <-].
    apply orb_true_iff in Hs as [->%bool_decide_eq_true|Hs].
    + assert (w = v) as -> by congruence. by exists "", r'.
    + destruct (IH r' Hs Hf eq_refl) as (a & b & ->). exists (w +:+ a), b.
      by rewrite app_assoc_s.
  - intros Hs Hf. destruct (field d g) as [w|]; [|done].
    destruct (if bool_decide (w = "") then _ else _) as [|r1]; [done|].
    destruct (Execute t d) as [|r'] eqn:E; [done|]. intros [= <-].
    destruct (IH r' Hs Hf eq_refl) as (a & b & ->). exists (r1 +:+ a), b.
    by rewrite app_assoc_s.
Qed.

Definition parsed (s : string) : Template := match Parse s with inr t => t | inl _ => TEnd end.
