(* ===== verification/Html.v ===== *)
(** * html/template (Go's standard library)

    The contextual escaping of html/template, as far as the pages of
    smtpclient/static.go need it: the scanner that follows the HTML of the text
    of a template and tells in which context each field stands, what it removes
    from the text (comments), and the escapers of the contexts. Scripts,
    srcset, quoted strings and comments in style sheets, and fields outside of
    text and quoted attributes are not modelled: their outcome is [unsupported].

    [Page] is a template after escaping; [markup] is what a browser reads as
    markup, and no field can change it. *)
From S2P Require Import Prelude GoLib Templates.

Definition unsupported {A} (what : string) : gerror + A :=
  inl (Errorf ("html/template: not modelled: " +:+ what)).

Definition dquote : ascii := "034".
Definition is_char (a b : ascii) : bool := Ascii.eqb a b.
Definition one_of (s : string) (a : ascii) : bool := existsb (is_char a) (String.list_ascii_of_string s).
(* space, tab, newline, form feed, carriage return *)
Definition is_space (a : ascii) : bool :=
  match nat_of_ascii a with 32 | 9 | 10 | 12 | 13 => true | _ => false end.
Definition is_alpha (a : ascii) : bool := is_lower a || is_upper a.
Definition is_alnum (a : ascii) : bool := is_alpha a || is_digit a.
Definition to_lower (a : ascii) : ascii :=
  if is_upper a then ascii_of_nat (nat_of_ascii a + 32) else a.
Fixpoint ToLower (s : string) : string :=
  match s with "" => "" | String a s => String (to_lower a) (ToLower s) end.

(* the longest prefix of bytes that satisfy [p], and the rest *)
Fixpoint span (p : ascii -> bool) (s : string) : string * string :=
  match s with
  | "" => ("", "")
  | String a t => if p a then let '(l, r) := span p t in (String a l, r) else ("", s)
  end.

(** ** The context *)

Inductive HState :=
| stateText | stateTag | stateAttrName | stateAfterName | stateBeforeValue | stateHTMLCmt
| stateRCDATA | stateAttr | stateURL | stateCSS | stateCSSURL | stateOther.
Inductive Delim := delimNone | delimDoubleQuote | delimSingleQuote | delimSpaceOrTagEnd.
Inductive UrlPart := urlPartNone | urlPartPreQuery | urlPartQueryOrFrag.
Inductive AttrKind := attrNone | attrStyle | attrURL | attrOther.
Inductive Element := elementNone | elementScript | elementStyle | elementTextarea | elementTitle.

#[export] Instance HState_eq_dec : EqDecision HState. Proof. solve_decision. Defined.
#[export] Instance Delim_eq_dec : EqDecision Delim. Proof. solve_decision. Defined.
#[export] Instance UrlPart_eq_dec : EqDecision UrlPart. Proof. solve_decision. Defined.
#[export] Instance AttrKind_eq_dec : EqDecision AttrKind. Proof. solve_decision. Defined.
#[export] Instance Element_eq_dec : EqDecision Element. Proof. solve_decision. Defined.

Record HCtx := mkHCtx {
  c_state : HState;
  c_delim : Delim;
  c_urlPart : UrlPart;
  c_attr : AttrKind;
  c_element : Element;
}.
#[export] Instance HCtx_eq_dec : EqDecision HCtx. Proof. solve_decision. Defined.

Definition in_state (st : HState) (e : Element) : HCtx :=
  mkHCtx st delimNone urlPartNone attrNone e.
Definition ctx0 : HCtx := in_state stateText elementNone.
Definition with_state (st : HState) (c : HCtx) : HCtx :=
  mkHCtx st (c_delim c) (c_urlPart c) (c_attr c) (c_element c).

Definition elementNameMap (name : string) : Element :=
  if String.eqb name "script" then elementScript
  else if String.eqb name "style" then elementStyle
  else if String.eqb name "textarea" then elementTextarea
  else if String.eqb name "title" then elementTitle
  else elementNone.
Definition elementContentType (e : Element) : HState :=
  match e with
  | elementNone => stateText
  | elementScript => stateOther
  | elementStyle => stateCSS
  | elementTextarea | elementTitle => stateRCDATA
  end.
Definition elementName (e : Element) : string :=
  match e with
  | elementNone => "" | elementScript => "script" | elementStyle => "style"
  | elementTextarea => "textarea" | elementTitle => "title"
  end.

(* attrTypeMap, as far as it tells apart the kinds below: the attributes with
   URLs, and the plain ones the heuristics would take for others *)
Definition attrTypeMap (name : string) : option AttrKind :=
  if existsb (String.eqb name)
       ["action"; "archive"; "background"; "cite"; "classid"; "codebase"; "data"; "formaction";
        "href"; "icon"; "longdesc"; "manifest"; "poster"; "profile"; "src"; "usemap"; "xmlns"]
  then Some attrURL
  else if String.eqb name "style" then Some attrStyle
  else if String.eqb name "srcset" then Some attrOther
  else if existsb (String.eqb name) ["srcdoc"; "srclang"] then Some attrNone
  else None.
(* attrType; event handlers and srcset are [attrOther] *)
Definition attrType (name : string) : AttrKind :=
  let known n :=
    match attrTypeMap n with
    | Some k => k
    | None =>
        if HasPrefix n "on" then attrOther
        else if Contains n "src" || Contains n "uri" || Contains n "url" then attrURL
        else attrNone
    end in
  if HasPrefix name "data-" then known (String.substring 5 (strlen name) name)
  else match cut ":" name with
       | Some (space, n) => if String.eqb space "xmlns" then attrURL else known n
       | None => known name
       end.

(** ** The scanner (transition.go): the context after some text, the text
    consumed and the rest *)

Abbreviation Step := (gerror + (HCtx * string * string))%type.
Definition consumed (pre : string) (r : Step) : Step :=
  match r with inr (c, seg, rest) => inr (c, pre +:+ seg, rest) | e => e end.

Fixpoint eat_name (s : string) : string * string :=
  match s with
  | "" => ("", "")
  | String x s1 =>
      if is_alnum x then let '(n, r) := eat_name s1 in (String x n, r)
      else if one_of ":-" x then
        match s1 with
        | String y s2 =>
            if is_alnum y then let '(n, r) := eat_name s2 in (String x (String y n), r)
            else ("", s)
        | "" => ("", s)
        end
      else ("", s)
  end.
Definition eatTagName (s : string) : string * string :=
  match s with
  | String x s1 => if is_alpha x then let '(n, r) := eat_name s1 in (String x n, r) else ("", s)
  | "" => ("", "")
  end.

(* after a "<" in text: a comment, a tag, or nothing special *)
Definition after_less (s : string) : option (HCtx * string * string) :=
  if HasPrefix s "!--" then
    Some (in_state stateHTMLCmt elementNone, "!--", String.substring 3 (strlen s) s)
  else
    let '(slash, s1) := match s with
                        | String a t => if is_char a "/" then ("/", t) else ("", s)
                        | "" => ("", s)
                        end in
    let '(name, rest) := eatTagName s1 in
    if String.eqb name "" then None else
    let e := if String.eqb slash "" then elementNameMap (ToLower name) else elementNone in
    Some (in_state stateTag e, slash +:+ name, rest).

Fixpoint tText (c : HCtx) (s : string) : HCtx * string * string :=
  match s with
  | "" => (c, "", "")
  | String a t =>
      let next := let '(c', seg, rest) := tText c t in (c', String a seg, rest) in
      if is_char a "<" then
        match after_less t with
        | Some (c', seg, rest) => (c', String a seg, rest)
        | None => next
        end
      else next
  end.

(* the attribute name, unless it has a quote or "<" *)
Definition eatAttrName (s : string) : gerror + (string * string) :=
  let '(name, rest) := span (fun a => negb (is_space a || one_of "=>'<" a || is_char a dquote)) s in
  match rest with
  | String a _ =>
      if one_of "'<" a || is_char a dquote
      then inl (Errorf "html/template: in attribute name") else inr (name, rest)
  | "" => inr (name, rest)
  end.

Definition tTag (c : HCtx) (s : string) : Step :=
  let '(blank, t) := span is_space s in
  match t with
  | "" => inr (c, blank, "")
  | String a rest =>
      if is_char a ">" then
        inr (in_state (elementContentType (c_element c)) (c_element c), blank +:+ ">", rest)
      else
        match eatAttrName t with
        | inl e => inl e
        | inr (name, rest) =>
            if String.eqb name "" then
              inl (Errorf "html/template: expected space, attr name, or end of tag")
            else
              let st := if String.eqb rest "" then stateAttrName else stateAfterName in
              inr (mkHCtx st delimNone urlPartNone (attrType (ToLower name)) (c_element c),
                   blank +:+ name, rest)
        end
  end.

Definition tAttrName (c : HCtx) (s : string) : Step :=
  match eatAttrName s with
  | inl e => inl e
  | inr (name, rest) =>
      inr (if String.eqb rest "" then c else with_state stateAfterName c, name, rest)
  end.

Definition tAfterName (c : HCtx) (s : string) : Step :=
  let '(blank, t) := span is_space s in
  match t with
  | "" => inr (c, blank, "")
  | String a rest =>
      if is_char a "=" then inr (with_state stateBeforeValue c, blank +:+ "=", rest)
      else inr (with_state stateTag c, blank, t)
  end.

Definition attrStartStates (k : AttrKind) : HState :=
  match k with attrNone => stateAttr | attrStyle => stateCSS | attrURL => stateURL | attrOther => stateOther end.

Definition tBeforeValue (c : HCtx) (s : string) : Step :=
  let '(blank, t) := span is_space s in
  let start d seg rest :=
    inr (mkHCtx (attrStartStates (c_attr c)) d (c_urlPart c) (c_attr c) (c_element c), seg, rest) in
  match t with
  | "" => inr (c, blank, "")
  | String a rest =>
      if is_char a "'" then start delimSingleQuote (blank +:+ String a "") rest
      else if is_char a dquote then start delimDoubleQuote (blank +:+ String a "") rest
      else start delimSpaceOrTagEnd blank t
  end.

Definition tHTMLCmt (c : HCtx) (s : string) : Step :=
  match cut "-->" s with
  | Some (l, rest) => inr (ctx0, l +:+ "-->", rest)
  | None => inr (c, s, "")
  end.

Definition tURL (c : HCtx) (s : string) : HCtx :=
  if existsb (one_of "#?") (String.list_ascii_of_string s)
  then mkHCtx (c_state c) (c_delim c) urlPartQueryOrFrag (c_attr c) (c_element c)
  else if negb (String.eqb (span is_space s).2 "") && bool_decide (c_urlPart c = urlPartNone)
  then mkHCtx (c_state c) (c_delim c) urlPartPreQuery (c_attr c) (c_element c)
  else c.

(* CSS: [before] is the reversed text before the position, for url( *)
Definition ends_with_url (before : string) : bool :=
  let b := (span is_space before).2 in
  String.eqb (ToLower (String.substring 0 3 b)) "lru" &&
  match String.substring 3 1 b with
  | String a _ => negb (is_alnum a || one_of "-_" a || (128 <=? nat_of_ascii a))
  | "" => true
  end.
Fixpoint tCSS (c : HCtx) (before s : string) : Step :=
  match s with
  | "" => inr (c, "", "")
  | String a t =>
      let next := consumed (String a "") (tCSS c (String a before) t) in
      if is_char a dquote || is_char a "'" || is_char a "\" then unsupported "strings in CSS"
      else if is_char a "/" then
        if HasPrefix t "/" || HasPrefix t "*" then unsupported "comments in CSS" else next
      else if is_char a "(" && ends_with_url before then
        let '(blank, t) := span is_space t in
        if HasPrefix t "'" || HasPrefix t (String dquote "") then unsupported "strings in CSS"
        else inr (with_state stateCSSURL c, String a blank, t)
      else next
  end.
(* tCSSStr: a URL without quotes ends at a blank or a parenthesis *)
Definition tCSSURL (c : HCtx) (s : string) : Step :=
  let '(l, t) := span (fun a => negb (is_space a || one_of "\)" a)) s in
  match t with
  | "" => inr (tURL c l, l, "")
  | String a rest => if is_char a "\" then unsupported "escapes in CSS"
                     else inr (with_state stateCSS c, l +:+ String a "", rest)
  end.

Definition transition (c : HCtx) (s : string) : Step :=
  match c_state c with
  | stateText => inr (tText c s)
  | stateTag => tTag c s
  | stateAttrName => tAttrName c s
  | stateAfterName => tAfterName c s
  | stateBeforeValue => tBeforeValue c s
  | stateHTMLCmt => tHTMLCmt c s
  | stateRCDATA | stateAttr => inr (c, s, "")
  | stateURL => inr (tURL c s, s, "")
  | stateCSS => tCSS c "" s
  | stateCSSURL => tCSSURL c s
  | stateOther => unsupported "scripts"
  end.

(* tSpecialTagEnd: the text before </style and the like *)
Fixpoint indexTagEnd (tag s : string) : option (string * string) :=
  match s with
  | "" => None
  | String a t =>
      let n := strlen tag in
      if HasPrefix s "</" && String.eqb (ToLower (String.substring 2 n s)) tag &&
         match String.substring (2 + n) 1 s with
         | String x _ => is_space x && negb (Nat.eqb (nat_of_ascii x) 13) || one_of ">/" x
         | "" => false
         end
      then Some ("", s)
      else '(l, r) ← indexTagEnd tag t; Some (String a l, r)
  end.

(* the delimiters that end an attribute value *)
Definition delimEnds (d : Delim) (a : ascii) : bool :=
  match d with
  | delimNone => false
  | delimDoubleQuote => is_char a dquote
  | delimSingleQuote => is_char a "'"
  | delimSpaceOrTagEnd => is_space a || is_char a ">"
  end.

(* contextAfterText (escape.go). A value that is still open at the end of the
   text is read after its entities are replaced: there must be none. *)
Definition contextAfterText (c : HCtx) (s : string) : Step :=
  match c_delim c with
  | delimNone =>
      if bool_decide (c_element c = elementNone) then transition c s else
      match indexTagEnd (elementName (c_element c)) s with
      | None => transition c s
      | Some (l, r) =>
          if String.eqb l "" then inr (ctx0, "", s) else
          match transition c l with
          | inr (c', seg, rest) => inr (c', seg, rest +:+ r)
          | e => e
          end
      end
  | d =>
      let '(l, r) := span (fun a => negb (delimEnds d a)) s in
      if bool_decide (d = delimSpaceOrTagEnd) && existsb (fun a => one_of "'<=`" a || is_char a dquote)
                                                    (String.list_ascii_of_string l)
      then inl (Errorf "html/template: in unquoted attr")
      else match r with
      | "" => if Contains l "&" then unsupported "entities before a field"
              else match transition c l with
                   | inr (c', _, "") => inr (c', l, "")
                   | inr _ => unsupported "a value before a field"
                   | e => e
                   end
      | String a rest =>
          if bool_decide (d = delimSpaceOrTagEnd)
          then inr (in_state stateTag (c_element c), l, r)
          else inr (in_state stateTag (c_element c), l +:+ String a "", rest)
      end
  end.

(** ** Escaping a template (escape.go) *)

Definition doctype : string := "<!doctype".
(* in text, a "<" that starts neither a tag, a comment nor the doctype *)
Fixpoint escape_less (s : string) : string :=
  match s with
  | "" => ""
  | String a t =>
      if is_char a "<" && negb (HasPrefix (ToLower (String.substring 0 9 s)) doctype)
      then "&lt;" +:+ escape_less t else String a (escape_less t)
  end.
(* the last "<" of [s], and what follows *)
Fixpoint at_last_less (s : string) : option (string * string) :=
  match s with
  | "" => None
  | String a t =>
      match at_last_less t with
      | Some (l, r) => Some (String a l, r)
      | None => if is_char a "<" then Some ("", s) else None
      end
  end.
Definition drop_end (n : nat) (s : string) : string := String.substring 0 (strlen s - n) s.

(* what escapeText writes for a piece of text between two contexts: no
   comment, and no stray "<" *)
Definition emit (c c' : HCtx) (seg : string) : string :=
  let written :=
    match c_state c with
    | stateHTMLCmt => ""
    | stateText | stateRCDATA =>
        if bool_decide (c_state c = c_state c') then escape_less seg else
        match at_last_less seg with
        | Some (l, r) => escape_less l +:+ r
        | None => escape_less seg
        end
    | _ => seg
    end in
  match c_state c, c_state c' with
  | stateHTMLCmt, _ => written
  | _, stateHTMLCmt => drop_end 4 written
  | _, _ => written
  end.

(* one unit of fuel per piece *)
Fixpoint escapeText (fuel : nat) (c : HCtx) (s : string) : gerror + (string * HCtx) :=
  if String.eqb s "" then inr ("", c) else
  match fuel with
  | 0 => inl (Errorf "html/template: out of fuel")
  | S fuel =>
      match contextAfterText c s with
      | inl e => inl e
      | inr (c', seg, rest) =>
          match escapeText fuel c' rest with
          | inl e => inl e
          | inr (out, c'') => inr (emit c c' seg +:+ out, c'')
          end
      end
  end.

(* the escapers of a field: html; urlfilter, urlnormalizer, attr; urlnormalizer,
   attr; attr *)
Inductive Esc := EscHTML | EscURL | EscURLTail | EscAttr.

Definition escapeAction (c : HCtx) : gerror + Esc :=
  match c_state c, c_delim c with
  | stateText, delimNone => inr EscHTML
  | stateURL, (delimDoubleQuote | delimSingleQuote) =>
      match c_urlPart c with
      | urlPartNone => inr EscURL
      | urlPartPreQuery => inr EscURLTail
      | urlPartQueryOrFrag => unsupported "a field in a query"
      end
  | stateAttr, (delimDoubleQuote | delimSingleQuote) => inr EscAttr
  | _, _ => unsupported "a field in this context"
  end.

(* a template whose fields have their escapers *)
Inductive Page :=
| PEnd
| PText (s : string) (rest : Page)
| PField (e : Esc) (f : string) (rest : Page)
| PIf (f : string) (body rest : Page).

(* both branches of an {{if}} end in the same context *)
Fixpoint escape (c : HCtx) (t : Template) : gerror + (Page * HCtx) :=
  match t with
  | TEnd => inr (PEnd, c)
  | TText s t =>
      match escapeText (2 * strlen s + 2) c s with
      | inl e => inl e
      | inr (s', c') => match escape c' t with
                        | inl e => inl e
                        | inr (p, c'') => inr (PText s' p, c'')
                        end
      end
  | TField f t =>
      match escapeAction c, escape c t with
      | inr k, inr (p, c') => inr (PField k f p, c')
      | inl e, _ | _, inl e => inl e
      end
  | TIf f body t =>
      match escape c body with
      | inl e => inl e
      | inr (b, c') =>
          if bool_decide (c' = c) then
            match escape c t with
            | inl e => inl e
            | inr (p, c'') => inr (PIf f b p, c'')
            end
          else inl (Errorf "html/template: {{if}} branches end in different contexts")
      end
  end.

(** ** The escapers *)

(* a replacement for every byte *)
Fixpoint replace_bytes (r : ascii -> string) (s : string) : string :=
  match s with "" => "" | String a s => r a +:+ replace_bytes r s end.

(* htmlReplacementTable *)
Definition html_byte (a : ascii) : string :=
  if is_char a "000" then String "239" (String "191" (String "189" ""))
  else if is_char a dquote then "&#34;"
  else if is_char a "&" then "&amp;"
  else if is_char a "'" then "&#39;"
  else if is_char a "+" then "&#43;"
  else if is_char a "<" then "&lt;"
  else if is_char a ">" then "&gt;"
  else String a "".
Definition htmlReplacer : string -> string := replace_bytes html_byte.

(* processURLOnto with norm: a percent sign is kept before two hex digits *)
Definition is_hex (a : ascii) : bool := is_digit a || is_between 97 102 a || is_between 65 70 a.
Definition url_kept (a : ascii) : bool := is_alnum a || one_of "!#$&*+,/:;=?@[]-._~" a.
Fixpoint url_normalize (s : string) : string :=
  match s with
  | "" => ""
  | String a t =>
      let keep := if is_char a "%" then
                    match t with String x (String y _) => is_hex x && is_hex y | _ => false end
                  else url_kept a in
      (if keep then String a "" else "%" +:+ EncodeToString (String a "")) +:+ url_normalize t
  end.

(* strings.EqualFold with an ASCII word: the long s folds to s *)
Fixpoint EqualFold (word s : string) : bool :=
  match word, s with
  | "", "" => true
  | String w word, String a s =>
      (is_char w (to_lower a) && EqualFold word s) ||
      (is_char w "s" && is_char a "197" &&
       match s with String b s => is_char b "191" && EqualFold word s | "" => false end)
  | _, _ => false
  end.
Definition isSafeURL (s : string) : bool :=
  match cut ":" s with
  | Some (protocol, _) =>
      Contains protocol "/" || EqualFold "http" protocol || EqualFold "https" protocol ||
      EqualFold "mailto" protocol
  | None => true
  end.
Definition urlFilter (s : string) : string := if isSafeURL s then s else "#ZgotmplZ".

Definition apply_esc (e : Esc) (s : string) : string :=
  match e with
  | EscHTML | EscAttr => htmlReplacer s
  | EscURL => htmlReplacer (url_normalize (urlFilter s))
  | EscURLTail => htmlReplacer (url_normalize s)
  end.

(** ** Execution *)

Fixpoint Render (p : Page) (d : Fields) : gerror + string :=
  match p with
  | PEnd => inr ""
  | PText s p => match Render p d with inl e => inl e | inr r => inr (s +:+ r) end
  | PField k f p =>
      match field d f with
      | None => inl (Errorf ("template: can't evaluate field " +:+ f))
      | Some v => match Render p d with inl e => inl e | inr r => inr (apply_esc k v +:+ r) end
      end
  | PIf f b p =>
      match field d f with
      | None => inl (Errorf ("template: can't evaluate field " +:+ f))
      | Some v =>
          match (if bool_decide (v = "") then inr "" else Render b d), Render p d with
          | inr b, inr r => inr (b +:+ r)
          | inl e, _ | _, inl e => inl e
          end
      end
  end.

(* Template.Parse, and Template.Execute, which escapes the template first *)
Definition html_Execute (t : Template) (d : Fields) : gerror + string :=
  match escape ctx0 t with
  | inl e => inl e
  | inr (p, c) => if bool_decide (c_state c = stateText) then Render p d
                  else inl (Errorf "html/template: ends in a non-text context")
  end.

(** ** Lemmas: rendering is total, and shows its fields *)

(* every field the page names is one of [fs] *)
Fixpoint page_closed (fs : list string) (p : Page) : bool :=
  match p with
  | PEnd => true
  | PText _ p => page_closed fs p
  | PField _ f p => bool_decide (f ∈ fs) && page_closed fs p
  | PIf f b p => bool_decide (f ∈ fs) && page_closed fs b && page_closed fs p
  end.

Lemma Render_total p (d : Fields) : page_closed d.*1 p = true -> exists r, Render p d = inr r.
Proof.
  induction p as [|s p IH|k f p IH|f b IHb p IH]; simpl.
  - eauto.
  - intros H. destruct (IH H) as [r ->]. eauto.
  - intros [H1%bool_decide_eq_true H2]%andb_true_iff.
    destruct (field_defined d f H1) as [v ->], (IH H2) as [r ->]. eauto.
  - intros [[H1%bool_decide_eq_true Hb]%andb_true_iff H2]%andb_true_iff.
    destruct (field_defined d f H1) as [v ->], (IH H2) as [r ->], (IHb Hb) as [r' ->].
    destruct (bool_decide _); eauto.
Qed.

Fixpoint ends_with (suffix s : string) : bool :=
  String.eqb s suffix || match s with "" => false | String _ s => ends_with suffix s end.

(* at its top level the page has [pre], the field with this escaper, [post] *)
Fixpoint frames (k : Esc) (f pre post : string) (p : Page) : bool :=
  match p with
  | PText s ((PField k' f' (PText s' _)) as p') =>
      (match k, k' with EscHTML, EscHTML | EscURL, EscURL => true | _, _ => false end &&
         String.eqb f f' && ends_with pre s && HasPrefix s' post) || frames k f pre post p'
  | PEnd => false
  | PText _ p | PField _ _ p | PIf _ _ p => frames k f pre post p
  end.

Lemma ends_with_inv suffix s : ends_with suffix s = true -> exists a, s = a +:+ suffix.
Proof.
  induction s as [|x s IH]; cbn [ends_with]; rewrite orb_true_iff;
    (intros [H%String.eqb_eq|H]; [by exists ""|try done]).
  destruct (IH H) as [a ->]. by exists (String x a).
Qed.
Lemma HasPrefix_inv s p : HasPrefix s p = true -> exists r, s = p +:+ r.
Proof.
  revert s. induction p as [|x p IH]; intros s; [by exists s|].
  destruct s as [|y s]; cbn [HasPrefix]; [done|].
  intros [->%bool_decide_eq_true H]%andb_true_iff. destruct (IH s H) as [r ->]. by exists r.
Qed.

Lemma Render_frames k f pre post p (d : Fields) v r :
  frames k f pre post p = true -> field d f = Some v -> Render p d = inr r ->
  exists a b, r = a +:+ pre +:+ apply_esc k v +:+ post +:+ b.
Proof.
  intros Hf Hv. revert r Hf. induction p as [|s p IH|k' f' p IH|f' b IHb p IH]; intros r Hf HR.
  - done.
  - assert (Hs : exists r', r = s +:+ r' /\ Render p d = inr r').
    { simpl in HR. destruct (Render p d) as [|r']; [done|]. injection HR as <-. by exists r'. }
    destruct Hs as (r' & -> & Hr').
    assert (Hrest : frames k f pre post p = true ->
              exists a b, s +:+ r' = a +:+ pre +:+ apply_esc k v +:+ post +:+ b).
    { intros Hp. destruct (IH r' Hp Hr') as (a & b & ->). exists (s +:+ a), b.
      by rewrite app_assoc_s. }
    destruct p as [| |k' f' p|]; try (by apply Hrest).
    destruct p as [|s' p| |]; try (by apply Hrest).
    cbn [frames] in Hf. apply orb_true_iff in Hf as [Hf|Hf]; [|by apply Hrest].
    apply andb_true_iff in Hf as [[[Hk Hff%String.eqb_eq]%andb_true_iff Hpre]%andb_true_iff Hpost].
    assert (k' = k) as -> by (by destruct k, k'). subst f'.
    apply ends_with_inv in Hpre as [a ->]. apply HasPrefix_inv in Hpost as [c ->].
    cbn [Render] in Hr'. rewrite Hv in Hr'. destruct (Render p d) as [|r2]; [done|].
    injection Hr' as <-. exists a, (c +:+ r2). by rewrite !app_assoc_s.
  - simpl in *. destruct (field d f') as [w|]; [|done]. destruct (Render p d) as [|r']; [done|].
    injection HR as <-. destruct (IH r' Hf eq_refl) as (a & b & ->).
    exists (apply_esc k' w +:+ a), b. by rewrite app_assoc_s.
  - simpl in *. destruct (field d f') as [w|]; [|done].
    destruct (if bool_decide (w = "") then _ else _) as [|r1]; [done|].
    destruct (Render p d) as [|r']; [done|]. injection HR as <-.
    destruct (IH r' Hf eq_refl) as (a & c & ->). exists (r1 +:+ a), c. by rewrite app_assoc_s.
Qed.

(** ** Lemmas: what escaped bytes are *)

Fixpoint all_bytes (p : ascii -> bool) (s : string) : bool :=
  match s with "" => true | String a s => p a && all_bytes p s end.
Lemma all_bytes_app p a b : all_bytes p (a +:+ b) = all_bytes p a && all_bytes p b.
Proof.
  induction a as [|x a IH]; [done|]. rewrite app_cons. cbn [all_bytes].
  by rewrite IH, andb_assoc.
Qed.
Lemma replace_bytes_all p r s :
  (forall a, all_bytes p (r a) = true) -> all_bytes p (replace_bytes r s) = true.
Proof.
  intros Hr. induction s as [|a s IH]; [done|]. cbn [replace_bytes].
  by rewrite all_bytes_app, Hr, IH.
Qed.

(* no byte that a browser takes for markup, in text or in a value *)
Definition no_markup_byte (a : ascii) : bool :=
  negb (is_char a "<" || is_char a ">" || is_char a dquote || is_char a "'").
Lemma html_byte_no_markup a : all_bytes no_markup_byte (html_byte a) = true.
Proof. destruct a as [[] [] [] [] [] [] [] []]; reflexivity. Qed.
Lemma apply_esc_no_markup k v : all_bytes no_markup_byte (apply_esc k v) = true.
Proof. destruct k; apply replace_bytes_all, html_byte_no_markup. Qed.

(* bytes of a URL that neither the normalizer nor the escaper changes *)
Definition plain_byte (a : ascii) : bool := is_alnum a || one_of "!#$*,/:;=?@[]-._~" a.
Lemma plain_byte_kept a : plain_byte a = true -> url_kept a = true /\ is_char a "%" = false /\
  html_byte a = String a "".
Proof. destruct a as [[] [] [] [] [] [] [] []]; vm_compute; auto; discriminate. Qed.
Lemma plain_normalize s : all_bytes plain_byte s = true -> url_normalize s = s.
Proof.
  induction s as [|a s IH]; cbn [all_bytes url_normalize]; [done|].
  intros [(Hk & Hp & _)%plain_byte_kept Hs]%andb_true_iff. rewrite Hp, Hk, IH by done. done.
Qed.
Lemma plain_escape s : all_bytes plain_byte s = true -> htmlReplacer s = s.
Proof.
  unfold htmlReplacer. induction s as [|a s IH]; cbn [all_bytes replace_bytes]; [done|].
  intros [(_ & _ & Hh)%plain_byte_kept Hs]%andb_true_iff. by rewrite Hh, IH.
Qed.
Lemma plain_url s : all_bytes plain_byte s = true -> isSafeURL s = true -> apply_esc EscURL s = s.
Proof. intros Hp Hs. simpl. unfold urlFilter. by rewrite Hs, plain_normalize, plain_escape. Qed.
Lemma hex_plain b : all_bytes plain_byte (EncodeToString b) = true.
Proof.
  induction b as [|a b IH]; [done|]. cbn [EncodeToString all_bytes]. rewrite IH.
  destruct a as [[] [] [] [] [] [] [] []]; reflexivity.
Qed.

(** ** Lemmas: reading back what was escaped *)

(* the entities the escaper writes *)
Definition entities_table : list (string * ascii) :=
  [("amp;", "&"%char); ("#34;", dquote); ("#39;", "'"%char); ("#43;", "+"%char); ("lt;", "<"%char);
   ("gt;", ">"%char)].
Fixpoint begins (p s : string) : bool :=
  match p, s with
  | "", _ => true
  | String a p, String b s => is_char a b && begins p s
  | _, _ => false
  end.
Fixpoint entity_in (l : list (string * ascii)) (s : string) : option (string * ascii) :=
  match l with [] => None | x :: l => if begins x.1 s then Some x else entity_in l s end.
Definition entity_at : string -> option (string * ascii) := entity_in entities_table.
Fixpoint unescape_go (skip : nat) (s : string) : string :=
  match s with
  | "" => ""
  | String a t =>
      match skip with
      | S n => unescape_go n t
      | O => match (if is_char a "&" then entity_at t else None) with
             | Some (e, b) => String b (unescape_go (strlen e) t)
             | None => String a (unescape_go 0 t)
             end
      end
  end.
Definition UnescapeString : string -> string := unescape_go 0.

Lemma unescape_byte a s :
  is_char a "000" = false -> UnescapeString (html_byte a +:+ s) = String a (UnescapeString s).
Proof. destruct a as [[] [] [] [] [] [] [] []]; intros H; try discriminate H; reflexivity. Qed.

(* a browser shows an escaped text as it was *)
Lemma unescape_escaped s :
  all_bytes (fun a => negb (is_char a "000")) s = true -> UnescapeString (htmlReplacer s) = s.
Proof.
  induction s as [|a s IH]; cbn [all_bytes]; [done|]. intros [Ha%negb_true_iff Hs]%andb_true_iff.
  unfold htmlReplacer in *. cbn [replace_bytes]. by rewrite unescape_byte, IH.
Qed.

(** ** Lemmas: what a browser reads as markup *)

(* in text, in a tag, in a quoted value *)
Inductive Scan := InData | InTag | InDq | InSq.
#[export] Instance Scan_eq_dec : EqDecision Scan. Proof. solve_decision. Defined.

(* the bytes outside of text and of quoted values *)
Definition scan_byte (st : Scan) (a : ascii) : Scan * string :=
  match st with
  | InData => if is_char a "<" then (InTag, String a "") else (InData, "")
  | InTag => (if is_char a ">" then InData else if is_char a dquote then InDq
              else if is_char a "'" then InSq else InTag, String a "")
  | InDq => if is_char a dquote then (InTag, String a "") else (InDq, "")
  | InSq => if is_char a "'" then (InTag, String a "") else (InSq, "")
  end.
Fixpoint scan (st : Scan) (s : string) : Scan * string :=
  match s with
  | "" => (st, "")
  | String a s =>
      let '(st1, out) := scan_byte st a in
      let '(st2, rest) := scan st1 s in (st2, out +:+ rest)
  end.
(* the tags of a document with their attributes, without text and values *)
Definition markup (s : string) : string := (scan InData s).2.

Lemma scan_app st a b :
  scan st (a +:+ b) =
  ((scan (scan st a).1 b).1, (scan st a).2 +:+ (scan (scan st a).1 b).2).
Proof.
  revert st. induction a as [|x a IH]; intros st.
  { rewrite app_nil. cbn [scan fst snd]. rewrite app_nil. by destruct (scan st b). }
  rewrite app_cons. cbn [scan]. destruct (scan_byte st x) as [st1 out]. rewrite IH.
  destruct (scan st1 a) as [st2 r]. cbn [fst snd]. by rewrite app_assoc_s.
Qed.
Lemma scan_inert st s :
  st <> InTag -> all_bytes no_markup_byte s = true -> scan st s = (st, "").
Proof.
  intros Hst. induction s as [|a s IH]; cbn [all_bytes scan]; [done|].
  intros [Ha Hs]%andb_true_iff. unfold no_markup_byte in Ha.
  apply negb_true_iff, orb_false_iff in Ha as [[[Hl Hg]%orb_false_iff Hd]%orb_false_iff Hq].
  destruct st; cbn [scan_byte]; rewrite ?Hl, ?Hd, ?Hq; try done; by rewrite IH.
Qed.

(* the state after a page, when no field stands in a tag and each body of an
   {{if}} comes back to the state it began in *)
Fixpoint scan_page (st : Scan) (p : Page) : option Scan :=
  match p with
  | PEnd => Some st
  | PText s p => scan_page (scan st s).1 p
  | PField _ _ p => if bool_decide (st = InTag) then None else scan_page st p
  | PIf _ b p => if bool_decide (scan_page st b = Some st) then scan_page st p else None
  end.
Fixpoint conditions (p : Page) : list string :=
  match p with
  | PEnd => []
  | PText _ p | PField _ _ p => conditions p
  | PIf f b p => f :: conditions b ++ conditions p
  end.

(* two renderings that agree on the conditions have the same markup *)
Lemma Render_markup p st st' (d1 d2 : Fields) r1 r2 :
  scan_page st p = Some st' ->
  (forall f, f ∈ conditions p -> field d1 f = Some "" <-> field d2 f = Some "") ->
  Render p d1 = inr r1 -> Render p d2 = inr r2 ->
  scan st r1 = scan st r2 /\ (scan st r1).1 = st'.
Proof.
  revert st st' r1 r2. induction p as [|s p IH|k f p IH|f b IHb p IH]; intros st st' r1 r2;
    cbn [scan_page conditions Render].
  - intros [= ->] _ [= <-] [= <-]. done.
  - intros Hs Hc. destruct (Render p d1) as [|q1] eqn:E1, (Render p d2) as [|q2] eqn:E2; try done.
    intros [= <-] [= <-]. rewrite !scan_app. cbn [fst snd].
    destruct (IH _ _ q1 q2 Hs Hc eq_refl eq_refl) as [<- <-]. done.
  - case_bool_decide as Hst; [done|]. intros Hs Hc.
    destruct (field d1 f) as [v1|], (field d2 f) as [v2|]; try done.
    { destruct (Render p d1) as [|q1] eqn:E1, (Render p d2) as [|q2] eqn:E2; try done.
      intros [= <-] [= <-]. rewrite !scan_app, (scan_inert st (apply_esc k v1)), (scan_inert st (apply_esc k v2))
        by (done || apply apply_esc_no_markup).
      cbn [fst snd]. destruct (IH _ _ q1 q2 Hs Hc eq_refl eq_refl) as [<- <-]. by destruct (scan st q1). }
    all: by destruct (Render p d1).
  - case_bool_decide as Hb; [|done]. intros Hs Hc.
    destruct (field d1 f) as [v1|] eqn:F1, (field d2 f) as [v2|] eqn:F2; try done.
    assert (Hv : v1 = "" <-> v2 = "").
    { destruct (Hc f ltac:(set_solver)) as [H1 H2]. rewrite F1, F2 in H1, H2.
      split; intros ->; [specialize (H1 eq_refl)|specialize (H2 eq_refl)]; congruence. }
    destruct (if bool_decide (v1 = "") then _ else _) as [|b1] eqn:B1; [done|].
    destruct (if bool_decide (v2 = "") then _ else _) as [|b2] eqn:B2; [by destruct (Render p d1)|].
    destruct (Render p d1) as [|q1] eqn:E1, (Render p d2) as [|q2] eqn:E2; try done.
    intros [= <-] [= <-]. rewrite !scan_app. cbn [fst snd].
    assert (Hbody : scan st b1 = scan st b2 /\ (scan st b1).1 = st).
    { destruct (decide (v1 = "")) as [Z1|Z1].
      - rewrite bool_decide_eq_true_2 in B1 by done. rewrite bool_decide_eq_true_2 in B2 by tauto.
        injection B1 as <-. by injection B2 as <-.
      - rewrite bool_decide_eq_false_2 in B1 by done. rewrite bool_decide_eq_false_2 in B2 by tauto.
        apply (IHb st st b1 b2 Hb); [|done|done]. intros g Hg. apply Hc. set_solver. }
    destruct Hbody as [<- Hbst]. rewrite Hbst.
    destruct (IH st st' q1 q2 Hs) as [<- <-]; [|done|done|done]. intros g Hg. apply Hc. set_solver.
Qed.

(** ** A page by its source *)

Definition html_page (s : string) : Page :=
  match escape ctx0 (parsed s) with inr (p, _) => p | inl _ => PEnd end.
(* the source parses and is escaped without an error, up to text *)
Definition page_ok (s : string) : bool :=
  match Parse s with
  | inr t => match escape ctx0 t with
             | inr (_, c) => bool_decide (c_state c = stateText)
             | inl _ => false
             end
  | inl _ => false
  end.

Lemma page_ok_renders s :
  page_ok s = true ->
  Parse s = inr (parsed s) /\ forall d, html_Execute (parsed s) d = Render (html_page s) d.
Proof.
  unfold page_ok, html_page, html_Execute, parsed. destruct (Parse s) as [|t]; [done|].
  destruct (escape ctx0 t) as [|[p c]]; [done|]. intros H. by rewrite H.
Qed.
