(* ===== verification/Static.v ===== *)
(** * The texts of the mails (smtpclient/static.go)

    The constants of static.go, byte for byte: the text templates, the two HTML
    pages and the logo. The pages and the logo are cut into parts. A backquote,
    which a raw string of Go cannot contain, stands for a double quote in the
    pages. *)
From S2P Require Import Prelude GoLib Templates Html.

(* a double quote for each backquote *)
Fixpoint quotes (s : string) : string :=
  match s with
  | "" => ""
  | String a s => String (if is_char a "`" then dquote else a) (quotes s)
  end.

(** ** Texts *)

Definition ValidationSubject : string := "Participa en {{.OrgName}} con Vocdoni".

Definition ValidationTextTemplate : string := "
Versió en castellà

Hola {{.Name}},

{{.OrgName}} te ha invitado a unirte a su plataforma de gobernanza.

Como miembro de {{.OrgName}}, recibirás todas las noticias de la organización en tu móvil y podrás participar en la toma de decisiones mediante voto digital seguro.

Para unirte a {{.OrgName}}:
1. Instala Vocdoni para Android o iPhone desde la tienda de aplicaciones de tu dispositivo.
2. Crea tu identidad dentro de la app, copia el siguiente enlace en tu navegador y sigue los pasos:

{{.ValidationLink}}

{{if .OrgEmail}}Para más información o ayuda, contacta con {{.OrgEmail}}.{{end}}
Gracias,

{{.OrgName}}

Versió en català

Hola {{.Name}},

{{.OrgName}} t'ha convidat a unir-te a la seva plataforma de governança.

Com a membre de {{.OrgName}}, rebràs totes les notícies de l'organització en el teu mòbil i podràs participar en la presa de decisions mitjançant vot digital segur.

Per unir-te a {{.OrgName}}:
1. Instal·la Vocdoni per a Android o iPhone des de la botiga d'aplicacions del teu dispositiu.
2. Crea la teva identitat dins de l'app, còpia el següent enllaç en el navegador i segueix el passos:

{{.ValidationLink}}

{{if .OrgEmail}}Per a més informació o ajuda, contacta amb {{.OrgEmail}}.{{end}}
Gràcies,

{{.OrgName}}
".

Definition VotingTextTemplate : string := "
Hola {{.Name}},
{{.OrgMessage}}
Para consultar l'ordre del dia i la documentació, així com participar el dia de la votació  copia el següent text a la barra d'adreces del teu navegador:

{{.VotingLink}}

{{if .OrgEmail}}Per a més informació o ajuda, contacta amb {{.OrgName}}.{{end}}
Moltes gràcies,

{{.OrgName}}
".

(** ** The validation page *)

Definition ValidationHTML_head : string := quotes "
<!-- FILE: ../manager-backend/misc/mail/template_catesp.mjml -->
<!doctype html>
<html xmlns=`http://www.w3.org/1999/xhtml` xmlns:v=`urn:schemas-microsoft-com:vml` xmlns:o=`urn:schemas-microsoft-com:office:office`>

<head>
  <title>
  </title>
  <!--[if !mso]><!-- -->
  <meta http-equiv=`X-UA-Compatible` content=`IE=edge`>
  <!--<![endif]-->
  <meta http-equiv=`Content-Type` content=`text/html; charset=UTF-8`>
  <meta name=`viewport` content=`width=device-width, initial-scale=1`>
  <style type=`text/css`>
    #outlook a {
      padding: 0;
    }

    body {
      margin: 0;
      padding: 0;
      -webkit-text-size-adjust: 100%;
      -ms-text-size-adjust: 100%;
    }

    table,
    td {
      border-collapse: collapse;
      mso-table-lspace: 0pt;
      mso-table-rspace: 0pt;
    }

    img {
      border: 0;
      height: auto;
      line-height: 100%;
      outline: none;
      text-decoration: none;
      -ms-interpolation-mode: bicubic;
    }

    p {
      display: block;
      margin: 13px 0;
    }
  </style>
  <!--[if mso]>
        <xml>
        <o:OfficeDocumentSettings>
          <o:AllowPNG/>
          <o:PixelsPerInch>96</o:PixelsPerInch>
        </o:OfficeDocumentSettings>
        </xml>
        <![endif]-->
  <!--[if lte mso 11]>
        <style type=`text/css`>
          .mj-outlook-group-fix { width:100% !important; }
        </style>
        <![endif]-->
  <!--[if !mso]><!-->
  <link href=`https://fonts.googleapis.com/css?family=Open+Sans:300,400,500,700` rel=`stylesheet` type=`text/css`>
  <link href=`https://fonts.googleapis.com/css?family=Ubuntu:300,400,500,700` rel=`stylesheet` type=`text/css`>
  <style type=`text/css`>
    @import url(https://fonts.googleapis.com/css?family=Open+Sans:300,400,500,700);
    @import url(https://fonts.googleapis.com/css?family=Ubuntu:300,400,500,700);
  </style>
  <!--<![endif]-->
  <style type=`text/css`>
    @media only screen and (min-width:480px) {
      .mj-column-per-100 {
        width: 100% !important;
        max-width: 100%;
      }
    }
  </style>
  <style type=`text/css`>
    @media only screen and (max-width:480px) {
      table.mj-full-width-mobile {
        width: 100% !important;
      }

      td.mj-full-width-mobile {
        width: auto !important;
      }
    }
  </style>
</head>

<body>
  <div style=``>
    <!--[if mso | IE]>
      <table
         align=`center` border=`0` cellpadding=`0` cellspacing=`0` class=`` style=`width:600px;` width=`600`
      >
        <tr>
          <td style=`line-height:0px;font-size:0px;mso-line-height-rule:exactly;`>
      <![endif]-->
    <div style=`margin:0px auto;max-width:600px;`>
      <table align=`center` border=`0` cellpadding=`0` cellspacing=`0` role=`presentation` style=`width:100%;`>
        <tbody>
          <tr>
".

Definition ValidationHTML_es : string := quotes "            <td style=`direction:ltr;font-size:0px;padding:20px 0;padding-bottom:0px;padding-top:20px;text-align:center;`>
              <!--[if mso | IE]>
                  <table role=`presentation` border=`0` cellpadding=`0` cellspacing=`0`>
                
        <tr>
      
            <td
               class=`` style=`vertical-align:top;width:600px;`
            >
          <![endif]-->
              <div class=`mj-column-per-100 mj-outlook-group-fix` style=`font-size:0px;text-align:left;direction:ltr;display:inline-block;vertical-align:top;width:100%;`>
                <table border=`0` cellpadding=`0` cellspacing=`0` role=`presentation` width=`100%`>
                  <tbody>
                    <tr>
                      <td style=`background-color:#f7f7f7;vertical-align:top;padding:20px;`>
                        <table border=`0` cellpadding=`0` cellspacing=`0` role=`presentation` style=`` width=`100%`>
                          <tr>
                            <td align=`center` style=`font-size:0px;padding:10px 25px;padding-top:0;padding-right:0px;padding-bottom:30px;padding-left:0px;word-break:break-word;`>
                              <table border=`0` cellpadding=`0` cellspacing=`0` role=`presentation` style=`border-collapse:collapse;border-spacing:0px;`>
                                <tbody>
                                  <tr>
                                    <td style=`width:140px;`>
                                      <img alt=`` height=`auto` src=`cid:logoVoc.png` style=`border:none;display:block;outline:none;text-decoration:none;height:auto;width:100%;font-size:13px;` width=`140` />
                                    </td>
                                  </tr>
                                </tbody>
                              </table>
                            </td>
                          </tr>
                          <tr>
                            <td align=`center` style=`font-size:0px;padding:10px 25px;word-break:break-word;`>
                              <div style=`font-family:Open Sans, sans-serif;font-size:14px;font-weight:700;line-height:1;text-align:center;color:#000000;`>Versión en castellano</div>
                            </td>
                          </tr>
                          <tr>
                            <td align=`left` style=`font-size:0px;padding:10px 25px;word-break:break-word;`>
                              <div style=`font-family:Open Sans, sans-serif;font-size:15px;line-height:1;text-align:left;color:#000000;`>Hola {{.Name}},</div>
                            </td>
                          </tr>
                          <tr>
                            <td align=`left` style=`font-size:0px;padding:10px 25px;word-break:break-word;`>
                              <div style=`font-family:Open Sans, sans-serif;font-size:15px;line-height:1;text-align:left;color:#000000;`>{{.OrgName}} te ha invitado a unirte a su plataforma de gobernanza.</div>
                            </td>
                          </tr>
                          <tr>
                            <td align=`left` style=`font-size:0px;padding:10px 25px;word-break:break-word;`>
                              <div style=`font-family:Open Sans, sans-serif;font-size:15px;line-height:1;text-align:left;color:#000000;`>Como miembro de {{.OrgName}}, recibirás todas las noticias de la organización en tu móvil y podrás participar en la toma de decisiones mediante voto digital seguro.</div>
                            </td>
                          </tr>
                          <tr>
                            <td align=`left` style=`font-size:0px;padding:10px 25px;word-break:break-word;`>
                              <div style=`font-family:Open Sans, sans-serif;font-size:15px;line-height:1;text-align:left;color:#000000;`>Para unirte a {{.OrgName}}:</div>
                            </td>
                          </tr>
                          <tr>
                            <td align=`left` style=`font-size:0px;padding:10px 25px;word-break:break-word;`>
                              <div style=`font-family:Open Sans, sans-serif;font-size:15px;line-height:1;text-align:left;color:#000000;`>1. Instala Vocdoni para <a href=`https://play.google.com/store/apps/details?id=org.vocdoni.app`>Android</a> o <a href=`https://apps.apple.com/es/app/vocdoni/id1505234624`>iPhone</a></div>
                            </td>
                          </tr>
                          <tr>
                            <td align=`left` style=`font-size:0px;padding:10px 25px;word-break:break-word;`>
                              <div style=`font-family:Open Sans, sans-serif;font-size:15px;line-height:1;text-align:left;color:#000000;`>2. Crea tu cuenta en la app y <a href=`{{.ValidationLink}}`>sigue este link</a> en tu móvil.</div>
                            </td>
                          </tr>
                          <tr>
                            <td align=`left` style=`font-size:0px;padding:10px 25px;word-break:break-word;`>
                              <div style=`font-family:Open Sans, sans-serif;font-size:15px;line-height:1;text-align:left;color:#000000;`>Si tienes problemas con el enlace, copia el siguiente texto en el navegador:</div>
                            </td>
                          </tr>
                          <tr>
                            <td align=`left` style=`font-size:0px;padding:10px 25px;word-break:break-word;`>
                              <div style=`font-family:Ubuntu, Helvetica, Arial, sans-serif;font-size:13px;line-height:1;text-align:left;color:#000000;`>
                                <pre><small>{{.ValidationLink}}</small></pre>
                              </div>
                            </td>
                          </tr>
                          <tr>
                            <td style=`font-size:0px;padding:10px 25px;word-break:break-word;`>
                              <p style=`border-top:solid 1px #cccccc;font-size:1px;margin:0px auto;width:100%;`>
                              </p>
                              <!--[if mso | IE]>
        <table
           align=`center` border=`0` cellpadding=`0` cellspacing=`0` style=`border-top:solid 1px #cccccc;font-size:1px;margin:0px auto;width:510px;` role=`presentation` width=`510px`
        >
          <tr>
            <td style=`height:0;line-height:0;`>
              &nbsp;
            </td>
          </tr>
        </table>
      <![endif]-->
                            </td>
                          </tr>
                          <tr>
                            <td align=`left` style=`font-size:0px;padding:10px 25px;word-break:break-word;`>
                              <div style=`font-family:Open Sans, sans-serif;font-size:15px;line-height:1;text-align:left;color:#000000;`>{{if .OrgEmail}}Para más información o ayuda, <a href=`mailto:{{.OrgEmail}}`>contacta con {{.OrgName}}</a>.{{end}}</div>
                            </td>
                          </tr>
                          <tr>
                            <td align=`left` style=`font-size:0px;padding:10px 25px;word-break:break-word;`>
                              <div style=`font-family:Open Sans, sans-serif;font-size:15px;line-height:1;text-align:left;color:#000000;`>Gracias,<br /></br />{{.OrgName}}</div>
                            </td>
                          </tr>
                        </table>
                      </td>
                    </tr>
                  </tbody>
                </table>
              </div>
              <!--[if mso | IE]>
            </td>
          
        </tr>
      
                  </table>
                <![endif]-->
            </td>
          </tr>
        </tbody>
      </table>
    </div>
    <!--[if mso | IE]>
          </td>
        </tr>
      </table>
      
      <table
".

Definition ValidationHTML_ca : string := quotes "         align=`center` border=`0` cellpadding=`0` cellspacing=`0` class=`` style=`width:600px;` width=`600`
      >
        <tr>
          <td style=`line-height:0px;font-size:0px;mso-line-height-rule:exactly;`>
      <![endif]-->
    <div style=`margin:0px auto;max-width:600px;`>
      <table align=`center` border=`0` cellpadding=`0` cellspacing=`0` role=`presentation` style=`width:100%;`>
        <tbody>
          <tr>
            <td style=`direction:ltr;font-size:0px;padding:20px 0;padding-bottom:0px;padding-top:20px;text-align:center;`>
              <!--[if mso | IE]>
                  <table role=`presentation` border=`0` cellpadding=`0` cellspacing=`0`>
                
        <tr>
      
            <td
               class=`` style=`vertical-align:top;width:600px;`
            >
          <![endif]-->
              <div class=`mj-column-per-100 mj-outlook-group-fix` style=`font-size:0px;text-align:left;direction:ltr;display:inline-block;vertical-align:top;width:100%;`>
                <table border=`0` cellpadding=`0` cellspacing=`0` role=`presentation` width=`100%`>
                  <tbody>
                    <tr>
                      <td style=`background-color:#f7f7f7;vertical-align:top;padding:20px;`>
                        <table border=`0` cellpadding=`0` cellspacing=`0` role=`presentation` style=`` width=`100%`>
                          <tr>
                            <td align=`center` style=`font-size:0px;padding:10px 25px;word-break:break-word;`>
                              <div style=`font-family:Open Sans, sans-serif;font-size:14px;font-weight:700;line-height:1;text-align:center;color:#000000;`>Versió en català</div>
                            </td>
                          </tr>
                          <tr>
                            <td align=`left` style=`font-size:0px;padding:10px 25px;word-break:break-word;`>
                              <div style=`font-family:Open Sans, sans-serif;font-size:15px;line-height:1;text-align:left;color:#000000;`>Hola {{.Name}},</div>
                            </td>
                          </tr>
                          <tr>
                            <td align=`left` style=`font-size:0px;padding:10px 25px;word-break:break-word;`>
                              <div style=`font-family:Open Sans, sans-serif;font-size:15px;line-height:1;text-align:left;color:#000000;`>{{.OrgName}} t'ha convidat a unir-te a la seva plataforma de governança.</div>
                            </td>
                          </tr>
                          <tr>
                            <td align=`left` style=`font-size:0px;padding:10px 25px;word-break:break-word;`>
                              <div style=`font-family:Open Sans, sans-serif;font-size:15px;line-height:1;text-align:left;color:#000000;`>Com a membre de {{.OrgName}}, rebràs totes les notícies de l'organització en el teu mòbil i podràs participar en la presa de decisions mitjançant vot digital segur.</div>
                            </td>
                          </tr>
                          <tr>
                            <td align=`left` style=`font-size:0px;padding:10px 25px;word-break:break-word;`>
                              <div style=`font-family:Open Sans, sans-serif;font-size:15px;line-height:1;text-align:left;color:#000000;`>Per unir-te a {{.OrgName}}:</div>
                            </td>
                          </tr>
                          <tr>
                            <td align=`left` style=`font-size:0px;padding:10px 25px;word-break:break-word;`>
                              <div style=`font-family:Open Sans, sans-serif;font-size:15px;line-height:1;text-align:left;color:#000000;`>1. Instal·la Vocdoni per a <a href=`https://play.google.com/store/apps/details?id=org.vocdoni.app`>Android</a> o <a href=`https://apps.apple.com/es/app/vocdoni/id1505234624`>iPhone</a></div>
                            </td>
                          </tr>
                          <tr>
                            <td align=`left` style=`font-size:0px;padding:10px 25px;word-break:break-word;`>
                              <div style=`font-family:Open Sans, sans-serif;font-size:15px;line-height:1;text-align:left;color:#000000;`>2. Crea la teva identitat dins de l'app i <a href=`{{.ValidationLink}}`>segueix aquest link</a> en el teu mòbil.</div>
                            </td>
                          </tr>
                          <tr>
                            <td align=`left` style=`font-size:0px;padding:10px 25px;word-break:break-word;`>
                              <div style=`font-family:Open Sans, sans-serif;font-size:15px;line-height:1;text-align:left;color:#000000;`>Si tens problemes amb l'enllaç, còpia el següent text en el navegador:</div>
                            </td>
                          </tr>
                          <tr>
                            <td align=`left` style=`font-size:0px;padding:10px 25px;word-break:break-word;`>
                              <div style=`font-family:Ubuntu, Helvetica, Arial, sans-serif;font-size:13px;line-height:1;text-align:left;color:#000000;`>
                                <pre><small>{{.ValidationLink}}</small></pre>
                              </div>
                            </td>
                          </tr>
                          <tr>
                            <td style=`font-size:0px;padding:10px 25px;word-break:break-word;`>
                              <p style=`border-top:solid 1px #cccccc;font-size:1px;margin:0px auto;width:100%;`>
                              </p>
                              <!--[if mso | IE]>
        <table
           align=`center` border=`0` cellpadding=`0` cellspacing=`0` style=`border-top:solid 1px #cccccc;font-size:1px;margin:0px auto;width:510px;` role=`presentation` width=`510px`
        >
          <tr>
            <td style=`height:0;line-height:0;`>
              &nbsp;
            </td>
          </tr>
        </table>
      <![endif]-->
                            </td>
                          </tr>
                          <tr>
                            <td align=`left` style=`font-size:0px;padding:10px 25px;word-break:break-word;`>
                              <div style=`font-family:Open Sans, sans-serif;font-size:15px;line-height:1;text-align:left;color:#000000;`>{{if .OrgEmail}}Per a més informació o ajuda, <a href=`mailto:{{.OrgEmail}}`>contacta amb {{.OrgName}}</a>.{{end}}</div>
                            </td>
                          </tr>
                          <tr>
                            <td align=`left` style=`font-size:0px;padding:10px 25px;word-break:break-word;`>
                              <div style=`font-family:Open Sans, sans-serif;font-size:15px;line-height:1;text-align:left;color:#000000;`>Gràcies,<br /></br />{{.OrgName}}</div>
                            </td>
                          </tr>
                        </table>
                      </td>
                    </tr>
                  </tbody>
                </table>
              </div>
              <!--[if mso | IE]>
            </td>
          
        </tr>
      
                  </table>
                <![endif]-->
            </td>
          </tr>
        </tbody>
      </table>
    </div>
    <!--[if mso | IE]>
          </td>
        </tr>
      </table>
      <![endif]-->
  </div>
</body>

</html>
".

Definition ValidationHTMLTemplate : string :=
  ValidationHTML_head +:+ ValidationHTML_es +:+ ValidationHTML_ca.

(** ** The voting page *)

Definition VotingHTML_head : string := quotes "
<!-- FILE: ../manager-backend/misc/mail/voting_template_cat.mjml -->
<!doctype html>
<html xmlns=`http://www.w3.org/1999/xhtml` xmlns:v=`urn:schemas-microsoft-com:vml` xmlns:o=`urn:schemas-microsoft-com:office:office`>

<head>
  <title>
  </title>
  <!--[if !mso]><!-- -->
  <meta http-equiv=`X-UA-Compatible` content=`IE=edge`>
  <!--<![endif]-->
  <meta http-equiv=`Content-Type` content=`text/html; charset=UTF-8`>
  <meta name=`viewport` content=`width=device-width, initial-scale=1`>
  <style type=`text/css`>
    #outlook a {
      padding: 0;
    }

    body {
      margin: 0;
      padding: 0;
      -webkit-text-size-adjust: 100%;
      -ms-text-size-adjust: 100%;
    }

    table,
    td {
      border-collapse: collapse;
      mso-table-lspace: 0pt;
      mso-table-rspace: 0pt;
    }

    img {
      border: 0;
      height: auto;
      line-height: 100%;
      outline: none;
      text-decoration: none;
      -ms-interpolation-mode: bicubic;
    }

    p {
      display: block;
      margin: 13px 0;
    }
  </style>
  <!--[if mso]>
        <xml>
        <o:OfficeDocumentSettings>
          <o:AllowPNG/>
          <o:PixelsPerInch>96</o:PixelsPerInch>
        </o:OfficeDocumentSettings>
        </xml>
        <![endif]-->
  <!--[if lte mso 11]>
        <style type=`text/css`>
          .mj-outlook-group-fix { width:100% !important; }
        </style>
        <![endif]-->
  <!--[if !mso]><!-->
  <link href=`https://fonts.googleapis.com/css?family=Open+Sans:300,400,500,700` rel=`stylesheet` type=`text/css`>
  <link href=`https://fonts.googleapis.com/css?family=Ubuntu:300,400,500,700` rel=`stylesheet` type=`text/css`>
  <style type=`text/css`>
    @import url(https://fonts.googleapis.com/css?family=Open+Sans:300,400,500,700);
    @import url(https://fonts.googleapis.com/css?family=Ubuntu:300,400,500,700);
  </style>
  <!--<![endif]-->
  <style type=`text/css`>
    @media only screen and (min-width:480px) {
      .mj-column-per-100 {
        width: 100% !important;
        max-width: 100%;
      }
    }
  </style>
  <style type=`text/css`>
  </style>
</head>

<body>
  <div style=``>
    <!--[if mso | IE]>
      <table
         align=`center` border=`0` cellpadding=`0` cellspacing=`0` class=`` style=`width:600px;` width=`600`
      >
        <tr>
          <td style=`line-height:0px;font-size:0px;mso-line-height-rule:exactly;`>
      <![endif]-->
    <div style=`margin:0px auto;max-width:600px;`>
      <table align=`center` border=`0` cellpadding=`0` cellspacing=`0` role=`presentation` style=`width:100%;`>
        <tbody>
".

Definition VotingHTML_body : string := quotes "          <tr>
            <td style=`direction:ltr;font-size:0px;padding:20px 0;padding-bottom:0px;padding-top:20px;text-align:center;`>
              <!--[if mso | IE]>
                  <table role=`presentation` border=`0` cellpadding=`0` cellspacing=`0`>
                
        <tr>
      
            <td
               class=`` style=`vertical-align:top;width:600px;`
            >
          <![endif]-->
              <div class=`mj-column-per-100 mj-outlook-group-fix` style=`font-size:0px;text-align:left;direction:ltr;display:inline-block;vertical-align:top;width:100%;`>
                <table border=`0` cellpadding=`0` cellspacing=`0` role=`presentation` width=`100%`>
                  <tbody>
                    <tr>
                      <td style=`background-color:#f7f7f7;vertical-align:top;padding:20px;`>
                        <table border=`0` cellpadding=`0` cellspacing=`0` role=`presentation` style=`` width=`100%`>
                          <tr>
                            <td align=`left` style=`font-size:0px;padding:10px 25px;word-break:break-word;`>
                              <div style=`font-family:Open Sans, sans-serif;font-size:15px;line-height:1;text-align:left;color:#000000;`>Hola {{.Name}},</div>
                            </td>
                          </tr>
                          <tr>
                            <td align=`left` style=`font-size:0px;padding:10px 25px;word-break:break-word;`>
                              <div style=`font-family:Open Sans, sans-serif;font-size:15px;line-height:1;text-align:left;color:#000000;`>{{.OrgMessage}}</div>
                            </td>
                          </tr>
                          <tr>
                            <td align=`left` style=`font-size:0px;padding:10px 25px;word-break:break-word;`>
                              <div style=`font-family:Open Sans, sans-serif;font-size:15px;line-height:1;text-align:left;color:#000000;`>Fent click <a href=`{{.VotingLink}}`>aquí</a> podràs consultar l'ordre del dia i la documentació, així com participar el dia de la votació.</div>
                            </td>
                          </tr>
                          <tr>
                            <td align=`left` style=`font-size:0px;padding:10px 25px;word-break:break-word;`>
                              <div style=`font-family:Open Sans, sans-serif;font-size:15px;line-height:1;text-align:left;color:#000000;`>Si no pots obrir l'enllaç correctament, copia el següent text a la barra d'adreces del teu navegador:</div>
                            </td>
                          </tr>
                          <tr>
                            <td align=`left` style=`font-size:0px;padding:10px 25px;word-break:break-word;`>
                              <div style=`font-family:Ubuntu, Helvetica, Arial, sans-serif;font-size:13px;line-height:1;text-align:left;color:#000000;`>
                                <pre><small>{{.VotingLink}}</small></pre>
                              </div>
                            </td>
                          </tr>
                          <tr>
                            <td style=`font-size:0px;padding:10px 25px;word-break:break-word;`>
                              <p style=`border-top:solid 1px #cccccc;font-size:1px;margin:0px auto;width:100%;`>
                              </p>
                              <!--[if mso | IE]>
        <table
           align=`center` border=`0` cellpadding=`0` cellspacing=`0` style=`border-top:solid 1px #cccccc;font-size:1px;margin:0px auto;width:510px;` role=`presentation` width=`510px`
        >
          <tr>
            <td style=`height:0;line-height:0;`>
              &nbsp;
            </td>
          </tr>
        </table>
      <![endif]-->
                            </td>
                          </tr>
                          <tr>
                            <td align=`left` style=`font-size:0px;padding:10px 25px;word-break:break-word;`>
                              <div style=`font-family:Open Sans, sans-serif;font-size:15px;line-height:1;text-align:left;color:#000000;`>{{if .OrgEmail}}Per a més informació o ajuda, <a href=`mailto:{{.OrgEmail}}`>contacta amb {{.OrgName}}</a>.{{end}}</div>
                            </td>
                          </tr>
                          <tr>
                            <td align=`left` style=`font-size:0px;padding:10px 25px;word-break:break-word;`>
                              <div style=`font-family:Open Sans, sans-serif;font-size:15px;line-height:1;text-align:left;color:#000000;`>Moltes gràcies,<br /></br />{{.OrgName}}</div>
                            </td>
                          </tr>
                        </table>
                      </td>
                    </tr>
                  </tbody>
                </table>
              </div>
              <!--[if mso | IE]>
            </td>
          
        </tr>
      
                  </table>
                <![endif]-->
            </td>
          </tr>
        </tbody>
      </table>
    </div>
    <!--[if mso | IE]>
          </td>
        </tr>
      </table>
      <![endif]-->
  </div>
</body>

</html>

".

Definition VotingHTMLTemplate : string := VotingHTML_head +:+ VotingHTML_body.

(** ** What the pages are *)

Definition validation_fields : list string := ["Name"; "OrgName"; "OrgEmail"; "ValidationLink"].
Definition voting_fields : list string := ["Name"; "OrgName"; "OrgEmail"; "VotingLink"; "OrgMessage"].

(* everything about a page that is computed once: it is escaped without an
   error, its fields are known, no field stands in a tag, and the link is the
   target of an anchor and is shown *)
Definition page_checks (s : string) (fields : list string) (link : string) : bool :=
  let p := html_page s in
  page_ok s && page_closed fields p && bool_decide (scan_page InData p = Some InData) &&
  forallb (String.eqb "OrgEmail") (conditions p) &&
  frames EscURL link (quotes "<a href=`") (quotes "`>") p &&
  frames EscHTML link "<pre><small>" "</small></pre>" p.

Lemma validation_page_checks :
  page_checks ValidationHTMLTemplate validation_fields "ValidationLink" = true.
Proof. vm_cast_no_check (eq_refl true). Qed.
Lemma voting_page_checks : page_checks VotingHTMLTemplate voting_fields "VotingLink" = true.
Proof. vm_cast_no_check (eq_refl true). Qed.

(* the text templates parse, and so does the subject *)
Lemma templates_parse :
  Forall (fun s => Parse s = inr (parsed s))
    [ValidationSubject; ValidationTextTemplate; VotingTextTemplate].
Proof. repeat constructor. Qed.

Section checked_page.
Context (s : string) (fields : list string) (link : string) (Hs : page_checks s fields link = true).

Lemma page_parts :
  page_ok s = true /\ page_closed fields (html_page s) = true /\
  scan_page InData (html_page s) = Some InData /\
  (forall f, f ∈ conditions (html_page s) -> f = "OrgEmail") /\
  frames EscURL link (quotes "<a href=`") (quotes "`>") (html_page s) = true /\
  frames EscHTML link "<pre><small>" "</small></pre>" (html_page s) = true.
Proof.
  unfold page_checks in Hs. cbv zeta in Hs.
  apply andb_true_iff in Hs as [[[[[H1 H2]%andb_true_iff H3%bool_decide_eq_true]%andb_true_iff
    H4]%andb_true_iff H5]%andb_true_iff H6].
  split_and!; try assumption. intros f Hf. rewrite forallb_forall in H4.
  symmetry. apply String.eqb_eq, H4. by apply list_elem_of_In.
Qed.

Lemma page_renders (d : Fields) :
  d.*1 = fields -> Parse s = inr (parsed s) /\
  exists html, html_Execute (parsed s) d = inr html /\ Render (html_page s) d = inr html.
Proof.
  intros Hd. destruct page_parts as (H1 & H2 & _). destruct (page_ok_renders s H1) as [Hp He].
  split; [exact Hp|]. rewrite <- Hd in H2. destruct (Render_total _ _ H2) as [r Hr].
  exists r. split; [|exact Hr]. by rewrite He.
Qed.

Lemma page_shows_link (d : Fields) v html :
  field d link = Some v -> Render (html_page s) d = inr html ->
  (exists a b, html = a +:+ quotes "<a href=`" +:+ apply_esc EscURL v +:+ quotes "`>" +:+ b) /\
  (exists a b, html = a +:+ "<pre><small>" +:+ apply_esc EscHTML v +:+ "</small></pre>" +:+ b).
Proof.
  intros Hv Hr. destruct page_parts as (_ & _ & _ & _ & H5 & H6).
  split; [exact (Render_frames _ _ _ _ _ _ _ _ H5 Hv Hr)
         |exact (Render_frames _ _ _ _ _ _ _ _ H6 Hv Hr)].
Qed.

Lemma page_markup (d1 d2 : Fields) r1 r2 :
  (field d1 "OrgEmail" = Some "" <-> field d2 "OrgEmail" = Some "") ->
  Render (html_page s) d1 = inr r1 -> Render (html_page s) d2 = inr r2 -> markup r1 = markup r2.
Proof.
  intros He H1 H2. destruct page_parts as (_ & _ & H3 & H4 & _).
  destruct (Render_markup _ _ _ d1 d2 r1 r2 H3) as [H _]; [|exact H1|exact H2|by unfold markup; rewrite H].
  intros f ->%H4. exact He.
Qed.
End checked_page.

(* the pages with the fields they are executed with *)
Definition pages : list (string * list string) :=
  [(ValidationHTMLTemplate, validation_fields); (VotingHTMLTemplate, voting_fields)].
Lemma pages_checked s fields : (s, fields) ∈ pages -> exists link, page_checks s fields link = true.
Proof.
  intros [[= -> ->]|H]%elem_of_cons; [exists "ValidationLink"; exact validation_page_checks|].
  apply list_elem_of_singleton in H as [= -> ->]. exists "VotingLink". exact voting_page_checks.
Qed.

(** C20: Nothing a member or an entity writes into its name, e-mail or message
    can change the HTML of a mail: for any two sets of values (that agree on
    whether the entity has an e-mail, which decides whether its line is there)
    the page renders without an error, both times with the same tags and
    attributes, and each value can only be read as text or inside a quoted
    attribute; a browser shows a text as it was given. *)
Theorem mail_markup_fixed (tmpl : string) (fields : list string) (d1 d2 : Fields) :
  (tmpl, fields) ∈ pages -> d1.*1 = fields -> d2.*1 = fields ->
  (field d1 "OrgEmail" = Some "" <-> field d2 "OrgEmail" = Some "") ->
  (exists html1 html2,
    html_Execute (parsed tmpl) d1 = inr html1 /\ html_Execute (parsed tmpl) d2 = inr html2 /\
    markup html1 = markup html2) /\
  forall k v, all_bytes no_markup_byte (apply_esc k v) = true /\
    (all_bytes (fun a => negb (is_char a "000")) v = true ->
     UnescapeString (apply_esc EscHTML v) = v).
Proof.
  intros Hp H1 H2 He. split.
  - apply pages_checked in Hp as [link Hc].
    destruct (page_renders _ _ _ Hc d1 H1) as (_ & r1 & E1 & R1).
    destruct (page_renders _ _ _ Hc d2 H2) as (_ & r2 & E2 & R2).
    exists r1, r2. split; [exact E1|]. split; [exact E2|].
    exact (page_markup _ _ _ Hc d1 d2 r1 r2 He R1 R2).
  - intros k v. split; [apply apply_esc_no_markup|apply unescape_escaped].
Qed.

Lemma mail_markup_fixed_witness :
  let name v := [("Name", v); ("OrgName", "Org"); ("OrgEmail", ""); ("VotingLink", "https://w/1");
                 ("OrgMessage", "")] in
  exists html1 html2,
    html_Execute (parsed VotingHTMLTemplate) (name "<script>alert(1)</script>") = inr html1 /\
    html_Execute (parsed VotingHTMLTemplate) (name "Ann") = inr html2 /\ markup html1 = markup html2.
Proof.
  intros name.
  refine (proj1 (mail_markup_fixed VotingHTMLTemplate voting_fields (name "<script>alert(1)</script>")
                   (name "Ann") _ eq_refl eq_refl (conj (fun H => H) (fun H => H)))).
  apply elem_of_cons. right. apply list_elem_of_singleton. reflexivity.
Defined.

(* html/template removes comments, and with them the conditional comments the
   pages have for Outlook *)
Fixpoint page_texts (p : Page) : list string :=
  match p with
  | PEnd => []
  | PText s p => s :: page_texts p
  | PField _ _ p => page_texts p
  | PIf _ b p => page_texts b ++ page_texts p
  end.
Lemma outlook_comments_removed :
  forallb (fun s => Contains s "<!--[if mso" &&
             negb (existsb (fun t => Contains t "<!--") (page_texts (html_page s))))
    [ValidationHTMLTemplate; VotingHTMLTemplate] = true.
Proof. vm_cast_no_check (eq_refl true). Qed.
