(* ===== verification/Smtp.v ===== *)
(** * E-mails to members (smtpclient/smtp.go)

    How the validation and voting e-mails are put together: the links, the
    templates, the guards, and the message handed to the pool of connections,
    which is a parameter. *)
From S2P Require Import Prelude GoLib Ext Types Templates Html Static Logo.

(** ** The client *)

(* config.SMTP *)
Record SMTPConfig := mkSMTPConfig {
  sc_Host : string;
  sc_Port : Z;
  sc_User : string;
  sc_Password : string;
  sc_PoolSize : Z;
  (* in seconds *)
  sc_Timeout : Z;
  sc_ValidationURL : string;
  sc_Sender : string;
  sc_SenderName : string;
  sc_Contact : string;
  sc_WebpollURL : string;
}.

Record Attachment := mkAttachment { at_Name : string; at_Type : string; at_Content : bytes;
  at_HTMLRelated : bool }.

Record Email := mkEmail {
  ml_From : string;
  ml_Sender : string;
  ml_To : list string;
  ml_Subject : string;
  ml_Text : bytes;
  ml_HTML : bytes;
  ml_Headers : list (string * string);
  ml_Attachments : list Attachment;
}.

(* the options of smtppool the program sets; durations are nanoseconds *)
Record Opt := mkOpt {
  o_Host : string;
  o_Port : Z;
  o_MaxConns : Z;
  o_MaxMessageRetries : Z;
  o_IdleTimeout : Z;
  o_PoolWaitTimeout : Z;
}.

Definition Second : Z := 1000000000.

(* time.ParseDuration of a number of seconds: an int64 of nanoseconds *)
Definition ParseDuration_s (n : Z) : gerror + Z :=
  if (Z.abs n * Second <=? 2 ^ 63 - 1)%Z then inr (n * Second)%Z
  else inl (Errorf ("time: invalid duration " +:+ quoted (decimal n +:+ "s"))).

(* knadh/smtppool, and strconv.Quote (%q) *)
Class MailLib (S : Type) := {
  pool_New : Opt -> gerror + unit;
  pool_Send : Email -> M S unit;
  Quote : string -> string;
}.

Definition pool_options (c : SMTPConfig) (timeout : Z) : Opt :=
  mkOpt (sc_Host c) (sc_Port c) (sc_PoolSize c) 3 (int64 (Second * 10)) (int64 (Second * timeout)).

Section client.
Context {X : Ext} {S : Type} {L : MailLib S}.

(* the pool, nil until it is started *)
Record SMTP := mkSMTP { s_pool : option Opt; s_config : SMTPConfig }.

Definition New (c : SMTPConfig) : SMTP := mkSMTP None c.

Definition StartPool (s : SMTP) : gerror + SMTP :=
  match ParseDuration_s (sc_Timeout (s_config s)) with
  | inl err => inl (Errorf ("error calulating timeout: " +:+ error_string err))
  | inr timeout =>
      let o := pool_options (s_config s) timeout in
      match pool_New o with
      | inl err => inl (Errorf ("error initializing smtp pool: " +:+ error_string err))
      | inr _ => inr (mkSMTP (Some o) (s_config s))
      end
  end.

(* Headers.Add appends *)
Definition add_header (k v : string) (e : Email) : Email :=
  mkEmail (ml_From e) (ml_Sender e) (ml_To e) (ml_Subject e) (ml_Text e) (ml_HTML e)
    (ml_Headers e ++ [(k, v)]) (ml_Attachments e).

Definition SendMail (s : SMTP) (e : Email) : M S unit :=
  let e := add_header "X-Mailgun-Require-TLS" "true" e in
  let e := add_header "X-Mailgun-Skip-Verification" "false" e in
  match s_pool s with
  | None => failM (Errorf "requested pool is not initialized")
  | Some _ => pool_Send e
  end.

Definition errorf_v {A} (msg : string) (m : M S A) : M S A :=
  onErr m (fun err => Errorf (msg +:+ error_string err)).

(* what SendValidationLink and SendVotingLink do once they have the link: the
   three bodies, the message and its attachment *)
Definition compose (s : SMTP) (htmlTemplate textTemplate : string) (data : Fields)
    (firstName lastName address : string) : M S unit :=
  let! htmlParsed := errorf_v "error parsing HTML template: " (liftE (Parse htmlTemplate)) in
  let! html := errorf_v "error adding data to HTML template: " (liftE (html_Execute htmlParsed data)) in
  let! textParsed := errorf_v "error parsing text template: " (liftE (Parse textTemplate)) in
  let! txt := errorf_v "error adding data to text template: " (liftE (Execute textParsed data)) in
  let! subjectParsed := errorf_v "error parsing mail subject: " (liftE (Parse ValidationSubject)) in
  let! subject := errorf_v "error adding data to mail subject: " (liftE (Execute subjectParsed data)) in
  let! picture := errorf_v "could not attach logo to the email: " (liftE logo) in
  let c := s_config s in
  SendMail s (mkEmail (sc_SenderName c +:+ " <" +:+ sc_Sender c +:+ ">") (sc_Sender c)
    [Quote firstName +:+ " " +:+ Quote lastName +:+ " <" +:+ address +:+ ">"] subject txt html []
    [mkAttachment "logoVoc.png" "image/png; name=logoVoc.png" picture true]).

Definition validation_link (c : SMTPConfig) (entityID : bytes) (member : uuid) : string :=
  sc_ValidationURL c +:+ "/" +:+ EncodeToString entityID +:+ "/" +:+ uuid_String member.
Definition voting_link (c : SMTPConfig) (entityID processID privKey : bytes) : string :=
  sc_WebpollURL c +:+ "/" +:+ EncodeToString entityID +:+ "/" +:+ EncodeToString processID +:+ "/"
    +:+ EncodeToString privKey.

Definition SendValidationLink (s : SMTP) (member : Member) (entity : Entity) : M S unit :=
  let info := m_Info member in
  fail_if! bool_decide (mi_Email info = "") with Errorf "invalid member email" in
  let link := validation_link (s_config s) (e_ID entity) (m_ID member) in
  compose s ValidationHTMLTemplate ValidationTextTemplate
    [("Name", mi_FirstName info); ("OrgName", ei_Name (e_Info entity));
     ("OrgEmail", ei_Email (e_Info entity)); ("ValidationLink", link)]
    (mi_FirstName info) (mi_LastName info) (mi_Email info).

Definition SendVotingLink (s : SMTP) (member : EphemeralMemberInfo) (entity : Entity)
    (processID : bytes) : M S unit :=
  fail_if! bool_decide (em_Email member = "") with Errorf "invalid member email" in
  let privKey := default "" (em_PrivKey member) in
  fail_if! (len privKey =? 0)%Z with Errorf "missing privKey" in
  let link := voting_link (s_config s) (e_ID entity) processID privKey in
  compose s VotingHTMLTemplate VotingTextTemplate
    [("Name", em_FirstName member); ("OrgName", ei_Name (e_Info entity));
     ("OrgEmail", ei_Email (e_Info entity)); ("VotingLink", link); ("OrgMessage", "")]
    (em_FirstName member) (em_LastName member) (em_Email member).
End client.

(** ** Lemmas on links *)

Lemma slash_split a b x y :
  free_of "/" a = true -> free_of "/" b = true -> a +:+ "/" +:+ x = b +:+ "/" +:+ y ->
  a = b /\ x = y.
Proof.
  revert b. induction a as [|c a IH]; intros [|e b]; cbn [free_of];
    rewrite ?app_cons, ?app_nil.
  - by intros _ _ [= ->].
  - intros _ [Hc _]%andb_true_iff [= <- _]. by rewrite bool_decide_eq_true_2 in Hc.
  - intros [Hc _]%andb_true_iff _ [= -> _]. by rewrite bool_decide_eq_true_2 in Hc.
  - intros [_ Ha]%andb_true_iff [_ Hb]%andb_true_iff [= -> H]. by destruct (IH b Ha Hb H) as [-> ->].
Qed.

(** ** Properties *)
Section properties.
Context {X : Ext} {S : Type} {L : MailLib S}.

Lemma errorf_v_ok {A B} msg (r : gerror + A) a (k : A -> M S B) st :
  r = inr a -> bindM (errorf_v msg (liftE r)) k st = k a st.
Proof. by intros ->. Qed.

Lemma errorf_v_fails {A B} msg (r : gerror + A) (k : A -> M S B) st :
  (forall a, exists e, k a st = (Err e, st)) ->
  exists e, bindM (errorf_v msg (liftE r)) k st = (Err e, st).
Proof. intros Hk. unfold bindM, errorf_v, onErr, liftE. destruct r; [by eexists|apply Hk]. Qed.

(* what sending keeps *)
Lemma compose_keeps {T} (f : S -> T) s ht tt d first last address :
  (forall e, keeps f (pool_Send e)) -> keeps f (compose s ht tt d first last address).
Proof.
  intros Hp. unfold compose, errorf_v.
  do 7 (apply keeps_bind; [apply keeps_onErr, keeps_lift|intros ?]).
  unfold SendMail. destruct (s_pool s); [apply Hp|apply keeps_fail].
Qed.
Lemma mails_keep {T} (f : S -> T) s :
  (forall e, keeps f (pool_Send e)) ->
  (forall m e p, keeps f (SendVotingLink s m e p)) /\ (forall m e, keeps f (SendValidationLink s m e)).
Proof.
  intros Hp. split; intros; [unfold SendVotingLink|unfold SendValidationLink].
  - destruct (bool_decide _); [apply keeps_fail|]. cbv zeta.
    destruct (_ =? 0)%Z; [apply keeps_fail|by apply compose_keeps].
  - destruct (bool_decide _); [apply keeps_fail|by apply compose_keeps].
Qed.

Lemma logo_decodes : exists pic, logo = inr pic /\ is_picture (inr pic) = true.
Proof.
  pose proof logo_picture as H. revert H. generalize logo. intros [e|pic] H; [discriminate H|eauto].
Qed.

(* what [compose] sends: one message with the three bodies and the logo *)
Lemma compose_sends (s : SMTP) o ht tt fields link (data : Fields) first last address :
  s_pool s = Some o -> page_checks ht fields link = true -> data.*1 = fields ->
  Parse tt = inr (parsed tt) -> closed data.*1 (parsed tt) = true ->
  closed data.*1 (parsed ValidationSubject) = true ->
  exists mail, (forall st, compose s ht tt data first last address st = pool_Send mail st) /\
    ml_To mail = [Quote first +:+ " " +:+ Quote last +:+ " <" +:+ address +:+ ">"] /\
    Execute (parsed tt) data = inr (ml_Text mail) /\
    Render (html_page ht) data = inr (ml_HTML mail) /\
    Execute (parsed ValidationSubject) data = inr (ml_Subject mail).
Proof.
  intros Hp Hc Hd Ht Ht' Hs.
  destruct (page_renders _ _ _ Hc data Hd) as (Hh & html & He & Hr).
  destruct logo_decodes as (pic & Hl & _).
  destruct (Execute_total _ _ Ht') as [txt Htxt], (Execute_total _ _ Hs) as [subj Hsubj].
  assert (Hps : Parse ValidationSubject = inr (parsed ValidationSubject)).
  { pose proof templates_parse as Hf. by apply Forall_cons in Hf as [Hf _]. }
  eexists. split.
  - intros st. unfold compose.
    rewrite (errorf_v_ok _ _ _ _ _ Hh), (errorf_v_ok _ _ _ _ _ He), (errorf_v_ok _ _ _ _ _ Ht),
      (errorf_v_ok _ _ _ _ _ Htxt), (errorf_v_ok _ _ _ _ _ Hps), (errorf_v_ok _ _ _ _ _ Hsubj),
      (errorf_v_ok _ _ _ _ _ Hl).
    unfold SendMail. rewrite Hp. reflexivity.
  - cbn [ml_To ml_Text ml_HTML ml_Subject add_header]. by split_and!.
Qed.

(* how a mail shows its link: in the text, as the target of an anchor of the
   page, and as text of the page *)
Definition shows_link (link : string) (mail : Email) : Prop :=
  (exists before after, ml_Text mail = before +:+ link +:+ after) /\
  (exists before after, ml_HTML mail =
     before +:+ quotes "<a href=`" +:+ apply_esc EscURL link +:+ quotes "`>" +:+ after) /\
  (exists before after, ml_HTML mail =
     before +:+ "<pre><small>" +:+ apply_esc EscHTML link +:+ "</small></pre>" +:+ after).

(* A voting e-mail: with a started pool, a member that has an address and
    a private key gets exactly one message, addressed to the member alone,
    which shows the voting link; without them nothing is sent. *)
Lemma SendVotingLink_sends (s : SMTP) (o : Opt) (member : EphemeralMemberInfo) (entity : Entity)
    (processID : bytes) :
  s_pool s = Some o ->
  let privKey := default "" (em_PrivKey member) in
  if bool_decide (em_Email member = "" \/ privKey = "") then
    exists err, forall st, SendVotingLink s member entity processID st = (Err err, st)
  else
    exists mail, (forall st, SendVotingLink s member entity processID st = pool_Send mail st) /\
      ml_To mail = [Quote (em_FirstName member) +:+ " " +:+ Quote (em_LastName member)
                      +:+ " <" +:+ em_Email member +:+ ">"] /\
      ml_Subject mail = "Participa en " +:+ ei_Name (e_Info entity) +:+ " con Vocdoni" /\
      shows_link (voting_link (s_config s) (e_ID entity) processID privKey) mail.
Proof.
  intros Hp privKey. unfold SendVotingLink. fold privKey. case_bool_decide as Hg.
  - case_bool_decide; [by eexists|]. destruct Hg as [Hg|Hg]; [done|]. rewrite Hg. by eexists.
  - rewrite bool_decide_eq_false_2 by tauto.
    destruct (Z.eqb_spec (len privKey) 0) as [Hz|_].
    { destruct Hg. right. destruct privKey; [done|]. unfold len in Hz. simpl in Hz. lia. }
    set (link := voting_link _ _ _ _).
    match goal with |- context [compose s ?ht ?tt ?d ?f ?l ?a] =>
      destruct (compose_sends s o ht tt voting_fields "VotingLink" d f l a)
        as (mail & Hrun & Hto & Htxt & Hhtml & Hsubj);
      [exact Hp|exact voting_page_checks|reflexivity|vm_compute; reflexivity..|]
    end.
    exists mail. split; [exact Hrun|]. split; [exact Hto|]. split; [|split].
    + cbn in Hsubj. by injection Hsubj as <-.
    + by apply (Execute_shows _ _ "VotingLink" link) in Htxt.
    + refine (page_shows_link _ _ _ voting_page_checks _ link _ _ Hhtml). reflexivity.
Qed.

(* a base URL that html/template leaves as it is *)
Definition plain_base (url : string) : bool := all_bytes plain_byte url && isSafeURL url.

Lemma substring_all s m : strlen s <= m -> String.substring 0 m s = s.
Proof.
  revert m. induction s as [|a s IH]; intros [|m] Hm; try done; [inversion Hm|].
  cbn [String.substring]. rewrite IH; [done|]. by apply le_S_n.
Qed.
Lemma cut_colon a s :
  cut ":" (String a s) = if bool_decide (":"%char = a) then Some ("", s)
                         else '(l, r) ← cut ":" s; Some (String a l, r).
Proof.
  cbn [cut HasPrefix]. replace (HasPrefix s "") with true by (by destruct s). rewrite andb_true_r. destruct (bool_decide _); [|done].
  change (Some ("", String.substring 0 (strlen (String a s)) s) = Some ("", s)).
  rewrite substring_all; [done|]. simpl. lia.
Qed.
Lemma cut_colon_app s t :
  cut ":" (s +:+ t) = match cut ":" s with
                      | Some (l, r) => Some (l, r +:+ t)
                      | None => '(l, r) ← cut ":" t; Some (s +:+ l, r)
                      end.
Proof.
  induction s as [|a s IH].
  { rewrite app_nil. simpl. by destruct (cut ":" t) as [[l r]|]. }
  rewrite app_cons, !cut_colon, IH. destruct (bool_decide _); [done|].
  destruct (cut ":" s) as [[l r]|]; [done|]. by destruct (cut ":" t) as [[l r]|].
Qed.
Lemma isSafeURL_path base path : isSafeURL base = true -> isSafeURL (base +:+ "/" +:+ path) = true.
Proof.
  unfold isSafeURL. rewrite cut_colon_app. destruct (cut ":" base) as [[l r]|]; [done|]. intros _.
  change ("/" +:+ path) with (String "/" path). rewrite cut_colon.
  replace (bool_decide (":"%char = "/"%char)) with false by reflexivity.
  destruct (cut ":" path) as [[l r]|]; [|done]. cbn [mbind option_bind].
  rewrite Contains_skip; [done|]. by destruct l.
Qed.
Lemma voting_link_kept c e p k :
  plain_base (sc_WebpollURL c) = true ->
  apply_esc EscURL (voting_link c e p k) = voting_link c e p k /\
  apply_esc EscHTML (voting_link c e p k) = voting_link c e p k.
Proof.
  intros [Hp Hs]%andb_true_iff. unfold voting_link.
  assert (Ha : all_bytes plain_byte (sc_WebpollURL c +:+ "/" +:+ EncodeToString e +:+ "/" +:+
                 EncodeToString p +:+ "/" +:+ EncodeToString k) = true)
    by (by rewrite !all_bytes_app, Hp, !hex_plain).
  split; [apply plain_url; [exact Ha|by apply isSafeURL_path]|by apply plain_escape].
Qed.

(** C21: A voter that has an e-mail address and a private key gets exactly one
    message, to its address alone: the text shows the voting link, and the page
    has it, byte for byte, as the target of an anchor and as a text to copy
    (when the configured base URL is of plain bytes and of http or https). *)
Theorem voting_mail_links (s : SMTP) (o : Opt) (member : EphemeralMemberInfo) (entity : Entity)
    (processID privKey : bytes) :
  s_pool s = Some o -> plain_base (sc_WebpollURL (s_config s)) = true ->
  em_Email member <> "" -> em_PrivKey member = Some privKey -> privKey <> "" ->
  let link := voting_link (s_config s) (e_ID entity) processID privKey in
  exists mail, (forall st, SendVotingLink s member entity processID st = pool_Send mail st) /\
    ml_To mail = [Quote (em_FirstName member) +:+ " " +:+ Quote (em_LastName member)
                    +:+ " <" +:+ em_Email member +:+ ">"] /\
    (exists before after, ml_Text mail = before +:+ link +:+ after) /\
    (exists before after,
       ml_HTML mail = before +:+ quotes "<a href=`" +:+ link +:+ quotes "`>" +:+ after) /\
    (exists before after,
       ml_HTML mail = before +:+ "<pre><small>" +:+ link +:+ "</small></pre>" +:+ after).
Proof.
  intros Ho Hb He Hk Hne link. pose proof (SendVotingLink_sends s o member entity processID Ho) as H.
  cbv zeta in H. rewrite Hk in H. cbn [default from_option id] in H.
  rewrite bool_decide_eq_false_2 in H by (intros [?|?]; done).
  destruct H as (mail & Hrun & Hto & _ & Ht & H1 & H2). fold link in Ht, H1, H2.
  destruct (voting_link_kept (s_config s) (e_ID entity) processID privKey Hb) as [K1 K2].
  fold link in K1, K2. rewrite K1 in H1. rewrite K2 in H2. by exists mail.
Qed.

(* A validation e-mail: with a started pool, a member that has an address
    gets exactly one message, addressed to the member alone, which shows the
    validation link; without one nothing is sent. *)
Lemma SendValidationLink_sends (s : SMTP) (o : Opt) (member : Member) (entity : Entity) :
  s_pool s = Some o ->
  let info := m_Info member in
  if bool_decide (mi_Email info = "") then
    exists err, forall st, SendValidationLink s member entity st = (Err err, st)
  else
    exists mail, (forall st, SendValidationLink s member entity st = pool_Send mail st) /\
      ml_To mail = [Quote (mi_FirstName info) +:+ " " +:+ Quote (mi_LastName info)
                      +:+ " <" +:+ mi_Email info +:+ ">"] /\
      ml_Subject mail = "Participa en " +:+ ei_Name (e_Info entity) +:+ " con Vocdoni" /\
      shows_link (validation_link (s_config s) (e_ID entity) (m_ID member)) mail.
Proof.
  intros Hp info. unfold SendValidationLink. fold info.
  case_bool_decide as Hg; [by eexists|]. set (link := validation_link _ _ _).
  match goal with |- context [compose s ?ht ?tt ?d ?f ?l ?a] =>
    destruct (compose_sends s o ht tt validation_fields "ValidationLink" d f l a)
      as (mail & Hrun & Hto & Htxt & Hhtml & Hsubj);
    [exact Hp|exact validation_page_checks|reflexivity|vm_compute; reflexivity..|]
  end.
  exists mail. split; [exact Hrun|]. split; [exact Hto|]. split; [|split].
  - cbn in Hsubj. by injection Hsubj as <-.
  - by apply (Execute_shows _ _ "ValidationLink" link) in Htxt.
  - refine (page_shows_link _ _ _ validation_page_checks _ link _ _ Hhtml). reflexivity.
Qed.

(* without a pool nothing is sent: SendMail, and with it both senders, answers
    an error and reaches no server. *)
Lemma no_mail_without_pool (s : SMTP) (member : Member) (voter : EphemeralMemberInfo)
    (entity : Entity) (processID : bytes) (st : S) :
  s_pool s = None ->
  (exists e1, SendValidationLink s member entity st = (Err e1, st)) /\
  (exists e2, SendVotingLink s voter entity processID st = (Err e2, st)).
Proof.
  intros Hp. assert (Hc : forall ht tt d f l a, exists e, compose s ht tt d f l a st = (Err e, st)).
  { intros. unfold compose. do 7 (apply errorf_v_fails; intros ?). unfold SendMail. rewrite Hp.
    by eexists. }
  split; [unfold SendValidationLink|unfold SendVotingLink].
  - destruct (bool_decide _); [by eexists|apply Hc].
  - destruct (bool_decide _); [by eexists|]. destruct (_ =? 0)%Z; [by eexists|apply Hc].
Qed.
End properties.

(** C39: A link tells what it is for: two validation links are the same only for
    one member of one entity, two voting links only for one entity, process and
    private key. *)
Theorem links_unique {X : Ext} (HX : ExtLaws X) (c : SMTPConfig) (e e' p p' k k' : bytes) (i i' : uuid) :
  (validation_link c e i = validation_link c e' i' -> e = e' /\ i = i') /\
  (voting_link c e p k = voting_link c e' p' k' -> e = e' /\ p = p' /\ k = k').
Proof.
  unfold validation_link, voting_link. split; intros H%String.app_inj;
    change ("/" +:+ ?s) with (String "/" s) in H; injection H as H;
    change (String "/" ?s) with ("/" +:+ s) in H;
    apply slash_split in H as [He%EncodeToString_inj H]; try apply free_of_hex.
  - split; [done|]. apply (f_equal uuid_Parse) in H. rewrite !uuid_Parse_String in H. congruence.
  - apply slash_split in H as [Hp%EncodeToString_inj Hk%EncodeToString_inj]; try apply free_of_hex.
    done.
Qed.

(* the time a request waits for a connection is never the configured one:
    StartPool multiplies a duration in nanoseconds by a second again. For one to
    nine seconds the wait is a billion times too long, from ten on the product
    overflows: the default of 30 seconds gives a negative wait. *)
Lemma PoolWaitTimeout_wrong (c : SMTPConfig) (timeout : Z) :
  ParseDuration_s (sc_Timeout c) = inr timeout -> (0 < sc_Timeout c)%Z ->
  timeout = (sc_Timeout c * Second)%Z /\
  o_PoolWaitTimeout (pool_options c timeout) <> timeout /\
  ((sc_Timeout c <= 9)%Z -> o_PoolWaitTimeout (pool_options c timeout) = (timeout * Second)%Z) /\
  (sc_Timeout c = 30%Z -> o_PoolWaitTimeout (pool_options c timeout) = (-6893488147419103232)%Z).
Proof.
  unfold ParseDuration_s. destruct (Z.leb_spec (Z.abs (sc_Timeout c) * Second) (2 ^ 63 - 1)) as [Hb|];
    [|done]. intros [= <-] Hpos. simpl. unfold Second, int64 in *.
  set (n := sc_Timeout c) in *. assert (Hn : (0 < n < 2 ^ 34)%Z) by lia.
  split_and!; [done| |intros; rewrite Z.mod_small by lia; lia|intros ->; reflexivity].
  pose proof (int64_times_second (n * 1000000000) ltac:(lia)) as Hne. unfold int64 in Hne.
  rewrite Z.mul_comm. exact Hne.
Qed.

(** ** Witnesses: the messages sent, in memory *)

#[local] Existing Instance demo_ext.
#[local] Instance outbox : MailLib (list Email) := {|
  pool_New := fun o => if (o_MaxConns o <=? 0)%Z then inl (Errorf "invalid pool size") else inr tt;
  pool_Send := fun e st => (Ok tt, st ++ [e]);
  Quote := quoted;
|}.

Definition demo_smtp_config : SMTPConfig :=
  mkSMTPConfig "127.0.0.1" 587 "user" "password" 4 30 "https://v" "v@x" "Vocdoni" "c@x" "https://w".
Definition demo_smtp : SMTP :=
  match StartPool (New demo_smtp_config) with inr s => s | inl _ => New demo_smtp_config end.
Definition demo_org : Entity :=
  mkEntity zero_CreatedUpdated "e1" true (mkEntityInfo "" "" "o@x" "Org" "" 0 None [] false).

Lemma SendValidationLink_sends_witness :
  let m := mkMember zero_CreatedUpdated 5%N "e1" None
    (mkMemberInfo 0 "a@x" "Ann" "Bell" "" "" false 0 Token None None) in
  exists mail, (forall st, SendValidationLink demo_smtp m demo_org st = pool_Send mail st) /\
    ml_Subject mail = "Participa en Org con Vocdoni" /\
    exists before after, ml_Text mail = before +:+ "https://v/6531/101" +:+ after.
Proof.
  intros m.
  destruct (SendValidationLink_sends (L:=outbox) demo_smtp (pool_options demo_smtp_config (30 * Second))
    m demo_org eq_refl) as (mail & Hrun & _ & Hs & Ht & _).
  exists mail. split; [exact Hrun|]. split; [exact Hs|exact Ht].
Defined.

Lemma voting_mail_links_witness :
  let m := mkEphemeralMemberInfo 5 "Ann" "Bell" "a@x" (Some "k") None in
  exists mail, SendVotingLink demo_smtp m demo_org "p" [] = pool_Send mail [] /\
    exists before after, ml_HTML mail =
      before +:+ quotes "<a href=`https://w/6531/70/6b`>" +:+ after.
Proof.
  intros m. destruct (voting_mail_links (L:=outbox) demo_smtp (pool_options demo_smtp_config (30 * Second))
    m demo_org "p" "k" eq_refl eq_refl ltac:(discriminate) eq_refl ltac:(discriminate))
    as (mail & Hrun & _ & _ & (b & a & Hh) & _).
  exists mail. split; [exact (Hrun [])|]. exists b, a. exact Hh.
Defined.

Lemma links_unique_witness :
  validation_link demo_smtp_config "e1" 5 <> validation_link demo_smtp_config "e1" 6.
Proof.
  intros H. apply (links_unique demo_ext_laws demo_smtp_config "e1" "e1" "" "" "" "" 5 6) in H as [_ H].
  discriminate H.
Defined.

Lemma PoolWaitTimeout_wrong_witness :
  o_PoolWaitTimeout (pool_options demo_smtp_config (30 * Second)) <> (30 * Second)%Z.
Proof.
  destruct (PoolWaitTimeout_wrong demo_smtp_config (30 * Second)) as (_ & H & _);
    [reflexivity|reflexivity|exact H].
Defined.
