(* ===== verification/Mail.v ===== *)
(** * The goroutines of sendValidationLinks and sendVotingLinks (manager.go)

    One goroutine per e-mail reports on two channels of capacity n and counts
    down a WaitGroup; the handler waits for the group, closes the channels and
    reads them. The processes are the actions left to each goroutine and the
    phase of the handler; [step] interleaves them in every order. A panic in a
    goroutine (a send on a closed channel, a negative counter) ends the
    process. *)
From S2P Require Import Prelude GoLib Ext Types.

(* what a goroutine does once its e-mails are sent or refused *)
Inductive Action :=
| SendErr (e : gerror)  (* ec <- err *)
| SendID (i : uuid)     (* sc <- member.ID *)
| Done.                 (* wg.Done() *)

(* the handler: wg.Wait(), close(ec), close(sc), then it has read the channels *)
Inductive Phase := Waiting | ClosingEc | ClosingSc | Received.
#[export] Instance Phase_eq_dec : EqDecision Phase.
Proof. solve_decision. Defined.

Record Group := mkGroup {
  g_progs : list (list Action);
  g_counter : Z;
  g_ec : list gerror;
  g_sc : list uuid;
  g_cap : nat;
  g_phase : Phase;
  g_panic : option string;
}.

Definition set_progs (l : list (list Action)) (g : Group) : Group :=
  mkGroup l (g_counter g) (g_ec g) (g_sc g) (g_cap g) (g_phase g) (g_panic g).
Definition set_counter (z : Z) (g : Group) : Group :=
  mkGroup (g_progs g) z (g_ec g) (g_sc g) (g_cap g) (g_phase g) (g_panic g).
Definition set_ec (l : list gerror) (g : Group) : Group :=
  mkGroup (g_progs g) (g_counter g) l (g_sc g) (g_cap g) (g_phase g) (g_panic g).
Definition set_sc (l : list uuid) (g : Group) : Group :=
  mkGroup (g_progs g) (g_counter g) (g_ec g) l (g_cap g) (g_phase g) (g_panic g).
Definition set_phase (p : Phase) (g : Group) : Group :=
  mkGroup (g_progs g) (g_counter g) (g_ec g) (g_sc g) (g_cap g) p (g_panic g).
Definition set_panic (msg : string) (g : Group) : Group :=
  mkGroup (g_progs g) (g_counter g) (g_ec g) (g_sc g) (g_cap g) (g_phase g) (Some msg).

Definition ec_closed (p : Phase) : bool :=
  match p with Waiting | ClosingEc => false | ClosingSc | Received => true end.
Definition sc_closed (p : Phase) : bool :=
  match p with Received => true | _ => false end.

Definition closed_channel : string := "send on closed channel".
Definition negative_counter : string := "sync: negative WaitGroup counter".

(* None: the send blocks on a full channel *)
Definition perform (a : Action) (g : Group) : option Group :=
  match a with
  | SendErr e =>
      if ec_closed (g_phase g) then Some (set_panic closed_channel g)
      else if length (g_ec g) <? g_cap g then Some (set_ec (g_ec g ++ [e]) g) else None
  | SendID i =>
      if sc_closed (g_phase g) then Some (set_panic closed_channel g)
      else if length (g_sc g) <? g_cap g then Some (set_sc (g_sc g ++ [i]) g) else None
  | Done =>
      if (g_counter g - 1 <? 0)%Z then Some (set_panic negative_counter g)
      else Some (set_counter (g_counter g - 1) g)
  end.

(* a step of the i-th goroutine *)
Definition goroutine (g : Group) (i : nat) : option Group :=
  match g_progs g !! i with
  | Some (a :: p) => set_progs (<[i := p]> (g_progs g)) <$> perform a g
  | _ => None
  end.

(* a step of the handler *)
Definition handler (g : Group) : option Group :=
  match g_phase g with
  | Waiting => if (g_counter g =? 0)%Z then Some (set_phase ClosingEc g) else None
  | ClosingEc => Some (set_phase ClosingSc g)
  | ClosingSc => Some (set_phase Received g)
  | Received => None
  end.

(* the states the group may be in after one step *)
Definition steps (g : Group) : list Group :=
  match g_panic g with
  | Some _ => []
  | None => omap (goroutine g) (seq 0 (length (g_progs g))) ++ option_list (handler g)
  end.
Definition step (g g' : Group) : Prop := g' ∈ steps g.
Abbreviation runs := (rtc step).

(* wg.Add(n), make(chan _, n) and the go statements *)
Definition start (progs : list (list Action)) : Group :=
  mkGroup progs (Z.of_nat (length progs)) [] [] (length progs) Waiting None.

(** ** Running a group along a schedule *)

Definition rank (p : Phase) : nat :=
  match p with Waiting => 3 | ClosingEc => 2 | ClosingSc => 1 | Received => 0 end.
Definition pending (l : list (list Action)) : nat := sum_list_with length l.
Definition measure (g : Group) : nat := pending (g_progs g) + rank (g_phase g).

(* the handler has its results, or the process is gone *)
Definition settled (g : Group) : bool :=
  bool_decide (g_panic g <> None) || sc_closed (g_phase g).

(* the scheduler picks the next step by the schedule's next number *)
Fixpoint drive (fuel : nat) (schedule : list nat) (g : Group) : Group :=
  match fuel with
  | 0 => g
  | S fuel =>
      if settled g then g else
      match steps g with
      | [] => g
      | g' :: l =>
          drive fuel (tail schedule)
            (nth (default 0 (head schedule) mod S (length l)) (g' :: l) g')
      end
  end.

(** ** The programs of the two handlers *)

(* the error of the i-th e-mail, if it was refused; [validated]: the error for
   a member who already has a key. A [return] is missing after each report, so
   the goroutine goes on to report success. *)
Definition reports (validated failed : option gerror) (i : uuid) : list Action :=
  match validated with Some e => [SendErr e; Done] | None => [] end ++
  match failed with Some e => [SendErr e; Done] | None => [] end ++
  [SendID i; Done].

(** ** Counting actions *)

Definition is_done (a : Action) : bool := match a with Done => true | _ => false end.
Definition dones (p : list Action) : nat := length (filter (fun a => is_done a = true) p).
Definition errs_of (p : list Action) : list gerror :=
  omap (fun a => match a with SendErr e => Some e | _ => None end) p.
Definition ids_of (p : list Action) : list uuid :=
  omap (fun a => match a with SendID i => Some i | _ => None end) p.

(* every send is followed by its Done *)
Fixpoint paired (p : list Action) : Prop :=
  match p with
  | [] => True
  | (SendErr _ | SendID _) :: Done :: p => paired p
  | _ => False
  end.
(* the same with a Done still due at the head *)
Definition suffix_of_paired (p : list Action) : Prop :=
  paired p \/ exists q, p = Done :: q /\ paired q.

Definition total_dones (l : list (list Action)) : nat := sum_list_with dones l.
Definition all_errs (l : list (list Action)) : list gerror := concat (map errs_of l).
Definition all_ids (l : list (list Action)) : list uuid := concat (map ids_of l).

Lemma reports_paired v f i : paired (reports v f i).
Proof. by destruct v, f. Qed.

(* what an action adds to the counts *)
Lemma count_step l i a p :
  l !! i = Some (a :: p) ->
  total_dones l = dones [a] + total_dones (<[i := p]> l) /\
  all_errs l ≡ₚ errs_of [a] ++ all_errs (<[i := p]> l) /\
  all_ids l ≡ₚ ids_of [a] ++ all_ids (<[i := p]> l) /\
  pending l = S (pending (<[i := p]> l)).
Proof.
  unfold total_dones, all_errs, all_ids, pending.
  revert i. induction l as [|q l IH]; intros [|i] Hi; simpl in *; try done.
  - injection Hi as ->. destruct a; simpl; unfold dones; simpl; split_and!; try done; lia.
  - destruct (IH i Hi) as (H1 & H2 & H3 & H4). rewrite H1, H2, H3, H4. split_and!; try lia.
    + rewrite !app_assoc. by rewrite (Permutation_app_comm (errs_of q)).
    + rewrite !app_assoc. by rewrite (Permutation_app_comm (ids_of q)).
Qed.

Lemma paired_counts p : paired p -> dones p = length (errs_of p) + length (ids_of p).
Proof.
  revert p. fix IH 1. intros [|a [|b p]]; [done|by destruct a|].
  destruct a, b; simpl; try done; intros H; unfold dones in *; simpl;
    specialize (IH p H); unfold dones in IH; simpl in IH; lia.
Qed.

Lemma paired_total l :
  Forall paired l -> total_dones l = length (all_errs l) + length (all_ids l).
Proof.
  unfold total_dones, all_errs, all_ids.
  induction 1 as [|p l Hp _ IH]; simpl; [done|]. rewrite !length_app, paired_counts by done. lia.
Qed.

Lemma paired_tail a p : paired (a :: p) -> exists q, p = Done :: q /\ paired q.
Proof. destruct a, p as [|[] p]; simpl; try done; eauto. Qed.

Lemma suffix_tail a p : suffix_of_paired (a :: p) -> suffix_of_paired p.
Proof.
  intros [H%paired_tail|(q & [= -> ->] & H)]; [|by left].
  right. done.
Qed.

(** ** The invariant of a run *)

Record Inv (l0 : list (list Action)) (g : Group) : Prop := {
  inv_cap : g_cap g = length l0;
  inv_progs : Forall suffix_of_paired (g_progs g);
  inv_counter : g_counter g =
    (Z.of_nat (length l0) + Z.of_nat (total_dones (g_progs g)) - Z.of_nat (total_dones l0))%Z;
  inv_nonneg : (0 <= g_counter g)%Z;
  inv_phase : g_phase g <> Waiting -> g_counter g = 0%Z;
  inv_sc : g_sc g ++ all_ids (g_progs g) ≡ₚ all_ids l0;
  inv_ec : g_ec g ++ all_errs (g_progs g) ≡ₚ all_errs l0;
}.
Definition alive_inv (l0 : list (list Action)) (g : Group) : Prop :=
  g_panic g = None -> Inv l0 g.

Lemma start_inv l0 : Forall paired l0 -> alive_inv l0 (start l0).
Proof.
  intros H _. split; simpl; try done; try lia.
  eapply Forall_impl; [done|]. intros p Hp. by left.
Qed.

Lemma steps_cases g g' :
  step g g' -> g_panic g = None /\
  ((exists i, goroutine g i = Some g') \/ handler g = Some g').
Proof.
  unfold step, steps. destruct (g_panic g); [by intros ?%not_elem_of_nil|].
  intros [Hg|Hh]%elem_of_app; (split; [done|]).
  - apply list_elem_of_omap in Hg as (i & _ & Hg). eauto.
  - right. destruct (handler g); simpl in Hh; set_solver.
Qed.

Lemma goroutine_cases g i g' :
  goroutine g i = Some g' ->
  exists a p g1, g_progs g !! i = Some (a :: p) /\ perform a g = Some g1 /\
    g' = set_progs (<[i := p]> (g_progs g)) g1.
Proof.
  unfold goroutine. destruct (g_progs g !! i) as [[|a p]|]; try done.
  intros (g1 & Hg1 & ->)%fmap_Some. eauto 10.
Qed.

Lemma perform_inv l0 g i a p g1 :
  Inv l0 g -> g_progs g !! i = Some (a :: p) -> perform a g = Some g1 ->
  alive_inv l0 (set_progs (<[i := p]> (g_progs g)) g1).
Proof.
  intros [Hcap Hwf Hc Hn Hp Hsc Hec] Hi Hperf Halive.
  destruct (count_step _ _ _ _ Hi) as (Hd & He & Hs & _).
  assert (Hwf' : Forall suffix_of_paired (<[i := p]> (g_progs g))).
  { apply Forall_insert; [done|]. apply (suffix_tail a). by eapply Forall_lookup_1. }
  destruct a as [e|u|]; simpl in Hperf.
  - destruct (ec_closed _); simplify_eq/=.
    destruct (_ <? _); simplify_eq/=. split; simpl; try done.
    + rewrite Hc, Hd. unfold dones. simpl. lia.
    + by rewrite <- Hs.
    + rewrite <- app_assoc, <- Hec, He. done.
  - destruct (sc_closed _); simplify_eq/=.
    destruct (_ <? _); simplify_eq/=. split; simpl; try done.
    + rewrite Hc, Hd. unfold dones. simpl. lia.
    + rewrite <- app_assoc, <- Hsc, Hs. done.
    + by rewrite <- He.
  - destruct (Z.ltb_spec (g_counter g - 1) 0); simplify_eq/=.
    unfold dones in Hd. simpl in *. split; simpl; try done; try lia.
    + intros Hph. specialize (Hp Hph). lia.
    + by rewrite <- Hs.
    + by rewrite <- He.
Qed.

Lemma handler_inv l0 g g' : Inv l0 g -> handler g = Some g' -> alive_inv l0 g'.
Proof.
  intros [Hcap Hwf Hc Hn Hp Hsc Hec] Hh _. unfold handler in Hh.
  destruct (g_phase g) eqn:E; simplify_eq/=;
    [destruct (Z.eqb_spec (g_counter g) 0); simplify_eq/=|..];
    split; simpl; try done; intros _; by apply Hp.
Qed.

Lemma step_inv l0 g g' : alive_inv l0 g -> step g g' -> alive_inv l0 g'.
Proof.
  intros HI (Hn & [[i Hg]|Hh])%steps_cases; [|eauto using handler_inv].
  apply goroutine_cases in Hg as (a & p & g1 & Hi & Hp & ->). eauto using perform_inv.
Qed.

Lemma runs_inv l0 g g' : runs g g' -> alive_inv l0 g -> alive_inv l0 g'.
Proof. induction 1; eauto using step_inv. Qed.

(** ** Termination and progress *)

Lemma perform_progs a g g1 :
  perform a g = Some g1 -> g_progs g1 = g_progs g /\ g_phase g1 = g_phase g.
Proof.
  destruct a; simpl; repeat (destruct (_ : bool)); intros; simplify_eq/=; done.
Qed.

Lemma step_measure g g' : step g g' -> measure g' < measure g.
Proof.
  intros (Hn & [[i Hg]|Hh])%steps_cases; unfold measure.
  - apply goroutine_cases in Hg as (a & p & g1 & Hi & Hp & ->).
    apply count_step in Hi as (_ & _ & _ & ->). apply perform_progs in Hp as [_ Hp].
    simpl. rewrite Hp. lia.
  - unfold handler in Hh. destruct (g_phase g) eqn:E; simplify_eq/=;
      [destruct (_ =? _)%Z; simplify_eq/=|..]; rewrite ?E; simpl; lia.
Qed.

Lemma no_steps g :
  g_panic g = None -> steps g = [] ->
  handler g = None /\ forall i, goroutine g i = None.
Proof.
  unfold steps. intros -> [H1 H2]%app_eq_nil. split.
  { by destruct (handler g). }
  intros i. destruct (goroutine g i) as [g'|] eqn:E; [|done].
  assert (g' ∈ omap (goroutine g) (seq 0 (length (g_progs g)))) as Hin;
    [|rewrite H1 in Hin; by apply not_elem_of_nil in Hin].
  apply list_elem_of_omap. exists i. split; [|done]. apply elem_of_seq. split; [lia|].
  apply goroutine_cases in E as (a & p & g1 & Hi & _). by apply lookup_lt_Some in Hi.
Qed.

(* a program that cannot move is over or blocked on a full, open channel *)
Lemma stuck_program g i p :
  g_progs g !! i = Some p -> goroutine g i = None ->
  p = [] \/ (g_phase g <> Received /\ (forall q, p <> Done :: q) /\
             (g_cap g <= length (g_ec g) \/ g_cap g <= length (g_sc g))).
Proof.
  unfold goroutine. intros ->. destruct p as [|a p]; [by left|].
  intros Hp%fmap_None. right. destruct a; simpl in Hp.
  - destruct (ec_closed _) eqn:E, (Nat.ltb_spec (length (g_ec g)) (g_cap g)); try done.
    split_and!; [by intros Hr; rewrite Hr in E|done|by left].
  - destruct (sc_closed _) eqn:E, (Nat.ltb_spec (length (g_sc g)) (g_cap g)); try done.
    split_and!; [by intros Hr; rewrite Hr in E|done|by right].
  - by destruct (_ <? _)%Z.
Qed.

Lemma Forall_nil_counts (l : list (list Action)) :
  Forall (.= []) l -> total_dones l = 0 /\ all_ids l = [] /\ all_errs l = [].
Proof.
  unfold total_dones, all_ids, all_errs.
  induction 1 as [|p l -> _ (IH1 & IH2 & IH3)]; simpl; [done|]. by rewrite IH1, IH2, IH3.
Qed.

(* no deadlock: a group that cannot move is over *)
Lemma stuck_is_over l0 g :
  Forall paired l0 -> length l0 <= total_dones l0 -> Inv l0 g ->
  g_panic g = None -> steps g = [] ->
  g_phase g = Received /\ Forall (.= []) (g_progs g).
Proof.
  intros Hl0 Hlen HI Hn [Hh Hg]%no_steps; [|done].
  assert (Hstuck : forall i p, g_progs g !! i = Some p -> _)
    by (intros i p Hi; exact (stuck_program g i p Hi (Hg i))).
  destruct (decide (g_phase g = Received)) as [Hr|Hr].
  { split; [done|]. apply Forall_lookup. intros i p Hi.
    destruct (Hstuck i p Hi) as [|[? _]]; [done|done]. }
  (* still waiting: the count is positive, every report was followed by Done *)
  exfalso. unfold handler in Hh. destruct (g_phase g); try done.
  destruct (Z.eqb_spec (g_counter g) 0) as [|Hc]; [done|].
  destruct HI as [Hcap Hwf Hcount Hpos _ Hsc Hec].
  assert (Hpaired : Forall paired (g_progs g)).
  { apply Forall_lookup. intros i p Hi.
    destruct (Forall_lookup_1 _ _ _ _ Hwf Hi) as [|(q & -> & _)]; [done|].
    destruct (Hstuck i _ Hi) as [|(_ & Hq & _)]; [done|by destruct (Hq q)]. }
  pose proof (paired_total _ Hl0) as T0. pose proof (paired_total _ Hpaired) as T1.
  apply Permutation_length in Hsc, Hec. rewrite length_app in Hsc, Hec.
  assert (Hnil : Forall (.= []) (g_progs g)).
  { apply Forall_lookup. intros i p Hi.
    destruct (Hstuck i p Hi) as [|(_ & _ & [Hf|Hf])]; [done|lia..]. }
  apply Forall_nil_counts in Hnil as (Hd & _ & _). lia.
Qed.

(* when nothing was refused, no step panics *)
Lemma success_step l0 g g' :
  total_dones l0 = length l0 -> Inv l0 g -> step g g' -> g_panic g' = None.
Proof.
  intros Hlen [Hcap Hwf Hc Hpos Hph _ _] (Hn & [[i Hg]|Hh])%steps_cases.
  - apply goroutine_cases in Hg as (a & p & g1 & Hi & Hp & ->). simpl.
    destruct (count_step _ _ _ _ Hi) as (Hd & _).
    assert (Hone : 1 <= total_dones (g_progs g)).
    { rewrite Hd. destruct (Forall_lookup_1 _ _ _ _ Hwf Hi) as [Hq|(q & [= -> ->] & _)].
      - apply paired_tail in Hq as (q & -> & _).
        assert (Hi' : <[i := Done :: q]> (g_progs g) !! i = Some (Done :: q))
          by (apply list_lookup_insert_eq; by apply lookup_lt_Some in Hi).
        apply count_step in Hi' as [-> _]. unfold dones. simpl. lia.
      - unfold dones. simpl. lia. }
    assert (Hw : g_phase g = Waiting).
    { destruct (decide (g_phase g = Waiting)) as [|Hw]; [done|]. specialize (Hph Hw). lia. }
    destruct a; simpl in Hp; rewrite ?Hw in Hp; simpl in Hp.
    + by destruct (_ <? _); simplify_eq/=.
    + by destruct (_ <? _); simplify_eq/=.
    + destruct (Z.ltb_spec (g_counter g - 1) 0); [lia|]. by simplify_eq/=.
  - unfold handler in Hh. destruct (g_phase g); simplify_eq/=; try done.
    by destruct (_ =? _)%Z; simplify_eq/=.
Qed.

Lemma success_runs l0 g :
  Forall paired l0 -> total_dones l0 = length l0 -> runs (start l0) g ->
  g_panic g = None /\ Inv l0 g.
Proof.
  intros Hp Hlen Hr.
  assert (H0 : g_panic (start l0) = None /\ Inv l0 (start l0)).
  { split; [done|]. by apply start_inv. }
  revert H0. generalize (start l0) Hr. clear Hr. induction 1 as [g|g1 g2 g3 H12 _ IH]; [done|].
  intros [Hn HI]. apply IH. pose proof (success_step _ _ _ Hlen HI H12) as Hn2.
  split; [done|]. by apply (step_inv l0 g1 g2 (fun _ => HI) H12).
Qed.

(** ** The e-mails of a handler: the error for a member with a key, the error of
    the mail server, the member's id *)
Abbreviation Report := (option gerror * option gerror * uuid)%type.
Definition programs (rs : list Report) : list (list Action) :=
  map (fun r => reports r.1.1 r.1.2 r.2) rs.
Definition refused (r : Report) : bool :=
  match r with (None, None, _) => false | _ => true end.

Lemma programs_paired rs : Forall paired (programs rs).
Proof. apply Forall_map, Forall_true. intros. apply reports_paired. Qed.

Lemma programs_dones rs :
  length rs <= total_dones (programs rs) /\
  (existsb refused rs = true <-> length rs < total_dones (programs rs)).
Proof.
  unfold total_dones, programs. induction rs as [|[[v f] i] rs [IH1 IH2]]; simpl; [lia|].
  assert (Hd : dones (reports v f i) =
    1 + (if v is Some _ then 1 else 0) + (if f is Some _ then 1 else 0)) by (destruct v, f; done).
  rewrite Hd. destruct v, f; simpl; (split; [lia|split; [|done || intros; apply IH2; lia]]);
    try lia. intros He%IH2. lia.
Qed.

Lemma programs_ids rs : all_ids (programs rs) = map snd rs.
Proof.
  unfold all_ids, programs. induction rs as [|[[v f] i] rs IH]; simpl; [done|].
  rewrite IH. by destruct v, f.
Qed.

Lemma programs_no_errs rs : existsb refused rs = false -> all_errs (programs rs) = [].
Proof.
  unfold all_errs, programs. induction rs as [|[[[v|] [f|]] i] rs IH]; simpl; try done.
Qed.

Lemma programs_length rs : length (programs rs) = length rs.
Proof. apply length_map. Qed.

Lemma drive_settled l0 fuel schedule g :
  Forall paired l0 -> length l0 <= total_dones l0 -> alive_inv l0 g -> measure g <= fuel ->
  runs g (drive fuel schedule g) /\ settled (drive fuel schedule g) = true.
Proof.
  intros Hp Hlen. revert schedule g. induction fuel as [|fuel IH]; intros schedule g HI Hf; cbn [drive].
  - split; [done|]. unfold settled, measure in *. destruct (g_phase g); simpl in *; try lia.
  - destruct (settled g) eqn:Es; [by split|].
    destruct (g_panic g) eqn:En; [by unfold settled in Es; rewrite En in Es|].
    destruct (steps g) as [|g1 l] eqn:El.
    + apply (stuck_is_over l0) in El as [Hr _]; [|done|done|by apply HI|done].
      unfold settled in Es. rewrite Hr, orb_true_r in Es. done.
    + set (n := _ mod _). set (g' := nth n (g1 :: l) g1).
      assert (Hg : step g g').
      { unfold step. rewrite El. apply list_elem_of_In, nth_In. unfold n.
        apply Nat.mod_upper_bound. done. }
      pose proof (step_measure _ _ Hg) as Hm.
      destruct (IH (tail schedule) g') as [Hr Hs]; [by apply (step_inv l0 g)|lia|].
      split; [|done]. by apply (rtc_l _ _ g').
Qed.

(** ** Properties *)

(* the group of a handler, started on the reports of its e-mails *)
Definition started (rs : list Report) : Group := start (programs rs).

Lemma success_results (rs : list Report) (g : Group) :
  existsb refused rs = false -> runs (started rs) g ->
  g_panic g = None /\
  (steps g = [] -> g_phase g = Received) /\
  (g_phase g = Received -> g_sc g ≡ₚ map snd rs /\ g_ec g = []).
Proof.
  intros Hok Hr. destruct (programs_dones rs) as [Hle Hiff].
  assert (Hlen : total_dones (programs rs) = length (programs rs)).
  { rewrite programs_length. destruct (decide (length rs < total_dones (programs rs))); [|lia].
    rewrite (proj2 Hiff) in Hok; done. }
  destruct (success_runs (programs rs) g (programs_paired rs) Hlen Hr) as [Hn HI].
  split; [done|]. split.
  - intros Hs. apply (stuck_is_over (programs rs)); [apply programs_paired|lia|done..].
  - intros Hrec. destruct HI as [_ Hwf Hc _ Hph Hsc Hec].
    rewrite Hrec in Hph. specialize (Hph ltac:(done)).
    assert (Hnil : total_dones (g_progs g) = 0) by lia.
    assert (Hids : all_ids (g_progs g) = [] /\ all_errs (g_progs g) = []).
    { revert Hwf Hnil. generalize (g_progs g). clear.
      unfold total_dones, all_ids, all_errs. intros l. induction 1 as [|p l Hp _ IH]; simpl; [done|].
      intros Hz. destruct IH as [-> ->]; [lia|].
      destruct Hp as [Hp|(q & -> & _)]; [|unfold dones in Hz; simpl in Hz; lia].
      apply paired_counts in Hp. destruct (errs_of p), (ids_of p); simpl in *; done || lia. }
    destruct Hids as [Hi He]. rewrite Hi, app_nil_r, programs_ids in Hsc.
    rewrite He, app_nil_r, programs_no_errs in Hec by done.
    split; [done|]. by apply Permutation_nil_r in Hec.
Qed.

Lemma nsteps_measure (g g' : Group) (k : nat) : nsteps step k g g' -> k <= measure g.
Proof.
  induction 1 as [g|k g1 g2 g3 H _ IH]; [lia|]. apply step_measure in H. lia.
Qed.

(** C25: The handlers that send e-mails never hang. Whatever e-mails are refused
    and whatever the order of the steps, a run takes at most as many steps as
    the goroutines have actions and three more for the handler; and where no
    step is left, either a goroutine has panicked, or the handler has read its
    channels and every goroutine has ended: no send stays blocked on a full
    channel, and wg.Wait() does not wait for ever. *)
Theorem mail_terminates (rs : list Report) (g : Group) (k : nat) :
  nsteps step k (started rs) g ->
  k <= pending (programs rs) + 3 /\
  (steps g = [] ->
     g_panic g <> None \/ g_phase g = Received /\ Forall (.= []) (g_progs g)).
Proof.
  intros Hk. split; [exact (nsteps_measure _ _ _ Hk)|]. intros Hs.
  destruct (g_panic g) eqn:Hp; [by left|right].
  apply (stuck_is_over (programs rs)); [apply programs_paired| |..|done|done].
  - rewrite programs_length. apply programs_dones.
  - apply (runs_inv (programs rs) (started rs)); [by eapply rtc_nsteps_2| |done].
    apply start_inv, programs_paired.
Qed.

(** C24: When no e-mail is refused, the handler gets its results in every order
    of the steps: no goroutine panics, nothing deadlocks, and when the handler
    has read the channels it has every member exactly once and no error. *)
Theorem mail_success (rs : list Report) (g : Group) :
  existsb refused rs = false -> runs (started rs) g ->
  g_panic g = None /\
  (steps g = [] -> g_phase g = Received) /\
  (g_phase g = Received -> g_sc g ≡ₚ map snd rs /\ g_ec g = []).
Proof. apply success_results. Qed.

(** C23: When a single e-mail is refused, the process dies: a [return] is missing
    after the report of the error, so the goroutine goes on to report success
    and calls wg.Done() twice; a group of goroutines that cannot move any more
    has panicked, whatever the order of its steps. *)
Theorem mail_failure_crashes (rs : list Report) (g : Group) :
  existsb refused rs = true -> runs (started rs) g -> steps g = [] -> g_panic g <> None.
Proof.
  intros Hf Hr Hs Hn. destruct (programs_dones rs) as [Hle [Hlt _]]. specialize (Hlt Hf).
  assert (HI : Inv (programs rs) g).
  { apply (runs_inv _ _ _ Hr); [|done]. apply start_inv, programs_paired. }
  destruct (stuck_is_over (programs rs) g) as [_ Hnil]; try done.
  { apply programs_paired. }
  { by rewrite programs_length. }
  apply Forall_nil_counts in Hnil as (Hd & _). destruct HI as [_ _ Hc Hpos _ _ _].
  rewrite programs_length in Hc. lia.
Qed.

(** ** Witnesses *)

(* one e-mail that is not refused, to the end *)
Definition quiet_group (n : nat) : Group := drive n [] (started [(None, None, 11%N)]).

Lemma mail_terminates_witness :
  5 <= pending (programs [(None, None, 11%N)]) + 3 /\
  (g_panic (quiet_group 5) <> None \/
   g_phase (quiet_group 5) = Received /\ Forall (.= []) (g_progs (quiet_group 5))).
Proof.
  destruct (mail_terminates [(None, None, 11%N)] (quiet_group 5) 5) as [Hk Hs].
  - apply (nsteps_l step _ _ (quiet_group 1)); [vm_compute; left|].
    apply (nsteps_l step _ _ (quiet_group 2)); [vm_compute; left|].
    apply (nsteps_l step _ _ (quiet_group 3)); [vm_compute; left|].
    apply (nsteps_l step _ _ (quiet_group 4)); [vm_compute; left|].
    apply (nsteps_l step _ _ (quiet_group 5)); [vm_compute; left|constructor].
  - split; [exact Hk|]. apply Hs. vm_compute. reflexivity.
Defined.

Lemma drive_runs rs fuel schedule :
  measure (started rs) <= fuel -> runs (started rs) (drive fuel schedule (started rs)).
Proof.
  intros Hf. apply (drive_settled (programs rs)); [apply programs_paired| |
    apply start_inv, programs_paired|done].
  rewrite programs_length. apply programs_dones.
Qed.

Lemma mail_success_witness :
  let rs := [(None, None, 11%N); (None, None, 12%N)] in
  let g := drive 20 [1; 1; 0; 0; 0; 0; 0] (started rs) in
  g_sc g = [12%N; 11%N] /\ g_sc g ≡ₚ map snd rs.
Proof.
  intros rs g. split; [vm_compute; reflexivity|].
  assert (Hr : runs (started rs) g) by (apply drive_runs; vm_compute; lia).
  destruct (mail_success rs g eq_refl Hr) as (_ & _ & H).
  apply H. vm_compute. reflexivity.
Defined.

(* the process dies; under another schedule the handler had its results before *)
Lemma mail_failure_crashes_witness :
  let rs := [(None, Some (Errorf "invalid member email"), 12%N)] in
  g_panic (drive 20 [] (started rs)) <> None /\
  g_phase (drive 20 [0; 0; 0; 1; 1; 1] (started rs)) = Received.
Proof.
  intros rs. split; [|vm_compute; reflexivity].
  assert (Hr : runs (started rs) (drive 20 [] (started rs))) by (apply drive_runs; vm_compute; lia).
  apply (mail_failure_crashes rs); [reflexivity|exact Hr|vm_compute; reflexivity].
Defined.
