(* ===== verification/Manager.v ===== *)
(** * manager: the API of the entities (manager/manager.go, manager/api.go)

    Every handler recovers the identifier of the entity from the key that
    signed the request and works on that entity only. Logging is left out. *)
From S2P Require Import Prelude GoLib Ext Util Types Schema SchemaOk Session Tenant PgTypes.
From S2P Require Import PgEntities PgQueries PgCensus PgOps Database Mail.

(* the exported fields of types.CensusInfo with their db tags *)
Definition CensusInfo_fields : list (string * string) :=
  [("CreatedUpdated", ""); ("CreatedAt", "created_at"); ("UpdatedAt", "updated_at");
   ("Name", "name"); ("MerkleRoot", "merkle_root"); ("MerkleTreeURI", "merkle_tree_uri");
   ("Size", "size"); ("Ephemeral", "ephemeral"); ("ProcessID", "process_id")].

(* strings.Contains(err.Error(), s) *)
Definition error_contains (err : gerror) (s : string) : bool := Contains (error_string err) s.

(* len of a pointer to a UUID is the length of the array, also when it is nil *)
Definition len_UUID (_ : option uuid) : Z := 16.

(* the checks of sortBy and order against the fields of the listed type *)
Definition checkSort (t : list (string * string)) (f : ListOptions) : gerror + unit :=
  if (0 <? len (lo_SortBy f))%Z then
    match FieldByName t (Title (lo_SortBy f)) with
    | None => inl (Errorf "invalid filter field")
    | Some _ =>
        match ToOrderBySQLi (lo_SortBy f) with
        | UnknownColumn =>
            inl (Errorf ("invalid sort by field on query: " +:+ lo_SortBy f))
        | _ =>
            if (0 <? len (lo_Order f))%Z &&
               negb (bool_decide (lo_Order f = "ascend") || bool_decide (lo_Order f = "descend"))
            then inl (Errorf "invalid filter order") else inr tt
        end
    end
  else if (0 <? len (lo_Order f))%Z then inl (Errorf "invalid filter order") else inr tt.

Definition checkOptions (filter : option ListOptions) (method : string) : gerror + unit :=
  match filter with
  | None => inr tt
  | Some f =>
      if (lo_Skip f <? 0)%Z || (lo_Count f <? 0)%Z then inl (Errorf "invalid skip/count")
      else if bool_decide (method = "listMembers") then checkSort MemberInfo_fields f
      else if bool_decide (method = "listCensus") then checkSort CensusInfo_fields f
      else inl (Errorf "invalid method")
  end.

Section manager.
Context {X : Ext} {S : Type} {DB : Database S} {H : Host S}.

(* the length of the key and the identifier of its entity *)
Definition entityOf (pubKey : bytes) (msg : string) : M S bytes :=
  fail_if! negb (len pubKey =? PubKeyLengthBytes)%Z with Errorf "invalid public key" in
  onErr (liftE (PubKeyToEntityID pubKey)) (fun _ => Errorf msg).
Definition requireEntityID (request : APIrequest) : M S bytes :=
  entityOf (rq_SignaturePublicKey request) "cannot recover entityID".

Definition decodeCensusID (request : APIrequest) : M S bytes :=
  onErr (liftE (DecodeCensusID (rq_CensusID request) (rq_SignaturePublicKey request)))
    (fun _ => Errorf "cannot decode census id").

(* if err == sql.ErrNoRows { missing } else { failed } *)
Definition missing_or (missing failed : string) (err : gerror) : gerror :=
  if bool_decide (err = ErrNoRows) then Errorf missing else Errorf failed.

(** ** Entities *)

Definition signUp_info (entityID : bytes) (e : option EntityInfo) : EntityInfo :=
  match e with
  | None => mkEntityInfo "" "" "" "" "" 0 (Some [entityID]) [Token] false
  | Some e => mkEntityInfo "" "" (ei_Email e) (ei_Name e) (ei_Type e) (ei_Size e)
                (Some [entityID]) [Token] (ei_Consented e)
  end.

(* the faucet: "maxAcceptedBalance" is not an error of signUp; what was sent
   is zero then *)
Definition signUp_tokens (entityID : bytes) : M S Z :=
  match host_SendTokens with
  | None => retM 0%Z
  | Some SendTokens =>
      let! r := tryM (SendTokens entityID 0%Z 0%Z) in
      match r with
      | inl err =>
          if negb (error_contains err "maxAcceptedBalance")
          then failM (Errorf ("could not send tokens to " +:+ AddressString entityID))
          else retM 0%Z
      | inr sent => retM (int64 sent)
      end
  end.

Definition signUp (request : APIrequest) : M S APIresponse :=
  let! entityID := requireEntityID request in
  let! r := tryM (db_AddEntity entityID (signUp_info entityID (rq_Entity request))) in
  fail_if! match r with inl err => negb (error_contains err "entities_pkey") | inr _ => false end
    with Errorf "cannot add entity to the DB" in
  let target := mkTarget zero_CreatedUpdated uuid_Nil entityID "all" "{}" in
  let! r := tryM (db_AddTarget entityID target) in
  fail_if! match r with inl err => negb (error_contains err "result has no rows")
                      | inr _ => false end
    with Errorf "cannot create entity generic target" in
  let! sent := signUp_tokens entityID in
  retM (set_Count sent zero_APIresponse).

Definition getEntity (request : APIrequest) : M S APIresponse :=
  let! entityID := requireEntityID request in
  let! entity := onErr (db_Entity entityID)
    (missing_or "entity not found" "cannot retrieve entity") in
  retM (set_Entity (Some entity) zero_APIresponse).

Definition updateEntity (request : APIrequest) : M S APIresponse :=
  let! entityID := requireEntityID request in
  match rq_Entity request with
  | None => failM (Errorf "no entity data to update")
  | Some e =>
      let info := mkEntityInfo (ei_CallbackURL e) (ei_CallbackSecret e) (ei_Email e) (ei_Name e)
                    "" 0 None [] false in
      let! count := onErr (db_UpdateEntity entityID info)
        (fun _ => Errorf "cannot update entity") in
      retM (set_Count count zero_APIresponse)
  end.

Definition admin_address : string := "0xCc41C6545234ac63F11c47bC282f89Ca77aB9945".

Definition adminEntityList (request : APIrequest) : M S APIresponse :=
  let! entityID := requireEntityID request in
  fail_if! negb (bool_decide (AddressString entityID = admin_address))
    with Errorf "invalid auth" in
  let! entities := onErr db_AdminEntityList
    (missing_or "no entities found" "cannot retrieve entities") in
  retM (set_Entities entities zero_APIresponse).

Definition requestGas (request : APIrequest) : M S APIresponse :=
  match host_SendTokens with
  | None => failM (Errorf "internal error")
  | Some SendTokens =>
      let! entityID := requireEntityID request in
      let! _ := onErr (db_Entity entityID)
        (missing_or "entity not found" "cannot retrieve entity") in
      let! sent := onErr (SendTokens entityID 0%Z 0%Z) (fun _ => Errorf "error sending tokens") in
      retM (set_Count (int64 sent) zero_APIresponse)
  end.

(** ** Members *)

Definition listMembers (request : APIrequest) : M S APIresponse :=
  let! entityID := requireEntityID request in
  let! _ := onErr (liftE (checkOptions (rq_ListOptions request) (rq_Method request)))
    (fun _ => Errorf "invalid filter options") in
  let! members := onErr (db_ListMembers entityID (rq_ListOptions request))
    (missing_or "no members found" "cannot retrieve members") in
  retM (set_Members members zero_APIresponse).

Definition getMember_target (r : list Target * option gerror) : M S Target :=
  let '(targets, err) := r in
  if bool_decide (err = Some ErrNoRows) || (length targets =? 0) then retM zero_Target
  else match err, targets with
       | None, t :: _ => retM t
       | _, _ => failM (Errorf "error retrieving member targets")
       end.

Definition getMember (request : APIrequest) : M S APIresponse :=
  fail_if! bool_decide (rq_MemberID request = None) with Errorf "invalid memberId" in
  let! entityID := requireEntityID request in
  let! member := onErr (db_Member entityID (rq_MemberID request))
    (missing_or "member not found" "cannot retrieve member") in
  let! r := db_ListTargets entityID in
  let! target := getMember_target r in
  retM (set_Target (Some target) (set_Member (Some member) zero_APIresponse)).

Definition updateMember (request : APIrequest) : M S APIresponse :=
  match rq_Member request with
  | None => failM (Errorf "invalid member struct")
  | Some member =>
      let! entityID := requireEntityID request in
      let! count := onErr (db_UpdateMember entityID (Some (m_ID member)) (m_Info member))
        (fun _ => Errorf "cannot update member") in
      retM (set_Count count zero_APIresponse)
  end.

Definition deleteMembers (request : APIrequest) : M S APIresponse :=
  fail_if! (length (rq_MemberIDs request) =? 0) with Errorf "invalid member list" in
  let! entityID := requireEntityID request in
  let! (count, invalid) := onErr (db_DeleteMembers entityID (rq_MemberIDs request))
    (fun _ => Errorf "error deleting members") in
  retM (set_InvalidIDs invalid (set_Count count zero_APIresponse)).

Definition countMembers (request : APIrequest) : M S APIresponse :=
  let! entityID := requireEntityID request in
  let! count := onErr (db_CountMembers entityID) (fun _ => Errorf "cannot count members") in
  retM (set_Count count zero_APIresponse).

Definition generateTokens (request : APIrequest) : M S APIresponse :=
  let! entityID := requireEntityID request in
  fail_if! (rq_Amount request <? 1)%Z with Errorf "invalid token amount" in
  let! tokens := mapM_ (fun _ => host_uuid) (seq 0 (Z.to_nat (rq_Amount request))) in
  let! _ := onErr (db_CreateMembersWithTokens entityID tokens)
    (fun _ => Errorf "could not register generated tokens") in
  retM (set_Tokens tokens zero_APIresponse).

Definition exportTokens (request : APIrequest) : M S APIresponse :=
  let! entityID := requireEntityID request in
  let! members := onErr (db_MembersTokensEmails entityID)
    (missing_or "no members found" "could not retrieve members tokens") in
  retM (set_MembersTokens (map (fun m => mkTokenEmail (m_ID m) (mi_Email (m_Info m))) members)
          zero_APIresponse).

(* request.MembersInfo[idx].Origin = types.Token *)
Definition of_Token (m : MemberInfo) : MemberInfo :=
  mkMemberInfo (mi_DateOfBirth m) (mi_Email m) (mi_FirstName m) (mi_LastName m) (mi_Phone m)
    (mi_StreetAddress m) (mi_Consented m) (mi_Verified m) Token (mi_CustomFields m) (mi_Tags m).

Definition importMembers (request : APIrequest) : M S APIresponse :=
  let! entityID := requireEntityID request in
  fail_if! length (rq_MembersInfo request) <? 1 with Errorf "no member data provided" in
  let! _ := onErr (db_ImportMembers entityID (map of_Token (rq_MembersInfo request)))
    (fun _ => Errorf "could not import members") in
  retM zero_APIresponse.

(** ** Targets *)

Definition countTargets (request : APIrequest) : M S APIresponse :=
  let! entityID := requireEntityID request in
  let! count := onErr (db_CountTargets entityID) (fun _ => Errorf "cannot count targets") in
  retM (set_Count count zero_APIresponse).

Definition listTargets (request : APIrequest) : M S APIresponse :=
  let! entityID := requireEntityID request in
  let! _ := onErr (liftE (checkOptions (rq_ListOptions request) (rq_Method request)))
    (fun err => Errorf ("invalid filter options: (" +:+ error_string err +:+ ")")) in
  let! (targets, err) := db_ListTargets entityID in
  let! _ := match err with
            | None => retM tt
            | Some err => failM (missing_or "no targets found" "cannot query targets" err)
            end in
  fail_if! (length targets =? 0) with Errorf "cannot query targets" in
  retM (set_Targets targets zero_APIresponse).

Definition getTarget (request : APIrequest) : M S APIresponse :=
  let! entityID := requireEntityID request in
  let! r := tryM (db_Target entityID (rq_TargetID request)) in
  let! target :=
    (match r with
     | inr target => retM target
     | inl err =>
         if bool_decide (err = ErrNoRows)
         then let! _ := deref (rq_TargetID request) in failM (Errorf "target not found")
         else failM (Errorf "could not retrieve target")
     end) in
  let! members := onErr (db_TargetMembers entityID (rq_TargetID request))
    (fun _ => Errorf "members for requested target could not be retrieved") in
  let! _ := deref (rq_TargetID request) in
  retM (set_Members members (set_Target target zero_APIresponse)).

Definition dumpTarget (request : APIrequest) : M S APIresponse :=
  let! entityID := requireEntityID request in
  let! r := tryM (db_Target entityID (rq_TargetID request)) in
  let! _ :=
    (match r with
     | inr target =>
         let! target := deref target in
         fail_if! negb (bool_decide (t_Name target = "all"))
           with Errorf "could not retrieve target" in retM tt
     | inl err =>
         if bool_decide (err = ErrNoRows)
         then let! _ := deref (rq_TargetID request) in failM (Errorf "target not found")
         else failM (Errorf "could not retrieve target")
     end) in
  let! claims := onErr (db_DumpClaims entityID)
    (missing_or "no claims found" "cannot dump claims") in
  retM (set_Claims claims zero_APIresponse).

(** ** Censuses *)

(* shuffledClaims[v] = claims[i] for (i, v) in the permutation *)
Definition shuffle_step (claims : list bytes) (acc : M S (list bytes)) (iv : nat * nat) :
    M S (list bytes) :=
  let! shuffled := acc in
  match claims !! iv.1 with
  | Some claim => if iv.2 <? length shuffled then retM (<[iv.2 := claim]> shuffled)
                  else panicM "index out of range"
  | None => panicM "index out of range"
  end.
Definition shuffle (claims : list bytes) (indexes : list nat) : M S (list bytes) :=
  foldl (shuffle_step claims) (retM (replicate (length claims) ""))
    (zip (seq 0 (length indexes)) indexes).

Definition dumpCensus (request : APIrequest) : M S APIresponse :=
  let! entityID := requireEntityID request in
  let! censusID := decodeCensusID request in
  let! members := onErr (db_ExpandCensusMembers entityID censusID)
    (fun _ => Errorf "cannot dump claims") in
  let! indexes := host_Perm (length members) in
  let! claims := shuffle (map (fun m => default "" (cm_DigestedPubKey m)) members) indexes in
  retM (set_Claims claims zero_APIresponse).

Definition addCensus (request : APIrequest) : M S APIresponse :=
  if (len_UUID (rq_TargetID request) =? 0)%Z
  then let! _ := deref (rq_TargetID request) in failM (Errorf "invalid target id") else
  fail_if! (len (rq_CensusID request) =? 0)%Z with Errorf "invalid census id" in
  let! entityID := requireEntityID request in
  let! censusID := onErr (liftE (DecodeCensusID (rq_CensusID request)
                                   (rq_SignaturePublicKey request)))
    (fun err => Errorf (error_string err)) in
  let! _ := onErr (db_AddCensus entityID censusID (rq_TargetID request) (rq_Census request))
    (fun _ => Errorf "cannot add census") in
  retM zero_APIresponse.

Definition updateCensus (request : APIrequest) : M S APIresponse :=
  fail_if! (len (rq_CensusID request) =? 0)%Z with Errorf "invalid census id" in
  match rq_Census request with
  | None => failM (Errorf "invalid census info")
  | Some info =>
      let! entityID := requireEntityID request in
      let! censusID := onErr (liftE (DecodeCensusID (rq_CensusID request)
                                       (rq_SignaturePublicKey request)))
        (fun err => Errorf (error_string err)) in
      let! count := onErr (db_UpdateCensus entityID censusID (Some info))
        (fun _ => Errorf "cannot update census") in
      retM (set_Count count zero_APIresponse)
  end.

Definition getCensus (request : APIrequest) : M S APIresponse :=
  fail_if! (len (rq_CensusID request) =? 0)%Z with Errorf "invalid census id" in
  let! entityID := requireEntityID request in
  let! censusID := decodeCensusID request in
  let! census := onErr (db_Census entityID censusID)
    (missing_or "census not found" "cannot query for censuses") in
  let! target := onErr (db_Target entityID (Some (c_TargetID census)))
    (fun _ => Errorf "census target not found") in
  retM (set_Target target (set_Census (Some census) zero_APIresponse)).

Definition countCensus (request : APIrequest) : M S APIresponse :=
  let! entityID := requireEntityID request in
  let! count := onErr (db_CountCensus entityID) (fun _ => Errorf "cannot count censuses") in
  retM (set_Count count zero_APIresponse).

Definition listCensus (request : APIrequest) : M S APIresponse :=
  let! entityID := entityOf (rq_SignaturePublicKey request) "invalid public key" in
  let! _ := onErr (liftE (checkOptions (rq_ListOptions request) (rq_Method request)))
    (fun _ => Errorf "invalid filter options") in
  let! censuses := onErr (db_ListCensus entityID (rq_ListOptions request))
    (missing_or "no censuses found" "cannot query for censuses") in
  retM (set_Censuses censuses zero_APIresponse).

Definition deleteCensus (request : APIrequest) : M S APIresponse :=
  fail_if! (len (rq_CensusID request) =? 0)%Z with Errorf "invalid census id" in
  let! entityID := requireEntityID request in
  let! censusID := decodeCensusID request in
  let! r := tryM (db_DeleteCensus entityID censusID) in
  fail_if! match r with inl err => negb (bool_decide (err = ErrNoRows)) | inr _ => false end
    with Errorf "cannot delete census" in
  retM zero_APIresponse.

(** ** Tags *)

Definition createTag (request : APIrequest) : M S APIresponse :=
  fail_if! bool_decide (rq_TagName request = "") with Errorf "invalid tag name" in
  let! entityID := requireEntityID request in
  let! id := onErr (db_AddTag entityID (rq_TagName request))
    (fun _ => Errorf "cannot create tag ") in
  retM (set_Tag (Some (mkTag zero_CreatedUpdated id "" (rq_TagName request))) zero_APIresponse).

Definition listTags (request : APIrequest) : M S APIresponse :=
  let! entityID := requireEntityID request in
  let! tags := onErr (db_ListTags entityID) (missing_or "no tags found" "cannot retrieve tags") in
  retM (set_Tags tags zero_APIresponse).

Definition deleteTag (request : APIrequest) : M S APIresponse :=
  fail_if! (rq_TagID request =? 0)%Z with Errorf "invalid tag id" in
  let! entityID := requireEntityID request in
  let! _ := onErr (db_DeleteTag entityID (rq_TagID request)) (fun _ => Errorf "cannot delete tag ") in
  retM zero_APIresponse.

Definition addTag (request : APIrequest) : M S APIresponse :=
  fail_if! (rq_TagID request =? 0)%Z || (length (rq_MemberIDs request) =? 0)
    with Errorf "invalid arguments" in
  let! entityID := requireEntityID request in
  let! (count, invalid) := onErr (db_AddTagToMembers entityID (rq_MemberIDs request)
                                    (rq_TagID request)) (fun _ => Errorf "cannot add tag ") in
  retM (set_InvalidIDs invalid (set_Count count zero_APIresponse)).

Definition removeTag (request : APIrequest) : M S APIresponse :=
  fail_if! (rq_TagID request =? 0)%Z || (length (rq_MemberIDs request) =? 0)
    with Errorf "invalid arguments" in
  let! entityID := requireEntityID request in
  let! (count, invalid) := onErr (db_RemoveTagFromMembers entityID (rq_MemberIDs request)
                                    (rq_TagID request)) (fun _ => Errorf "cannot remove tag ") in
  retM (set_InvalidIDs invalid (set_Count count zero_APIresponse)).

(** ** E-mails *)

Definition newline : string := String (ascii_of_nat 10) EmptyString.
(* fmt.Sprintf of a []error with %v *)
Definition errors_text (errors : list gerror) : string :=
  "[" +:+ Stdlib.Strings.String.concat " " (map error_string errors) +:+ "]".

Definition mail_error (i : uuid) (err : gerror) : gerror :=
  Errorf ("member " +:+ uuid_String i +:+ " error  " +:+ error_string err).
Definition refusal (i : uuid) (r : gerror + unit) : option gerror :=
  match r with inl err => Some (mail_error i err) | inr _ => None end.

(* the goroutines, wg.Wait() and the two channels read *)
Definition run_group (rs : list Report) : M S (list uuid * list gerror) :=
  let! schedule := host_schedule in
  let g := drive (measure (started rs)) schedule (started rs) in
  match g_panic g with
  | Some msg => panicM msg
  | None => retM (g_sc g, g_ec g)
  end.

(* successUUIDs and errors of the n e-mails *)
Definition check_mails (n : nat) (ids : list uuid) (errors : list gerror)
    (response : APIresponse) : M S APIresponse :=
  let response := set_Count (Z.of_nat (length ids)) response in
  fail_if! negb (length errors + length ids =? n)
    with Errorf "inconsistency in number of sent emails and errors" in
  fail_if! (length errors =? n) with Errorf "could not send emails" in
  retM (if 0 <? length errors
        then set_Message (decimal (Z.of_nat (length errors)) +:+ " where found:" +:+ newline
                          +:+ errors_text errors) response
        else response).

(* the tag of the members who got an e-mail, created when it does not exist *)
Definition assign_tag (entityID : bytes) (tagName : string) (ids : list uuid) : M S unit :=
  let failed (_ : gerror) := Errorf "sent emails but could not assign tag" in
  let! r := tryM (db_TagByName entityID tagName) in
  let! tagID :=
    (match r with
     | inr tag => let! tag := deref tag in retM (tg_ID tag)
     | inl err => if bool_decide (err = ErrNoRows) then onErr (db_AddTag entityID tagName) failed
                  else failM (failed err)
     end) in
  let! _ := onErr (db_AddTagToMembers entityID ids tagID) failed in
  retM tt.

(* each goroutine sends its own mail, then reports: here the mails are sent in
   their order first, and the reports interleave afterwards *)
Definition send_voting_links (members : list EphemeralMemberInfo) (entity : Entity)
    (processID : bytes) : M S (list uuid * list gerror) :=
  let! sent := mapM_ (fun m => tryM (host_SendVotingLink m entity processID)) members in
  run_group (zip_with (fun m r => (None, refusal (em_ID m) r, em_ID m)) members sent).

Definition sendVotingLinks (request : APIrequest) : M S APIresponse :=
  fail_if! (len_UUID (rq_MemberID request) =? 0)%Z || (len (rq_ProcessID request) =? 0)%Z
    with Errorf "invalid arguments" in
  let! entityID := entityOf (rq_SignaturePublicKey request)
                     "cannot recover entityID from public key" in
  let! entity := onErr (db_Entity entityID)
    (fun _ => Errorf "cannot recover entity from public key") in
  let! censusID := decodeCensusID request in
  if negb (bool_decide (rq_Email request = "")) then
    let! member := onErr (db_EphemeralMemberInfoByEmail entityID censusID (rq_Email request))
      (fun _ => Errorf "cannot retrieve ephemeral census member by email") in
    let! member := deref member in
    let! _ := onErr (host_SendVotingLink member entity (rq_ProcessID request))
      (fun _ => Errorf "could not send voting link") in
    retM (set_Count 1 zero_APIresponse)
  else
    let! members := onErr (db_ListEphemeralMemberInfo entityID censusID)
      (fun _ => Errorf "cannot retrieve ephemeral census members") in
    if length members =? 0 then retM (set_Count 0 zero_APIresponse) else
    let! (ids, errors) := send_voting_links members entity (rq_ProcessID request) in
    let! response := check_mails (length members) ids errors zero_APIresponse in
    let! _ := assign_tag entityID "VoteEmailSent" ids in
    retM response.

(* a member who has a key is reported, and sent an e-mail all the same *)
Definition validated_error (m : Member) : option gerror :=
  match m_PubKey m with
  | None => None
  | Some _ => Some (Errorf ("member " +:+ uuid_String (m_ID m) +:+ " is already validated at  "
                            +:+ host_time_String (mi_Verified (m_Info m))))
  end.

(* in the same two phases *)
Definition send_validation_links (members : list Member) (entity : Entity) :
    M S (list uuid * list gerror) :=
  let! sent := mapM_ (fun m => tryM (host_SendValidationLink m entity)) members in
  run_group (zip_with (fun m r => (validated_error m, refusal (m_ID m) r, m_ID m)) members sent).

Definition sendValidationLinks (request : APIrequest) : M S APIresponse :=
  fail_if! (len_UUID (rq_MemberID request) =? 0)%Z with Errorf "invalid arguments" in
  let! entityID := entityOf (rq_SignaturePublicKey request)
                     "cannot recover entityID from public key" in
  let! entity := onErr (db_Entity entityID)
    (fun _ => Errorf "cannot recover entity from public key") in
  let! (members, invalidIDs) := onErr (db_Members entityID (rq_MemberIDs request))
    (fun _ => Errorf "cannot retrieve member") in
  let response := set_InvalidIDs invalidIDs zero_APIresponse in
  if length members =? 0 then retM (set_Count 0 response) else
  let! (ids, errors) := send_validation_links members entity in
  let! response := check_mails (length members) ids errors response in
  let! _ := assign_tag entityID "PendingValidation" ids in
  retM response.

(** ** EnableAPI: the methods and whether they require a signature *)
Definition manager_methods : list (string * bool * (APIrequest -> M S APIresponse)) :=
  [("signUp", true, signUp); ("getEntity", true, getEntity); ("updateEntity", true, updateEntity);
   ("adminEntityList", true, adminEntityList); ("countMembers", true, countMembers);
   ("listMembers", true, listMembers); ("getMember", true, getMember);
   ("updateMember", true, updateMember); ("deleteMembers", true, deleteMembers);
   ("generateTokens", true, generateTokens); ("exportTokens", true, exportTokens);
   ("importMembers", true, importMembers); ("countTargets", true, countTargets);
   ("listTargets", true, listTargets); ("getTarget", true, getTarget);
   ("dumpTarget", true, dumpTarget); ("dumpCensus", true, dumpCensus);
   ("addCensus", true, addCensus); ("updateCensus", true, updateCensus);
   ("getCensus", true, getCensus); ("countCensus", true, countCensus);
   ("listCensus", true, listCensus); ("deleteCensus", true, deleteCensus);
   ("createTag", true, createTag); ("listTags", true, listTags); ("deleteTag", true, deleteTag);
   ("addTag", true, addTag); ("removeTag", true, removeTag)] ++
  (if host_SendTokens is Some _ then [("requestGas", true, requestGas)] else []) ++
  (if host_smtp then [("sendValidationLinks", true, sendValidationLinks);
                      ("sendVotingLinks", true, sendVotingLinks)] else []).
End manager.

(** ** The handlers keep what the calls for the requesting entity keep *)
Section manager_inv.
Context {X : Ext} {S : Type} {DB : Database S} {H : Host S}.
Variable J : S -> Prop.
Variable E : bytes -> Prop.
Variable P : bytes -> Prop.
Context {K : bytes -> Permit} {HD : DatabaseInv DB J E K} {HH : HostInv H J P}.

Lemma entityOf_inv pubKey msg :
  preserves J (fun e => PubKeyToEntityID pubKey = inr e) (entityOf pubKey msg).
Proof.
  unfold entityOf. destruct (negb _); [apply preserves_fail|].
  apply preserves_onErr. destruct (PubKeyToEntityID pubKey); [apply preserves_fail|].
  by apply preserves_ret.
Qed.

Lemma deref_inv {A} (p : option A) : preserves J anything (deref p).
Proof. destruct p; [by apply preserves_ret|apply preserves_panic]. Qed.

Lemma liftE_inv {A} (r : gerror + A) : preserves J anything (liftE r).
Proof. apply readonly_preserves, readonly_lift. Qed.

Lemma decodeCensusID_inv request : preserves J anything (decodeCensusID request).
Proof. apply preserves_onErr, liftE_inv. Qed.

Lemma getMember_target_inv r : preserves J anything (getMember_target r).
Proof. apply readonly_preserves. unfold getMember_target. go_readonly. Qed.

Lemma shuffle_inv claims l : preserves J anything (shuffle claims l).
Proof.
  unfold shuffle. generalize (zip (seq 0 (length l)) l). intros iv.
  assert (Hacc : preserves J anything (retM (S:=S) (replicate (length claims) "")))
    by (by apply preserves_ret).
  revert Hacc. generalize (retM (S:=S) (replicate (length claims) "")).
  induction iv as [|[i v] iv IH]; intros acc Hacc; simpl; [done|]. apply IH.
  unfold shuffle_step. eapply preserves_bind; [exact Hacc|]. intros shuffled _.
  apply readonly_preserves. simpl. go_readonly.
Qed.

Lemma run_group_inv rs : preserves J anything (run_group rs).
Proof.
  unfold run_group. eapply preserves_bind; [apply inv_schedule|]. intros schedule _.
  apply readonly_preserves. cbn zeta. destruct (g_panic _); go_readonly.
Qed.

Lemma check_mails_inv n ids errors response :
  preserves J anything (check_mails n ids errors response).
Proof. apply readonly_preserves. unfold check_mails. cbn zeta. go_readonly. Qed.

Lemma anything_inv {A} R (m : M S A) : preserves J R m -> preserves J anything m.
Proof. intros. by eapply preserves_weaken. Qed.

Lemma signUp_tokens_inv e : P e -> preserves J anything (signUp_tokens e).
Proof.
  intros He. unfold signUp_tokens. destruct host_SendTokens as [f|] eqn:Hf; [|by apply preserves_ret].
  eapply preserves_bind; [by apply preserves_tryM, inv_SendTokens|]. intros r _.
  apply readonly_preserves. go_readonly.
Qed.
End manager_inv.

#[export] Hint Resolve deref_inv liftE_inv decodeCensusID_inv getMember_target_inv shuffle_inv
  run_group_inv check_mails_inv signUp_tokens_inv : handlers.

Section manager_methods_inv.
Context {X : Ext} {S : Type} {DB : Database S} {H : Host S}.
Variable J : S -> Prop.
Variable E : bytes -> Prop.
Variable P : bytes -> Prop.
Context {K : bytes -> Permit} {HD : DatabaseInv DB J E K} {HH : HostInv H J P}.

Lemma own_entity_inv pubKey msg (HE : forall e, PubKeyToEntityID pubKey = inr e -> E e) :
  preserves J E (entityOf pubKey msg).
Proof. eapply preserves_weaken; [apply entityOf_inv|exact HE]. Qed.

Lemma assign_tag_inv e n l : E e -> preserves J anything (assign_tag e n l).
Proof. intros He. unfold assign_tag. go_inv. Qed.

Lemma send_voting_links_inv members entity p :
  preserves J anything (send_voting_links members entity p).
Proof.
  unfold send_voting_links. apply (preserves_bind _ anything).
  { eapply anything_inv, preserves_mapM_. intros m. apply preserves_tryM, inv_SendVotingLink. }
  intros sent _. eauto with handlers.
Qed.

Lemma send_validation_links_inv members entity :
  preserves J anything (send_validation_links members entity).
Proof.
  unfold send_validation_links. apply (preserves_bind _ anything).
  { eapply anything_inv, preserves_mapM_. intros m. apply preserves_tryM, inv_SendValidationLink. }
  intros sent _. eauto with handlers.
Qed.

Lemma host_uuids_inv (l : list nat) : preserves J anything (mapM_ (fun _ => host_uuid) l).
Proof. eapply anything_inv, preserves_mapM_. intros _. apply inv_uuid. Qed.
End manager_methods_inv.

#[export] Hint Resolve own_entity_inv assign_tag_inv send_voting_links_inv
  send_validation_links_inv host_uuids_inv : handlers.

Ltac unfold_handlers :=
  unfold signUp, getEntity, updateEntity, adminEntityList, countMembers, listMembers, getMember,
    updateMember, deleteMembers, generateTokens, exportTokens, importMembers, countTargets,
    listTargets, getTarget, dumpTarget, dumpCensus, addCensus, updateCensus, getCensus,
    countCensus, listCensus, deleteCensus, createTag, listTags, deleteTag, addTag, removeTag,
    requestGas, sendValidationLinks, sendVotingLinks, requireEntityID.

Section manager_methods_inv2.
Context {X : Ext} {S : Type} {DB : Database S} {H : Host S}.
Variable J : S -> Prop.
Variable E : bytes -> Prop.
Variable P : bytes -> Prop.
Context {K : bytes -> Permit} {HD : DatabaseInv DB J E K} {HH : HostInv H J P}.

(* the handlers that ask the faucet to pay *)
Definition paying : list string := ["signUp"; "requestGas"].

(* the members a deletion names may be deleted *)
Lemma deleteMembers_inv (request : APIrequest) :
  (forall e, PubKeyToEntityID (rq_SignaturePublicKey request) = inr e -> E e) ->
  (forall e id r, PubKeyToEntityID (rq_SignaturePublicKey request) = inr e ->
     id ∈ rq_MemberIDs request -> may_delete (K e) id r) ->
  preserves J anything (deleteMembers request).
Proof.
  intros HE HM. unfold deleteMembers, requireEntityID. destruct (_ =? 0); [apply preserves_fail|].
  eapply preserves_bind; [apply entityOf_inv|]. intros e He. apply (preserves_bind _ anything).
  - apply preserves_onErr, inv_DeleteMembers; [by apply HE|]. intros id r Hi. by apply (HM e).
  - intros [count invalid] _. by apply preserves_ret.
Qed.

Lemma other_methods_inv name sig handler (request : APIrequest)
    (HE : forall e, PubKeyToEntityID (rq_SignaturePublicKey request) = inr e -> E e)
    (HM : name = "deleteMembers" -> forall e id r,
       PubKeyToEntityID (rq_SignaturePublicKey request) = inr e -> id ∈ rq_MemberIDs request ->
       may_delete (K e) id r) :
  (name, sig, handler) ∈ manager_methods -> name ∉ paying ->
  preserves J anything (handler request).
Proof.
  intros Hm Hn. unfold manager_methods in Hm.
  apply elem_of_app in Hm as [Hm|[Hm|Hm]%elem_of_app].
  - apply elem_of_cons in Hm as [[= -> -> ->]|Hm]; [destruct Hn; left|].
    repeat (apply elem_of_cons in Hm as [[= -> -> ->]|Hm]);
      [..|by apply not_elem_of_nil in Hm].
    all: lazymatch goal with
      | |- preserves _ _ (deleteMembers _) => apply deleteMembers_inv; [exact HE|by apply HM]
      | |- _ => unfold_handlers; go_inv
      end.
  - destruct host_SendTokens; [|by apply not_elem_of_nil in Hm].
    apply list_elem_of_singleton in Hm as [= -> -> ->]. destruct Hn. right; left.
  - destruct host_smtp; [|by apply not_elem_of_nil in Hm].
    repeat (apply elem_of_cons in Hm as [[= -> -> ->]|Hm]);
      [..|by apply not_elem_of_nil in Hm].
    all: unfold_handlers; go_inv.
Qed.

Lemma paying_handler name sig handler :
  (name, sig, handler) ∈ manager_methods -> name ∈ paying ->
  handler = signUp \/ handler = requestGas.
Proof.
  unfold manager_methods, paying. intros Hm Hn.
  apply elem_of_app in Hm as [Hm|[Hm|Hm]%elem_of_app].
  - repeat (apply elem_of_cons in Hm as [[= -> -> ->]|Hm]);
      [by left|..|by apply not_elem_of_nil in Hm];
      exfalso; revert Hn; apply (bool_decide_unpack (¬ _)); vm_compute; exact I.
  - destruct host_SendTokens; [|by apply not_elem_of_nil in Hm].
    apply list_elem_of_singleton in Hm as [= -> -> ->]. by right.
  - exfalso. destruct host_smtp; [|by apply not_elem_of_nil in Hm].
    apply elem_of_cons in Hm as [[= -> -> ->]|Hm%list_elem_of_singleton];
      [|injection Hm as -> -> ->]; revert Hn;
      apply (bool_decide_unpack (¬ _)); vm_compute; exact I.
Qed.

Lemma manager_methods_inv name sig handler (request : APIrequest)
    (HE : forall e, PubKeyToEntityID (rq_SignaturePublicKey request) = inr e -> E e /\ P e)
    (HM : name = "deleteMembers" -> forall e id r,
       PubKeyToEntityID (rq_SignaturePublicKey request) = inr e -> id ∈ rq_MemberIDs request ->
       may_delete (K e) id r) :
  (name, sig, handler) ∈ manager_methods -> preserves J anything (handler request).
Proof.
  intros Hm. destruct (decide (name ∈ paying)) as [Hn|Hn].
  2:{ eapply other_methods_inv; [|exact HM|exact Hm|exact Hn]. intros e He. by destruct (HE e He). }
  assert (Hown : forall msg, preserves J (fun e => E e /\ P e)
                   (entityOf (rq_SignaturePublicKey request) msg))
    by (intros msg; eapply preserves_weaken; [apply entityOf_inv|exact HE]).
  destruct (paying_handler _ _ _ Hm Hn) as [->| ->]; unfold_handlers.
  - eapply preserves_bind; [apply Hown|]. intros e [He Hp]. go_inv.
  - destruct host_SendTokens as [f|] eqn:Hf; [|apply preserves_fail].
    eapply preserves_bind; [apply Hown|]. intros e [He Hp]. go_inv.
Qed.
End manager_methods_inv2.

(* the methods that do not write *)
Definition read_only_methods : list string :=
  ["getEntity"; "adminEntityList"; "countMembers"; "listMembers"; "getMember"; "exportTokens";
   "countTargets"; "listTargets"; "getTarget"; "dumpTarget"; "getCensus"; "countCensus";
   "listCensus"; "listTags"].

Section manager_lemmas.
Context {X : Ext} {S : Type} {DB : Database S} {H : Host S}.

Lemma read_only_inv J (HD : DatabaseInv DB J (fun _ => False) no_key) (HH : HostInv H J (fun _ => False))
    name sig handler (request : APIrequest) :
  (name, sig, handler) ∈ manager_methods -> name ∈ read_only_methods ->
  preserves J anything (handler request).
Proof.
  intros Hm Hn. pose proof (fun pk msg => anything_inv J _ _ (entityOf_inv J pk msg)) as Ha.
  unfold manager_methods in Hm.
  apply elem_of_app in Hm as [Hm|[Hm|Hm]%elem_of_app].
  - repeat (apply elem_of_cons in Hm as [[= -> -> ->]|Hm]);
      [..|by apply not_elem_of_nil in Hm];
      try (exfalso; revert Hn; apply (bool_decide_unpack (¬ _)); vm_compute; exact I).
    all: unfold_handlers; go_inv.
  - exfalso. destruct host_SendTokens; [|by apply not_elem_of_nil in Hm].
    apply list_elem_of_singleton in Hm as [= -> -> ->]. revert Hn.
    apply (bool_decide_unpack (¬ _)); vm_compute; exact I.
  - exfalso. destruct host_smtp; [|by apply not_elem_of_nil in Hm].
    apply elem_of_cons in Hm as [[= -> -> ->]|Hm%list_elem_of_singleton];
      [|injection Hm as -> -> ->]; revert Hn;
      apply (bool_decide_unpack (¬ _)); vm_compute; exact I.
Qed.

Lemma entityOf_never pubKey msg :
  (forall e, PubKeyToEntityID pubKey <> inr e) \/ len pubKey <> PubKeyLengthBytes ->
  never (entityOf (S:=S) pubKey msg).
Proof.
  intros Hk s e. unfold entityOf. destruct (Z.eqb_spec (len pubKey) PubKeyLengthBytes); [|done].
  destruct Hk as [Hk|]; [|done]. unfold onErr, liftE. simpl.
  destruct (PubKeyToEntityID pubKey) as [|e']; [done|]. by destruct (Hk e').
Qed.
End manager_lemmas.

Ltac never_ok :=
  repeat (cbn beta zeta; first
    [ apply never_fail | apply never_bind, entityOf_never; assumption
    | match goal with
      | |- context [(len_UUID ?x =? 0)%Z] => change (len_UUID x =? 0)%Z with false; cbn iota
      end
    | match goal with |- never (if ?b then _ else _) => destruct b
                    | |- never (match ?x with _ => _ end) => destruct x end
    | apply never_bind ]).

Section properties.
Context {X : Ext} {S : Type} {DB : Database S} {H : Host S}.

(** C28: Every method of the manager API needs the key of an entity: for a
    signature whose public key has the wrong length, or gives no address, the
    method answers with an error (or panics) and nothing is written. *)
Theorem manager_requires_key name sig handler (request : APIrequest) (J : S -> Prop) :
  (name, sig, handler) ∈ manager_methods ->
  DatabaseInv DB J (fun _ => False) no_key -> HostInv H J (fun _ => False) ->
  (forall e, PubKeyToEntityID (rq_SignaturePublicKey request) <> inr e) \/
  len (rq_SignaturePublicKey request) <> PubKeyLengthBytes ->
  never (handler request) /\ preserves J anything (handler request).
Proof.
  intros Hm HD HH Hk.
  assert (Hnever : forall msg, never (entityOf (S:=S) (rq_SignaturePublicKey request) msg))
    by (intros; by apply entityOf_never).
  assert (Hown : forall msg, preserves J (fun _ => False)
                   (entityOf (S:=S) (rq_SignaturePublicKey request) msg)).
  { intros msg s Hs. destruct (entityOf_inv J (rq_SignaturePublicKey request) msg s Hs) as [HJ _].
    split; [done|]. intros e He. by destruct (Hnever msg s e). }
  unfold manager_methods in Hm.
  apply elem_of_app in Hm as [Hm|[Hm|Hm]%elem_of_app].
  - repeat (apply elem_of_cons in Hm as [[= -> -> ->]|Hm]);
      [..|by apply not_elem_of_nil in Hm].
    all: unfold_handlers; split; [never_ok|go_inv].
  - destruct host_SendTokens as [f|] eqn:Hf in Hm; [|by apply not_elem_of_nil in Hm].
    apply list_elem_of_singleton in Hm as [= -> -> ->].
    unfold_handlers; rewrite ?Hf; split; [never_ok|go_inv].
  - destruct host_smtp; [|by apply not_elem_of_nil in Hm].
    repeat (apply elem_of_cons in Hm as [[= -> -> ->]|Hm]);
      [..|by apply not_elem_of_nil in Hm].
    all: unfold_handlers; split; [never_ok|go_inv].
Qed.
End properties.

Section pgsql_properties.
Context {X : Ext} {V : Env} {H : Host World}.

(** C29: The methods that only answer questions write nothing: the committed
    tables after getEntity, the counts, the lists, getMember, getTarget,
    dumpTarget, getCensus or exportTokens are the tables before. *)
Theorem manager_read_only name sig handler (request : APIrequest) (w : World) :
  (name, sig, handler) ∈ manager_methods -> name ∈ read_only_methods ->
  (forall I, HostInv H (holds I) (fun _ => False)) ->
  w_db (handler request w).2 = w_db w.
Proof.
  intros Hm Hn HH.
  assert (HD : DatabaseInv pgsql (holds (fun d => d = w_db w)) (fun _ => False) no_key).
  { apply pgsql_inv. intros e []. }
  exact (proj1 (read_only_inv _ HD (HH _) name sig handler request Hm Hn w eq_refl)).
Qed.

(* the integrity of the tables (unique and foreign keys, the entity a row
    belongs to) survives every method of the manager API. *)
Lemma manager_keeps_integrity name sig handler (request : APIrequest) (w : World) :
  (name, sig, handler) ∈ manager_methods -> (forall I, HostInv H (holds I) anything) ->
  db_ok (w_db w) -> db_ok (w_db (handler request w).2).
Proof.
  intros Hm HH Hw.
  assert (HD : DatabaseInv pgsql (holds db_ok) (fun _ => True) every_key).
  { apply pgsql_inv. intros e _. apply db_ok_inv. }
  exact (proj1 (manager_methods_inv _ _ _ name sig handler request (fun _ _ => conj I I)
    (fun _ _ _ _ _ _ => I) Hm w Hw)).
Qed.
End pgsql_properties.

(** ** Sorting columns *)

Definition order_columns : list string :=
  ["dateOfBirth"; "email"; "firstName"; "lastName"; "phone"; "streetAddress"; "consented";
   "verified"; "origin"; "customFields"; "name"; "merkleRoot"; "merkleTreeURI"; "size";
   "createdAt"; "updatedAt"].

Lemma sort_column sortBy : ToOrderBySQLi sortBy <> UnknownColumn -> sortBy ∈ order_columns.
Proof.
  unfold ToOrderBySQLi. intros Hn. repeat (case_decide; [subst; by repeat constructor|]). done.
Qed.

Lemma page_of_column t d f pg c :
  page_of t d (Some f) = inr pg -> (0 < len (lo_SortBy f))%Z ->
  FieldByName t (Title (lo_SortBy f)) = Some c -> pg_column pg = c.
Proof.
  unfold page_of. destruct (FieldByName t (Title d)); [|done]. intros Hp Hl Hc.
  apply Z.ltb_lt in Hl. rewrite Hl, Hc in Hp.
  repeat case_match; simplify_eq/=; done.
Qed.

Lemma page_of_default t d f pg c :
  page_of t d f = inr pg -> FieldByName t (Title d) = Some c ->
  match f with Some f => (len (lo_SortBy f) <= 0)%Z | None => True end -> pg_column pg = c.
Proof.
  unfold page_of. intros Hp Hc Hf. rewrite Hc in Hp. destruct f as [f|]; [|by simplify_eq/=].
  apply Z.ltb_ge in Hf. rewrite Hf in Hp.
  repeat case_match; simplify_eq/=; done.
Qed.

(* an accepted sortBy is a field of the type, and on the list of columns *)
Lemma checkSort_ok t f :
  checkSort t f = inr tt -> (0 < len (lo_SortBy f))%Z ->
  ToOrderBySQLi (lo_SortBy f) <> UnknownColumn /\ is_Some (FieldByName t (Title (lo_SortBy f))).
Proof.
  unfold checkSort. intros Hc Hl. apply Z.ltb_lt in Hl. rewrite Hl in Hc.
  destruct (FieldByName t _); [|done]. split; [|by eexists]. intros Hu. by rewrite Hu in Hc.
Qed.

(* a field of [t] on the list of columns: its column in [t'] is one the database has *)
Definition columns_exist (t t' : list (string * string)) (known : string -> bool) : bool :=
  forallb (fun sortBy => match FieldByName t (Title sortBy), FieldByName t' (Title sortBy) with
                         | Some _, Some c => known c
                         | Some _, None => false
                         | None, _ => true
                         end) order_columns.

Lemma checkSort_column t t' known d c0 f pg :
  columns_exist t t' known = true -> FieldByName t' (Title d) = Some c0 -> known c0 = true ->
  match f with Some f => checkSort t f = inr tt | None => True end ->
  page_of t' d f = inr pg -> known (pg_column pg) = true.
Proof.
  intros Hcols Hd Hk Hc Hp. destruct f as [f|]; [|by rewrite (page_of_default _ _ _ _ _ Hp Hd I)].
  destruct (Z.ltb_spec 0 (len (lo_SortBy f))) as [Hl|Hl];
    [|by rewrite (page_of_default _ _ _ _ _ Hp Hd Hl)].
  destruct (checkSort_ok _ _ Hc Hl) as [Hs%sort_column [c Hf]].
  unfold columns_exist in Hcols. rewrite forallb_forall in Hcols.
  apply list_elem_of_In in Hs. specialize (Hcols _ Hs). cbn beta in Hcols. rewrite Hf in Hcols.
  destruct (FieldByName t' _) as [c'|] eqn:Hf'; [|done].
  by rewrite (page_of_column _ _ _ _ _ Hp Hl Hf').
Qed.

Section sorting.
Context {V : Env}.
Definition is_census_column (c : string) : bool := if census_le c is Some _ then true else false.
Definition is_member_column (c : string) : bool := if member_le c is Some _ then true else false.

(** C36: The list options a request may carry never reach the database as an
    unknown column: when checkOptions accepts the options of listCensus or
    listMembers, the ORDER BY column the query is built with is a column of the
    table, so the query is well formed and nothing of the request's text is in
    it. *)
Theorem checkOptions_columns (f : option ListOptions) (pg : Page) :
  (checkOptions f "listCensus" = inr tt -> page_of Census_fields "name" f = inr pg ->
   is_census_column (pg_column pg) = true) /\
  (checkOptions f "listMembers" = inr tt -> page_of MemberInfo_fields "lastName" f = inr pg ->
   is_member_column (pg_column pg) = true).
Proof.
  split; intros Hc; [apply (checkSort_column CensusInfo_fields _ _ _ "name")
                    |apply (checkSort_column MemberInfo_fields _ _ _ "last_name")];
    [vm_compute; reflexivity|reflexivity|reflexivity| |vm_compute; reflexivity|reflexivity
    |reflexivity|];
    (destruct f as [f|]; [|done]); unfold checkOptions in Hc; by destruct (_ || _).
Qed.
End sorting.

(** ** The shuffle of dumpCensus *)
Section shuffle.
Context {St : Type}.

Lemma shuffle_step_ret (claims out : list bytes) i v c :
  claims !! i = Some c -> v < length out ->
  shuffle_step (S:=St) claims (retM out) (i, v) = retM (<[v := c]> out).
Proof.
  intros Hc Hv. unfold shuffle_step, bindM, retM. simpl. rewrite Hc.
  by apply Nat.ltb_lt in Hv as ->.
Qed.

Lemma shuffle_fold (claims : list bytes) l k (out : list bytes) :
  NoDup l -> Forall (fun v => v < length out) l -> k + length l <= length claims ->
  exists out', foldl (shuffle_step (S:=St) claims) (retM out) (zip (seq k (length l)) l) = retM out' /\
    length out' = length out /\
    (forall j v, l !! j = Some v -> out' !! v = claims !! (k + j)) /\
    (forall v, v ∉ l -> out' !! v = out !! v).
Proof.
  revert k out. induction l as [|v l IH]; intros k out Hnd Hlt Hk; simpl.
  - exists out. split_and!; done.
  - apply NoDup_cons in Hnd as [Hv Hnd]. apply Forall_cons in Hlt as [Hv' Hlt].
    simpl in Hk. destruct (lookup_lt_is_Some_2 claims k) as [c Hc]; [lia|].
    rewrite (shuffle_step_ret _ _ _ _ c) by done.
    destruct (IH (S k) (<[v := c]> out)) as (out' & -> & Hlen & Hin & Hout);
      [done|by rewrite length_insert|lia|].
    rewrite length_insert in Hlen. exists out'. split_and!; try done.
    + intros [|j] u Hj; simpl in Hj.
      * injection Hj as <-. rewrite Hout by done. rewrite list_lookup_insert_eq by done.
        by rewrite Nat.add_0_r.
      * rewrite (Hin j u Hj). f_equal. lia.
    + intros u [Hu Hu']%not_elem_of_cons. rewrite Hout by done.
      by rewrite list_lookup_insert_ne.
Qed.

Lemma shuffle_permutation (claims : list bytes) l :
  l ≡ₚ seq 0 (length claims) ->
  exists out, shuffle (S:=St) claims l = retM out /\ out ≡ₚ claims.
Proof.
  intros Hl. assert (Hlen : length l = length claims).
  { apply Permutation_length in Hl. by rewrite length_seq in Hl. }
  destruct (shuffle_fold claims l 0 (replicate (length claims) "")) as (out & Hs & Hol & Hin & _).
  - rewrite Hl. apply NoDup_seq.
  - rewrite length_replicate. apply Forall_forall. intros v. rewrite Hl, elem_of_seq. lia.
  - lia.
  - exists out. split; [exact Hs|]. rewrite length_replicate in Hol.
    assert (Hc : map (fun v => default "" (out !! v)) l = claims).
    { apply list_eq. intros j. rewrite list_lookup_fmap.
      destruct (l !! j) as [v|] eqn:Hj; simpl.
      - rewrite (Hin j v Hj). simpl. destruct (lookup_lt_is_Some_2 claims j) as [c Hc];
          [apply lookup_lt_Some in Hj; lia|]. by rewrite Hc.
      - apply lookup_ge_None in Hj. symmetry. apply lookup_ge_None. lia. }
    rewrite <- Hc, Hl, <- Hol. clear. apply reflexive_eq.
    apply list_eq. intros j. rewrite list_lookup_fmap.
    destruct (decide (j < length out)) as [Hj|Hj].
    + rewrite lookup_seq_lt by done. simpl.
      destruct (lookup_lt_is_Some_2 out j Hj) as [c Hc]. by rewrite Hc.
    + rewrite lookup_seq_ge by lia. apply lookup_ge_None. lia.
Qed.
End shuffle.

Section census_properties.
Context {X : Ext} {S : Type} {DB : Database S} {H : Host S}.

(** C37: dumpCensus answers with the digested keys of the members of the census,
    all of them and each once, in the order of a random permutation: when
    rand.Perm gives a permutation, no index is out of range and the answer is a
    permutation of the keys ExpandCensusMembers returned. *)
Theorem dumpCensus_permutation (request : APIrequest) (entityID censusID : bytes)
    (members : list CensusMember) (indexes : list nat) (s s1 s2 : S) :
  len (rq_SignaturePublicKey request) = PubKeyLengthBytes ->
  PubKeyToEntityID (rq_SignaturePublicKey request) = inr entityID ->
  DecodeCensusID (rq_CensusID request) (rq_SignaturePublicKey request) = inr censusID ->
  db_ExpandCensusMembers entityID censusID s = (Ok members, s1) ->
  host_Perm (length members) s1 = (Ok indexes, s2) ->
  indexes ≡ₚ seq 0 (length members) ->
  exists claims, dumpCensus request s = (Ok (set_Claims claims zero_APIresponse), s2) /\
    claims ≡ₚ map (fun m => default "" (cm_DigestedPubKey m)) members.
Proof.
  intros Hk He Hc Hm Hp Hperm.
  destruct (shuffle_permutation (St:=S) (map (fun m => default "" (cm_DigestedPubKey m)) members)
    indexes) as (claims & Hs & Hcl); [by rewrite length_map|].
  exists claims. split; [|done].
  unfold dumpCensus, requireEntityID, entityOf, decodeCensusID, bindM, onErr, liftE.
  apply Z.eqb_eq in Hk. rewrite Hk, He, Hc. unfold retM at 1 2. cbn [negb].
  rewrite Hm, Hp, Hs. done.
Qed.
End census_properties.

(** ** The e-mails of a request *)
Section mail_properties.
Context {X : Ext} {S : Type} {H : Host S}.

(* when every e-mail of a request is sent, the handler gets past its
    goroutines whatever their order: nothing panics, it holds the id of every
    member exactly once, and counts them all in its answer. *)
Lemma run_group_all_sent (rs : list Report) (response : APIresponse) (schedule : list nat)
    (s s' : S) :
  host_schedule s = (Ok schedule, s') -> rs <> [] -> existsb refused rs = false ->
  exists ids, run_group rs s = (Ok (ids, []), s') /\ ids ≡ₚ map snd rs /\
    check_mails (length rs) ids [] response s'
    = (Ok (set_Count (Z.of_nat (length rs)) response), s').
Proof.
  intros Hs Hne Hok. unfold run_group, bindM. rewrite Hs.
  set (g := drive (measure (started rs)) schedule (started rs)).
  destruct (drive_settled (programs rs) (measure (started rs)) schedule (started rs))
    as [Hruns Hsettled]; [apply programs_paired| |apply start_inv, programs_paired|done|].
  { rewrite programs_length. apply programs_dones. }
  fold g in Hruns, Hsettled. destruct (success_results rs g Hok Hruns) as (Hn & _ & Hres).
  assert (Hr : g_phase g = Received).
  { unfold settled in Hsettled. rewrite Hn in Hsettled. simpl in Hsettled.
    by destruct (g_phase g). }
  destruct (Hres Hr) as [Hids Herrs]. exists (g_sc g). rewrite Hn, Herrs.
  split_and!; [done|done|]. unfold check_mails. cbn zeta.
  apply Permutation_length in Hids. rewrite length_map in Hids.
  rewrite Hids. simpl. rewrite Nat.eqb_refl. simpl.
  destruct rs as [|r rs]; [done|]. done.
Qed.

(* the error of a ListTargets that comes with no targets, as pgsql's does
    (with_error), is lost: getMember takes the missing list for an entity
    without targets and answers with an empty target. *)
Lemma getMember_hides_errors {DB : Database S} (request : APIrequest) (entityID : bytes)
    (member : Member) (id : uuid) (err : gerror) (s s1 s2 : S) :
  rq_MemberID request = Some id ->
  len (rq_SignaturePublicKey request) = PubKeyLengthBytes ->
  PubKeyToEntityID (rq_SignaturePublicKey request) = inr entityID ->
  db_Member entityID (Some id) s = (Ok member, s1) ->
  db_ListTargets entityID s1 = (Ok ([], Some err), s2) ->
  getMember request s =
  (Ok (set_Target (Some zero_Target) (set_Member (Some member) zero_APIresponse)), s2).
Proof.
  intros Hid Hk He Hm Ht. unfold getMember, requireEntityID, entityOf, bindM, onErr, liftE, tryM.
  apply Z.eqb_eq in Hk. rewrite Hid, Hk, He. unfold retM at 1. cbn [negb bool_decide].
  simpl. rewrite Hm, Ht. unfold getMember_target. rewrite orb_true_r. done.
Qed.
End mail_properties.

(** ** Signing up again *)
Section signUp.
Context {X : Ext} {V : Env} {H : Host World}.

Lemma insert_entity_again id r r' (d : Db) :
  entities d !! id = Some r' -> in_int32 (er_size r) = true ->
  insert_entity id r d = inl (PgUnique "entities_pkey").
Proof.
  intros Hr Hs. unfold insert_entity, checked, int4. simpl. rewrite Hs.
  by rewrite bool_decide_eq_false_2 by (by rewrite Hr).
Qed.

(* the INSERT that fails leaves its transaction open *)
Lemma AddEntity_again id info r w :
  no_faults -> entities (w_db w) !! id = Some r -> in_int32 (ei_Size info) = true ->
  ei_CensusManagersAddresses info <> None -> ei_Origins info = [Token] ->
  exists w', AddEntity id info w =
      (Err (Wrapf "cannot add insert query in the transaction: " (PgUnique "entities_pkey")), w') /\
    w_db w' = w_db w /\ w_open w' = S (w_open w).
Proof.
  intros Hf Hr Hs Hc Ho. unfold AddEntity. destruct (ei_CensusManagersAddresses info); [|done].
  unfold bindM, onErr, Beginx. rewrite driver_no_fault by done. cbn [time_Now].
  unfold time_Now, liftE, ToPGEntity. cbn [e_Info]. rewrite Ho.
  change (ToPGOriginArray [Token]) with (inr (A:=gerror) (mkEnumArray ["Token"] Present)).
  cbn iota. unfold retM at 1. unfold tx_exec. rewrite driver_no_fault by done.
  erewrite insert_entity_again by done. eexists. split; [reflexivity|]. done.
Qed.

Lemma AddTarget_again id name filters r tid tr w :
  no_faults -> id <> "" -> filters <> "" -> entities (w_db w) !! id = Some r ->
  targets (w_db w) !! tid = Some tr -> tr_entity_id tr = id -> tr_name tr = name ->
  AddTarget id (mkTarget zero_CreatedUpdated uuid_Nil id name filters) w =
    (Err (Errorf "result has no rows, posible violation of db constraints"), tick w).
Proof.
  intros Hf Hid Hfil Hr Ht He Hn. unfold AddTarget. cbn [t_EntityID t_Name t_Filters].
  assert (Hl : (len id =? 0)%Z = false) by (by destruct id).
  rewrite Hl, bool_decide_eq_true_2 by done. cbn [negb].
  unfold bindM, time_Now, now_tick, db_query. rewrite driver_no_fault by done.
  unfold insert_target, checked. cbn [w_db tick first_error tr_filters tr_entity_id tr_name].
  rewrite (bool_decide_eq_false_2 (filters = "")) by done. cbn [negb].
  destruct (bool_decide (targets _ !! _ = None)); [|done].
  assert (Hex : exists_row (fun _ r' => bool_decide (tr_entity_id r' = id /\ tr_name r' = name))
                  (targets (w_db w)) = true).
  { apply not_false_iff_true. rewrite exists_row_false. intros Hall. specialize (Hall tid tr Ht).
    cbn beta in Hall. apply bool_decide_eq_false_1 in Hall. auto. }
  by rewrite Hex.
Qed.

(* signing up again is accepted and changes nothing, but it leaks: when the
    entity and its target "all" are already there, signUp answers Ok and the
    tables are as before, while the transaction of the failed INSERT stays
    open, one more connection per request. *)
Lemma signUp_again (request : APIrequest) (entityID : bytes) (r : EntityRow) (tid : uuid)
    (tr : TargetRow) (w : World) :
  no_faults -> host_SendTokens = None ->
  len (rq_SignaturePublicKey request) = PubKeyLengthBytes ->
  PubKeyToEntityID (rq_SignaturePublicKey request) = inr entityID -> entityID <> "" ->
  entities (w_db w) !! entityID = Some r ->
  targets (w_db w) !! tid = Some tr -> tr_entity_id tr = entityID -> tr_name tr = "all" ->
  in_int32 (ei_Size (signUp_info entityID (rq_Entity request))) = true ->
  (signUp request w).1 = Ok (set_Count 0 zero_APIresponse) /\
  w_db (signUp request w).2 = w_db w /\
  w_open (signUp request w).2 = S (w_open w).
Proof.
  intros Hf Hs Hk He Hne Hr Ht Hte Htn Hsz.
  destruct (AddEntity_again entityID (signUp_info entityID (rq_Entity request)) r w)
    as (w1 & Ha & Hdb & Hopen); try done; [by destruct (rq_Entity request)..|].
  unfold signUp, requireEntityID, entityOf, signUp_tokens, liftE.
  apply Z.eqb_eq in Hk. rewrite Hk, He, Hs. cbn [negb].
  unfold bindM, onErr, tryM, retM. cbn [db_AddEntity db_AddTarget pgsql]. rewrite Ha.
  cbn zeta. replace (negb _) with false by reflexivity. cbn iota.
  rewrite (AddTarget_again entityID "all" "{}" r tid tr) by (done || by rewrite Hdb).
  replace (negb _) with false by reflexivity. cbn iota. done.
Qed.
End signUp.

(** ** Witnesses *)

#[local] Existing Instance demo_ext.
#[local] Instance manager_env : Env := demo_env 1.
#[local] Instance manager_host : Host World := env_host None.

(* a request signed with the key of entity "e1" *)
Definition e1_request : APIrequest := setq_SignaturePublicKey "e1" zero_APIrequest.

Lemma manager_host_inv I P : HostInv manager_host (holds I) P.
Proof. apply env_host_inv. intros f a b c Hf _. discriminate Hf. Qed.

Lemma manager_requires_key_witness :
  let r := setq_MemberIDs [11%N] (setq_SignaturePublicKey "short" zero_APIrequest) in
  never (deleteMembers r) /\ w_db (deleteMembers r demo_world).2 = w_db demo_world.
Proof.
  intros r.
  assert (HD : DatabaseInv pgsql (holds (fun d => d = w_db demo_world)) (fun _ => False) no_key)
    by (apply pgsql_inv; intros e []).
  assert (Hm : ("deleteMembers", true, deleteMembers) ∈ manager_methods (S:=World))
    by (do 8 right; left).
  assert (Hk : len (rq_SignaturePublicKey r) <> PubKeyLengthBytes) by (vm_compute; discriminate).
  destruct (manager_requires_key "deleteMembers" true deleteMembers r _ Hm HD
              (manager_host_inv _ _) (or_intror Hk)) as [Hn Hp].
  split; [exact Hn|]. exact (proj1 (Hp demo_world eq_refl)).
Defined.

Lemma manager_read_only_witness :
  w_db (listTags e1_request demo_world).2 = w_db demo_world /\
  (listTags e1_request demo_world).1
  = Ok (set_Tags [mkTag zero_CreatedUpdated 1 "" "T"] zero_APIresponse).
Proof.
  split; [|vm_compute; reflexivity].
  apply (manager_read_only "listTags" true listTags e1_request demo_world).
  - do 24 right; left.
  - do 13 right; left.
  - intros ?. apply manager_host_inv.
Defined.

Lemma checkOptions_columns_witness :
  let f := Some (mkListOptions 5 "descend" 0 "createdAt") in
  exists pg, page_of Census_fields "name" f = inr pg /\ pg_column pg = "created_at" /\
    is_census_column (pg_column pg) = true.
Proof.
  intros f. eexists. split; [vm_compute; reflexivity|]. split; [reflexivity|].
  apply (proj1 (checkOptions_columns f _)); vm_compute; reflexivity.
Defined.

(* a census of the registered member 11 of e1, under the identifier "ab" *)
Definition census_world : World :=
  run_all [OpAddTarget "e1" (mkTarget zero_CreatedUpdated uuid_Nil "e1" "all" "{}");
           OpAddCensus "e1" "ab" (Some 2501%N) (Some (mkCensusInfo zero_CreatedUpdated "C"
             (Some "r") "u" 0 false None))] demo_world.

Definition census_request : APIrequest := setq_CensusID (EncodeToString "ab") e1_request.

Lemma dumpCensus_permutation_witness :
  exists claims, (dumpCensus census_request census_world).1
    = Ok (set_Claims claims zero_APIresponse) /\ claims ≡ₚ ["k1"].
Proof.
  destruct (db_ExpandCensusMembers "e1" "ab" census_world) as [[members|e|p] s1] eqn:E;
    [|apply (f_equal fst) in E; vm_compute in E; discriminate E..].
  pose proof (f_equal fst E) as Em. vm_compute in Em. injection Em as Hmembers.
  destruct (dumpCensus_permutation census_request "e1" "ab" members (seq 0 (length members))
              census_world s1 s1) as (claims & Hrun & Hperm).
  - vm_compute. reflexivity.
  - vm_compute. reflexivity.
  - vm_compute. reflexivity.
  - exact E.
  - reflexivity.
  - reflexivity.
  - exists claims. rewrite Hrun. split; [reflexivity|]. rewrite <- Hmembers in Hperm. exact Hperm.
Defined.

Lemma run_group_all_sent_witness :
  exists ids, ids ≡ₚ [11%N; 12%N] /\
    (run_group (S:=World) [(None, None, 11%N); (None, None, 12%N)] demo_world).1
    = Ok (ids, []).
Proof.
  destruct (run_group_all_sent (S:=World) [(None, None, 11%N); (None, None, 12%N)]
              zero_APIresponse [] demo_world demo_world) as (ids & Hrun & Hids & _);
    [reflexivity|discriminate|reflexivity|].
  exists ids. split; [exact Hids|]. rewrite Hrun. reflexivity.
Defined.

(* the driver fails when getMember asks for the targets *)
Lemma getMember_hides_errors_witness :
  let env := failing_env (w_tick demo_world + 1) in
  exists m, (getMember (DB:=pgsql (V:=env)) (setq_MemberID (Some 11%N) e1_request) demo_world).1
    = Ok (set_Target (Some zero_Target) (set_Member (Some m) zero_APIresponse)).
Proof.
  intros env. set (DB := pgsql (V:=env)).
  destruct (db_Member (Database:=DB) "e1" (Some 11%N) demo_world) as [[m|e|p] s1] eqn:E1;
    [|apply (f_equal fst) in E1; vm_compute in E1; discriminate E1..].
  destruct (db_ListTargets (Database:=DB) "e1" s1) as [[[[|t l] [e|]]|e|p] s2] eqn:E2.
  1: { exists m. rewrite (getMember_hides_errors (DB:=DB) (setq_MemberID (Some 11%N) e1_request)
         "e1" m 11%N e demo_world s1 s2); [reflexivity|reflexivity|vm_compute; reflexivity
         |vm_compute; reflexivity|exact E1|exact E2]. }
  all: exfalso; assert (Hs : s1 = (db_Member (Database:=DB) "e1" (Some 11%N) demo_world).2)
         by (rewrite E1; reflexivity);
    rewrite Hs in E2; apply (f_equal fst) in E2; vm_compute in E2; discriminate E2.
Defined.

Lemma signUp_again_witness :
  let w := (signUp e1_request initial_world).2 in
  (signUp e1_request w).1 = Ok (set_Count 0 zero_APIresponse) /\
  w_open (signUp e1_request w).2 = 1.
Proof.
  intros w.
  assert (He : exists r, entities (w_db w) !! "e1" = Some r)
    by (eexists; vm_compute; reflexivity).
  assert (Ht : exists tid tr, targets (w_db w) !! tid = Some tr /\ tr_entity_id tr = "e1" /\
                 tr_name tr = "all").
  { exists 401%N. eexists. split; [vm_compute; reflexivity|]. split; reflexivity. }
  destruct He as [r Hr]. destruct Ht as (tid & tr & Ht & Hte & Htn).
  destruct (signUp_again e1_request "e1" r tid tr w) as (H1 & _ & H3);
    [exact (demo_env_no_faults 1)|reflexivity|vm_compute; reflexivity|vm_compute; reflexivity
    |discriminate|exact Hr|exact Ht|exact Hte|exact Htn|vm_compute; reflexivity|].
  split; [exact H1|]. rewrite H3. vm_compute. reflexivity.
Defined.
