(* ===== verification/RpcApi.v ===== *)
(** * rpcapi: the table of methods and the route of a request (rpcapi/rpcapi.go,
    rpcapi/healthInfo.go, and NewAPI/EnableAPI of the three APIs)

    jsonrpcapi checks the signature of a message and calls the router; here a
    call is the message it decoded and the public key it recovered. *)
From S2P Require Import Prelude GoLib Ext Util Types Schema SchemaOk Session Tenant.
From S2P Require Import PgTypes PgOps Database TokenAPI Registry Mail Manager.

(* a.rpcAPI.RegisterMethod(name, private, skipSignature) *)
Record RpcMethod := mkRpcMethod {
  rm_name : string;
  rm_private : bool;
  rm_skipSignature : bool;
}.

(* jsonrpcapi.SignedJRPCdata *)
Record SignedJRPCdata := mkSigned {
  sd_ID : string;
  sd_Message : APIrequest;
  sd_SignaturePublicKey : bytes;
}.

(* what the route sends back *)
Inductive Reply :=
| SendError (id : string) (msg : string)
| SendReply (id : string) (response : APIresponse).

Section rpcapi.
Context {X : Ext} {S : Type}.

Definition Handler : Type := APIrequest -> M S APIresponse.

Record RPCAPI := mkRPCAPI {
  ra_APIs : list string;
  ra_methods : gmap string Handler;
  ra_registered : list RpcMethod;
  ra_allowPrivate : bool;
  (* signer.Authorized *)
  ra_authorized : gmap bytes bool;
}.

Definition RegisterPrivate (method : string) (h : Handler) (a : RPCAPI) : RPCAPI :=
  mkRPCAPI (ra_APIs a) (<[method := h]> (ra_methods a))
    (ra_registered a ++ [mkRpcMethod method true false]) (ra_allowPrivate a) (ra_authorized a).

Definition RegisterPublic (method : string) (requireSignature : bool) (h : Handler)
    (a : RPCAPI) : RPCAPI :=
  mkRPCAPI (ra_APIs a) (<[method := h]> (ra_methods a))
    (ra_registered a ++ [mkRpcMethod method false (negb requireSignature)])
    (ra_allowPrivate a) (ra_authorized a).

Definition AddMethod (method : string) (h : Handler) (a : RPCAPI) : RPCAPI :=
  mkRPCAPI (ra_APIs a) (<[method := h]> (ra_methods a)) (ra_registered a)
    (ra_allowPrivate a) (ra_authorized a).

Definition AuthorizedAddress (a : RPCAPI) (addr : option bytes) : bool :=
  match addr with
  | None => false
  | Some addr =>
      if negb (ra_allowPrivate a) then false
      else if size (ra_authorized a) =? 0 then true
      else default false (ra_authorized a !! addr)
  end.

(* getHealth reads the memory, load and sockets of the machine: an argument *)
Definition info (getHealth : M S Z) (APIs : list string) : Handler := fun _ =>
  let! health := onErr getHealth (fun err =>
    Errorf ("cannot get health status: (" +:+ error_string err +:+ ")")) in
  retM (set_Health health (set_APIList APIs zero_APIresponse)).

Definition NewAPI (getHealth : M S Z) (name : string) (allowPrivate : bool)
    (authorized : gmap bytes bool) : RPCAPI :=
  let api := mkRPCAPI [name] ∅ [] allowPrivate authorized in
  RegisterPublic "getInfo" false (info getHealth (ra_APIs api)) api.

(* the calls of RegisterPublic in an EnableAPI *)
Definition EnableAPI (methods : list (string * bool * Handler)) (a : RPCAPI) : RPCAPI :=
  foldl (fun a m => RegisterPublic m.1.1 m.1.2 m.2 a) a methods.

(* a method that is not in the table is a nil function *)
Definition lookup_method (a : RPCAPI) (method : string) : Handler :=
  match ra_methods a !! method with
  | Some h => h
  | None => fun _ => panicM "invalid memory address or nil pointer dereference"
  end.

(* BuildReply and Send are jsonrpcapi's and the router's *)
Definition route (a : RPCAPI) (request : SignedJRPCdata) : M S Reply :=
  let apiMsg := setq_SignaturePublicKey (sd_SignaturePublicKey request) (sd_Message request) in
  let! r := tryM (lookup_method a (APIrequest_GetMethod apiMsg) apiMsg) in
  match r with
  | inl err => retM (SendError (sd_ID request) (error_string err))
  | inr response => retM (SendReply (sd_ID request) (set_Ok true response))
  end.
End rpcapi.
Arguments RPCAPI S : clear implicits.
Arguments Handler S : clear implicits.

(** ** The three APIs *)
Section apis.
Context {X : Ext} {S : Type} {DB : Database S} {H : Host S}.

Definition manager_api (getHealth : M S Z) (authorized : gmap bytes bool) : RPCAPI S :=
  EnableAPI manager_methods (NewAPI getHealth "registry" false authorized).
Definition registry_api (getHealth : M S Z) (authorized : gmap bytes bool) : RPCAPI S :=
  EnableAPI registry_methods (NewAPI getHealth "registry Mobile" false authorized).
Definition tokenapi_api (getHealth : M S Z) (authorized : gmap bytes bool) : RPCAPI S :=
  EnableAPI (map fst tokenapi_methods) (NewAPI getHealth "tokenapi" false authorized).
End apis.

(** ** Lemmas *)
Section lemmas.
Context {S : Type}.

Lemma EnableAPI_methods (l : list (string * bool * Handler S)) a name :
  ra_methods (EnableAPI l a) !! name =
  match list_find (fun m => m.1.1 = name) (reverse l) with
  | Some (_, m) => Some m.2
  | None => ra_methods a !! name
  end.
Proof.
  induction l as [|m l IH] using rev_ind; [done|].
  unfold EnableAPI in *. rewrite foldl_app, reverse_app. simpl.
  destruct (decide (m.1.1 = name)) as [<-|Hn].
  - rewrite lookup_insert_eq. done.
  - rewrite lookup_insert_ne by done. rewrite IH.
    by destruct (list_find _ (reverse l)) as [[]|].
Qed.

Lemma EnableAPI_lookup (l : list (string * bool * Handler S)) a name sig h :
  NoDup (map (fun m => m.1.1) l) -> (name, sig, h) ∈ l ->
  ra_methods (EnableAPI l a) !! name = Some h.
Proof.
  intros Hnd Hin. rewrite EnableAPI_methods.
  destruct (list_find _ (reverse l)) as [[i m]|] eqn:E.
  - apply list_find_Some in E as (Hi & Hm & _). apply list_elem_of_lookup_2 in Hi.
    rewrite elem_of_reverse in Hi.
    assert (m = (name, sig, h)) as ->; [|done].
    apply list_elem_of_lookup in Hi as [i1 H1], Hin as [i2 H2].
    assert (i1 = i2) as ->.
    { eapply NoDup_lookup; [exact Hnd| |].
      - rewrite list_lookup_fmap, H1. simpl. by rewrite Hm.
      - by rewrite list_lookup_fmap, H2. }
    congruence.
  - apply list_find_None in E. rewrite Forall_forall in E.
    exfalso. apply (E (name, sig, h)); [by rewrite elem_of_reverse|done].
Qed.

Lemma EnableAPI_registered (l : list (string * bool * Handler S)) a :
  ra_registered (EnableAPI l a) =
  ra_registered a ++ map (fun m => mkRpcMethod m.1.1 false (negb m.1.2)) l.
Proof.
  revert a. induction l as [|m l IH]; intros a; simpl; [by rewrite app_nil_r|].
  rewrite IH. simpl. by rewrite <- app_assoc.
Qed.

(* every request runs a registered method or panics *)
Lemma route_preserves J (a : RPCAPI S) request :
  (forall name h, ra_methods a !! name = Some h ->
     preserves J anything (h (setq_SignaturePublicKey (sd_SignaturePublicKey request)
                                (sd_Message request)))) ->
  preserves J anything (route a request).
Proof.
  intros Hh. unfold route. apply (preserves_bind _ anything).
  - eapply preserves_weaken; [apply preserves_tryM|done].
    unfold lookup_method. destruct (ra_methods a !! _) eqn:E; [by eapply Hh|].
    by apply preserves_panic.
  - intros [err|response] _; by apply preserves_ret.
Qed.
End lemmas.

Section apis_lemmas.
Context {X : Ext} {S : Type} {DB : Database S} {H : Host S}.

Lemma manager_names : NoDup (map (fun m => m.1.1) (manager_methods (S:=S))).
Proof.
  unfold manager_methods. destruct host_SendTokens, host_smtp; cbn [map app fst];
    apply (bool_decide_unpack _); vm_compute; exact I.
Qed.

(* what a method of the manager API runs *)
Lemma manager_api_method getHealth authorized name (h : Handler S) :
  ra_methods (manager_api getHealth authorized) !! name = Some h ->
  (exists sig, (name, sig, h) ∈ manager_methods) \/ h = info getHealth ["registry"].
Proof.
  unfold manager_api.
  pose proof (EnableAPI_methods manager_methods (NewAPI getHealth "registry" false authorized)
                name) as Hl.
  intros H'. apply (eq_trans (eq_sym Hl)) in H'. revert H'.
  destruct (list_find _ _) as [[i [[n sig] h']]|] eqn:E.
  - apply list_find_Some in E as (Hi & Hn & _). simpl in Hn. subst n.
    apply list_elem_of_lookup_2 in Hi. rewrite elem_of_reverse in Hi. intros [= <-]. eauto.
  - cbn [NewAPI RegisterPublic ra_methods].
    intros [[_ <-]|[_ Hn]]%lookup_insert_Some; [by right|by rewrite lookup_empty in Hn].
Qed.

Lemma info_keeps {T} (f : S -> T) getHealth l request :
  keeps f getHealth -> keeps f (info getHealth l request).
Proof. intros Hg. unfold info. go_keeps. Qed.

Lemma manager_signed m : m ∈ manager_methods (S:=S) -> m.1.2 = true.
Proof.
  unfold manager_methods. intros Hm. apply elem_of_app in Hm as [Hm|[Hm|Hm]%elem_of_app];
    [|destruct host_SendTokens; [|by apply not_elem_of_nil in Hm]
     |destruct host_smtp; [|by apply not_elem_of_nil in Hm]];
    repeat (apply elem_of_cons in Hm as [->|Hm]; [done|]); by apply not_elem_of_nil in Hm.
Qed.
End apis_lemmas.

(** ** Properties *)
Section properties.
Context {X : Ext} {S : Type} {DB : Database S} {H : Host S}.

(* A request to the manager API is served by the handler registered under
    its method, with the public key that verified its signature in place of
    the one the message carries: the reply is the handler's answer marked Ok,
    or its error; and no method is served by another's handler. *)
Lemma manager_api_serves getHealth authorized name sig (h : Handler S) id pk
    (request : APIrequest) (s : S) :
  (name, sig, h) ∈ manager_methods -> rq_Method request = name ->
  route (manager_api getHealth authorized) (mkSigned id request pk) s =
  match h (setq_SignaturePublicKey pk request) s with
  | (Ok response, s') => (Ok (SendReply id (set_Ok true response)), s')
  | (Err err, s') => (Ok (SendError id (error_string err)), s')
  | (Panic p, s') => (Panic p, s')
  end.
Proof.
  intros Hm Hn. unfold route. cbn [sd_Message sd_ID sd_SignaturePublicKey].
  unfold APIrequest_GetMethod, lookup_method. cbn [rq_Method setq_SignaturePublicKey].
  unfold manager_api. rewrite Hn, (EnableAPI_lookup _ _ name sig h manager_names Hm).
  unfold bindM, tryM. by destruct (h _ s) as [[] ?].
Qed.

(* what can be called without a signature: in the manager and registry APIs
    only getInfo; in the token API every method, whose requests carry the hash
    of a shared secret instead. No method is private. *)
Lemma unsigned_methods getHealth authorized (m : RpcMethod) :
  (m ∈ ra_registered (manager_api (S:=S) getHealth authorized) \/
   m ∈ ra_registered (registry_api (S:=S) getHealth authorized) ->
   rm_private m = false /\ (rm_skipSignature m = true <-> rm_name m = "getInfo")) /\
  (m ∈ ra_registered (tokenapi_api (S:=S) getHealth authorized) ->
   rm_private m = false /\ rm_skipSignature m = true).
Proof.
  split; [intros [Hm|Hm]|intros Hm];
    unfold manager_api, registry_api, tokenapi_api in Hm; rewrite EnableAPI_registered in Hm;
    apply elem_of_app in Hm as [->%list_elem_of_singleton|Hm]; try done;
    apply list_elem_of_fmap in Hm as (x & -> & Hx); cbn [rm_private rm_name rm_skipSignature].
  - assert (Hs : x.1.2 = true) by exact (manager_signed x Hx). rewrite Hs. split; [done|]. split; [done|]. intros Hg.
    exfalso. revert Hx. clear -Hg. unfold manager_methods. intros Hm.
    apply elem_of_app in Hm as [Hm|[Hm|Hm]%elem_of_app];
      [|destruct host_SendTokens; [|by apply not_elem_of_nil in Hm]
       |destruct host_smtp; [|by apply not_elem_of_nil in Hm]];
      repeat (apply elem_of_cons in Hm as [->|Hm]; [done|]); by apply not_elem_of_nil in Hm.
  - unfold registry_methods in Hx.
    repeat (apply elem_of_cons in Hx as [->|Hx]; [done|]); by apply not_elem_of_nil in Hx.
  - apply list_elem_of_fmap in Hx as (y & -> & Hy). unfold tokenapi_methods in Hy.
    repeat (apply elem_of_cons in Hy as [->|Hy]; [done|]); by apply not_elem_of_nil in Hy.
Qed.

(** The address check of private calls: an address is authorized exactly
    when private calls are allowed and it is on the list of authorized
    addresses, or that list is empty. *)
Lemma AuthorizedAddress_iff (a : RPCAPI S) (addr : option bytes) :
  AuthorizedAddress a addr = true <->
  exists x, addr = Some x /\ ra_allowPrivate a = true /\
    (ra_authorized a = ∅ \/ ra_authorized a !! x = Some true).
Proof.
  unfold AuthorizedAddress. destruct addr as [x|]; [|by split; [|intros (? & ? & _)]].
  destruct (ra_allowPrivate a); simpl.
  - destruct (Nat.eqb_spec (size (ra_authorized a)) 0) as [Hz|Hz].
    + apply map_size_empty_iff in Hz. split; [eauto|done].
    + rewrite map_size_empty_iff in Hz. split.
      * destruct (ra_authorized a !! x) as [[]|] eqn:E; [|done..]. eauto.
      * by intros (y & [= <-] & _ & [?| ->]).
  - by split; [|intros (? & _ & ? & _)].
Qed.
End properties.

Section isolation.
Context {X : Ext} {V : Env} {H : Host World}.

(* a message signed by another key keeps what the statements for the other
   entities keep *)
Lemma manager_route_isolated getHealth authorized id pk (request : APIrequest) (e : bytes)
    (I : Db -> Prop) :
  (forall I, HostInv H (holds I) anything) -> keeps w_db getHealth ->
  PubKeyToEntityID pk <> inr e -> (forall e', e' <> e -> StmtInv I e' everything) ->
  preserves (holds I) anything (route (manager_api getHealth authorized) (mkSigned id request pk)).
Proof.
  intros HH Hg He HI. set (J := holds I).
  assert (HD : DatabaseInv pgsql J (fun e' => e' <> e) every_key) by (by apply pgsql_inv).
  assert (HHJ : HostInv H J anything) by apply HH.
  apply route_preserves. intros name h [[sig Hm]| ->]%manager_api_method.
  - apply (manager_methods_inv J (fun e' => e' <> e) anything name sig h); [|done|done].
    simpl. split; [congruence|done].
  - apply keeps_safe, info_keeps, Hg.
Qed.

(* tenants are isolated end to end: whatever message reaches the manager
    API, known method or not, the data of an entity other than that of the key
    which verified the signature is the same before and after. *)
Lemma manager_api_isolation getHealth authorized id pk (request : APIrequest) (e : bytes)
    (w : World) :
  (forall I, HostInv H (holds I) anything) -> keeps w_db getHealth -> sound (w_db w) ->
  PubKeyToEntityID pk <> inr e ->
  tenant e (w_db (route (manager_api getHealth authorized) (mkSigned id request pk) w).2)
  = tenant e (w_db w).
Proof.
  intros HH Hg Hs He.
  apply (tenant_is_spec e (tenant e (w_db w))), (manager_route_isolated _ authorized id pk request e);
    [done..| |by apply tenant_is_spec].
  intros e' He'. by apply tenant_inv.
Qed.
End isolation.

(** ** Witnesses *)

#[local] Existing Instance demo_ext.
#[local] Instance rpc_env : Env := demo_env 1.
#[local] Instance rpc_host : Host World := env_host None.

(* a message that names the key of e1, verified with the key of e2 *)
Definition forged_request : APIrequest :=
  setq_Method "deleteMembers" (setq_MemberIDs [11%N; 12%N]
    (setq_SignaturePublicKey "e1" zero_APIrequest)).

Lemma unsigned_methods_witness :
  let m := mkRpcMethod "deleteMembers" false false in
  m ∈ ra_registered (manager_api (S:=World) (retM 90%Z) ∅) /\
  (rm_skipSignature m = true <-> rm_name m = "getInfo").
Proof.
  intros m. assert (Hm : m ∈ ra_registered (manager_api (S:=World) (retM 90%Z) ∅)).
  { unfold manager_api. rewrite EnableAPI_registered. apply elem_of_app. right. do 8 right. left. }
  split; [exact Hm|].
  exact (proj2 (proj1 (unsigned_methods (S:=World) (retM 90%Z) ∅ m) (or_introl Hm))).
Defined.

