(* ===== verification/Interleave.v ===== *)
(** * Requests that run at the same time

    The HTTP server gives every request a goroutine of its own, and what they
    share is the database and the other services of [Host]. A handler is
    polymorphic in its state, so it also runs on a [Replay]: the states its
    calls found so far. Run on them it stops at its next call, which is how a
    thread takes one step; a schedule names the thread of each step. The calls
    of different requests interleave in every order, one call at a time. *)
From S2P Require Import Prelude Session Database.

(** ** A handler stopped at its next call *)

Record Replay (S : Type) := mkReplay {
  (* the states the next calls find, oldest first *)
  rp_past : list S;
  (* the state the last of them left *)
  rp_last : option S;
  (* the handler is at a call there is no state for *)
  rp_waiting : bool;
}.
Arguments mkReplay {S}. Arguments rp_past {S}. Arguments rp_last {S}. Arguments rp_waiting {S}.

(* a method or a service called from a thread *)
Definition call {S A} (m : M S A) : M (Replay S) A := fun r =>
  match rp_past r with
  | [] => (Panic "waiting", mkReplay [] (rp_last r) true)
  | s :: past => let '(o, s') := m s in (o, mkReplay past (Some s') (rp_waiting r))
  end.

(* the database and the services of a thread *)
Definition thread_db {S} (D : Database S) : Database (Replay S) := map_db (@call S) D.
Definition thread_host {S} (H : Host S) : Host (Replay S) := map_host (@call S) H.

Definition resume {S A} (h : M (Replay S) A) (past : list S) : outcome A * Replay S :=
  h (mkReplay past None false).

(** ** Threads and schedules *)
Section threads.
Context {S A : Type}.

Record Thread := mkThread {
  th_program : M (Replay S) A;
  th_past : list S;
}.

Definition spawn (h : M (Replay S) A) : Thread := mkThread h [].
Definition waiting (t : Thread) : bool := rp_waiting (resume (th_program t) (th_past t)).2.
(* what a thread that is not waiting returned *)
Definition answer (t : Thread) : option (outcome A) :=
  if waiting t then None else Some (resume (th_program t) (th_past t)).1.
(* the next call of a thread finds [s] *)
Definition push (s : S) (t : Thread) : Thread := mkThread (th_program t) (th_past t ++ [s]).
(* and leaves this state *)
Definition next_state (s : S) (t : Thread) : S :=
  default s (rp_last (resume (th_program t) (th_past t ++ [s])).2).

(* the shared state and the threads *)
Definition Machine : Type := S * list Thread.

Definition step (c : Machine) (i : nat) : Machine :=
  match c.2 !! i with
  | Some t => if waiting t then (next_state c.1 t, <[i := push c.1 t]> c.2) else c
  | None => c
  end.
Definition run_schedule (schedule : list nat) (c : Machine) : Machine := foldl step c schedule.

Definition launch (hs : list (M (Replay S) A)) (s : S) : Machine := (s, map spawn hs).
Definition answers (c : Machine) : list (option (outcome A)) := map answer c.2.
(* every request has its answer *)
Definition all_done (c : Machine) : bool := forallb (fun t => negb (waiting t)) c.2.
End threads.
Arguments Thread : clear implicits.
Arguments Machine : clear implicits.

(** ** Invariants of the shared state *)
Section invariant.
Context {S : Type} (J : S -> Prop).

(* the states a thread has seen, and the one it leaves *)
Definition replay_inv (r : Replay S) : Prop :=
  Forall J (rp_past r) /\ forall s, rp_last r = Some s -> J s.

Lemma call_preserves {A} (m : M S A) : preserves J anything m -> preserves replay_inv anything (call m).
Proof.
  intros Hm r [Hp Hl]. split; [|done]. unfold call. destruct (rp_past r) as [|s past]; [done|].
  apply Forall_cons in Hp as [Hs Hp]. destruct (Hm s Hs) as [Hs' _].
  destruct (m s) as [o s']; simpl in *. split; [done|]. by intros ? [= <-].
Qed.

Lemma thread_db_inv (D : Database S) E K :
  DatabaseInv D J E K -> DatabaseInv (thread_db D) replay_inv E K.
Proof. apply map_db_inv, @call_preserves. Qed.
Lemma thread_host_inv (H : Host S) P : HostInv H J P -> HostInv (thread_host H) replay_inv P.
Proof. apply map_host_inv, @call_preserves. Qed.

(* what every request keeps when it runs alone, all of them keep together *)
Lemma run_schedule_inv {A} (hs : list (M (Replay S) A)) schedule s :
  Forall (preserves replay_inv anything) hs -> J s -> J (run_schedule schedule (launch hs s)).1.
Proof.
  intros Hhs Hs.
  assert (Hc : J (launch hs s).1 /\
    Forall (fun t => preserves replay_inv anything (th_program t) /\ Forall J (th_past t))
      (launch hs s).2).
  { split; [done|]. apply Forall_map. by eapply Forall_impl; [exact Hhs|]. }
  revert Hc. generalize (launch hs s). induction schedule as [|i schedule IH]; intros c; [by intros []|].
  intros [Hc1 Hc2]. apply IH. unfold step. destruct (c.2 !! i) as [t|] eqn:Et; [|done].
  destruct (waiting t); [|done]. destruct (Forall_lookup_1 _ _ _ _ Hc2 Et) as [Hp Hl].
  assert (Hl' : Forall J (th_past t ++ [c.1])) by (by apply Forall_app; split; [|constructor]).
  split.
  - unfold next_state, resume.
    destruct (Hp (mkReplay (th_past t ++ [c.1]) None false)) as [[_ Hlast] _]; [by split|].
    destruct (rp_last _) as [s'|]; [by apply Hlast|done].
  - by apply Forall_insert.
Qed.
End invariant.

(** ** Handlers as sequences of calls *)
Section replays.
Context {S : Type}.

(* [h] is [m] on replays: both end with [o], or both make one call and go on *)
Inductive replays {A} : M S A -> M (Replay S) A -> Prop :=
| replays_done m h o :
    (forall s, m s = (o, s)) -> (forall r, h r = (o, r)) -> replays m h
| replays_call m h (next : S -> S) (k : S -> M S A) (k' : S -> M (Replay S) A) :
    (forall s, m s = k s (next s)) ->
    (forall last w, h (mkReplay [] last w) = (Panic "waiting", mkReplay [] last true)) ->
    (forall s past last w, h (mkReplay (s :: past) last w) = k' s (mkReplay past (Some (next s)) w)) ->
    (forall s, replays (k s) (k' s)) -> replays m h.

Lemma replays_ext {A} (m m' : M S A) h h' :
  replays m h -> (forall s, m' s = m s) -> (forall r, h' r = h r) -> replays m' h'.
Proof.
  intros H Hm Hh. destruct H as [m h o H1 H2|m h next k k' H1 H2 H3 H4].
  - eapply replays_done; intros; [by rewrite Hm|by rewrite Hh].
  - eapply replays_call; intros; [rewrite Hm; apply H1|rewrite Hh; apply H2
      |rewrite Hh; apply H3|apply H4].
Qed.

Lemma replays_ret {A} (a : A) : replays (retM a) (retM a).
Proof. by eapply replays_done. Qed.
Lemma replays_fail {A} e : replays (failM (A:=A) e) (failM e).
Proof. by eapply replays_done. Qed.
Lemma replays_panic {A} p : replays (panicM (A:=A) p) (panicM p).
Proof. by eapply replays_done. Qed.
Lemma replays_lift {A} (r : gerror + A) : replays (liftE r) (liftE r).
Proof. destruct r; [apply replays_fail|apply replays_ret]. Qed.

Lemma replays_one {A} (m : M S A) : replays m (call m).
Proof.
  eapply (replays_call _ _ (fun s => (m s).2) (fun s s' => ((m s).1, s')) (fun s r => ((m s).1, r))).
  - intros s. by destruct (m s).
  - done.
  - intros s past last w. unfold call. simpl. by destruct (m s).
  - intros s. by eapply replays_done.
Qed.

(* a function of the outcome, that may go on *)
Lemma replays_then {A B} (m : M S A) h (f : outcome A -> M S B) f' :
  replays m h -> (forall o, replays (f o) (f' o)) -> f' (Panic "waiting") = panicM "waiting" ->
  replays (fun s => f (m s).1 (m s).2) (fun r => f' (h r).1 (h r).2).
Proof.
  intros H Hf Hp. induction H as [m h o H1 H2|m h next k k' H1 H2 H3 H4 IH].
  - eapply replays_ext; [apply (Hf o)|intros s; by rewrite H1|intros r; by rewrite H2].
  - eapply (replays_call _ _ next (fun s s' => f (k s s').1 (k s s').2)
              (fun s r => f' (k' s r).1 (k' s r).2)); intros; [by rewrite H1| |by rewrite H3|apply IH].
    rewrite H2. simpl. by rewrite Hp.
Qed.

Lemma replays_bind {A B} (m : M S A) h (k : A -> M S B) k' :
  replays m h -> (forall a, replays (k a) (k' a)) -> replays (bindM m k) (bindM h k').
Proof.
  intros H Hk.
  eapply replays_ext; [eapply (replays_then m h
      (fun o => match o with Ok a => k a | Err e => failM e | Panic p => panicM p end)
      (fun o => match o with Ok a => k' a | Err e => failM e | Panic p => panicM p end));
      [exact H| |done]|..].
  - intros [a|e|p]; [apply Hk|apply replays_fail|apply replays_panic].
  - intros s. unfold bindM. by destruct (m s) as [[] ?].
  - intros r. unfold bindM. by destruct (h r) as [[] ?].
Qed.

Lemma replays_tryM {A} (m : M S A) h : replays m h -> replays (tryM m) (tryM h).
Proof.
  intros H.
  eapply replays_ext; [eapply (replays_then m h
      (fun o => match o with Ok a => retM (inr a) | Err e => retM (inl e) | Panic p => panicM p end)
      (fun o => match o with Ok a => retM (inr a) | Err e => retM (inl e) | Panic p => panicM p end));
      [exact H| |done]|..].
  - intros [a|e|p]; [apply replays_ret|apply replays_ret|apply replays_panic].
  - intros s. unfold tryM. by destruct (m s) as [[] ?].
  - intros r. unfold tryM. by destruct (h r) as [[] ?].
Qed.

Lemma replays_onErr {A} (m : M S A) h f : replays m h -> replays (onErr m f) (onErr h f).
Proof.
  intros H.
  eapply replays_ext; [eapply (replays_then m h
      (fun o => match o with Ok a => retM a | Err e => failM (f e) | Panic p => panicM p end)
      (fun o => match o with Ok a => retM a | Err e => failM (f e) | Panic p => panicM p end));
      [exact H| |done]|..].
  - intros [a|e|p]; [apply replays_ret|apply replays_fail|apply replays_panic].
  - intros s. unfold onErr. by destruct (m s) as [[] ?].
  - intros r. unfold onErr. by destruct (h r) as [[] ?].
Qed.

Lemma replays_mapM_ {A B} (f : A -> M S B) f' l :
  (forall x, replays (f x) (f' x)) -> replays (mapM_ f l) (mapM_ f' l).
Proof.
  intros Hf. induction l as [|x l IH]; simpl; [apply replays_ret|].
  apply replays_bind; [apply Hf|]. intros y. apply replays_bind; [exact IH|]. intros ys.
  apply replays_ret.
Qed.

Lemma replays_deref {A} (p : option A) : replays (deref p) (deref p).
Proof. destruct p; [apply replays_ret|apply replays_panic]. Qed.
End replays.

Create HintDb replays discriminated.
#[export] Hint Resolve replays_ret replays_fail replays_panic replays_lift replays_one
  replays_mapM_ replays_deref : replays.

(** ** What a step of a thread does *)
Section steps.
Context {S A : Type}.
Implicit Types (h : M (Replay S) A) (t : Thread S A).

(* at the end of its states a handler leaves the state of its last call *)
Definition stops h : Prop := forall last w, rp_last (h (mkReplay [] last w)).2 = last.

Lemma replays_stops (m : M S A) h : replays m h -> stops h.
Proof. by intros [m' h' o _ H|m' h' next k k' _ H _ _] last w; rewrite H. Qed.

(* after the calls of [past], [h] goes on as [h'] *)
Definition left_of h (past : list S) h' : Prop := forall q last w,
  exists last', h (mkReplay (past ++ q) last w) = h' (mkReplay q last' w).

Lemma left_of_start h : left_of h [] h.
Proof. intros q last w. by exists last. Qed.

(* a handler at its end *)
Lemma left_of_done h past h' o :
  left_of h past h' -> (forall r, h' r = (o, r)) ->
  waiting (mkThread h past) = false /\ answer (mkThread h past) = Some o.
Proof.
  intros Hl Hd. unfold answer, waiting, resume. simpl.
  destruct (Hl [] None false) as [last Hlast]. rewrite app_nil_r in Hlast.
  by rewrite Hlast, Hd.
Qed.

(* a handler at a call *)
Lemma left_of_call h past h' (next : S -> S) k' :
  left_of h past h' ->
  (forall last w, h' (mkReplay [] last w) = (Panic "waiting", mkReplay [] last true)) ->
  (forall s past last w, h' (mkReplay (s :: past) last w) = k' s (mkReplay past (Some (next s)) w)) ->
  (forall s, stops (k' s)) ->
  waiting (mkThread h past) = true /\
  forall s, next_state s (mkThread h past) = next s /\ left_of h (past ++ [s]) (k' s).
Proof.
  intros Hl H2 H3 H4. split.
  { unfold waiting, resume. simpl. destruct (Hl [] None false) as [last Hlast].
    rewrite app_nil_r in Hlast. by rewrite Hlast, H2. }
  intros s. split.
  - unfold next_state, resume. simpl. destruct (Hl [s] None false) as [last Hlast].
    rewrite Hlast, H3, H4. done.
  - intros q last w. rewrite <- app_assoc. destruct (Hl ([s] ++ q) last w) as [last' Hl'].
    exists (Some (next s)). rewrite Hl'. simpl. apply H3.
Qed.

Lemma step_waiting (c : Machine S A) i t :
  c.2 !! i = Some t -> waiting t = true ->
  step c i = (next_state c.1 t, <[i := push c.1 t]> c.2).
Proof. intros Ht Hw. unfold step. by rewrite Ht, Hw. Qed.
Lemma step_idle (c : Machine S A) i t :
  c.2 !! i = Some t -> waiting t = false -> step c i = c.
Proof. intros Ht Hw. unfold step. by rewrite Ht, Hw. Qed.
Lemma run_idle (c : Machine S A) i t n :
  c.2 !! i = Some t -> waiting t = false -> run_schedule (replicate n i) c = c.
Proof.
  intros Ht Hw. induction n as [|n IH]; [done|]. simpl. by rewrite (step_idle c i t).
Qed.
Lemma step_length (c : Machine S A) i : length (step c i).2 = length c.2.
Proof.
  unfold step. destruct (c.2 !! i) as [t|]; [|done]. destruct (waiting t); [|done].
  apply length_insert.
Qed.
Lemma run_schedule_length schedule (c : Machine S A) :
  length (run_schedule schedule c).2 = length c.2.
Proof.
  revert c. induction schedule as [|i schedule IH]; intros c; [done|]. simpl.
  by rewrite IH, step_length.
Qed.
(* once nobody waits, everybody has an answer *)
Lemma all_answered (c : Machine S A) i :
  all_done c = true -> i < length c.2 -> exists o, answers c !! i = Some (Some o).
Proof.
  intros Hd [t Ht]%lookup_lt_is_Some_2. unfold all_done in Hd. rewrite forallb_forall in Hd.
  specialize (Hd t (proj1 (list_elem_of_In _ _) (list_elem_of_lookup_2 _ _ _ Ht))).
  unfold answers. rewrite list_lookup_fmap, Ht. simpl. unfold answer.
  destruct (waiting t); [done|]. by eexists.
Qed.
Lemma run_schedule_app l1 l2 (c : Machine S A) :
  run_schedule (l1 ++ l2) c = run_schedule l2 (run_schedule l1 c).
Proof. apply foldl_app. Qed.
End steps.

(** ** Requests served one after the other *)
Section serial.
Context {S A : Type}.

Fixpoint one_by_one (ms : list (M S A)) (s : S) : S * list (outcome A) :=
  match ms with
  | [] => (s, [])
  | m :: ms => let '(o, s') := m s in
               let '(s'', os) := one_by_one ms s' in (s'', o :: os)
  end.

(* each thread in its turn, with as many steps as it is given *)
Definition in_turn (counts : list nat) : list nat :=
  concat (imap (fun i n => replicate n i) counts).

(* one thread alone does what its request does *)
Lemma run_alone (m : M S A) h' :
  replays m h' -> forall h past s (ts : list (Thread S A)) i,
  left_of h past h' -> ts !! i = Some (mkThread h past) ->
  exists n t, answer t = Some (m s).1 /\ forall k, n <= k ->
    run_schedule (replicate k i) (s, ts) = ((m s).2, <[i := t]> ts).
Proof.
  induction 1 as [m h' o H1 H2|m h' next k k' H1 H2 H3 H4 IH]; intros h past s ts i Hl Ht.
  - destruct (left_of_done _ _ _ _ Hl H2) as [Hw Ha]. exists 0, (mkThread h past).
    rewrite H1. split; [done|]. intros n _.
    rewrite (run_idle (s, ts) i _ n Ht Hw). by rewrite list_insert_id.
  - destruct (left_of_call _ _ _ _ _ Hl H2 H3) as [Hw Hs]; [eauto using replays_stops|].
    destruct (Hs s) as [Hn Hl'].
    assert (Hi : i < length ts) by (by apply lookup_lt_Some in Ht).
    destruct (IH s h (past ++ [s]) (next s) (<[i := mkThread h (past ++ [s])]> ts) i Hl')
      as (n & t & Ha & Hrun); [by apply list_lookup_insert_eq|].
    exists (1 + n), t. rewrite H1. split; [exact Ha|]. intros [|j] Hj; [lia|]. simpl.
    rewrite (step_waiting (s, ts) _ _ Ht Hw). unfold push. simpl. rewrite Hn, Hrun by lia.
    by rewrite list_insert_insert_eq.
Qed.

Lemma run_in_turn ms hs : Forall2 replays ms hs -> forall (ended : list (Thread S A)) (s : S),
  exists ns ts, length ns = length ms /\ map answer ts = map Some (one_by_one ms s).2 /\
    forall counts, Forall2 le ns counts ->
      run_schedule (concat (imap (fun i n => replicate n (length ended + i)) counts))
        (s, ended ++ map spawn hs) = ((one_by_one ms s).1, ended ++ ts).
Proof.
  induction 1 as [|m h ms hs Hm _ IH]; intros ended s; simpl.
  { exists [], []. split; [done|]. split; [done|]. by intros counts ->%Forall2_nil_inv_l. }
  destruct (run_alone m h Hm h [] s (ended ++ spawn h :: map spawn hs) (length ended)
    (left_of_start h)) as (n & t & Ha & Hn); [by apply list_lookup_middle|].
  destruct (IH (ended ++ [t]) (m s).2) as (ns & ts & Hlen & Hts & Hrun).
  destruct (m s) as [o s']. simpl in *. destruct (one_by_one ms s') as [s'' os]. simpl in *.
  exists (n :: ns), (t :: ts). split; [simpl; lia|]. split; [simpl; by rewrite Ha, Hts|].
  intros counts Hc. apply Forall2_cons_inv_l in Hc as (k & counts' & Hk & Hc & ->).
  rewrite imap_cons. simpl. rewrite run_schedule_app, Nat.add_0_r, Hn by done.
  rewrite insert_app_r_alt, Nat.sub_diag by done. simpl.
  replace (ended ++ t :: ts) with ((ended ++ [t]) ++ ts) by (by rewrite <- app_assoc).
  rewrite <- (Hrun counts' Hc), length_app, <- (app_assoc ended). simpl. f_equal.
  f_equal. apply imap_ext. intros j x _. simpl. f_equal. lia.
Qed.

(* requests that do not overlap are served as if there were no threads *)
Lemma serial_run ms hs s :
  Forall2 replays ms hs ->
  exists ns, length ns = length ms /\ forall counts, Forall2 le ns counts ->
    let c := run_schedule (in_turn counts) (launch hs s) in
    c.1 = (one_by_one ms s).1 /\ answers c = map Some (one_by_one ms s).2.
Proof.
  intros H. destruct (run_in_turn ms hs H [] s) as (ns & ts & Hl & Ha & Hrun).
  exists ns. split; [exact Hl|]. intros counts Hc. specialize (Hrun counts Hc). simpl in Hrun.
  unfold in_turn, launch, answers. rewrite Hrun. by split.
Qed.
End serial.

(** ** What threads do together

    Each thread has a ghost state that its calls move: [does T Q g h] says that
    from [g] the calls of [h] move it, and the shared state, as [T] says, and
    that [h] ends with an outcome that [Q] relates to the ghost state it is in.
    An invariant of the shared state and all the ghost states, kept by every
    such move, then holds whatever the schedule. *)
Section does.
Context {S G : Type} (T : G -> S -> G -> S -> Prop).

Inductive does {A} (Q : G -> outcome A -> Prop) : G -> M (Replay S) A -> Prop :=
| does_done g h o : (forall r, h r = (o, r)) -> Q g o -> does Q g h
| does_call g h (next : S -> S) (move : S -> G) (k : S -> M (Replay S) A) :
    (forall last w, h (mkReplay [] last w) = (Panic "waiting", mkReplay [] last true)) ->
    (forall s past last w, h (mkReplay (s :: past) last w) = k s (mkReplay past (Some (next s)) w)) ->
    (forall s, T g s (move s) (next s)) -> (forall s, does Q (move s) (k s)) -> does Q g h.

Lemma does_stops {A} (Q : G -> outcome A -> Prop) g h : does Q g h -> stops h.
Proof. by intros [g' h' o H _|g' h' next move k H _ _ _] last w; rewrite H. Qed.

Lemma does_ext {A} (Q : G -> outcome A -> Prop) g h h' :
  does Q g h -> (forall r, h' r = h r) -> does Q g h'.
Proof.
  intros H Hh. destruct H as [g h o H1 H2|g h next move k H1 H2 H3 H4].
  - eapply does_done; [intros r; by rewrite Hh|done].
  - eapply does_call; [intros; rewrite Hh; apply H1|intros; rewrite Hh; apply H2|done..].
Qed.

Lemma does_ret {A} (Q : G -> outcome A -> Prop) g a : Q g (Ok a) -> does Q g (retM a).
Proof. by apply does_done. Qed.
Lemma does_fail {A} (Q : G -> outcome A -> Prop) g e : Q g (Err e) -> does Q g (failM e).
Proof. by apply does_done. Qed.
(* one call *)
Lemma does_one {A} (Q : G -> outcome A -> Prop) g (m : M S A) (move : S -> G) :
  (forall s, T g s (move s) (m s).2 /\ Q (move s) (m s).1) -> does Q g (call m).
Proof.
  intros Hm. eapply (does_call _ _ _ (fun s => (m s).2) move (fun s r => ((m s).1, r))).
  - done.
  - intros s past last w. unfold call. simpl. by destruct (m s).
  - apply Hm.
  - intros s. by eapply does_done; [|apply Hm].
Qed.

(* a function of the outcome, that may go on *)
Lemma does_then {A B} (P : G -> outcome A -> Prop) (Q : G -> outcome B -> Prop) g h
    (f : outcome A -> M (Replay S) B) :
  does P g h -> (forall g' o, P g' o -> does Q g' (f o)) ->
  f (Panic "waiting") = panicM "waiting" -> does Q g (fun r => f (h r).1 (h r).2).
Proof.
  intros H Hf Hp. induction H as [g h o H1 H2|g h next move k H1 H2 H3 _ IH].
  - eapply does_ext; [by apply (Hf g o)|intros r; by rewrite H1].
  - eapply (does_call _ _ _ next move (fun s r => f (k s r).1 (k s r).2)); intros.
    + rewrite H1. simpl. by rewrite Hp.
    + by rewrite H2.
    + done.
    + apply IH.
Qed.

Lemma does_bind {A B} (P : G -> outcome A -> Prop) (Q : G -> outcome B -> Prop) g h
    (k : A -> M (Replay S) B) :
  does P g h -> (forall g' a, P g' (Ok a) -> does Q g' (k a)) ->
  (forall g' e, P g' (Err e) -> Q g' (Err e)) -> (forall g' p, P g' (Panic p) -> Q g' (Panic p)) ->
  does Q g (bindM h k).
Proof.
  intros H Hk He Hp.
  eapply does_ext; [eapply (does_then P Q g h
      (fun o => match o with Ok a => k a | Err e => failM e | Panic p => panicM p end));
      [exact H| |done]|].
  - intros g' [a|e|p] HP; [by apply Hk|eapply does_done; [done|by apply He]
      |eapply does_done; [done|by apply Hp]].
  - intros r. unfold bindM. by destruct (h r) as [[] ?].
Qed.

Lemma does_tryM {A} (P : G -> outcome A -> Prop) (Q : G -> outcome (gerror + A) -> Prop) g h :
  does P g h ->
  (forall g' o, P g' o -> Q g' (match o with Ok a => Ok (inr a) | Err e => Ok (inl e) | Panic p => Panic p end)) ->
  does Q g (tryM h).
Proof.
  intros H HQ.
  eapply does_ext; [eapply (does_then P Q g h
      (fun o => match o with Ok a => retM (inr a) | Err e => retM (inl e) | Panic p => panicM p end));
      [exact H| |done]|].
  - intros g' o HP. specialize (HQ g' o HP). destruct o; by eapply does_done.
  - intros r. unfold tryM. by destruct (h r) as [[] ?].
Qed.

Lemma does_onErr {A} (P Q : G -> outcome A -> Prop) g h f :
  does P g h ->
  (forall g' o, P g' o -> Q g' (match o with Err e => Err (f e) | o => o end)) ->
  does Q g (onErr h f).
Proof.
  intros H HQ.
  eapply does_ext; [eapply (does_then P Q g h
      (fun o => match o with Ok a => retM a | Err e => failM (f e) | Panic p => panicM p end));
      [exact H| |done]|].
  - intros g' o HP. specialize (HQ g' o HP). destruct o; by eapply does_done.
  - intros r. unfold onErr. by destruct (h r) as [[] ?].
Qed.

Lemma does_weaken {A} (P Q : G -> outcome A -> Prop) g h :
  does P g h -> (forall g' o, P g' o -> Q g' o) -> does Q g h.
Proof.
  induction 1 as [g h o H1 H2|g h next move k H1 H2 H3 _ IH]; intros HQ.
  - eapply does_done; auto.
  - eapply does_call; eauto.
Qed.
End does.

Section together.
Context {S A G : Type} (T : nat -> G -> S -> G -> S -> Prop) (Q : G -> outcome A -> Prop).
Context (J : list G -> S -> Prop).
Hypothesis moves : forall i g g' gs s s',
  gs !! i = Some g -> J gs s -> T i g s g' s' -> J (<[i := g']> gs) s'.

(* the threads of [c] are at the ghost states [gs] *)
Definition tracked (c : Machine S A) (gs : list G) : Prop :=
  forall i t, c.2 !! i = Some t -> exists g h', gs !! i = Some g /\
    left_of (th_program t) (th_past t) h' /\ does (T i) Q g h'.

Lemma tracked_step c gs i :
  tracked c gs -> J gs c.1 -> exists gs', tracked (step c i) gs' /\ J gs' (step c i).1.
Proof.
  intros Hc HJ. unfold step. destruct (c.2 !! i) as [[h past]|] eqn:Et; [|eauto].
  destruct (Hc i _ Et) as (g & h' & Hg & Hl & Hd). simpl in Hl.
  destruct Hd as [g h' o H1 H2|g h' next move k H1 H2 H3 H4].
  { destruct (left_of_done _ _ _ _ Hl H1) as [-> _]. eauto. }
  destruct (left_of_call _ _ _ _ _ Hl H1 H2) as [-> Hs]; [eauto using does_stops|].
  destruct (Hs c.1) as [-> Hl']. exists (<[i := move c.1]> gs). simpl. split.
  - intros j t Hj. apply list_lookup_insert_Some in Hj as [(<- & <- & Hi)|[Hne Hj]].
    + exists (move c.1), (k c.1). split_and!; [|exact Hl'|apply H4].
      apply list_lookup_insert_eq. by apply lookup_lt_Some in Hg.
    + destruct (Hc j t Hj) as (gj & hj & Hgj & Hrest). exists gj, hj.
      by rewrite list_lookup_insert_ne.
  - by apply (moves i g _ gs c.1).
Qed.

Lemma tracked_answer c gs i o :
  tracked c gs -> answers c !! i = Some (Some o) -> exists g, gs !! i = Some g /\ Q g o.
Proof.
  intros Hc Ha. unfold answers in Ha. rewrite list_lookup_fmap in Ha.
  apply fmap_Some in Ha as ([h past] & Et & Ha). destruct (Hc i _ Et) as (g & h' & Hg & Hl & Hd).
  exists g. split; [done|]. simpl in Hl. destruct Hd as [g h' o' H1 H2|g h' next move k H1 H2 H3 H4].
  - destruct (left_of_done _ _ _ _ Hl H1) as [_ Ho]. congruence.
  - destruct (left_of_call _ _ _ _ _ Hl H1 H2) as [Hw _]; [eauto using does_stops|].
    unfold answer in Ha. by rewrite Hw in Ha.
Qed.

(* the answers and the shared state after any schedule *)
Lemma together hs gs s schedule :
  (forall i h, hs !! i = Some h -> exists g, gs !! i = Some g /\ does (T i) Q g h) -> J gs s ->
  let c := run_schedule schedule (launch hs s) in
  exists gs', J gs' c.1 /\
    forall i o, answers c !! i = Some (Some o) -> exists g, gs' !! i = Some g /\ Q g o.
Proof.
  intros Hhs HJ c.
  assert (Hc : exists gs', tracked c gs' /\ J gs' c.1).
  2: { destruct Hc as (gs' & Hc & HJ'). exists gs'. split; [done|]. intros i o. by apply tracked_answer. }
  assert (Hl : tracked (launch hs s) gs).
  { intros i t Ht. unfold launch in Ht. simpl in Ht. rewrite list_lookup_fmap in Ht.
    apply fmap_Some in Ht as (h & Hh & ->). destruct (Hhs i h Hh) as (g & Hg & Hd).
    exists g, h. split; [done|]. split; [apply left_of_start|done]. }
  unfold c. clear c Hhs. change s with (launch hs s).1 in HJ. revert gs Hl HJ.
  generalize (launch hs s) as c.
  induction schedule as [|i schedule IH]; intros c gs Hl HJ; simpl; [eauto|].
  destruct (tracked_step c gs i Hl HJ) as (gs' & Hl' & HJ'). by apply (IH _ gs').
Qed.
End together.

(** ** All the schedules of some requests *)
Section explore.
Context {S A : Type} (P : Machine S A -> bool).

(* [P] in every state where all have their answers, over all the schedules
   whose steps all advance a thread *)
Fixpoint explore (fuel : nat) (c : Machine S A) : bool :=
  if all_done c then P c else
  match fuel with
  | 0 => false
  | Datatypes.S fuel =>
      forallb (fun i => match c.2 !! i with
                        | Some t => if waiting t then explore fuel (step c i) else true
                        | None => true
                        end) (seq 0 (length c.2))
  end.

Lemma explore_sound fuel c schedule :
  explore fuel c = true -> all_done (run_schedule schedule c) = true ->
  P (run_schedule schedule c) = true.
Proof.
  revert fuel c. induction schedule as [|i schedule IH]; intros fuel c He Hd.
  { simpl in *. destruct fuel; simpl in He; by rewrite Hd in He. }
  simpl in *. destruct (c.2 !! i) as [t|] eqn:Ht.
  2: { unfold step in *. rewrite Ht in *. by apply (IH fuel). }
  destruct (waiting t) eqn:Hw.
  2: { rewrite (step_idle _ _ _ Ht Hw) in *. by apply (IH fuel). }
  assert (Hn : all_done c = false).
  { apply not_true_iff_false. intros Hall. unfold all_done in Hall. rewrite forallb_forall in Hall.
    specialize (Hall t (proj1 (list_elem_of_In _ _) (list_elem_of_lookup_2 _ _ _ Ht))).
    by rewrite Hw in Hall. }
  destruct fuel as [|fuel]; simpl in He; rewrite Hn in He; [done|].
  rewrite forallb_forall in He. specialize (He i). rewrite Ht, Hw in He.
  apply (IH fuel); [|done]. apply He, in_seq. apply lookup_lt_Some in Ht. lia.
Qed.
End explore.
