(* ===== verification/Concurrent.v ===== *)
(** * The three APIs under concurrent requests

    Every handler of Manager, Registry and TokenAPI, and the route of RpcApi,
    is a sequence of calls of [Database] and [Host] ([replays]); the requests
    of a server are the threads of Interleave. What is proved here holds for
    every schedule of the calls of all the requests. *)
From S2P Require Import Prelude GoLib Ext Util Types Schema SchemaOk Session Tenant Keys.
From S2P Require Import PgTypes PgEntities PgMembers PgQueries PgTags PgOps Database TokenAPI Registry Roster Mail Manager RpcApi.
From S2P Require Import Interleave.

Ltac go_replays :=
  intros; repeat (cbn beta zeta; first
    [ solve [eauto with replays]
    | apply replays_bind; [|intros ?]
    | apply replays_onErr | apply replays_tryM | apply replays_mapM_; intros ?
    | apply replays_one
    | progress go_case ]).

(** ** The handlers *)
Section handlers.
Context {X : Ext} {S : Type} {DB : Database S} {H : Host S}.
Abbreviation TDB := (thread_db DB).
Abbreviation TH := (thread_host H).

Lemma shuffle_replays claims l :
  replays (shuffle (S:=S) claims l) (shuffle (S:=Replay S) claims l).
Proof.
  unfold shuffle. generalize (zip (seq 0 (length l)) l). intros iv.
  assert (Hacc : replays (retM (S:=S) (replicate (length claims) "")) (retM (replicate (length claims) "")))
    by apply replays_ret.
  revert Hacc. generalize (retM (S:=S) (replicate (length claims) "")).
  generalize (retM (S:=Replay S) (replicate (length claims) "")).
  induction iv as [|[i v] iv IH]; intros acc' acc Hacc; simpl; [done|]. apply IH.
  unfold shuffle_step. apply replays_bind; [exact Hacc|]. go_replays.
Qed.

Lemma entityOf_replays pk msg : replays (entityOf (S:=S) pk msg) (entityOf (S:=Replay S) pk msg).
Proof. unfold entityOf. go_replays. Qed.
Lemma decodeCensusID_replays r : replays (decodeCensusID (S:=S) r) (decodeCensusID (S:=Replay S) r).
Proof. unfold decodeCensusID. go_replays. Qed.
Lemma getMember_target_replays r :
  replays (getMember_target (S:=S) r) (getMember_target (S:=Replay S) r).
Proof. unfold getMember_target. go_replays. Qed.
Lemma run_group_replays rs : replays (run_group (H:=H) rs) (run_group (H:=TH) rs).
Proof. unfold run_group. go_replays. Qed.
Lemma check_mails_replays n ids errors r :
  replays (check_mails (S:=S) n ids errors r) (check_mails (S:=Replay S) n ids errors r).
Proof. unfold check_mails. go_replays. Qed.
Lemma signUp_tokens_replays e :
  replays (signUp_tokens (H:=H) e) (signUp_tokens (H:=TH) e).
Proof.
  unfold signUp_tokens. simpl. destruct (host_SendTokens (Host:=H)); simpl; go_replays.
Qed.
End handlers.

#[export] Hint Resolve shuffle_replays entityOf_replays decodeCensusID_replays
  getMember_target_replays run_group_replays check_mails_replays signUp_tokens_replays : replays.

Section methods.
Context {X : Ext} {S : Type} {DB : Database S} {H : Host S}.
Abbreviation TDB := (thread_db DB).
Abbreviation TH := (thread_host H).

Lemma assign_tag_replays e n l : replays (assign_tag (DB:=DB) e n l) (assign_tag (DB:=TDB) e n l).
Proof. unfold assign_tag. go_replays. Qed.
Lemma send_voting_links_replays l e p :
  replays (send_voting_links (H:=H) l e p) (send_voting_links (H:=TH) l e p).
Proof. unfold send_voting_links. go_replays. Qed.
Lemma send_validation_links_replays l e :
  replays (send_validation_links (H:=H) l e) (send_validation_links (H:=TH) l e).
Proof. unfold send_validation_links. go_replays. Qed.
Lemma fail_counted_replays {A} l msg :
  replays (fail_counted (A:=A) (H:=H) l msg) (fail_counted (A:=A) (H:=TH) l msg).
Proof. unfold fail_counted. go_replays. Qed.
Lemma requireSecret_replays e : replays (requireSecret (DB:=DB) e) (requireSecret (DB:=TDB) e).
Proof. unfold requireSecret, getSecret. go_replays. Qed.
Lemma requireAuth_replays r f : replays (requireAuth (H:=H) r f) (requireAuth (H:=TH) r f).
Proof. unfold requireAuth, checkAuth. go_replays. Qed.
Lemma requireToken_replays r : replays (requireToken (S:=S) r) (requireToken (S:=Replay S) r).
Proof. unfold requireToken. go_replays. Qed.
Hint Resolve assign_tag_replays send_voting_links_replays send_validation_links_replays
  fail_counted_replays requireSecret_replays requireAuth_replays requireToken_replays : replays.

(* the same method in the two tables *)
Definition same_method (a : string * bool * Handler S) (b : string * bool * Handler (Replay S)) : Prop :=
  a.1 = b.1 /\ forall r, replays (a.2 r) (b.2 r).

Lemma manager_replays :
  Forall2 same_method (manager_methods (DB:=DB) (H:=H)) (manager_methods (DB:=TDB) (H:=TH)).
Proof.
  unfold manager_methods. repeat apply Forall2_app.
  - repeat (apply Forall2_cons; split; [split; [reflexivity|intros r; cbn [snd]]|]); [..|constructor].
    all: unfold_handlers; go_replays.
  - simpl. destruct (host_SendTokens (Host:=H)) eqn:Hs; simpl; [|constructor].
    apply Forall2_cons. split; [|constructor]. split; [reflexivity|]. intros r. cbn [snd].
    unfold requestGas, requireEntityID. simpl. rewrite Hs. simpl. go_replays.
  - simpl. destruct (host_smtp (Host:=H)); [|constructor].
    repeat (apply Forall2_cons; split; [split; [reflexivity|intros r; cbn [snd]]|]); [..|constructor].
    all: unfold_handlers; go_replays.
Qed.

Lemma registry_replays :
  Forall2 same_method (registry_methods (DB:=DB) (H:=H)) (registry_methods (DB:=TDB) (H:=TH)).
Proof.
  unfold registry_methods.
  repeat (apply Forall2_cons; split; [split; [reflexivity|intros r; cbn [snd]]|]); [..|constructor].
  all: unfold register, validateToken, validateToken_check, validateToken_commit,
    registrationStatus, subscribe, unsubscribe, listSubscriptions; go_replays.
Qed.

Lemma tokenapi_replays :
  Forall2 same_method (map fst (tokenapi_methods (DB:=DB) (H:=H)))
    (map fst (tokenapi_methods (DB:=TDB) (H:=TH))).
Proof.
  unfold tokenapi_methods. cbn [map].
  repeat (apply Forall2_cons; split; [split; [reflexivity|intros r; cbn [fst snd]]|]); [..|constructor].
  all: unfold revoke, status, generate, new_uuids, importKeysBulk, listKeys, deleteKeys; go_replays.
Qed.
End methods.

(** ** The route of the three APIs *)

(* an API and the message it gets *)
Inductive ApiKind := ManagerAPI | RegistryAPI | TokenAPIKind.
Record Message := mkMessage { ms_api : ApiKind; ms_request : SignedJRPCdata }.

Section served.
Context {X : Ext} {S : Type} {DB : Database S} {H : Host S}.

(* APIs that share their database *)
Definition served (getHealth : M S Z) (authorized : gmap bytes bool) (m : Message) : M S Reply :=
  match ms_api m with
  | ManagerAPI => route (manager_api getHealth authorized) (ms_request m)
  | RegistryAPI => route (registry_api getHealth authorized) (ms_request m)
  | TokenAPIKind => route (tokenapi_api getHealth authorized) (ms_request m)
  end.

(* the entity a message names: the one of its key in the manager API *)
Definition concerns (m : Message) (e : bytes) : Prop :=
  match ms_api m with
  | ManagerAPI => PubKeyToEntityID (sd_SignaturePublicKey (ms_request m)) = inr e
  | _ => rq_EntityID (sd_Message (ms_request m)) = e
  end.

(* the public keys a message may store for members of the entity: the key that
   verified its signature, or the keys an external service imports *)
Definition stores (m : Message) (e k : bytes) : Prop :=
  let r := ms_request m in
  concerns m e /\
  match ms_api m with
  | ManagerAPI => False
  | RegistryAPI => rq_Method (sd_Message r) ∈ ["register"; "validateToken"] /\
      k = sd_SignaturePublicKey r
  | TokenAPIKind => rq_Method (sd_Message r) = "importKeysBulk" /\
      exists claim, claim ∈ rq_Keys (sd_Message r) /\ DecodeString (TrimHex claim) = inr k
  end.

(* the member a message may give a key, by its token *)
Definition registers (m : Message) (e : bytes) (t : uuid) (k : bytes) : Prop :=
  let r := ms_request m in
  concerns m e /\ ms_api m = RegistryAPI /\ rq_Method (sd_Message r) = "validateToken" /\
  uuid_Parse (rq_Token (sd_Message r)) = inr t /\ k = sd_SignaturePublicKey r.

(* the members a message may delete: the ones the manager lists, the one whose
   token is revoked, the ones whose keys are listed *)
Definition deletes (m : Message) (e : bytes) (t : uuid) (key : option bytes) : Prop :=
  let q := sd_Message (ms_request m) in
  concerns m e /\
  match ms_api m with
  | ManagerAPI => rq_Method q = "deleteMembers" /\ t ∈ rq_MemberIDs q
  | RegistryAPI => False
  | TokenAPIKind =>
      rq_Method q = "revoke" /\ uuid_Parse (rq_Token q) = inr t \/
      rq_Method q = "deleteKeys" /\
        exists text k, text ∈ rq_Keys q /\ DecodeString text = inr k /\ key = Some k
  end.

(* all a message may do to the members of the entity *)
Record permits (K : bytes -> Permit) (m : Message) : Prop := mkPermits {
  permits_store e k : stores m e k -> may_store (K e) k;
  permits_register e t k : registers m e t k -> may_register (K e) t k;
  permits_delete e t r : deletes m e t (mr_public_key r) -> may_delete (K e) t r;
}.
End served.

Section tables.
Context {X : Ext} {S : Type}.
(* what the methods of two tables have in common, by name *)
Context (R : string -> Handler S -> Handler (Replay S) -> Prop).

Definition same_api (a : RPCAPI S) (b : RPCAPI (Replay S)) : Prop :=
  forall name, option_Forall2 (R name) (ra_methods a !! name) (ra_methods b !! name).

Lemma RegisterPublic_same name sig h h' a b :
  same_api a b -> R name h h' ->
  same_api (RegisterPublic name sig h a) (RegisterPublic name sig h' b).
Proof.
  intros Hm Hh n. simpl. destruct (decide (name = n)) as [<-|Hn].
  - rewrite !lookup_insert_eq. by constructor.
  - rewrite !lookup_insert_ne by done. apply Hm.
Qed.

Lemma NewAPI_same getHealth getHealth' name allow auth :
  R "getInfo" (info getHealth [name]) (info getHealth' [name]) ->
  same_api (NewAPI getHealth name allow auth) (NewAPI getHealth' name allow auth).
Proof.
  intros Hg. unfold NewAPI. cbn zeta. apply RegisterPublic_same; [|exact Hg].
  intros n. cbn [ra_methods]. rewrite !lookup_empty. constructor.
Qed.

Lemma EnableAPI_same l l' a b :
  Forall2 (fun m m' => m.1 = m'.1 /\ R m.1.1 m.2 m'.2) l l' -> same_api a b ->
  same_api (EnableAPI l a) (EnableAPI l' b).
Proof.
  intros Hl. revert a b. induction Hl as [|[[n s] h] [[n' s'] h'] l l' [[= -> ->] Hh] _ IH];
    intros a b Hab; simpl; [done|]. apply IH. by apply RegisterPublic_same.
Qed.

(* the methods a request runs *)
Lemma same_api_lookup a b name :
  same_api a b ->
  (exists h h', R name h h' /\ lookup_method a name = h /\ lookup_method b name = h') \/
  let nil {T} : Handler T := fun _ => panicM "invalid memory address or nil pointer dereference" in
  lookup_method a name = nil /\ lookup_method b name = nil.
Proof.
  intros Hm. specialize (Hm name). unfold lookup_method. revert Hm.
  destruct (ra_methods a !! name), (ra_methods b !! name); intros Hm; inversion_clear Hm;
    [left; eauto|by right].
Qed.
End tables.

Section route_replays.
Context {X : Ext} {S : Type}.

Lemma route_replays (a : RPCAPI S) b r :
  same_api (fun _ h h' => forall q, replays (h q) (h' q)) a b -> replays (route a r) (route b r).
Proof.
  intros Hm. unfold route. apply replays_bind; [|go_replays]. apply replays_tryM.
  set (x := setq_SignaturePublicKey _ _).
  destruct (same_api_lookup _ _ _ (APIrequest_GetMethod x) Hm) as [(h & h' & Hh & -> & ->)|[-> ->]];
    [apply Hh|apply replays_panic].
Qed.
End route_replays.

Section threads.
Context {X : Ext} {S : Type} {DB : Database S} {H : Host S}.
Context (getHealth : M S Z) (authorized : gmap bytes bool).

(* a message as it is served by a thread *)
Definition served_by_thread : Message -> M (Replay S) Reply :=
  served (DB:=thread_db DB) (H:=thread_host H) (call getHealth) authorized.

Lemma served_replays m : replays (served getHealth authorized m) (served_by_thread m).
Proof.
  unfold served_by_thread, served. destruct (ms_api m); apply route_replays, EnableAPI_same.
  1: apply manager_replays. 2: apply registry_replays. 3: apply tokenapi_replays.
  all: apply NewAPI_same; intros q; unfold info; go_replays.
Qed.

Lemma all_served_replays ms :
  Forall2 replays (map (served getHealth authorized) ms) (map served_by_thread ms).
Proof. induction ms; simpl; constructor; auto using served_replays. Qed.
End threads.

(** ** What one message keeps *)
Section served_inv.
Context {X : Ext} {S : Type} {DB : Database S} {H : Host S}.
Variable J : S -> Prop.
Variable E : bytes -> Prop.
Variable K : bytes -> Permit.
Context {HD : DatabaseInv DB J E K} {HH : HostInv H J anything}.

Lemma mapM_elem_inv {A B} (R : B -> Prop) (f : A -> M S B) l :
  (forall x, x ∈ l -> preserves J R (f x)) -> preserves J (Forall R) (mapM_ f l).
Proof.
  induction l as [|x l IH]; intros Hf; simpl; [by apply preserves_ret|].
  eapply preserves_bind; [apply Hf; left|]. intros y Hy.
  eapply preserves_bind; [apply IH; intros z Hz; apply Hf; by right|]. intros ys Hys.
  by apply preserves_ret, Forall_cons.
Qed.

(* a value that is computed, or an error *)
Lemma lift_value {A} (r : gerror + A) g :
  preserves J (fun a => r = inr a) (onErr (liftE (S:=S) r) g).
Proof. apply preserves_onErr. destruct r; [apply preserves_fail|by apply preserves_ret]. Qed.

Lemma requireToken_value request :
  preserves J (fun t => uuid_Parse (rq_Token request) = inr t) (requireToken (S:=S) request).
Proof. unfold requireToken. do 2 (destruct (_ =? 0)%Z; [apply preserves_fail|]). apply lift_value. Qed.

Lemma validateToken_check_value (request : APIrequest) :
  preserves J (fun x => uuid_Parse (rq_Token request) = inr x.2) (validateToken_check request).
Proof.
  unfold validateToken_check, fail_counted.
  apply (preserves_bind _ anything); [go_inv|intros _ _]. destruct (_ =? 0)%Z; [apply preserves_fail|].
  eapply preserves_bind; [apply lift_value|intros uid Hu].
  eapply preserves_bind; [apply preserves_tryM; eauto with handlers|intros r _].
  apply (preserves_bind _ anything); [go_inv|intros entity _].
  eapply preserves_bind; [apply preserves_tryM; eauto with handlers|intros r' _].
  apply (preserves_bind _ anything); [go_inv|intros member _].
  destruct (bool_decide _); [|destruct (negb _); [|by apply preserves_ret]].
  all: apply (preserves_bind _ anything); [go_inv|intros _ _; apply preserves_fail].
Qed.

Lemma validateToken_inv (request : APIrequest) :
  E (rq_EntityID request) ->
  (forall t, uuid_Parse (rq_Token request) = inr t ->
     may_register (K (rq_EntityID request)) t (rq_SignaturePublicKey request)) ->
  preserves J anything (validateToken request).
Proof.
  intros HE HK. unfold validateToken. eapply preserves_bind; [apply validateToken_check_value|].
  intros [[entity member] uid] Hu. simpl in Hu.
  assert (Hr : preserves J anything (db_RegisterMember (rq_EntityID request)
                 (rq_SignaturePublicKey request) (Some uid))).
  { apply inv_RegisterMember; [done|]. intros i [= <-]. by apply HK. }
  unfold validateToken_commit. go_inv.
Qed.

Lemma registry_methods_inv name sig handler (request : APIrequest) :
  (name, sig, handler) ∈ registry_methods -> E (rq_EntityID request) ->
  (name = "register" -> may_store (K (rq_EntityID request)) (rq_SignaturePublicKey request)) ->
  (name = "validateToken" -> forall t, uuid_Parse (rq_Token request) = inr t ->
     may_register (K (rq_EntityID request)) t (rq_SignaturePublicKey request)) ->
  preserves J anything (handler request).
Proof.
  intros Hm HE HS HR. unfold registry_methods in Hm.
  apply elem_of_cons in Hm as [[= -> -> ->]|Hm].
  { specialize (HS eq_refl). unfold register. go_inv. }
  apply elem_of_cons in Hm as [[= -> -> ->]|Hm]; [by apply validateToken_inv; [|apply HR]|].
  repeat (apply elem_of_cons in Hm as [[= -> -> ->]|Hm]); [..|by apply not_elem_of_nil in Hm].
  all: unfold registrationStatus, subscribe, unsubscribe, listSubscriptions; go_inv.
Qed.

Lemma importKeysBulk_inv (request : APIrequest) :
  E (rq_EntityID request) ->
  (forall claim k, claim ∈ rq_Keys request -> DecodeString (TrimHex claim) = inr k ->
     may_store (K (rq_EntityID request)) k) ->
  preserves J anything (importKeysBulk request).
Proof.
  intros HE HK. unfold importKeysBulk, requireSecret, getSecret, requireAuth, checkAuth.
  destruct (_ || _); [apply preserves_fail|].
  apply (preserves_bind _ anything); [go_inv|intros secret _].
  apply (preserves_bind _ anything); [go_inv|intros ? _].
  apply (preserves_bind _ (Forall (may_store (K (rq_EntityID request))))).
  - apply mapM_elem_inv. intros claim Hc. eapply preserves_weaken; [apply lift_value|].
    intros k. by apply HK.
  - intros keys Hkeys. apply (preserves_bind _ anything); [|by intros; apply preserves_ret].
    apply preserves_onErr, inv_AddMemberBulk; [done|]. apply Forall_map.
    eapply Forall_impl; [exact Hkeys|]. intros k Hk. simpl. by intros ? [= <-].
Qed.

Lemma revoke_inv (request : APIrequest) :
  E (rq_EntityID request) ->
  (forall t r, uuid_Parse (rq_Token request) = inr t -> may_delete (K (rq_EntityID request)) t r) ->
  preserves J anything (revoke request).
Proof.
  intros HE HK. unfold revoke, requireSecret, getSecret, requireAuth, checkAuth.
  eapply preserves_bind; [apply requireToken_value|intros t Ht].
  apply (preserves_bind _ anything); [go_inv|intros secret _].
  apply (preserves_bind _ anything); [go_inv|intros ? _].
  apply (preserves_bind _ anything); [|by intros; apply preserves_ret].
  apply preserves_onErr, inv_DeleteMember; [done|]. intros id r [= <-]. by apply HK.
Qed.

Lemma deleteKeys_inv (request : APIrequest) :
  E (rq_EntityID request) ->
  (forall text k t r, text ∈ rq_Keys request -> DecodeString text = inr k ->
     mr_public_key r = Some k -> may_delete (K (rq_EntityID request)) t r) ->
  preserves J anything (deleteKeys request).
Proof.
  intros HE HK. unfold deleteKeys, requireSecret, getSecret, requireAuth, checkAuth.
  destruct (_ =? 0)%Z; [apply preserves_fail|].
  apply (preserves_bind _ anything); [go_inv|intros secret _].
  apply (preserves_bind _ anything); [go_inv|intros ? _].
  apply (preserves_bind _ (Forall (fun k => exists text, text ∈ rq_Keys request /\
                                                        DecodeString text = inr k))).
  - apply mapM_elem_inv. intros text Ht. eapply preserves_weaken; [apply lift_value|]. eauto.
  - intros keys Hkeys. apply (preserves_bind _ anything).
    + apply preserves_onErr, inv_DeleteMembersByKeys; [done|]. intros id r k Hk Hr.
      rewrite Forall_forall in Hkeys. destruct (Hkeys k Hk) as (text & Ht & Hd). by eapply HK.
    + go_inv.
Qed.

Lemma tokenapi_methods_inv x (request : APIrequest) :
  x ∈ tokenapi_methods -> E (rq_EntityID request) ->
  (x.1.1.1 = "importKeysBulk" -> forall claim k, claim ∈ rq_Keys request ->
     DecodeString (TrimHex claim) = inr k -> may_store (K (rq_EntityID request)) k) ->
  (x.1.1.1 = "revoke" -> forall t r, uuid_Parse (rq_Token request) = inr t ->
     may_delete (K (rq_EntityID request)) t r) ->
  (x.1.1.1 = "deleteKeys" -> forall text k t r, text ∈ rq_Keys request ->
     DecodeString text = inr k -> mr_public_key r = Some k ->
     may_delete (K (rq_EntityID request)) t r) ->
  preserves J anything (x.1.2 request).
Proof.
  intros Hm HE HS HR HD'. unfold tokenapi_methods in Hm.
  repeat (apply elem_of_cons in Hm as [->|Hm]); [..|by apply not_elem_of_nil in Hm];
    cbn [fst snd] in *.
  all: lazymatch goal with
    | |- preserves _ _ (revoke _) => by apply revoke_inv, HR
    | |- preserves _ _ (importKeysBulk _) => by apply importKeysBulk_inv, HS
    | |- preserves _ _ (deleteKeys _) => by apply deleteKeys_inv, HD'
    | |- _ => unfold status, generate, listKeys, requireToken, requireSecret, getSecret,
                requireAuth, checkAuth, new_uuids; go_inv
    end.
Qed.

(* a route runs a method of the table registered under the name of the request *)
Lemma api_methods_inv (l : list (string * bool * Handler S)) getHealth name allow auth r :
  preserves J anything getHealth ->
  (forall m, m ∈ l -> m.1.1 = rq_Method (sd_Message r) -> preserves J anything
     (m.2 (setq_SignaturePublicKey (sd_SignaturePublicKey r) (sd_Message r)))) ->
  preserves J anything (route (EnableAPI l (NewAPI getHealth name allow auth)) r).
Proof.
  intros Hg Hl. unfold route. apply (preserves_bind _ anything).
  2: { intros [err|response] _; by apply preserves_ret. }
  eapply preserves_weaken; [apply preserves_tryM|done].
  change (APIrequest_GetMethod _) with (rq_Method (sd_Message r)). unfold lookup_method.
  pose proof (EnableAPI_methods l (NewAPI getHealth name allow auth) (rq_Method (sd_Message r))) as Hn.
  destruct (ra_methods (EnableAPI _ _) !! _) as [h|] eqn:Em; [|apply preserves_panic].
  clear Em. symmetry in Hn. revert Hn.
  destruct (list_find _ _) as [[i m]|] eqn:Ef.
  - apply list_find_Some in Ef as (Hi & Hm & _). apply list_elem_of_lookup_2 in Hi.
    rewrite elem_of_reverse in Hi. intros [= <-]. by apply Hl.
  - cbn [NewAPI RegisterPublic ra_methods].
    intros [[_ <-]|[_ Hn]]%lookup_insert_Some; [|by rewrite lookup_empty in Hn].
    unfold info. go_inv.
Qed.

Lemma served_inv getHealth authorized m :
  preserves J anything getHealth -> (forall e, concerns m e -> E e) -> permits K m ->
  preserves J anything (served getHealth authorized m).
Proof.
  intros Hg HE [HS HR HD']. unfold stores, registers, deletes, served, concerns in *.
  destruct m as [[] r]; cbn [ms_api ms_request] in *; apply api_methods_inv; try done.
  - intros [[n s] h] Hm Hn. apply (manager_methods_inv J E anything n s h); [|..|done].
    + intros e He. split; [by apply HE|done].
    + intros -> e id q He Hi. by apply HD'.
  - intros [[n s] h] Hm Hn. cbn [fst snd] in *.
    apply (registry_methods_inv n s h); [done|by apply HE|intros ->|intros -> t Ht].
    + apply HS. split; [done|]. split; [rewrite <- Hn; left|done].
    + apply HR. by split_and!.
  - intros y (x & -> & Hx)%list_elem_of_fmap Hn.
    apply tokenapi_methods_inv; [done|by apply HE|intros Hi..].
    + intros claim k Hc Hk. apply HS. split; [done|]. split; [congruence|eauto].
    + intros t q Ht. apply HD'. split; [done|]. left. split; [congruence|done].
    + intros text k t q Hk Hd Hq. apply HD'. split; [done|]. right. split; [congruence|eauto].
Qed.
End served_inv.

(** ** Properties *)
Section properties.
Context {X : Ext} {V : Env} {H : Host World}.
Context (getHealth : M World Z) (authorized : gmap bytes bool).

(* the server after some steps of the requests [ms]; a step is one call of a
   method of the database or of a service, whole: the statements of a method are
   not interleaved *)
Definition concurrently (ms : list Message) (schedule : list nat) (w : World) :
    Machine World Reply :=
  run_schedule schedule (launch (map (served_by_thread getHealth authorized) ms) w).

(* what every statement the messages permit keeps, they keep together *)
Lemma concurrent_inv (I : Db -> Prop) (E : bytes -> Prop) K ms schedule w :
  (forall I, HostInv H (holds I) anything) -> keeps w_db getHealth ->
  (forall e, E e -> StmtInv I e (K e)) -> (forall m e, m ∈ ms -> concerns m e -> E e) ->
  (forall m, m ∈ ms -> permits K m) ->
  I (w_db w) -> I (w_db (concurrently ms schedule w).1).
Proof.
  intros HH Hg HE Hms HK Hw. apply (run_schedule_inv (holds I)); [|exact Hw].
  apply Forall_map, Forall_forall. intros m Hm. unfold served_by_thread.
  assert (HD : DatabaseInv pgsql (holds I) E K) by (by apply pgsql_inv).
  apply served_inv with (E := E) (K := K);
    [by apply thread_db_inv|by apply thread_host_inv| |by intros e; apply Hms|by apply HK].
  apply call_preserves, keeps_safe, Hg.
Qed.

Lemma every_permits m : permits every_key m.
Proof. by split. Qed.

(* the integrity of the tables survives concurrency *)
Lemma concurrent_sound ms schedule w :
  (forall I, HostInv H (holds I) anything) -> keeps w_db getHealth ->
  sound (w_db w) -> sound (w_db (concurrently ms schedule w).1).
Proof.
  intros HH Hg. apply (concurrent_inv sound anything every_key); try done.
  intros e _. apply sound_inv.
Qed.

(** C1: Tenants stay isolated under concurrency: while messages that concern
    other entities are served at the same time by the three APIs, in any order
    of their calls and with any failures of the driver, the data of an entity
    stays as it was: its row, origins, members, targets, tags and censuses, and
    the voter rolls of its censuses with the private keys in them; and the
    tables stay sound. *)
Theorem concurrent_isolation ms schedule e w :
  (forall I, HostInv H (holds I) anything) -> keeps w_db getHealth ->
  sound (w_db w) -> (forall m, m ∈ ms -> ~ concerns m e) ->
  let d' := w_db (concurrently ms schedule w).1 in
  tenant e d' = tenant e (w_db w) /\ sound d'.
Proof.
  intros HH Hg Hs Hms d'. apply and_comm, tenant_is_spec.
  apply (concurrent_inv (tenant_is e (tenant e (w_db w))) (fun e' => e' <> e) every_key);
    [done..| | | |by apply tenant_is_spec].
  - intros e' He'. by apply tenant_inv.
  - intros m e' Hm Hc ->. by apply (Hms m Hm).
  - intros m _. apply every_permits.
Qed.

(** C3: The keys of members are authentic: after any messages to the three APIs
    served at the same time in any order, with any failures of the driver, a
    member has the key it had before, or one that verified the signature of a
    register or validateToken for its entity, or one that an importKeysBulk for
    its entity lists. *)
Theorem concurrent_keys ms schedule w e t k :
  (forall I, HostInv H (holds I) anything) -> keeps w_db getHealth ->
  registered e t k (w_db (concurrently ms schedule w).1) ->
  registered e t k (w_db w) \/ exists m, m ∈ ms /\ stores m e k.
Proof.
  intros HH Hg (r & Hr & He & Hk).
  set (P := fun e t k => registered e t k (w_db w) \/ exists m, m ∈ ms /\ stores m e k).
  set (K := fun e => only_keys (fun k => exists m, m ∈ ms /\ stores m e k)).
  assert (HP : keys_in P (w_db (concurrently ms schedule w).1)).
  { apply (concurrent_inv (keys_in P) anything K); try done.
    - intros e' _. apply keys_inv. intros t' k' Hm. right. by destruct Hm.
    - intros m Hm. split; simpl; [by eauto| |done].
      intros e' t' k' (Hc & Ha & Hn & _ & Hk'). exists m. split; [done|]. split; [done|].
      rewrite Ha, Hn. split; [right; left|done].
    - intros t' r' k' Hr' Hk'. left. by exists r'. }
  specialize (HP t r k Hr Hk). by rewrite He in HP.
Qed.

(* Concurrency is conservative: when the requests do not overlap (each has
   all the steps it needs before the next one starts), the threads leave the
   database, and give the replies, of the handlers run one after the other. *)
Lemma serial_schedule ms w :
  exists needs, length needs = length ms /\ forall counts, Forall2 le needs counts ->
    let c := concurrently ms (in_turn counts) w in
    let alone := one_by_one (map (served getHealth authorized) ms) w in
    c.1 = alone.1 /\ answers c = map Some alone.2.
Proof.
  destruct (serial_run _ _ w (all_served_replays getHealth authorized ms)) as (ns & Hl & Hrun).
  exists ns. split; [by rewrite Hl, length_map|]. exact Hrun.
Qed.

(* what a message may do without losing the key of the member *)
Definition spares (e : bytes) (t : uuid) (k : bytes) (e' : bytes) : Permit :=
  mkPermit (fun _ => True) (fun i k' => e' = e -> i = t -> k' = k)
    (fun i r => e' = e -> i = t -> mr_public_key r <> Some k) (e' <> e).

Lemma spares_keeps e t k e' : e' = e -> keeps_key (spares e t k e') t k.
Proof.
  intros ->. split; [|split]; simpl; [by eauto|intros r Hr Hd|by intros H'].
  by apply (Hd eq_refl eq_refl).
Qed.

Lemma spares_permits e t k m :
  ~ deletes m e t (Some k) -> (forall k', registers m e t k' -> k' = k) ->
  permits (spares e t k) m.
Proof.
  intros Hd Hr. split; simpl; [done|intros e' i k' Hm -> ->; by apply Hr|].
  intros e' i r Hm -> -> Hk. apply Hd. by rewrite <- Hk.
Qed.

(** C4: A registration survives concurrency: whatever messages reach the three
    APIs at the same time, in whatever order their calls reach the database and
    whichever the driver fails, a member keeps its key as long as none of them
    deletes the member (a revoke of its token, a deleteKeys that lists its key,
    a deleteMembers that lists it) or is a validateToken of its token by another
    key: imports, generations, updates, registrations of others and everything
    for other entities leave it alone. *)
Theorem concurrent_key_stays ms schedule e t k w :
  (forall I, HostInv H (holds I) anything) -> keeps w_db getHealth ->
  (forall m, m ∈ ms -> ~ deletes m e t (Some k)) ->
  (forall m k', m ∈ ms -> registers m e t k' -> k' = k) ->
  registered e t k (w_db w) -> registered e t k (w_db (concurrently ms schedule w).1).
Proof.
  intros HH Hg Hd Hr. apply (concurrent_inv (registered e t k) anything (spares e t k)); try done.
  - intros e' _. apply registered_inv. apply spares_keeps.
  - intros m Hm. apply spares_permits; [by apply Hd|]. intros k'. by apply Hr.
Qed.
End properties.

(** ** Requests served one after the other *)
Section in_sequence.
Context {X : Ext} {V : Env} (eth : option (string -> Z -> Z -> D Z)).
#[local] Instance sequence_host : Host World := env_host eth.
Context (getHealth : M World Z) (authorized : gmap bytes bool).
Context (e : bytes) (t : uuid) (k : bytes) (Hk : k <> "") (Hlen : (0 < PubKeyLengthBytes)%Z).

(* the tables are in order and the member has the key *)
Definition bound (d : Db) : Prop := db_ok d /\ registered e t k d.

Lemma bound_inv e' : StmtInv bound e' (spares e t k e').
Proof. apply both_inv; [apply db_ok_inv|apply registered_inv, spares_keeps]. Qed.

(* a validateToken of a token that is bound is refused *)
Lemma validateToken_bound (request : APIrequest) :
  rq_EntityID request = e -> uuid_Parse (rq_Token request) = inr t ->
  preserves (holds bound) anything (validateToken request).
Proof.
  intros He Ht w [Hok Hr]. split; [|done].
  pose proof (validateToken_step eth request w Hok Hlen) as Hs. cbn zeta in Hs.
  unfold sequence_host. unfold roster_host in Hs.
  destruct (validateToken request w) as [[response|err|p] w']; simpl; [exfalso|unfold holds; by rewrite Hs..].
  assert (Hb : roster e (w_db w) !! t = Some (Some k)) by (by apply roster_Some).
  inversion Hs as [|j k' o Hv Hj Ho Hu| |]. subst.
  unfold token_of in Hj. rewrite Ht, Hb in Hj. injection Hj as <-. done.
Qed.

Lemma served_bound m :
  (forall I, HostInv sequence_host (holds I) anything) -> keeps w_db getHealth ->
  ~ deletes m e t (Some k) -> preserves (holds bound) anything (served getHealth authorized m).
Proof.
  intros HH Hg Hd.
  assert (HD : DatabaseInv pgsql (holds bound) anything (spares e t k)).
  { apply pgsql_inv. intros e' _. apply bound_inv. }
  assert (HHb := HH bound). assert (Hgb : preserves (holds bound) anything getHealth)
    by (by apply keeps_safe).
  destruct (ms_api m) eqn:Ha.
  1,3: apply (served_inv (holds bound) anything (spares e t k)); [done|done|];
    apply spares_permits; [done|]; intros k' (_ & Hr & _); congruence.
  unfold served. rewrite Ha. apply api_methods_inv; [exact Hgb|].
  intros [[n s] h] Hm Hn. cbn [fst snd] in *. set (q := setq_SignaturePublicKey _ _).
  destruct (decide (n = "validateToken")) as [->|Hv].
  2: { by apply (registry_methods_inv (holds bound) anything (spares e t k) n s h). }
  assert (Hh : h = validateToken).
  { clear -Hm. unfold registry_methods in Hm.
    repeat (apply elem_of_cons in Hm as [Hm|Hm]; [by simplify_eq|]). by apply not_elem_of_nil in Hm. }
  subst h. destruct (decide (rq_EntityID q = e)) as [He|He];
    [destruct (uuid_Parse (rq_Token q)) as [err|t'] eqn:Et; [|destruct (decide (t' = t)) as [->|Hne]]|].
  2: by apply validateToken_bound.
  all: apply (validateToken_inv (holds bound) anything (spares e t k)); [done|].
  all: intros i Hi He' Hit; congruence.
Qed.

(** C13: A registered key stays: through any messages to the three APIs, known
    methods or not, for any entity, answered or refused, served one after the
    other by a driver that may fail at any call, the key of a member remains the
    one registered until a message deletes the member: a revoke of its token, a
    deleteKeys that lists its key, or a deleteMembers of its entity that lists
    it. In particular no validateToken by another key takes the token over. *)
Theorem registered_key_stays ms w :
  (forall I, HostInv sequence_host (holds I) anything) -> keeps w_db getHealth ->
  (forall m, m ∈ ms -> ~ deletes m e t (Some k)) ->
  db_ok (w_db w) -> registered e t k (w_db w) ->
  registered e t k (w_db (one_by_one (map (served getHealth authorized) ms) w).1).
Proof.
  intros HH Hg Hms Hok Hr.
  assert (Hb : bound (w_db w)) by (by split). clear Hok Hr. revert w Hb.
  induction ms as [|m ms IH]; intros w Hb; simpl; [apply Hb|].
  pose proof (served_bound m HH Hg (Hms m ltac:(left)) w Hb) as [Hb' _].
  destruct (served _ _ m w) as [o w']. simpl in Hb'.
  specialize (IH ltac:(intros m' Hm'; apply Hms; by right) w' Hb').
  by destruct (one_by_one _ w').
Qed.
End in_sequence.

(** ** Requests for one token *)

(* a request for a token: before it found the member without a key, after, and
   once it has registered its key *)
Inductive Phase := Checking | Free | Stored.

(* the reply is not an error *)
Definition accepted (o : option (outcome Reply)) : bool :=
  match o with Some (Ok (SendReply _ _)) => true | _ => false end.

Section race.
Context {X : Ext} {V : Env} (eth : option (string -> Z -> Z -> D Z)).
#[local] Instance race_host : Host World := env_host eth.
Context (e : bytes) (t : uuid).
Abbreviation RDB := (thread_db pgsql).
Abbreviation RH := (thread_host race_host).

(* what a call of a request with key [k] does to its phase and to the roster *)
Definition phase_step (k : bytes) (g : Phase) (w : World) (g' : Phase) (w' : World) : Prop :=
  let R := roster e (w_db w) in let R' := roster e (w_db w') in
  match g, g' with
  | Checking, Checking | Free, Free | Stored, Stored => R' = R
  | Checking, Free => R' = R /\ exists o, R !! t = Some o /\ default "" o = ""
  | Free, Stored => R' = <[t := Some k]> R
  | _, _ => False
  end.

(* an answer that is not an error tells that the key was stored *)
Definition tells {A} (g : Phase) (o : outcome A) : Prop := (exists a, o = Ok a) <-> g = Stored.

(* the member that is read, and its key in the roster *)
Lemma pg_Member_roster m w w' :
  pg_Member e (Some t) w = (Ok m, w') -> roster e (w_db w) !! t = Some (m_PubKey m).
Proof.
  unfold pg_Member. intros (pm & w1 & H%driver_inv & [= <- _])%bind_ok.
  change (w_db (tick w)) with (w_db w) in H. apply roster_Some.
  destruct (members (w_db w) !! t) as [r|] eqn:Er; [|done]. simpl in H.
  case_bool_decide as He; [|done]. injection H as <- _. by exists r.
Qed.

(* the phase a member puts the request in *)
Definition found (g : Phase) (m : Member) : Prop :=
  g = Checking /\ default "" (m_PubKey m) <> "" \/ g = Free.

Section one_request.
Context (k : bytes).
Abbreviation does := (does (phase_step k)).

Lemma does_quiet {A} (P : outcome A -> Prop) g (m : D A) :
  (forall w, roster e (w_db (m w).2) = roster e (w_db w)) -> (forall w, P (m w).1) ->
  does (fun g' o => g' = g /\ P o) g (call m).
Proof.
  intros Hm HP. apply (does_one _ _ _ _ (fun _ => g)). intros w. split; [|by split].
  specialize (Hm w). by destruct g.
Qed.
Lemma does_keeps {A} g (m : D A) : keeps w_db m -> does (fun g' _ => g' = g) g (call m).
Proof.
  intros Hm. eapply does_weaken; [apply (does_quiet (fun _ => True))|by intros ? ? []]; [|done].
  intros w. by rewrite Hm.
Qed.
Lemma does_inc g l : does (fun g' o => g' = g /\ o = Ok tt) g (host_Inc (Host:=RH) l).
Proof. by apply (does_quiet (fun o => o = Ok tt)). Qed.

(* a failure that is counted *)
Lemma does_fail_counted {A} (Q : Phase -> outcome A -> Prop) g l msg :
  Q g (Err (Errorf msg)) -> does Q g (fail_counted (H:=RH) l msg).
Proof.
  intros HQ. unfold fail_counted. eapply does_bind; [apply does_inc|..].
  - intros g' a [-> _]. by apply does_fail.
  - by intros g' err [_ ?].
  - by intros g' p [_ ?].
Qed.

Lemma member_does :
  does (fun g o => match o with Ok m => found g m | _ => g = Checking end) Checking
    (call (pg_Member e (Some t))).
Proof.
  apply (does_one _ _ _ _ (fun w => match (pg_Member e (Some t) w).1 with
    | Ok m => if decide (default "" (m_PubKey m) = "") then Free else Checking
    | _ => Checking end)). intros w.
  pose proof (pg_Member_keeps e (Some t) w) as Hk.
  destruct (pg_Member e (Some t) w) as [[m|err|p] w'] eqn:E; simpl in *; [|by rewrite Hk..].
  apply pg_Member_roster in E. rewrite <- Hk in E |- *. unfold found.
  case_decide as Hm; simpl; [|by auto]. split; [|by right]. split; [done|by eexists].
Qed.

(* the checks: the phase is Free when they let the request through *)
Definition checked_phase (g : Phase) (o : outcome (Entity * Member * uuid)) : Prop :=
  match o with Ok x => g = Free /\ x.2 = t | _ => g <> Stored end.

Lemma check_does (request : APIrequest) :
  rq_EntityID request = e -> uuid_Parse (rq_Token request) = inr t ->
  does checked_phase Checking (validateToken_check (DB:=RDB) (H:=RH) request).
Proof.
  intros He Ht. unfold validateToken_check. rewrite He, Ht.
  eapply does_bind; [apply does_inc| |by intros g' err [-> _]|by intros g' p [-> _]].
  intros g [] [-> _]. destruct (_ =? 0)%Z; [by apply does_fail|].
  eapply (does_bind _ (fun g o => g = Checking /\ o = Ok t));
    [by apply does_ret| |by intros g' err [_ ?]|by intros g' p [_ ?]].
  intros g uid [-> [= ->]].
  eapply (does_bind _ (fun g _ => g = Checking)); [|intros g r ->|by intros g' err ->|by intros g' p ->].
  { eapply does_tryM; [apply does_keeps, pg_Entity_keeps|by intros ? ? ->]. }
  eapply (does_bind _ (fun g _ => g = Checking)); [|intros g entity ->|by intros g' err ->|by intros g' p ->].
  { destruct r as [err|entity]; [|by apply does_ret].
    destruct (bool_decide _); [by apply does_fail_counted|by apply does_fail]. }
  eapply (does_bind _ (fun g o => match o with Ok (inr m) => found g m | _ => g = Checking end)).
  { apply (does_tryM _ (fun g o => match o with Ok m => found g m | _ => g = Checking end));
      [|by intros g []].
    apply member_does. }
  2,3: by intros g' ? ->.
  intros g r' Hr'. eapply (does_bind _ (fun g o => match o with Ok m => found g m | _ => g = Checking end)).
  { destruct r' as [err|m]; [|by apply does_ret]. subst g.
    destruct (bool_decide _); [by apply does_fail_counted|by apply does_fail]. }
  2,3: by intros g' ? ->.
  clear g r' Hr'. intros g m Hm. assert (Hg : g <> Stored) by (by destruct Hm as [[-> _]| ->]).
  destruct (bool_decide _); [by apply does_fail_counted|].
  destruct (Z.eqb_spec (len (default "" (m_PubKey m))) 0) as [Hl|Hl]; simpl;
    [|by apply does_fail_counted].
  apply does_ret. split; [|done]. destruct Hm as [[_ Hm]|]; [|done].
  by destruct (default "" (m_PubKey m)).
Qed.

(* the registration: the phase is Stored when it succeeds *)
Lemma register_does :
  does (fun g o => match o with Ok _ => g = Stored | _ => g = Free end) Free
    (call (RegisterMember e k (Some t))).
Proof.
  apply (does_one _ _ _ _ (fun w => match (RegisterMember e k (Some t) w).1 with
    | Ok _ => Stored | _ => Free end)). intros w.
  pose proof (RegisterMember_atomic e k (Some t) w) as Ha.
  destruct (RegisterMember e k (Some t) w) as [[[]|err|p] w'] eqn:E; simpl in *;
    [|by rewrite Ha..]. split; [|done].
  apply RegisterMember_ok in E as (_ & r & now & Hr & He & Hm & _).
  rewrite <- (roster_insert e _ _ r k now Hr He). by apply roster_members.
Qed.

(* nothing after it fails, and nothing changes the roster again *)
Lemma commit_does (request : APIrequest) entity member :
  rq_EntityID request = e -> rq_SignaturePublicKey request = k ->
  does tells Free (validateToken_commit (DB:=RDB) (H:=RH) request (entity, member, t)).
Proof.
  intros He Hk. unfold validateToken_commit. rewrite He, Hk.
  eapply (does_bind _ (fun g o => match o with Ok _ => g = Stored | _ => g = Free end)).
  { eapply does_onErr; [apply register_does|]. by intros g []. }
  2: by intros g err ->; split; [intros []|].
  2: by intros g p ->; split; [intros []|].
  intros g [] ->.
  set (quiet := fun A (g : Phase) (o : outcome A) => g = Stored /\ exists a, o = Ok a).
  assert (Hq : forall A B (h : M (Replay World) A) (f : A -> M (Replay World) B),
    does (quiet A) Stored h -> (forall a, does tells Stored (f a)) -> does tells Stored (bindM h f)).
  { intros A B h f Hh Hf. eapply does_bind; [exact Hh|by intros g a [-> _]|..];
      by intros g ? [_ [? ?]]. }
  assert (Htry : forall A (m : D A), (forall w, roster e (w_db (m w).2) = roster e (w_db w)) ->
    nopanic m -> does (quiet _) Stored (tryM (call m))).
  { intros A m Hm Hn. eapply does_tryM; [apply (does_quiet (fun o => forall p, o <> Panic p))|].
    - exact Hm.
    - intros w p. apply Hn.
    - intros g [a|err|p] [-> Hp]; split; try done; [by eexists..|by destruct (Hp p)]. }
  assert (Hret : does (quiet unit) Stored (retM tt)) by (apply does_ret; split; [done|by exists tt]).
  assert (Hthen : forall A (h : M (Replay World) A), does (quiet A) Stored h ->
    does (quiet unit) Stored (let! _ := h in retM tt)).
  { intros A h Hh. eapply does_bind; [exact Hh|by intros g a [-> _]|..]; by intros g ? [_ [? ?]]. }
  apply Hq.
  { destruct (bool_decide _); [|exact Hret]. apply Hthen, Htry; [done|]. by intros w p. }
  intros _. apply Hq.
  { apply Htry; [|apply pointer_nopanic, TagByName_nopanic]. intros w.
    exact (f_equal (roster e) (pointer_keeps w_db _ (TagByName_keeps e "PendingValidation") w)). }
  intros tag. apply Hq.
  { destruct tag as [err|[tag|]]; [exact Hret| |exact Hret]. apply Hthen, Htry.
    - intros w. pose proof (RemoveTag_rest e (no_tags e (w_db w)) e [m_ID member] (tg_ID tag) w eq_refl)
        as [HR _]. by injection HR.
    - apply RemoveTag_nopanic. }
  intros _. apply Hq; [|intros _; apply does_ret; split; [done|by eexists]].
  eapply does_weaken; [apply does_inc|]. intros g o [-> ->]. split; [done|by exists tt].
Qed.

Lemma validateToken_does (request : APIrequest) :
  rq_EntityID request = e -> uuid_Parse (rq_Token request) = inr t ->
  rq_SignaturePublicKey request = k ->
  does tells Checking (validateToken (DB:=RDB) (H:=RH) request).
Proof.
  intros He Ht Hk. unfold validateToken.
  eapply does_bind; [by apply check_does|..].
  - intros g [[entity member] uid] [-> Hu]. simpl in Hu. subst uid. by apply commit_does.
  - intros g err Hg. split; [by intros []|done].
  - intros g p Hg. split; [by intros []|done].
Qed.
End one_request.

(** ** Any number of them, in any schedule *)
Context (getHealth : M World Z) (authorized : gmap bytes bool).

Lemma served_does k m :
  registers m e t k ->
  does (phase_step k) (fun g o => accepted (Some o) = true <-> g = Stored) Checking
    (served_by_thread (H:=race_host) getHealth authorized m).
Proof.
  intros (He & Ha & Hn & Ht & ->). unfold concerns in He. rewrite Ha in He.
  unfold served_by_thread, served. rewrite Ha. unfold route.
  change (APIrequest_GetMethod _) with (rq_Method (sd_Message (ms_request m))). rewrite Hn.
  set (q := setq_SignaturePublicKey _ _).
  assert (Hl : lookup_method (registry_api (DB:=RDB) (H:=RH) (call getHealth) authorized)
                 "validateToken" = validateToken (DB:=RDB) (H:=RH)).
  { unfold lookup_method, registry_api.
    rewrite (EnableAPI_lookup _ _ "validateToken" true (validateToken (DB:=RDB) (H:=RH)));
      [done| |right; left].
    apply (bool_decide_unpack _). vm_compute. exact I. }
  rewrite Hl.
  eapply (does_bind _ (fun g (o : outcome (gerror + APIresponse)) => match o with
    | Ok r => (exists a, r = inr a) <-> g = Stored | _ => g <> Stored end)).
  - eapply does_tryM; [by apply (validateToken_does (sd_SignaturePublicKey (ms_request m)) q)|].
    intros g o [H1 H2]. destruct o as [a|err|p]; simpl.
    + split; [intros _; apply H1; by eexists|by eexists].
    + split; [by intros []|intros Hg; by destruct (H2 Hg)].
    + intros Hg. by destruct (H2 Hg).
  - intros g [err|a] [H1 H2]; apply does_ret; simpl.
    + split; [done|intros Hg; by destruct (H2 Hg)].
    + split; [intros _; apply H1; by eexists|done].
  - by intros g err Hg.
  - by intros g p Hg.
Qed.

Context (ms : list Message) (w0 : World).

(* the member exists and has no key *)
Definition token_free (R : gmap uuid (option bytes)) : Prop :=
  exists o, R !! t = Some o /\ default "" o = "".
(* the key that signed a message *)
Definition signer (i : nat) : bytes :=
  default "" ((fun m => sd_SignaturePublicKey (ms_request m)) <$> ms !! i).

(* the phases and the roster: as at the start, or with the key of a request
   that stored it; and the token was free when some request got that far *)
Definition phases (gs : list Phase) (w : World) : Prop :=
  let R0 := roster e (w_db w0) in let R := roster e (w_db w) in
  length gs = length ms /\
  (forall i g, gs !! i = Some g -> g <> Checking -> token_free R0) /\
  ((forall i, gs !! i <> Some Stored) /\ R = R0 \/
   exists i, gs !! i = Some Stored /\ R = <[t := Some (signer i)]> R0).

Lemma phases_step i g g' gs s s' :
  gs !! i = Some g -> phases gs s -> phase_step (signer i) g s g' s' -> phases (<[i := g']> gs) s'.
Proof.
  intros Hg (Hlen & Hfree & HR) Hstep. unfold phase_step in Hstep. cbn zeta in Hstep.
  assert (Hi : i < length gs) by (by apply lookup_lt_Some in Hg).
  assert (Hfree' : g' <> Checking -> token_free (roster e (w_db w0))).
  { intros Hg'. destruct g; [|by apply (Hfree i Free)|by apply (Hfree i Stored)].
    destruct g'; [done| |done]. destruct Hstep as [_ Ho].
    destruct HR as [[_ HR]|(j & Hj & _)]; [by rewrite HR in Ho|by apply (Hfree j Stored)]. }
  split; [by rewrite length_insert|]. split.
  { intros j gj Hj. apply list_lookup_insert_Some in Hj as [(<- & <- & _)|[_ Hj]]; [done|].
    by apply (Hfree j). }
  assert (Hcase : roster e (w_db s') = roster e (w_db s) /\ (g' = Stored <-> g = Stored) \/
    g = Free /\ g' = Stored /\ roster e (w_db s') = <[t := Some (signer i)]> (roster e (w_db s))).
  { destruct g, g'; try done; try (left; split; [apply Hstep|done]). by right. }
  destruct Hcase as [[-> Hst]|(-> & -> & ->)].
  - destruct HR as [[Hn HR]|(j & Hj & HR)]; [left|right; exists j]; split; try done.
    + intros j Hj. apply list_lookup_insert_Some in Hj as [(<- & Hg' & _)|[_ Hj]]; [|by apply (Hn j)].
      apply (Hn i). rewrite Hg. f_equal. by apply Hst.
    + destruct (decide (i = j)) as [<-|Hij]; [|by rewrite list_lookup_insert_ne].
      rewrite list_lookup_insert_eq by done. f_equal. apply Hst. congruence.
  - right. exists i. rewrite list_lookup_insert_eq by done. split; [done|].
    destruct HR as [[_ ->]|(j & _ & ->)]; [done|]. by rewrite insert_insert_eq.
Qed.

Lemma one_winner schedule :
  (forall m, m ∈ ms -> exists k, registers m e t k) ->
  let c := concurrently (H:=race_host) getHealth authorized ms schedule w0 in
  let R := roster e (w_db w0) in let R' := roster e (w_db c.1) in
  all_done c = true ->
  (forall i, accepted (answers c !! i ≫= id) = false) /\ R' = R \/
  token_free R /\ exists i m, ms !! i = Some m /\ accepted (answers c !! i ≫= id) = true /\
    R' = <[t := Some (sd_SignaturePublicKey (ms_request m))]> R.
Proof.
  intros Hms c R R' Hd.
  destruct (together (fun i => phase_step (signer i))
    (fun g o => accepted (Some o) = true <-> g = Stored) phases phases_step
    (map (served_by_thread (H:=race_host) getHealth authorized) ms) (replicate (length ms) Checking)
    w0 schedule) as (gs & (Hlen & Hfree & HR) & Ha).
  { intros i h Hh. rewrite list_lookup_fmap in Hh. apply fmap_Some in Hh as (m & Hm & ->).
    exists Checking. split; [apply lookup_replicate_2; by apply lookup_lt_Some in Hm|].
    apply served_does. destruct (Hms m) as (k & Hk); [by eapply list_elem_of_lookup_2|].
    unfold signer. rewrite Hm. simpl. destruct Hk as (? & ? & ? & ? & ->). by split_and!. }
  { split; [apply length_replicate|].
    split; [|left; split; [|done]]; intros i; [intros g Hg Hn|intros Hg];
      apply lookup_replicate in Hg as [? _]; by subst. }
  change (run_schedule _ _) with c in Ha, HR. fold R R' in HR.
  destruct HR as [[Hn HR]|(i & Hi & HR)]; [left|right].
  - split; [|done]. intros i. destruct (answers c !! i) as [[o|]|] eqn:Eo; [|done..]. simpl.
    apply not_true_iff_false. intros Hacc. destruct (Ha i o Eo) as (g & Hg & Ho).
    apply Ho in Hacc as ->. by apply (Hn i).
  - split; [by apply (Hfree i Stored)|].
    assert (Him : i < length ms) by (rewrite <- Hlen; by apply lookup_lt_Some in Hi).
    destruct (lookup_lt_is_Some_2 _ _ Him) as [m Hm].
    destruct (all_answered c i Hd) as [o Ho];
      [unfold c, concurrently; rewrite run_schedule_length; simpl; by rewrite !length_map|].
    exists i, m. split; [done|]. split; [|by rewrite HR; unfold signer; rewrite Hm].
    destruct (Ha i o Ho) as (g & Hg & Hacc). rewrite Ho. simpl. apply Hacc. congruence.
Qed.
End race.

(** ** A race *)

#[local] Existing Instance demo_ext.
#[local] Instance concurrent_env : Env := demo_env 1.
#[local] Instance concurrent_host : Host World := env_host None.

(* two members register with the token of member 12 *)
Definition token_message (key : bytes) : Message :=
  mkMessage RegistryAPI
    (mkSigned key (setq_Method "validateToken" (token_request "0011" key)) key).
(* the token service revokes it *)
Definition revoke_message : Message :=
  mkMessage TokenAPIKind (mkSigned "revoke" (demo_request token_fields "revoke" "0011" 0) "").

Definition registered_key (t : uuid) (w : World) : option (option bytes) :=
  mr_public_key <$> members (w_db w) !! t.
Definition race (ms : list Message) (schedule : list nat) : Machine World Reply :=
  concurrently (retM 90%Z) ∅ ms schedule demo_world.
Definition registrations : list Message := [token_message "k2"; token_message "k3"].

Definition token_gone (c : Machine World Reply) : bool :=
  bool_decide (registered_key 12%N c.1 = None).

Lemma race_explored (P : Machine World Reply -> bool) ms schedule :
  explore P 12 (race ms []) = true -> all_done (race ms schedule) = true ->
  P (race ms schedule) = true.
Proof. apply explore_sound. Qed.

(** C5: Two members cannot both hold a token, but both can be told that they do.
    Of any number of validateToken requests for one token of an entity, served
    at the same time in any order of their calls, with any failures of the
    driver: either none is accepted and the roster stays as it was, or the token
    was free and ends with the key that signed an accepted one, the rest of the
    roster unchanged. Served in turn two such requests have one accepted, but
    some schedules accept both, and one member is then told that it registered
    although its key is not in the database. *)
Theorem registration_race :
  (forall (X : Ext) (V : Env) eth getHealth authorized e t ms schedule w,
     (forall m, m ∈ ms -> exists k, registers m e t k) ->
     let c := concurrently (H:=env_host eth) getHealth authorized ms schedule w in
     let R := roster e (w_db w) in let R' := roster e (w_db c.1) in
     all_done c = true ->
     (forall i, accepted (answers c !! i ≫= id) = false) /\ R' = R \/
     token_free t R /\ exists i m, ms !! i = Some m /\ accepted (answers c !! i ≫= id) = true /\
       R' = <[t := Some (sd_SignaturePublicKey (ms_request m))]> R) /\
  (exists counts, map accepted (answers (race registrations (in_turn counts))) = [true; false]) /\
  (exists schedule, map accepted (answers (race registrations schedule)) = [true; true]).
Proof.
  split; [|split; [exists [8; 8]|exists (concat (replicate 8 [0; 1]))]; vm_compute; reflexivity].
  intros X V eth getHealth authorized e t ms schedule w. apply one_winner.
Qed.

(* A revocation holds under concurrency: whatever the order of the calls of a
   revocation and of a registration with the same token, the token is gone once
   both have been served. *)
Lemma revocation_holds schedule :
  let c := race [token_message "k2"; revoke_message] schedule in
  all_done c = true -> registered_key 12%N c.1 = None.
Proof.
  intros c Hd. apply (bool_decide_eq_true_1 (registered_key 12%N c.1 = None)).
  refine (race_explored token_gone _ schedule _ Hd). vm_compute. reflexivity.
Qed.

(* Two requests that each send the first validation link of an entity: both
   find no tag, the second to create it fails, and its sender is told of an
   error after its e-mail was sent, with the member left untagged. *)
Definition links_message (id : string) (members : list uuid) : Message :=
  mkMessage ManagerAPI (mkSigned id (setq_Method "sendValidationLinks"
    (setq_MemberIDs members zero_APIrequest)) "e1").
Definition links_world : World := run_all [OpCreateMembersWithTokens "e1" [13%N]] demo_world.

Lemma links_race :
  let c := concurrently (retM 90%Z) ∅ [links_message "1" [12%N]; links_message "2" [13%N]]
             (concat (replicate 9 [0; 1])) links_world in
  answers c !! 1 = Some (Some (Ok (SendError "2" "sent emails but could not assign tag"))) /\
  mr_tags <$> members (w_db c.1) !! 13%N = Some [].
Proof. split; vm_compute; reflexivity. Qed.

(** ** Witnesses *)

Lemma concurrent_host_inv I : HostInv concurrent_host (holds I) anything.
Proof. apply env_host_inv. intros f a b c Hf _. discriminate Hf. Qed.

Lemma concurrent_isolation_witness :
  let c := race registrations (concat (replicate 8 [0; 1])) in
  tenant "e2" (w_db c.1) = tenant "e2" (w_db demo_world) /\ sound (w_db c.1).
Proof.
  apply (concurrent_isolation (retM 90%Z) ∅ registrations).
  - apply concurrent_host_inv.
  - intros w. reflexivity.
  - apply (reachable_sound (X:=demo_ext) (V:=demo_env 1)), reachable_run_all.
  - intros m [->|[->|[]%not_elem_of_nil]%elem_of_cons]%elem_of_cons Hc; discriminate Hc.
Defined.

Lemma concurrent_keys_witness :
  registered "e1" 12%N "k3" (w_db demo_world) \/
  exists m, m ∈ registrations /\ stores m "e1" "k3".
Proof.
  apply (concurrent_keys (retM 90%Z) ∅ registrations (concat (replicate 8 [0; 1])) demo_world "e1" 12%N "k3").
  - apply concurrent_host_inv.
  - intros w. reflexivity.
  - eexists. split; [vm_compute; reflexivity|]. split; reflexivity.
Defined.

Lemma registrations_register m :
  m ∈ registrations -> exists k, registers m "e1" 12%N k.
Proof.
  unfold registers. intros [->|[->|[]%not_elem_of_nil]%elem_of_cons]%elem_of_cons;
    [exists "k2"|exists "k3"]; split_and!; vm_compute; reflexivity.
Qed.

Lemma registration_race_witness :
  let c := concurrently (H:=env_host None) (retM 90%Z) ∅ registrations
             (concat (replicate 8 [0; 1])) demo_world in
  let R := roster "e1" (w_db demo_world) in let R' := roster "e1" (w_db c.1) in
  (forall i, accepted (answers c !! i ≫= id) = false) /\ R' = R \/
  token_free 12%N R /\ exists i m, registrations !! i = Some m /\
    accepted (answers c !! i ≫= id) = true /\
    R' = <[12%N := Some (sd_SignaturePublicKey (ms_request m))]> R.
Proof.
  refine (proj1 registration_race demo_ext concurrent_env None (retM 90%Z) ∅ "e1" 12%N registrations
    (concat (replicate 8 [0; 1])) demo_world registrations_register _).
  vm_compute. reflexivity.
Defined.

(* the token of member 11, which "k1" holds, is claimed again while the token
   of member 12 is revoked *)
Definition claims_and_revokes : list Message :=
  [mkMessage RegistryAPI
     (mkSigned "claim" (setq_Method "validateToken" (token_request "1101" "k1")) "k1");
   revoke_message].

Lemma claims_spare m : m ∈ claims_and_revokes -> ~ deletes m "e1" 11%N (Some "k1").
Proof.
  intros [->|[->|[]%not_elem_of_nil]%elem_of_cons]%elem_of_cons [_ Hd]; [done|].
  destruct Hd as [[_ Ht]|[Hn _]]; [vm_compute in Ht|]; discriminate.
Qed.

Lemma concurrent_key_stays_witness :
  registered "e1" 11%N "k1" (w_db demo_world) /\
  registered "e1" 11%N "k1" (w_db (race claims_and_revokes (concat (replicate 8 [0; 1]))).1).
Proof.
  assert (Hr : registered "e1" 11%N "k1" (w_db demo_world))
    by (eexists; split; [vm_compute; reflexivity|split; reflexivity]).
  split; [exact Hr|].
  apply (concurrent_key_stays (retM 90%Z) ∅ claims_and_revokes (concat (replicate 8 [0; 1]))
    "e1" 11%N "k1" demo_world).
  - apply concurrent_host_inv.
  - intros w. reflexivity.
  - apply claims_spare.
  - intros m k' [->|[->|[]%not_elem_of_nil]%elem_of_cons]%elem_of_cons (_ & Ha & _ & _ & Hk');
      [exact Hk'|discriminate Ha].
  - exact Hr.
Defined.

Lemma registered_key_stays_witness :
  registered "e1" 11%N "k1"
    (w_db (one_by_one (map (served (retM 90%Z) ∅) (claims_and_revokes ++ registrations)) demo_world).1).
Proof.
  apply (registered_key_stays None (retM 90%Z) ∅ "e1" 11%N "k1"); [done|reflexivity| | | | |].
  - apply concurrent_host_inv.
  - intros w. reflexivity.
  - intros m [Hm|Hm]%elem_of_app; [by apply claims_spare|].
    revert Hm. intros [->|[->|[]%not_elem_of_nil]%elem_of_cons]%elem_of_cons [_ []].
  - apply (reachable_db_ok (X:=demo_ext) (V:=demo_env 1)), reachable_run_all.
  - eexists. split; [vm_compute; reflexivity|split; reflexivity].
Defined.
