(* ===== verification/UnitTests.v ===== *)
(** * The unit tests of the APIs (manager/manager_test.go, registry/registry_test.go)

    The requests of the two files, in their order, sent to the APIs of RpcApi
    with the mock database of TestDb and without mail server and faucet, as
    testcommon.TestAPI.Start(nil, "/api") sets them up; each with what the test
    asks of the answer. The keys are those of testdb.Signers and one generated
    key; their uncompressed forms and their addresses are what secp256k1 and
    Keccak give, computed apart. *)
From S2P Require Import Prelude GoLib Ext Util Types Schema Session Database TestDb.
From S2P Require Import TokenAPI Registry Mail Manager RpcApi.

(** ** The keys *)

Definition unhex (s : string) : bytes := match DecodeString s with inr b => b | inl _ => "" end.

(* compressed, the other coordinate, address; the last is the key of the
   private key 1 *)
Definition key_table : list (string * string * string) :=
  [("03f9d1e41906436bf2e8aab319383dea6a4c06426266955293fd92b41f6346256f",
    "e49b16dc6d15f900b96e4d0e09e110ed342ce5f92133d6000040cd0b0664818f",
    "09fa012e40f844b073fab7fcbd7f7a5716c1a365");
   ("03733ca0d2462ef3cd4dbd331d5ec27a63eeb13afbaf03f236847479c3e8d7fd94",
    "2ab2b6dcad6dda61e7af0865784d969b5d71abe52c2ca585350a416ef34cf9bd",
    "5fa506aa68191bcc657795e57f080472e712c27d");
   ("0399d0ad8447520e66df7db954b0936f4b141a01ba6213dda88c9df7293b66262e",
    "4a5f9e22dd1e19d0db6f685f383f70bc6b3e2da07905322fffd7e270b1934fbd",
    "c87363d9919daef530bf19e907df7f2d8920be75");
   ("026163a9bc3425426bbb7f0fde6c9bb4504493415a34b99a84162fe01640a784a3",
    "bffea35dbc2652d672d311a741654c397a05aded47c60c6797f382c956b04220",
    "6d3e07d7d1dd84469cc3adf49fa83daf2678b4c9");
   ("0279be667ef9dcbbac55a06295ce870b07029bfcdb2dce28d959f2815b16f81798",
    "483ada7726a3c4655da4fbfc0e1108a8fd17b448a68554199c47d08ffb10d4b8",
    "7e5f4552091a69125d5dfcb7b8c2659029395bdf")].

(* SignaturePublicKey is compressed in some releases of the library, and
   uncompressed in others *)
Definition public_key (compressed : bool) (k : string * string * string) : bytes :=
  let '(c, y, _) := k in
  unhex (if compressed then c else "04" +:+ String.substring 2 64 c +:+ y).
Definition key (compressed : bool) (i : nat) : bytes := public_key compressed (key_table !!! i).
Definition generated : nat := 4.

(* any library that has these addresses, and accepts the e-mails of the tests *)
Definition unit_ext (compressed : bool) (X : Ext) : Ext := {|
  TrimHex := trim_0x;
  HashRaw := HashRaw;
  PubKeyLengthBytes := if compressed then 33 else 65;
  AddrFromPublicKey pk :=
    match list_find (fun k => public_key compressed k = pk) key_table with
    | Some (_, (_, _, address)) => inr (unhex address)
    | None => AddrFromPublicKey pk
    end;
  AddressString := AddressString;
  uuid_Parse := uuid_Parse;
  uuid_String := uuid_String;
  ValidateFormat e := if existsb (String.eqb e) ["info@vocdoni.io"; "fail@fail.fail"] then None
                      else ValidateFormat e;
  ParseRequestURI := ParseRequestURI;
  JSONB_Set := JSONB_Set;
|}.

(** ** The server: UUIDs are drawn in sequence *)

Definition draw : M N uuid := fun n => (Ok n, N.succ n).
#[export] Instance unit_db : Database N := testdb draw (fun t => t_Name t).
#[export] Instance unit_host : Host N := {|
  host_uuid := draw;
  host_Unix := retM 1600000000%Z;
  host_Perm n := retM (seq 0 n);
  host_callback _ _ _ _ := retM tt;
  host_SendVotingLink _ _ _ := failM (Errorf "no such host");
  host_SendValidationLink _ _ := failM (Errorf "no such host");
  host_smtp := true;
  host_schedule := retM [];
  host_time_String := decimal;
  host_SendTokens := None;
  host_Inc := fun _ => retM tt;
|}.

(** ** The tests *)

(* a request, the key that signs it, and what is asked of the answer: that it
   is not Ok, or that it is Ok and satisfies a condition *)
Record Case := mkCase {
  k_method : string;
  k_request : APIrequest;
  k_signer : nat;
  k_expect : option (APIresponse -> bool);
}.
Definition fails (method : string) (signer : nat) (request : APIrequest) : Case :=
  mkCase method request signer None.
Definition succeeds (method : string) (signer : nat) (request : APIrequest) : Case :=
  mkCase method request signer (Some (fun _ => true)).

(* conn.Request(req, signer): an error reply, like no reply, is not Ok *)
Definition response_of (o : outcome Reply) : option APIresponse :=
  match o with Ok (SendReply _ r) => if rs_Ok r then Some r else None | _ => None end.

Definition Request {X : Ext} (api : RPCAPI N) (compressed : bool) (c : Case) :
    M N (option APIresponse) := fun s =>
  let request := setq_Method (k_method c) (k_request c) in
  let '(o, s') := route api (mkSigned "1" request (key compressed (k_signer c))) s in
  (Ok (response_of o), s').

Definition passes {X : Ext} (api : RPCAPI N) (compressed : bool) (c : Case) : M N bool :=
  let! r := Request api compressed c in
  retM (match k_expect c, r with
        | None, None => true
        | Some p, Some response => p response
        | _, _ => false
        end).

Definition run_tests {X : Ext} (api : RPCAPI N) (compressed : bool) (l : list Case) : M N bool :=
  let! results := mapM_ (passes api compressed) l in retM (forallb id results).

Definition options (order sortBy : string) : APIrequest :=
  setq_ListOptions (Some (mkListOptions 10 order 2 sortBy)) zero_APIrequest.
Definition a_member : APIrequest := setq_MemberID (Some 77%N) zero_APIrequest.
Definition a_target : APIrequest := setq_TargetID (Some 78%N) zero_APIrequest.
Definition zero_Member : Member := mkMember zero_CreatedUpdated uuid_Nil "" None zero_MemberInfo.
Definition a_census : string := "d67fb28849af7543f2b0b6bf01bde17613bf7ada".

Definition TestSignUp : list Case :=
  [fails "signUp" 0 zero_APIrequest; fails "signUp" 1 zero_APIrequest;
   succeeds "signUp" 2 zero_APIrequest].
Definition TestGetEntity : list Case :=
  [fails "getEntity" 0 zero_APIrequest; succeeds "getEntity" 2 zero_APIrequest].
Definition TestListMembers : list Case :=
  [fails "listMembers" 0 (options "0x" "lastName");
   fails "listMembers" 1 (options "ascend" "lastName");
   fails "listMembers" 0 (options "ascend" "lastName");
   succeeds "listMembers" 3 (options "ascend" "lastName")].
Definition TestGetMember : list Case :=
  [fails "getMember" 1 a_member; fails "getMember" 0 a_member;
   (* the test signs with the second key again, not the third *)
   fails "getMember" 0 a_member;
   fails "getMember" 3 a_member; succeeds "getMember" generated a_member].
Definition TestUpdateMember : list Case :=
  let request := setq_Member (Some zero_Member) zero_APIrequest in
  [fails "updateMember" 0 request; succeeds "updateMember" 1 request].
Definition TestDeleteMembers : list Case :=
  let request := setq_MemberIDs [77%N] zero_APIrequest in
  [fails "deleteMembers" 0 request; succeeds "deleteMembers" 1 request].
Definition TestCountMembers : list Case :=
  [fails "countMembers" 0 zero_APIrequest; succeeds "countMembers" 1 zero_APIrequest].
Definition TestGenerateTokens : list Case :=
  [fails "generateTokens" 0 (setq_Amount 0 zero_APIrequest);
   fails "generateTokens" 1 (setq_Amount 2 zero_APIrequest);
   succeeds "generateTokens" 2 (setq_Amount 2 zero_APIrequest)].
Definition TestExportTokens : list Case :=
  [fails "exportTokens" 0 zero_APIrequest; fails "exportTokens" 1 zero_APIrequest;
   succeeds "exportTokens" 2 zero_APIrequest].
Definition TestImportMembers : list Case :=
  let two := setq_MembersInfo (replicate 2 zero_MemberInfo) zero_APIrequest in
  [fails "importMembers" 0 (setq_MembersInfo [] zero_APIrequest);
   fails "importMembers" 1 two; succeeds "importMembers" 0 two].
Definition TestCountTargets : list Case :=
  [fails "countTargets" 0 zero_APIrequest; succeeds "countTargets" 1 zero_APIrequest].
Definition TestListTargets : list Case :=
  [fails "listTargets" 0 (options "0x" "lastName");
   fails "listTargets" 1 (options "ascend" "lastName");
   fails "listTargets" 0 (options "ascend" "lastName")].
Definition TestGetTarget : list Case :=
  [fails "getTarget" 0 a_target; fails "getTarget" 1 a_target; succeeds "getTarget" 2 a_target].
Definition TestDumpTarget : list Case := [fails "dumpTarget" 0 a_target].
Definition TestAddCensus : list Case :=
  [fails "addCensus" 0 (setq_TargetID (Some uuid_Nil) zero_APIrequest);
   fails "addCensus" 0 a_target; fails "addCensus" 0 a_target;
   fails "addCensus" 2 (setq_CensusID a_census a_target);
   succeeds "addCensus" 0 (setq_CensusID a_census a_target)].
Definition TestGetCensus : list Case :=
  [fails "getCensus" 0 zero_APIrequest; fails "getCensus" 0 (setq_CensusID "0xA" a_target);
   fails "getCensus" 0 (setq_CensusID a_census zero_APIrequest);
   succeeds "getCensus" 2 (setq_CensusID a_census zero_APIrequest)].
Definition TestCountCensus : list Case :=
  let request := setq_CensusID a_census zero_APIrequest in
  [fails "countCensus" 1 request; succeeds "countCensus" 0 request].
Definition TestListCensus : list Case :=
  [fails "listCensus" 1 (options "0x" "lastName"); fails "listCensus" 1 (options "ascend" "lastName");
   fails "listCensus" 0 (options "ascend" "lastName"); succeeds "listCensus" 2 (options "ascend" "name")].
Definition TestRequestGas : list Case := [fails "requestGas" 1 zero_APIrequest].

Definition manager_tests : list Case := concat
  [TestSignUp; TestGetEntity; TestListMembers; TestGetMember; TestUpdateMember; TestDeleteMembers;
   TestCountMembers; TestGenerateTokens; TestExportTokens; TestImportMembers; TestCountTargets;
   TestListTargets; TestGetTarget; TestDumpTarget; TestAddCensus; TestGetCensus; TestCountCensus;
   TestListCensus; TestRequestGas].

(* util.RandomBytes(AddressLength), and the member's e-mail *)
Definition a_registration (entityID : bytes) (email : string) : APIrequest :=
  setq_MemberInfo
    (Some (mkMemberInfo 0 email "" "" "" "" false 0 Token None None))
    (setq_EntityID entityID zero_APIrequest).
Definition random_entity : bytes := unhex "00112233445566778899aabbccddeeff00112233".

Definition TestRegister : list Case :=
  [succeeds "register" generated (a_registration random_entity "info@vocdoni.io");
   succeeds "register" generated (a_registration random_entity "info@vocdoni.io");
   fails "register" generated (a_registration random_entity "fail@fail.fail");
   fails "register" generated (a_registration (unhex entity_f6da) "info@vocdoni.io");
   succeeds "register" 0 (a_registration random_entity "info@vocdoni.io")].
Definition TestStatus : list Case :=
  [succeeds "register" generated
     (setq_PubKey (key false 3) (a_registration random_entity "info@vocdoni.io"));
   mkCase "registrationStatus" (setq_EntityID random_entity zero_APIrequest) generated
     (Some (fun r => match rs_Status r with
                     | Some s => s_Registered s && negb (s_NeedsUpdate s)
                     | None => false
                     end));
   fails "registrationStatus" generated (setq_EntityID (unhex entity_f6da) zero_APIrequest)].
Definition TestSubscribe : list Case := [succeeds "subscribe" generated zero_APIrequest].
Definition TestUnsubscribe : list Case := [succeeds "unsubscribe" generated zero_APIrequest].

Definition registry_tests : list Case :=
  concat [TestRegister; TestStatus; TestSubscribe; TestUnsubscribe].

(** ** The tests pass *)

(* the model gives every answer the unit tests of the repository ask for:
    each request of manager_test.go and registry_test.go, in their order, gets
    an answer that is Ok, or one that is not, as its test says, whatever the
    libraries do beyond the addresses of the keys. *)
Lemma unit_tests_pass (X : Ext) (compressed : bool) (n : N) :
  let X := unit_ext compressed X in
  fst (run_tests (manager_api (retM 90%Z) ∅) compressed manager_tests n) = Ok true /\
  fst (run_tests (registry_api (retM 90%Z) ∅) compressed registry_tests n) = Ok true.
Proof. destruct compressed; split; vm_compute; reflexivity. Qed.

(* TestGetMember wants a failure when ListTargets finds no rows, but signs that
   request with another key; with the key it prepared the answer is Ok *)
Lemma getMember_without_targets (X : Ext) (compressed : bool) (n : N) :
  let X := unit_ext compressed X in
  fst (run_tests (manager_api (retM 90%Z) ∅) compressed [succeeds "getMember" 2 a_member] n) = Ok true.
Proof. destruct compressed; vm_compute; reflexivity. Qed.
