(* ===== verification/TokenTests.v ===== *)
(** * The integration tests of the token API (test/testtoken/token_test.go)

    The requests of the tests, in their order, sent to the token API of RpcApi
    on the database of pgsql.go. What the tests draw at random is fixed.
    testcommon's client puts the time into every request it sends, whatever
    the test had put there. *)
From S2P Require Import Prelude GoLib Ext Util Types Schema Session.
From S2P Require Import PgTypes PgTx PgEntities PgMembers PgQueries PgTests.
From S2P Require Import Database TokenAPI Registry Manager RpcApi.

(* randomdata's; the callback secret is "test" *)
Definition token_entity : EntityInfo :=
  mkEntityInfo "" "test" "e@mail.com" "name" "abcde" 100 (Some ["name"]) [Token] false.

(* calculateAuth: the loop is that of checkAuth *)
Definition calculateAuth {X : Ext} (fields : list AuthField) : string :=
  match fields with [] => "" | _ => EncodeToString (HashRaw (toHash fields)) end.

Section tests.
Context {X : Ext} {V : Env}.
#[local] Instance tests_host : Host World := env_host None.

(* int32(time.Now().Unix()) *)
Definition timestamp_now : D Z := let! now := host_Unix in retM (int32 now).

(* wsc.Request(req, signer), with the message decoded *)
Definition wsc_Request (api : RPCAPI World) (pub : bytes) (req : APIrequest) : D APIresponse :=
  let! now := timestamp_now in
  let! r := route api (mkSigned "1" (setq_Timestamp now req) pub) in
  retM (match r with
        | SendError _ msg => set_Message msg zero_APIresponse
        | SendReply _ response => response
        end).
Definition must_refuse (message : string) (resp : APIresponse) : D unit :=
  assert (negb (rs_Ok resp) && String.eqb (rs_Message resp) message) message.

(* the token API asks for no signature *)
Definition token_Request (req : APIrequest) : D APIresponse :=
  wsc_Request (tokenapi_api (retM 90%Z) ∅) "" req.

(* the fields the tests hash *)
Definition auth_token (req : APIrequest) (secret : string) : string :=
  calculateAuth [FBytes (rq_EntityID req); FString (rq_Method req);
    FString (decimal (rq_Timestamp req)); FString (rq_Token req); FString secret].
Definition auth_list (req : APIrequest) : string :=
  calculateAuth [FBytes (rq_EntityID req); FPointer (rq_ListOptions req); FString (rq_Method req);
    FString (decimal (rq_Timestamp req)); FString "test"].
Definition auth_delete (req : APIrequest) : string :=
  calculateAuth [FBytes (rq_EntityID req); FStrings (rq_Keys req); FString (rq_Method req);
    FString (decimal (rq_Timestamp req)); FString "test"].
(* the timestamp and the hash, then the request *)
Definition send (auth : APIrequest -> string) (req : APIrequest) : D APIresponse :=
  let! now := timestamp_now in
  let req := setq_Timestamp now req in
  token_Request (setq_AuthHash (auth req) req).
Definition send_token (req : APIrequest) : D APIresponse :=
  send (fun req => auth_token req "test") req.

Definition token_request (method : string) (e : bytes) (token : string) : APIrequest :=
  setq_Token token (setq_EntityID e (setq_Method method zero_APIrequest)).
Definition first_token (uids : list uuid) : string := uuid_String (default uuid_Nil (uids !! 0)).
Definition second_token (uids : list uuid) : string := uuid_String (default uuid_Nil (uids !! 1)).

(* 2 and 3 do not reach the window: the client overwrites the timestamp after it
   was hashed, so what is refused is the hash *)
Definition TestAuthentication : D unit :=
  let e := "A1" in
  let! _ := AddEntity e token_entity in
  let! uids := CreateNMembers e 2 in
  let req := token_request "status" e (first_token uids) in
  let refused shift auth :=
    let! now := timestamp_now in
    let req := setq_Timestamp (now + shift)%Z req in
    let! resp := token_Request (setq_AuthHash (auth req) req) in
    assert (negb (rs_Ok resp)) "should fail" in
  let! resp := send_token req in
  let! _ := assert (rs_Ok resp) "correct request" in
  let! _ := refused (-4000)%Z (fun req => auth_token req "test") in
  let! _ := refused 4000%Z (fun req => auth_token req "") in
  let! _ := refused 0%Z (fun req => auth_token req "wrong") in
  let! _ := refused 0%Z (fun req => auth_token (setq_Timestamp (rq_Timestamp req + 10) req) "test") in
  let! _ := refused 0%Z (fun _ => "") in
  DeleteEntity e.

Definition TestGenerate (randAmount : nat) : D unit :=
  let e := "A2" in
  let! _ := AddEntity e token_entity in
  let req := setq_Amount (Z.of_nat randAmount) (setq_EntityID e (setq_Method "generate" zero_APIrequest)) in
  let! resp := send (fun req => calculateAuth [FString (decimal (rq_Amount req));
    FBytes (rq_EntityID req); FString (rq_Method req); FString (decimal (rq_Timestamp req));
    FString "test"]) req in
  let! _ := assert (rs_Ok resp) "request failed" in
  let! _ := assert (length_is (rs_Tokens resp) randAmount) "tokens" in
  DeleteEntity e.

Definition TestStatus : D unit :=
  let e := "A3" in
  let! _ := AddEntity e token_entity in
  let! uids := CreateNMembers e 2 in
  let says s (resp : APIresponse) :=
    assert (rs_Ok resp && String.eqb (rs_TokenStatus resp) s) s in
  let ask e token := send_token (token_request "status" e token) in
  let! resp := ask e (first_token uids) in
  let! _ := says "available" resp in
  let! _ := RegisterMember e (a_key (ascii_of_nat 5)) (uids !! 0) in
  let! resp := ask e (first_token uids) in
  let! _ := says "registered" resp in
  let! resp := ask e (uuid_String tempUUID) in
  let! _ := says "invalid" resp in
  let! resp := ask "Z8" (second_token uids) in
  let! _ := must_refuse "invalid entityID" resp in
  let! resp := ask "Z9" (second_token uids) in
  let! _ := must_refuse "invalid entityID" resp in
  let! resp := ask "" (second_token uids) in
  let! _ := must_refuse "invalid entityID" resp in
  let! resp := ask e "" in
  let! _ := must_refuse "invalid token" resp in
  DeleteEntity e.

Definition TestRevoke : D unit :=
  let e := "A4" in
  let! _ := AddEntity e token_entity in
  let! uids := CreateNMembers e 2 in
  let ask e token := send_token (token_request "revoke" e token) in
  let! resp := ask e (first_token uids) in
  let! _ := assert (rs_Ok resp) "revoke" in
  let! _ := fails_with ErrNoRows (pg_Member e (uids !! 0)) "not revoked" in
  let! resp := ask e (first_token uids) in
  let! _ := assert (negb (rs_Ok resp)) "revoked twice" in
  let! resp := ask e (uuid_String tempUUID) in
  let! _ := assert (negb (rs_Ok resp)) "random token" in
  let! resp := ask "Z8" (second_token uids) in
  let! _ := must_refuse "invalid entityID" resp in
  DeleteEntity e.

(* [n] keys, all different, and different from that of TestStatus *)
Definition test_keys (n : nat) : list bytes := map (fun i => a_key (ascii_of_nat (33 + i))) (seq 0 n).

Definition TestImportKeysBulk : D unit :=
  let e := "A5" in
  let! _ := AddEntity e token_entity in
  let keys := test_keys 100 in
  let req := setq_Keys (map EncodeToString keys)
               (setq_EntityID e (setq_Method "importKeysBulk" zero_APIrequest)) in
  let import := send (fun req => calculateAuth [FStrings (rq_Keys req); FBytes (rq_EntityID req);
    FString (rq_Method req); FString (decimal (rq_Timestamp req)); FString "test"]) req in
  let! resp := import in
  let! _ := assert (rs_Ok resp) "request failed" in
  let! _ := mapM_ (fun claim => let! _ := pg_User claim in
                                let! _ := MemberPubKey e claim in retM tt) keys in
  let! resp := import in
  let! _ := assert (negb (rs_Ok resp)) "duplicate keys" in
  DeleteEntity e.

(* testcommon.CreateMembers; the users of TestImportKeysBulk outlive its
   entity, the keys here are others *)
Definition test_members (e : bytes) (first n : nat) : list Member :=
  map (fun i => mkMember zero_CreatedUpdated uuid_Nil e (Some (a_key (ascii_of_nat (first + i))))
    (mkMemberInfo 100 ("m" +:+ decimal (Z.of_nat i) +:+ "@mail.com") "First" "Last" "555" "Street"
       true 0 Token (Some "{}") None)) (seq 0 n).

Definition TestListKeys : D unit :=
  let e := "A6" in
  let! _ := AddEntity e token_entity in
  let! _ := AddMemberBulk e (test_members e 140 10) in
  let ask o := send auth_list (setq_ListOptions (Some o)
                 (setq_EntityID e (setq_Method "listKeys" zero_APIrequest))) in
  let! resp := ask (mkListOptions 0 "" 0 "") in
  let! _ := assert (rs_Ok resp && length_is (rs_Keys resp) 10) "10 keys" in
  let! resp := ask (mkListOptions 10 "" 2 "") in
  let! _ := assert (rs_Ok resp && length_is (rs_Keys resp) 8) "8 keys" in
  let! resp := ask (mkListOptions 0 "ascend" 0 "") in
  let! _ := assert (negb (rs_Ok resp)) "order" in
  let! resp := ask (mkListOptions 0 "" 0 " ") in
  let! _ := assert (negb (rs_Ok resp)) "sort" in
  let! resp := ask (mkListOptions 0 "ascend" 0
    "(case/**/when/**/1=1/**/then/**/email/**/else/**/phone/**/end);") in
  let! _ := assert (negb (rs_Ok resp)) "sqli" in
  DeleteEntity e.

(* qt.ContentEquals, for lists without repetitions *)
Definition same_content (l k : list string) : bool :=
  length_is l (length k) && forallb (fun s => bool_decide (s ∈ l)) k.

Definition TestDeleteKeys : D unit :=
  let e := "A7" in
  let! _ := AddEntity e token_entity in
  let! _ := AddEntity "A8" token_entity in
  let members := test_members e 160 7 in
  let membersKeys := map (fun m => EncodeToString (default "" (m_PubKey m))) members in
  let! _ := AddMemberBulk e members in
  let ask keys := send auth_delete (setq_Keys keys
                    (setq_EntityID e (setq_Method "deleteKeys" zero_APIrequest))) in
  let! resp := ask (take 5 membersKeys) in
  let! _ := assert (rs_Ok resp && (rs_Count resp =? 5)%Z && length_is (rs_InvalidKeys resp) 0) "5 keys" in
  let! resp := ask (take 5 membersKeys) in
  let! _ := assert (rs_Ok resp && (rs_Count resp =? 0)%Z &&
                    same_content (rs_InvalidKeys resp) (take 5 membersKeys)) "invalid keys" in
  let sixth := take 1 (drop 5 membersKeys) in
  let! resp := ask (sixth ++ sixth) in
  let! _ := assert (rs_Ok resp && (rs_Count resp =? 1)%Z && length_is (rs_InvalidKeys resp) 0) "duplicates" in
  DeleteEntity e.

Definition token_tests (randAmount : nat) : D unit :=
  let! _ := TestAuthentication in let! _ := TestGenerate randAmount in let! _ := TestStatus in
  let! _ := TestRevoke in let! _ := TestImportKeysBulk in let! _ := TestListKeys in TestDeleteKeys.
End tests.

Lemma token_tests_pass :
  (token_tests (X:=demo_ext) (V:=demo_env 1) 7 initial_world).1 = Ok tt.
Proof. vm_compute. reflexivity. Qed.

(* rand.Intn(100) can be zero, and then TestGenerate fails *)
Lemma TestGenerate_zero :
  (TestGenerate (X:=demo_ext) (V:=demo_env 1) 0 initial_world).1 = Err (Errorf "request failed").
Proof. vm_compute. reflexivity. Qed.
