(* ===== verification/RegistryTests.v ===== *)
(** * The integration tests of the registry API (test/testregistry/registry_test.go)

    The requests of the tests, in their order, sent to the registry API of
    RpcApi on the database of pgsql.go. What the tests draw at random is fixed;
    the server of testcommon.TestCallbackServer is the host's callback. *)
From S2P Require Import Prelude GoLib Ext Util Types Schema Session.
From S2P Require Import PgTypes PgTx PgEntities PgMembers PgQueries PgTags PgTests.
From S2P Require Import Database TokenAPI Registry Manager RpcApi TokenTests.

Section tests.
Context {X : Ext} {V : Env}.

(* the handler of TestCallbackServer fails the test when the event or the token
   of the URL is another one; the time and the hash are not looked at *)
Definition test_callback (url secret event : string) (uid : uuid) : D unit :=
  let! now := time_Now in
  let url := callback_url url secret event uid now in
  assert (Contains url ("&event=" +:+ "register" +:+ "&timestamp=" +:+ decimal (int32 now) +:+
                        "&token=" +:+ uuid_String uid)) "HTTP Callback error".
#[local] Instance callback_host : Host World := {|
  host_uuid := host_uuid (Host:=env_host None);
  host_Unix := time_Now;
  host_Perm n := retM (seq 0 n);
  host_callback := test_callback;
  host_SendVotingLink _ _ _ := retM tt;
  host_SendValidationLink _ _ := retM tt;
  host_smtp := true;
  host_schedule := retM [];
  host_time_String := decimal;
  host_SendTokens := None;
  host_Inc := fun _ => retM tt;
|}.

Definition registry_Request (pub : bytes) (req : APIrequest) : D APIresponse :=
  wsc_Request (registry_api (retM 90%Z) ∅) pub req.
Definition signer_of (members : list Member) (i : nat) : bytes :=
  default "" (members !! i ≫= m_PubKey).

Definition TestRegister : D unit :=
  let e := "R1" in
  let! _ := AddEntity e (entity_info "r") in
  let members := test_members e 180 3 in
  let pub := signer_of members 0 in
  let req := setq_MemberInfo (m_Info <$> members !! 0)
               (setq_EntityID e (setq_Method "register" zero_APIrequest)) in
  let! resp := registry_Request pub req in
  let! _ := assert (rs_Ok resp) "register" in
  let! member := MemberPubKey e pub in
  let! _ := pg_User (default "" (m_PubKey member)) in
  let! resp := registry_Request pub req in
  assert (negb (rs_Ok resp)) "cannot add member twice".

Definition TestValidateToken : D unit :=
  let e0 := "R2" in let e1 := "R3" in
  let! _ := AddEntity e0 (entity_info "s") in
  let! _ := AddEntity e1 (entity_info "t") in
  let! tokens := CreateNMembers e0 4 in
  let! tokens2 := CreateNMembers e1 1 in
  let signer := signer_of (test_members e1 190 3) in
  let token i := uuid_String (default uuid_Nil (tokens !! i)) in
  let! tagID := AddTag e0 "PendingValidation" in
  let! _ := AddTagToMembers e0 (take 1 tokens) tagID in
  let ask pub e token :=
    registry_Request pub (setq_Token token (setq_EntityID e (setq_Method "validateToken" zero_APIrequest))) in
  let! resp := ask (signer 0) e0 (token 0) in
  let! _ := assert (rs_Ok resp) "validateToken" in
  let! member := pg_Member e0 (tokens !! 0) in
  let! _ := assert (length_is (default [] (mi_Tags (m_Info member))) 0) "tag not removed" in
  let! _ := pg_User (default "" (m_PubKey member)) in
  let! resp := ask (signer 0) e0 (token 0) in
  let! _ := must_refuse "duplicate user already registered" resp in
  let! resp := ask (signer 1) e0 (token 0) in
  let! _ := must_refuse "invalid token" resp in
  let! resp := ask (signer 1) e0 (uuid_String tempUUID) in
  let! _ := assert (negb (rs_Ok resp)) "validated random token" in
  let! resp := ask (signer 1) e1 (token 1) in
  let! _ := assert (negb (rs_Ok resp)) "another entity" in
  let! resp := ask (signer 1) e1 (token 1) in
  let! _ := assert (negb (rs_Ok resp)) "another entity" in
  let! resp := ask (signer 0) e0 (token 3) in
  let! _ := assert (negb (rs_Ok resp)) "reused the same pubKey" in
  let url := "http://127.0.0.1:12000" +:+
             "?authHash={AUTH}&event={EVENT}&timestamp={TIMESTAMP}&token={TOKEN}" in
  let! count := UpdateEntity e0 (mkEntityInfo url "awsedrft" "" "" "" 0 None [] false) in
  let! _ := assert (count =? 1)%Z "updated rows" in
  let! resp := ask (signer 2) e0 (token 2) in
  let! _ := assert (rs_Ok resp) "callback" in
  let! member := pg_Member e0 (tokens !! 2) in
  let! _ := pg_User (default "" (m_PubKey member)) in
  let! resp := ask (signer 0) e1 (uuid_String (default uuid_Nil (tokens2 !! 0))) in
  assert (rs_Ok resp) "same pubKey for another entity".

Definition TestStatus : D unit :=
  let e := "R4" in
  let! _ := AddEntity e (entity_info "u") in
  let members := test_members e 200 2 in
  let ask i := registry_Request (signer_of members i)
                 (setq_EntityID e (setq_Method "registrationStatus" zero_APIrequest)) in
  let says b (resp : APIresponse) :=
    let! _ := assert (rs_Ok resp) "status" in
    match rs_Status resp with
    | Some status => assert (Bool.eqb (s_Registered status) b) "registered"
    | None => panicM "invalid memory address or nil pointer dereference"
    end in
  let! resp := ask 0 in
  let! _ := says false resp in
  let! _ := AddUser (mkUser zero_CreatedUpdated (Some (signer_of members 0)) None) in
  let! _ := AddMember e (signer_of members 0) (default zero_MemberInfo (m_Info <$> members !! 0)) in
  let! resp := ask 0 in
  let! _ := says true resp in
  let! _ := AddUser (mkUser zero_CreatedUpdated (Some (signer_of members 1)) None) in
  let! resp := ask 1 in
  says false resp.

Definition registry_integration_tests : D unit :=
  let! _ := TestRegister in let! _ := TestValidateToken in TestStatus.
End tests.

Lemma registry_integration_tests_pass :
  (registry_integration_tests (X:=demo_ext) (V:=demo_env 1) initial_world).1 = Ok tt.
Proof. vm_compute. reflexivity. Qed.
