(* ===== verification/ManagerTests.v ===== *)
(** * The integration tests of the manager API (test/testmanager/manager_test.go)

    The requests of the tests, in their order, sent to the manager API of
    RpcApi on the database of pgsql.go, with a mail server that accepts every
    message and without a faucet. What the tests draw at random is fixed. *)
From S2P Require Import Prelude GoLib Ext Util Types Schema Session.
From S2P Require Import PgTypes PgTx PgEntities PgMembers PgQueries PgTags PgCensus PgTests.
From S2P Require Import Database TokenAPI Registry Mail Manager RpcApi TokenTests.

Section tests.
Context {X : Ext} {V : Env}.
#[local] Existing Instance tests_host.

(* testcommon.CreateEntities: the key of the n-th signer; its entity *)
Definition signer (n : nat) : bytes := String "M" (String (ascii_of_nat (40 + n)) "").
Definition entity_of (n : nat) : D bytes := liftE (PubKeyToEntityID (signer n)).
Definition add_entity (n : nat) : D bytes :=
  let! e := entity_of n in
  let! _ := AddEntity e (entity_info "name") in
  retM e.
(* testcommon.CreateMembers *)
Definition CreateMembers (n : nat) (e : bytes) (count : nat) : list Member :=
  map (fun i => mkMember zero_CreatedUpdated uuid_Nil e
    (Some (String (ascii_of_nat (33 + i)) (String (ascii_of_nat (40 + n)) "")))
    (mkMemberInfo 100 ("m" +:+ decimal (Z.of_nat i) +:+ "@mail.com") "First"
       ("Last" +:+ decimal (Z.of_nat i)) "555" "Street" true 0 Token (Some "{}") None)) (seq 0 count).
Definition key_of (m : Member) : bytes := default "" (m_PubKey m).

Definition ask (n : nat) (method : string) (req : APIrequest) : D APIresponse :=
  wsc_Request (manager_api (retM 90%Z) ∅) (signer n) (setq_Method method req).
Definition is_ok (r : D APIresponse) (p : APIresponse -> bool) (msg : string) : D unit :=
  let! resp := r in assert (rs_Ok resp && p resp) msg.
Definition any (resp : APIresponse) : bool := true.
Definition refused (r : D APIresponse) (msg : string) : D unit :=
  let! resp := r in assert (negb (rs_Ok resp)) msg.
Definition nothing : APIrequest := zero_APIrequest.
Definition add_target (e : bytes) (name : string) : D uuid := AddTarget e (a_target e name).
Definition add_members (n : nat) (e : bytes) (count : nat) : D unit :=
  AddMemberBulk e (CreateMembers n e count).

Definition TestSignUp : D unit :=
  let! _ := is_ok (ask 0 "signUp" nothing) any "without data" in
  let! e0 := entity_of 0 in
  let! targets := ListTargets e0 in
  let! _ := assert (length_is targets 1) "target all" in
  let info := entity_info "entity" in
  let! _ := is_ok (ask 1 "signUp" (setq_Entity (Some (mkEntityInfo "" "" (ei_Email info)
    (ei_Name info) (ei_Type info) (ei_Size info) None [] false)) nothing)) any "with data" in
  let! e1 := entity_of 1 in
  let! entity := pg_Entity e1 in
  let stored := e_Info entity in
  assert (bool_decide (ei_Name stored = ei_Name info /\ ei_Email stored = ei_Email info /\
                       ei_Type stored = ei_Type info /\ ei_Size stored = ei_Size info /\
                       ei_Consented stored = false)) "stored".

Definition TestGetEntity : D unit :=
  let! e := add_entity 2 in
  let! _ := is_ok (ask 2 "getEntity" nothing)
    (fun r => bool_decide (e_ID <$> rs_Entity r = Some e)) "getEntity" in
  refused (ask 3 "getEntity" nothing) "inexisting entity".

Definition TestUpdateEntity : D unit :=
  let! e := entity_of 4 in
  let managers := ei_CensusManagersAddresses (entity_info "name") in
  let info name email l := mkEntityInfo "" "" email name "" 0 l [] false in
  let! _ := AddEntity e (info "" "" managers) in
  let! _ := refused (ask 4 "updateEntity" nothing) "without data" in
  let update i := is_ok (ask 4 "updateEntity" (setq_Entity (Some i) nothing)) any "with data" in
  let! _ := update (info "Name" "e@mail.com" None) in
  let! entity := pg_Entity e in
  let! _ := assert (bool_decide (ei_Name (e_Info entity) = "Name" /\
                                 ei_Email (e_Info entity) = "e@mail.com")) "updated" in
  let! _ := update (info "New" "New" (Some ["random"])) in
  let! entity := pg_Entity e in
  assert (negb (bool_decide (default [] (ei_CensusManagersAddresses (e_Info entity)) !! 0 = Some "random")))
    "managers".

Definition TestListMembers : D unit :=
  let! e0 := add_entity 5 in
  let! _ := add_members 5 e0 3 in
  let list n o := ask n "listMembers" (setq_ListOptions (Some o) nothing) in
  let! _ := is_ok (list 5 (mkListOptions 10 "ascend" 2 "lastName"))
    (fun r => length_is (rs_Members r) 1) "1 member" in
  let! e1 := add_entity 6 in
  let! _ := add_members 6 e1 10 in
  let! _ := is_ok (list 6 (mkListOptions 0 "ascend" 0 "firstName"))
    (fun r => length_is (rs_Members r) 10) "10 members" in
  let! _ := refused (list 6 (mkListOptions 0 "ascend" 0 "*")) "*" in
  let! _ := refused (list 6 (mkListOptions 0 "ascend" 0 " ")) "blank" in
  refused (list 6 (mkListOptions 0 "ascend" 0
    "(case/**/when/**/1=1/**/then/**/email/**/else/**/phone/**/end);")) "sqli".

Definition TestGetMember : D unit :=
  let! e := add_entity 7 in
  match CreateMembers 7 e 1 with
  | [m] =>
      let! id := AddMember e (key_of m) (m_Info m) in
      is_ok (ask 7 "getMember" (setq_MemberID (Some id) nothing))
        (fun r => bool_decide (rs_Member r ≫= m_PubKey = m_PubKey m)) "getMember"
  | _ => retM tt
  end.

(* setting the e-mail of a member to that of another *)
Definition TestUpdateMember : D unit :=
  let! e := add_entity 8 in
  match CreateMembers 8 e 2 with
  | [m0; m1] =>
      let! id0 := AddMember e (key_of m0) (m_Info m0) in
      let! id1 := AddMember e (key_of m1) (m_Info m1) in
      let i := m_Info m0 in
      let upd := mkMemberInfo (mi_DateOfBirth i) "upd" "upd" "upd" (mi_Phone i) ""
                   (mi_Consented i) (mi_Verified i) (mi_Origin i) (mi_CustomFields i) (mi_Tags i) in
      let member id k info := setq_Member (Some (mkMember zero_CreatedUpdated id e k info)) nothing in
      let! _ := is_ok (ask 8 "updateMember" (member id0 None upd)) any "updateMember" in
      let! m := pg_Member e (Some id0) in
      let j := m_Info m in
      let! _ := assert (bool_decide (mi_Email j = "upd" /\ mi_FirstName j = "upd" /\
                                     mi_LastName j = "upd")) "updated" in
      let! _ := assert (bool_decide (mi_StreetAddress j = mi_StreetAddress i)) "address" in
      let i := m_Info m1 in
      let dup := mkMemberInfo (mi_DateOfBirth i) "upd" (mi_FirstName i) (mi_LastName i) (mi_Phone i)
                   (mi_StreetAddress i) (mi_Consented i) (mi_Verified i) (mi_Origin i)
                   (mi_CustomFields i) (mi_Tags i) in
      let! _ := refused (ask 8 "updateMember" (member id1 (m_PubKey m1) dup)) "duplicate email" in
      DeleteEntity e
  | _ => retM tt
  end.

Definition TestDeleteMembers : D unit :=
  let! e := add_entity 9 in
  let! ids := mapM_ (fun m => AddMember e (key_of m) (m_Info m)) (CreateMembers 9 e 4) in
  let delete l := ask 9 "deleteMembers" (setq_MemberIDs l nothing) in
  let rows (n : Z) := let! count := CountMembers e in assert (count =? n)%Z "rows" in
  let! _ := refused (delete []) "empty list" in
  let! _ := is_ok (delete (take 1 ids ++ [tempUUID]))
    (fun r => bool_decide (rs_InvalidIDs r = [tempUUID])) "random id" in
  let! _ := rows 3%Z in
  let! _ := is_ok (delete (take 1 ids ++ take 1 ids)) any "twice" in
  let! _ := rows 3%Z in
  let! _ := is_ok (delete (drop 1 ids)) any "rest" in
  rows 0%Z.

Definition TestGenerateTokens (randAmount : nat) : D unit :=
  let! _ := add_entity 10 in
  is_ok (ask 10 "generateTokens" (setq_Amount (Z.of_nat randAmount) nothing))
    (fun r => length_is (rs_Tokens r) randAmount) "tokens".

Definition TestExportTokens : D unit :=
  let! e := add_entity 11 in
  let! _ := add_members 11 e 3 in
  let export n := is_ok (ask 11 "exportTokens" nothing)
                    (fun r => length_is (rs_MembersTokens r) n) "tokens" in
  let! _ := export 0 in
  let! _ := ImportMembers e (map (fun i => mkMemberInfo 0 "" ("Name" +:+ decimal (Z.of_nat i))
    ("LastName" +:+ decimal (Z.of_nat i)) "" "" false 0 Token None None) (seq 0 10)) in
  export 10.

Definition TestGetTarget : D unit :=
  let! e := add_entity 12 in
  let! targetID := add_target e "all" in
  is_ok (ask 12 "getTarget" (setq_TargetID (Some targetID) nothing))
    (fun r => bool_decide (t_Name <$> rs_Target r = Some "all")) "getTarget".

Definition TestListTargets : D unit :=
  let! e := add_entity 13 in
  let! targetID := add_target e "all" in
  is_ok (ask 13 "listTargets" nothing)
    (fun r => bool_decide (map (fun t => (t_Name t, t_ID t)) (rs_Targets r) = [("all", targetID)]))
    "listTargets".

Definition TestDumpTarget : D unit :=
  let! e := add_entity 14 in
  let! _ := add_members 14 e 3 in
  let! targetID := add_target e "all" in
  is_ok (ask 14 "dumpTarget" (setq_TargetID (Some targetID) nothing))
    (fun r => length_is (rs_Claims r) 3) "claims".

(* a census of [n] members, whose claims dumpCensus answers, and how many of
   them are ephemeral *)
Definition dump_census (k : nat) (e censusID : bytes) (targetID : uuid) (n : nat) (ephemeral : bool)
    (webpoll : nat) : D unit :=
  let id := EncodeToString censusID in
  let! _ := AddCensus e censusID (Some targetID)
    (Some (mkCensusInfo zero_CreatedUpdated id None "" 0 ephemeral None)) in
  let! resp := ask k "dumpCensus" (setq_CensusID id nothing) in
  let! _ := assert (rs_Ok resp && length_is (rs_Claims resp) n) "claims" in
  let! census := pg_Census e censusID in
  let! _ := assert (Bool.eqb (ci_Ephemeral (c_Info census)) ephemeral) "ephemeral" in
  let! members := ListEphemeralMemberInfo e censusID in
  let! _ := assert (length_is members webpoll) "ephemeral members" in
  assert (forallb (fun m => bool_decide (default "" (em_DigestedPubKey m) ∈ rs_Claims resp)) members)
    "keys in claims".

Definition TestDumpCensus (n : nat) : D unit :=
  let! e := add_entity 15 in
  let members := CreateMembers 15 e n in
  let! memberIDs := CreateNMembers e (Z.of_nat n) in
  let! targetID := add_target e "all" in
  let register l := mapM_ (fun x => RegisterMember e (key_of x.1) (Some x.2)) l in
  let both := zip members memberIDs in
  let! _ := dump_census 15 e "c1" targetID n true n in
  let! _ := register (take (n / 2) both) in
  let! _ := dump_census 15 e "c2" targetID n true (n - n / 2) in
  let! _ := register (drop (n / 2) both) in
  let! _ := dump_census 15 e "c3" targetID n false 0 in
  DeleteEntity e.

Definition with_email (email : string) (i : MemberInfo) : MemberInfo :=
  mkMemberInfo (mi_DateOfBirth i) email (mi_FirstName i) (mi_LastName i) (mi_Phone i)
    (mi_StreetAddress i) (mi_Consented i) (mi_Verified i) (mi_Origin i) (mi_CustomFields i) (mi_Tags i).

(* dbMembers[i] *)
Definition nth_member (l : list Member) (i : nat) : D Member :=
  match l !! i with Some m => retM m | None => panicM "runtime error: index out of range" end.
Definition first_tag (m : Member) : option Z := mi_Tags (m_Info m) ≫= head.

Definition TestSendVotingLinks : D unit :=
  let! e := add_entity 16 in
  let members := CreateMembers 16 e 2 in
  let! _ := ImportMembers e (zip_with with_email
    ["coby.rippin@ethereal.email"; "melisa.oberbrunner48@ethereal.email"] (map m_Info members)) in
  let! dbMembers := ListMembers e None in
  let! verified := nth_member dbMembers 0 in
  let! unverified := nth_member dbMembers 1 in
  let! targetID := add_target e "all" in
  let census id :=
    let! _ := AddCensus e id (Some targetID)
      (Some (mkCensusInfo zero_CreatedUpdated (EncodeToString id) None "" 0 true None)) in
    ExpandCensusMembers e id in
  let send k id email :=
    ask k "sendVotingLinks" (setq_Email email (setq_CensusID (EncodeToString id)
                               (setq_ProcessID "process" nothing))) in
  let count (n : nat) (r : APIresponse) := (rs_Count r =? Z.of_nat n)%Z in
  let! _ := census "v1" in
  let! _ := is_ok (send 16 "v1" "") (count 2) "all members" in
  let! _ := RegisterMember e (default "" (members !! 0 ≫= m_PubKey)) (Some (m_ID verified)) in
  let! _ := census "v2" in
  let! _ := is_ok (send 16 "v2" "") (count 1) "unverified member" in
  let! member := pg_Member e (Some (m_ID unverified)) in
  let! tag := TagByName e "VoteEmailSent" in
  let! _ := assert (bool_decide (first_tag member = Some (tg_ID tag))) "tag" in
  let! resp := send 16 "v2" (mi_Email (m_Info verified)) in
  let! _ := assert (negb (rs_Ok resp) && (rs_Count resp =? 0)%Z) "verified member" in
  let! _ := is_ok (send 16 "v2" (mi_Email (m_Info unverified))) (count 1) "by email" in
  let! _ := refused (send 17 "v2" (mi_Email (m_Info unverified))) "wrong entity" in
  DeleteEntity e.

Definition TestImportMembers : D unit :=
  let! e := add_entity 18 in
  is_ok (ask 18 "importMembers" (setq_MembersInfo (map m_Info (CreateMembers 18 e 3)) nothing)) any
    "importMembers".

Definition root_info (name id : string) : CensusInfo :=
  mkCensusInfo zero_CreatedUpdated name (Some "root") ("ipfs://" +:+ id) 0 false None.

Definition TestAddCensus : D unit :=
  let! e := add_entity 19 in
  let! targetID := add_target e "all" in
  let! _ := add_members 19 e 3 in
  let add id name := ask 19 "addCensus" (setq_Census (Some (root_info name "6431")) (setq_CensusID id
                       (setq_TargetID (Some targetID) nothing))) in
  let! _ := is_ok (add "6431" "census1") any "addCensus" in
  let! census := pg_Census e "d1" in
  let! _ := assert (bool_decide (ci_Name (c_Info census) = "census1")) "name" in
  let! _ := refused (add "" "census1") "without censusId" in
  let! _ := CreateNMembers e 10 in
  is_ok (add "6432" "census2") any "second census".

Definition TestUpdateCensus : D unit :=
  let! e := entity_of 20 in
  let! _ := AddEntity e (mkEntityInfo "" "" "" "" "" 0
    (ei_CensusManagersAddresses (entity_info "name")) [] false) in
  let! targetID := add_target e "all" in
  let! _ := AddCensus e "e1" (Some targetID)
    (Some (mkCensusInfo zero_CreatedUpdated "census1" None "" 0 false None)) in
  let req := setq_CensusID "6531" nothing in
  let update i := ask 20 "updateCensus" (setq_Census (Some i) req) in
  let! _ := refused (ask 20 "updateCensus" req) "without data" in
  let! _ := is_ok (update (root_info "" "6531")) any "updateCensus" in
  let! census := pg_Census e "e1" in
  let! _ := assert (bool_decide (ci_MerkleRoot (c_Info census) = Some "root" /\
                                 ci_MerkleTreeURI (c_Info census) = "ipfs://6531")) "updated" in
  let! _ := is_ok (update (mkCensusInfo zero_CreatedUpdated "" None "" 0 true None)) any "ephemeral" in
  let! census := pg_Census e "e1" in
  assert (negb (ci_Ephemeral (c_Info census))) "ephemeral".

Definition TestGetCensus : D unit :=
  let! e := add_entity 21 in
  let! targetID := add_target e "all" in
  let! _ := AddCensus e "f1" (Some targetID) (Some (root_info "census1" "6631")) in
  let get id := ask 21 "getCensus" (setq_CensusID id nothing) in
  let! _ := is_ok (get "6631") (fun r => bool_decide (t_ID <$> rs_Target r = Some targetID)) "target" in
  let! _ := refused (get "") "without censusId" in
  refused (get "6639") "random censusId".

Definition TestListCensus : D unit :=
  let! e := add_entity 22 in
  let list o n := is_ok (ask 22 "listCensus" (setq_ListOptions (Some o) nothing))
                    (fun r => length_is (rs_Censuses r) n) "listCensus" in
  let none := mkListOptions 0 "" 0 "" in
  let! _ := list none 0 in
  let! targetID := add_target e "all" in
  let! _ := AddCensus e "g1" (Some targetID) (Some (root_info "census1" "6731")) in
  let! _ := list none 1 in
  let! targetID := add_target e "all1" in
  let! _ := AddCensus e "g2" (Some targetID) (Some (root_info "census2" "6731")) in
  let! _ := list none 2 in
  let! _ := list (mkListOptions 0 "descend" 0 "name") 2 in
  list (mkListOptions 0 "descend" 1 "name") 1.

Definition TestDeleteCensus : D unit :=
  let! e := add_entity 23 in
  let! targetID := add_target e "all" in
  let! _ := AddCensus e "h1" (Some targetID) (Some (root_info "census1" "6831")) in
  let delete k id := ask k "deleteCensus" (setq_CensusID id nothing) in
  let! _ := refused (delete 24 "6831") "another entity" in
  let! _ := is_ok (delete 23 "6831") any "deleteCensus" in
  let! count := CountCensus e in
  let! _ := assert (count =? 0)%Z "0 censuses" in
  let! _ := refused (delete 23 "") "without censusId" in
  refused (delete 23 "6839") "random censusId".

(* of the last two requests the test accepts every answer: it asks for
   [resp.Ok || resp.Count == 0] *)
Definition TestSendValidationLinks : D unit :=
  let! e := add_entity 25 in
  let members := CreateMembers 25 e 2 in
  let! _ := ImportMembers e (map m_Info members) in
  let! dbMembers := ListMembers e None in
  let! verified := nth_member dbMembers 0 in
  let! unverified := nth_member dbMembers 1 in
  let! _ := RegisterMember e (default "" (members !! 0 ≫= m_PubKey)) (Some (m_ID verified)) in
  let send k id := ask k "sendValidationLinks" (setq_MemberIDs [id] nothing) in
  let! _ := is_ok (send 25 (m_ID unverified)) (fun r => (rs_Count r =? 1)%Z) "unverified member" in
  let! member := pg_Member e (Some (m_ID unverified)) in
  let! tag := TagByName e "PendingValidation" in
  let! _ := assert (bool_decide (first_tag member = Some (tg_ID tag))) "tag" in
  let! _ := refused (send 26 (m_ID unverified)) "wrong entity" in
  let! resp := send 25 (m_ID verified) in
  let! _ := assert (rs_Ok resp || (rs_Count resp =? 0)%Z) "verified member" in
  let! resp := send 25 tempUUID in
  assert (rs_Ok resp || (rs_Count resp =? 0)%Z) "non-existing member".

Definition TestCreateTag : D unit :=
  let! e := add_entity 27 in
  let! _ := add_members 27 e 3 in
  let create name := ask 27 "createTag" (setq_TagName name nothing) in
  let! resp := create "TestTag" in
  let! _ := assert (rs_Ok resp) "createTag" in
  match rs_Tag resp with
  | None => panicM "invalid memory address or nil pointer dereference"
  | Some t =>
      let! tag := pg_Tag e (tg_ID t) in
      let! _ := assert (bool_decide (tg_Name tag = "TestTag")) "name" in
      let! _ := refused (create "TestTag") "duplicate name" in
      refused (create "") "empty name"
  end.

Definition TestListTags : D unit :=
  let! e := add_entity 28 in
  let list l := is_ok (ask 28 "listTags" nothing) (fun r => bool_decide (map tg_ID (rs_Tags r) = l)) "tags" in
  let! _ := list [] in
  let! tagID := AddTag e "TestTag" in
  list [tagID].

Definition TestDeleteTag : D unit :=
  let! e := add_entity 29 in
  let! _ := add_members 29 e 3 in
  let! listedMembers := ListMembers e None in
  let! m := nth_member listedMembers 0 in
  let! tagID := AddTag e "TestTag" in
  let! (n, _) := AddTagToMembers e [m_ID m] tagID in
  let! _ := assert (n =? 1)%Z "tagged" in
  let delete k id := ask k "deleteTag" (setq_TagID id nothing) in
  let! _ := refused (delete 30 tagID) "another entity" in
  let! _ := is_ok (delete 29 tagID) any "deleteTag" in
  let! _ := fails_with ErrNoRows (pg_Tag e tagID) "tag deleted" in
  let! member := pg_Member e (Some (m_ID m)) in
  let! _ := assert (length_is (default [] (mi_Tags (m_Info member))) 0) "tag of the member" in
  let! _ := refused (delete 29 77%Z) "random tag" in
  refused (delete 29 0%Z) "tag 0".

(* the members of an entity, their identifiers and a tag *)
Definition tag_fixture (k : nat) : D (bytes * list uuid * Z) :=
  let! e := add_entity k in
  let! _ := add_members k e 3 in
  let! listedMembers := ListMembers e None in
  let! tagID := AddTag e "TestTag" in
  retM (e, map m_ID listedMembers, tagID).
Definition tags_request (tagID : Z) (l : list uuid) : APIrequest :=
  setq_TagID tagID (setq_MemberIDs l nothing).
Definition counts (count invalid : nat) (r : APIresponse) : bool :=
  (rs_Count r =? Z.of_nat count)%Z && length_is (rs_InvalidIDs r) invalid.

Definition TestAddTag : D unit :=
  let! (e, memberIDs, tagID) := tag_fixture 31 in
  let n := length memberIDs in
  let add k id l := ask k "addTag" (tags_request id l) in
  let! _ := is_ok (add 31 tagID memberIDs) (counts n 0) "addTag" in
  let! listedMembers := ListMembers e None in
  let! _ := assert (forallb (fun m => bool_decide (first_tag m = Some tagID)) listedMembers) "tags" in
  let! _ := is_ok (add 31 tagID memberIDs) (counts 0 n) "second time" in
  let! _ := refused (add 32 tagID memberIDs) "another entity" in
  let! _ := refused (add 31 77%Z memberIDs) "random tag" in
  let! _ := refused (add 31 0%Z memberIDs) "tag 0" in
  is_ok (add 31 tagID [tempUUID]) (fun r => bool_decide (rs_InvalidIDs r = [tempUUID])) "invalid id".

Definition TestRemoveTag : D unit :=
  let! (e, memberIDs, tagID) := tag_fixture 33 in
  let n := length memberIDs in
  let! (added, _) := AddTagToMembers e memberIDs tagID in
  let! _ := assert (added =? Z.of_nat n)%Z "tagged" in
  let remove k id l := ask k "removeTag" (tags_request id l) in
  let! _ := refused (remove 34 tagID memberIDs) "another entity" in
  let! _ := refused (remove 33 77%Z memberIDs) "random tag" in
  let! _ := refused (remove 33 0%Z memberIDs) "tag 0" in
  let! _ := refused (remove 33 tagID []) "no members" in
  let! _ := is_ok (remove 33 tagID [tempUUID])
    (fun r => counts 0 1 r && bool_decide (rs_InvalidIDs r = [tempUUID])) "invalid id" in
  let twice := memberIDs ++ take 1 memberIDs in
  let! _ := is_ok (remove 33 tagID twice) (counts n 0) "removeTag" in
  let! listedMembers := ListMembers e None in
  let! _ := assert (forallb (fun m => length_is (default [] (mi_Tags (m_Info m))) 0) listedMembers) "tags" in
  is_ok (remove 33 tagID twice) (counts 0 n) "second time".

(* all but TestSendValidationLinks and TestDvoteJSSignature (which signs a
   constant); dumpCensus is tested with [n] members, 100 in the file *)
Definition manager_integration_tests (randAmount n : nat) : D unit :=
  let! _ := TestSignUp in let! _ := TestGetEntity in let! _ := TestUpdateEntity in
  let! _ := TestListMembers in let! _ := TestGetMember in let! _ := TestUpdateMember in
  let! _ := TestDeleteMembers in let! _ := TestGenerateTokens randAmount in
  let! _ := TestExportTokens in let! _ := TestGetTarget in let! _ := TestListTargets in
  let! _ := TestDumpTarget in let! _ := TestDumpCensus n in let! _ := TestSendVotingLinks in
  let! _ := TestImportMembers in let! _ := TestAddCensus in let! _ := TestUpdateCensus in
  let! _ := TestGetCensus in let! _ := TestListCensus in let! _ := TestDeleteCensus in
  let! _ := TestCreateTag in let! _ := TestListTags in let! _ := TestDeleteTag in
  let! _ := TestAddTag in TestRemoveTag.
End tests.

Lemma manager_integration_tests_pass :
  (manager_integration_tests (X:=demo_ext) (V:=demo_env 1) 7 100 initial_world).1 = Ok tt.
Proof. vm_compute. reflexivity. Qed.

(* the request for a member who is validated already ends the server, even when
   every e-mail is accepted: the test cannot pass *)
Lemma TestSendValidationLinks_panics :
  (TestSendValidationLinks (X:=demo_ext) (V:=demo_env 1) initial_world).1
  = Panic "sync: negative WaitGroup counter".
Proof. vm_compute. reflexivity. Qed.
