(* ===== verification/Flow.v ===== *)
(** * The registration client and the server (cmd/managertest, manager, registry, pgsql)

    The client of Client against the registry API and the manager API of
    RpcApi, on the database of pgsql.go: the registration flow registers every
    member, and an entity the command generates by itself is lost. *)
From S2P Require Import Prelude GoLib Ext Util Types Client Schema SchemaOk Session Tenant.
From S2P Require Import PgTypes PgTx PgEntities PgMembers PgQueries PgOps PgSpec.
From S2P Require Import Database TokenAPI Registry Roster Mail Manager RpcApi.

(* the server, the lines of the client's log, the keys it has generated, and
   the files *)
Record Machine := mkMachine {
  mc_world : World;
  mc_log : list (string * list string);
  mc_drawn : nat;
  mc_files : gmap string string;
}.

Section flow.
Context {X : Ext} {V : Env} (eth : option (string -> Z -> Z -> D Z)).
#[local] Instance flow_host : Host World := env_host eth.
(* the keys [Generate] draws, and the public key of a private key *)
Context (drawn : nat -> string * bytes) (public_of : string -> gerror + bytes).

(* a reply as the client reads it: an error has its text in the message *)
Definition answer_of (r : Reply) : APIresponse :=
  match r with
  | SendError _ msg => set_Message msg zero_APIresponse
  | SendReply _ response => response
  end.
Definition ask (api : RPCAPI World) (req : APIrequest) (pub : bytes) : M Machine APIresponse := fun c =>
  let '(o, w) := route api (mkSigned "1" req pub) (mc_world c) in
  (match o with Ok r => Ok (answer_of r) | Err e => Err e | Panic p => Panic p end,
   mkMachine w (mc_log c) (mc_drawn c) (mc_files c)).

#[local] Instance machine : ClientHost Machine := {|
  cl_Generate c := (Ok (drawn (mc_drawn c)),
                    mkMachine (mc_world c) (mc_log c) (S (mc_drawn c)) (mc_files c));
  cl_AddHexKey := public_of;
  cl_TempDir c := (Ok "/tmp/managertest", c);
  cl_ReadFile path c := (match mc_files c !! path with
                         | Some s => Ok s
                         | None => Err (Errorf ("open " +:+ path +:+ ": no such file or directory"))
                         end, c);
  cl_WriteFile path s c := (Ok tt, mkMachine (mc_world c) (mc_log c) (mc_drawn c)
                                     (<[path := s]> (mc_files c)));
  cl_Dial c := (Ok tt, c);
  cl_registry := ask (registry_api (retM 90%Z) ∅);
  cl_manager := ask (manager_api (retM 90%Z) ∅);
  cl_log format args c := (Ok tt, mkMachine (mc_world c) (mc_log c ++ [(format, args)]) (mc_drawn c) (mc_files c));
|}.

#[local] Arguments cl_registry : simpl never.
#[local] Arguments cl_manager : simpl never.

Definition with_world (w : World) (c : Machine) : Machine :=
  mkMachine w (mc_log c) (mc_drawn c) (mc_files c).

(** ** The answers of the registry *)

Lemma registry_names : NoDup (map (fun m => m.1.1) (registry_methods (S:=World))).
Proof. apply (bool_decide_unpack _). vm_compute. exact I. Qed.

Lemma ask_registry name sig (h : Handler World) req pub c :
  (name, sig, h) ∈ registry_methods -> rq_Method req = name ->
  cl_registry req pub c =
  match h (setq_SignaturePublicKey pub req) (mc_world c) with
  | (Ok r, w) => (Ok (set_Ok true r), with_world w c)
  | (Err e, w) => (Ok (set_Message (error_string e) zero_APIresponse), with_world w c)
  | (Panic p, w) => (Panic p, with_world w c)
  end.
Proof.
  intros Hm Hn. change (cl_registry req pub c) with (ask (registry_api (retM 90%Z) ∅) req pub c).
  unfold ask, route.
  cbn [sd_Message sd_ID sd_SignaturePublicKey].
  unfold APIrequest_GetMethod, lookup_method, registry_api. cbn [rq_Method setq_SignaturePublicKey].
  rewrite Hn, (EnableAPI_lookup _ _ name sig h registry_names Hm). unfold bindM, tryM.
  by destruct (h _ (mc_world c)) as [[] ?].
Qed.

(* whether some member of the entity has the key *)
Definition has_key (R : gmap uuid (option bytes)) (k : bytes) : Prop := exists j, R !! j = Some (Some k).

Lemma MemberPubKey_run e k w :
  no_faults ->
  (has_key (roster e (w_db w)) k -> exists m, MemberPubKey e k w = (Ok m, tick w)) /\
  (~ has_key (roster e (w_db w)) k -> MemberPubKey e k w = (Err ErrNoRows, tick w)).
Proof.
  intros Hf. unfold MemberPubKey, bindM, db_get. rewrite driver_no_fault by done.
  change (w_db (tick w)) with (w_db w).
  set (l := member_rows _ (w_db w)).
  assert (Hl : forall j r, (j, r) ∈ l <->
    members (w_db w) !! j = Some r /\ mr_entity_id r = e /\ mr_public_key r = Some k).
  { intros j r. unfold l, member_rows. rewrite list_elem_of_filter, elem_of_map_to_list. simpl.
    rewrite andb_true_iff, !bool_decide_eq_true. naive_solver. }
  split.
  - intros (j & (r & Hr)%roster_Some). assert (Hin : (j, r) ∈ l) by by apply Hl.
    destruct l; [by apply elem_of_nil in Hin|simpl; eauto].
  - intros Hn. destruct l as [|[j r] l']; [done|]. exfalso. apply Hn. exists j.
    apply roster_Some. exists r. by apply Hl; left.
Qed.

(* nothing but the database changed *)
Definition quiet (c c' : Machine) : Prop :=
  mc_log c' = mc_log c /\ mc_files c' = mc_files c /\ mc_drawn c' = mc_drawn c.

Lemma inc_bind {A} label (k : unit -> D A) w : bindM (host_Inc label) k w = k tt w.
Proof. done. Qed.

Lemma status_run req pub c entity :
  no_faults -> (pg_Entity (rq_EntityID req) (mc_world c)).1 = Ok entity ->
  rq_Method req = "registrationStatus" ->
  exists c', quiet c c' /\ w_db (mc_world c') = w_db (mc_world c) /\
    let answer b := set_Ok true (set_Status (Some (mkStatus b false)) zero_APIresponse) in
    let R := roster (rq_EntityID req) (w_db (mc_world c)) in
    (has_key R pub -> cl_registry req pub c = (Ok (answer true), c')) /\
    (~ has_key R pub -> cl_registry req pub c = (Ok (answer false), c')).
Proof.
  intros Hf He Hm.
  rewrite (ask_registry "registrationStatus" true registrationStatus) by
    (done || (unfold registry_methods; set_solver)).
  unfold registrationStatus. cbn [rq_EntityID setq_SignaturePublicKey rq_SignaturePublicKey].
  rewrite !inc_bind.
  pose proof (pg_Entity_keeps (rq_EntityID req) (mc_world c)) as Hk.
  unfold bindM, onErr. change (db_Entity (rq_EntityID req)) with (pg_Entity (rq_EntityID req)).
  destruct (pg_Entity _ (mc_world c)) as [o w1]. simpl in He, Hk. subst o.
  unfold tryM. cbn [db_MemberPubKey pgsql].
  exists (with_world (tick w1) c). split; [done|]. split; [exact Hk|].
  destruct (MemberPubKey_run (rq_EntityID req) pub w1 Hf) as [H1 H2]. rewrite Hk in H1, H2.
  split.
  - intros [m ->]%H1. done.
  - intros ->%H2. by rewrite bool_decide_eq_true_2.
Qed.

(** ** One member *)

(* a member to register: its token, the identifier it is the text of, its
   private key and its public key *)
Record Voter := mkVoter { v_token : string; v_id : uuid; v_priv : string; v_pub : bytes }.

Definition can_register (e : bytes) (v : Voter) (d : Db) : Prop :=
  v_token v <> "" /\ uuid_Parse (v_token v) = inr (v_id v) /\
  public_of (v_priv v) = inr (v_pub v) /\ ValidPubKey (v_pub v) = true /\
  (exists o, roster e d !! v_id v = Some o /\ default "" o = "") /\
  ~ has_key (roster e d) (v_pub v) /\ fresh_key (v_pub v) d.

(* the state the loop runs in, for the entity [e] *)
Definition flow_ready (e : bytes) (c : Machine) : Prop :=
  db_ok (w_db (mc_world c)) /\ exists entity, (pg_Entity e (mc_world c)).1 = Ok entity.

Lemma flow_ready_same e c c' :
  no_faults -> w_db (mc_world c') = w_db (mc_world c) -> flow_ready e c -> flow_ready e c'.
Proof.
  intros Hf Hw [Hok [entity He]]. split; [by rewrite Hw|]. exists entity. rewrite <- He.
  apply pg_Entity_same; [done|]. unfold same_rest. by rewrite Hw.
Qed.

(* the tables after the people [vs], and nobody else, have registered *)
Definition registered_only (vs : list Voter) (d d' : Db) : Prop :=
  (forall i, i ∉ map v_id vs -> members d' !! i = members d !! i) /\
  users d ⊆ users d' /\ (forall k, k ∉ map v_pub vs -> users d' !! k = users d !! k) /\
  same_rest d d'.

Lemma registered_one v d d' :
  delete (v_id v) (members d') = delete (v_id v) (members d) -> users_after (v_pub v) d d' ->
  same_rest d d' -> registered_only [v] d d'.
Proof.
  intros Hm Hu Hs. split; [|split; [|split; [|done]]].
  - intros i Hi. rewrite <- (lookup_delete_ne (members d') (v_id v) i), Hm, lookup_delete_ne; [done|..];
      intros <-; apply Hi; left.
  - destruct Hu as [->|(Hn & n1 & n2 & ->)]; [done|by apply insert_subseteq].
  - intros k Hk. destruct Hu as [->|(_ & n1 & n2 & ->)]; [done|]. apply lookup_insert_ne.
    intros <-. apply Hk. left.
Qed.
Lemma registered_cons v vs d d1 d2 :
  registered_only [v] d d1 -> registered_only vs d1 d2 -> registered_only (v :: vs) d d2.
Proof.
  intros (M1 & U1 & K1 & S1) (M2 & U2 & K2 & S2). split; [|split; [by etrans|split]].
  - intros i [Hi Hi']%not_elem_of_cons. rewrite M2 by done. apply M1. simpl.
    by rewrite list_elem_of_singleton.
  - intros k [Hk Hk']%not_elem_of_cons. rewrite K2 by done. apply K1. simpl.
    by rewrite list_elem_of_singleton.
  - unfold same_rest in *. intuition congruence.
Qed.

Section one.
Context (Hf : no_faults) (Hlen : (0 < PubKeyLengthBytes)%Z) (null : bytes)
  (Hjson : JSONB_Set None = inr null).

Lemma validate_run e req v c :
  rq_EntityID req = e -> rq_Method req = "validateToken" -> rq_Token req = v_token v ->
  flow_ready e c -> can_register e v (w_db (mc_world c)) ->
  exists c', quiet c c' /\ cl_registry req (v_pub v) c = (Ok (set_Ok true zero_APIresponse), c') /\
    roster e (w_db (mc_world c')) = <[v_id v := Some (v_pub v)]> (roster e (w_db (mc_world c))) /\
    users_after (v_pub v) (w_db (mc_world c)) (w_db (mc_world c')) /\
    registered_only [v] (w_db (mc_world c)) (w_db (mc_world c')) /\ flow_ready e c'.
Proof.
  intros <- Hm Ht [Hok [entity He]] (Hne & Hp & _ & Hv & (o & Ho & Hfree) & Hk & Hd).
  rewrite (ask_registry "validateToken" true validateToken) by
    (done || (unfold registry_methods; set_solver)).
  set (r := setq_SignaturePublicKey (v_pub v) req).
  assert (Hi : token_of r = v_id v) by (unfold token_of; simpl; by rewrite Ht, Hp).
  destruct (validateToken_run eth r entity o null (mc_world c)) as (w' & E & HR & HM & HU & HS);
    rewrite ?Hi; simpl; try done; rewrite ?Ht; try done; [by intros j Hj; apply Hk; exists j|].
  exists (with_world w' c). rewrite Hi in HR, HM. split; [done|].
  assert (E' : validateToken r (mc_world c) = (Ok zero_APIresponse, w')) by exact E. rewrite E'.
  split; [done|].
  split; [exact HR|]. split; [exact HU|]. split; [by apply registered_one|]. split.
  - pose proof (serve_ok eth (CallValidate r) (mc_world c) Hok) as [H _]. simpl in H.
    by rewrite E in H.
  - exists entity. rewrite <- He. by apply pg_Entity_same.
Qed.

Lemma register_one_run e req idx v privs signer c :
  rq_EntityID req = e -> privs !! idx = Some (v_priv v) ->
  flow_ready e c -> can_register e v (w_db (mc_world c)) ->
  exists c' req', register_one req idx (v_token v) privs signer c = (Ok (Some (v_pub v), req'), c') /\
    rq_EntityID req' = e /\ quiet c c' /\
    roster e (w_db (mc_world c')) = <[v_id v := Some (v_pub v)]> (roster e (w_db (mc_world c))) /\
    users_after (v_pub v) (w_db (mc_world c)) (w_db (mc_world c')) /\
    registered_only [v] (w_db (mc_world c)) (w_db (mc_world c')) /\ flow_ready e c'.
Proof.
  intros He Hk Hr Hv. pose proof Hv as (_ & _ & Hp & _ & _ & Hfree & _).
  unfold register_one.
  assert ((0 <? length privs) = true) as ->.
  { apply Nat.ltb_lt. apply lookup_lt_Some in Hk. lia. }
  unfold at_index at 1. rewrite Hk. unfold bindM at 1 2, retM at 1 2, add_key. simpl. rewrite Hp.
  cbn [signed].
  set (req1 := setq_Method "registrationStatus" req).
  set (req2 := setq_Token (v_token v) (setq_Method "validateToken" req1)).
  set (req3 := setq_Token "" (setq_Method "registrationStatus" req2)).
  destruct Hr as [Hok [entity Hent]].
  destruct (status_run req1 (v_pub v) c entity) as (c1 & Q1 & W1 & _ & N1); simpl; rewrite ?He; try done.
  unfold bindM at 1. rewrite N1 by (simpl; by rewrite He). simpl. unfold bindM at 1, retM at 1.
  assert (Hr1 : flow_ready e c1) by (eapply flow_ready_same; [done|exact W1|split; eauto]).
  destruct (validate_run e req2 v c1) as (c2 & Q2 & E2 & R2 & U2 & O2 & Hr2); simpl; try done;
    [by rewrite W1|].
  rewrite W1 in R2, U2, O2. unfold bindM at 1. rewrite E2. simpl. unfold bindM at 1, retM at 1.
  destruct (proj2 Hr2) as [entity2 Hent2].
  destruct (status_run req3 (v_pub v) c2 entity2) as (c3 & Q3 & W3 & N3 & _); simpl; rewrite ?He; try done.
  unfold bindM at 1. rewrite N3. 2: { simpl. rewrite He, R2. exists (v_id v). apply lookup_insert_eq. }
  simpl. unfold bindM, retM. exists c3, req3.
  split; [done|]. split; [done|]. split; [unfold quiet in *; intuition congruence|].
  rewrite W3. do 3 (split; [done|]). by eapply flow_ready_same.
Qed.

Lemma can_register_after e v v' d d' :
  roster e d' = <[v_id v := Some (v_pub v)]> (roster e d) -> users_after (v_pub v) d d' ->
  v_id v <> v_id v' -> v_pub v <> v_pub v' -> can_register e v' d -> can_register e v' d'.
Proof.
  intros HR HU Hi Hp (H1 & H2 & H3 & H4 & (o & Ho & Hfree) & Hk & Hd).
  split_and!; try done.
  - exists o. by rewrite HR, lookup_insert_ne.
  - intros [j Hj]. rewrite HR in Hj. apply lookup_insert_Some in Hj as [[_ [=]]|[_ Hj]]; [done|].
    apply Hk. by exists j.
  - by eapply fresh_key_after.
Qed.

Definition register_all (vs : list Voter) (R : gmap uuid (option bytes)) : gmap uuid (option bytes) :=
  foldl (fun R v => <[v_id v := Some (v_pub v)]> R) R vs.

Lemma register_all_other vs R i o :
  R !! i = o -> (forall v, v ∈ vs -> v_id v <> i) -> register_all vs R !! i = o.
Proof.
  revert R. induction vs as [|v vs IH]; intros R HR Hvs; [done|]. apply IH.
  - rewrite lookup_insert_ne; [done|]. apply Hvs. left.
  - intros u Hu. apply Hvs. by right.
Qed.
Lemma register_all_lookup vs R v :
  NoDup (map v_id vs) -> v ∈ vs -> register_all vs R !! v_id v = Some (Some (v_pub v)).
Proof.
  revert R. induction vs as [|w vs IH]; intros R Hi Hv; [by apply elem_of_nil in Hv|].
  cbn [map register_all foldl] in *. apply NoDup_cons in Hi as [Hn Hi].
  apply elem_of_cons in Hv as [->|Hv]; [|by apply IH]. apply register_all_other.
  - apply lookup_insert_eq.
  - intros u Hu Heq. apply Hn. rewrite <- Heq. by apply list_elem_of_fmap_2.
Qed.

Lemma registerFlow_run e vs : forall done req signer c,
  rq_EntityID req = e -> NoDup (map v_id vs) -> NoDup (map v_pub vs) -> flow_ready e c ->
  Forall (fun v => can_register e v (w_db (mc_world c))) vs ->
  exists c', registerFlow req (length done) (map v_token vs) (map v_priv (done ++ vs)) signer c = (Ok tt, c') /\
    quiet c c' /\ roster e (w_db (mc_world c')) = register_all vs (roster e (w_db (mc_world c))) /\
    registered_only vs (w_db (mc_world c)) (w_db (mc_world c')).
Proof.
  induction vs as [|v vs IH]; intros l req signer c He Hi Hp Hr Hvs; [by exists c|].
  cbn [map] in Hi, Hp. apply NoDup_cons in Hi as [Hi1 Hi], Hp as [Hp1 Hp].
  apply Forall_cons in Hvs as [Hv Hvs].
  destruct (register_one_run e req (length l) v (map v_priv (l ++ v :: vs)) signer c)
    as (c1 & req1 & E1 & He1 & Q1 & R1 & U1 & O1 & Hr1); [done| |done..|].
  { rewrite list_lookup_fmap, list_lookup_middle by done. done. }
  cbn [map registerFlow]. unfold bindM at 1. rewrite E1. cbn beta iota.
  destruct (IH (l ++ [v]) req1 (Some (v_pub v)) c1) as (c2 & E2 & Q2 & R2 & O2); try done.
  { rewrite Forall_forall in Hvs |- *. intros v' Hv'.
    eapply (can_register_after e v); [exact R1|exact U1| | |by apply Hvs].
    - intros Heq. apply Hi1. rewrite Heq. by apply list_elem_of_fmap_2.
    - intros Heq. apply Hp1. rewrite Heq. by apply list_elem_of_fmap_2. }
  rewrite <- app_assoc in E2. rewrite length_app in E2. exists c2. split; [exact E2|].
  split; [unfold quiet in *; intuition congruence|]. split; [by rewrite R2, R1|by eapply registered_cons].
Qed.

(** ** The command *)

Lemma decoded_EncodeToString s : decoded (EncodeToString s) = s.
Proof.
  induction s as [|a s IH]; [done|]. cbn [EncodeToString decoded].
  pose proof (DecodeString_EncodeToString (String a "")) as Hd. cbn [EncodeToString] in Hd.
  rewrite Hd, IH. done.
Qed.
End one.

Lemma len_pos s : s <> "" -> (0 <? len s)%Z = true.
Proof. intros Hs. apply Z.ltb_lt. unfold len. destruct s; simpl; [done|lia]. Qed.
Lemma strlen_hex s : strlen (EncodeToString s) = 2 * strlen s.
Proof. induction s as [|a s IH]; [done|]. cbn [EncodeToString strlen String.length] in *. lia. Qed.

(** C19: The registration flow registers everybody: when an entity has free
    tokens and as many people have keys that nobody has registered, the command
    registrationFlow, given the identifier of the entity and the files of the
    tokens and of the private keys, ends and logs no error. Each token then has
    the key at its place; the rows of all other members are as they were, the
    table users has gained at most the users of those keys and lost none, and
    the tables of entities, origins, targets, censuses, voter rolls and tags are
    unchanged, and so are the files. The flow uses the registry API and the
    database only: the tokens are read from a file, not from the manager API. *)
Theorem registration_flow (f : Flags) (e : bytes) (vs : list Voter) (null : bytes)
    (tokens keys : string) (c : Machine) :
  no_faults -> (0 < PubKeyLengthBytes)%Z -> JSONB_Set None = inr null ->
  fl_method f = "registrationFlow" -> fl_eid f = EncodeToString e -> (10 <= strlen e)%nat ->
  fl_tokens f <> "" -> mc_files c !! fl_tokens f = Some tokens ->
  fl_privKeys f <> "" -> mc_files c !! fl_privKeys f = Some keys ->
  Split tokens line_feed = map v_token vs -> Split keys line_feed = map v_priv vs ->
  NoDup (map v_id vs) -> NoDup (map v_pub vs) ->
  flow_ready e c -> Forall (fun v => can_register e v (w_db (mc_world c))) vs ->
  exists c', client_main f c = (Ok tt, c') /\ mc_log c' = mc_log c /\ mc_files c' = mc_files c /\
    registered_only vs (w_db (mc_world c)) (w_db (mc_world c')) /\
    roster e (w_db (mc_world c')) = register_all vs (roster e (w_db (mc_world c))) /\
    forall v, v ∈ vs -> roster e (w_db (mc_world c')) !! v_id v = Some (Some (v_pub v)).
Proof.
  intros Hf Hlen Hj Hm He Hl Ht Hft Hp Hfp Hst Hsp Hi Hpub Hr Hvs.
  assert (HK : client_keys f c = (Ok (map v_priv vs, ""), c)).
  { unfold client_keys. rewrite len_pos by done. unfold splitFile, orFatal, bindM, tryM. simpl.
    rewrite Hfp. simpl. by rewrite Hsp. }
  assert (HT : client_tokens f "" c = (Ok (map v_token vs, EncodeToString e), c)).
  { unfold client_tokens. rewrite len_pos by done. unfold splitFile, orFatal, bindM, tryM. simpl.
    rewrite Hft. simpl. by rewrite Hst, He. }
  destruct (registerFlow_run Hf Hlen null Hj e vs [] (setq_EntityID e zero_APIrequest) None c)
    as (c' & E & Q & R & O); try done.
  exists c'. split; [|split; [apply Q|split; [apply Q|split; [exact O|split; [exact R|]]]]].
  - unfold client_main. rewrite Hm, He, DecodeString_EncodeToString, decoded_EncodeToString.
    unfold bindM at 1, retM at 1. cbn beta iota. rewrite (run_bind _ _ _ _ _ HK). cbn beta iota.
    unfold bindM at 1, orFatal at 1, bindM at 1, tryM at 1, retM at 1. cbn beta iota.
    change (cl_Dial c) with (@Ok unit tt, c). cbn beta iota.
    cbn [String.eqb Ascii.eqb Bool.eqb].
    rewrite (run_bind _ _ _ _ _ HT). cbn beta iota. rewrite !length_map, Nat.eqb_refl, andb_false_r.
    assert ((len (EncodeToString e) <? 20)%Z = false) as ->.
    { apply Z.ltb_ge. unfold len. rewrite strlen_hex. lia. }
    exact E.
  - intros v Hv. rewrite R. by apply register_all_lookup.
Qed.

(** ** A generated entity *)
Section generated.
Context (HH : forall I, HostInv flow_host (holds I) anything).
Context (drawn_keys : forall n, public_of (drawn n).1 = inr (drawn n).2 /\
                                PubKeyToEntityID (drawn n).2 <> inr "").
Context (T : TenantRows) (no_row : td_entity T = None).

Definition none_empty (c : Machine) : Prop := holds (rows_are "" T) (mc_world c).

Lemma none_empty_keeps {A} (m : M Machine A) : keeps mc_world m -> preserves none_empty anything m.
Proof. intros Hm c Hc. split; [|done]. unfold none_empty. by rewrite Hm. Qed.

Lemma Entity_empty : preserves (holds (rows_are "" T)) (fun _ => False) (pg_Entity "").
Proof.
  intros w Hw. split; [unfold holds; by rewrite pg_Entity_keeps|].
  intros entity. unfold pg_Entity, bindM, db_get, driver. destruct (env_fault _); [done|].
  change (w_db (tick w)) with (w_db w). unfold holds, rows_are in Hw.
  assert (entities (w_db w) !! "" = None) as -> by (by rewrite <- Hw in no_row). done.
Qed.

Lemma ask_preserves (R : APIresponse -> Prop) api req pub :
  preserves (holds (rows_are "" T)) (fun r => R (answer_of r)) (route api (mkSigned "1" req pub)) ->
  preserves none_empty R (ask api req pub).
Proof.
  intros Hr c Hc. unfold ask. destruct (Hr _ Hc) as [H1 H2].
  destruct (route _ _ _) as [[r|e|p] w]; (split; [exact H1|]); [|done..].
  intros a [= <-]. by apply H2.
Qed.

Lemma refused_preserves name sig (h : Handler World) req pub :
  (name, sig, h) ∈ registry_methods -> rq_Method req = name ->
  preserves (holds (rows_are "" T)) (fun _ => False) (h (setq_SignaturePublicKey pub req)) ->
  preserves none_empty (fun r => rs_Ok r = false /\ rs_Status r = None) (cl_registry req pub).
Proof.
  intros Hm Hn Hh c Hc. rewrite (ask_registry name sig h) by done. destruct (Hh _ Hc) as [H1 H2].
  destruct (h _ _) as [[r|e|p] w]; (split; [exact H1|]); [by destruct (H2 r)| |done].
  by intros a [= <-].
Qed.

Lemma no_status req pub :
  rq_EntityID req = "" -> rq_Method req = "registrationStatus" ->
  preserves none_empty (fun r => rs_Ok r = false /\ rs_Status r = None) (cl_registry req pub).
Proof.
  intros He Hm. apply (refused_preserves "registrationStatus" true registrationStatus);
    [unfold registry_methods; set_solver|done|].
  unfold registrationStatus. simpl. rewrite He.
  apply (preserves_bind _ anything); [by apply preserves_ret|intros _ _].
  eapply preserves_bind; [apply preserves_onErr, Entity_empty|done].
Qed.
Lemma no_validation req pub :
  rq_EntityID req = "" -> rq_Method req = "validateToken" ->
  preserves none_empty (fun r => rs_Ok r = false /\ rs_Status r = None) (cl_registry req pub).
Proof.
  intros He Hm. apply (refused_preserves "validateToken" true validateToken);
    [unfold registry_methods; set_solver|done|].
  unfold validateToken. eapply (preserves_bind _ (fun _ => False)); [|done].
  unfold validateToken_check. simpl. rewrite He.
  apply (preserves_bind _ anything); [by apply preserves_ret|intros _ _].
  destruct (_ =? 0)%Z; [apply preserves_fail|].
  eapply (preserves_bind _ anything); [apply preserves_onErr, readonly_preserves, readonly_lift|].
  intros uid _. eapply preserves_bind; [apply preserves_tryM, Entity_empty|].
  intros [err|r] Hr; [|done]. apply (preserves_bind _ (fun _ => False)); [|done].
  case_bool_decide; [|apply preserves_fail].
  apply (preserves_bind _ anything); [by apply preserves_ret|intros; apply preserves_fail].
Qed.

(* the status of an entity that does not exist is a nil pointer *)
Lemma register_one_never req idx t privs signer :
  rq_EntityID req = "" ->
  preserves none_empty (fun _ => False) (register_one req idx t privs signer).
Proof.
  intros He. unfold register_one.
  assert (Hrep : forall a b, preserves none_empty anything
    (let! key := at_index privs idx in cl_log a (b ++ [key]))).
  { intros a b. apply none_empty_keeps. intros c. unfold at_index. by destruct (privs !! idx). }
  eapply (preserves_bind _ anything).
  { apply none_empty_keeps. intros c. unfold at_index.
    destruct (0 <? _); [by destruct (privs !! idx)|]. unfold bindM. simpl.
    by destruct (drawn _). }
  intros signer' _. destruct signer' as [pub|].
  2: { eapply (preserves_bind _ (fun _ => False)); [apply preserves_panic|done]. }
  cbn [signed]. eapply preserves_bind; [by apply no_status|]. intros r1 [-> ->].
  eapply (preserves_bind _ anything); [by apply preserves_ret|]. intros _ _.
  eapply preserves_bind; [by apply no_validation|]. intros r2 [-> _].
  eapply (preserves_bind _ anything); [apply Hrep|]. intros _ _.
  eapply preserves_bind; [by apply no_status|]. intros r3 [-> ->].
  eapply (preserves_bind _ anything); [apply Hrep|]. intros _ _. apply preserves_panic.
Qed.

Lemma generateTokens_preserves n k dir :
  preserves none_empty (fun l => Z.of_nat (length l) = n) (client_generateTokens n (drawn k).1 dir).
Proof.
  unfold client_generateTokens. change (cl_AddHexKey (drawn k).1) with (public_of (drawn k).1).
  rewrite (proj1 (drawn_keys k)).
  apply (preserves_bind _ (fun pub => PubKeyToEntityID pub <> inr "")).
  { destruct (bool_decide _); [|apply preserves_ret, drawn_keys].
    intros c Hc. unfold bindM. simpl. pose proof (proj2 (drawn_keys (mc_drawn c))) as Hd.
    destruct (drawn _) as [priv pub]. split; [exact Hc|]. by intros a [= <-]. }
  intros pub Hpub.
  assert (Hask : forall req, preserves none_empty anything (cl_manager req pub)).
  { intros req. apply ask_preserves. eapply preserves_weaken; [|done].
    apply (manager_route_isolated _ _ _ _ _ ""); [done..|]. intros e' He'. by apply rows_inv. }
  eapply preserves_bind; [apply Hask|]. intros resp _.
  eapply (preserves_bind _ anything); [by destruct (rs_Ok resp); apply none_empty_keeps|]. intros _ _.
  eapply preserves_bind; [apply Hask|]. intros resp' _.
  destruct (negb _); [apply preserves_panic|]. cbn [orb].
  destruct (Z.eqb_spec (Z.of_nat (length (rs_Tokens resp'))) n) as [Hn|]; [|apply preserves_panic].
  cbn [negb]. eapply (preserves_bind _ anything).
  { apply none_empty_keeps. unfold temp_dir. by destruct (_ =? 0)%Z. }
  intros dir' _. eapply (preserves_bind _ anything); [by apply none_empty_keeps|]. intros _ _.
  apply preserves_ret. by rewrite length_map.
Qed.

Lemma client_keys_preserves f : preserves none_empty anything (client_keys f).
Proof.
  apply none_empty_keeps. intros c. unfold client_keys.
  assert (Hg : forall l, keeps mc_world (mapM_ (fun _ : nat =>
    let! (priv, _) := cl_Generate in retM (S:=Machine) priv) l)).
  { intros l. apply keeps_mapM_. intros _ c'. unfold bindM. simpl. by destruct (drawn _). }
  destruct (0 <? _)%Z.
  - unfold splitFile, orFatal, bindM, tryM. simpl. by destruct (mc_files c !! _).
  - destruct (0 <? _)%Z; [|done]. unfold generateKeys, temp_dir, orFatal, bindM, tryM. simpl.
    pose proof (Hg (seq 0 (Z.to_nat (fl_usersNumber f))) c) as Hc. unfold bindM in Hc.
    destruct (mapM_ _ _ c) as [[l|e|p] c1]; exact Hc.
Qed.

Lemma client_main_lost f :
  fl_method f = "registrationFlow" -> fl_eid f = "" -> fl_entityKey f = "" -> fl_tokens f = "" ->
  preserves none_empty (fun _ => False) (client_main f).
Proof.
  intros Hm He Hk Ht. unfold client_main. rewrite Hm, He.
  eapply (preserves_bind _ anything); [by apply preserves_ret|]. intros _ _.
  eapply preserves_bind; [apply client_keys_preserves|]. intros [keys dir] _.
  eapply (preserves_bind _ anything); [by apply none_empty_keeps|]. intros _ _.
  cbn [String.eqb Ascii.eqb Bool.eqb].
  apply (preserves_bind _ (fun x => x.1 <> [])).
  { unfold client_tokens. rewrite Ht, Hk. cbn [len strlen]. simpl.
    destruct (Z.ltb_spec 0 (fl_usersNumber f)) as [Hn|]; [|apply preserves_panic].
    apply (preserves_bind _ (fun x => exists k, x.1 = (drawn k).1)).
    { intros c Hc. unfold generateEntity, bindM. simpl.
      destruct (drawn (mc_drawn c)) as [priv pub] eqn:Ed.
      destruct (PubKeyToEntityID pub); (split; [exact Hc|]); intros a [= <-];
        exists (mc_drawn c); by rewrite Ed. }
    intros [key eid] [k Hkey]. simpl in Hkey. subst key.
    eapply preserves_bind; [apply generateTokens_preserves|]. intros tokens Hl.
    apply preserves_ret. simpl. intros ->. simpl in Hl. lia. }
  intros [tokens eid] Hne. destruct (_ <? 20)%Z; [apply preserves_panic|].
  destruct (_ && _); [apply preserves_panic|]. simpl in Hne. destruct tokens as [|t tokens]; [done|].
  cbn [registerFlow]. eapply preserves_bind; [by apply register_one_never|done].
Qed.
End generated.

(* An entity the command generates is lost: the identifier it sends was decoded
   from the flag before, so it is empty, the registry knows no such entity, and
   the command panics on the missing status, after the tokens were made. *)
Lemma generated_entity_lost (f : Flags) (c : Machine) :
  (forall I, HostInv flow_host (holds I) anything) ->
  (forall n, public_of (drawn n).1 = inr (drawn n).2 /\ PubKeyToEntityID (drawn n).2 <> inr "") ->
  fl_method f = "registrationFlow" -> fl_eid f = "" -> fl_entityKey f = "" -> fl_tokens f = "" ->
  entities (w_db (mc_world c)) !! "" = None ->
  forall u, (client_main f c).1 <> Ok u.
Proof.
  intros HH Hd Hm He Hk Ht Hn u Hu.
  destruct (client_main_lost HH Hd (tenant_rows "" (w_db (mc_world c))) Hn f Hm He Hk Ht c eq_refl) as [_ H].
  by apply (H u).
Qed.
End flow.

(** ** Witnesses *)

#[local] Existing Instance demo_ext.
#[local] Instance flow_env : Env := demo_env 1.

Definition flow_world : World :=
  run_all [OpAddEntity "entity-001" (mkEntityInfo "" "" "e@x" "Org" "" 0 (Some []) [Token] false);
           OpCreateMembersWithTokens "entity-001" [11%N; 12%N]] initial_world.
Definition flow_voters : list Voter := [mkVoter "1101" 11%N "p2" "k2"; mkVoter "0011" 12%N "p3" "k3"].
Definition flow_machine : Machine :=
  mkMachine flow_world [] 0
    (<["tokens" := Join ["1101"; "0011"] (String line_feed "")]>
       (<["keys" := Join ["p2"; "p3"] (String line_feed "")]> ∅)).
Definition flow_public (priv : string) : gerror + bytes :=
  if String.eqb priv "p2" then inr "k2" else if String.eqb priv "p3" then inr "k3"
  else inl (Errorf "invalid key").

Lemma flow_can_register v :
  v ∈ flow_voters -> can_register flow_public "entity-001" v (w_db flow_world).
Proof.
  assert (Hm : forall r j, members (w_db flow_world) !! j = Some r -> mr_public_key r = None).
  { assert (Hn : exists_row (fun _ r => bool_decide (mr_public_key r <> None))
                   (members (w_db flow_world)) = false) by (vm_compute; reflexivity).
    intros r j Hj. pose proof (proj1 (exists_row_false _ _) Hn j r Hj) as Hr.
    apply bool_decide_eq_false_1 in Hr. by destruct (mr_public_key r); [destruct Hr|]. }
  assert (Hk : forall k, ~ has_key (roster "entity-001" (w_db flow_world)) k).
  { intros k (j & (r & Hj & _ & Hr)%roster_Some). by rewrite (Hm r j Hj) in Hr. }
  assert (Hu : forall k, fresh_key k (w_db flow_world)).
  { assert (Hn : forall m : gmap bytes UserRow, m = ∅ -> forall u r, m !! u = Some r -> False)
      by (intros m -> u r Hr; by rewrite lookup_empty in Hr).
    intros k _ u r Hr. refine (False_ind _ (Hn (users (w_db flow_world)) _ u r Hr)).
    vm_compute. reflexivity. }
  intros Hv. repeat apply elem_of_cons in Hv as [->|Hv]; [..|by apply elem_of_nil in Hv];
    (split_and!; [discriminate|reflexivity|reflexivity|reflexivity| |apply Hk|apply Hu];
     exists None; split; [vm_compute; reflexivity|reflexivity]).
Qed.

Lemma registration_flow_witness :
  let f := mkFlags "" (EncodeToString "entity-001") "registrationFlow" 0 "tokens" "keys" in
  exists c, client_main (CH:=machine None (fun _ => ("", "")) flow_public) f flow_machine = (Ok tt, c) /\
    roster "entity-001" (w_db (mc_world c)) !! 12%N = Some (Some "k3").
Proof.
  intros f.
  destruct (registration_flow None (fun _ => ("", "")) flow_public f "entity-001" flow_voters "null"
              (Join ["1101"; "0011"] (String line_feed "")) (Join ["p2"; "p3"] (String line_feed ""))
              flow_machine) as (c & E & _ & _ & _ & _ & H).
  - exact (demo_env_no_faults 1).
  - reflexivity.
  - reflexivity.
  - reflexivity.
  - reflexivity.
  - simpl. lia.
  - discriminate.
  - reflexivity.
  - discriminate.
  - reflexivity.
  - reflexivity.
  - reflexivity.
  - apply (bool_decide_unpack _). vm_compute. exact I.
  - apply (bool_decide_unpack _). vm_compute. exact I.
  - split; [apply (reachable_db_ok (X:=demo_ext) (V:=demo_env 1)), reachable_run_all|].
    eexists. vm_compute. reflexivity.
  - apply Forall_forall. exact flow_can_register.
  - exists c. split; [exact E|]. exact (H (mkVoter "0011" 12%N "p3" "k3") ltac:(by right; left)).
Defined.
