(* ===== verification/EthClient.v ===== *)
(** * ethclient: the faucet (ethclient/ethclient.go)

    A pool of signers pays new entities. Each signer has a channel of capacity
    one, taken while it has a transaction under way. The node is third-party
    code: the class [Node] has the calls of go-ethereum's client on a state
    [W], and nothing is assumed about them. Contexts and timeouts are the
    node's: a call that is too slow returns its error. *)
From S2P Require Import Prelude GoLib Ext Types.

(* what NewTransaction is given; a nil gas price is None *)
Record Tx := mkTx {
  tx_nonce : Z;
  tx_to : bytes;
  tx_amount : Z;
  tx_gasLimit : Z;
  tx_gasPrice : option Z;
  tx_networkId : Z;
  tx_signer : bytes;
}.

Class Node (W : Type) := {
  node_BalanceAt : bytes -> M W Z;
  node_SuggestGasPrice : M W Z;
  node_PendingNonceAt : bytes -> M W Z;
  node_NetworkID : M W Z;
  (* types.SignTx *)
  node_SignTx : Tx -> gerror + Tx;
  node_SendTransaction : Tx -> M W unit;
  (* TransactionReceipt: the status; no value for the error NotFound, which
     is retried *)
  node_Receipt : Tx -> M W (option Z);
  (* time.Sleep(5 s): meanwhile other goroutines take and free signers *)
  node_Sleep : list bool -> M W (list bool);
}.

Record Eth := mkEth {
  eth_networkName : string;
  eth_networkID : Z;
  eth_provider : string;
  eth_gasLimit : Z;
  eth_DefaultFaucetAmount : Z;
  (* the addresses of SignersPool *)
  eth_SignersPool : list bytes;
  (* nanoseconds *)
  eth_timeout : Z;
}.

(* config.EthNetwork; Timeout is a time.Duration, in nanoseconds *)
Record EthNetwork := mkEthNetwork {
  en_Name : string;
  en_Provider : string;
  en_GasLimit : Z;
  en_FaucetAmount : Z;
  en_Timeout : Z;
}.

(* New: the amount of the faucet, computed in int64 *)
Definition faucet_amount (name : string) (FaucetAmount : Z) : gerror + Z :=
  if (0 <? FaucetAmount)%Z then inr (int64 (FaucetAmount * Finney))
  else DefaultFaucetAmount name.
Definition gas_limit (GasLimit : Z) : Z :=
  if (GasLimit =? 0)%Z then DefaultGasLimit else GasLimit.

(* The state: which signers are taken, the transactions the node acknowledged,
   and the node. *)
Record Faucet (W : Type) := mkFaucet {
  f_taken : list bool;
  f_sent : list Tx;
  f_node : W;
}.
Arguments mkFaucet {W}. Arguments f_taken {W}. Arguments f_sent {W}. Arguments f_node {W}.

Section faucet.
Context {X : Ext} {W : Type} {N : Node W}.

(* chain.SpecsFor gives the identifier of the network of a name; Dial connects
   to the provider *)
Definition New (SpecsFor : string -> gerror + Z) (Dial : string -> gerror + unit)
    (ethc : EthNetwork) (signersPool : list bytes) : M W Eth :=
  let! NetworkId := liftE (SpecsFor (en_Name ethc)) in
  fail_if! (len (en_Provider ethc) =? 0)%Z with Errorf "invalid ethereum provider" in
  let! faucetAmount := liftE (faucet_amount (en_Name ethc) (en_FaucetAmount ethc)) in
  let! _ := onErr (liftE (Dial (en_Provider ethc)))
    (Wrapf "cannot connect to ethereum endpoint: ") in
  let timeout := int64 (en_Timeout ethc * 1000000000) in
  let! chainID := onErr node_NetworkID
    (fun err => Errorf ("cannot get network id: " +:+ error_string err)) in
  fail_if! negb (int64 chainID =? NetworkId)%Z
    with Errorf "mismatch between Ethereum network name and ethereum network ID" in
  retM (mkEth (en_Name ethc) chainID (en_Provider ethc) (gas_limit (en_GasLimit ethc)) faucetAmount
          signersPool timeout).

(* a call of the node *)
Definition node {A} (m : M W A) : M (Faucet W) A := fun s =>
  let '(o, n) := m (f_node s) in (o, mkFaucet (f_taken s) (f_sent s) n).

(* the context has the timeout of the client; nil is the latest block *)
Definition BalanceAt (address : bytes) : M (Faucet W) Z := node (node_BalanceAt address).

(* None: goethereum.NotFound *)
Definition checkTxStatus (tx : Tx) : M (Faucet W) (option Z) := node (node_Receipt tx).

(* select { case signer.Taken <- true: true; default: false } *)
Definition try_take (i : nat) : M (Faucet W) bool := fun s =>
  match f_taken s !! i with
  | Some false => (Ok true, mkFaucet (<[i := true]> (f_taken s)) (f_sent s) (f_node s))
  | _ => (Ok false, s)
  end.
(* <-signer.Taken *)
Definition release (i : nat) : M (Faucet W) unit := fun s =>
  (Ok tt, mkFaucet (<[i := false]> (f_taken s)) (f_sent s) (f_node s)).

(* f_sent has the transactions whose SendTransaction answered without an error.
   One that errs may have reached the node all the same; the loop takes it for
   unsent and pays with the next signer ([lost_answer_pays_twice]). *)
Definition record_sent (tx : Tx) : M (Faucet W) unit := fun s =>
  (Ok tt, mkFaucet (f_taken s) (f_sent s ++ [tx]) (f_node s)).

(* an error of SuggestGasPrice overwrites the default price with nil *)
Definition gas_price (networkName : string) : M (Faucet W) (option Z) :=
  if bool_decide (networkName = "sokol") then retM (Some 1000000000%Z) else
  let! r := tryM (node node_SuggestGasPrice) in
  retM (match r with inl _ => None | inr p => Some p end).

Definition sendTokens (eth : Eth) (signer to : bytes) (amount : Z) : M (Faucet W) Tx :=
  let! gasPrice := gas_price (eth_networkName eth) in
  let! nonce := onErr (node (node_PendingNonceAt signer)) (fun err =>
    Errorf ("cannot get signer account nonce: " +:+ error_string err)) in
  let! networkId := onErr (node node_NetworkID) (Wrapf "cannot get networkId: ") in
  let tx := mkTx nonce to amount (eth_gasLimit eth) gasPrice networkId signer in
  let! signedTx := onErr (liftE (node_SignTx tx)) (fun err =>
    Errorf ("cannot sign transaction: " +:+ error_string err)) in
  let! _ := onErr (node (node_SendTransaction signedTx)) (fun err =>
    Errorf ("cannot send signed tx: " +:+ error_string err)) in
  let! _ := record_sent signedTx in
  retM signedTx.

(* the amount that is checked is always the default: the local [amount] of
   checkEnoughBalance is never set *)
Definition checkEnoughBalance (signer : bytes) (defaultAmount : Z) : M (Faucet W) bool :=
  let! fromBalance := onErr (node (node_BalanceAt signer))
    (fun _ => Errorf "cannot check manager balance") in
  fail_if! (Z.abs fromBalance <? Z.abs defaultAmount)%Z
    with Errorf ("wallet does not have enough balance: " +:+ decimal (int64 fromBalance)) in
  retM true.

(* one signer of the pool: whether it sent the transaction *)
Definition try_signer (eth : Eth) (to : bytes) (value : Z) (i : nat) (signer : bytes) :
    M (Faucet W) bool :=
  let! taken := try_take i in
  if negb taken then retM false else
  let! enough := tryM (checkEnoughBalance signer (eth_DefaultFaucetAmount eth)) in
  match enough with
  | inl _ | inr false => let! _ := release i in retM false
  | inr true =>
      let! r := tryM (sendTokens eth signer to value) in
      match r with
      | inl _ => let! _ := release i in retM false
      (* go signer.waitForTx(...) frees the signer later *)
      | inr _ => retM true
      end
  end.

(* for _, signer := range eth.SignersPool *)
Fixpoint try_signers (eth : Eth) (to : bytes) (value : Z) (i : nat) (pool : list bytes) :
    M (Faucet W) bool :=
  match pool with
  | [] => retM false
  | signer :: pool =>
      let! finished := try_signer eth to value i signer in
      if finished : bool then retM true else try_signers eth to value (S i) pool
  end.

Definition sleep : M (Faucet W) unit := fun s =>
  let '(o, n) := node_Sleep (f_taken s) (f_node s) in
  match o with
  | Ok t => (Ok tt, mkFaucet t (f_sent s) n)
  | Err _ | Panic _ => (Ok tt, mkFaucet (f_taken s) (f_sent s) n)
  end.

(* for { ... }: false when the fuel ran out before a signer sent *)
Fixpoint send_loop (fuel : nat) (eth : Eth) (to : bytes) (value : Z) : M (Faucet W) bool :=
  match fuel with
  | 0 => retM false
  | S fuel =>
      let! finished := try_signers eth to value 0 (eth_SignersPool eth) in
      if finished : bool then retM true else
      let! _ := sleep in send_loop fuel eth to value
  end.

(* None: still waiting for a signer after [fuel] rounds of the pool *)
Definition SendTokens (fuel : nat) (eth : Eth) (to : bytes) (maxAcceptedBalance amount : Z) :
    M (Faucet W) (option Z) :=
  let! toBalance := onErr (BalanceAt to)
    (fun _ => Errorf "cannot check entity balance") in
  fail_if! (Z.abs maxAcceptedBalance <? Z.abs toBalance)%Z
    with Errorf ("entity " +:+ AddressString to +:+ " has already a balance of : "
                 +:+ decimal (int64 toBalance) +:+ ", greater than the maxAcceptedBalance") in
  let value := if (amount =? 0)%Z then eth_DefaultFaucetAmount eth else amount in
  let! finished := send_loop fuel eth to value in
  retM (if finished : bool then Some (eth_DefaultFaucetAmount eth) else None).

(* the status of a transaction is polled until it has one; None: no receipt yet
   after [fuel] polls *)
Fixpoint wait_loop (fuel : nat) (tx : Tx) : M (Faucet W) (option unit) :=
  match fuel with
  | 0 => retM None
  | S fuel =>
      let! r := tryM (checkTxStatus tx) in
      match r with
      | inl _ => retM (Some tt)          (* a warning *)
      | inr (Some status) => retM (Some tt)
      | inr None => let! _ := sleep in wait_loop fuel tx
      end
  end.
Definition waitForTx (fuel : nat) (i : nat) (tx : Tx) : M (Faucet W) (option unit) :=
  let! r := wait_loop fuel tx in
  match r with
  | None => retM None
  | Some _ => let! _ := release i in retM (Some tt)
  end.
End faucet.

(** ** Lemmas *)
Section lemmas.
Context {X : Ext} {W : Type} {N : Node W}.

Lemma node_keeps {A} (m : M W A) : keeps f_sent (node m).
Proof. intros s. unfold node. by destruct (m (f_node s)). Qed.
Lemma release_keeps i : keeps f_sent (release (W:=W) i).
Proof. done. Qed.
Lemma try_take_keeps i : keeps f_sent (try_take (W:=W) i).
Proof. intros s. unfold try_take. by destruct (_ !! _) as [[]|]. Qed.
Lemma sleep_keeps : keeps f_sent (sleep (W:=W)).
Proof. intros s. unfold sleep. by destruct (node_Sleep _ _) as [[] ?]. Qed.
Hint Resolve node_keeps release_keeps try_take_keeps sleep_keeps : go.

Lemma gas_price_keeps n : keeps f_sent (gas_price n).
Proof. unfold gas_price. go_keeps. Qed.
Lemma checkEnoughBalance_keeps a d : keeps f_sent (checkEnoughBalance a d).
Proof. unfold checkEnoughBalance. go_keeps. Qed.
Hint Resolve gas_price_keeps checkEnoughBalance_keeps : go.

(* the transaction [tx] pays [value] to [to] *)
Definition payment (to : bytes) (value : Z) (tx : Tx) : Prop :=
  exists tx0, node_SignTx tx0 = inr tx /\ tx_to tx0 = to /\ tx_amount tx0 = value.

(* [m] sends one payment when its value is [paid], and nothing otherwise *)
Definition pays {A} (paid : A -> bool) (to : bytes) (value : Z) (m : M (Faucet W) A) : Prop :=
  forall s, match (m s).1 with
            | Ok a => if paid a
                      then exists tx, payment to value tx /\ f_sent (m s).2 = f_sent s ++ [tx]
                      else f_sent (m s).2 = f_sent s
            | _ => f_sent (m s).2 = f_sent s
            end.

Lemma pays_nothing {A} paid to value (m : M (Faucet W) A) :
  keeps f_sent m -> (forall s a, (m s).1 = Ok a -> paid a = false) -> pays paid to value m.
Proof.
  intros Hm Hp s. specialize (Hm s). specialize (Hp s). destruct (m s) as [[a| |] ?]; simpl in *;
    [|done..]. by rewrite (Hp a).
Qed.

(* a step that sends nothing, then [k] *)
Lemma pays_after {A B} paid to value (m : M (Faucet W) A) (k : A -> M (Faucet W) B) :
  keeps f_sent m -> (forall a, pays paid to value (k a)) -> pays paid to value (bindM m k).
Proof.
  intros Hm Hk s. unfold bindM. specialize (Hm s).
  destruct (m s) as [[a| |] s']; simpl in *; [|done..]. rewrite <- Hm. apply Hk.
Qed.

(* [m] first; when it did not pay, [k] *)
Lemma pays_or to value (m k : M (Faucet W) bool) :
  pays (fun b : bool => b) to value m -> pays (fun b : bool => b) to value k ->
  pays (fun b : bool => b) to value (let! b := m in if b : bool then retM true else k).
Proof.
  intros Hm Hk s. unfold bindM. specialize (Hm s).
  destruct (m s) as [[[]| |] s']; simpl in *; [done| |done..]. rewrite <- Hm. apply Hk.
Qed.

Lemma sendTokens_pays eth signer to value :
  pays (fun _ => true) to value (sendTokens eth signer to value).
Proof.
  unfold sendTokens. apply pays_after; [apply gas_price_keeps|]. intros gasPrice.
  apply pays_after; [go_keeps|]. intros nonce. apply pays_after; [go_keeps|]. intros networkId.
  destruct (node_SignTx _) as [err|tx] eqn:E; [done|].
  intros s. unfold bindM, onErr, liftE, retM, record_sent.
  pose proof (node_keeps (node_SendTransaction tx) s) as Hk.
  destruct (node (node_SendTransaction tx) s) as [[] s']; simpl in *; [|done..].
  exists tx. rewrite Hk. split; [|done]. eexists. split; [exact E|]. done.
Qed.

Lemma try_signer_pays eth to value i signer : pays (fun b : bool => b) to value (try_signer eth to value i signer).
Proof.
  assert (Hrel : pays (fun b : bool => b) to value (let! _ := release (W:=W) i in retM false))
    by (by apply pays_nothing; [go_keeps|intros s a [= <-]]).
  unfold try_signer. apply pays_after; [apply try_take_keeps|]. intros [|]; simpl;
    [|by apply pays_nothing; [go_keeps|intros s a [= <-]]].
  apply pays_after; [go_keeps|]. intros [err|[|]]; [exact Hrel| |exact Hrel].
  pose proof (sendTokens_pays eth signer to value) as Hp. intros s. specialize (Hp s).
  unfold bindM, tryM. destruct (sendTokens _ _ _ _ s) as [[tx|err|p] s']; simpl in *; done.
Qed.

Lemma try_signers_pays eth to value i pool :
  pays (fun b : bool => b) to value (try_signers eth to value i pool).
Proof.
  revert i. induction pool as [|signer pool IH]; intros i; simpl;
    [by apply pays_nothing; [go_keeps|intros s a [= <-]]|].
  apply pays_or; [apply try_signer_pays|apply IH].
Qed.

Lemma send_loop_pays fuel eth to value : pays (fun b : bool => b) to value (send_loop fuel eth to value).
Proof.
  induction fuel as [|fuel IH]; simpl; [by apply pays_nothing; [go_keeps|intros s a [= <-]]|].
  apply pays_or; [apply try_signers_pays|]. apply pays_after; [apply sleep_keeps|done].
Qed.

Lemma try_signers_nil fuel eth to value s b :
  eth_SignersPool eth = [] -> (send_loop fuel eth to value s).1 = Ok b -> b = false.
Proof.
  intros Hp. revert s. induction fuel as [|fuel IH]; intros s; simpl; [by intros [= <-]|].
  rewrite Hp. simpl. unfold bindM at 1, retM at 1. unfold bindM, sleep.
  destruct (node_Sleep _ _) as [[] n]; apply IH.
Qed.
End lemmas.

(** ** Properties *)
Section properties.
Context {X : Ext} {W : Type} {N : Node W}.

(* The faucet pays once: when SendTokens returns an amount, exactly one
    transaction was accepted by the node, it pays the address that was asked,
    and its value is the amount (the default one for 0), whatever the returned
    amount says, which is always the default; when it fails, or is still
    waiting for a signer, nothing was sent. *)
Lemma SendTokens_pays_once (fuel : nat) (eth : Eth) (to : bytes)
    (maxAcceptedBalance amount : Z) (s : Faucet W) :
  let r := SendTokens fuel eth to maxAcceptedBalance amount s in
  match r.1 with
  | Ok (Some sent) =>
      sent = eth_DefaultFaucetAmount eth /\
      exists tx, payment to (if (amount =? 0)%Z then eth_DefaultFaucetAmount eth else amount) tx /\
        f_sent r.2 = f_sent s ++ [tx]
  | _ => f_sent r.2 = f_sent s
  end.
Proof.
  cbn zeta. unfold SendTokens, BalanceAt, onErr, bindM.
  pose proof (node_keeps (node_BalanceAt to) s) as Hk.
  destruct (node (node_BalanceAt to) s) as [[b| |] s1]; simpl in *; [|done..].
  destruct (_ <? _)%Z; [done|].
  set (value := if (amount =? 0)%Z then _ else _).
  pose proof (send_loop_pays fuel eth to value s1) as Hp.
  destruct (send_loop _ _ _ _ s1) as [[[]| |] s2]; simpl in *; rewrite <- Hk; auto.
Qed.

(** An address that has more than maxAcceptedBalance gets nothing: the error
    says "maxAcceptedBalance", which is how signUp tells it from a failure,
    and no signer was asked. *)
Lemma SendTokens_refuses_rich (fuel : nat) (eth : Eth) (to : bytes)
    (maxAcceptedBalance amount balance : Z) (s s1 : Faucet W) :
  node (node_BalanceAt to) s = (Ok balance, s1) ->
  (Z.abs maxAcceptedBalance < Z.abs balance)%Z ->
  exists e, SendTokens fuel eth to maxAcceptedBalance amount s = (Err e, s1) /\
    Contains (error_string e) "maxAcceptedBalance" = true /\ f_taken s1 = f_taken s.
Proof.
  intros Hb Hlt. unfold SendTokens, BalanceAt, bindM, onErr. rewrite Hb. apply Z.ltb_lt in Hlt.
  rewrite Hlt. eexists. split; [reflexivity|]. split.
  - cbn [error_string]. do 4 apply Contains_skip. reflexivity.
  - unfold node in Hb. destruct (node_BalanceAt to (f_node s)). by injection Hb as _ <-.
Qed.

(* without signers the faucet never answers: SendTokens goes round an empty
    pool for ever, for any address it would pay, so the request that asked for
    tokens never returns. *)
Lemma SendTokens_no_signers (fuel : nat) (eth : Eth) (to : bytes)
    (maxAcceptedBalance amount : Z) (s : Faucet W) (v : Z) :
  eth_SignersPool eth = [] ->
  (SendTokens fuel eth to maxAcceptedBalance amount s).1 <> Ok (Some v).
Proof.
  intros Hp. unfold SendTokens, BalanceAt, bindM, onErr.
  destruct (node _ s) as [[b| |] s1]; try done. destruct (_ <? _)%Z; [done|].
  set (value := if (amount =? 0)%Z then _ else _).
  pose proof (try_signers_nil fuel eth to value s1) as Hn.
  destruct (send_loop _ _ _ _ s1) as [[b'| |] s2]; try done.
  simpl in Hn. by rewrite (Hn b' Hp eq_refl).
Qed.
End properties.

(** C40: Amounts and durations overflow int64 where New computes them: the
    configured number of finneys is the amount of the faucet up to 9223 and
    gives a negative amount from 9224 to 18446; the timeout, already in
    nanoseconds, is multiplied by a second again and is never the configured
    one (the default minute becomes 147 years, ten seconds a negative time). *)
Theorem New_overflows {W : Type} {N : Node W} (SpecsFor : string -> gerror + Z) (Dial : string -> gerror + unit)
    (ethc : EthNetwork) (pool : list bytes) (w w' : W) (eth : Eth) :
  New SpecsFor Dial ethc pool w = (Ok eth, w') ->
  ((0 < en_FaucetAmount ethc <= 9223)%Z ->
     eth_DefaultFaucetAmount eth = (en_FaucetAmount ethc * Finney)%Z) /\
  ((9224 <= en_FaucetAmount ethc <= 18446)%Z -> (eth_DefaultFaucetAmount eth < 0)%Z) /\
  ((0 < en_Timeout ethc < 2 ^ 63)%Z -> eth_timeout eth <> en_Timeout ethc) /\
  (en_Timeout ethc = (60 * 1000000000)%Z -> eth_timeout eth = 4659767778871345152%Z) /\
  (en_Timeout ethc = (10 * 1000000000)%Z -> (eth_timeout eth < 0)%Z).
Proof.
  intros H. assert (He : inr (eth_DefaultFaucetAmount eth)
                           = faucet_amount (en_Name ethc) (en_FaucetAmount ethc) /\
                         eth_timeout eth = int64 (en_Timeout ethc * 1000000000)).
  { revert H. unfold New, bindM, onErr, liftE. destruct (SpecsFor _); [done|]. simpl.
    destruct (_ =? 0)%Z; [done|]. destruct (faucet_amount _ _); [done|]. simpl.
    destruct (Dial _); [done|]. simpl. destruct (node_NetworkID w) as [[id|e|p] w1]; simpl; try done.
    destruct (negb _); [done|]. intros [= <- _]. done. }
  destruct He as [Hf Ht]. split_and!; [| |intros Hn; rewrite Ht; by apply int64_times_second|..];
    try (intros Hd; rewrite Ht, Hd; vm_compute; congruence).
  all: intros Hn; revert Hf; unfold faucet_amount, int64, Finney;
    replace (0 <? en_FaucetAmount ethc)%Z with true by (symmetry; apply Z.ltb_lt; lia);
    intros [= ->].
  - rewrite Z.mod_small by lia. lia.
  - rewrite <- (Z.mod_add _ (-1)) by lia. rewrite Z.mod_small by lia. lia.
Qed.
(** ** A healthy node *)
Section healthy.
Context {X : Ext} {W : Type} {N : Node W}.
Variable eth : Eth.

(* every call answers, and the signers are rich enough *)
Record healthy : Prop := {
  h_balance a w : a ∈ eth_SignersPool eth -> exists b w', node_BalanceAt a w = (Ok b, w') /\
    (Z.abs (eth_DefaultFaucetAmount eth) <= Z.abs b)%Z;
  h_gas w : exists p w', node_SuggestGasPrice w = (Ok p, w');
  h_nonce a w : exists n w', node_PendingNonceAt a w = (Ok n, w');
  h_network w : exists n w', node_NetworkID w = (Ok n, w');
  h_sign tx : exists tx', node_SignTx tx = inr tx';
  h_send tx w : exists w', node_SendTransaction tx w = (Ok tt, w');
}.
Context (Hh : healthy).

Lemma node_ok {A} (m : M W A) (s : Faucet W) :
  (exists a w', m (f_node s) = (Ok a, w')) -> exists a s', node m s = (Ok a, s') /\ f_taken s' = f_taken s.
Proof. intros (a & w' & E). unfold node. rewrite E. eauto. Qed.

Lemma gas_price_ok n (s : Faucet W) : exists p s', gas_price n s = (Ok p, s').
Proof.
  unfold gas_price. destruct (bool_decide _); [eauto|]. unfold bindM, tryM.
  destruct (node_ok _ s (h_gas Hh _)) as (p & s' & -> & _). eauto.
Qed.

Lemma sendTokens_ok signer to value (s : Faucet W) :
  exists tx s', sendTokens eth signer to value s = (Ok tx, s').
Proof.
  unfold sendTokens, bindM, onErr.
  destruct (gas_price_ok (eth_networkName eth) s) as (p & s1 & ->).
  destruct (node_ok _ s1 (h_nonce Hh signer _)) as (n & s2 & -> & _).
  destruct (node_ok _ s2 (h_network Hh _)) as (i & s3 & -> & _).
  destruct (h_sign Hh (mkTx n to value (eth_gasLimit eth) p i signer)) as (tx & ->).
  cbn [liftE retM]. unfold retM at 1.
  destruct (node_ok (node_SendTransaction tx) s3) as (u & s4 & -> & _).
  { destruct (h_send Hh tx (f_node s3)) as [w' E]. eauto. }
  unfold record_sent, retM. eauto.
Qed.

Lemma try_signer_free to value i signer (s : Faucet W) :
  signer ∈ eth_SignersPool eth -> f_taken s !! i = Some false ->
  exists s', try_signer eth to value i signer s = (Ok true, s').
Proof.
  intros Hin Hi. unfold try_signer, bindM, try_take. rewrite Hi. cbn [negb].
  unfold tryM at 1, checkEnoughBalance, bindM, onErr.
  destruct (h_balance Hh signer (f_node s) Hin) as (b & w' & Hb & Hle).
  unfold node at 1. cbn [f_node f_taken f_sent]. rewrite Hb.
  replace (Z.abs b <? Z.abs (eth_DefaultFaucetAmount eth))%Z with false
    by (symmetry; apply Z.ltb_ge; lia).
  unfold retM at 1, tryM.
  match goal with |- context [sendTokens eth signer to value ?st] =>
    destruct (sendTokens_ok signer to value st) as (tx & s' & ->) end.
  eauto.
Qed.

Lemma try_signer_busy to value i signer (s : Faucet W) :
  f_taken s !! i <> Some false -> try_signer eth to value i signer s = (Ok false, s).
Proof.
  intros Hi. unfold try_signer, bindM, try_take. by destruct (f_taken s !! i) as [[]|].
Qed.

Lemma try_signers_free to value k pool i signer (s : Faucet W) :
  (forall a, a ∈ pool -> a ∈ eth_SignersPool eth) ->
  pool !! i = Some signer -> f_taken s !! (k + i) = Some false ->
  exists s', try_signers eth to value k pool s = (Ok true, s').
Proof.
  revert k i. induction pool as [|a pool IH]; intros k i Hsub Hp Hi; [done|]. simpl.
  unfold bindM. destruct (decide (f_taken s !! k = Some false)) as [Hk|Hk].
  - destruct (try_signer_free to value k a s) as (s' & ->); [|done|by eexists].
    apply Hsub. left.
  - rewrite try_signer_busy by done.
    destruct i as [|i]; [by rewrite Nat.add_0_r in Hi|].
    apply (IH (S k) i); [intros b Hb; apply Hsub; by right|done|].
    by rewrite <- Nat.add_succ_comm in Hi.
Qed.

(* with one signer free at the time of the request, SendTokens pays in its
   first round of the pool *)
Lemma SendTokens_answers (rounds : nat) (to : bytes) (maxAcceptedBalance amount balance : Z) (i : nat)
    (signer : bytes) (s s1 : Faucet W) :
  eth_SignersPool eth !! i = Some signer -> f_taken s !! i = Some false ->
  node (node_BalanceAt to) s = (Ok balance, s1) ->
  (Z.abs balance <= Z.abs maxAcceptedBalance)%Z ->
  (SendTokens (S rounds) eth to maxAcceptedBalance amount s).1 = Ok (Some (eth_DefaultFaucetAmount eth)).
Proof.
  intros Hp Hi Hb Hle. unfold SendTokens, BalanceAt, bindM at 1, onErr. rewrite Hb.
  replace (Z.abs maxAcceptedBalance <? Z.abs balance)%Z with false
    by (symmetry; apply Z.ltb_ge; lia).
  assert (Hi1 : f_taken s1 !! (0 + i) = Some false).
  { unfold node in Hb. destruct (node_BalanceAt to (f_node s)). by injection Hb as _ <-. }
  set (value := if (amount =? 0)%Z then _ else _).
  destruct (try_signers_free to value 0 (eth_SignersPool eth) i signer s1) as (s2 & E);
    [done|done|done|].
  cbn [send_loop]. unfold bindM. by rewrite E.
Qed.
End healthy.

(** ** Witnesses *)

(* a node where every call succeeds *)
#[local] Instance demo_node : Node Z := {|
  node_BalanceAt := fun a => if Stdlib.Strings.String.eqb a "rich" then retM 10%Z
    else if Stdlib.Strings.String.eqb a "new" then retM 0%Z else retM 1000%Z;
  node_SuggestGasPrice := retM 1%Z;
  node_PendingNonceAt := fun _ => retM 0%Z;
  node_NetworkID := retM 5%Z;
  node_SignTx := fun tx => inr tx;
  node_SendTransaction := fun _ => retM tt;
  node_Receipt := fun _ => retM None;
  node_Sleep := fun t => retM t;
|}.
Definition demo_eth (pool : list bytes) : Eth := mkEth "goerli" 5 "https://p" 21000 100 pool 0.
Definition demo_faucet (taken : list bool) : Faucet Z := mkFaucet taken [] 1000%Z.

Lemma SendTokens_no_signers_witness :
  (SendTokens (X:=demo_ext) 50 (demo_eth []) "new" 0 0 (demo_faucet [])).1 <> Ok (Some 100%Z).
Proof. apply (SendTokens_no_signers (X:=demo_ext) 50 (demo_eth [])). reflexivity. Defined.

(* a node that keeps every transaction and loses its first answer: the faucet
   counts one payment and the node has two *)
#[local] Instance lossy_node : Node (list Tx) := {|
  node_BalanceAt := fun a => retM (if Stdlib.Strings.String.eqb a "new" then 0%Z else 1000%Z);
  node_SuggestGasPrice := retM 1%Z;
  node_PendingNonceAt := fun _ => retM 0%Z;
  node_NetworkID := retM 5%Z;
  node_SignTx := fun tx => inr tx;
  node_SendTransaction := fun tx w =>
    (match w with [] => Err (Errorf "context deadline exceeded") | _ => Ok tt end, w ++ [tx]);
  node_Receipt := fun _ => retM None;
  node_Sleep := fun t => retM t;
|}.

Lemma lost_answer_pays_twice :
  let s := (SendTokens (X:=demo_ext) 1 (demo_eth ["a"; "b"]) "new" 0 0
              (mkFaucet [false; false] [] [])).2 in
  map (fun tx => (tx_signer tx, tx_to tx)) (f_node s) = [("a", "new"); ("b", "new")] /\
  map tx_signer (f_sent s) = ["b"].
Proof. split; vm_compute; reflexivity. Qed.

(* the node is on network 5 *)
Definition demo_network (amount timeout : Z) : EthNetwork :=
  mkEthNetwork "goerli" "https://p" 0 amount timeout.

Lemma New_overflows_witness :
  exists eth w, New (fun _ => inr 5%Z) (fun _ => inr tt) (demo_network 10000 60000000000) [] 1000%Z
    = (Ok eth, w) /\ (eth_DefaultFaucetAmount eth < 0)%Z /\ eth_timeout eth <> 60000000000%Z.
Proof.
  destruct (New (fun _ => inr 5%Z) (fun _ => inr tt) (demo_network 10000 60000000000) [] 1000%Z)
    as [[eth|e|p] w] eqn:E; [|discriminate E..].
  exists eth, w. split; [reflexivity|]. apply New_overflows in E as (_ & H1 & H2 & _).
  split; [apply H1; simpl; lia|apply H2; simpl; lia].
Defined.
