(* ===== verification/Signers.v ===== *)
(** * The faucet's goroutines (ethclient/ethclient.go)

    Requests run SendTokens concurrently, each accepted transaction has a
    goroutine that waits for it (waitForTx), and all of them share the channels
    [Taken] of the signers. Here a goroutine is where it is in its code, each
    step runs one call of the node or one operation on a channel, and the
    scheduler picks the steps: every interleaving is a path of [step]. *)
From stdpp Require Import functions.
From S2P Require Import Prelude GoLib Ext Types EthClient.

(* where a call of SendTokens is *)
Inductive Phase :=
| Ask (maxAcceptedBalance : Z)        (* the balance of the address *)
| Scan (k : nat)                      (* the select on signer k's channel *)
| Check (k : nat)                     (* its balance *)
| Price (k : nat)                     (* sendTokens: its four calls *)
| Nonce (k : nat) (gasPrice : option Z)
| Network (k : nat) (gasPrice : option Z) (nonce : Z)
| Send (k : nat) (signedTx : Tx)
| Free (k : nat)                      (* <-signer.Taken after a failure *)
| Sleeping                            (* no signer in this round *)
| Finished (sent : option Tx).

(* where a call of waitForTx is *)
Inductive Poll := Polling | PollSleep | WaitFree | WaitEnd.

Inductive Goroutine :=
| Request (to : bytes) (value : Z) (phase : Phase)
| Waiter (k : nat) (tx : Tx) (poll : Poll).

(* the signer whose channel the goroutine has filled *)
Definition holder (g : Goroutine) : option nat :=
  match g with
  | Request _ _ (Check k | Price k | Nonce k _ | Network k _ _ | Send k _ | Free k) => Some k
  | Waiter k _ (Polling | PollSleep | WaitFree) => Some k
  | _ => None
  end.
Definition finished (g : Goroutine) : option Tx :=
  match g with Request _ _ (Finished (Some tx)) => Some tx | _ => None end.
Definition ended (g : Goroutine) : bool :=
  match g with Request _ _ (Finished _) | Waiter _ _ WaitEnd => true | _ => false end.

Section signers.
Context {X : Ext} {W : Type} {N : Node W} (eth : Eth).

(* <-signer.Taken blocks while the channel is empty *)
Definition receive (k : nat) (s : Faucet W) : option (Faucet W) :=
  match f_taken s !! k with Some true => Some (release k s).2 | _ => None end.

(* the result of a call, unless it panics *)
Definition call {A B} (m : M (Faucet W) A) (s : Faucet W) (k : gerror + A -> B) :
    option (B * Faucet W) :=
  match m s with
  | (Ok a, s') => Some (k (inr a), s')
  | (Err e, s') => Some (k (inl e), s')
  | (Panic _, _) => None
  end.

(* one step of a request: where it goes, and the transaction it had accepted *)
Definition request_step (to : bytes) (value : Z) (phase : Phase) (s : Faucet W) :
    option (Phase * Faucet W) :=
  match phase with
  | Ask maxAcceptedBalance => call (BalanceAt to) s (fun r =>
      match r with
      | inl _ => Finished None
      | inr b => if (Z.abs maxAcceptedBalance <? Z.abs b)%Z then Finished None else Scan 0
      end)
  | Scan k =>
      match eth_SignersPool eth !! k with
      | None => Some (Sleeping, s)
      | Some _ => call (try_take k) s (fun r =>
          match r with inr true => Check k | _ => Scan (S k) end)
      end
  | Check k => call (checkEnoughBalance (eth_SignersPool eth !!! k) (eth_DefaultFaucetAmount eth)) s
      (fun r => match r with inr true => Price k | _ => Free k end)
  | Price k => call (gas_price (eth_networkName eth)) s
      (fun r => match r with inr p => Nonce k p | inl _ => Free k end)
  | Nonce k p => call (node (node_PendingNonceAt (eth_SignersPool eth !!! k))) s
      (fun r => match r with inr n => Network k p n | inl _ => Free k end)
  | Network k p n => call (node node_NetworkID) s (fun r =>
      match r with
      | inr networkId =>
          match node_SignTx (mkTx n to value (eth_gasLimit eth) p networkId
                               (eth_SignersPool eth !!! k)) with
          | inr signedTx => Send k signedTx
          | inl _ => Free k
          end
      | inl _ => Free k
      end)
  | Send k tx => call (let! _ := node (node_SendTransaction tx) in record_sent tx) s
      (fun r => match r with inr _ => Finished (Some tx) | inl _ => Free k end)
  | Free k => s' ← receive k s; Some (Scan (S k), s')
  | Sleeping => Some (Scan 0, s)
  | Finished _ => None
  end.

Definition waiter_step (k : nat) (tx : Tx) (poll : Poll) (s : Faucet W) :
    option (Poll * Faucet W) :=
  match poll with
  | Polling => call (checkTxStatus tx) s (fun r =>
      match r with inr None => PollSleep | _ => WaitFree end)
  | PollSleep => Some (Polling, s)
  | WaitFree => s' ← receive k s; Some (WaitEnd, s')
  | WaitEnd => None
  end.

(* [go signer.waitForTx(...)] follows an accepted transaction *)
Definition spawned (p p' : Phase) : list Goroutine :=
  match p, p' with Send k _, Finished (Some tx) => [Waiter k tx Polling] | _, _ => [] end.

(* the goroutine after its step, the ones it starts, and the shared state *)
Definition gstep (g : Goroutine) (s : Faucet W) : option (Goroutine * list Goroutine * Faucet W) :=
  match g with
  | Request to value p => '(p', s') ← request_step to value p s;
      Some (Request to value p', spawned p p', s')
  | Waiter k tx p => '(p', s') ← waiter_step k tx p s; Some (Waiter k tx p', [], s')
  end.

Definition request_of (to : bytes) (maxAcceptedBalance amount : Z) : Goroutine :=
  Request to (if (amount =? 0)%Z then eth_DefaultFaucetAmount eth else amount)
    (Ask maxAcceptedBalance).

(* [rely]: what the network may do to the node by itself *)
Inductive step (rely : W -> W -> Prop) :
    list Goroutine * Faucet W -> list Goroutine * Faucet W -> Prop :=
| step_request to maxAcceptedBalance amount gs s :
    step rely (gs, s) (gs ++ [request_of to maxAcceptedBalance amount], s)
| step_go l1 g l2 g' new s s' :
    gstep g s = Some (g', new, s') ->
    step rely (l1 ++ g :: l2, s) (l1 ++ g' :: l2 ++ new, s')
| step_node gs s w :
    rely (f_node s) w -> step rely (gs, s) (gs, mkFaucet (f_taken s) (f_sent s) w).

Definition idle (w : W) : list Goroutine * Faucet W :=
  ([], mkFaucet (replicate (length (eth_SignersPool eth)) false) [] w).
Definition faucet_reaches (rely : W -> W -> Prop) (w : W) (c : list Goroutine * Faucet W) : Prop :=
  rtc (step rely) (idle w) c.
End signers.

(** ** Lemmas *)
Section effects.
Context {X : Ext} {W : Type} {N : Node W} (eth : Eth).

Definition hold (g : Goroutine) : list nat := option_list (holder g).
Definition holders (gs : list Goroutine) : list nat := omap holder gs.
Definition done_txs (gs : list Goroutine) : list Tx := omap finished gs.

(* what a step does to the channels: nothing, and the signer a goroutine holds
   stays with it or goes to the one it starts; or it takes a free signer; or
   frees its own *)
Inductive channel_effect (g g' : Goroutine) (new : list Goroutine) (s s' : Faucet W) : Prop :=
| ch_same : f_taken s' = f_taken s -> hold g' ++ holders new = hold g -> channel_effect g g' new s s'
| ch_take k : f_taken s !! k = Some false -> f_taken s' = <[k := true]> (f_taken s) ->
    hold g = [] -> hold g' = [k] -> holders new = [] -> channel_effect g g' new s s'
| ch_free k : f_taken s !! k = Some true -> f_taken s' = <[k := false]> (f_taken s) ->
    hold g = [k] -> hold g' = [] -> holders new = [] -> channel_effect g g' new s s'.

Lemma call_inv {A B} (m : M (Faucet W) A) (k : gerror + A -> B) s b s' :
  call m s k = Some (b, s') -> s' = (m s).2 /\ exists r, b = k r /\
    match r with inr a => (m s).1 = Ok a | inl e => (m s).1 = Err e end.
Proof.
  unfold call. destruct (m s) as [[a|e|p] s1]; intros [= <- <-]; split; try done; by eexists.
Qed.
Lemma call_keeps {A B T} (f : Faucet W -> T) (m : M (Faucet W) A) (k : gerror + A -> B) s b s' :
  keeps f m -> call m s k = Some (b, s') -> f s' = f s /\ exists r, b = k r.
Proof. intros Hk (-> & r & -> & _)%call_inv. split; [apply Hk|by exists r]. Qed.

Lemma node_taken {A} (m : M W A) : keeps f_taken (node m).
Proof. intros s. unfold node. by destruct (m (f_node s)). Qed.
Lemma gas_price_taken n : keeps f_taken (gas_price (W:=W) n).
Proof. pose proof @node_taken. unfold gas_price. go_keeps. Qed.
Lemma checkEnoughBalance_taken a d : keeps f_taken (checkEnoughBalance (W:=W) a d).
Proof. pose proof @node_taken. unfold checkEnoughBalance. go_keeps. Qed.
Lemma send_taken tx :
  keeps f_taken (let! _ := node (node_SendTransaction (W:=W) tx) in record_sent tx).
Proof. apply keeps_bind; [apply node_taken|done]. Qed.

Lemma gstep_channel g s g' new s' :
  gstep eth g s = Some (g', new, s') -> channel_effect g g' new s s'.
Proof.
  assert (Hsame : forall A B (m : M (Faucet W) A) (k : gerror + A -> B) b,
            keeps f_taken m -> call m s k = Some (b, s') ->
            f_taken s' = f_taken s /\ exists r, b = k r) by (intros; by eapply call_keeps).
  assert (Hrecv : forall k, receive k s = Some s' ->
            f_taken s !! k = Some true /\ f_taken s' = <[k := false]> (f_taken s)).
  { intros k. unfold receive. destruct (f_taken s !! k) as [[]|]; try done. by intros [= <-]. }
  destruct g as [to value p|k tx p]; simpl.
  - destruct (request_step _ _ _ _ _) as [[p' s1]|] eqn:E; [|done]. simpl. intros [= <- <- <-].
    destruct p; simpl in E.
    + apply Hsame in E as (Ht & r & ->); [|apply node_taken]. apply ch_same; [done|].
      destruct r; [done|]. by destruct (_ <? _)%Z.
    + destruct (_ !! k); [|injection E as <- <-; by apply ch_same].
      apply call_inv in E as (-> & r & -> & Hr). unfold try_take in *.
      destruct (f_taken s !! k) as [[]|] eqn:Ek; destruct r as [|[]]; try done;
        [by apply ch_same..| |by apply ch_same].
      by apply (ch_take _ _ _ _ _ k).
    + apply Hsame in E as (Ht & r & ->); [|apply checkEnoughBalance_taken].
      apply ch_same; [done|]. by destruct r as [|[]].
    + apply Hsame in E as (Ht & r & ->); [|apply gas_price_taken].
      apply ch_same; [done|]. by destruct r.
    + apply Hsame in E as (Ht & r & ->); [|apply node_taken]. apply ch_same; [done|]. by destruct r.
    + apply Hsame in E as (Ht & r & ->); [|apply node_taken]. apply ch_same; [done|].
      destruct r; [done|]. by destruct (node_SignTx _).
    + apply Hsame in E as (Ht & r & ->); [|apply send_taken]. apply ch_same; [done|]. by destruct r.
    + destruct (receive k s) as [s2|] eqn:Er; [|done]. injection E as <- <-.
      apply Hrecv in Er as [??]. by apply (ch_free _ _ _ _ _ k).
    + injection E as <- <-. by apply ch_same.
    + done.
  - destruct (waiter_step k tx p s) as [[p' s1]|] eqn:E; [|done]. simpl. intros [= <- <- <-].
    destruct p; simpl in E.
    + apply Hsame in E as (Ht & r & ->); [|apply node_taken]. apply ch_same; [done|].
      by destruct r as [|[]].
    + injection E as <- <-. by apply ch_same.
    + destruct (receive k s) as [s2|] eqn:Er; [|done]. injection E as <- <-.
      apply Hrecv in Er as [??]. by apply (ch_free _ _ _ _ _ k).
    + done.
Qed.

(* the channels and the goroutines agree on who holds what *)
Definition exclusive (gs : list Goroutine) (s : Faucet W) : Prop :=
  NoDup (holders gs) /\ forall k, k ∈ holders gs <-> f_taken s !! k = Some true.

Lemma holders_middle l1 g l2 new :
  holders (l1 ++ g :: l2 ++ new) ≡ₚ (hold g ++ holders new) ++ holders (l1 ++ l2).
Proof.
  unfold holders. rewrite !omap_app. cbn [omap list_omap]. fold (omap (M:=list) holder).
  rewrite omap_app. unfold hold. destruct (holder g); simpl; solve_Permutation.
Qed.
Lemma omap_middle {B} (f : Goroutine -> option B) l1 g l2 new :
  omap f (l1 ++ g :: l2 ++ new) ≡ₚ (option_list (f g) ++ omap f new) ++ omap f (l1 ++ l2).
Proof.
  rewrite !omap_app. cbn [omap list_omap]. fold (omap (M:=list) f).
  rewrite omap_app. destruct (f g); simpl; solve_Permutation.
Qed.

Lemma step_exclusive rely c c' :
  step eth rely c c' -> exclusive c.1 c.2 -> exclusive c'.1 c'.2.
Proof.
  unfold exclusive. intros [to m a gs s|l1 g l2 g' new s s' E|gs s w _]; simpl; [|intros [Hd Hk]|done].
  - unfold holders. by rewrite omap_app, app_nil_r.
  - pose proof (omap_middle holder l1 g l2 []) as Hp. rewrite !app_nil_r in Hp.
    pose proof (omap_middle holder l1 g' l2 new) as Hp'.
    fold (hold g) in Hp. fold (hold g') in Hp'. fold (holders new) in Hp'. unfold holders in *.
    rewrite Hp in Hd. setoid_rewrite Hp in Hk. rewrite Hp'. setoid_rewrite Hp'. clear Hp Hp'.
    apply gstep_channel in E.
    destruct E as [Ht Hh|k Hf Ht Hg Hg' Hn|k Hf Ht Hg Hg' Hn]; unfold holders in *.
    + by rewrite Ht, Hh.
    + rewrite Ht, Hg', Hn. rewrite Hg in Hd, Hk. simpl in *. split.
      * constructor; [|done]. rewrite Hk, Hf. congruence.
      * intros j. rewrite elem_of_cons, Hk. destruct (decide (j = k)) as [->|Hj].
        -- rewrite list_lookup_insert_eq by (by apply lookup_lt_Some in Hf). naive_solver.
        -- rewrite list_lookup_insert_ne by done. naive_solver.
    + rewrite Ht, Hg', Hn. rewrite Hg in Hd, Hk. simpl in *.
      apply NoDup_cons in Hd as [Hnk Hd]. split; [done|].
      intros j. destruct (decide (j = k)) as [->|Hj].
      * rewrite list_lookup_insert_eq by (by apply lookup_lt_Some in Hf). naive_solver.
      * rewrite list_lookup_insert_ne by done. rewrite <- Hk, elem_of_cons. naive_solver.
Qed.

(* a request signs and sends what it was asked for *)
Definition as_asked (g : Goroutine) : Prop :=
  match g with
  | Request to value (Send _ tx | Finished (Some tx)) => payment to value tx
  | _ => True
  end.
(* every accepted transaction is the one its request asked for *)
Definition paid (gs : list Goroutine) (s : Faucet W) : Prop :=
  f_sent s ≡ₚ done_txs gs /\
  Forall as_asked gs.

Lemma node_sent {A} (m : M W A) : keeps f_sent (node m).
Proof. apply node_keeps. Qed.
Lemma gstep_paid g s g' new s' :
  gstep eth g s = Some (g', new, s') ->
  as_asked g ->
  exists txs, f_sent s' = f_sent s ++ txs /\ option_list (finished g') = option_list (finished g) ++ txs /\
    done_txs new = [] /\
    Forall as_asked (g' :: new).
Proof.
  intros E Hg.
  assert (Hsame : forall A B (m : M (Faucet W) A) (k : gerror + A -> B) b,
            keeps f_sent m -> call m s k = Some (b, s') ->
            f_sent s' = f_sent s ++ [] /\ exists r, b = k r)
    by (intros; rewrite app_nil_r; by eapply call_keeps).
  assert (Hrecv : forall k, receive k s = Some s' -> f_sent s' = f_sent s ++ []).
  { intros k. unfold receive. destruct (f_taken s !! k) as [[]|]; try done.
    intros [= <-]. by rewrite app_nil_r. }
  assert (Hnil : f_sent s = f_sent s ++ []) by (by rewrite app_nil_r).
  destruct g as [to value p|k tx p]; simpl in E.
  - destruct (request_step _ _ _ _ _) as [[p' s1]|] eqn:Er; [|done]. injection E as <- <- <-.
    destruct p; simpl in Er.
    + apply Hsame in Er as (Ht & r & ->); [|apply node_sent]. exists []. rewrite Ht.
      destruct r; [|destruct (_ <? _)%Z]; repeat constructor.
    + destruct (_ !! k); [|injection Er as <- <-; exists []; repeat constructor; done].
      apply Hsame in Er as (Ht & r & ->); [|apply try_take_keeps]. exists []. rewrite Ht.
      destruct r as [|[]]; repeat constructor.
    + apply Hsame in Er as (Ht & r & ->); [|apply checkEnoughBalance_keeps]. exists []. rewrite Ht.
      destruct r as [|[]]; repeat constructor.
    + apply Hsame in Er as (Ht & r & ->); [|apply gas_price_keeps]. exists []. rewrite Ht.
      destruct r; repeat constructor.
    + apply Hsame in Er as (Ht & r & ->); [|apply node_sent]. exists []. rewrite Ht.
      destruct r; repeat constructor.
    + apply Hsame in Er as (Ht & r & ->); [|apply node_sent]. exists []. rewrite Ht.
      destruct r; [repeat constructor|]. destruct (node_SignTx _) eqn:Es; repeat constructor.
      by eexists.
    + apply call_inv in Er as (-> & r & -> & Hr).
      unfold bindM in *. pose proof (node_sent (node_SendTransaction signedTx) s) as Hn.
      destruct (node _ s) as [[u|e|pp] s2] eqn:En; simpl in *.
      * destruct r; [done|]. exists [signedTx]. rewrite Hn. by repeat constructor.
      * destruct r; [|done]. exists []. rewrite Hn. repeat constructor; done.
      * by destruct r.
    + destruct (receive k s) as [s2|] eqn:Ek; [|done]. injection Er as <- <-.
      exists []. rewrite (Hrecv k) by done. by repeat constructor.
    + injection Er as <- <-. exists []. by repeat constructor.
    + done.
  - destruct (waiter_step k tx p s) as [[p' s1]|] eqn:Er; [|done]. injection E as <- <- <-.
    exists []. split; [|by repeat constructor]. destruct p; simpl in Er.
    + apply Hsame in Er as (Ht & _); [done|apply node_sent].
    + by injection Er as _ <-.
    + destruct (receive k s) as [s2|] eqn:Ek; [|done]. injection Er as _ <-. by apply (Hrecv k).
    + done.
Qed.

Lemma step_paid rely c c' : step eth rely c c' -> paid c.1 c.2 -> paid c'.1 c'.2.
Proof.
  unfold paid. intros [to m a gs s|l1 g l2 g' new s s' E|gs s w _]; simpl; [| |done].
  - intros [Hp Hf]. unfold done_txs. rewrite omap_app, app_nil_r. split; [done|].
    apply Forall_app. split; [done|]. by repeat constructor.
  - intros [Hp Hf]. apply Forall_app in Hf as [H1 Hf]. apply Forall_cons in Hf as [Hg H2].
    apply gstep_paid in E as (txs & Hs & Hfin & Hn & Hnew); [|exact Hg].
    apply Forall_cons in Hnew as [Hg' Hnew]. split.
    + rewrite Hs, Hp. unfold done_txs in *.
      pose proof (omap_middle finished l1 g l2 []) as Hq. rewrite !app_nil_r in Hq.
      rewrite Hq, omap_middle, Hfin, Hn. solve_Permutation.
    + by rewrite Forall_app, Forall_cons, Forall_app.
Qed.
End effects.

(** ** Nonces *)

(* What is assumed of the node: [next w a] is the nonce account [a] would be
   given now. No call lowers it, and an accepted transaction is below it. This
   idealises a node of go-ethereum, whose pending nonce can fall when it drops
   transactions and stays below a transaction with a gap before it. *)
Record nonce_laws {W} {N : Node W} (next : W -> bytes -> Z) : Prop := {
  nl_balance a w b : (next w b <= next (node_BalanceAt a w).2 b)%Z;
  nl_gas w b : (next w b <= next (node_SuggestGasPrice w).2 b)%Z;
  nl_network w b : (next w b <= next (node_NetworkID w).2 b)%Z;
  nl_receipt tx w b : (next w b <= next (node_Receipt tx w).2 b)%Z;
  nl_pending_up a w b : (next w b <= next (node_PendingNonceAt a w).2 b)%Z;
  nl_pending a w n w' : node_PendingNonceAt a w = (Ok n, w') -> (next w a <= n)%Z;
  nl_send_up tx w b : (next w b <= next (node_SendTransaction tx w).2 b)%Z;
  nl_send tx w u w' : node_SendTransaction tx w = (Ok u, w') ->
    (tx_nonce tx < next w' (tx_signer tx))%Z;
  nl_sign tx tx' : node_SignTx tx = inr tx' ->
    tx_nonce tx' = tx_nonce tx /\ tx_signer tx' = tx_signer tx;
}.

Section nonces.
Context {X : Ext} {W : Type} {N : Node W} (eth : Eth) (next : W -> bytes -> Z).
Context (Hl : nonce_laws next) (Hpool : NoDup (eth_SignersPool eth)).

Definition signer_of (k : nat) : bytes := eth_SignersPool eth !!! k.
(* above the nonces that account [a] has used *)
Definition unused (s : Faucet W) (a : bytes) (n : Z) : Prop :=
  Forall (fun tx => tx_signer tx = a -> (tx_nonce tx < n)%Z) (f_sent s).
Definition used_below (s : Faucet W) : Prop :=
  Forall (fun tx => (tx_nonce tx < next (f_node s) (tx_signer tx))%Z) (f_sent s).
Definition ready (s : Faucet W) (g : Goroutine) : Prop :=
  match g with
  | Request _ _ (Network k _ n) => unused s (signer_of k) n
  | Request _ _ (Send k tx) => tx_signer tx = signer_of k /\ unused s (signer_of k) (tx_nonce tx)
  | _ => True
  end.
Definition no_reuse (gs : list Goroutine) (s : Faucet W) : Prop :=
  length (f_taken s) = length (eth_SignersPool eth) /\ exclusive gs s /\ used_below s /\
  NoDup (map (fun tx => (tx_signer tx, tx_nonce tx)) (f_sent s)) /\ Forall (ready s) gs.

Definition rises {A} (m : M (Faucet W) A) : Prop :=
  forall s a, (next (f_node s) a <= next (f_node (m s).2) a)%Z.
Lemma rises_node {A} (m : M W A) : (forall w b, (next w b <= next (m w).2 b)%Z) -> rises (node m).
Proof. intros H s a. unfold node. specialize (H (f_node s) a). by destruct (m (f_node s)). Qed.
Lemma rises_ret {A} (a : A) : rises (retM a).
Proof. intros s b. simpl. lia. Qed.
Lemma rises_bind {A B} (m : M (Faucet W) A) (k : A -> M (Faucet W) B) :
  rises m -> (forall a, rises (k a)) -> rises (bindM m k).
Proof.
  intros Hm Hk s b. unfold bindM. specialize (Hm s b).
  destruct (m s) as [[a|e|p] s1]; simpl in *; [|done..]. specialize (Hk a s1 b). lia.
Qed.
Lemma rises_try {A} (m : M (Faucet W) A) : rises m -> rises (tryM m).
Proof. intros H s b. specialize (H s b). unfold tryM. by destruct (m s) as [[] ?]. Qed.
Lemma rises_onErr {A} (m : M (Faucet W) A) g : rises m -> rises (onErr m g).
Proof. intros H s b. specialize (H s b). unfold onErr. by destruct (m s) as [[] ?]. Qed.
Lemma rises_check a d : rises (checkEnoughBalance (W:=W) a d).
Proof.
  apply rises_bind; [apply rises_onErr, rises_node, (nl_balance _ Hl)|].
  intros b. destruct (_ <? _)%Z; [intros s c; simpl; lia|apply rises_ret].
Qed.
Lemma rises_gas n : rises (gas_price (W:=W) n).
Proof.
  unfold gas_price. destruct (bool_decide _); [apply rises_ret|].
  apply rises_bind; [apply rises_try, rises_node, (nl_gas _ Hl)|]. intros. apply rises_ret.
Qed.
Lemma call_rises {A B} (m : M (Faucet W) A) (k : gerror + A -> B) s b s' :
  rises m -> keeps f_sent m -> call m s k = Some (b, s') -> used_below s ->
  f_sent s' = f_sent s /\ used_below s' /\ exists r, b = k r.
Proof.
  intros Hm Hs (-> & r & -> & _)%call_inv Hb. split; [apply Hs|]. split; [|by eexists].
  unfold used_below. rewrite Hs. eapply Forall_impl; [exact Hb|]. intros tx Htx.
  pose proof (Hm s (tx_signer tx)). cbv beta in *. lia.
Qed.

(* what a step does: an unsent signed transaction is accepted, or nothing is
   sent and what the goroutine is ready for is unused *)
Lemma gstep_nonces g s g' new s' :
  gstep eth g s = Some (g', new, s') -> used_below s -> ready s g ->
  used_below s' /\ Forall (ready s') (g' :: new) /\
  (f_sent s' = f_sent s \/
   exists to value k tx, g = Request to value (Send k tx) /\ f_sent s' = f_sent s ++ [tx]).
Proof.
  intros E Hb Hg.
  assert (Hcall : forall A B (m : M (Faucet W) A) (k : gerror + A -> B) b,
            rises m -> keeps f_sent m -> call m s k = Some (b, s') ->
            f_sent s' = f_sent s /\ used_below s' /\ exists r, b = k r)
    by (intros; by eapply call_rises).
  assert (Hrecv : forall k, receive k s = Some s' -> used_below s' /\ f_sent s' = f_sent s).
  { intros k. unfold receive. destruct (f_taken s !! k) as [[]|]; try done. by intros [= <-]. }
  destruct g as [to value p|k tx p]; simpl in E.
  - destruct (request_step _ _ _ _ _) as [[p' s1]|] eqn:Er; [|done]. injection E as <- <- <-.
    destruct p; simpl in Er.
    + apply Hcall in Er as (Hs & ? & r & ->); [|apply rises_node, (nl_balance _ Hl)|apply node_sent].
      split_and!; [done| |by left]. destruct r; [|destruct (_ <? _)%Z]; by repeat constructor.
    + destruct (_ !! k); [|injection Er as <- <-; split_and!; [done|by repeat constructor|by left]].
      apply Hcall in Er as (Hs & ? & r & ->); [| |apply try_take_keeps].
      2: { intros s2 a. unfold try_take. destruct (_ !! _) as [[]|]; simpl; lia. }
      split_and!; [done| |by left]. destruct r as [|[]]; by repeat constructor.
    + apply Hcall in Er as (Hs & ? & r & ->); [|apply rises_check|apply checkEnoughBalance_keeps].
      split_and!; [done| |by left]. destruct r as [|[]]; by repeat constructor.
    + apply Hcall in Er as (Hs & ? & r & ->); [|apply rises_gas|apply gas_price_keeps].
      split_and!; [done| |by left]. destruct r; by repeat constructor.
    + pose proof (call_rises _ _ _ _ _ (rises_node _ (nl_pending_up _ Hl _)) (node_sent _) Er Hb)
        as (Hs & Hb' & _).
      split_and!; [done| |by left]. apply call_inv in Er as (-> & r & -> & Hr).
      destruct r as [e|n]; [by repeat constructor|]. constructor; [|by constructor].
      simpl. unfold unused. rewrite Hs. eapply Forall_impl; [exact Hb|]. intros tx Htx Ha.
      unfold node in Hr. destruct (node_PendingNonceAt _ _) as [o w'] eqn:En. simpl in Hr. subst o.
      apply (nl_pending _ Hl) in En. cbv beta in Htx. rewrite Ha in Htx. unfold signer_of in *. lia.
    + apply Hcall in Er as (Hs & ? & r & ->); [|apply rises_node, (nl_network _ Hl)|apply node_sent].
      split_and!; [done| |by left]. destruct r; [by repeat constructor|].
      destruct (node_SignTx _) as [|tx] eqn:Es; [by repeat constructor|].
      apply (nl_sign _ Hl) in Es as [Hn Ha]. simpl in Hn, Ha. constructor; [|by constructor].
      simpl in *. split; [done|]. unfold unused in *. by rewrite Hs, Hn.
    + apply call_inv in Er as (-> & r & -> & Hr). unfold bindM in *.
      pose proof (node_sent (node_SendTransaction signedTx) s) as Hs.
      pose proof (rises_node _ (nl_send_up _ Hl signedTx) s) as Hup.
      unfold node in *. destruct (node_SendTransaction signedTx (f_node s)) as [o w'] eqn:En.
      assert (Hb' : used_below (mkFaucet (f_taken s) (f_sent s) w')).
      { eapply Forall_impl; [exact Hb|]. intros tx Htx. specialize (Hup (tx_signer tx)).
        simpl in *. lia. }
      destruct o as [u|e|pp]; cbn [fst snd] in *; destruct r; try done.
      * split_and!; [|by repeat constructor|right; by eauto 10].
        unfold used_below in *. simpl. apply Forall_app. split; [exact Hb'|].
        constructor; [|by constructor]. by apply (nl_send _ Hl) in En.
      * split_and!; [done|by repeat constructor|by left].
    + destruct (receive k s) as [s2|] eqn:Ek; [|done]. injection Er as <- <-.
      destruct (Hrecv k) as [??]; [done|]. split_and!; [done|by repeat constructor|by left].
    + injection Er as <- <-. split_and!; [done|by repeat constructor|by left].
    + done.
  - destruct (waiter_step k tx p s) as [[p' s1]|] eqn:Er; [|done]. injection E as <- <- <-.
    assert (used_below s1 /\ f_sent s1 = f_sent s) as [? ?].
    { destruct p; simpl in Er.
      + apply Hcall in Er as (Ht & ? & _); [done|apply rises_node, (nl_receipt _ Hl)|apply node_sent].
      + by injection Er as _ <-.
      + destruct (receive k s) as [s2|] eqn:Ek; [|done]. injection Er as _ <-. by apply (Hrecv k).
      + done. }
    split_and!; [done|by repeat constructor|by left].
Qed.

Lemma gstep_length g s g' new s' :
  gstep eth g s = Some (g', new, s') -> length (f_taken s') = length (f_taken s).
Proof.
  intros E%gstep_channel. destruct E as [-> _|k _ -> _ _ _|k _ -> _ _ _]; by rewrite ?length_insert.
Qed.

(* two goroutines hold different signers, of different addresses *)
Lemma other_signer l1 g l2 (s : Faucet W) h k k2 :
  exclusive (l1 ++ g :: l2) s -> length (f_taken s) = length (eth_SignersPool eth) ->
  holder g = Some k -> h ∈ l1 ++ l2 -> holder h = Some k2 -> signer_of k <> signer_of k2.
Proof.
  intros [Hd Hk] Hlen Hg Hh Hk2 Heq.
  pose proof (omap_middle holder l1 g l2 []) as Hp. rewrite !app_nil_r in Hp.
  assert (Hin : k2 ∈ holders (l1 ++ l2)) by (apply list_elem_of_omap; eauto).
  assert (k <> k2).
  { intros ->. unfold holders in *. rewrite Hp, Hg in Hd. simpl in Hd.
    by apply NoDup_cons in Hd as [? _]. }
  assert (Hlt : forall j, j ∈ holders (l1 ++ g :: l2) -> j < length (eth_SignersPool eth)).
  { intros j Hj%Hk. apply lookup_lt_Some in Hj. lia. }
  assert (k < length (eth_SignersPool eth) /\ k2 < length (eth_SignersPool eth)) as [Hl1 Hl2].
  { split; apply Hlt; unfold holders in *; rewrite Hp, Hg; simpl; set_solver. }
  apply list_lookup_lookup_total_lt in Hl1, Hl2. unfold signer_of in Heq.
  rewrite Heq in Hl1. by pose proof (NoDup_lookup _ _ _ _ Hpool Hl1 Hl2).
Qed.

Lemma ready_same (s s' : Faucet W) g : f_sent s' = f_sent s -> ready s g -> ready s' g.
Proof. intros Hs. destruct g as [? ? []|]; try done; simpl; unfold unused; by rewrite Hs. Qed.
Lemma unused_snoc (s s' : Faucet W) tx a n :
  f_sent s' = f_sent s ++ [tx] -> tx_signer tx <> a -> unused s a n -> unused s' a n.
Proof.
  unfold unused. intros -> Hne Hu. apply Forall_app. split; [done|].
  constructor; [by intros ?|constructor].
Qed.
Lemma ready_other (s s' : Faucet W) tx g :
  f_sent s' = f_sent s ++ [tx] -> (forall k, holder g = Some k -> tx_signer tx <> signer_of k) ->
  ready s g -> ready s' g.
Proof.
  intros Hs Hk. destruct g as [to v []|]; try done; simpl; intros Hg.
  - eapply unused_snoc; [exact Hs|by apply Hk|done].
  - destruct Hg as [? Hg]. split; [done|]. eapply unused_snoc; [exact Hs|by apply Hk|done].
Qed.

Lemma step_no_reuse rely c c' :
  (forall w w' a, rely w w' -> (next w a <= next w' a)%Z) ->
  step eth rely c c' -> no_reuse c.1 c.2 -> no_reuse c'.1 c'.2.
Proof.
  intros Hrely Hstep (Hlen & Hex & Hb & Hnd & Hr).
  pose proof (step_exclusive eth _ _ _ Hstep Hex) as Hex'.
  destruct Hstep as [to m a gs s|l1 g l2 g' new s s' E|gs s w Hw]; simpl in *.
  - split_and!; try done. apply Forall_app. split; [done|]. by repeat constructor.
  - apply Forall_app in Hr as [R1 R2]. apply Forall_cons in R2 as [Rg R2].
    destruct (gstep_nonces _ _ _ _ _ E Hb Rg) as (Hb' & Rnew & Hs).
    apply Forall_cons in Rnew as [Rg' Rnew].
    split; [by rewrite (gstep_length _ _ _ _ _ E)|]. split; [done|]. split; [done|].
    destruct Hs as [Hs|(to & value & k & tx & -> & Hs)].
    + rewrite Hs. split; [done|]. rewrite Forall_app, Forall_cons, Forall_app.
      split_and!; try done; (eapply Forall_impl; [eassumption|]); intros h; by apply ready_same.
    + destruct Rg as [Ha Hu]. split.
      * rewrite Hs, map_app. apply NoDup_app. split; [done|]. split; [|apply NoDup_singleton].
        intros x Hx%list_elem_of_fmap ->%list_elem_of_singleton. destruct Hx as (tx' & Hx & Hin).
        unfold unused in Hu. rewrite Forall_forall in Hu. specialize (Hu tx' Hin).
        injection Hx as Hx1 Hx2. rewrite Hx1, Hx2, Ha in *. specialize (Hu eq_refl). lia.
      * rewrite Forall_app, Forall_cons, Forall_app.
        assert (Ho : forall h, h ∈ l1 ++ l2 -> ready s h -> ready s' h).
        { intros h Hh. apply (ready_other _ _ tx); [done|]. intros k2 Hk2. rewrite Ha.
          exact (other_signer _ _ _ _ h k k2 Hex Hlen eq_refl Hh Hk2). }
        rewrite Forall_forall in R1, R2.
        split_and!; try done; apply Forall_forall; intros h Hh;
          (apply Ho; [set_solver|by auto]).
  - split_and!; try done.
    eapply Forall_impl; [exact Hb|]. intros tx Htx. specialize (Hrely _ _ (tx_signer tx) Hw).
    simpl in *. lia.
Qed.
End nonces.

(** ** One request alone *)
Section alone.
Context {X : Ext} {W : Type} {N : Node W} (eth : Eth).

(* a request runs from [p] to [p'] and nothing else moves *)
Inductive alone (to : bytes) (value : Z) :
    Phase -> Faucet W -> Phase -> Faucet W -> list Goroutine -> Prop :=
| alone_here p s : alone to value p s p s []
| alone_step p s p1 s1 p2 s2 new :
    request_step eth to value p s = Some (p1, s1) -> alone to value p1 s1 p2 s2 new ->
    alone to value p s p2 s2 (spawned p p1 ++ new).

Lemma alone_quiet to value p s p1 s1 p2 s2 new :
  request_step eth to value p s = Some (p1, s1) -> spawned p p1 = [] ->
  alone to value p1 s1 p2 s2 new -> alone to value p s p2 s2 new.
Proof. intros E Hs H. pose proof (alone_step _ _ _ _ _ _ _ _ _ E H) as Ha. by rewrite Hs in Ha. Qed.

Lemma alone_free to value k s p2 s2 new :
  f_taken s !! k = Some true -> alone to value (Scan (S k)) (release k s).2 p2 s2 new ->
  alone to value (Free k) s p2 s2 new.
Proof. intros Hk. apply alone_quiet; [|done]. simpl. unfold receive. by rewrite Hk. Qed.

Lemma sendTokens_taken signer to value : keeps f_taken (sendTokens eth signer to value).
Proof.
  pose proof @node_taken. pose proof gas_price_taken.
  assert (forall tx, keeps f_taken (record_sent (W:=W) tx)) by done. unfold sendTokens. go_keeps.
Qed.

(* sendTokens: its calls one by one *)
Lemma sendTokens_alone to value k s tx s' :
  sendTokens eth (eth_SignersPool eth !!! k) to value s = (Ok tx, s') ->
  alone to value (Price k) s (Finished (Some tx)) s' [Waiter k tx Polling].
Proof.
  intros H. apply bind_ok in H as (p & s1 & E1 & H).
  apply bind_ok in H as (n & s2 & E2%onErr_ok & H). apply bind_ok in H as (i & s3 & E3%onErr_ok & H).
  apply bind_ok in H as (tx1 & s4 & E4%onErr_ok & H).
  apply bind_ok in H as (u & s5 & E5%onErr_ok & H). apply bind_ok in H as ([] & s6 & E6 & H).
  injection H as -> ->.
  apply (alone_quiet _ _ _ _ (Nonce k p) s1); [by simpl; unfold call; rewrite E1|done|].
  apply (alone_quiet _ _ _ _ (Network k p n) s2); [by simpl; unfold call; rewrite E2|done|].
  destruct (node_SignTx _) as [|tx2] eqn:Es; [discriminate|]. simpl in E4. injection E4 as -> ->.
  apply (alone_quiet _ _ _ _ (Send k tx) s4); [by simpl; unfold call; rewrite E3, Es|done|].
  rewrite <- (app_nil_r [Waiter k tx Polling]).
  apply (alone_step _ _ (Send k tx) s4 (Finished (Some tx)) s'); [|constructor].
  simpl. unfold call, bindM. by rewrite E5, E6.
Qed.
Lemma gas_price_no_error n (s s' : Faucet W) e : gas_price n s <> (Err e, s').
Proof.
  unfold gas_price. destruct (bool_decide _); [done|]. unfold bindM, tryM, retM.
  by destruct (node _ s) as [[]].
Qed.
Lemma bind_err {S A B} (m : M S A) (k : A -> M S B) s e s' :
  bindM m k s = (Err e, s') ->
  m s = (Err e, s') \/ exists a s1, m s = (Ok a, s1) /\ k a s1 = (Err e, s').
Proof. unfold bindM. destruct (m s) as [[a|e1|p] s1]; [eauto|intros [= -> ->]; auto|done]. Qed.
Lemma onErr_err {S A} (m : M S A) f s e s' :
  onErr m f s = (Err e, s') -> exists e1, m s = (Err e1, s').
Proof. unfold onErr. destruct (m s) as [[a|e1|p] s1]; [done|intros [= <- ->]; eauto|done]. Qed.

Lemma sendTokens_fails_alone to value k s err s' :
  sendTokens eth (eth_SignersPool eth !!! k) to value s = (Err err, s') ->
  alone to value (Price k) s (Free k) s' [].
Proof.
  intros H. apply bind_err in H as [H|(p & s1 & E1 & H)]; [by apply gas_price_no_error in H|].
  apply (alone_quiet _ _ _ _ (Nonce k p) s1); [by simpl; unfold call; rewrite E1|done|].
  apply bind_err in H as [[e H]%onErr_err|(n & s2 & E2%onErr_ok & H)].
  { eapply alone_quiet; [by simpl; unfold call; rewrite H|done|constructor]. }
  apply (alone_quiet _ _ _ _ (Network k p n) s2); [by simpl; unfold call; rewrite E2|done|].
  apply bind_err in H as [[e H]%onErr_err|(i & s3 & E3%onErr_ok & H)].
  { eapply alone_quiet; [by simpl; unfold call; rewrite H|done|constructor]. }
  cbv zeta in H. destruct (node_SignTx _) as [e|tx] eqn:Es.
  { apply (alone_quiet _ _ _ _ (Free k) s3); [by simpl; unfold call; rewrite E3, Es|done|].
    cbn [liftE] in H. injection H as _ ->. constructor. }
  apply (alone_quiet _ _ _ _ (Send k tx) s3); [by simpl; unfold call; rewrite E3, Es|done|].
  apply bind_err in H as [[e H]%onErr_err|(tx1 & s4 & E4%onErr_ok & H)]; [done|].
  simpl in E4. injection E4 as -> ->.
  apply bind_err in H as [[e H]%onErr_err|(u & s5 & E5%onErr_ok & H)]; [|done].
  eapply alone_quiet; [by simpl; unfold call, bindM; rewrite H|done|constructor].
Qed.

Lemma alone_trans to value p1 s1 p2 s2 n1 p3 s3 n2 :
  alone to value p1 s1 p2 s2 n1 -> alone to value p2 s2 p3 s3 n2 ->
  alone to value p1 s1 p3 s3 (n1 ++ n2).
Proof.
  induction 1 as [|p s p0 s0 p2 s2 new E _ IH]; [done|]. intros H. rewrite <- app_assoc.
  econstructor; [exact E|auto].
Qed.

(* [try_signer] is one turn of a request that runs alone *)
Lemma try_signer_alone to value k a s b s' :
  eth_SignersPool eth !! k = Some a -> try_signer eth to value k a s = (Ok b, s') ->
  if b then exists tx, alone to value (Scan k) s (Finished (Some tx)) s' [Waiter k tx Polling]
  else alone to value (Scan k) s (Scan (S k)) s' [].
Proof.
  intros Ha H. assert (a = eth_SignersPool eth !!! k) as -> by (symmetry; by apply list_lookup_total_correct).
  apply bind_ok in H as (taken & s1 & E1 & H).
  assert (Hscan : request_step eth to value (Scan k) s = Some (if taken then Check k else Scan (S k), s1)).
  { simpl. rewrite Ha. unfold call. rewrite E1. by destruct taken. }
  destruct taken; cbn [negb] in H.
  2: { injection H as <- <-. eapply alone_quiet; [exact Hscan|done|constructor]. }
  assert (Hk : f_taken s1 !! k = Some true).
  { unfold try_take in E1. destruct (f_taken s !! k) as [[]|] eqn:Ek; try done. injection E1 as <-.
    apply list_lookup_insert_eq. by apply lookup_lt_Some in Ek. }
  apply bind_ok in H as (enough & s2 & E2 & H).
  pose proof (checkEnoughBalance_taken (eth_SignersPool eth !!! k) (eth_DefaultFaucetAmount eth) s1) as T2.
  unfold tryM in E2. destruct (checkEnoughBalance _ _ s1) as [[en|e|p] s2'] eqn:Ec; simpl in T2;
    [| |discriminate].
  - injection E2 as <- <-. destruct en.
    + apply bind_ok in H as (r & s3 & E3 & H). unfold tryM in E3.
      destruct (sendTokens _ _ _ _ s2') as [[tx|e|p] s3'] eqn:Es; [| |discriminate];
        injection E3 as <- <-.
      * injection H as <- <-. exists tx. eapply alone_quiet; [exact Hscan|done|].
        apply (alone_quiet _ _ _ _ (Price k) s2'); [by simpl; unfold call; rewrite Ec|done|].
        by apply sendTokens_alone.
      * injection H as <- <-. eapply alone_quiet; [exact Hscan|done|].
        apply (alone_quiet _ _ _ _ (Price k) s2'); [by simpl; unfold call; rewrite Ec|done|].
        rewrite <- (app_nil_l []). eapply alone_trans; [by eapply sendTokens_fails_alone|].
        apply alone_free; [|constructor].
        pose proof (sendTokens_taken (eth_SignersPool eth !!! k) to value s2') as T3.
        rewrite Es in T3. simpl in T3. congruence.
    + injection H as <- <-. eapply alone_quiet; [exact Hscan|done|].
      eapply alone_quiet; [by simpl; unfold call; rewrite Ec|done|].
      apply alone_free; [congruence|constructor].
  - injection E2 as <- <-. injection H as <- <-. eapply alone_quiet; [exact Hscan|done|].
    eapply alone_quiet; [by simpl; unfold call; rewrite Ec|done|].
    apply alone_free; [congruence|constructor].
Qed.
End alone.

(** ** Properties *)
Section properties.
Context {X : Ext} {W : Type} {N : Node W} (eth : Eth).

(* no call of the node panics *)
Record total_node : Prop := {
  tn_balance a : nopanic (node_BalanceAt a);
  tn_gas : nopanic node_SuggestGasPrice;
  tn_pending a : nopanic (node_PendingNonceAt a);
  tn_network : nopanic node_NetworkID;
  tn_send tx : nopanic (node_SendTransaction tx);
  tn_receipt tx : nopanic (node_Receipt tx);
}.

Lemma node_nopanic {A} (m : M W A) : nopanic m -> nopanic (node m).
Proof.
  intros H s p. unfold node. specialize (H (f_node s)).
  destruct (m (f_node s)) as [[a|e|q] w]; [done..|]. apply H.
Qed.
Lemma call_some {A B} (m : M (Faucet W) A) (k : gerror + A -> B) s :
  nopanic m -> is_Some (call m s k).
Proof.
  intros H. specialize (H s). unfold call. destruct (m s) as [[a|e|p] s']; [done..|]. by destruct (H p).
Qed.

Lemma gstep_progress g s :
  total_node -> ended g = false -> (forall k, holder g = Some k -> f_taken s !! k = Some true) ->
  is_Some (gstep eth g s).
Proof.
  intros Hn He Hk.
  assert (Hrecv : forall k, f_taken s !! k = Some true -> exists s', receive k s = Some s').
  { intros k E. unfold receive. rewrite E. by eexists. }
  pose proof (fun A B m k => @call_some A B m k s) as Hcall.
  destruct g as [to value p|k tx p]; simpl.
  - assert (is_Some (request_step eth to value p s)) as [[p' s'] ->]; [|by eexists].
    destruct p; simpl in *; try done.
    + apply Hcall, node_nopanic, tn_balance, Hn.
    + destruct (_ !! k); [|by eexists]. apply Hcall. intros s2 p. unfold try_take.
      by destruct (_ !! k) as [[]|].
    + apply Hcall. unfold checkEnoughBalance. pose proof (node_nopanic _ (tn_balance Hn (eth_SignersPool eth !!! k))).
      go_nopanic.
    + apply Hcall. unfold gas_price. pose proof (node_nopanic _ (tn_gas Hn)). go_nopanic.
    + apply Hcall, node_nopanic, tn_pending, Hn.
    + apply Hcall, node_nopanic, tn_network, Hn.
    + apply Hcall, nopanic_bind; [apply node_nopanic, tn_send, Hn|done].
    + destruct (Hrecv k) as [s' ->]; [by apply Hk|by eexists].
  - assert (is_Some (waiter_step k tx p s)) as [[p' s'] ->]; [|by eexists].
    destruct p; simpl in *; try done.
    + apply Hcall, node_nopanic, tn_receipt, Hn.
    + destruct (Hrecv k) as [s' ->]; [by apply Hk|by eexists].
Qed.

Lemma holders_nil_idle (w : W) : exclusive [] (idle eth w).2 /\ paid [] (idle eth w).2.
Proof.
  split; [|by split]. split; [constructor|]. intros k. simpl. rewrite lookup_replicate.
  split; [by intros ?%elem_of_nil|]. naive_solver.
Qed.

(** C11: However the scheduler interleaves the requests for tokens, the
    goroutines that wait for their transactions and the network: a signer's
    channel is full exactly while one goroutine works with that signer, and
    never two do; the transactions the node accepted are those of the
    requests that have finished, one each, which pays the address and the
    value that request asked for; and no goroutine ever blocks on a channel:
    each that has not returned can take its next step. *)
Theorem signers_exclusive (rely : W -> W -> Prop) (w : W) (gs : list Goroutine) (s : Faucet W) :
  faucet_reaches eth rely w (gs, s) ->
  NoDup (holders gs) /\ (forall k, k ∈ holders gs <-> f_taken s !! k = Some true) /\
  f_sent s ≡ₚ done_txs gs /\ Forall as_asked gs /\
  (total_node -> forall g, g ∈ gs -> ended g = false -> is_Some (gstep eth g s)).
Proof.
  intros Hr. assert (exclusive gs s /\ paid gs s) as [[Hd Hk] [Hs Hf]].
  { pose proof (holders_nil_idle w) as [H1 H2].
    pose proof (fun c c' Hst => step_exclusive eth rely c c' Hst) as S1.
    pose proof (fun c c' Hst => step_paid eth rely c c' Hst) as S2.
    revert H1 H2. change gs with (gs, s).1. change s with (gs, s).2 at 2 4.
    change [] with (idle eth w).1. induction Hr as [|c1 c2 c3 Hst _ IH]; [done|]. eauto. }
  split_and!; try done. intros Hn g Hg He. apply gstep_progress; [done..|].
  intros k Hh. apply Hk, list_elem_of_omap. eauto.
Qed.

(** C12: No nonce is used twice: when the keys of the pool are distinct and the
    node numbers the transactions of an account upwards, any two accepted
    transactions differ in their signer or in their nonce, although each
    request reads the nonce and sends the transaction in separate calls. *)
Theorem nonces_never_repeat (next : W -> bytes -> Z) (rely : W -> W -> Prop) (w : W)
    (gs : list Goroutine) (s : Faucet W) :
  nonce_laws next -> (forall w1 w2 a, rely w1 w2 -> (next w1 a <= next w2 a)%Z) ->
  NoDup (eth_SignersPool eth) -> faucet_reaches eth rely w (gs, s) ->
  NoDup (map (fun tx => (tx_signer tx, tx_nonce tx)) (f_sent s)).
Proof.
  intros Hl Hrely Hpool Hr. assert (no_reuse eth next gs s) as (_ & _ & _ & H & _); [|exact H].
  assert (Hi : no_reuse eth next [] (idle eth w).2).
  { split; [apply length_replicate|]. split; [apply holders_nil_idle|]. by repeat constructor. }
  pose proof (fun c c' => step_no_reuse eth next Hl Hpool rely c c' Hrely) as Hstep.
  revert Hi. change gs with (gs, s).1. change s with (gs, s).2 at 2.
  change [] with (idle eth w).1. induction Hr as [|c1 c2 c3 Hst _ IH]; [done|]. eauto.
Qed.
End properties.

(** ** Witnesses *)

(* a schedule: [inl] a new request, [inr i] the next step of the i-th goroutine *)
Section schedule.
Context {X : Ext} {W : Type} {N : Node W} (eth : Eth).

Fixpoint run_schedule (l : list (bytes * Z + nat)) (c : list Goroutine * Faucet W) :
    list Goroutine * Faucet W :=
  match l with
  | [] => c
  | inl (to, amount) :: l => run_schedule l (c.1 ++ [request_of eth to 0 amount], c.2)
  | inr i :: l =>
      match drop i c.1 with
      | g :: gs =>
          match gstep eth g c.2 with
          | Some (g', new, s') => run_schedule l (take i c.1 ++ g' :: gs ++ new, s')
          | None => run_schedule l c
          end
      | [] => run_schedule l c
      end
  end.

Lemma run_schedule_reaches rely l c : rtc (step eth rely) c (run_schedule l c).
Proof.
  revert c. induction l as [|[[to amount]|i] l IH]; intros [gs s]; simpl; [constructor| |].
  - eapply rtc_l; [apply (step_request eth rely to 0 amount)|apply IH].
  - destruct (drop i gs) as [|g gs'] eqn:Ed; [apply IH|].
    destruct (gstep eth g s) as [[[g' new] s']|] eqn:Eg; [|apply IH].
    eapply rtc_l; [|apply IH]. rewrite <- (take_drop i gs) at 1. rewrite Ed. by constructor.
Qed.
End schedule.

(* a node that numbers the transactions of each account from 0 *)
#[local] Instance numbering_node : Node (bytes -> Z) := {|
  node_BalanceAt := fun a => retM (if bool_decide (a = "new") then 0 else 1000)%Z;
  node_SuggestGasPrice := retM 1%Z;
  node_PendingNonceAt := fun a w => (Ok (w a), w);
  node_NetworkID := retM 5%Z;
  node_SignTx := fun tx => inr tx;
  node_SendTransaction := fun tx w =>
    if (tx_nonce tx =? w (tx_signer tx))%Z
    then (Ok tt, <[tx_signer tx := (tx_nonce tx + 1)%Z]> w)
    else (Err (Errorf "nonce too low"), w);
  node_Receipt := fun _ => retM (Some 1%Z);
  node_Sleep := fun t => retM t;
|}.

Lemma numbering_laws : nonce_laws (fun (w : bytes -> Z) a => w a).
Proof.
  split; intros; try (simpl; lia).
  - injection H as <- <-. lia.
  - simpl. destruct (Z.eqb_spec (tx_nonce tx) (w (tx_signer tx))); simpl; [|lia].
    destruct (decide (b = tx_signer tx)) as [->|]; [rewrite fn_lookup_insert; lia|].
    rewrite fn_lookup_insert_ne by done. lia.
  - simpl in H. destruct (_ =? _)%Z; [|done]. injection H as _ <-.
    rewrite fn_lookup_insert. lia.
  - by injection H as <-.
Qed.
Lemma numbering_total : total_node (W:=bytes -> Z).
Proof.
  split; intros; try apply nopanic_ret; [done|]. intros w p. simpl. by destruct (_ =? _)%Z.
Qed.

(* two requests interleave on two signers; a third waits for the first's *)
Definition demo_schedule : list (bytes * Z + nat) :=
  [inl ("new", 0%Z); inl ("new", 7%Z)] ++ map inr [0; 1; 0; 1; 1; 0; 1; 0; 1; 0; 1; 0; 1; 0; 1; 1] ++
  [inl ("new", 9%Z)] ++ map inr (repeat 4 4 ++ repeat 2 2 ++ repeat 4 9).
Definition demo_run : list Goroutine * Faucet (bytes -> Z) :=
  let eth := demo_eth ["s1"; "s2"] in
  run_schedule eth demo_schedule (idle eth (fun _ => 0%Z)).

Lemma demo_run_reaches :
  faucet_reaches (demo_eth ["s1"; "s2"]) eq (fun _ => 0%Z) (demo_run.1, demo_run.2).
Proof. rewrite <- surjective_pairing. unfold demo_run. apply run_schedule_reaches. Qed.

Lemma signers_exclusive_witness :
  let eth := demo_eth ["s1"; "s2"] in
  NoDup (holders demo_run.1) /\ f_taken demo_run.2 !! 1 = Some true /\ 1 ∈ holders demo_run.1 /\
  is_Some (gstep eth (Waiter 1 (mkTx 0 "new" 7 21000 (Some 1%Z) 5 "s2") Polling) demo_run.2).
Proof.
  intros eth. destruct (signers_exclusive eth eq (fun _ => 0%Z) demo_run.1 demo_run.2
                          demo_run_reaches) as (H1 & H2 & _ & _ & H3).
  assert (Ht : f_taken demo_run.2 !! 1 = Some true) by (vm_compute; reflexivity).
  split; [exact H1|]. split; [exact Ht|]. split; [apply H2; exact Ht|].
  refine (H3 numbering_total _ _ _); [|reflexivity]. apply list_elem_of_lookup. exists 3.
  vm_compute. reflexivity.
Defined.

Lemma nonces_never_repeat_witness :
  NoDup (map (fun tx => (tx_signer tx, tx_nonce tx)) (f_sent demo_run.2)) /\
  map (fun tx => (tx_signer tx, tx_nonce tx)) (f_sent demo_run.2)
    = [("s1", 0%Z); ("s2", 0%Z); ("s1", 1%Z)].
Proof.
  split; [|vm_compute; reflexivity].
  refine (nonces_never_repeat (demo_eth ["s1"; "s2"]) (fun (w : bytes -> Z) a => w a) eq
            (fun _ => 0%Z) demo_run.1 demo_run.2 numbering_laws _ _ demo_run_reaches).
  - intros w1 w2 a ->. reflexivity.
  - apply (bool_decide_unpack _). vm_compute. exact I.
Defined.
