(* ===== verification/Configuration.v ===== *)
(** * Configuration (config/common.go, config/manager.go, newConfig of
    cmd/dvotemanager/dvotemanager.go)

    The structures of the configuration, the flags with their defaults, the
    keys they are bound to, and where each field gets its value. viper is a
    library: it is the class [Viper], and what the code relies on is the class
    [ViperLaws], its documented order of precedence (explicit values, flags,
    the environment, the file, the defaults of the flags). *)
From S2P Require Import Prelude GoLib Html Smtp EthClient.

(** ** The structures *)

Record DBConfig := mkDBConfig {
  dc_Host : string;
  dc_Port : Z;
  dc_User : string;
  dc_Password : string;
  dc_Dbname : string;
  dc_Sslmode : string;
}.
Record APIConfig := mkAPIConfig {
  ac_Route : string;
  ac_ListenPort : Z;
  ac_ListenHost : string;
  ac_Ssl_Domain : string;
  ac_Ssl_DirCert : string;
}.
Record MetricsCfg := mkMetricsCfg { mt_Enabled : bool; mt_RefreshInterval : Z }.

(* config.Manager; its pointers are set by NewManagerConfig *)
Record Config := mkConfig {
  cf_API : APIConfig;
  cf_DB : DBConfig;
  cf_SMTP : SMTPConfig;
  cf_LogLevel : string;
  cf_LogOutput : string;
  cf_LogErrorFile : string;
  cf_Metrics : MetricsCfg;
  cf_Mode : string;
  cf_DataDir : string;
  cf_SaveConfig : bool;
  cf_SigningKeys : list string;
  cf_Migrate_Action : string;
  cf_EthNetwork : EthNetwork;
}.

Definition NewManagerConfig : Config :=
  mkConfig (mkAPIConfig "" 0 "" "" "") (mkDBConfig "" 0 "" "" "" "")
    (mkSMTPConfig "" 0 "" "" 0 0 "" "" "" "" "") "" "" "" (mkMetricsCfg false 0) "" "" false [] ""
    (mkEthNetwork "" "" 0 0 0).

(* Modes: a map to true *)
Definition Modes : list string := ["registry"; "manager"; "token"; "notifications"; "all"].
Definition ValidMode (m : Config) : bool := bool_decide (cf_Mode m ∈ Modes).

(** ** Fields by name *)

Inductive Value :=
| VString (s : string) | VInt (n : Z) | VBool (b : bool) | VStrings (l : list string).
Inductive Kind := KString | KInt | KBool | KStrings.
#[export] Instance Value_eq_dec : EqDecision Value. Proof. solve_decision. Defined.
#[export] Instance Kind_eq_dec : EqDecision Kind. Proof. solve_decision. Defined.
Definition kind_of (v : Value) : Kind :=
  match v with VString _ => KString | VInt _ => KInt | VBool _ => KBool | VStrings _ => KStrings end.

(* the fields of config.Manager by their path, durations as integers; the kind
   of a field is that of its value *)
Definition fields : list (string * (Config -> Value)) :=
  [("API.Route", fun c => VString (ac_Route (cf_API c)));
   ("API.ListenPort", fun c => VInt (ac_ListenPort (cf_API c)));
   ("API.ListenHost", fun c => VString (ac_ListenHost (cf_API c)));
   ("API.Ssl.Domain", fun c => VString (ac_Ssl_Domain (cf_API c)));
   ("API.Ssl.DirCert", fun c => VString (ac_Ssl_DirCert (cf_API c)));
   ("DB.Host", fun c => VString (dc_Host (cf_DB c)));
   ("DB.Port", fun c => VInt (dc_Port (cf_DB c)));
   ("DB.User", fun c => VString (dc_User (cf_DB c)));
   ("DB.Password", fun c => VString (dc_Password (cf_DB c)));
   ("DB.Dbname", fun c => VString (dc_Dbname (cf_DB c)));
   ("DB.Sslmode", fun c => VString (dc_Sslmode (cf_DB c)));
   ("SMTP.Host", fun c => VString (sc_Host (cf_SMTP c)));
   ("SMTP.Port", fun c => VInt (sc_Port (cf_SMTP c)));
   ("SMTP.User", fun c => VString (sc_User (cf_SMTP c)));
   ("SMTP.Password", fun c => VString (sc_Password (cf_SMTP c)));
   ("SMTP.PoolSize", fun c => VInt (sc_PoolSize (cf_SMTP c)));
   ("SMTP.Timeout", fun c => VInt (sc_Timeout (cf_SMTP c)));
   ("SMTP.ValidationURL", fun c => VString (sc_ValidationURL (cf_SMTP c)));
   ("SMTP.Sender", fun c => VString (sc_Sender (cf_SMTP c)));
   ("SMTP.SenderName", fun c => VString (sc_SenderName (cf_SMTP c)));
   ("SMTP.Contact", fun c => VString (sc_Contact (cf_SMTP c)));
   ("SMTP.WebpollURL", fun c => VString (sc_WebpollURL (cf_SMTP c)));
   ("LogLevel", fun c => VString (cf_LogLevel c));
   ("LogOutput", fun c => VString (cf_LogOutput c));
   ("LogErrorFile", fun c => VString (cf_LogErrorFile c));
   ("Metrics.Enabled", fun c => VBool (mt_Enabled (cf_Metrics c)));
   ("Metrics.RefreshInterval", fun c => VInt (mt_RefreshInterval (cf_Metrics c)));
   ("Mode", fun c => VString (cf_Mode c));
   ("DataDir", fun c => VString (cf_DataDir c));
   ("SaveConfig", fun c => VBool (cf_SaveConfig c));
   ("SigningKeys", fun c => VStrings (cf_SigningKeys c));
   ("Migrate.Action", fun c => VString (cf_Migrate_Action c));
   ("EthNetwork.Name", fun c => VString (en_Name (cf_EthNetwork c)));
   ("EthNetwork.Provider", fun c => VString (en_Provider (cf_EthNetwork c)));
   ("EthNetwork.GasLimit", fun c => VInt (en_GasLimit (cf_EthNetwork c)));
   ("EthNetwork.FaucetAmount", fun c => VInt (en_FaucetAmount (cf_EthNetwork c)));
   ("EthNetwork.Timeout", fun c => VInt (en_Timeout (cf_EthNetwork c)))].

(** ** The flags *)

Definition flags (home : string) : list (string * Value) :=
  [("dataDir", VString (home +:+ "/.dvotemanager")); ("mode", VString "all");
   ("logLevel", VString "info"); ("logOutput", VString "stdout"); ("logErrorFile", VString "");
   ("saveConfig", VBool false); ("signingKeys", VStrings []);
   ("apiRoute", VString "/api"); ("listenHost", VString "0.0.0.0"); ("listenPort", VInt 8000);
   ("sslDomain", VString ""); ("dbHost", VString "127.0.0.1"); ("dbPort", VInt 5432);
   ("dbUser", VString "user"); ("dbPassword", VString "password"); ("dbName", VString "database");
   ("dbSslmode", VString "prefer"); ("migrateAction", VString "");
   ("smtpHost", VString "127.0.0.1"); ("smtpPort", VInt 587); ("smtpUser", VString "user");
   ("smtpPassword", VString "password"); ("smtpPoolSize", VInt 4); ("smtpTimeout", VInt 30);
   ("smtpValidationURL", VString "https://vocdoni.link/validation");
   ("smtpWebpollURL", VString "https://manager.vocdoni.net/processes/vote/#");
   ("smtpSender", VString "validation@bender.vocdoni.io"); ("smtpSenderName", VString "Vocdoni");
   ("smtpContact", VString "contact@vocdoni.io"); ("ethNetworkName", VString "goerli");
   ("ethNetworkProvider", VString ""); ("ethNetworkGasLimit", VInt 0);
   ("ethNetworkFaucetAmount", VInt 0); ("ethNetworkTimeout", VInt (60 * Second));
   ("metricsEnabled", VBool true); ("metricsRefreshInterval", VInt 10)].

(* cfg.X = *flag.String("x", ...): the field has the default, the pointer is
   read before flag.Parse *)
Definition assigned : list (string * string) :=
  [("Mode", "mode"); ("LogLevel", "logLevel"); ("LogOutput", "logOutput");
   ("LogErrorFile", "logErrorFile"); ("SaveConfig", "saveConfig"); ("SigningKeys", "signingKeys");
   ("API.Route", "apiRoute"); ("API.ListenHost", "listenHost"); ("API.ListenPort", "listenPort");
   ("API.Ssl.Domain", "sslDomain"); ("DB.Host", "dbHost"); ("DB.Port", "dbPort");
   ("DB.User", "dbUser"); ("DB.Password", "dbPassword"); ("DB.Dbname", "dbName");
   ("DB.Sslmode", "dbSslmode"); ("Migrate.Action", "migrateAction"); ("SMTP.Host", "smtpHost");
   ("SMTP.Port", "smtpPort"); ("SMTP.User", "smtpUser"); ("SMTP.Password", "smtpPassword");
   ("SMTP.PoolSize", "smtpPoolSize"); ("SMTP.Timeout", "smtpTimeout");
   ("SMTP.ValidationURL", "smtpValidationURL"); ("SMTP.WebpollURL", "smtpWebpollURL");
   ("SMTP.Sender", "smtpSender"); ("SMTP.SenderName", "smtpSenderName");
   ("SMTP.Contact", "smtpContact"); ("EthNetwork.Name", "ethNetworkName");
   ("EthNetwork.Provider", "ethNetworkProvider"); ("EthNetwork.GasLimit", "ethNetworkGasLimit");
   ("EthNetwork.FaucetAmount", "ethNetworkFaucetAmount"); ("EthNetwork.Timeout", "ethNetworkTimeout");
   ("Metrics.Enabled", "metricsEnabled"); ("Metrics.RefreshInterval", "metricsRefreshInterval")].

(* viper.BindPFlag(key, flag.Lookup(name)) *)
Definition bindings : list (string * string) :=
  [("dataDir", "dataDir"); ("logLevel", "logLevel"); ("logErrorFile", "logErrorFile");
   ("logOutput", "logOutput"); ("signingKeys", "signingKeys"); ("api.route", "apiRoute");
   ("api.listenHost", "listenHost"); ("api.listenPort", "listenPort"); ("api.ssl.domain", "sslDomain");
   ("db.host", "dbHost"); ("db.port", "dbPort"); ("db.user", "dbUser"); ("db.password", "dbPassword");
   ("db.dbName", "dbName"); ("db.sslMode", "dbSslmode"); ("migrate.action", "migrateAction");
   ("smtp.host", "smtpHost"); ("smtp.port", "smtpPort"); ("smtp.user", "smtpUser");
   ("smtp.password", "smtpPassword"); ("smtp.poolSize", "smtpPoolSize");
   ("smtp.timeOut", "smtpTimeout"); ("smtp.validationURL", "smtpValidationURL");
   ("smtp.webpollURL", "smtpWebpollURL"); ("smtp.sender", "smtpSender");
   ("smtp.senderName", "smtpSenderName"); ("smtp.contact", "smtpContact");
   ("ethnetwork.name", "ethNetworkName"); ("ethnetwork.provider", "ethNetworkProvider");
   ("ethnetwork.gasLimit", "ethNetworkGasLimit"); ("ethnetwork.faucetAmount", "ethNetworkFaucetAmount");
   ("ethnetwork.timeout", "ethNetworkTimeout"); ("metrics.enabled", "metricsEnabled");
   ("metrics.refreshInterval", "metricsRefreshInterval")].

(** ** viper *)

Fixpoint ToUpper (s : string) : string :=
  match s with
  | "" => ""
  | String a s =>
      let n := nat_of_ascii a in
      String (if (97 <=? n) && (n <=? 122) then ascii_of_nat (n - 32) else a) (ToUpper s)
  end.

(* what newConfig has told viper, and what viper has found; the values have the
   kind of the flag or of the file's YAML, the variables are strings *)
Record Settings := mkSettings {
  st_set : list (string * Value);
  (* key and flag, then the flags with their defaults *)
  st_bound : list (string * string);
  st_flags : list (string * Value);
  (* the flags of the command line *)
  st_changed : string -> option Value;
  st_environ : string -> option string;
  (* by lower-case key *)
  st_file : string -> option Value;
}.

Definition key_lookup {A} (l : list (string * A)) (key : string) : option A :=
  snd <$> find (fun x => String.eqb (ToLower x.1) (ToLower key)) l.
Definition named {A} (l : list (string * A)) (name : string) : option A :=
  snd <$> find (fun x => String.eqb x.1 name) l.

(* SetEnvPrefix("DVOTE"), SetEnvKeyReplacer("." to "_"), AutomaticEnv *)
Definition env_name (key : string) : string := "DVOTE_" +:+ ReplaceAll (ToUpper key) "." "_".

(* the flag a key is bound to *)
Definition flag_of (v : Settings) (key : string) : option string := key_lookup (st_bound v) key.
Definition or_else {A} (x y : option A) : option A := match x with Some a => Some a | None => y end.

(* a key viper knows of; the environment is only asked for these *)
Definition known (v : Settings) (key : string) : bool :=
  bool_decide (is_Some (flag_of v key)) || bool_decide (is_Some (key_lookup (st_set v) key)) ||
  bool_decide (is_Some (st_file v (ToLower key))).

(* an empty variable counts as unset *)
Definition variable (v : Settings) (key : string) : option Value :=
  if known v key then
    match st_environ v (env_name key) with
    | None | Some "" => None
    | Some s => Some (VString s)
    end
  else None.

(* viper's documented order of precedence: Set, flags that were given, the
   environment, the file, the defaults of the flags. A variable is text here;
   what becomes of the text in a numeric or boolean field is left to
   [viper_Unmarshal]. *)
Definition source (v : Settings) (key : string) : option Value :=
  or_else (key_lookup (st_set v) key)
    (or_else (flag_of v key ≫= st_changed v)
      (or_else (variable v key)
        (or_else (st_file v (ToLower key))
          (flag_of v key ≫= named (st_flags v))))).

Class Viper := {
  (* viper.Unmarshal: the structure, and the error of the fields that do not
     decode *)
  viper_Unmarshal : Settings -> Config -> Config * option gerror;
}.

(* a field without a source keeps its value; one whose source has its kind takes
   that (what becomes of the others, numbers of the environment among them, is
   not stated, nor are lists, which flags print) *)
Record ViperLaws (VP : Viper) : Prop := {
  unmarshal_kept v c path field : (path, field) ∈ fields -> source v path = None ->
    field (viper_Unmarshal v c).1 = field c;
  unmarshal_taken v c path field x : (path, field) ∈ fields -> source v path = Some x ->
    kind_of x = kind_of (field c) -> kind_of x <> KStrings ->
    field (viper_Unmarshal v c).1 = x;
}.

(** ** newConfig up to the file *)

Definition default_dir (home : string) : string := home +:+ "/.dvotemanager".

(* flag.StringVar: the one variable flag.Parse sets *)
Definition data_dir (home : string) (changed : string -> option Value) : string :=
  match changed "dataDir" with Some (VString d) => d | _ => default_dir home end.

Definition string_value (x : option Value) : string :=
  match x with Some (VString s) => s | _ => "" end.
Definition int_value (x : option Value) : Z := match x with Some (VInt n) => n | _ => 0%Z end.
Definition bool_value (x : option Value) : bool := match x with Some (VBool b) => b | _ => false end.
Definition strings_value (x : option Value) : list string :=
  match x with Some (VStrings l) => l | _ => [] end.

(* the structure Unmarshal fills: the defaults the assignments read *)
Definition assigned_config (home : string) (changed : string -> option Value) : Config :=
  let default path := named assigned path ≫= named (flags home) in
  let str path := string_value (default path) in
  let int path := int_value (default path) in
  mkConfig
    (mkAPIConfig (str "API.Route") (int "API.ListenPort") (str "API.ListenHost")
       (str "API.Ssl.Domain") (ac_Ssl_DirCert (cf_API NewManagerConfig)))
    (mkDBConfig (str "DB.Host") (int "DB.Port") (str "DB.User") (str "DB.Password")
       (str "DB.Dbname") (str "DB.Sslmode"))
    (mkSMTPConfig (str "SMTP.Host") (int "SMTP.Port") (str "SMTP.User") (str "SMTP.Password")
       (int "SMTP.PoolSize") (int "SMTP.Timeout") (str "SMTP.ValidationURL") (str "SMTP.Sender")
       (str "SMTP.SenderName") (str "SMTP.Contact") (str "SMTP.WebpollURL"))
    (str "LogLevel") (str "LogOutput") (str "LogErrorFile")
    (mkMetricsCfg (bool_value (default "Metrics.Enabled")) (int "Metrics.RefreshInterval"))
    (str "Mode") (data_dir home changed) (bool_value (default "SaveConfig"))
    (strings_value (default "SigningKeys")) (str "Migrate.Action")
    (mkEthNetwork (str "EthNetwork.Name") (str "EthNetwork.Provider") (int "EthNetwork.GasLimit")
       (int "EthNetwork.FaucetAmount") (int "EthNetwork.Timeout")).

Definition settings (home : string) (changed : string -> option Value)
    (environ : string -> option string) : Settings :=
  mkSettings [("api.ssl.dirCert", VString (data_dir home changed +:+ "/tls"))] bindings (flags home)
    changed environ (fun _ => None).

Definition with_file (file : string -> option Value) (v : Settings) : Settings :=
  mkSettings (st_set v) (st_bound v) (st_flags v) (st_changed v) (st_environ v) file.
(* viper.Set *)
Definition with_set (key : string) (x : Value) (v : Settings) : Settings :=
  mkSettings ((key, x) :: st_set v) (st_bound v) (st_flags v) (st_changed v) (st_environ v) (st_file v).

(** ** Lemmas *)

(* the tables agree: every binding and every assignment names a field and a flag
   of its kind, no key is bound twice, and the fields of assignments and
   bindings are the same but for three *)
Definition agree (home : string) (x : string * string) : bool :=
  match key_lookup fields x.1, named (flags home) x.2 with
  | Some field, Some d => bool_decide (kind_of (field NewManagerConfig) = kind_of d)
  | _, _ => false
  end.

Lemma tables_agree home :
  forallb (agree home) bindings = true /\ forallb (agree home) assigned = true /\
  NoDup (map (ToLower ∘ fst) bindings) /\ NoDup (map fst assigned).
Proof.
  split; [vm_compute; reflexivity|]. split; [vm_compute; reflexivity|].
  split; apply (bool_decide_unpack _); vm_compute; exact I.
Qed.

(* the flags of the fields; all but two of them are bound, each to its field *)
Definition field_flags : list (string * string) := ("DataDir", "dataDir") :: assigned.
Definition unbound_fields : list string := ["Mode"; "SaveConfig"].

Lemma flags_bound path flag :
  (path, flag) ∈ field_flags -> path ∉ unbound_fields ->
  exists key, (key, flag) ∈ bindings /\ ToLower path = ToLower key.
Proof.
  assert (Hall : forallb (fun x => bool_decide (x.1 ∈ unbound_fields) ||
    existsb (fun y => String.eqb (ToLower x.1) (ToLower y.1) && String.eqb x.2 y.2) bindings)
    field_flags = true) by (vm_compute; reflexivity).
  intros Hin Hn. rewrite forallb_forall in Hall. apply list_elem_of_In in Hin.
  apply Hall in Hin as [H%bool_decide_eq_true|H]%orb_true_iff; [done|].
  apply existsb_exists in H as ([key f] & Hk & [E1%String.eqb_eq E2%String.eqb_eq]%andb_true_iff).
  simpl in *. subst f. exists key. split; [by apply list_elem_of_In|done].
Qed.

Lemma key_lookup_here {A} (l : list (string * A)) key key' x :
  NoDup (map (ToLower ∘ fst) l) -> (key, x) ∈ l -> ToLower key' = ToLower key ->
  key_lookup l key' = Some x.
Proof.
  unfold key_lookup. intros Hn Hin Hk. rewrite Hk. induction l as [|[k y] l IH]; [by apply elem_of_nil in Hin|].
  rewrite map_cons in Hn. apply NoDup_cons in Hn as [Hk' Hn]. cbn [find fst].
  apply elem_of_cons in Hin as [[= <- <-]|Hin]; [by rewrite String.eqb_refl|].
  destruct (String.eqb_spec (ToLower k) (ToLower key)) as [E|_]; [|by apply IH].
  destruct Hk'. change (ToLower k ∈ map (ToLower ∘ fst) l). rewrite E. exact (list_elem_of_fmap_2 (ToLower ∘ fst) l _ Hin).
Qed.

Lemma key_lookup_lower {A} (l : list (string * A)) key key' :
  ToLower key' = ToLower key -> key_lookup l key' = key_lookup l key.
Proof. intros E. unfold key_lookup. by rewrite E. Qed.

(* a field has one kind *)
Lemma field_kind path field c c' :
  (path, field) ∈ fields -> kind_of (field c) = kind_of (field c').
Proof.
  intros H. unfold fields in H.
  repeat (apply elem_of_cons in H as [[= _ ->]|H]; [reflexivity|]). by apply elem_of_nil in H.
Qed.

Definition field_of (path : string) : Config -> Value :=
  match named fields path with Some field => field | None => fun _ => VBool false end.

Lemma field_of_in path : is_Some (named fields path) -> (path, field_of path) ∈ fields.
Proof.
  unfold field_of. intros [field H]. rewrite H. apply fmap_Some in H as ([k f] & H & ->).
  apply find_some in H as [Hin Hk%String.eqb_eq]. simpl in Hk. subst k. by apply list_elem_of_In.
Qed.

(* a variable, with the empty one unset *)
Definition filled (x : option string) : option Value :=
  match x with None | Some "" => None | Some s => Some (VString s) end.

(* the order of the sources of a bound key *)
Definition preferred (changed : string -> option Value) (environ : string -> option string)
    (file : string -> option Value) (home path flag : string) : option Value :=
  or_else (changed flag)
    (or_else (filled (environ (env_name path)))
      (or_else (file (ToLower path)) (named (flags home) flag))).

Lemma bound_source home changed environ file key flag path :
  (key, flag) ∈ bindings -> ToLower path = ToLower key ->
  source (with_file file (settings home changed environ)) path =
  preferred changed environ file home path flag.
Proof.
  intros Hb Hp. pose proof (tables_agree home) as (_ & _ & Hn & _).
  assert (Hf : key_lookup bindings path = Some flag) by (by eapply key_lookup_here).
  assert (Hs : key_lookup (A:=Value) [("api.ssl.dirCert", VString (data_dir home changed +:+ "/tls"))] path = None).
  { unfold key_lookup. cbn [find fst].
    destruct (String.eqb_spec (ToLower "api.ssl.dirCert") (ToLower path)) as [E|]; [|done].
    exfalso. rewrite (key_lookup_lower bindings "api.ssl.dirCert" path) in Hf by (symmetry; exact E).
    vm_compute in Hf. discriminate. }
  unfold source, variable, known, flag_of, settings, with_file, preferred, filled.
  cbn [st_set st_bound st_flags st_changed st_environ st_file].
  rewrite Hs, Hf. cbn [or_else mbind option_bind].
  rewrite (bool_decide_eq_true_2 (is_Some (Some flag))) by (by eexists). simpl.
  destruct (changed flag); [done|]. by destruct (environ (env_name path)) as [[|]|].
Qed.

(* a key without binding is in the file or nowhere *)
Lemma unbound_source home changed environ path :
  key_lookup bindings path = None -> ToLower path <> "api.ssl.dircert" ->
  forall file, file (ToLower path) = None ->
  source (with_file file (settings home changed environ)) path = None.
Proof.
  intros Hb Hd file Hf.
  assert (Hs : key_lookup (A:=Value) [("api.ssl.dirCert", VString (data_dir home changed +:+ "/tls"))] path = None).
  { unfold key_lookup. cbn [find fst].
    by destruct (String.eqb_spec (ToLower "api.ssl.dirCert") (ToLower path)). }
  unfold source, variable, known, flag_of, settings, with_file.
  cbn [st_set st_bound st_flags st_changed st_environ st_file].
  rewrite Hs, Hb, Hf. cbn [or_else mbind option_bind].
  rewrite !(bool_decide_eq_false_2 (is_Some None)) by (intros [? [=]]). done.
Qed.

(** ** An Unmarshal that fills every field whose value has its kind *)
Section unmarshalled.
Context (get : string -> option Value).

Definition str (path : string) (old : string) : string :=
  match get path with Some (VString s) => s | _ => old end.
Definition int (path : string) (old : Z) : Z :=
  match get path with Some (VInt n) => n | _ => old end.
Definition boolean (path : string) (old : bool) : bool :=
  match get path with Some (VBool b) => b | _ => old end.
Definition strs (path : string) (old : list string) : list string :=
  match get path with Some (VStrings l) => l | _ => old end.

Definition unmarshalled (c : Config) : Config :=
  let a := cf_API c in let d := cf_DB c in let s := cf_SMTP c in let n := cf_EthNetwork c in
  mkConfig
    (mkAPIConfig (str "API.Route" (ac_Route a)) (int "API.ListenPort" (ac_ListenPort a))
       (str "API.ListenHost" (ac_ListenHost a)) (str "API.Ssl.Domain" (ac_Ssl_Domain a))
       (str "API.Ssl.DirCert" (ac_Ssl_DirCert a)))
    (mkDBConfig (str "DB.Host" (dc_Host d)) (int "DB.Port" (dc_Port d)) (str "DB.User" (dc_User d))
       (str "DB.Password" (dc_Password d)) (str "DB.Dbname" (dc_Dbname d))
       (str "DB.Sslmode" (dc_Sslmode d)))
    (mkSMTPConfig (str "SMTP.Host" (sc_Host s)) (int "SMTP.Port" (sc_Port s))
       (str "SMTP.User" (sc_User s)) (str "SMTP.Password" (sc_Password s))
       (int "SMTP.PoolSize" (sc_PoolSize s)) (int "SMTP.Timeout" (sc_Timeout s))
       (str "SMTP.ValidationURL" (sc_ValidationURL s)) (str "SMTP.Sender" (sc_Sender s))
       (str "SMTP.SenderName" (sc_SenderName s)) (str "SMTP.Contact" (sc_Contact s))
       (str "SMTP.WebpollURL" (sc_WebpollURL s)))
    (str "LogLevel" (cf_LogLevel c)) (str "LogOutput" (cf_LogOutput c))
    (str "LogErrorFile" (cf_LogErrorFile c))
    (mkMetricsCfg (boolean "Metrics.Enabled" (mt_Enabled (cf_Metrics c)))
       (int "Metrics.RefreshInterval" (mt_RefreshInterval (cf_Metrics c))))
    (str "Mode" (cf_Mode c)) (str "DataDir" (cf_DataDir c))
    (boolean "SaveConfig" (cf_SaveConfig c)) (strs "SigningKeys" (cf_SigningKeys c))
    (str "Migrate.Action" (cf_Migrate_Action c))
    (mkEthNetwork (str "EthNetwork.Name" (en_Name n)) (str "EthNetwork.Provider" (en_Provider n))
       (int "EthNetwork.GasLimit" (en_GasLimit n)) (int "EthNetwork.FaucetAmount" (en_FaucetAmount n))
       (int "EthNetwork.Timeout" (en_Timeout n))).
End unmarshalled.

#[local] Instance demo_viper : Viper := {| viper_Unmarshal v c := (unmarshalled (source v) c, None) |}.

Lemma unmarshalled_fields get c path field :
  (path, field) ∈ fields ->
  field (unmarshalled get c) =
  match get path with
  | Some x => if decide (kind_of x = kind_of (field c)) then x else field c
  | None => field c
  end.
Proof.
  intros H. unfold fields in H.
  repeat (apply elem_of_cons in H as [[= -> ->]|H];
    [cbn; unfold str, int, boolean, strs; by destruct (get _) as [[]|]|]).
  by apply elem_of_nil in H.
Qed.

Lemma demo_viper_laws : ViperLaws demo_viper.
Proof.
  split; intros *; simpl; intros Hin Hs; rewrite (unmarshalled_fields _ _ _ _ Hin), Hs; [done|].
  intros Hk _. by rewrite decide_True.
Qed.
