(* ===== verification/Server.v ===== *)
(** * The manager server: the components composed

    One state for the database, the faucet and the mail server of a running
    manager API (manager.NewManager gives the handlers the three of them). The
    handlers of Manager run on it with the methods of pgsql.go, SendTokens of
    ethclient.go and the two e-mails of smtp.go; what is proved here is about
    what one request does to all of them. *)
From S2P Require Import Prelude GoLib Ext Util Types Schema SchemaOk Tenant Session.
From S2P Require Import PgTypes PgTx PgEntities PgMembers PgQueries PgTags PgCensus PgOps PgSpec.
From S2P Require Import Database Smtp Mail Manager RpcApi EthClient.

(** ** A part of a state *)
Section part.
Context {S T : Type} (get : T -> S) (put : S -> T -> T).

Definition lift {A} (m : M S A) : M T A := fun t =>
  let '(o, s) := m (get t) in (o, put s t).

Definition lift_db (D : Database S) : Database T := map_db (fun A => lift (A:=A)) D.

(* an invariant of the part, and one of the rest *)
Section lift_inv.
Context (J : S -> Prop) (Q : T -> Prop).
Hypothesis get_put : forall s t, get (put s t) = s.
Hypothesis rest : forall s t, Q t -> Q (put s t).

Lemma lift_preserves {A} (R : A -> Prop) (m : M S A) :
  preserves J R m -> preserves (fun t => J (get t) /\ Q t) R (lift m).
Proof.
  intros Hm t [HJ HQ]. unfold lift. destruct (Hm _ HJ) as [H1 H2].
  destruct (m (get t)) as [o s]; simpl in *. rewrite get_put. auto.
Qed.

Lemma lift_db_inv (D : Database S) (E : bytes -> Prop) K :
  DatabaseInv D J E K -> DatabaseInv (lift_db D) (fun t => J (get t) /\ Q t) E K.
Proof. apply map_db_inv. intros A m. apply lift_preserves. Qed.
End lift_inv.

(* the rest alone *)
Lemma lift_rest (Q : T -> Prop) {A} (m : M S A) :
  (forall s t, Q t -> Q (put s t)) -> preserves Q anything (lift m).
Proof. intros HQ t Ht. unfold lift. destruct (m (get t)). split; [by apply HQ|done]. Qed.

Lemma lift_db_rest (Q : T -> Prop) (D : Database S) (E : bytes -> Prop) K :
  (forall s t, Q t -> Q (put s t)) -> DatabaseInv (lift_db D) Q E K.
Proof. intros HQ. split; intros; by apply lift_rest. Qed.

Lemma lift_keeps {U A} (f : T -> U) (m : M S A) :
  (forall s t, f (put s t) = f t) -> keeps f (lift m).
Proof. intros Hf t. unfold lift. destruct (m (get t)). apply Hf. Qed.
End part.

(** ** The server *)

Record Server (W P : Type) := mkServer {
  sv_world : World;
  sv_faucet : Faucet W;
  (* the messages the mail server accepted, oldest first *)
  sv_outbox : list Email;
  sv_pool : P;
}.
Arguments mkServer {W P}. Arguments sv_world {W P}. Arguments sv_faucet {W P}.
Arguments sv_outbox {W P}. Arguments sv_pool {W P}.

Section server.
Context {X : Ext} {V : Env} {W : Type} {N : Node W} {P : Type} {ML : MailLib P}.
Abbreviation Sv := (Server W P).

Definition put_world (w : World) (s : Sv) : Sv := mkServer w (sv_faucet s) (sv_outbox s) (sv_pool s).
Definition put_faucet (f : Faucet W) (s : Sv) : Sv :=
  mkServer (sv_world s) f (sv_outbox s) (sv_pool s).
Definition on_world {A} : M World A -> M Sv A := lift sv_world put_world.
Definition on_faucet {A} : M (Faucet W) A -> M Sv A := lift sv_faucet put_faucet.

#[export] Instance server_db : Database Sv := lift_db sv_world put_world pgsql.

(* the pool, with the messages it accepts on record *)
#[export] Instance server_mail : MailLib Sv := {|
  pool_New := pool_New (S:=P);
  pool_Send e := fun s =>
    match pool_Send e (sv_pool s) with
    | (Ok u, p) => (Ok u, mkServer (sv_world s) (sv_faucet s) (sv_outbox s ++ [e]) p)
    | (o, p) => (o, mkServer (sv_world s) (sv_faucet s) (sv_outbox s) p)
    end;
  Quote := Quote (S:=P);
|}.

(* What NewManager is given: the SMTP client and the faucet, absent when no
   network is configured. [host] has the clock, the random values, the
   scheduler and the callback; [rounds] bounds how long a request waits for a
   signer, and one that still waits has no answer. *)
Context (host : Host World) (smtp : SMTP) (eth : option Eth) (rounds : nat).
(* go-ethereum/common *)
Context (BytesToAddress : bytes -> bytes).

Definition pay (eth : Eth) (to : bytes) (maxAcceptedBalance amount : Z) : M Sv Z :=
  let! sent := on_faucet (SendTokens rounds eth (BytesToAddress to) maxAcceptedBalance amount) in
  match sent with
  | Some sent => retM sent
  | None => panicM "still waiting for a signer"
  end.

#[export] Instance server_host : Host Sv := {|
  host_uuid := on_world host_uuid;
  host_Unix := on_world host_Unix;
  host_Perm n := on_world (host_Perm n);
  host_callback a b c u := on_world (host_callback a b c u);
  host_SendVotingLink := SendVotingLink smtp;
  host_SendValidationLink := SendValidationLink smtp;
  host_smtp := true;
  host_schedule := on_world host_schedule;
  host_time_String := host_time_String;
  host_SendTokens := option_map pay eth;
  host_Inc l := on_world (host_Inc l);
|}.

(* the state after a list of requests, served one after the other. The HTTP
   server recovers from a handler that panics and serves the next request; when
   the panic ends the process, the list ends with it. *)
Definition after (api : RPCAPI Sv) (requests : list SignedJRPCdata) (s : Sv) : Sv :=
  foldl (fun s r => (route api r s).2) s requests.
End server.

(** ** The faucet and the requests *)
Section faucet.
Context {X : Ext} {V : Env} {W : Type} {N : Node W} {P : Type} {ML : MailLib P}.
Context (host : Host World) (smtp : SMTP) (rounds : nat) (BytesToAddress : bytes -> bytes).
Abbreviation Sv := (Server W P).
Variable eth : Eth.
#[local] Existing Instance server_db.
#[local] Instance paying_host : Host Sv := server_host host smtp (Some eth) rounds BytesToAddress.

(* the transactions the node accepted *)
Definition sent (s : Sv) : list Tx := f_sent (sv_faucet s).

(* one payment of the default amount to the address of [e], or none *)
Definition pays_once {A} (e : bytes) (m : M Sv A) : Prop := forall s,
  sent (m s).2 = sent s \/
  exists tx, payment (BytesToAddress e) (eth_DefaultFaucetAmount eth) tx /\
    sent (m s).2 = sent s ++ [tx].

Lemma pays_once_keeps {A} e (m : M Sv A) : keeps sent m -> pays_once e m.
Proof. intros Hm s. left. apply Hm. Qed.

Lemma pays_once_then {A B} e (m : M Sv A) (k : A -> M Sv B) :
  pays_once e m -> (forall a, keeps sent (k a)) -> pays_once e (bindM m k).
Proof.
  intros Hm Hk s. unfold bindM. specialize (Hm s). destruct (m s) as [[a|err|p] s1]; simpl in *;
    [|exact Hm..]. rewrite (Hk a s1). exact Hm.
Qed.

Lemma pays_once_after {A B} e (m : M Sv A) (k : A -> M Sv B) :
  keeps sent m -> (forall a, pays_once e (k a)) -> pays_once e (bindM m k).
Proof.
  intros Hm Hk s. unfold bindM. specialize (Hm s). destruct (m s) as [[a|err|p] s1]; simpl in *;
    [|by left..]. rewrite <- Hm. apply Hk.
Qed.

Lemma pays_once_onErr {A} e (m : M Sv A) f : pays_once e m -> pays_once e (onErr m f).
Proof. intros Hm s. specialize (Hm s). unfold onErr. by destruct (m s) as [[] ?]. Qed.
Lemma pays_once_tryM {A} e (m : M Sv A) : pays_once e m -> pays_once e (tryM m).
Proof. intros Hm s. specialize (Hm s). unfold tryM. by destruct (m s) as [[] ?]. Qed.

Lemma on_world_sent {A} (m : M World A) : keeps sent (on_world (W:=W) (P:=P) m).
Proof. by apply lift_keeps. Qed.

Lemma pay_once e : pays_once e (pay rounds BytesToAddress eth e 0 0).
Proof.
  intros s. unfold pay, bindM, on_faucet, lift.
  pose proof (SendTokens_pays_once rounds eth (BytesToAddress e) 0 0 (sv_faucet s)) as Hp.
  cbn zeta in Hp. destruct (SendTokens _ _ _ _ _ _) as [[[v|]|err|p] f]; simpl in *; [|by left..].
  destruct Hp as (_ & tx & Htx & Hf). right. by exists tx.
Qed.

Lemma entityOf_keeps k msg : keeps sent (entityOf (S:=Sv) k msg).
Proof. unfold entityOf. go_keeps. Qed.
Hint Resolve on_world_sent entityOf_keeps : go.

Lemma keeps_at {A} (m : M Sv A) l : keeps sent m -> preserves (fun s => sent s = l) anything m.
Proof. intros Hm s <-. split; [apply Hm|done]. Qed.
Lemma pool_Send_keeps e : keeps sent (pool_Send (MailLib:=server_mail) e).
Proof. intros s. simpl. by destruct (pool_Send e (sv_pool s)) as [[] p]. Qed.
Hint Resolve pool_Send_keeps : go.

(* the two handlers that ask the faucet *)
Lemma paying_once name sig handler request e :
  (name, sig, handler) ∈ manager_methods (S:=Sv) -> name ∈ paying ->
  PubKeyToEntityID (rq_SignaturePublicKey request) = inr e -> pays_once e (handler request).
Proof.
  intros Hm Hn He.
  assert (Hent : forall {B} msg (k : bytes -> M Sv B), pays_once e (k e) ->
            pays_once e (bindM (entityOf (rq_SignaturePublicKey request) msg) k)).
  { intros B msg k Hk s. unfold bindM, entityOf. destruct (negb _); [by left|].
    unfold onErr, liftE. rewrite He. apply Hk. }
  destruct (paying_handler _ _ _ Hm Hn) as [->| ->].
  - unfold signUp, requireEntityID. apply Hent.
    apply pays_once_after; [apply keeps_tryM, on_world_sent|]. intros r.
    destruct (match r with inl _ => _ | inr _ => _ end); [by left|].
    apply pays_once_after; [apply keeps_tryM, on_world_sent|]. intros r'.
    destruct (match r' with inl _ => _ | inr _ => _ end); [by left|].
    apply pays_once_then; [|go_keeps]. unfold signUp_tokens. simpl.
    apply pays_once_then; [apply pays_once_tryM, pay_once|]. go_keeps.
  - unfold requestGas, requireEntityID. simpl. apply Hent.
    apply pays_once_after; [apply keeps_onErr, on_world_sent|]. intros entity.
    apply pays_once_then; [apply pays_once_onErr, pay_once|]. go_keeps.
Qed.

(* every other handler leaves it alone *)
Lemma server_host_rest l : HostInv paying_host (fun s : Sv => sent s = l) (fun _ => False).
Proof.
  split; intros; try (by apply lift_rest); try done.
  - apply keeps_at, (mails_keep (L:=server_mail)), pool_Send_keeps.
  - apply keeps_at, (mails_keep (L:=server_mail)), pool_Send_keeps.
Qed.

(* one request *)
Lemma route_sent (getHealth : M Sv Z) authorized (r : SignedJRPCdata) (s : Sv) :
  keeps sent getHealth ->
  let s' := (route (manager_api getHealth authorized) r s).2 in
  sent s' = sent s \/
  exists e tx, rq_Method (sd_Message r) ∈ paying /\
    PubKeyToEntityID (sd_SignaturePublicKey r) = inr e /\
    payment (BytesToAddress e) (eth_DefaultFaucetAmount eth) tx /\ sent s' = sent s ++ [tx].
Proof.
  intros Hg. set (request := setq_SignaturePublicKey (sd_SignaturePublicKey r) (sd_Message r)).
  assert (Hroute : sent (route (manager_api getHealth authorized) r s).2
            = sent (lookup_method (manager_api getHealth authorized) (rq_Method (sd_Message r))
                      request s).2).
  { unfold route, bindM, tryM. change (APIrequest_GetMethod _) with (rq_Method (sd_Message r)).
    by destruct (lookup_method _ _ _ s) as [[] ?]. }
  cbn zeta. rewrite Hroute. clear Hroute. unfold lookup_method.
  destruct (ra_methods _ !! _) as [h|] eqn:E; [|by left].
  apply manager_api_method in E as [[sig Hm]| ->]; [|left; by apply info_keeps].
  set (J := fun s0 : Sv => sent s0 = sent s).
  assert (HD : DatabaseInv server_db J anything every_key) by (by apply lift_db_rest).
  pose proof (server_host_rest (sent s)) as HH. fold J in HH.
  destruct (decide (rq_Method (sd_Message r) ∈ paying)) as [Hn|Hn].
  - destruct (PubKeyToEntityID (sd_SignaturePublicKey r)) as [err|e] eqn:He.
    + left. refine (proj1 (manager_methods_inv J anything (fun _ => False) _ sig h request _
        (fun _ _ _ _ _ _ => I) Hm s eq_refl)).
      intros e He'. simpl in He'. congruence.
    + destruct (paying_once _ sig h request e Hm Hn He s) as [Hs|(tx & Htx & Hs)]; [by left|].
      right. by exists e, tx.
  - left. by refine (proj1 (other_methods_inv J anything (fun _ => False) _ sig h request _
      (fun _ _ _ _ _ _ => I) Hm Hn s eq_refl)).
Qed.

(** C10: The faucet only pays who asks, what it is set to, and once per request:
    after any sequence of messages to the manager API, known or not, with any
    failures of the database and the node, the transactions accepted by the
    node are those from before and those of some of the requests, in their
    order and at most one each; such a request is a signUp or a requestGas, and
    its transaction pays the configured amount to the address of the key that
    verified its signature. *)
Theorem faucet_pays_callers (getHealth : M Sv Z) authorized (requests : list SignedJRPCdata)
    (s : Sv) :
  keeps sent getHealth ->
  exists paid : list (SignedJRPCdata * Tx),
    paid.*1 `sublist_of` requests /\
    sent (after (manager_api getHealth authorized) requests s) = sent s ++ paid.*2 /\
    Forall (fun x => rq_Method (sd_Message x.1) ∈ paying /\
      exists e, PubKeyToEntityID (sd_SignaturePublicKey x.1) = inr e /\
        payment (BytesToAddress e) (eth_DefaultFaucetAmount eth) x.2) paid.
Proof.
  intros Hg. revert s. induction requests as [|r requests IH]; intros s.
  { exists []. split; [constructor|]. by rewrite app_nil_r. }
  pose proof (route_sent getHealth authorized r s Hg) as Hr. cbn zeta in Hr.
  set (s1 := (route (manager_api getHealth authorized) r s).2) in *.
  destruct (IH s1) as (paid & Hsub & Hs & Hall).
  change (after _ (r :: requests) s) with (after (manager_api getHealth authorized) requests s1).
  destruct Hr as [Hr|(e & tx & Hn & He & Htx & Hr)].
  - exists paid. rewrite Hs, Hr. split; [by constructor|done].
  - exists ((r, tx) :: paid). rewrite Hs, Hr. split; [by constructor|].
    split; [by rewrite <- app_assoc|]. constructor; [|done]. simpl. eauto.
Qed.
End faucet.

(** ** A new entity *)
Section new_entity.
Context {X : Ext} {V : Env}.

Lemma AddEntity_new id info r w :
  no_faults -> db_ok (w_db w) -> entities (w_db w) !! id = None ->
  in_int32 (ei_Size info) = true -> ei_CensusManagersAddresses info = Some r ->
  ei_Origins info = [Token] ->
  exists row w', AddEntity id info w = (Ok tt, w') /\
    w_db w' = set_entities_origins ({[(Token, id)]} ∪ entities_origins (w_db w))
                (set_entities (<[id := row]> (entities (w_db w))) (w_db w)) /\
    er_is_authorized row = false /\ er_email row = ei_Email info /\ er_name row = ei_Name info /\
    er_census_managers_addresses row = r.
Proof.
  intros Hf [_ Hok] Hn Hs Hr Ho. unfold AddEntity. rewrite Hr. unfold bindM at 1, onErr at 1.
  rewrite run_Beginx by done. unfold bindM at 1 2, time_Now.
  set (w1 := set_open _ _). set (now := env_now _).
  unfold bindM at 1, onErr at 1, liftE, ToPGEntity. cbn [e_Info]. rewrite Ho.
  change (ToPGOriginArray [Token]) with (inr (A:=gerror) (mkEnumArray ["Token"] Present)). cbn iota.
  unfold retM at 1. set (row := entity_row _).
  set (d1 := set_entities (<[id := row]> (entities (w_db w))) (w_db w)).
  assert (Hent : insert_entity id row (w_db w) = inr (1, d1)).
  { unfold insert_entity, checked, int4. simpl. rewrite Hs.
    by rewrite bool_decide_eq_true_2. }
  unfold bindM at 1, onErr at 1. erewrite run_tx_exec by done.
  assert (Horig : each_row (insert_origin id) ["Token"] d1
            = inr (1, set_entities_origins ({[(Token, id)]} ∪ entities_origins d1) d1)).
  { simpl. unfold insert_origin. simpl. unfold checked. simpl.
    rewrite bool_decide_eq_true_2.
    2:{ intros Hin. destruct (fk_origins _ Hok Token id Hin) as [x Hx]. congruence. }
    simpl. by rewrite bool_decide_eq_true_2 by (rewrite lookup_insert_eq; eauto). }
  unfold bindM at 1, tryM at 1. cbn [pe_Origins en_Elements].
  erewrite run_tx_exec by done.
  match goal with |- context [commit_or ?t ?g ?w] =>
    destruct (run_commit_or t g w Hf) as (w' & Hc & Hw') end.
  exists row, w'. rewrite Hc, Hw'. split_and!; try done.
  simpl. rewrite Hr. by destruct r.
Qed.

Lemma AddTarget_new id name filters row w :
  no_faults -> id <> "" -> filters <> "" -> entities (w_db w) !! id = Some row ->
  targets (w_db w) !! env_uuid (w_tick w) 0 = None ->
  (forall i r, targets (w_db w) !! i = Some r -> tr_entity_id r <> id) ->
  exists tr w', AddTarget id (mkTarget zero_CreatedUpdated uuid_Nil id name filters) w
      = (Ok (env_uuid (w_tick w) 0), w') /\
    w_db w' = set_targets (<[env_uuid (w_tick w) 0 := tr]> (targets (w_db w))) (w_db w) /\
    tr_entity_id tr = id /\ tr_name tr = name /\ tr_filters tr = filters.
Proof.
  intros Hf Hid Hfil Hr Hu Hn. unfold AddTarget. cbn [t_EntityID t_Name t_Filters].
  assert (Hl : (len id =? 0)%Z = false) by (by destruct id).
  rewrite Hl, bool_decide_eq_true_2 by done. cbn [negb].
  unfold bindM, time_Now, now_tick, db_query. rewrite driver_no_fault by done.
  unfold insert_target, checked. cbn [w_db tick first_error tr_filters tr_entity_id tr_name].
  rewrite (bool_decide_eq_false_2 (filters = "")) by done. cbn [negb].
  rewrite bool_decide_eq_true_2 by done.
  assert (exists_row (fun _ r' => bool_decide (tr_entity_id r' = id /\ tr_name r' = name))
            (targets (w_db w)) = false) as ->.
  { apply exists_row_false. intros i r Hi. apply bool_decide_eq_false_2. intros [He _].
    by apply (Hn i r). }
  cbn [negb]. rewrite bool_decide_eq_true_2 by (by rewrite Hr). cbn [deferred].
  unfold Scan. rewrite driver_no_fault by done. do 2 eexists. split; [reflexivity|].
  simpl. done.
Qed.
End new_entity.

Section sign_up.
Context {X : Ext} {V : Env} {W : Type} {N : Node W} {P : Type} {ML : MailLib P}.
Context (host : Host World) (smtp : SMTP) (rounds : nat) (BytesToAddress : bytes -> bytes).
Abbreviation Sv := (Server W P).
Variable eth : Eth.
#[local] Existing Instance server_db.
#[local] Instance sign_up_host : Host Sv :=
  server_host host smtp (Some eth) (S rounds) BytesToAddress.

Lemma pay_answers e i signer (s : Sv) f1 :
  healthy eth -> eth_SignersPool eth !! i = Some signer ->
  f_taken (sv_faucet s) !! i = Some false ->
  node (node_BalanceAt (BytesToAddress e)) (sv_faucet s) = (Ok 0%Z, f1) ->
  exists s' tx, pay (S rounds) BytesToAddress eth e 0 0 s = (Ok (eth_DefaultFaucetAmount eth), s') /\
    sv_world s' = sv_world s /\ payment (BytesToAddress e) (eth_DefaultFaucetAmount eth) tx /\
    sent s' = sent s ++ [tx].
Proof.
  intros Hh Hp Hi Hb. unfold pay, bindM, on_faucet, lift.
  pose proof (SendTokens_answers eth Hh rounds (BytesToAddress e) 0 0 0 i signer _ f1 Hp Hi Hb
                ltac:(done)) as Ha.
  pose proof (SendTokens_pays_once (S rounds) eth (BytesToAddress e) 0 0 (sv_faucet s)) as Ho.
  cbn zeta in Ho. destruct (SendTokens _ _ _ _ _ _) as [o f]. simpl in Ha. subst o.
  destruct Ho as (_ & tx & Htx & Hf). by exists (put_faucet f s), tx.
Qed.

(* the steps of signUp when they all succeed *)
Lemma signUp_steps {T} {DB : Database T} {H : Host T} (request : APIrequest) (e : bytes)
    (s s1 s2 s3 : T) (u : unit) (t : uuid) f v :
  len (rq_SignaturePublicKey request) = PubKeyLengthBytes ->
  PubKeyToEntityID (rq_SignaturePublicKey request) = inr e ->
  db_AddEntity e (signUp_info e (rq_Entity request)) s = (Ok u, s1) ->
  db_AddTarget e (mkTarget zero_CreatedUpdated uuid_Nil e "all" "{}") s1 = (Ok t, s2) ->
  host_SendTokens = Some f -> f e 0%Z 0%Z s2 = (Ok v, s3) ->
  signUp request s = (Ok (set_Count (int64 v) zero_APIresponse), s3).
Proof.
  intros Hk He Ha Ht Hh Hv. unfold signUp, requireEntityID, entityOf.
  rewrite Hk, Z.eqb_refl. cbn [negb]. unfold onErr, liftE. rewrite He.
  unfold bindM at 1, retM at 1, bindM at 1, tryM at 1. rewrite Ha.
  unfold bindM at 1, tryM at 1. rewrite Ht. unfold bindM at 1, signUp_tokens. rewrite Hh.
  unfold bindM at 1, tryM at 1. by rewrite Hv.
Qed.

(** C18: A new entity gets all it needs from one signUp: when the database, the
    node and one signer answer, the request of a key that is not in the tables
    is answered with the configured amount, and afterwards the entity is there,
    not authorized yet, with its name and e-mail, with the origin Token and
    the target "all", and the node has accepted one payment to its address. *)
Theorem signUp_new_entity (getHealth : M Sv Z) authorized id pk (request : APIrequest) (e : bytes)
    (i : nat) (signer : bytes) (s : Sv) (f1 : Faucet W) :
  let d := w_db (sv_world s) in let info := signUp_info e (rq_Entity request) in
  no_faults -> db_ok d -> (forall n, targets d !! env_uuid n 0 = None) ->
  rq_Method request = "signUp" -> len pk = PubKeyLengthBytes -> PubKeyToEntityID pk = inr e ->
  e <> "" -> entities d !! e = None -> in_int32 (ei_Size info) = true ->
  healthy eth -> eth_SignersPool eth !! i = Some signer ->
  f_taken (sv_faucet s) !! i = Some false ->
  node (node_BalanceAt (BytesToAddress e)) (sv_faucet s) = (Ok 0%Z, f1) ->
  exists s', route (manager_api getHealth authorized) (mkSigned id request pk) s
      = (Ok (SendReply id (set_Ok true
          (set_Count (int64 (eth_DefaultFaucetAmount eth)) zero_APIresponse))), s') /\
    let d' := w_db (sv_world s') in
    (exists row, entities d' !! e = Some row /\ er_is_authorized row = false /\
       er_name row = ei_Name info /\ er_email row = ei_Email info) /\
    (Token, e) ∈ entities_origins d' /\
    (exists t row, targets d' !! t = Some row /\ tr_entity_id row = e /\ tr_name row = "all") /\
    exists tx, payment (BytesToAddress e) (eth_DefaultFaucetAmount eth) tx /\
      sent s' = sent s ++ [tx].
Proof.
  intros d info Hf Hok Hu Hm Hk He Hne Hn Hsz Hh Hp Hi Hb.
  destruct (AddEntity_new e info [e] (sv_world s) Hf Hok Hn Hsz) as
    (row & w1 & Hadd & Hd1 & Hau & Hem & Hna & _);
    [by unfold info, signUp_info; destruct (rq_Entity request)..|].
  assert (Hr1 : entities (w_db w1) !! e = Some row).
  { rewrite Hd1. simpl. by rewrite lookup_insert_eq. }
  assert (Ht1 : targets (w_db w1) = targets d) by (by rewrite Hd1).
  destruct (AddTarget_new e "all" "{}" row w1 Hf Hne ltac:(done) Hr1) as
    (tr & w2 & Htar & Hd2 & Hte & Htn & _); [by rewrite Ht1, Hu| |].
  { intros t r Ht. rewrite Ht1 in Ht. intros Hr. destruct (fk_targets _ (proj2 Hok) t r Ht) as [x Hx].
    unfold d in *. congruence. }
  destruct (pay_answers e i signer (put_world w2 s) f1 Hh Hp Hi Hb) as (s' & tx & Hpay & Hw & Htx & Hs).
  exists s'. split.
  - rewrite (manager_api_serves _ _ "signUp" true signUp id pk request s ltac:(left) Hm).
    rewrite (signUp_steps _ e s (put_world w1 s) (put_world w2 s) s' tt (env_uuid (w_tick w1) 0)
               (pay (S rounds) BytesToAddress eth) (eth_DefaultFaucetAmount eth));
      [done|exact Hk|exact He| | |done|exact Hpay].
    + cbn [rq_Entity setq_SignaturePublicKey]. fold info. simpl. unfold lift. by rewrite Hadd.
    + simpl. unfold lift. cbn [sv_world put_world]. by rewrite Htar.
  - cbn zeta. rewrite Hw. cbn [sv_world put_world]. rewrite Hd2. split; [|split; [|split]].
    + exists row. simpl. done.
    + simpl. rewrite Hd1. simpl. set_solver.
    + eexists _, tr. split; [|done]. simpl. by rewrite lookup_insert_eq.
    + by exists tx.
Qed.
End sign_up.

(** ** Witnesses: a node where every call succeeds, two signers *)

#[local] Existing Instance demo_ext.
#[local] Existing Instance demo_node.
#[local] Existing Instance outbox.
#[local] Instance server_env : Env := demo_env 1.

Definition demo_server (taken : list bool) : Server Z (list Email) :=
  mkServer demo_world (demo_faucet taken) [] [].
(* every address is new to the node *)
Definition demo_pool : Eth := demo_eth ["a"; "b"].
#[local] Instance server_demo_db : Database (Server Z (list Email)) := server_db.
#[local] Instance server_demo_host : Host (Server Z (list Email)) :=
  server_host (env_host None) demo_smtp (Some demo_pool) 1 (fun _ => "new").
Definition signed (method : string) (pk : bytes) : SignedJRPCdata :=
  mkSigned "7" (setq_Method method zero_APIrequest) pk.

Lemma faucet_pays_callers_witness :
  let requests := [signed "signUp" "e3"; signed "listMembers" "e1"; signed "requestGas" "e1";
                   signed "requestGas" "zz"] in
  let s' := after (manager_api (retM 90%Z) ∅) requests (demo_server [false; false]) in
  map (fun tx => (tx_to tx, tx_amount tx)) (sent s') = [("new", 100%Z); ("new", 100%Z)] /\
  exists paid, paid.*1 `sublist_of` requests /\ sent s' = sent (demo_server [false; false]) ++ paid.*2.
Proof.
  intros requests s'. split; [vm_compute; reflexivity|].
  destruct (faucet_pays_callers (env_host None) demo_smtp 1 (fun _ => "new") demo_pool (retM 90%Z) ∅
              requests (demo_server [false; false]) (fun s => eq_refl)) as (paid & H1 & H2 & _).
  exists paid. split; [exact H1|exact H2].
Defined.

Lemma demo_healthy : healthy demo_pool.
Proof.
  split; intros; try (do 2 eexists; reflexivity); try (eexists; reflexivity).
  exists 1000%Z, w. simpl in *. split; [|lia].
  repeat (apply elem_of_cons in H as [->|H]; [reflexivity|]). by apply not_elem_of_nil in H.
Qed.

Lemma signUp_new_entity_witness :
  exists s', route (manager_api (retM 90%Z) ∅) (signed "signUp" "e3") (demo_server [true; false])
      = (Ok (SendReply "7" (set_Ok true (set_Count 100 zero_APIresponse))), s') /\
    exists tx, sent s' = [tx] /\ tx_to tx = "new".
Proof.
  destruct (signUp_new_entity (env_host None) demo_smtp 0 (fun _ => "new") demo_pool (retM 90%Z) ∅ "7"
              "e3" (setq_Method "signUp" zero_APIrequest) "e3" 1 "b" (demo_server [true; false])
              (demo_faucet [true; false])) as (s' & Hrun & _ & _ & _ & tx & Htx & Hs).
  - apply demo_env_no_faults.
  - apply (reachable_db_ok (X:=demo_ext) (V:=demo_env 1)), reachable_run_all.
  - assert (Ht : targets (w_db demo_world) = ∅) by (vm_compute; reflexivity).
    intros n. unfold demo_server. cbn [sv_world]. by rewrite Ht.
  - reflexivity.
  - reflexivity.
  - reflexivity.
  - discriminate.
  - vm_compute. reflexivity.
  - reflexivity.
  - apply demo_healthy.
  - reflexivity.
  - reflexivity.
  - reflexivity.
  - exists s'. split; [exact Hrun|]. exists tx. split; [exact Hs|].
    destruct Htx as (tx0 & [= ->] & Hto & _). exact Hto.
Defined.
