(* ===== verification/Ballots.v ===== *)
(** * Voting e-mails, from the request to the mail server

    sendVotingLinks on the server of Server.v: which members get a message, and
    what it says. The reads of pgsql.go (Entity, ListEphemeralMemberInfo,
    EphemeralMemberInfoByEmail) choose the voters, SendVotingLink of smtp.go
    writes to each. *)
From S2P Require Import Prelude GoLib Ext Util Types Schema SchemaOk Session.
From S2P Require Import PgTypes PgTx PgEntities PgMembers PgQueries PgTags PgCensus PgOps PgSpec PgCensusSpec.
From S2P Require Import Database Smtp Mail Manager RpcApi EthClient Server.

(** ** The voters of a census *)

(* [info] is what the tables say of a voter with a key of its own in census
   [c] of entity [e] *)
Definition voter (d : Db) (e c : bytes) (info : EphemeralMemberInfo) : Prop :=
  exists cr m x, censuses d !! c = Some cr /\ cr_entity_id cr = e /\
    census_members d !! (em_ID info, c) = Some x /\ xr_ephemeral x = true /\
    members d !! em_ID info = Some m /\
    em_FirstName info = mr_first_name m /\ em_LastName info = mr_last_name m /\
    em_Email info = default "" (mr_email m) /\ em_PrivKey info = xr_private_key x.

Section reads.
Context {X : Ext} {V : Env}.
Variable d : Db.
Abbreviation reads := (preserves (holds (fun d' => d' = d))).

Lemma db_get_reads {A} (f : Db -> option A) : reads (fun a => f d = Some a) (db_get f).
Proof.
  apply driver_preserves; [done|]. intros w Hw. unfold holds in *. rewrite Hw.
  destruct (f d) eqn:E; simpl; (split; [done|]); [by intros ? [= <-]|done].
Qed.
Lemma db_select_reads {A} (f : Db -> A) : reads (fun a => a = f d) (db_select f).
Proof.
  apply driver_preserves; [done|]. intros w Hw. unfold holds in *. rewrite Hw. simpl.
  split; [done|]. by intros ? [= <-].
Qed.

Lemma pg_Entity_reads e : reads (fun x => e_ID x = e) (pg_Entity e).
Proof.
  unfold pg_Entity. eapply preserves_bind; [apply db_get_reads|]. intros p Hp. cbn beta in Hp.
  destruct (entities d !! e) as [r|]; [|done]. injection Hp as <-.
  eapply (preserves_bind _ (fun x => e_ID x = e)).
  { apply preserves_onErr. unfold ToEntity. cbn. by apply preserves_ret. }
  intros entity He. eapply (preserves_bind _ anything).
  { eapply preserves_weaken; [apply preserves_tryM|done].
    unfold EntityOrigins. eapply preserves_bind; [apply preserves_onErr, db_select_reads|].
    intros l _. by apply readonly_preserves, readonly_lift. }
  intros [err|origins] _; [|by apply preserves_ret].
  destruct (negb _); [apply preserves_fail|by apply preserves_ret].
Qed.

Lemma pg_Census_reads e c :
  reads (fun x => c_ID x = c /\ exists cr, censuses d !! c = Some cr /\ cr_entity_id cr = e)
    (pg_Census e c).
Proof.
  unfold pg_Census. destruct (_ || _); [apply preserves_fail|].
  eapply preserves_weaken; [apply db_get_reads|]. intros x Hx. cbn beta in Hx.
  destruct (censuses d !! c) as [cr|]; [|done]. simpl in Hx. case_bool_decide; [|done].
  injection Hx as <-. eauto.
Qed.

Lemma ListEphemeralMemberInfo_reads e c :
  reads (Forall (voter d e c)) (ListEphemeralMemberInfo e c).
Proof.
  unfold ListEphemeralMemberInfo. eapply preserves_bind.
  { apply preserves_onErr, pg_Census_reads. }
  intros census (<- & cr & Hcr & He). eapply preserves_bind.
  { apply preserves_onErr, db_select_reads. }
  intros l ->. apply preserves_ret, Forall_map, Forall_forall. intros p Hp. cbn beta in Hp.
  apply list_elem_of_omap in Hp as ([[i c] x] & Hin%elem_of_map_to_list & Hp). simpl in *.
  destruct (members d !! i) as [m|] eqn:Em; [|done]. simpl in Hp.
  case_bool_decide as Hc; [|done]. subst c. destruct (xr_ephemeral x) eqn:Ex; [|done].
  injection Hp as <-. exists cr, m, x. simpl. split_and!; try done. by destruct (mr_email m).
Qed.

Lemma EphemeralMemberInfoByEmail_reads e c email :
  reads (voter d e c) (EphemeralMemberInfoByEmail e c email).
Proof.
  unfold EphemeralMemberInfoByEmail. eapply preserves_bind.
  { apply preserves_onErr, pg_Census_reads. }
  intros census (<- & cr & Hcr & He).
  eapply (preserves_bind _ (fun x => exists y, members d !! y.1 = Some y.2 /\ x = ToMember (scan_member y))).
  { apply preserves_onErr. unfold MemberByEmail. destruct (_ || _); [apply preserves_fail|].
    eapply preserves_bind; [apply db_select_reads|]. intros r ->. cbn zeta.
    destruct (existsb _ _); [apply preserves_fail|].
    eapply (preserves_bind _ (fun l => forall y, y ∈ l -> members d !! y.1 = Some y.2)).
    { apply preserves_ret. intros [i m] [_ [_ Hy]%list_elem_of_filter]%list_elem_of_filter.
      by apply elem_of_map_to_list in Hy. }
    intros [|y [|y' l]] Hl; [apply preserves_panic| |apply preserves_fail].
    apply preserves_ret. exists y. split; [apply Hl; left|done]. }
  intros member ([i m] & Hm & ->). simpl in Hm. eapply preserves_bind.
  { apply preserves_onErr, db_get_reads. }
  intros x Hx. apply preserves_ret. simpl in *.
  destruct (census_members d !! (i, c_ID census)) as [y|] eqn:Ey; [|done]. simpl in Hx.
  destruct (xr_ephemeral y) eqn:Ee; [|done]. injection Hx as <-.
  exists cr, m, y. simpl. split_and!; try done. by destruct (mr_email m).
Qed.
End reads.

(** ** The messages *)
Section ballots.
Context {X : Ext} {V : Env} {W : Type} {N : Node W} {P : Type} {ML : MailLib P}.
Context (host : Host World) (smtp : SMTP) (eth : option Eth) (rounds : nat).
Context (BytesToAddress : bytes -> bytes).
Abbreviation Sv := (Server W P).
#[local] Existing Instance server_db.
#[local] Existing Instance server_mail.
#[local] Instance voting_host : Host Sv := server_host host smtp eth rounds BytesToAddress.

(* the message of a voter: to its address alone, with the link that has its own
   key *)
Definition ballot (d : Db) (e c p : bytes) (mail : Email) : Prop :=
  exists info, voter d e c info /\ em_Email info <> "" /\
    ml_To mail = [Quote (S:=P) (em_FirstName info) +:+ " " +:+ Quote (S:=P) (em_LastName info)
                    +:+ " <" +:+ em_Email info +:+ ">"] /\
    shows_link (voting_link (s_config smtp) e p (default "" (em_PrivKey info))) mail.

(* the accepted messages are those of [out] and then some of [Q] *)
Definition posted (Q : Email -> Prop) (out : list Email) (s : Sv) : Prop :=
  exists new, sv_outbox s = out ++ new /\ Forall Q new.

Lemma pool_Send_posted (Q : Email -> Prop) out mail :
  Q mail -> preserves (posted Q out) anything (pool_Send (MailLib:=server_mail) mail).
Proof.
  intros HQ s (new & Hs & Hnew). split; [|done]. simpl.
  destruct (pool_Send mail (sv_pool s)) as [[u|err|err] p]; simpl; [|by exists new..].
  exists (new ++ [mail]). rewrite Hs, <- app_assoc. split; [done|].
  apply Forall_app_2; [done|by constructor].
Qed.

Lemma SendVotingLink_posted d e c p out info entity :
  voter d e c info -> e_ID entity = e ->
  preserves (posted (ballot d e c p) out) anything (host_SendVotingLink info entity p).
Proof.
  intros Hv He. cbn [host_SendVotingLink voting_host server_host].
  destruct (s_pool smtp) as [o|] eqn:Ho.
  2: { intros s Hp. destruct (no_mail_without_pool (L:=server_mail (W:=W)) smtp
         (mkMember zero_CreatedUpdated uuid_Nil "" None zero_MemberInfo) info entity p s Ho)
         as [_ [err ->]]. by split. }
  pose proof (SendVotingLink_sends (L:=server_mail (W:=W)) smtp o info entity p Ho)
    as Hs. cbn zeta in Hs. case_bool_decide as Hg.
  - destruct Hs as [err Hs]. intros s Hp. rewrite (Hs s). by split.
  - destruct Hs as (mail & Hs & Hto & _ & Htxt). intros s Hp. rewrite (Hs s).
    apply pool_Send_posted; [|done]. exists info. rewrite He in Htxt. split; [done|].
    split; [tauto|]. done.
Qed.

(* [m] leads from [I] to [O] *)
Definition leads {A} (I O : Sv -> Prop) (m : M Sv A) : Prop := forall s, I s -> O (m s).2.

Lemma leads_bind {A B} (I O : Sv -> Prop) (R : A -> Prop) (m : M Sv A) (k : A -> M Sv B) :
  (forall s, I s -> O s) -> preserves I R m -> (forall a, R a -> leads I O (k a)) ->
  leads I O (bindM m k).
Proof.
  intros HIO Hm Hk s Hs. unfold bindM. destruct (Hm s Hs) as [H1 H2].
  destruct (m s) as [[a|err|p] s']; simpl in *; [|by apply HIO..]. apply Hk; auto.
Qed.
Lemma leads_from {A} (I O : Sv -> Prop) (m : M Sv A) :
  (forall s, I s -> O s) -> preserves O anything m -> leads I O m.
Proof. intros HIO Hm s Hs. by apply (Hm s), HIO. Qed.

Lemma mapM_inv {A B} (O : Sv -> Prop) (f : A -> M Sv B) l :
  Forall (fun x => preserves O anything (f x)) l -> preserves O anything (mapM_ f l).
Proof.
  induction 1 as [|x l Hx _ IH]; simpl; [by apply preserves_ret|].
  eapply preserves_bind; [exact Hx|]. intros y _. eapply preserves_bind; [exact IH|].
  intros ys _. by apply preserves_ret.
Qed.

Lemma send_voting_links_posted d e c p out members entity :
  Forall (voter d e c) members -> e_ID entity = e ->
  preserves (posted (ballot d e c p) out) anything (send_voting_links members entity p).
Proof.
  intros Hv He. unfold send_voting_links. eapply preserves_bind.
  { apply mapM_inv. eapply Forall_impl; [exact Hv|]. intros info Hi. cbn beta.
    eapply preserves_weaken; [by apply preserves_tryM, SendVotingLink_posted|done]. }
  intros sent _. unfold run_group. eapply preserves_bind; [by apply lift_rest|].
  intros schedule _. apply readonly_preserves. cbn zeta. destruct (g_panic _); go_readonly.
Qed.

(* the handler, from a state with tables [d] and messages [out] *)
Lemma sendVotingLinks_posted d e c out request :
  PubKeyToEntityID (rq_SignaturePublicKey request) = inr e ->
  DecodeCensusID (rq_CensusID request) (rq_SignaturePublicKey request) = inr c ->
  leads (fun s => w_db (sv_world s) = d /\ sv_outbox s = out)
    (posted (ballot d e c (rq_ProcessID request)) out) (sendVotingLinks request).
Proof.
  intros He Hc. set (O := posted _ out).
  assert (HIO : forall s : Sv, w_db (sv_world s) = d /\ sv_outbox s = out -> O s).
  { intros s [_ Hs]. exists []. by rewrite Hs, app_nil_r. }
  assert (Hread : forall {A} (R : A -> Prop) m, preserves (holds (fun d' => d' = d)) R m ->
            preserves (fun s : Sv => w_db (sv_world s) = d /\ sv_outbox s = out) R (on_world m)).
  { intros A R m. by apply (lift_preserves sv_world put_world (holds (fun d' => d' = d))
      (fun s => sv_outbox s = out)). }
  assert (HD : DatabaseInv (server_db (W:=W) (P:=P)) O anything every_key) by (by apply lift_db_rest).
  unfold sendVotingLinks. destruct (_ || _); [by apply leads_from, preserves_fail|].
  eapply leads_bind; [exact HIO|apply entityOf_inv|]. intros e' He'.
  assert (e' = e) as -> by congruence. clear He'.
  eapply leads_bind; [exact HIO|by apply preserves_onErr, Hread, pg_Entity_reads|]. intros entity Hent.
  eapply (leads_bind _ _ (fun c' => c' = c)); [exact HIO| |].
  { unfold decodeCensusID. rewrite Hc. by apply preserves_onErr, preserves_ret. }
  intros ? ->. destruct (negb _).
  - eapply leads_bind; [exact HIO| |].
    { by apply preserves_onErr, Hread, pointer_preserves, EphemeralMemberInfoByEmail_reads. }
    intros info Hi. apply leads_from; [exact HIO|].
    eapply preserves_bind; [by apply deref_preserves|]. intros m Hm. specialize (Hi m Hm).
    eapply preserves_bind; [by apply preserves_onErr, SendVotingLink_posted|]. intros u _.
    by apply preserves_ret.
  - eapply leads_bind; [exact HIO| |].
    { by apply preserves_onErr, Hread, ListEphemeralMemberInfo_reads. }
    intros members Hm. apply leads_from; [exact HIO|].
    destruct (_ =? 0); [by apply preserves_ret|].
    eapply preserves_bind; [by apply send_voting_links_posted|]. intros [ids errors] _.
    eapply preserves_bind; [apply check_mails_inv|]. intros response _.
    eapply preserves_bind; [by apply (assign_tag_inv O anything)|]. intros u _.
    by apply preserves_ret.
Qed.

(** C9: Ballots reach the voters of the census and nobody else: while the
    manager API serves a sendVotingLinks message of entity [e], for a list or
    for one e-mail address and whatever fails, each message the mail server
    accepts is addressed to one member alone, who is in the ephemeral census of
    the request, a census of [e], and its text and its page have the voting
    link of that entity, the process of the request and the private key which
    the census has for that member. *)
Theorem ballots_reach_voters getHealth authorized id pk (request : APIrequest) (e c : bytes) (s : Sv) :
  rq_Method request = "sendVotingLinks" -> PubKeyToEntityID pk = inr e ->
  DecodeCensusID (rq_CensusID request) pk = inr c ->
  posted (ballot (w_db (sv_world s)) e c (rq_ProcessID request)) (sv_outbox s)
    (route (manager_api getHealth authorized) (mkSigned id request pk) s).2.
Proof.
  intros Hm He Hc.
  assert (Hin : ("sendVotingLinks", true, sendVotingLinks) ∈ manager_methods (S:=Sv)).
  { unfold manager_methods. simpl host_smtp. apply elem_of_app. right. apply elem_of_app. right.
    right. left. }
  rewrite (manager_api_serves _ _ _ _ _ id pk request s Hin Hm).
  pose proof (sendVotingLinks_posted (w_db (sv_world s)) e c (sv_outbox s)
                (setq_SignaturePublicKey pk request) He Hc s (conj eq_refl eq_refl)) as Hl.
  by destruct (sendVotingLinks _ s) as [[] s'].
Qed.
End ballots.

(** ** Witnesses: two entities, and one voter of the first *)

#[local] Existing Instance demo_ext.
#[local] Existing Instance demo_node.
#[local] Existing Instance outbox.
#[local] Instance ballots_env : Env := demo_env 1.

Definition voting_world : World := (run (OpExpandCensusMembers "e1" "C1") ephemeral_world).2.
Definition voting_server : Server Z (list Email) := mkServer voting_world (demo_faucet []) [] [].
Definition voting_request : APIrequest :=
  setq_Method "sendVotingLinks" (setq_CensusID "4331" (setq_ProcessID "p" zero_APIrequest)).

#[local] Instance ballots_db : Database (Server Z (list Email)) := server_db.
#[local] Instance ballots_host : Host (Server Z (list Email)) :=
  server_host (env_host None) demo_smtp None 1 (fun a => a).
Definition serve_manager (request : APIrequest) (pk : bytes) : Server Z (list Email) :=
  (route (manager_api (retM 90%Z) ∅) (mkSigned "7" request pk) voting_server).2.

Lemma ballots_reach_voters_witness :
  posted (ballot (P:=list Email) demo_smtp (w_db (sv_world voting_server)) "e1" "C1" "p")
    (sv_outbox voting_server)
    (route (manager_api (retM 90%Z) ∅) (mkSigned "7" voting_request "e1") voting_server).2 /\
  map ml_To (sv_outbox (serve_manager voting_request "e1"))
  = [[quoted "Ann" +:+ " " +:+ quoted "Bell" +:+ " <a@x>"]].
Proof.
  split; [|vm_compute; reflexivity].
  refine (ballots_reach_voters (env_host None) demo_smtp None 1 (fun a => a) (retM 90%Z) ∅ "7" "e1"
           voting_request "e1" "C1" voting_server eq_refl eq_refl _). vm_compute. reflexivity.
Defined.

(* sendValidationLinks is not bounded by the entity: [Members] reads the listed
   members of any entity, so the second entity has a message sent to the
   member of the first, with a link of its own *)
Lemma validation_mail_crosses_entities :
  let request := setq_Method "sendValidationLinks" (setq_MemberIDs [901%N] zero_APIrequest) in
  map ml_To (sv_outbox (serve_manager request "e2"))
  = [[quoted "Ann" +:+ " " +:+ quoted "Bell" +:+ " <a@x>"]] /\
  mr_entity_id <$> members (w_db voting_world) !! 901%N = Some "e1".
Proof. vm_compute. by split. Qed.
