(* ===== verification/Health.v ===== *)
(** * The health of the server (rpcapi/healthInfo.go)

    getHealth weighs readings of the machine in float64 and truncates. The
    arithmetic is that of IEEE 754 binary64 as the Standard Library specifies
    it (SpecFloat), the readings are the class [Machine]. *)
From S2P Require Import Prelude GoLib.
From Stdlib Require Import SpecFloat.

Abbreviation float64 := spec_float.

Definition f_add : float64 -> float64 -> float64 := SFadd 53 1024.
Definition f_sub : float64 -> float64 -> float64 := SFsub 53 1024.
Definition f_mul : float64 -> float64 -> float64 := SFmul 53 1024.
Definition f_div : float64 -> float64 -> float64 := SFdiv 53 1024.
(* float64 of an integer, rounded to nearest *)
Definition f_of_Z (z : Z) : float64 := binary_normalize 53 1024 z 0 false.
(* x > y *)
Definition f_gt (x y : float64) : bool := SFltb y x.

Definition healthMemMax : float64 := f_of_Z 100.
Definition healthLoadMax : float64 := f_of_Z 10.
Definition healthSocksMax : float64 := f_of_Z 10000.
(* the constant 0.33 *)
Definition weight : float64 := f_div (f_of_Z 33) (f_of_Z 100).

(* gopsutil; [overflow] is the conversion to int32 of what has no int32 *)
Class Machine (S : Type) := {
  VirtualMemory_UsedPercent : M S float64;
  Avg_Load15 : M S float64;
  Connections_tcp : M S nat;
  overflow : float64 -> Z;
}.

(* int32(x): truncation towards zero *)
Definition truncate (x : float64) : option Z :=
  match x with
  | S754_zero _ => Some 0%Z
  | S754_finite s m e =>
      let n := Z.shiftl (Zpos m) e in Some (if s : bool then - n else n)%Z
  | _ => None
  end.

Section health.
Context {S : Type} {K : Machine S}.

Definition f_int32 (x : float64) : Z :=
  match truncate x with
  | Some z => if in_int32 z then z else overflow x
  | None => overflow x
  end.

Definition health_of (memUsed load15 sockets : float64) : Z :=
  let memUsed := if f_gt memUsed healthMemMax then healthMemMax else memUsed in
  let load15 := if f_gt load15 healthLoadMax then healthLoadMax else load15 in
  let sockets := if f_gt sockets healthSocksMax then healthSocksMax else sockets in
  f_int32 (f_mul (f_sub (f_of_Z 1)
    (f_add (f_add (f_mul weight (f_div memUsed healthMemMax))
                  (f_mul weight (f_div load15 healthLoadMax)))
           (f_mul weight (f_div sockets healthSocksMax)))) (f_of_Z 100)).

Definition getHealth : M S Z :=
  let! memUsed := VirtualMemory_UsedPercent in
  let! load15 := Avg_Load15 in
  let! n := Connections_tcp in
  let result := health_of memUsed load15 (f_of_Z (Z.of_nat n)) in
  fail_if! (result <? 0)%Z || (100 <=? result)%Z
    with Errorf ("expected health to be between 0 and 99: " +:+ decimal result) in
  retM result.

(* the health the API tells is between 0 and 99, or an error. A machine at
    or over the three maxima has health 1, since the weights only add up to
    0.99; one with nothing in use has no health but an error, since 100 is not
    below 100. *)
Lemma getHealth_bounds (s s1 s2 s3 : S) (memUsed load15 : float64) (n : nat) :
  VirtualMemory_UsedPercent s = (Ok memUsed, s1) -> Avg_Load15 s1 = (Ok load15, s2) ->
  Connections_tcp s2 = (Ok n, s3) ->
  (forall h, (getHealth s).1 = Ok h -> (0 <= h < 100)%Z) /\
  (f_gt memUsed healthMemMax = true -> f_gt load15 healthLoadMax = true ->
   f_gt (f_of_Z (Z.of_nat n)) healthSocksMax = true -> getHealth s = (Ok 1%Z, s3)) /\
  (memUsed = f_of_Z 0 -> load15 = f_of_Z 0 -> n = 0 ->
   getHealth s = (Err (Errorf "expected health to be between 0 and 99: 100"), s3)).
Proof.
  intros H1 H2 H3. unfold getHealth, bindM. rewrite H1, H2, H3.
  split_and!.
  - intros h. destruct (_ || _) eqn:E; [done|]. apply orb_false_iff in E as [E1 E2].
    intros [= <-]. apply Z.ltb_ge in E1. apply Z.leb_gt in E2. lia.
  - intros Hm Hl Hs. unfold health_of. rewrite Hm, Hl, Hs. vm_compute. reflexivity.
  - intros -> -> ->. vm_compute. reflexivity.
Qed.
End health.

(** ** Witness *)

(* the readings of an idle machine, and of a busy one *)
Definition demo_machine (mem load n : Z) : Machine unit := {|
  VirtualMemory_UsedPercent := retM (f_of_Z mem);
  Avg_Load15 := retM (f_of_Z load);
  Connections_tcp := retM (Z.to_nat n);
  overflow := fun _ => 0%Z;
|}.

Lemma getHealth_bounds_witness :
  (getHealth (K:=demo_machine 100 12 10001) tt).1 = Ok 1%Z /\
  (getHealth (K:=demo_machine 50 1 100) tt).1 = Ok 79%Z /\
  exists e, (getHealth (K:=demo_machine 0 0 0) tt).1 = Err e.
Proof.
  split; [vm_compute; reflexivity|]. split; [vm_compute; reflexivity|].
  destruct (getHealth_bounds (K:=demo_machine 0 0 0) tt tt tt tt (f_of_Z 0) (f_of_Z 0) 0
              eq_refl eq_refl eq_refl) as (_ & _ & H).
  rewrite (H eq_refl eq_refl eq_refl). eexists. reflexivity.
Defined.
