(* ===== verification/Startup.v ===== *)
(** * Start-up (cmd/dvotemanager/dvotemanager.go)

    newConfig and the main function: what is read, checked and written, in
    which order, before the manager API is served. The system (home directory,
    command line, environment, files), the log, the HTTP router and the
    Ethereum client are the class [StartupHost]; viper's decoding is the class
    [Viper] of Configuration. *)
From S2P Require Import Prelude GoLib Ext Ddl Migrations Html EthClient Smtp Configuration.

(* strings.Trim *)
Fixpoint trim_left (cutset : list ascii) (s : string) : string :=
  match s with
  | "" => ""
  | String a t => if bool_decide (a ∈ cutset) then trim_left cutset t else s
  end.
Fixpoint trim_right (cutset : list ascii) (s : string) : string :=
  match s with
  | "" => ""
  | String a t => match trim_right cutset t with
                  | "" => if bool_decide (a ∈ cutset) then "" else String a ""
                  | t => String a t
                  end
  end.
Definition Trim (s : string) (cutset : list ascii) : string := trim_right cutset (trim_left cutset s).

(* the quote and the brackets viper leaves around the keys *)
Definition key_cutset : list ascii := [ascii_of_nat 34; "["%char; "]"%char].

Class StartupHost (S : Type) := {
  h_UserHomeDir : M S string;
  (* flag.Parse: the flags of the command line, by name, for these flags (a
     command line that is wrong ends the process) *)
  h_Parse : list (string * Value) -> M S (string -> option Value);
  h_Environ : M S (string -> option string);
  (* os.IsNotExist of the error of os.Stat *)
  h_IsNotExist : string -> M S bool;
  h_MkdirAll : string -> M S unit;
  (* viper's: the file is dvotemanager.yml in the directory, what is written
     are the settings *)
  h_SafeWriteConfig : string -> Settings -> M S unit;
  h_ReadInConfig : string -> M S (string -> option Value);
  h_WriteConfig : string -> Settings -> M S unit;
  (* NewSignKeys, Generate, HexString *)
  h_Generate : M S string;
  h_SetFileErrorLog : string -> M S unit;
  h_AddHexKey : string -> M S unit;
  h_router_Init : string -> Z -> M S unit;
  (* sqlx.Open, its Conn within five seconds, time.Sleep of two seconds *)
  h_Open : string -> M S unit;
  h_Conn : M S unit;
  h_Sleep : M S unit;
  h_ethclient_New : EthNetwork -> list string -> M S unit;
  h_BalanceAt : M S Z;
  h_NewManager : string -> M S unit;
  h_EnableAPI : M S unit;
}.

(* how the process ends, or the APIs it serves until it is interrupted *)
Inductive Exit := Fatal (msg : string) | Migrated | Serving (apis : list string).

Section startup.
Context {S : Type} {L : SqlMigrate S} {ML : MailLib S} {SH : StartupHost S} {VP : Viper}.

(* the configuration file: what viper knows after it was read or created, and
   the message of config.Error so far *)
Definition config_file (dir : string) (v : Settings) : M S (Settings * string) :=
  let! missing := h_IsNotExist (dir +:+ "/dvotemanager.yml") in
  if missing : bool then
    let! made := tryM (h_MkdirAll dir) in
    let msg := match made with
               | inl err => "cannot create data directory: " +:+ error_string err
               | inr _ => "creating new config file in " +:+ dir
               end in
    let! written := tryM (h_SafeWriteConfig dir v) in
    retM (v, match written with
             | inl err => "cannot write config file into config dir: " +:+ error_string err
             | inr _ => msg
             end)
  else
    let! read := tryM (h_ReadInConfig dir) in
    match read with
    | inl err => retM (v, "cannot read loaded config file in " +:+ dir +:+ ": " +:+ error_string err)
    | inr file => retM (with_file file v, "")
    end.

(* the signing keys, and the file again when the configuration is to be saved *)
Definition finish_config (dir : string) (v : Settings) (cfg : Config) (err : option gerror)
    (msg : string) : M S (option Config * (bool * string)) :=
  match cf_SigningKeys cfg with
  | [] =>
      let! _ := h_Generate in
      (* the error that is checked is still that of Unmarshal *)
      match err with
      | Some err => retM (Some cfg, (false, "cannot generate signing key: " +:+ error_string err))
      (* cfg.SigningKeys[0] = priv, on the empty slice *)
      | None => panicM "runtime error: index out of range [0] with length 0"
      end
  | _ =>
      if cf_SaveConfig cfg then
        let! r := tryM (h_WriteConfig dir (with_set "saveConfig" (VBool false) v)) in
        match r with
        | inl err => retM (Some cfg,
            (false, "cannot overwrite config file into config dir: " +:+ error_string err))
        | inr _ => retM (Some cfg, (false, msg))
        end
      else retM (Some cfg, (false, msg))
  end.

(* config.Error: whether it is critical, and its message *)
Definition newConfig : M S (option Config * (bool * string)) :=
  let! home := tryM h_UserHomeDir in
  match home with
  | inl err => retM (None, (true, "cannot get user home directory with error: " +:+ error_string err))
  | inr home =>
      let! changed := h_Parse (flags home) in
      let! environ := h_Environ in
      let dir := data_dir home changed in
      let! opened := config_file dir (settings home changed environ) in
      let '(v, msg) := opened in
      let '(cfg, err) := viper_Unmarshal v (assigned_config home changed) in
      let msg := match err with
                 | Some err => "cannot unmarshal loaded config file: " +:+ error_string err
                 | None => msg
                 end in
      finish_config dir v cfg err msg
  end.

(* pgsql.New: what the driver is given *)
Definition data_source (dbc : DBConfig) : string :=
  "host=" +:+ dc_Host dbc +:+ " port=" +:+ decimal (dc_Port dbc) +:+ " user=" +:+ dc_User dbc +:+
  " password=" +:+ dc_Password dbc +:+ " dbname=" +:+ dc_Dbname dbc +:+
  " sslmode=" +:+ dc_Sslmode dbc +:+ " client_encoding=" +:+ "UTF8".

Definition connectionRetries : nat := 5.
(* the connection is dropped, not closed; the error is that of the last attempt *)
Fixpoint try_connect (attempts : nat) (err : option gerror) : M S (option gerror) :=
  match attempts with
  | 0 => retM err
  | Datatypes.S attempts =>
      let! r := tryM h_Conn in
      match r with
      | inr _ => retM None
      | inl err =>
          let! _ := h_Sleep in
          try_connect attempts (Some err)
      end
  end.
Definition pgsql_New (dbc : DBConfig) : M S unit :=
  let! _ := onErr (h_Open (data_source dbc))
    (Wrapf "error initializing postgres connection handler: ") in
  let! err := try_connect connectionRetries None in
  match err with Some err => failM err | None => retM tt end.

(* log.Fatal ends the process *)
Definition orFatal {A} (m : M S A) (k : A -> M S Exit) : M S Exit :=
  let! r := tryM m in
  match r with inl err => retM (Fatal (error_string err)) | inr a => k a end.

(* the manager API is the only one main enables *)
Definition enable (cfg : Config) : M S Exit :=
  if bool_decide (cf_Mode cfg = "manager" \/ cf_Mode cfg = "all") then
    orFatal (h_NewManager (ac_Route (cf_API cfg))) (fun _ => orFatal h_EnableAPI (fun _ => retM (Serving ["manager"])))
  else retM (Serving []).

Definition connect (cfg : Config) (keys : list string) : M S Exit :=
  if bool_decide (en_Name (cf_EthNetwork cfg) = "") then enable cfg else
  (* Fatalf does not know the verb %w of its format: what it prints for the
     error is left out *)
  orFatal (onErr (h_ethclient_New (cf_EthNetwork cfg) keys) (fun _ => Errorf "cannot connect to ethereum endpoint: "))
    (fun _ =>
    (* a balance that cannot be read is logged *)
    let! _ := tryM h_BalanceAt in
    enable cfg).

(* from the database on *)
Definition serve_database (cfg : Config) (keys : list string) : M S Exit :=
  if bool_decide (cf_Migrate_Action cfg <> "") then
    orFatal (Migrator (cf_Migrate_Action cfg)) (fun _ => retM Migrated)
  else
    orFatal (Migrator "upSync") (fun _ =>
    orFatal (liftE (StartPool (New (cf_SMTP cfg)))) (fun _ =>
    connect cfg keys)).

Definition main : M S Exit :=
  let! configured := newConfig in
  let '(cfg, (critical, msg)) := configured in
  if critical : bool then panicM msg else
  match cfg with
  | None => panicM "cannot read configuration"
  | Some cfg =>
      let logged := if bool_decide (cf_LogErrorFile cfg = "") then retM tt
                    else h_SetFileErrorLog (cf_LogErrorFile cfg) in
      orFatal logged (fun _ =>
      if negb (ValidMode cfg) then retM (Fatal ("invalid mode " +:+ cf_Mode cfg)) else
      let keys := map (fun key => Trim key key_cutset) (cf_SigningKeys cfg) in
      match keys with
      | [] => panicM "runtime error: index out of range [0] with length 0"
      | key :: _ =>
          orFatal (h_AddHexKey key) (fun _ =>
          orFatal (h_router_Init (ac_ListenHost (cf_API cfg)) (ac_ListenPort (cf_API cfg))) (fun _ =>
          orFatal (pgsql_New (cf_DB cfg)) (fun _ =>
          serve_database cfg keys)))
      end)
  end.
End startup.

(** ** Lemmas *)

(* the steps that have nothing to do with migrations leave their records alone *)
Record startup_keeps {S} (SH : StartupHost S) (ids : S -> list string) : Prop := {
  keeps_ethclient n l : keeps ids (h_ethclient_New n l);
  keeps_BalanceAt : keeps ids h_BalanceAt;
  keeps_NewManager r : keeps ids (h_NewManager r);
  keeps_EnableAPI : keeps ids h_EnableAPI;
}.

Section lemmas.
Context {S : Type} {L : SqlMigrate S} {ML : MailLib S} {SH : StartupHost S}.

Lemma orFatal_ok {A} (m : M S A) k s x s' :
  orFatal m k s = (Ok x, s') ->
  (exists a s1, m s = (Ok a, s1) /\ k a s1 = (Ok x, s')) \/
  (exists e, m s = (Err e, s') /\ x = Fatal (error_string e)).
Proof.
  unfold orFatal, bindM, tryM. destruct (m s) as [[a|e|p] s1]; [eauto|intros [= <- <-]; eauto|done].
Qed.

(* the error New returns is that of an attempt to connect *)
Lemma try_connect_error n err e s s' :
  try_connect n err s = (Ok (Some e), s') -> err = Some e \/ exists s0 s1, h_Conn s0 = (Err e, s1).
Proof.
  revert err s. induction n as [|n IH]; intros err s; simpl; [intros [= -> _]; by left|].
  unfold bindM at 1, tryM. destruct (h_Conn s) as [[u|e'|p] s1] eqn:E; [done| |done].
  intros ([] & s2 & _ & [[= ->]|H]%IH)%bind_ok; right; eauto.
Qed.

(* what is written does not change what viper knows *)
Lemma config_file_ok dir v s v' msg s' :
  config_file dir v s = (Ok (v', msg), s') -> st_file v = (fun _ => None) ->
  exists file, v' = with_file file v.
Proof.
  intros ([] & s1 & _ & H)%bind_ok Hv; apply bind_ok in H as (r & s2 & _ & H).
  - apply bind_ok in H as (r' & s3 & _ & [= <- _ _]). exists (fun _ => None).
    unfold with_file. rewrite <- Hv. by destruct v.
  - destruct r; injection H as <- _ _; [|by eexists]. exists (fun _ => None).
    unfold with_file. rewrite <- Hv. by destruct v.
Qed.

Lemma finish_config_ok dir v cfg err msg s cfg' e s' :
  finish_config dir v cfg err msg s = (Ok (Some cfg', e), s') -> cfg' = cfg.
Proof.
  unfold finish_config. destruct (cf_SigningKeys cfg).
  - intros (k & s1 & _ & H)%bind_ok. by destruct err; [injection H as ->|].
  - destruct (cf_SaveConfig cfg); [|by intros [= ->]].
    intros (r & s1 & _ & H)%bind_ok. by destruct r; injection H as ->.
Qed.

Context {ids : S -> list string} {HL : SqlMigrateLaws L ids} {HK : startup_keeps SH ids}.

Lemma enable_ok cfg s apis s' :
  enable cfg s = (Ok (Serving apis), s') ->
  ids s' = ids s /\
  apis = (if bool_decide (cf_Mode cfg = "manager" \/ cf_Mode cfg = "all") then ["manager"] else []).
Proof.
  unfold enable. case_bool_decide; [|by intros [= <- <-]].
  intros [(u & s1 & H1 & H2)|(e & _ & [=])]%orFatal_ok.
  apply orFatal_ok in H2 as [(u' & s2 & H2 & [= <- <-])|(e & _ & [=])].
  pose proof (keeps_NewManager _ _ HK (ac_Route (cf_API cfg)) s) as K1. pose proof (keeps_EnableAPI _ _ HK s1) as K2.
  rewrite H1 in K1. rewrite H2 in K2. simpl in *. split; [congruence|done].
Qed.

Lemma connect_ok cfg keys s apis s' :
  connect cfg keys s = (Ok (Serving apis), s') ->
  ids s' = ids s /\
  apis = (if bool_decide (cf_Mode cfg = "manager" \/ cf_Mode cfg = "all") then ["manager"] else []).
Proof.
  unfold connect. case_bool_decide; [apply enable_ok|].
  intros [(u & s1 & H1%onErr_ok & H2)|(e & _ & [=])]%orFatal_ok.
  pose proof (keeps_ethclient _ _ HK (cf_EthNetwork cfg) keys s) as K1. rewrite H1 in K1. simpl in K1. rewrite <- K1.
  revert H2. unfold bindM, tryM. pose proof (keeps_BalanceAt _ _ HK s1) as K2.
  destruct (h_BalanceAt s1) as [[b|e|p] s2]; simpl in *; [rewrite <- K2; apply enable_ok..|done].
Qed.

End lemmas.

(** ** Properties *)
Section properties.
Context {S : Type} {L : SqlMigrate S} {ML : MailLib S} {SH : StartupHost S} {VP : Viper}.

(** C16: The server only serves a migrated database: when main gets to serving,
    the configuration it loaded has a known mode, signing keys and no migration
    action, the e-mail pool could be started and every migration is applied;
    and what is served is the manager API for the modes "manager" and "all",
    and nothing for the others. *)
Theorem main_serves (ids : S -> list string) (s s' : S) (apis : list string) :
  SqlMigrateLaws L ids -> startup_keeps SH ids ->
  main s = (Ok (Serving apis), s') ->
  exists cfg msg s1 smtp, newConfig s = (Ok (Some cfg, (false, msg)), s1) /\
    cf_Mode cfg ∈ Modes /\ cf_SigningKeys cfg <> [] /\ cf_Migrate_Action cfg = "" /\
    StartPool (New (cf_SMTP cfg)) = inr smtp /\
    length (ids s') = length Migrations /\
    apis = (if bool_decide (cf_Mode cfg = "manager" \/ cf_Mode cfg = "all") then ["manager"] else []).
Proof.
  intros HL HK. unfold main. intros ([cfg [critical msg]] & s1 & H1 & H)%bind_ok.
  destruct critical; [done|]. destruct cfg as [cfg|]; [|done].
  apply orFatal_ok in H as [(u & s2 & _ & H)|(e & _ & [=])].
  destruct (ValidMode cfg) eqn:Em; [|done]. apply bool_decide_eq_true in Em. simpl in H.
  destruct (cf_SigningKeys cfg) as [|k ks] eqn:Ek; [done|]. cbn [map] in H.
  set (keys := Trim k key_cutset :: _) in H.
  apply orFatal_ok in H as [(u2 & s3 & _ & H)|(e & _ & [=])].
  apply orFatal_ok in H as [(u3 & s4 & _ & H)|(e & _ & [=])].
  apply orFatal_ok in H as [(u4 & s5 & _ & H)|(e & _ & [=])].
  unfold serve_database in H. case_bool_decide as Ha.
  { apply orFatal_ok in H as [(u5 & s6 & _ & [=])|(e & _ & [=])]. }
  apply orFatal_ok in H as [([] & s6 & H6 & H)|(e & _ & [=])].
  apply orFatal_ok in H as [(smtp & s7 & H7 & H)|(e & _ & [=])].
  apply (connect_ok (ids:=ids) (HK:=HK)) in H as [Hi Happs].
  assert (Hs : StartPool (New (cf_SMTP cfg)) = inr smtp /\ s7 = s6).
  { revert H7. unfold liftE. destruct (StartPool _); [done|]. by intros [= -> ->]. }
  destruct Hs as [Hs ->]. exists cfg, msg, s1, smtp.
  rewrite Ek. split_and!; try done. rewrite Hi. by apply (Migrator_upSync_action (ids:=ids)) in H6.
Qed.

(* where each setting comes from: once newConfig returns a configuration,
    every field that has a flag (lists apart) has the value of the first
    of these that gives one: the command line, the environment variable of its
    key, the configuration file, the default of the flag. A variable of the
    environment is text, so it says nothing there of the numeric and boolean
    settings; the order itself is viper's ([ViperLaws]). The directory of the
    certificates is inside the data directory of the command line. The mode and
    saveConfig are not bound to theirs: neither the command line nor, without the file,
    the environment can change them. *)
Lemma config_precedence (s s1 s2 s3 s' : S) home changed environ cfg e :
  ViperLaws VP ->
  h_UserHomeDir s = (Ok home, s1) -> h_Parse (flags home) s1 = (Ok changed, s2) ->
  h_Environ s2 = (Ok environ, s3) -> newConfig s = (Ok (Some cfg, e), s') ->
  exists v msg s4,
    config_file (data_dir home changed) (settings home changed environ) s3 = (Ok (v, msg), s4) /\
    (forall path flag field x, (path, flag) ∈ field_flags -> path ∉ unbound_fields ->
       (path, field) ∈ fields -> preferred changed environ (st_file v) home path flag = Some x ->
       kind_of x = kind_of (field NewManagerConfig) -> kind_of x <> KStrings -> field cfg = x) /\
    ac_Ssl_DirCert (cf_API cfg) = data_dir home changed +:+ "/tls" /\
    (st_file v "mode" = None -> cf_Mode cfg = "all") /\
    (st_file v "saveconfig" = None -> cf_SaveConfig cfg = false).
Proof.
  intros HV H1 H2 H3. unfold newConfig. unfold bindM at 1, tryM. rewrite H1. unfold bindM at 1.
  rewrite H2. unfold bindM at 1. rewrite H3. intros ([v msg] & s4 & H4 & H)%bind_ok.
  exists v, msg, s4. split; [done|]. apply config_file_ok in H4 as [file ->]; [|done].
  cbn [st_file with_file].
  destruct (viper_Unmarshal _ _) as [cfg' err] eqn:Eu. apply finish_config_ok in H as ->.
  split_and!.
  - intros path flag field x Hp Hn Hf Hx Hk Hs.
    destruct (flags_bound path flag Hp Hn) as (key & Hb & Hlow).
    rewrite <- (bound_source home changed environ file key flag path Hb Hlow) in Hx.
    pose proof (unmarshal_taken _ HV _ (assigned_config home changed) _ _ _ Hf Hx) as Ht.
    rewrite Eu in Ht. apply Ht; [|done]. rewrite Hk. by apply (field_kind path).
  - pose proof (unmarshal_taken _ HV (with_file file (settings home changed environ))
      (assigned_config home changed) "API.Ssl.DirCert" (field_of "API.Ssl.DirCert")) as Ht.
    rewrite Eu in Ht. specialize (Ht (VString (data_dir home changed +:+ "/tls"))
      ltac:(apply field_of_in; by eexists) eq_refl eq_refl ltac:(done)). by injection Ht.
  - intros Hf. pose proof (unmarshal_kept _ HV (with_file file (settings home changed environ))
      (assigned_config home changed) "Mode" (field_of "Mode")) as Ht.
    rewrite Eu in Ht. specialize (Ht ltac:(apply field_of_in; by eexists)
      (unbound_source home changed environ "Mode" eq_refl ltac:(done) file Hf)). by injection Ht.
  - intros Hf. pose proof (unmarshal_kept _ HV (with_file file (settings home changed environ))
      (assigned_config home changed) "SaveConfig" (field_of "SaveConfig")) as Ht.
    rewrite Eu in Ht. specialize (Ht ltac:(apply field_of_in; by eexists)
      (unbound_source home changed environ "SaveConfig" eq_refl ltac:(done) file Hf)). by injection Ht.
Qed.

(* A server without a signing key cannot start: the key newConfig
    generates is assigned to the first element of the empty slice of keys, and
    the process ends in a panic. *)
Lemma main_without_keys dir v cfg msg (s s' : S) key :
  cf_SigningKeys cfg = [] -> h_Generate s = (Ok key, s') ->
  exists p, finish_config dir v cfg None msg s = (Panic p, s').
Proof. intros Hk Hg. unfold finish_config, bindM. rewrite Hk, Hg. by eexists. Qed.
End properties.

(** ** Witnesses: a first start on an empty database *)

#[local] Instance demo_mail : MailLib Memory := {|
  pool_New := fun o => inr tt;
  pool_Send := fun e st => (Ok tt, st);
  Quote := quoted;
|}.
(* the flags of the command line and the settings of a file *)
Definition demo_startup (changed file : list (string * Value)) : StartupHost Memory := {|
  h_UserHomeDir := retM "/home"; h_Parse := fun _ => retM (named changed);
  h_Environ := retM (named [("DVOTE_DB_HOST", "postgres"); ("DVOTE_MODE", "token")]);
  h_IsNotExist := fun _ => retM (bool_decide (file = [])); h_MkdirAll := fun _ => retM tt;
  h_SafeWriteConfig := fun _ _ => retM tt; h_ReadInConfig := fun _ => retM (named file);
  h_WriteConfig := fun _ _ => retM tt; h_Generate := retM "priv";
  h_SetFileErrorLog := fun _ => retM tt; h_AddHexKey := fun _ => retM tt;
  h_router_Init := fun _ _ => retM tt; h_Open := fun _ => retM tt;
  h_Conn := retM tt; h_Sleep := retM tt;
  h_ethclient_New := fun _ _ => retM tt; h_BalanceAt := retM 0%Z;
  h_NewManager := fun _ => retM tt; h_EnableAPI := retM tt;
|}.
#[local] Existing Instance demo_viper.
Definition demo_flags : list (string * Value) :=
  [("signingKeys", VStrings ["k"]); ("dbPort", VInt 5433); ("mode", VString "registry")].

Lemma main_serves_witness :
  let run file := main (L:=memory_migrate) (SH:=demo_startup demo_flags file) (empty_catalog, []) in
  (run []).1 = Ok (Serving ["manager"]) /\ (run [("mode", VString "registry")]).1 = Ok (Serving []) /\
  length (run []).2.2 = 7.
Proof.
  intros run. assert (Ha : (run []).1 = Ok (Serving ["manager"])) by (vm_compute; reflexivity).
  split; [exact Ha|]. split; [vm_compute; reflexivity|].
  destruct (main_serves (SH:=demo_startup demo_flags []) snd (empty_catalog, [])
    (run []).2 ["manager"] memory_laws) as (cfg & msg & s1 & smtp & _ & _ & _ & _ & _ & Hl & _).
  - split; intros; by intros ?.
  - apply (ran (main (SH:=demo_startup demo_flags []))). exact Ha.
  - exact Hl.
Defined.

(* the flag wins for the port, the environment for the host, the default for the
   user; the mode is neither that of the flag nor that of the environment *)
